(* ===== verification/_CoqProject ===== *)
-Q . S2P
Prelude.v
GoStd.v
Host.v
PciSysfs.v
Device.v
Sriov.v
Discovery.v
Vfio.v
Inventory.v
Steady.v
Validate.v
RsdGroup.v
Claim.v
Fs.v
Json.v
Url.v
Flags.v
Health.v
Metadata.v
MetadataProps.v
Rollback.v
Cdi.v
Checkpoint.v
Scan.v
Prepare.v
PrepareProps.v
PrepareRuns.v
Lifecycle.v
LifecycleProps.v
Cleanup.v
ScanProps.v
Driver.v
Shutdown.v
DriverProps.v
Interleave.v
Time.v
Converge.v
Durable.v
Concurrent.v
Plugin.v
Agent.v
Runs.v
Logging.v
Regexp.v
Glog.v
Webhook.v
Cli.v
CliRuns.v
