(* ===== verification/Prelude.v ===== *)
(** * The Rebellions NPU DRA driver: a verified model

    The repository holds a Kubernetes Dynamic Resource Allocation driver: a node
    agent (cmd/npu-kubelet-plugin) that discovers NPUs, publishes them and
    prepares them for the containers and virtual machines they were allocated
    to, an admission webhook (cmd/webhook), and the logging both share
    (pkg/logging). This library models that Go code in Gallina, one definition
    per function, and proves what it promises.

    ** How Go is modelled

    A function that fails is a [res] (Ok or Err, errors as values of [err] with
    their %w chains); one with effects is a state-passing computation [M S A] of
    this file, whose state remains when it fails, as in Go; [let!] is a call
    whose error is returned, [let?] one whose error is looked at. Loops are
    structural recursions, but for the wait for a device node (52 polls: 51
    sleeps of 100 ms exceed the 5 s deadline; [waitForDeviceNode_terminates])
    and the stderr relay (one turn per byte of input is enough). Integers are Z
    with their 64-bit limits where the code parses or negates them. A panic on a
    nil pointer is an error value of its own.

    What the code does not control is a parameter that may answer differently at
    every instant ([clk] counts the calls made): the kernel's view of sysfs and
    of the clock (class Host), rbln-smi (Smi), the RSD library and command
    (RsdEnv), the kubelet-plugin helper (Helper), the ports and the sockets of the
    health check (Network, Sockets), the failures of file-system writes (Faults: a
    call may fail half-way). Libraries with a contract are classes with their
    documented laws and a concrete instance in Runs.v or CliRuns.v: the CDI
    library and cache (CdiLib, CdiCache), the checkpoint codec and manager
    (CheckpointCodec, CheckpointManager), the command line (UrfaveCli, CliEnv),
    the API clients (ClientGo), the API machinery of the webhook (ApiMachinery).
    So is the server of the health checks (GrpcServer, with its instance in
    Shutdown.v).

    ** Files

    - Prelude.v, GoStd.v, Host.v, Fs.v, Json.v, Url.v, Regexp.v: the monad and its
      reasoning principles; errors, strings, strconv, filepath; the observed
      machine; the written file tree; encoding/json; net/url; regexp.
    - PciSysfs.v, Sriov.v, Device.v, Discovery.v, Vfio.v, Inventory.v: pci_sysfs.go,
      sriov.go, vfio.go and the enumeration half of state.go and scan.go.
    - Scan.v, ScanProps.v, Steady.v: DeviceState, rebuildResources, the
      discovery of NewDeviceState and RescanDevices; their properties, and what
      an unchanging machine does to them.
    - Validate.v, RsdGroup.v: validate_device.go and rsd_group.go.
    - Claim.v, Metadata.v, MetadataProps.v, Rollback.v: claims and
      kubevirt_metadata.go.
    - Cdi.v, Checkpoint.v: cdi.go; checkpoint.go and types.go.
    - Prepare.v, PrepareProps.v, PrepareRuns.v, Lifecycle.v, LifecycleProps.v,
      Cleanup.v: Prepare, Unprepare and NewDeviceState of state.go; the lemmas on
      their steps, one constructor per way they end, and the theorems.
    - Flags.v, Health.v: the settings and the API clients of pkg/flags; the start
      of the health service of health.go.
    - Driver.v, DriverProps.v: driver.go and health.go; batches and the health
      verdict.
    - Shutdown.v: the calls of Shutdown and Stop, one after the other, against the
      gRPC server, the goroutine that calls its Serve, the checks that still run,
      and everything else.
    - Interleave.v, Time.v, Converge.v: the start, the scan loop and the locked
      parts of requests interleaved; every step makes its calls after those
      before it; the loop on a machine that settles.
    - Concurrent.v: the request handlers as goroutines that overlap.
    - Durable.v: the process killed at any point of a request, started again, and
      what a prepared claim keeps.
    - Plugin.v, Agent.v: RunPlugin of main.go; the whole life of the process around
      the driver's steps.
    - Runs.v: a concrete node, and the theorems applied to runs on it.
    - Cli.v, CliRuns.v: the functions newApp and main of both commands; a run of
      the node agent from its environment to its end.
    - Logging.v, Glog.v: logging.go with the rewriting part of log/slog; glog.go
      and grpclog.go.
    - Webhook.v: the webhook's main.go and resource.go.

    ** How the parts interact

    Discovery reads sysfs and rbln-smi and fills the table of [DeviceState]
    ([rebuildResources]); Prepare reads that table, validates each device again
    ([checkResult]), makes an RSD group ([prepareRSD]), waits for device nodes,
    writes the metadata, the CDI spec and the checkpoint, in that order, and
    rolls the metadata back on failure ([or_rollback]); Unprepare undoes it.
    [DeviceState]'s lock makes Prepare, Unprepare and the commit of a scan
    atomic, so Interleave.v cuts a tick where the lock is free: reading sysfs,
    reading the native devices, committing, publishing; Prepare, Unprepare,
    records, registration, errors and health checks come in between. The
    handlers of driver.go call Prepare or Unprepare for one claim after the
    other, without the lock in between: Concurrent.v runs any number of them,
    and each of its steps is made of steps of Interleave.v, so that what holds
    in all interleavings holds there. What is on disk outlives the process:
    Durable.v cuts Prepare and Unprepare between any two of their writes, where a
    kill may come (to one of them at most, since they exclude each other), and
    goes on with a new start.
    main reads the settings, makes the clients and calls RunPlugin, which starts
    the driver ([startDriver]: the state, the helper, the health service), waits
    for the end of its context and shuts down; Shutdown ends the health service
    first, because its checks call the helper ([shutdownActions] lists its calls,
    [perform] what each leaves behind; their waiting is in Shutdown.v).

    ** Theorems

    - Claims: what a prepared claim gives its container, exactly, the nodes of the
      RDS spec read in that call included, and which group its devices are in;
      the checkpoint as a transaction; preparing twice; complete and isolated
      removal; where file-system calls do not fail, a failed preparation leaves no
      metadata it wrote, and a claim's whole life no trace; the spec a failed
      checkpoint write leaves; the polls of the wait for a device node.
    - Discovery: every entry gets a verdict, in order: published with a justified
      identity, or skipped for a reason seen during the scan; no function twice
      after a scan; a failed scan keeps the inventory; an unreadable known
      function fails the scan; once the machine has settled, a scan brings the
      inventory to it, one attempt publishes it and later ticks change nothing,
      whatever requests come in between; the log reports each streak of failures
      once, and its end, a native failure at start-up being the first of one (a
      failure of sysfs there is not).
    - Driver: every interleaving publishes the current inventory, the one of the
      start or of one scan, never a mix of two; overlapping requests are served
      as if one at a time, and their answers stay true; the scan loop and the two
      handlers as written are such runs; batches are answered claim by claim; a
      restart keeps the claims; a prepared claim keeps its checkpoint entry, spec
      and metadata through all requests for others, kills, failed starts and
      restarts, until its Unprepare; health and readiness follow the sockets and
      the kubelet.
    - Life: which settings main takes from its environment and how it exits; where
      the health service listens and whom it calls; the shutdown ends, the helper
      stopped only when no check runs and the goroutine is over; RunPlugin fails
      before it is published or runs through states the interleavings reach, and
      leaves nothing open.
    - Files: what metadata files hold, removal by owner only, the torn marker;
      the checkpoint's round trip.
    - Logging: settings and klog's verbosity agree; the shape of every record;
      the relay is a map over lines; glog's headers survive it.
    - Webhook: every request is answered, with the right status and verdict.

    Theorems whose name ends in _witness apply another to a concrete input.

    ** Not modelled

    The inside of kubeletplugin.Start, of the TLS server, of gRPC, of client-go and
    of the parsing of arguments: libraries, which are parameters with the results
    the code looks at. FromContext and WithValues of logging.go, which hand
    loggers through klog and logr: the driver's own records are given by level
    and message, without their attributes and before the gate of the level.
    internal/logtest and the tests. Strings are bytes; ToLower and TrimSpace treat
    ASCII only, which is all sysfs, addresses and claims hold.

    ** Open

    Each of the two reads of a tick, and in Interleave.v each health check, is one
    step: what comes between two of its calls changes neither what it reads,
    which the machine decides, nor what it leaves, but is not stepped through
    (Shutdown.v does step through the calls of a check). Agent.v takes
    the shutdown as the sequence of calls that Shutdown.v proves it comes to,
    whatever runs beside it. *)
From Stdlib Require Export Ascii.
From stdpp Require Export base tactics list strings gmap fin_maps.
From Stdlib Require Export ZArith Lia.

(** ** Errors and results *)

(** The errno values the code distinguishes, and the rest. *)
Inductive errno :=
  | ENOENT | EIO | EACCES | ENOTDIR | EEXIST | ENOSPC | ENODEV
  | EOTHER (code : Z).

(** The sentinel errors that are compared with [errors.Is]. *)
Inductive sentinel :=
  | ErrUnsupportedDevice   (* sriov.go: errUnsupportedDevice *)
  | ErrNotFoundInPath      (* exec.ErrNotFound *)
  | ErrSyntax | ErrRange.  (* strconv *)

(** A Go [error] value: a [*fs.PathError], a sentinel, the error of
    [errors.New]/[fmt.Errorf] without a verb %w, or an error that wraps another
    one ([fmt.Errorf] with %w) between two pieces of text. *)
Inductive err :=
  | ErrPath (op path : string) (no : errno)
  | ErrSentinel (s : sentinel)
  | ErrText (msg : string)
  | ErrWrap (before : string) (inner : err) (after : string).

Inductive res (A : Type) :=
  | Ok (a : A)
  | Err (e : err).
Arguments Ok {A} a.
Arguments Err {A} e.

(** ** The state and error monad *)

(** A Go function that may fail, run in a state [S]: the state is kept on
    failure, since a returned error undoes nothing. *)
Definition M (S A : Type) : Type := S -> S * res A.

Definition ret {S A} (a : A) : M S A := fun s => (s, Ok a).
Definition throw {S A} (e : err) : M S A := fun s => (s, Err e).
Definition bind {S A B} (m : M S A) (k : A -> M S B) : M S B := fun s =>
  match m s with
  | (s', Ok a) => k a s'
  | (s', Err e) => (s', Err e)
  end.

(** [v, err := m]: the caller looks at the error itself. *)
Definition try {S A} (m : M S A) : M S (res A) := fun s =>
  match m s with (s', r) => (s', Ok r) end.
Definition of_res {S A} (r : res A) : M S A := fun s => (s, r).
Definition gets {S A} (f : S -> A) : M S A := fun s => (s, Ok (f s)).
Definition modify {S} (f : S -> S) : M S unit := fun s => (f s, Ok tt).

(** Run an action on a part of the state. *)
Definition zoom {S T A} (g : S -> T) (put : T -> S -> S) (m : M T A) : M S A := fun s =>
  match m (g s) with (t', r) => (put t' s, r) end.

(** [if err != nil { return wrap(err) }] *)
Definition wrap_err {S A} (f : err -> err) (m : M S A) : M S A := fun s =>
  match m s with
  | (s', Ok a) => (s', Ok a)
  | (s', Err e) => (s', Err (f e))
  end.

Declare Scope go_scope.
Delimit Scope go_scope with go.

Notation "'let!' x ':=' m 'in' k" := (bind m (fun x => k))
  (at level 10, x as pattern, m at level 100, k at level 200,
   format "'[v' 'let!'  x  ':='  m  'in' '/' k ']'") : go_scope.
Notation "'let?' x ':=' m 'in' k" := (bind (try m) (fun x => k))
  (at level 10, x as pattern, m at level 100, k at level 200,
   format "'[v' 'let?'  x  ':='  m  'in' '/' k ']'") : go_scope.
Notation "'do!' m 'in' k" := (bind m (fun _ => k))
  (at level 10, m at level 100, k at level 200,
   format "'[v' 'do!'  m  'in' '/' k ']'") : go_scope.
#[global] Open Scope go_scope.

(** A [for] loop whose body may return an error: the first error ends it. *)
Fixpoint forM {S A B} (f : A -> M S B) (l : list A) : M S (list B) :=
  match l with
  | [] => ret []
  | x :: l' => let! y := f x in let! ys := forM f l' in ret (y :: ys)
  end.

(** ** Inversion of runs *)

Section runs.
Context {S : Type}.
Implicit Types s : S.

Lemma bind_Ok {A B} (m : M S A) (k : A -> M S B) s s' b :
  bind m k s = (s', Ok b) <->
  exists s1 a, m s = (s1, Ok a) /\ k a s1 = (s', Ok b).
Proof.
  unfold bind. split.
  - destruct (m s) as [s1 [a|e]] eqn:E; [naive_solver|]. by intros [=].
  - by intros (s1 & a & -> & Hk).
Qed.

Lemma bind_Err {A B} (m : M S A) (k : A -> M S B) s s' e :
  bind m k s = (s', Err e) <->
  m s = (s', Err e) \/ exists s1 a, m s = (s1, Ok a) /\ k a s1 = (s', Err e).
Proof.
  unfold bind. split.
  - destruct (m s) as [s1 [a|e1]] eqn:E; [naive_solver|]. intros [=]; subst; auto.
  - by intros [->|(s1 & a & -> & Hk)].
Qed.

Lemma try_Ok {A} (m : M S A) s s' r : try m s = (s', Ok r) <-> m s = (s', r).
Proof. unfold try. destruct (m s). naive_solver. Qed.

Lemma try_not_Err {A} (m : M S A) s s' e : try m s <> (s', Err e).
Proof. unfold try. by destruct (m s). Qed.

Lemma wrap_err_Ok {A} f (m : M S A) s s' a :
  wrap_err f m s = (s', Ok a) <-> m s = (s', Ok a).
Proof. unfold wrap_err. destruct (m s) as [? [|]]; naive_solver. Qed.

Lemma wrap_err_Err {A} f (m : M S A) s s' e :
  wrap_err f m s = (s', Err e) <-> exists e0, m s = (s', Err e0) /\ e = f e0.
Proof. unfold wrap_err. destruct (m s) as [? [|]]; naive_solver. Qed.

Lemma wrap_err_run {A} f (m : M S A) s s' r :
  wrap_err f m s = (s', r) -> exists r0, m s = (s', r0) /\ (forall a, r = Ok a <-> r0 = Ok a).
Proof. unfold wrap_err. destruct (m s) as [? [|]]; intros [= <- <-]; eexists; (split; [done|]); naive_solver. Qed.

Lemma bind_try {A B} (m : M S A) (k : res A -> M S B) s s' r :
  bind (try m) k s = (s', r) <-> exists s1 r1, m s = (s1, r1) /\ k r1 s1 = (s', r).
Proof. unfold bind, try. destruct (m s). naive_solver. Qed.

Lemma bind_run {A B} (m : M S A) (k : A -> M S B) s s' r :
  bind m k s = (s', r) <->
  (exists s1 a, m s = (s1, Ok a) /\ k a s1 = (s', r)) \/
  (exists e, m s = (s', Err e) /\ r = Err e).
Proof. unfold bind. destruct (m s) as [? [|]]; naive_solver. Qed.

Lemma bind_then {A B} (m : M S A) (k : A -> M S B) s s' a : m s = (s', Ok a) -> bind m k s = k a s'.
Proof. unfold bind. by intros ->. Qed.
Lemma bind_gets {A B} (f : S -> A) (k : A -> M S B) s : bind (gets f) k s = k (f s) s.
Proof. done. Qed.
Lemma bind_modify {B} (f : S -> S) (k : unit -> M S B) s : bind (modify f) k s = k tt (f s).
Proof. done. Qed.

Lemma zoom_inv {T A} (g : S -> T) put (m : M T A) s s' r :
  zoom g put m s = (s', r) <-> exists t', m (g s) = (t', r) /\ s' = put t' s.
Proof. unfold zoom. destruct (m (g s)); naive_solver. Qed.

Lemma ret_inv {A} (a : A) s s' r : ret a s = (s', r) <-> s' = s /\ r = Ok a.
Proof. unfold ret. naive_solver. Qed.

Lemma throw_inv {A} e s s' (r : res A) : throw e s = (s', r) <-> s' = s /\ r = Err e.
Proof. unfold throw. naive_solver. Qed.

(** A run that evaluates to a result of the shape tested. *)
Lemma run_ok {A} (o : S * res A) (b : A -> bool) :
  match o.2 with Ok a => b a | Err _ => false end = true ->
  exists s' a, o = (s', Ok a) /\ b a = true.
Proof. destruct o as [s' [a|]]; simpl; [eauto|done]. Qed.
Lemma run_err {A} (o : S * res A) :
  match o.2 with Ok _ => false | Err _ => true end = true -> exists s' e, o = (s', Err e).
Proof. destruct o as [s' [a|]]; simpl; [done|eauto]. Qed.

Lemma forM_nil {A B} (f : A -> M S B) s : forM f [] s = (s, Ok []).
Proof. done. Qed.

Lemma forM_app {A B} (f : A -> M S B) l1 l2 s :
  forM f (l1 ++ l2) s =
  bind (forM f l1) (fun ys => bind (forM f l2) (fun zs => ret (ys ++ zs))) s.
Proof.
  revert s. induction l1 as [|x l1 IH]; intros s; simpl.
  - unfold bind, ret. by destruct (forM f l2 s) as [? [|]].
  - unfold bind in *. destruct (f x s) as [s1 [y|e]]; [|done].
    rewrite IH. unfold ret. destruct (forM f l1 s1) as [s2 [ys|e]]; [|done].
    by destruct (forM f l2 s2) as [s3 [zs|e]].
Qed.
End runs.

(** Decompose every run in the context into the runs of its parts. *)
Ltac minv_step :=
  match goal with
  | H : bind (gets _) _ _ = (_, _) |- _ => rewrite bind_gets in H
  | H : bind (modify _) _ _ = (_, _) |- _ => rewrite bind_modify in H
  | H : bind (try _) _ _ = (_, _) |- _ =>
      apply (proj1 (bind_try _ _ _ _ _)) in H; destruct H as (? & ? & ? & ?)
  | H : bind _ _ _ = (_, Ok _) |- _ =>
      apply (proj1 (bind_Ok _ _ _ _ _)) in H; destruct H as (? & ? & ? & ?)
  | H : bind _ _ _ = (_, Err _) |- _ =>
      apply (proj1 (bind_Err _ _ _ _ _)) in H; destruct H as [H|(? & ? & ? & ?)]
  | H : bind _ _ _ = (_, _) |- _ =>
      apply (proj1 (bind_run _ _ _ _ _)) in H; destruct H as [(? & ? & ? & ?)|(? & ? & ?)]
  | H : try _ _ = (_, Ok _) |- _ => apply (proj1 (try_Ok _ _ _ _)) in H
  | H : try _ _ = (_, Err _) |- _ => by apply try_not_Err in H
  | H : wrap_err _ _ _ = (_, Ok _) |- _ => apply (proj1 (wrap_err_Ok _ _ _ _ _)) in H
  | H : wrap_err _ _ _ = (_, Err _) |- _ =>
      apply (proj1 (wrap_err_Err _ _ _ _ _)) in H; destruct H as (? & ? & ?)
  | H : zoom _ _ _ _ = (_, _) |- _ =>
      apply (proj1 (zoom_inv _ _ _ _ _ _)) in H; destruct H as (? & ? & ?)
  | H : ret _ _ = (_, _) |- _ => apply (proj1 (ret_inv _ _ _ _)) in H; destruct H as [? ?]
  | H : throw _ _ = (_, _) |- _ => apply (proj1 (throw_inv _ _ _ _)) in H; destruct H as [? ?]
  | H : Ok _ = Ok _ |- _ => injection H as H
  | H : Err _ = Err _ |- _ => injection H as H
  | H : Ok _ = Err _ |- _ => discriminate H
  | H : Err _ = Ok _ |- _ => discriminate H
  | H : (_, _) = (_, _) |- _ => injection H as ? ?
  | H : of_res _ _ = _ |- _ => unfold of_res in H
  | H : gets _ _ = _ |- _ => unfold gets in H
  | H : modify _ _ = _ |- _ => unfold modify in H
  end.
Ltac minv := repeat (minv_step; cbv beta iota in *; simplify_eq).

(** Decompose and split every conditional at the head of a run. *)
Ltac mcase x :=
  lazymatch x with
  | bool_decide ?P => destruct (bool_decide_reflect P)
  | negb ?b => mcase b
  | andb ?b ?c => let E := fresh "E" in destruct x eqn:E
  | _ => let E := fresh "E" in destruct x eqn:E
  end.
Ltac msplit :=
  repeat first
    [ progress minv
    | match goal with
      | H : (match ?x with _ => _ end) _ = (_, _) |- _ =>
          mcase x; cbn [negb] in *; cbv beta iota in *; simplify_eq
      end ].

(** ** Frame and monotonicity reasoning *)

(** [Respects R m]: the state before and the state after every run of [m], a
    failing one included, are related by [R]. With [R] an equality of
    projections this is a frame property. *)
Class Respects {S A} (R : relation S) (m : M S A) : Prop :=
  respects s : R s (m s).1.
#[global] Hint Mode Respects ! ! ! ! : typeclass_instances.

Section respects.
Context {S : Type} (R : relation S) `{!PreOrder R}.

#[export] Instance ret_respects {A} (a : A) : Respects R (ret a).
Proof. intros s. reflexivity. Qed.
#[export] Instance throw_respects {A} e : Respects R (throw (A:=A) e).
Proof. intros s. reflexivity. Qed.
#[export] Instance of_res_respects {A} (r : res A) : Respects R (of_res r).
Proof. intros s. reflexivity. Qed.
#[export] Instance gets_respects {A} (f : S -> A) : Respects R (gets f).
Proof. intros s. reflexivity. Qed.
#[export] Instance bind_respects {A B} (m : M S A) (k : A -> M S B) :
  Respects R m -> (forall a, Respects R (k a)) -> Respects R (bind m k).
Proof.
  intros Hm Hk s. unfold bind. specialize (Hm s).
  destruct (m s) as [s1 [a|e]]; simpl in *; [|done].
  etransitivity; [exact Hm|apply Hk].
Qed.
#[export] Instance try_respects {A} (m : M S A) : Respects R m -> Respects R (try m).
Proof. intros Hm s. unfold try. specialize (Hm s). by destruct (m s). Qed.
#[export] Instance wrap_err_respects {A} f (m : M S A) :
  Respects R m -> Respects R (wrap_err f m).
Proof. intros Hm s. unfold wrap_err. specialize (Hm s). by destruct (m s) as [? [|]]. Qed.
#[export] Instance forM_respects {A B} (f : A -> M S B) l :
  (forall x, Respects R (f x)) -> Respects R (forM f l).
Proof. intros Hf. induction l; simpl; apply _. Qed.

(** A pure step that may fail: what follows it may use its result. *)
Lemma of_res_bind_respects {A B} f (r : res A) (k : A -> M S B) :
  (forall a, r = Ok a -> Respects R (k a)) -> Respects R (bind (wrap_err f (of_res r)) k).
Proof. intros Hk s. unfold bind, wrap_err, of_res. destruct r; [by apply Hk|simpl; reflexivity]. Qed.

Lemma respects_run {A} (m : M S A) s s' r : Respects R m -> m s = (s', r) -> R s s'.
Proof. intros Hm E. specialize (Hm s). by rewrite E in Hm. Qed.

(** Each verdict of a loop that ended well comes from a run of the body whose
    states lie between the loop's first and last ones. *)
Lemma forM_trace {A B} (f : A -> M S B) l s s' ys :
  (forall x, Respects R (f x)) ->
  forM f l s = (s', Ok ys) ->
  Forall2 (fun x y => exists s1 s2, R s s1 /\ f x s1 = (s2, Ok y) /\ R s2 s') l ys.
Proof.
  intros Hf. revert s ys. induction l as [|x l IH]; intros s ys H; simpl in H; minv.
  - constructor.
  - match goal with
    | Hx : f x s = (?s1, _), Hl : forM f l ?s1 = _ |- _ =>
        pose proof (respects_run _ _ _ _ (Hf x) Hx);
        pose proof (respects_run _ _ _ _ (forM_respects f l Hf) Hl);
        specialize (IH _ _ Hl); constructor
    end.
    + eexists _, _. split; [reflexivity|eauto].
    + eapply Forall2_impl; [exact IH|]. intros ?? (s1 & s2 & ? & ? & ?).
      exists s1, s2. split; [|done]. etransitivity; eauto.
Qed.

(** A loop that fails was stopped by its first failing element; the elements
    before it succeeded. *)
Lemma forM_Err {A B} (f : A -> M S B) l s s' e :
  forM f l s = (s', Err e) ->
  exists l1 x l2 ys s1,
    l = l1 ++ x :: l2 /\ forM f l1 s = (s1, Ok ys) /\ f x s1 = (s', Err e).
Proof.
  revert s. induction l as [|x l IH]; intros s H; simpl in H; [by minv|].
  apply bind_Err in H as [H|(s1 & y & Hx & H)].
  - by exists [], x, l, [], s.
  - apply bind_Err in H as [H|(s2 & ys & _ & H)]; [|by minv].
    destruct (IH _ H) as (l1 & x' & l2 & ys & s2 & -> & Hl & Hx').
    exists (x :: l1), x', l2, (y :: ys), s2. split_and!; [done| |done].
    simpl. unfold bind. by rewrite Hx, Hl.
Qed.
End respects.

Lemma forM_Ok_all {S A B} (f : A -> M S B) (P : A -> B -> Prop) l s s' ys :
  (forall x s1 s2 y, f x s1 = (s2, Ok y) -> P x y) ->
  forM f l s = (s', Ok ys) -> Forall2 P l ys.
Proof.
  intros HP. revert s ys. induction l as [|x l IH]; intros s ys H; simpl in H; minv; eauto.
Qed.

(** Prove [Respects R m] through the structure of [m]. *)
Ltac solve_respects :=
  repeat first
    [ typeclasses eauto
    | apply bind_respects
    | apply try_respects
    | apply wrap_err_respects
    | apply forM_respects
    | match goal with |- forall _, _ => intros ? end
    | case_match
    | progress simpl ].

(** ** Lists *)

Lemma omap_Forall2 {A B C} (R : A -> B -> Prop) (g : B -> option C) xs ys c :
  Forall2 R xs ys -> c ∈ omap g ys -> exists x y, x ∈ xs /\ y ∈ ys /\ R x y /\ g y = Some c.
Proof.
  intros HR (y & Hy & Hg)%list_elem_of_omap.
  apply list_elem_of_lookup in Hy as [i Hi].
  destruct (Forall2_lookup_r _ _ _ _ _ HR Hi) as (x & Hx & HRxy).
  exists x, y. split_and!; [| |done|done]; by eapply list_elem_of_lookup_2.
Qed.

Create HintDb npu.
#[export] Hint Resolve list_elem_of_lookup_2 : npu.
