(* ===== verification/GoStd.v ===== *)
(** The part of the Go standard library the program uses, on byte strings:
    package errors, strings (case mapping on ASCII), strconv (base 10, 64 bits),
    path/filepath (Unix), slices.Sort, and the anchored fixed-width regular
    expressions of pci_sysfs.go. *)
From stdpp Require Import sorting.
From Stdlib Require Import DecimalString DecimalZ.
From S2P Require Import Prelude.
Open Scope string_scope.

#[export] Instance errno_eq_dec : EqDecision errno.
Proof. solve_decision. Defined.
#[export] Instance sentinel_eq_dec : EqDecision sentinel.
Proof. solve_decision. Defined.
#[export] Instance err_eq_dec : EqDecision err.
Proof. solve_decision. Defined.
#[export] Instance res_eq_dec {A} `{!EqDecision A} : EqDecision (res A).
Proof. solve_decision. Defined.

(** ** Package errors *)

(** [errors.Is(err, os.ErrNotExist)] *)
Fixpoint is_not_exist (e : err) : bool :=
  match e with
  | ErrPath _ _ no => bool_decide (no = ENOENT)
  | ErrSentinel _ | ErrText _ => false
  | ErrWrap _ inner _ => is_not_exist inner
  end.

(** [errors.Is(err, s)] for a package-level sentinel [s]. *)
Fixpoint errors_Is (e : err) (s : sentinel) : bool :=
  match e with
  | ErrPath _ _ _ | ErrText _ => false
  | ErrSentinel s' => bool_decide (s = s')
  | ErrWrap _ inner _ => errors_Is inner s
  end.

(** [os.IsNotExist] looks through [*fs.PathError] only, not through %w. *)
Definition os_IsNotExist (e : err) : bool :=
  match e with ErrPath _ _ no => bool_decide (no = ENOENT) | _ => false end.

(** ** Package strings *)

Fixpoint smap (f : ascii -> ascii) (s : string) : string :=
  match s with
  | EmptyString => EmptyString
  | String a s' => String (f a) (smap f s')
  end.

Definition lower_ascii (a : ascii) : ascii :=
  let n := Ascii.nat_of_ascii a in
  if decide (65 <= n <= 90)%nat then Ascii.ascii_of_nat (n + 32) else a.

Definition ToLower (s : string) : string := smap lower_ascii s.
Definition EqualFold (s t : string) : bool := bool_decide (ToLower s = ToLower t).

(** The ASCII part of [unicode.IsSpace]. *)
Definition is_space (a : ascii) : bool :=
  let n := Ascii.nat_of_ascii a in
  bool_decide (n = 32)%nat || bool_decide (9 <= n <= 13)%nat.

Fixpoint TrimLeft (p : ascii -> bool) (s : string) : string :=
  match s with
  | EmptyString => EmptyString
  | String a s' => if p a then TrimLeft p s' else s
  end.
Fixpoint TrimRight (p : ascii -> bool) (s : string) : string :=
  match s with
  | EmptyString => EmptyString
  | String a s' =>
      match TrimRight p s' with
      | EmptyString => if p a then EmptyString else String a EmptyString
      | t => String a t
      end
  end.
Definition TrimSpace (s : string) : string := TrimRight is_space (TrimLeft is_space s).

Fixpoint CutPrefix (p s : string) : option string :=
  match p, s with
  | EmptyString, _ => Some s
  | String a p', String b s' => if decide (a = b) then CutPrefix p' s' else None
  | String _ _, EmptyString => None
  end.
Definition TrimPrefix (p s : string) : string := default s (CutPrefix p s).

(** The separator is a single byte in every call. *)
Fixpoint Split (sep : ascii) (s : string) : list string :=
  match s with
  | EmptyString => [""]
  | String a s' =>
      if decide (a = sep) then "" :: Split sep s'
      else match Split sep s' with
           | w :: ws => String a w :: ws
           | [] => [String a ""]
           end
  end.
Definition Cut_before (sep : ascii) (s : string) : string := default "" (head (Split sep s)).

Fixpoint Join_with (sep : string) (l : list string) : string :=
  match l with
  | [] => ""
  | [w] => w
  | w :: ws => w +:+ sep +:+ Join_with sep ws
  end.

Fixpoint Contains_byte (a : ascii) (s : string) : bool :=
  match s with
  | EmptyString => false
  | String b s' => bool_decide (a = b) || Contains_byte a s'
  end.

(** ** Package strconv *)

Definition int64_max : Z := 2 ^ 63 - 1.
Definition int64_min : Z := - 2 ^ 63.

Definition digits_value (s : string) : option Z :=
  Z.of_uint <$> NilZero.uint_of_string s.

(** A string between double quotes, as the verb %q prints plain text. *)
Definition quote (s : string) : string :=
  let dq := String (Ascii.ascii_of_nat 34) "" in dq +:+ s +:+ dq.
Definition num_error (s : string) (why : sentinel) : err :=
  ErrWrap ("strconv.ParseInt: parsing " +:+ quote s +:+ ": ") (ErrSentinel why) "".

(** [strconv.ParseInt(s, 10, 64)]: an optional sign, then decimal digits. *)
Definition ParseInt (s : string) : res Z :=
  let signed :=
    match s with
    | String "+" r => digits_value r
    | String "-" r => Z.opp <$> digits_value r
    | _ => digits_value s
    end in
  match signed with
  | None => Err (num_error s ErrSyntax)
  | Some v =>
      if bool_decide (int64_min <= v <= int64_max)%Z then Ok v
      else Err (num_error s ErrRange)
  end.
(** [int] has 64 bits on the supported platforms. *)
Definition Atoi (s : string) : res Z := ParseInt s.
Definition FormatInt (z : Z) : string := NilZero.string_of_int (Z.to_int z).
Definition Itoa (z : Z) : string := FormatInt z.

(** ** Package path/filepath *)

Definition is_slash (a : ascii) : bool := bool_decide (a = "/"%char).
Definition IsAbs (s : string) : bool := bool_decide (String.get 0 s = Some "/"%char).

(** One element of [Clean]'s walk; [acc] holds the kept elements, last first. *)
Definition clean_step (rooted : bool) (acc : list string) (w : string) : list string :=
  if bool_decide (w = "" \/ w = ".") then acc
  else if bool_decide (w = "..") then
    match acc with
    | [] => if rooted then [] else [".."]
    | w' :: acc' => if bool_decide (w' = "..") then ".." :: acc else acc'
    end
  else w :: acc.
Definition clean_elems (rooted : bool) (ws : list string) : list string :=
  reverse (foldl (clean_step rooted) [] ws).
(** The elements of the cleaned path. *)
Definition comps (s : string) : list string := clean_elems (IsAbs s) (Split "/" s).

Definition Clean (s : string) : string :=
  let out := comps s in
  if IsAbs s then "/" +:+ Join_with "/" out
  else match out with [] => "." | _ => Join_with "/" out end.

Fixpoint Join (elems : list string) : string :=
  match elems with
  | [] => ""
  | e :: es => if bool_decide (e = "") then Join es else Clean (Join_with "/" elems)
  end.

Definition Base (s : string) : string :=
  if bool_decide (s = "") then "."
  else match TrimRight is_slash s with
       | "" => "/"
       | t => default "" (last (Split "/" t))
       end.

(** The kept part of [Dir]: everything up to the last separator. *)
Definition Dir (s : string) : string :=
  match Split "/" s with
  | [] | [_] => "."
  | ws => Clean (Join_with "/" (take (length ws - 1) ws) +:+ "/")
  end.

(** ** The text of an error *)

Definition strerror (no : errno) : string :=
  match no with
  | ENOENT => "no such file or directory"
  | EIO => "input/output error"
  | EACCES => "permission denied"
  | ENOTDIR => "not a directory"
  | EEXIST => "file exists"
  | ENOSPC => "no space left on device"
  | ENODEV => "no such device"
  | EOTHER code => "errno " +:+ FormatInt code
  end.
Definition sentinel_text (s : sentinel) : string :=
  match s with
  | ErrUnsupportedDevice => "unsupported device configuration"
  | ErrNotFoundInPath => "executable file not found in $PATH"
  | ErrSyntax => "invalid syntax"
  | ErrRange => "value out of range"
  end.
(** [err.Error()] *)
Fixpoint Error (e : err) : string :=
  match e with
  | ErrPath op path no => op +:+ " " +:+ path +:+ ": " +:+ strerror no
  | ErrSentinel s => sentinel_text s
  | ErrText msg => msg
  | ErrWrap before inner after => before +:+ Error inner +:+ after
  end.

(** ** Anchored fixed-width regular expressions *)

Fixpoint match_classes (cs : list (ascii -> bool)) (s : string) : bool :=
  match cs, s with
  | [], EmptyString => true
  | c :: cs', String a s' => c a && match_classes cs' s'
  | _, _ => false
  end.
Definition is_hex (a : ascii) : bool :=
  let n := Ascii.nat_of_ascii a in
  bool_decide (48 <= n <= 57)%nat || bool_decide (65 <= n <= 70)%nat
  || bool_decide (97 <= n <= 102)%nat.
Definition is_oct (a : ascii) : bool :=
  bool_decide (48 <= Ascii.nat_of_ascii a <= 55)%nat.
Definition is_char (c a : ascii) : bool := bool_decide (a = c).

(** ** slices.Sort on strings (byte order) *)

Definition string_leb (s t : string) : Prop := String.leb s t = true.
#[export] Instance string_leb_dec : RelDecision string_leb.
Proof. intros s t. unfold string_leb. apply _. Defined.
Definition SortStrings (l : list string) : list string := merge_sort string_leb l.

Example Clean_ex : map Clean ["/a/./b//../c/"; "/../x"; "a/../.."; ""; "/"; "./a"] = ["/a/c"; "/x"; ".."; "."; "/"; "a"].
Proof. vm_compute. reflexivity. Qed.
Example Base_ex : map Base ["/a/b"; "/a/b//"; "/"; ""; "x"; "../x"; "a\b"] = ["b"; "b"; "/"; "."; "x"; "x"; "a\b"].
Proof. vm_compute. reflexivity. Qed.
Example Join_ex : map Join [["/dev"; "/"]; ["/dev"; "../x"]; [""; "a"]; ["/a"; ""; "b"]; []] = ["/dev"; "/x"; "a"; "/a/b"; ""].
Proof. vm_compute. reflexivity. Qed.
Example Dir_ex : map Dir ["/a/b"; "/a"; "a"; "/a/b/"] = ["/a"; "/"; "."; "/a/b"].
Proof. vm_compute. reflexivity. Qed.
Example Parse_ex : map ParseInt ["12"; "+5"; "-3"; "007"; "9223372036854775807"] = map Ok [12; 5; -3; 7; 9223372036854775807]%Z
  /\ map ParseInt ["9223372036854775808"; "1_0"; ""] =
    [Err (num_error "9223372036854775808" ErrRange); Err (num_error "1_0" ErrSyntax); Err (num_error "" ErrSyntax)].
Proof. vm_compute. auto. Qed.
Example Trim_ex : TrimSpace "  a b
" = "a b" /\ TrimPrefix "0x" "0x1250" = "1250" /\ Cut_before "/" "npu/ca25" = "npu" /\ SortStrings ["b";"a";"c"] = ["a";"b";"c"].
Proof. vm_compute. auto. Qed.

(** ** Case mapping *)

#[local] Arguments String.append : simpl nomatch.

Lemma lower_ascii_idemp a : lower_ascii (lower_ascii a) = lower_ascii a.
Proof. by destruct a as [[] [] [] [] [] [] [] []]. Qed.

Lemma smap_smap f g s : smap f (smap g s) = smap (fun a => f (g a)) s.
Proof. induction s; simpl; f_equal; auto. Qed.

Lemma smap_ext f g s : (forall a, f a = g a) -> smap f s = smap g s.
Proof. intros H. induction s; simpl; f_equal; auto. Qed.

Lemma ToLower_idemp s : ToLower (ToLower s) = ToLower s.
Proof. unfold ToLower. rewrite smap_smap. apply smap_ext, lower_ascii_idemp. Qed.

Lemma ToLower_app s t : ToLower (s +:+ t) = ToLower s +:+ ToLower t.
Proof. unfold ToLower. induction s as [|a s IH]; [done|]. simpl. by rewrite <- IH. Qed.

Lemma EqualFold_true s t : EqualFold s t = true <-> ToLower s = ToLower t.
Proof. apply bool_decide_eq_true. Qed.

Lemma EqualFold_false s t : EqualFold s t = false <-> ToLower s <> ToLower t.
Proof. apply bool_decide_eq_false. Qed.

(** ** Splitting and joining *)

Definition sep_free (c : ascii) (s : string) : Prop := Contains_byte c s = false.
#[export] Instance sep_free_dec c s : Decision (sep_free c s).
Proof. unfold sep_free. apply _. Defined.

Lemma Split_nonnil c s : Split c s <> [].
Proof. destruct s as [|a s]; simpl; [done|]. case_decide; [done|]. by case_match. Qed.

Lemma Split_app c s t : Split c (s +:+ String c t) = (Split c s ++ Split c t)%list.
Proof.
  induction s as [|a s IH]; simpl; [by case_decide|].
  rewrite IH. case_decide; [done|].
  destruct (Split c s) eqn:E; [|done]. by apply Split_nonnil in E.
Qed.

Lemma Split_sep_free c s : sep_free c s -> Split c s = [s].
Proof.
  unfold sep_free. induction s as [|a s IH]; simpl; [done|].
  intros [H%bool_decide_eq_false ?]%orb_false_elim.
  case_decide; [congruence|]. by rewrite IH.
Qed.

Lemma Join_with_cons sep w ws :
  ws <> [] -> Join_with sep (w :: ws) = w +:+ sep +:+ Join_with sep ws.
Proof. by destruct ws. Qed.

Lemma Split_Join_with c ws :
  ws <> [] -> Split c (Join_with (String c "") ws) = concat (map (Split c) ws).
Proof.
  induction ws as [|w ws IH]; [done|]. intros _. rewrite List.map_cons, List.concat_cons.
  destruct (decide (ws = [])) as [->|Hne]; [by rewrite app_nil_r|].
  rewrite Join_with_cons by done.
  change (String c "" +:+ ?t) with (String c t).
  by rewrite Split_app, IH.
Qed.

Lemma concat_Split_sep_free c ws :
  Forall (sep_free c) ws -> concat (map (Split c) ws) = ws.
Proof.
  induction 1 as [|w ws Hw Hws IH]; simpl; [done|]. by rewrite Split_sep_free, IH.
Qed.

Lemma Split_Join c ws :
  ws <> [] -> Forall (sep_free c) ws -> Split c (Join_with (String c "") ws) = ws.
Proof. intros. by rewrite Split_Join_with, concat_Split_sep_free. Qed.

Lemma string_app_assoc (s t u : string) : s +:+ (t +:+ u) = (s +:+ t) +:+ u.
Proof. induction s as [|a s IH]; simpl; [done|by rewrite IH]. Qed.

Lemma string_app_nil_r (s : string) : s +:+ "" = s.
Proof. induction s as [|a s IH]; simpl; [done|by rewrite IH]. Qed.

Lemma Join_with_snoc sep ws t :
  ws <> [] -> Join_with sep (ws ++ [t])%list = Join_with sep ws +:+ sep +:+ t.
Proof.
  induction ws as [|w ws IH]; [done|]. intros _.
  destruct (decide (ws = [])) as [->|Hne]; [done|].
  simpl app. rewrite !Join_with_cons, IH by (try done; by destruct ws).
  by rewrite !string_app_assoc.
Qed.

Lemma Split_in_sep_free c s w : w ∈ Split c s -> sep_free c w.
Proof.
  revert w. induction s as [|a s IH]; intros w; simpl; [set_solver|].
  case_decide as Ha; [set_solver|].
  destruct (Split c s) as [|w' ws]; intros [->|Hw]%elem_of_cons; try set_solver.
  - unfold sep_free. simpl. rewrite bool_decide_false by congruence. done.
  - unfold sep_free. simpl. rewrite bool_decide_false by congruence. simpl.
    apply IH. set_solver.
Qed.

(** ** Decimal integers *)

Lemma digits_value_string_of_uint d :
  d <> Decimal.Nil -> digits_value (NilZero.string_of_uint d) = Some (Z.of_uint d).
Proof. intros Hd. unfold digits_value. by rewrite NilZero.usu. Qed.

Lemma Z_to_int_nonnil z :
  match Z.to_int z with Decimal.Pos d | Decimal.Neg d => d <> Decimal.Nil end.
Proof.
  destruct z as [|p|p]; simpl; [done| |];
    intros H; pose proof (DecimalPos.Unsigned.to_uint_nonnil p); done.
Qed.

Lemma head_of_digits d :
  d <> Decimal.Nil ->
  match NilZero.string_of_uint d with
  | String "+" _ | String "-" _ => False
  | EmptyString => False
  | _ => True
  end.
Proof. by destruct d. Qed.

(** Printing then parsing an [int64] gives it back. *)
Lemma ParseInt_FormatInt z :
  (int64_min <= z <= int64_max)%Z -> ParseInt (FormatInt z) = Ok z.
Proof.
  intros Hz. unfold ParseInt, FormatInt. pose proof (Z_to_int_nonnil z) as Hn.
  assert (match NilZero.string_of_int (Z.to_int z) with
          | String "+" r => digits_value r
          | String "-" r => Z.opp <$> digits_value r
          | _ => digits_value (NilZero.string_of_int (Z.to_int z))
          end = Some (Z.of_int (Z.to_int z))) as ->.
  { destruct (Z.to_int z) as [d|d]; simpl.
    - pose proof (head_of_digits d Hn) as Hh. pose proof (digits_value_string_of_uint d Hn) as Hv.
      destruct (NilZero.string_of_uint d) as [|[[] [] [] [] [] [] [] []] s]; done.
    - by rewrite digits_value_string_of_uint. }
  rewrite DecimalZ.of_to, bool_decide_true by done. done.
Qed.

Lemma FormatInt_inj z1 z2 :
  (int64_min <= z1 <= int64_max)%Z -> (int64_min <= z2 <= int64_max)%Z ->
  FormatInt z1 = FormatInt z2 -> z1 = z2.
Proof.
  intros H1 H2 E. apply (f_equal ParseInt) in E.
  rewrite !ParseInt_FormatInt in E by done. congruence.
Qed.

Lemma ParseInt_range s z : ParseInt s = Ok z -> (int64_min <= z <= int64_max)%Z.
Proof.
  unfold ParseInt. intros H. case_match; [|done].
  case_bool_decide; simplify_eq; done.
Qed.

(** ** Absolute paths made of plain names *)

Definition plain_name (w : string) : Prop :=
  w <> "" /\ w <> "." /\ w <> ".." /\ sep_free "/" w.
#[export] Instance plain_name_dec w : Decision (plain_name w).
Proof. unfold plain_name. apply _. Defined.

Definition abs_path (ws : list string) : string := "/" +:+ Join_with "/" ws.

Lemma plain_sep_free ws : Forall plain_name ws -> Forall (sep_free "/") ws.
Proof. intros H. eapply Forall_impl; [exact H|]. by intros w (_&_&_&?). Qed.

Lemma clean_foldl_plain rooted ws acc :
  Forall plain_name ws -> foldl (clean_step rooted) acc ws = (reverse ws ++ acc)%list.
Proof.
  intros H. revert acc. induction H as [|w ws (H1&H2&H3&_) Hws IH]; intros acc; simpl; [done|].
  rewrite IH, reverse_cons, <- app_assoc. f_equal. simpl. unfold clean_step.
  rewrite bool_decide_false by naive_solver. by rewrite bool_decide_false.
Qed.

Lemma clean_elems_empty rooted ws : clean_elems rooted ("" :: ws) = clean_elems rooted ws.
Proof. done. Qed.

Lemma clean_elems_plain rooted ws : Forall plain_name ws -> clean_elems rooted ws = ws.
Proof.
  intros H. unfold clean_elems. rewrite clean_foldl_plain by done.
  by rewrite app_nil_r, reverse_involutive.
Qed.

Lemma Split_abs_path ws :
  Forall plain_name ws ->
  Split "/" (abs_path ws) = "" :: match ws with [] => [""] | _ => ws end.
Proof.
  intros H%plain_sep_free. unfold abs_path.
  change ("/" +:+ ?t) with (String "/" t). simpl Split.
  destruct ws as [|w ws]; [done|]. f_equal. by apply Split_Join.
Qed.

Lemma IsAbs_abs_path ws : IsAbs (abs_path ws) = true.
Proof. done. Qed.

Lemma comps_abs_path ws : Forall plain_name ws -> comps (abs_path ws) = ws.
Proof.
  intros H. unfold comps. rewrite IsAbs_abs_path, Split_abs_path by done.
  destruct ws as [|w ws]; [done|].
  rewrite clean_elems_empty. by apply clean_elems_plain.
Qed.

Lemma abs_path_inj ws1 ws2 :
  Forall plain_name ws1 -> Forall plain_name ws2 ->
  abs_path ws1 = abs_path ws2 -> ws1 = ws2.
Proof. intros H1 H2 E. by rewrite <- (comps_abs_path ws1), E, comps_abs_path. Qed.

Lemma Clean_abs s ws : IsAbs s = true -> comps s = ws -> Clean s = abs_path ws.
Proof. intros Ha <-. unfold Clean. by rewrite Ha. Qed.

(** [filepath.Join] of a clean absolute path and plain names appends the names. *)
Lemma Join_abs ws ns :
  Forall plain_name ws -> Forall plain_name ns ->
  Join (abs_path ws :: ns) = abs_path (ws ++ ns)%list.
Proof.
  intros Hws Hns.
  change (Join (abs_path ws :: ns)) with (Clean (Join_with "/" (abs_path ws :: ns))).
  apply Clean_abs; [by destruct ns|].
  unfold comps. rewrite (Split_Join_with "/") by done.
  rewrite List.map_cons, List.concat_cons, concat_Split_sep_free by (by apply plain_sep_free).
  replace (IsAbs _) with true by (by destruct ns).
  rewrite Split_abs_path by done.
  rewrite <- app_comm_cons, clean_elems_empty.
  destruct ws as [|w ws]; simpl app.
  - rewrite clean_elems_empty. by apply clean_elems_plain.
  - apply (clean_elems_plain true (w :: ws ++ ns)). by apply (Forall_app_2 _ (w :: ws) ns).
Qed.

Lemma TrimRight_keep p s n :
  (match last (String.list_ascii_of_string n) with Some a => p a = false | None => False end) ->
  TrimRight p (s +:+ n) = s +:+ n.
Proof.
  intros H.
  assert (Hn : TrimRight p n = n /\ n <> "").
  { induction n as [|a n IH]; [done|]. split; [|done]. simpl.
    destruct n as [|b n].
    - simpl in *. by rewrite H.
    - destruct IH as [-> _]; [|done]. simpl in *. done. }
  destruct Hn as [Hn Hne]. induction s as [|a s IH]; simpl; [done|].
  rewrite IH. destruct (s +:+ n) eqn:E; [|done]. by destruct s, n.
Qed.

Lemma plain_name_last n :
  plain_name n ->
  match last (String.list_ascii_of_string n) with Some a => is_slash a = false | None => False end.
Proof.
  intros (Hne & _ & _ & Hs). destruct (last _) as [a|] eqn:E.
  - apply last_Some_elem_of in E. clear Hne. unfold sep_free in Hs.
    induction n as [|b n IH]; simpl in *; [set_solver|].
    apply orb_false_elim in Hs as [Hb%bool_decide_eq_false Hs].
    apply elem_of_cons in E as [->|E]; [|auto]. unfold is_slash.
    apply bool_decide_eq_false. congruence.
  - apply last_None in E. by destruct n.
Qed.

Lemma Base_abs_path ws n :
  Forall plain_name ws -> plain_name n -> Base (abs_path (ws ++ [n])%list) = n.
Proof.
  intros Hws Hn. unfold Base. rewrite bool_decide_false by done.
  assert (exists t, abs_path (ws ++ [n])%list = t +:+ n /\ t <> "") as (t & Ht & Htne).
  { unfold abs_path. destruct (decide (ws = [])) as [->|Hne]; [by exists "/"|].
    rewrite Join_with_snoc, !string_app_assoc by done. eexists. split; [done|done]. }
  rewrite Ht, TrimRight_keep, <- Ht by (by apply plain_name_last).
  destruct (abs_path (ws ++ [n])%list) eqn:E; [done|]. rewrite <- E.
  rewrite Split_abs_path by (apply Forall_app; auto).
  destruct ws as [|w ws]; simpl app; [done|].
  rewrite last_cons. change (w :: ws ++ [n])%list with ((w :: ws) ++ [n])%list.
  by rewrite last_snoc.
Qed.

Lemma abs_path_snoc ws n : ws <> [] -> abs_path (ws ++ [n])%list = abs_path ws +:+ "/" +:+ n.
Proof. intros Hws. unfold abs_path. by rewrite Join_with_snoc, !string_app_assoc. Qed.

(** Text appended to a path extends its last element. *)
Lemma abs_path_append ws n t : abs_path (ws ++ [n])%list +:+ t = abs_path (ws ++ [n +:+ t])%list.
Proof.
  destruct (decide (ws = [])) as [->|Hws]; [done|]. by rewrite !abs_path_snoc, !string_app_assoc by done.
Qed.

Lemma Contains_byte_app a s t : Contains_byte a (s +:+ t) = Contains_byte a s || Contains_byte a t.
Proof. induction s as [|b s IH]; simpl; [done|]. by rewrite IH, orb_assoc. Qed.

Lemma plain_name_app n t :
  plain_name n -> sep_free "/" t -> n +:+ t <> "." -> n +:+ t <> ".." -> plain_name (n +:+ t).
Proof.
  intros (Hne & _ & _ & Hn) Ht H1 H2. split_and!; [by destruct n|done|done|].
  unfold sep_free in *. by rewrite Contains_byte_app, Hn, Ht.
Qed.

Lemma Clean_slash ws : Forall plain_name ws -> Clean (abs_path ws +:+ "/") = abs_path ws.
Proof.
  intros H. apply Clean_abs; [done|]. unfold comps. change (IsAbs (abs_path ws +:+ "/")) with true.
  change (abs_path ws +:+ "/") with (abs_path ws +:+ String "/" ""). rewrite Split_app, Split_abs_path by done.
  simpl app. rewrite clean_elems_empty. destruct ws as [|w ws]; [done|]. unfold clean_elems.
  rewrite foldl_app, (clean_foldl_plain true (w :: ws)) by done. simpl. unfold clean_step. simpl.
  by rewrite app_nil_r, reverse_involutive.
Qed.

Lemma Dir_abs_path ws n :
  Forall plain_name ws -> plain_name n -> Dir (abs_path (ws ++ [n])%list) = abs_path ws.
Proof.
  intros Hws Hn. unfold Dir. rewrite Split_abs_path by (apply Forall_app; auto).
  destruct (ws ++ [n])%list as [|w l] eqn:E; [by destruct ws|].
  replace (take (length ("" :: w :: l) - 1) ("" :: w :: l)) with ("" :: ws).
  2: { rewrite <- E. simpl. rewrite length_app. simpl. rewrite Nat.add_1_r, Nat.sub_0_r. simpl. f_equal.
       by rewrite take_app_length. }
  destruct ws as [|w' ws']; [done|]. rewrite Join_with_cons by done. by apply Clean_slash.
Qed.

(** A trailing space character does not change the trimmed text. *)
Lemma TrimRight_snoc p s a : p a = true -> TrimRight p (s +:+ String a "") = TrimRight p s.
Proof. intros Ha. induction s as [|b s IH]; simpl; [by rewrite Ha|]. by rewrite IH. Qed.

Lemma TrimSpace_newline s : TrimSpace (s +:+ String "010" "") = TrimSpace s.
Proof.
  unfold TrimSpace. induction s as [|b s IH]; [done|]. simpl. destruct (is_space b); [exact IH|].
  apply (TrimRight_snoc is_space (String b s)). done.
Qed.

(** A name equal to its own base holds no separator, unless it is the root. *)
Lemma Base_fixpoint n : Base n = n -> n = "/" \/ sep_free "/" n.
Proof.
  unfold Base. case_bool_decide as Hn; [by intros <-|].
  destruct (TrimRight is_slash n) eqn:Et; [by left|]. rewrite <- Et. clear Et.
  intros H. right. destruct (last _) as [w|] eqn:E; simpl in H; subst.
  - apply last_Some_elem_of in E. by eapply Split_in_sep_free.
  - done.
Qed.

(** ** Sorting *)

Lemma string_compare_gt_trans s t u :
  String.compare s t <> Gt -> String.compare t u <> Gt -> String.compare s u <> Gt.
Proof.
  revert t u. induction s as [|a s IH]; intros [|b t] [|c u]; simpl; try done.
  unfold Ascii.compare.
  destruct (N.compare_spec (Ascii.N_of_ascii a) (Ascii.N_of_ascii b)) as [E1|L1|G1]; try done;
  destruct (N.compare_spec (Ascii.N_of_ascii b) (Ascii.N_of_ascii c)) as [E2|L2|G2]; try done;
  destruct (N.compare_spec (Ascii.N_of_ascii a) (Ascii.N_of_ascii c)) as [E3|L3|G3]; try done;
  try lia. apply IH.
Qed.

#[export] Instance string_leb_trans : Transitive string_leb.
Proof.
  intros s t u. unfold string_leb, String.leb. intros H1 H2.
  pose proof (string_compare_gt_trans s t u) as H.
  destruct (String.compare s t), (String.compare t u), (String.compare s u); naive_solver.
Qed.
#[export] Instance string_leb_total : Total string_leb.
Proof. intros s t. apply String.leb_total. Qed.
#[export] Instance string_leb_antisymm : AntiSymm (=) string_leb.
Proof. intros s t. apply String.leb_antisym. Qed.

Lemma SortStrings_Permutation l : SortStrings l ≡ₚ l.
Proof. apply merge_sort_Permutation. Qed.

Lemma SortStrings_Sorted l : Sorted string_leb (SortStrings l).
Proof. apply Sorted_merge_sort, _. Qed.

(** Sorting forgets the order of its input. *)
Lemma SortStrings_proper l1 l2 : l1 ≡ₚ l2 -> SortStrings l1 = SortStrings l2.
Proof.
  intros H. apply (Sorted_unique string_leb); auto using SortStrings_Sorted.
  by rewrite !SortStrings_Permutation.
Qed.

Lemma SortStrings_nil l : SortStrings l = [] <-> l = [].
Proof.
  split; [|by intros ->]. intros H. pose proof (SortStrings_Permutation l) as P.
  rewrite H in P. by apply Permutation_nil.
Qed.

(** ** Regular expressions *)

Lemma match_classes_cons c cs s :
  match_classes (c :: cs) s = true ->
  exists a s', s = String a s' /\ c a = true /\ match_classes cs s' = true.
Proof. destruct s; simpl; [done|]. intros [??]%andb_prop. eauto. Qed.

Lemma match_classes_nil s : match_classes [] s = true -> s = "".
Proof. by destruct s. Qed.

(** Two byte mappings that agree up to [g] on each class agree on a match. *)
Lemma match_classes_smap_inj (f g : ascii -> ascii) cs s t :
  Forall (fun c : ascii -> bool => forall a b, c a = true -> c b = true -> f a = f b -> g a = g b) cs ->
  match_classes cs s = true -> match_classes cs t = true ->
  smap f s = smap f t -> smap g s = smap g t.
Proof.
  intros Hcs. revert s t. induction Hcs as [|c cs Hc Hcs IH]; intros s t Hs Ht.
  - by rewrite (match_classes_nil _ Hs), (match_classes_nil _ Ht).
  - apply match_classes_cons in Hs as (a & s' & -> & ? & Hs).
    apply match_classes_cons in Ht as (b & t' & -> & ? & Ht).
    simpl. intros [= Hab Hst]. f_equal; eauto.
Qed.

Lemma match_classes_smap (f : ascii -> ascii) cs s :
  Forall (fun c : ascii -> bool => forall a, c a = true -> c (f a) = true) cs ->
  match_classes cs s = true -> match_classes cs (smap f s) = true.
Proof.
  intros Hcs. revert s. induction Hcs as [|c cs Hc Hcs IH]; intros s Hs.
  - by rewrite (match_classes_nil _ Hs).
  - apply match_classes_cons in Hs as (a & s' & -> & ? & Hs). simpl. by rewrite Hc, IH.
Qed.

Lemma match_classes_sep_free cs d s :
  Forall (fun c : ascii -> bool => c d = false) cs ->
  match_classes cs s = true -> sep_free d s.
Proof.
  intros Hcs. revert s. induction Hcs as [|c cs Hc Hcs IH]; intros s Hs.
  - by rewrite (match_classes_nil _ Hs).
  - apply match_classes_cons in Hs as (a & s' & -> & ? & Hs). unfold sep_free in *. simpl.
    rewrite bool_decide_false by congruence. by apply IH.
Qed.

Lemma match_classes_length cs s : match_classes cs s = true -> String.length s = length cs.
Proof.
  revert s. induction cs as [|c cs IH]; intros s Hs; [by rewrite (match_classes_nil _ Hs)|].
  apply match_classes_cons in Hs as (a & s' & -> & ? & Hs). simpl. by rewrite IH.
Qed.

#[export] Hint Resolve SortStrings_Permutation SortStrings_Sorted ParseInt_FormatInt : npu.
#[global] Arguments Join _ : simpl never.
#[global] Arguments Clean _ : simpl never.
#[global] Arguments Base _ : simpl never.
#[global] Arguments ToLower _ : simpl never.
#[global] Arguments TrimSpace _ : simpl never.
#[global] Arguments ParseInt _ : simpl never.
#[global] Arguments FormatInt _ : simpl never.
