(* ===== verification/Host.v ===== *)
(** The machine the plugin runs on, as its Go code sees it: file-system reads
    answered by a kernel that may change between any two calls, the clock and
    the log. *)
From S2P Require Import Prelude GoStd.
Open Scope string_scope.

Record FileInfo := { fi_dir : bool; fi_perm : N }.
Record DirEntry := { de_name : string; de_dir : bool }.

(** What the kernel answers at one instant. *)
Record OSView := {
  v_read : string -> errno + string;
  v_readlink : string -> errno + string;
  v_stat : string -> errno + FileInfo;
  v_lstat : string -> errno + FileInfo;
  v_readdir : string -> errno + list DirEntry;
  v_realpath : string -> errno + string;
}.

(** The history of the machine: its answer to the [n]-th call, and the time in
    nanoseconds that call takes. Nothing relates two instants, so that every
    theorem covers devices that come, go and are rebound while a scan runs. *)
Class Host := {
  host_at : nat -> OSView;
  host_delay : nat -> N;
}.

Inductive Level := LTrace | LDebug | LInfo | LWarn | LError.
Record LogRec := { lr_level : Level; lr_msg : string }.

Record Sys := { clk : nat; now : N; logs : list LogRec }.

Definition sys_start : Sys := {| clk := 0; now := 0; logs := [] |}.

(** ** System calls, time and log *)

Definition log (l : Level) (msg : string) : M Sys unit :=
  modify (fun s => {| clk := clk s; now := now s;
                      logs := (logs s ++ [{| lr_level := l; lr_msg := msg |}])%list |}).

Definition os_result {A} (op path : string) (r : errno + A) : res A :=
  match r with inr a => Ok a | inl no => Err (ErrPath op path no) end.

Section host.
Context {hst : Host}.

Definition tick (s : Sys) : Sys :=
  {| clk := S (clk s); now := now s + host_delay (clk s); logs := logs s |}.

Definition os_call {A} (op path : string) (f : OSView -> errno + A) : M Sys A :=
  fun s => (tick s, os_result op path (f (host_at (clk s)))).

Definition os_ReadFile (p : string) : M Sys string := os_call "open" p (fun v => v_read v p).
Definition os_Readlink (p : string) : M Sys string := os_call "readlink" p (fun v => v_readlink v p).
Definition os_Stat (p : string) : M Sys FileInfo := os_call "stat" p (fun v => v_stat v p).
Definition os_Lstat (p : string) : M Sys FileInfo := os_call "lstat" p (fun v => v_lstat v p).
Definition os_ReadDir (p : string) : M Sys (list DirEntry) := os_call "open" p (fun v => v_readdir v p).
Definition EvalSymlinks (p : string) : M Sys string := os_call "lstat" p (fun v => v_realpath v p).

Definition time_Now : M Sys N := gets now.
(** [time.Sleep(d)] returns after at least [d] nanoseconds. *)
Definition time_Sleep (d : N) : M Sys unit :=
  modify (fun s => {| clk := S (clk s); now := now s + d + host_delay (clk s); logs := logs s |}).

(** ** Facts observed during a run *)

(** At some instant between [s] and [s'] the machine showed [P]. *)
Definition observed (s s' : Sys) (P : OSView -> Prop) : Prop :=
  exists t, (clk s <= t < clk s')%nat /\ P (host_at t).

(** The machine does not change. *)
Definition steady (v : OSView) : Prop := forall t, host_at t = v.
(** It no longer changes from the instant [T] on. *)
Definition steady_from (T : nat) (v : OSView) : Prop := forall t, (T <= t)%nat -> host_at t = v.
End host.

(** The records by which the discovery reports the state of its scans (scan.go,
    and NewDeviceState in state.go for the native half of the start). *)
Definition scan_messages : list string :=
  ["Device scan failed, keeping last inventory"; "Device scan recovered";
   "NPU enumeration failed, keeping last inventory"; "NPU enumeration recovered";
   "rbln-smi enumeration failed, starting without native devices";
   "Discarding inconsistent device scan"; "Device inventory changed, republishing resources";
   "Scanned device inventory"; "Device scan slower than its interval";
   "Device scan duration back under its interval"].
Definition scan_record (r : LogRec) : Prop := lr_msg r ∈ scan_messages.
#[export] Instance scan_record_dec r : Decision (scan_record r).
Proof. unfold scan_record. apply _. Defined.

(** Later: more calls made, time passed, records appended, none of them one of
    the scan loop's own. *)
Definition sys_le (s s' : Sys) : Prop :=
  (clk s <= clk s')%nat /\ (now s <= now s')%N /\ logs s `prefix_of` logs s' /\
  filter scan_record (logs s') = filter scan_record (logs s).

(** No earlier, in calls made. *)
Definition later (s s' : Sys) : Prop := (clk s <= clk s')%nat.

(** ** A machine given by a table, for concrete inputs *)

Inductive fnode := FFile (content : string) | FLink (target : string) | FDir (names : list string) | FBad (no : errno).

Fixpoint table_find (l : list (string * fnode)) (p : string) : option fnode :=
  match l with
  | [] => None
  | (q, n) :: l' => if decide (p = q) then Some n else table_find l' p
  end.

Definition plain_info (d : bool) : FileInfo := {| fi_dir := d; fi_perm := 493 |}.

(** Paths are looked up as written; a name under a listed directory exists. *)
Definition table_view (l : list (string * fnode)) : OSView := {|
  v_read p := match table_find l p with
              | Some (FFile c) => inr c | Some (FBad no) => inl no
              | Some _ => inl EIO | None => inl ENOENT end;
  v_readlink p := match table_find l p with
                  | Some (FLink t) => inr t | Some (FBad no) => inl no
                  | Some _ => inl EIO | None => inl ENOENT end;
  v_stat p := match table_find l p with
              | Some (FDir _) => inr (plain_info true) | Some (FBad no) => inl no
              | Some _ => inr (plain_info false) | None => inl ENOENT end;
  v_lstat p := match table_find l p with
               | Some (FDir _) => inr (plain_info true) | Some (FBad no) => inl no
               | Some _ => inr (plain_info false) | None => inl ENOENT end;
  v_readdir p := match table_find l p with
                 | Some (FDir ns) => inr (map (fun n => {| de_name := n; de_dir := true |}) ns)
                 | Some (FBad no) => inl no
                 | Some _ => inl ENOTDIR | None => inl ENOENT end;
  v_realpath p := match table_find l p with
                  | Some (FLink t) => inr t | Some (FBad no) => inl no
                  | Some _ => inr p | None => inl ENOENT end;
|}.
Definition table_host (l : list (string * fnode)) : Host :=
  {| host_at _ := table_view l; host_delay _ := 0%N |}.
(** [l1] until call [n], [l2] from then on. *)
Definition switch_host (n : nat) (l1 l2 : list (string * fnode)) : Host :=
  {| host_at t := if decide (t < n)%nat then table_view l1 else table_view l2;
     host_delay _ := 0%N |}.

(** ** Lemmas *)

#[export] Instance sys_le_preorder : PreOrder sys_le.
Proof.
  split.
  - intros s. split_and!; [done|lia|done|done].
  - intros s1 s2 s3 (?&?&?&?) (?&?&?&?). split_and!; [lia|lia|by etrans|by etrans].
Qed.

#[export] Instance log_respects l m :
  TCEq (bool_decide (m ∈ scan_messages)) false -> Respects sys_le (log l m).
Proof.
  intros Hm%TCEq_eq%bool_decide_eq_false s. split_and!; simpl; [lia|lia|by eexists|].
  rewrite filter_app, filter_cons_False, filter_nil by done. by rewrite app_nil_r.
Qed.

#[export] Instance later_preorder : PreOrder later.
Proof. unfold later. split; [intros ?; lia|intros ???; lia]. Qed.
Lemma sys_le_later s s' : sys_le s s' -> later s s'.
Proof. by intros [? _]. Qed.
#[export] Hint Resolve sys_le_later : npu.

Section host_lemmas.
Context {hst : Host}.

#[export] Instance os_call_respects {A} op p (f : OSView -> errno + A) :
  Respects sys_le (os_call op p f).
Proof. intros s. split_and!; simpl; [lia|lia|done|done]. Qed.
#[export] Instance os_ReadFile_respects p : Respects sys_le (os_ReadFile p).
Proof. apply _. Qed.
#[export] Instance os_Readlink_respects p : Respects sys_le (os_Readlink p).
Proof. apply _. Qed.
#[export] Instance os_Stat_respects p : Respects sys_le (os_Stat p).
Proof. apply _. Qed.
#[export] Instance os_Lstat_respects p : Respects sys_le (os_Lstat p).
Proof. apply _. Qed.
#[export] Instance os_ReadDir_respects p : Respects sys_le (os_ReadDir p).
Proof. apply _. Qed.
#[export] Instance EvalSymlinks_respects p : Respects sys_le (EvalSymlinks p).
Proof. apply _. Qed.
#[export] Instance time_Now_respects : Respects sys_le time_Now.
Proof. apply _. Qed.
#[export] Instance time_Sleep_respects d : Respects sys_le (time_Sleep d).
Proof. intros s. split_and!; simpl; [lia|lia|done|done]. Qed.

Lemma observed_widen s s1 s2 s' P :
  later s s1 -> later s2 s' -> observed s1 s2 P -> observed s s' P.
Proof. unfold later. intros ? ? (t & ? & ?). exists t. split; [lia|done]. Qed.

Lemma observed_mono s s' (P Q : OSView -> Prop) :
  (forall v, P v -> Q v) -> observed s s' P -> observed s s' Q.
Proof. intros HPQ (t & ? & ?). exists t. auto. Qed.

Lemma observed_steady v s s' P : steady v -> observed s s' P -> P v.
Proof. intros Hv (t & _ & HP). by rewrite Hv in HP. Qed.

Lemma os_call_observed {A} op p (f : OSView -> errno + A) s s' r :
  os_call op p f s = (s', r) -> observed s s' (fun v => os_result op p (f v) = r).
Proof. intros [= <- <-]. exists (clk s). simpl. split; [lia|done]. Qed.

Lemma os_result_Ok {A} op p (r : errno + A) a : os_result op p r = Ok a <-> r = inr a.
Proof. destruct r; naive_solver. Qed.

Lemma os_result_Err {A} op p (r : errno + A) e :
  os_result op p r = Err e <-> exists no, r = inl no /\ e = ErrPath op p no.
Proof. destruct r; naive_solver. Qed.

(** What one system call says about the machine. *)
Lemma os_call_Ok {A} op p (f : OSView -> errno + A) s s' a :
  os_call op p f s = (s', Ok a) -> observed s s' (fun v => f v = inr a).
Proof.
  intros H%os_call_observed. eapply observed_mono, H. intros v. by rewrite os_result_Ok.
Qed.

Lemma os_call_Err {A} op p (f : OSView -> errno + A) s s' e :
  os_call op p f s = (s', Err e) ->
  exists no, e = ErrPath op p no /\ observed s s' (fun v => f v = inl no).
Proof.
  intros Hc%os_call_observed. destruct Hc as (t & Ht & (no & Hno & ->)%os_result_Err).
  exists no. split; [done|]. by exists t.
Qed.

Lemma os_call_ENOENT {A} op p (f : OSView -> errno + A) s s' e :
  os_call op p f s = (s', Err e) -> is_not_exist e = true ->
  observed s s' (fun v => f v = inl ENOENT).
Proof.
  intros (no & -> & Ho)%os_call_Err He. simpl in He. apply bool_decide_eq_true in He. by subst.
Qed.
End host_lemmas.
#[export] Hint Resolve observed_widen observed_mono os_call_Ok : npu.

(** Learn from each run in the context that its states are ordered, then chain. *)
Ltac learn_le :=
  repeat match goal with
  | H : ?m ?s1 = (?s2, _) |- _ =>
      lazymatch type of s1 with Sys => idtac end;
      lazymatch goal with
      | _ : sys_le s1 s2 |- _ => fail
      | _ => assert (sys_le s1 s2) by (eapply (respects_run sys_le); [|exact H]; apply _)
      end
  end.
Ltac sys_chain :=
  solve [ repeat match goal with H : sys_le _ _ |- _ => destruct H as (H & _) end;
          unfold later in *; simpl in *; lia ].
(** Close [observed s s' P] by a run inside the interval, through [lem]. *)
Tactic Notation "obs" uconstr(lem) :=
  learn_le; eapply observed_widen; cycle 2; [eapply lem; eassumption|sys_chain|sys_chain].

(** Errors of system calls carry no sentinel of the program. *)
Class Unmarked {S A} (x : sentinel) (m : M S A) : Prop :=
  unmarked s s' e : m s = (s', Err e) -> errors_Is e x = false.

#[export] Instance os_call_unmarked {hst : Host} {A} x op p (f : OSView -> errno + A) :
  Unmarked x (os_call op p f).
Proof. intros s s' e (no & -> & _)%os_call_Err. done. Qed.
#[export] Instance ret_unmarked {S A} x (a : A) : Unmarked (S:=S) x (ret a).
Proof. intros s s' e H. minv. Qed.
#[export] Instance bind_unmarked {S A B} x (m : M S A) (k : A -> M S B) :
  Unmarked x m -> (forall a, Unmarked x (k a)) -> Unmarked x (bind m k).
Proof. intros Hm Hk s s' e H. minv; [by eapply Hm|by eapply Hk]. Qed.
#[export] Instance try_unmarked {S A} x (m : M S A) : Unmarked x (try m).
Proof. intros s s' e H. minv. Qed.
#[export] Instance wrap_err_unmarked {S A} x b a (m : M S A) :
  Unmarked x m -> Unmarked x (wrap_err (fun e => ErrWrap b e a) m).
Proof. intros Hm s s' e H. minv. simpl. by eapply Hm. Qed.
#[export] Instance log_unmarked x l m : Unmarked x (log l m).
Proof. intros s s' e [=]. Qed.

(** Refute that the error of a run in the context is the sentinel. *)
Ltac not_marked :=
  match goal with
  | H : ?m ?s = (_, Err ?e), He : errors_Is ?e ?x = true |- _ =>
      exfalso; pose proof (@unmarked _ _ x m _ s _ e H); congruence
  end.

Section unmarked_calls.
Context {hst : Host} (x : sentinel).
#[export] Instance os_ReadFile_unmarked p : Unmarked x (os_ReadFile p) := os_call_unmarked _ _ _ _.
#[export] Instance os_Readlink_unmarked p : Unmarked x (os_Readlink p) := os_call_unmarked _ _ _ _.
#[export] Instance os_Stat_unmarked p : Unmarked x (os_Stat p) := os_call_unmarked _ _ _ _.
#[export] Instance os_Lstat_unmarked p : Unmarked x (os_Lstat p) := os_call_unmarked _ _ _ _.
#[export] Instance os_ReadDir_unmarked p : Unmarked x (os_ReadDir p) := os_call_unmarked _ _ _ _.
End unmarked_calls.
(** The same, leaving the implication between what was seen and the goal. *)
Tactic Notation "obsw" uconstr(lem) :=
  learn_le; eapply observed_widen; cycle 2;
  [eapply observed_mono; cycle 1; [eapply lem; eassumption|]|sys_chain|sys_chain].
