(* ===== verification/PciSysfs.v ===== *)
(** PCI sysfs access (cmd/npu-kubelet-plugin/pci_sysfs.go). *)
From S2P Require Import Prelude GoStd Host.
Open Scope string_scope.

Definition sysfsPCIDevicesRoot : string := "/sys/bus/pci/devices".
Definition nativePCIDriverName : string := "rebellions".
Definition rblnPCIVendorID : string := "0x1eff".

(** [^[0-9a-fA-F]{4}:[0-9a-fA-F]{2}:[0-9a-fA-F]{2}\.[0-7]$] *)
Definition pciAddressClasses : list (ascii -> bool) :=
  [is_hex; is_hex; is_hex; is_hex; is_char ":"; is_hex; is_hex; is_char ":";
   is_hex; is_hex; is_char "."; is_oct].
Definition pciAddressRegexp (s : string) : bool := match_classes pciAddressClasses s.

(** [^pci[0-9a-fA-F]{4}:[0-9a-fA-F]{2}$] *)
Definition pciRootRegexp (s : string) : bool :=
  match_classes [is_char "p"; is_char "c"; is_char "i"; is_hex; is_hex; is_hex; is_hex;
                 is_char ":"; is_hex; is_hex] s.

Section pci_sysfs.
Context {hst : Host}.

Definition readSysfsValue (devPath name : string) : M Sys string :=
  let! data := os_ReadFile (Join [devPath; name]) in
  ret (TrimSpace data).

Definition readSysfsLinkBase (devPath name : string) : M Sys string :=
  let! target := os_Readlink (Join [devPath; name]) in
  ret (Base target).

Definition pciEntryRemoved (devPath : string) (e : err) : M Sys bool :=
  if negb (is_not_exist e) then ret false else
  let? r := os_Stat devPath in
  ret (match r with Err statErr => is_not_exist statErr | Ok _ => false end).

(** [known] is the set of lowercased addresses mapped to true. *)
Definition isRebellionsPCI (devPath : string) (known : gset string) : M Sys bool :=
  let? r := readSysfsValue devPath "vendor" in
  match r with
  | Err e =>
      if bool_decide (ToLower (Base devPath) ∈ known) then
        let! removed := pciEntryRemoved devPath e in
        if negb removed
        then throw (ErrWrap ("read vendor for known NPU " +:+ Base devPath +:+ ": ") e "")
        else ret false
      else ret false
  | Ok vendor => ret (EqualFold vendor rblnPCIVendorID)
  end.

Definition readPCIDriver (devPath : string) : M Sys string :=
  let? r := readSysfsLinkBase devPath "driver" in
  match r with
  | Err e => if is_not_exist e then ret "" else throw e
  | Ok driver => ret driver
  end.

Definition resolvePCIERootID (root busID : string) : M Sys string :=
  let! resolvedPath := EvalSymlinks (Join [root; ToLower busID]) in
  ret (default "" (List.find pciRootRegexp (Split "/" (Clean resolvedPath)))).

(** ** What the machine shows, one attribute at a time *)

Definition value_is (devPath name v : string) (k : OSView) : Prop :=
  exists data, v_read k (Join [devPath; name]) = inr data /\ TrimSpace data = v.
Definition value_fails (devPath name : string) (no : errno) (k : OSView) : Prop :=
  v_read k (Join [devPath; name]) = inl no.
Definition link_is (devPath name b : string) (k : OSView) : Prop :=
  exists target, v_readlink k (Join [devPath; name]) = inr target /\ Base target = b.
Definition link_fails (devPath name : string) (no : errno) (k : OSView) : Prop :=
  v_readlink k (Join [devPath; name]) = inl no.
Definition is_rebellions (devPath : string) (k : OSView) : Prop :=
  exists v, value_is devPath "vendor" v k /\ EqualFold v rblnPCIVendorID = true.
Definition driver_is (devPath d : string) (k : OSView) : Prop :=
  link_is devPath "driver" d k \/ (d = "" /\ link_fails devPath "driver" ENOENT k).

#[export] Instance readSysfsValue_respects p n : Respects sys_le (readSysfsValue p n).
Proof. unfold readSysfsValue. solve_respects. Qed.
#[export] Instance readSysfsLinkBase_respects p n : Respects sys_le (readSysfsLinkBase p n).
Proof. unfold readSysfsLinkBase. solve_respects. Qed.
#[export] Instance pciEntryRemoved_respects p e : Respects sys_le (pciEntryRemoved p e).
Proof. unfold pciEntryRemoved. solve_respects. Qed.
#[export] Instance isRebellionsPCI_respects p k : Respects sys_le (isRebellionsPCI p k).
Proof. unfold isRebellionsPCI. solve_respects. Qed.
#[export] Instance readPCIDriver_respects p : Respects sys_le (readPCIDriver p).
Proof. unfold readPCIDriver. solve_respects. Qed.
#[export] Instance resolvePCIERootID_respects r b : Respects sys_le (resolvePCIERootID r b).
Proof. unfold resolvePCIERootID. solve_respects. Qed.

#[export] Instance readSysfsValue_unmarked x p n : Unmarked x (readSysfsValue p n).
Proof. unfold readSysfsValue. apply _. Qed.
#[export] Instance readSysfsLinkBase_unmarked x p n : Unmarked x (readSysfsLinkBase p n).
Proof. unfold readSysfsLinkBase. apply _. Qed.
#[export] Instance readPCIDriver_unmarked x p : Unmarked x (readPCIDriver p).
Proof.
  unfold readPCIDriver. intros s s' e H. msplit. by eapply readSysfsLinkBase_unmarked.
Qed.
#[export] Instance pciEntryRemoved_unmarked x p e : Unmarked x (pciEntryRemoved p e).
Proof. unfold pciEntryRemoved. intros s s' e' H. msplit. Qed.
#[export] Instance isRebellionsPCI_unmarked x p k : Unmarked x (isRebellionsPCI p k).
Proof.
  unfold isRebellionsPCI. intros s s' e H. msplit; [by eapply pciEntryRemoved_unmarked|].
  simpl. by eapply readSysfsValue_unmarked.
Qed.

Lemma readSysfsValue_Ok p n s s' v :
  readSysfsValue p n s = (s', Ok v) -> observed s s' (value_is p n v).
Proof.
  unfold readSysfsValue. intros H. minv. eapply observed_mono; [|by eapply os_call_Ok].
  intros k Hk. eexists. split; [exact Hk|done].
Qed.

Lemma readSysfsValue_Err p n s s' e :
  readSysfsValue p n s = (s', Err e) ->
  exists no, e = ErrPath "open" (Join [p; n]) no /\ observed s s' (value_fails p n no).
Proof. unfold readSysfsValue. intros H. minv. by apply os_call_Err. Qed.

Lemma readSysfsLinkBase_Ok p n s s' b :
  readSysfsLinkBase p n s = (s', Ok b) -> observed s s' (link_is p n b).
Proof.
  unfold readSysfsLinkBase. intros H. minv. eapply observed_mono; [|by eapply os_call_Ok].
  intros k Hk. eexists. split; [exact Hk|done].
Qed.

Lemma readSysfsLinkBase_Err p n s s' e :
  readSysfsLinkBase p n s = (s', Err e) ->
  exists no, e = ErrPath "readlink" (Join [p; n]) no /\ observed s s' (link_fails p n no).
Proof. unfold readSysfsLinkBase. intros H. minv. by apply os_call_Err. Qed.

Lemma isRebellionsPCI_true p known s s' :
  isRebellionsPCI p known s = (s', Ok true) -> observed s s' (is_rebellions p).
Proof.
  unfold isRebellionsPCI. intros H. msplit.
  eapply observed_mono; [|by eapply readSysfsValue_Ok]. intros k Hk. eexists. split; [exact Hk|done].
Qed.

Lemma readPCIDriver_Ok p s s' d :
  readPCIDriver p s = (s', Ok d) -> observed s s' (driver_is p d).
Proof.
  unfold readPCIDriver. intros H. msplit.
  - eapply observed_mono; [|by eapply readSysfsLinkBase_Ok]. intros k Hk. by left.
  - match goal with
    | H : readSysfsLinkBase _ _ _ = _ |- _ =>
        apply readSysfsLinkBase_Err in H as (no & -> & Ho)
    end.
    simpl in *. case_bool_decide; [|done]. subst.
    eapply observed_mono; [|exact Ho]. intros k Hk. by right.
Qed.

(** ** Why a function may be left out *)

Definition entry_gone (devPath : string) (k : OSView) : Prop := v_stat k devPath = inl ENOENT.
Definition other_vendor (devPath : string) (k : OSView) : Prop :=
  exists v, value_is devPath "vendor" v k /\ EqualFold v rblnPCIVendorID = false.

(** The function is no Rebellions one, or it is unknown and its vendor cannot
    be read, or it is gone. *)
Definition vendor_excuse (devPath : string) (known : gset string) (s s' : Sys) : Prop :=
  observed s s' (other_vendor devPath) \/
  (ToLower (Base devPath) ∉ known /\ exists no, observed s s' (value_fails devPath "vendor" no)) \/
  observed s s' (entry_gone devPath).

Lemma pciEntryRemoved_true p e s s' :
  pciEntryRemoved p e s = (s', Ok true) ->
  is_not_exist e = true /\ observed s s' (entry_gone p).
Proof.
  unfold pciEntryRemoved. intros H. destruct (is_not_exist e); [split; [done|]|by minv].
  cbn [negb] in H. minv.
  match goal with H : os_Stat _ _ = (_, ?r) |- _ =>
    destruct r; [done|]; apply os_call_Err in H as (no & -> & Ho) end.
  simpl in *. case_bool_decide; [by subst|done].
Qed.

Lemma isRebellionsPCI_false p known s s' :
  isRebellionsPCI p known s = (s', Ok false) -> vendor_excuse p known s s'.
Proof.
  unfold isRebellionsPCI, vendor_excuse. intros H. msplit.
  - left. obsw readSysfsValue_Ok. intros k Hk. eexists. split; [exact Hk|done].
  - right; right.
    match goal with H : pciEntryRemoved _ _ _ = _ |- _ =>
      apply pciEntryRemoved_true in H as [_ Ho] end.
    learn_le. eapply observed_widen; [..|exact Ho]; sys_chain.
  - right; left. split; [done|].
    match goal with H : readSysfsValue _ _ _ = _ |- _ =>
      apply readSysfsValue_Err in H as (no & _ & Ho) end. by exists no.
Qed.

Lemma vendor_excuse_widen p known s s1 s2 s' :
  later s s1 -> later s2 s' -> vendor_excuse p known s1 s2 -> vendor_excuse p known s s'.
Proof.
  intros H1 H2 [H|[[Hk [no H]]|H]]; [left|right; left; split; [done|exists no]|right; right];
    by eapply observed_widen.
Qed.
End pci_sysfs.

(** ** PCI addresses *)

Lemma pciAddress_plain s : pciAddressRegexp s = true -> plain_name s.
Proof.
  intros H. pose proof (match_classes_length _ _ H) as Hl. simpl in Hl.
  split_and!; [by intros ->|by intros ->|by intros ->|].
  eapply match_classes_sep_free, H. unfold pciAddressClasses. repeat constructor; done.
Qed.

Lemma pciAddress_ToLower s : pciAddressRegexp s = true -> pciAddressRegexp (ToLower s) = true.
Proof.
  apply match_classes_smap. unfold pciAddressClasses.
  repeat first [apply Forall_nil_2 | apply Forall_cons_2];
    intros [[] [] [] [] [] [] [] []]; done.
Qed.

(** The entry's own name is the last element of its sysfs path. *)
Lemma Base_devPath ws s :
  Forall plain_name ws -> pciAddressRegexp s = true ->
  Base (Join [abs_path ws; s]) = s.
Proof.
  intros Hws Hs%pciAddress_plain. rewrite Join_abs by (repeat constructor; done || apply Hs).
  by apply Base_abs_path.
Qed.

#[export] Hint Resolve readSysfsValue_Ok readSysfsLinkBase_Ok readPCIDriver_Ok
  isRebellionsPCI_true pciAddress_plain pciAddress_ToLower : npu.
