(* ===== verification/Device.v ===== *)
(** Published devices: the fields of resourceapi.Device the driver uses, and
    the attribute helpers of cmd/npu-kubelet-plugin/state.go and vfio.go. *)
From S2P Require Import Prelude GoStd Host PciSysfs.
Open Scope string_scope.

(** resourceapi.DeviceAttribute: one pointer field is set in each. *)
Record Attr := { StringValue : option string; IntValue : option Z; BoolValue : option bool }.
Definition strAttr (s : string) : Attr := {| StringValue := Some s; IntValue := None; BoolValue := None |}.
Definition intAttr (z : Z) : Attr := {| StringValue := None; IntValue := Some z; BoolValue := None |}.
Definition boolAttr (b : bool) : Attr := {| StringValue := None; IntValue := None; BoolValue := Some b |}.

(** resourceapi.Device; a capacity is a quantity in its base unit. *)
Record Device := {
  Name : string;
  Attributes : gmap string Attr;
  Capacity : gmap string Z;
}.
#[export] Instance Attr_eq_dec : EqDecision Attr.
Proof. solve_decision. Defined.
#[export] Instance Device_eq_dec : EqDecision Device.
Proof. solve_decision. Defined.

Definition pciBusIDAttributeKey : string := "resource.kubernetes.io/pciBusID".
Definition pcieRootAttributeKey : string := "resource.kubernetes.io/pcieRoot".
Definition numaNodeAttributeKey : string := "resource.kubernetes.io/numaNode".
Definition dranetNumaNodeAttributeKey : string := "dra.net/numaNode".
Definition deviceTypeAttributeKey : string := "type".
Definition vfAttributeKey : string := "vf".
Definition iommuGroupAttributeKey : string := "iommuGroup".
Definition parentPCIBusIDAttributeKey : string := "parentPCIBusID".
Definition partitionModeAttributeKey : string := "partitionMode".
Definition numVFsAttributeKey : string := "numVFs".
Definition deviceNodeNameAttributeKey : string := "deviceNodeName".

Definition deviceTypeNpu : string := "npu".
Definition deviceTypeNpuVF : string := "npu-vf".
Definition deviceTypeVfio : string := "vfio".

Definition deviceStringAttr (d : Device) (key : string) : string :=
  match Attributes d !! key with
  | Some attr => match StringValue attr with Some v => v | None => "" end
  | None => ""
  end.
(** [any]: nil is [None]. *)
Definition deviceIntAttr (d : Device) (key : string) : option Z :=
  match Attributes d !! key with Some attr => IntValue attr | None => None end.
Definition deviceBoolAttr (d : Device) (key : string) : option bool :=
  match Attributes d !! key with Some attr => BoolValue attr | None => None end.

Definition devicePCIBusID (d : Device) : res string :=
  let missing := Err (ErrText ("allocatable device " +:+ quote (Name d) +:+
                               " is missing attribute " +:+ pciBusIDAttributeKey)) in
  match Attributes d !! pciBusIDAttributeKey with
  | Some attr =>
      match StringValue attr with
      | Some v => if bool_decide (v = "") then missing else Ok v
      | None => missing
      end
  | None => missing
  end.

Definition isVfioDevice (d : Device) : bool :=
  match Attributes d !! deviceTypeAttributeKey with
  | Some attr => match StringValue attr with
                 | Some v => bool_decide (v = deviceTypeVfio)
                 | None => false
                 end
  | None => false
  end.

Definition setNumaNodeAttr (attrs : gmap string Attr) (deviceName numaNode : string)
    : M Sys (gmap string Attr) :=
  if bool_decide (numaNode = "") then ret attrs else
  let noAffinity := bool_decide (numaNode = "N/A") in
  match ParseInt numaNode, noAffinity with
  | Err _, false =>
      do! log LWarn "Ignoring unparseable NUMA node" in
      ret attrs
  | Ok v, false =>
      if bool_decide (v < 0)%Z then
        do! log LDebug "Device reports no NUMA affinity, omitting numaNode attribute" in
        ret attrs
      else ret (<[dranetNumaNodeAttributeKey := intAttr v]> (<[numaNodeAttributeKey := intAttr v]> attrs))
  | _, true =>
      do! log LDebug "Device reports no NUMA affinity, omitting numaNode attribute" in
      ret attrs
  end.

(** Device identity lives in its name: [deviceNameDelta] compares two
    inventories by it, through [equality.Semantic.DeepEqual]. *)
Class SemanticEqual (A : Type) := {
  DeepEqual : A -> A -> bool;
  DeepEqual_spec a b : DeepEqual a b = true <-> a = b;
}.

(** [byName[d.Name] = d] for each device in turn: the last one of a name wins. *)
Definition index_by_name (devices : list Device) : gmap string Device :=
  foldl (fun m d => <[Name d := d]> m) ∅ devices.

Section delta.
Context `{!SemanticEqual Device}.

Definition deviceNameDelta (prev next : list Device) : list string * list string * list string :=
  let prevByName := index_by_name prev in
  let nextByName := index_by_name next in
  let added := omap (fun d => match prevByName !! Name d with
                              | None => Some (Name d) | Some _ => None end) next in
  let changed := omap (fun d => match prevByName !! Name d with
                                | None => None
                                | Some p => if DeepEqual p d then None else Some (Name d)
                                end) next in
  let removed := omap (fun d => match nextByName !! Name d with
                                | None => Some (Name d) | Some _ => None end) prev in
  (added, removed, changed).
End delta.

Section pcie_root.
Context {hst : Host}.

(** The map is updated in place and the value set is returned, or the empty
    string. *)
Definition setPCIERootAttr (attrs : gmap string Attr) (deviceName sysfsRoot busID : string)
    : M Sys (gmap string Attr * string) :=
  let? r := resolvePCIERootID sysfsRoot busID in
  let r := match r with
           | Ok "" => Err (ErrText "no pci<domain>:<bus> segment in the device path")
           | _ => r
           end in
  match r with
  | Err _ =>
      do! log LWarn "Ignoring unresolvable PCIe root" in
      ret (attrs, "")
  | Ok pcieRoot => ret (<[pcieRootAttributeKey := strAttr pcieRoot]> attrs, pcieRoot)
  end.

#[export] Instance setPCIERootAttr_respects a d r b : Respects sys_le (setPCIERootAttr a d r b).
Proof. unfold setPCIERootAttr. solve_respects. Qed.
End pcie_root.

#[export] Instance setNumaNodeAttr_respects a d n : Respects sys_le (setNumaNodeAttr a d n).
Proof. unfold setNumaNodeAttr. solve_respects. Qed.

(** ** Lemmas *)

#[export] Instance SemanticEqual_dec {A} `{!EqDecision A} : SemanticEqual A | 100.
Proof.
  refine {| DeepEqual a b := bool_decide (a = b) |}.
  intros a b. apply bool_decide_eq_true.
Defined.

Lemma setNumaNodeAttr_other attrs name numa s s' attrs' key :
  setNumaNodeAttr attrs name numa s = (s', Ok attrs') ->
  key <> numaNodeAttributeKey -> key <> dranetNumaNodeAttributeKey ->
  attrs' !! key = attrs !! key.
Proof.
  unfold setNumaNodeAttr. intros H Hk1 Hk2. msplit; try done.
  by rewrite !lookup_insert_ne.
Qed.

Lemma setNumaNodeAttr_total attrs name numa s :
  exists s' attrs', setNumaNodeAttr attrs name numa s = (s', Ok attrs').
Proof. unfold setNumaNodeAttr. repeat case_match; do 2 eexists; reflexivity. Qed.

Lemma setPCIERootAttr_other {hst : Host} attrs name root bus s s' p key :
  setPCIERootAttr attrs name root bus s = (s', Ok p) ->
  key <> pcieRootAttributeKey -> p.1 !! key = attrs !! key.
Proof.
  unfold setPCIERootAttr. intros H Hk. minv.
  repeat case_match; minv; try done; simpl; by rewrite lookup_insert_ne.
Qed.

Lemma setPCIERootAttr_total {hst : Host} attrs name root bus s s' e :
  setPCIERootAttr attrs name root bus s <> (s', Err e).
Proof. unfold setPCIERootAttr. intros H. minv. repeat case_match; minv. Qed.

Lemma index_by_name_foldl devices (m : gmap string Device) n :
  foldl (fun m d => <[Name d := d]> m) m devices !! n = None <->
  m !! n = None /\ n ∉ map Name devices.
Proof.
  revert m. induction devices as [|d ds IH]; intros m; simpl; [set_solver|].
  rewrite IH, lookup_insert. case_decide; set_solver.
Qed.

Lemma index_by_name_None devices n : index_by_name devices !! n = None <-> n ∉ map Name devices.
Proof. unfold index_by_name. rewrite index_by_name_foldl. set_solver. Qed.

Lemma index_by_name_foldl_Some devices (m : gmap string Device) n d :
  foldl (fun m d => <[Name d := d]> m) m devices !! n = Some d ->
  m !! n = Some d \/ (d ∈ devices /\ Name d = n).
Proof.
  revert m. induction devices as [|d0 ds IH]; intros m; simpl; [by left|].
  intros [H|[??]]%IH; [|set_solver].
  rewrite lookup_insert in H. case_decide; [|by left]. simplify_eq. set_solver.
Qed.

Lemma index_by_name_Some devices n d :
  index_by_name devices !! n = Some d -> d ∈ devices /\ Name d = n.
Proof. intros [H|H]%index_by_name_foldl_Some; [by rewrite lookup_empty in H|done]. Qed.

Lemma index_by_name_NoDup devices d :
  NoDup (map Name devices) -> d ∈ devices -> index_by_name devices !! Name d = Some d.
Proof.
  intros Hnd Hd. destruct (index_by_name devices !! Name d) as [d'|] eqn:E.
  - apply index_by_name_Some in E as [Hd' HN]. f_equal.
    apply list_elem_of_lookup in Hd as [i Hi], Hd' as [j Hj].
    assert (i = j) as ->; [|congruence].
    eapply (NoDup_lookup (map Name devices)); [done| |].
    + rewrite list_lookup_fmap, Hi. done.
    + rewrite list_lookup_fmap, Hj. simpl. by rewrite HN.
  - apply index_by_name_None in E. destruct E. by apply list_elem_of_fmap_2.
Qed.

(** ** Attributes that later steps leave alone *)

(** The attributes that identify a device to [Prepare]. *)
Definition identity_keys : list string :=
  [deviceTypeAttributeKey; pciBusIDAttributeKey; iommuGroupAttributeKey;
   parentPCIBusIDAttributeKey; deviceNodeNameAttributeKey;
   vfAttributeKey; partitionModeAttributeKey; numVFsAttributeKey].

Definition same_identity (m m' : gmap string Attr) : Prop :=
  forall k, k ∈ identity_keys -> m' !! k = m !! k.

Ltac identity_key := apply (bool_decide_unpack _); vm_compute; exact I.

#[export] Instance same_identity_preorder : PreOrder same_identity.
Proof. split; [done|]. intros m1 m2 m3 H12 H23 k Hk. by rewrite H23, H12. Qed.

Lemma same_identity_insert m k v : k ∉ identity_keys -> same_identity m (<[k := v]> m).
Proof. intros Hk k' Hk'. rewrite lookup_insert_ne; [done|by intros ->]. Qed.

Lemma setNumaNodeAttr_identity attrs name numa s s' attrs' :
  setNumaNodeAttr attrs name numa s = (s', Ok attrs') -> same_identity attrs attrs'.
Proof.
  intros H k Hk. eapply setNumaNodeAttr_other; [exact H| |]; intros ->; revert Hk; identity_key.
Qed.

Lemma setPCIERootAttr_identity {hst : Host} attrs name root bus s s' p :
  setPCIERootAttr attrs name root bus s = (s', Ok p) -> same_identity attrs p.1.
Proof.
  intros H k Hk. eapply setPCIERootAttr_other; [exact H|]; intros ->; revert Hk; identity_key.
Qed.
