(* ===== verification/Sriov.v ===== *)
(** SR-IOV classification of a PCI function (cmd/npu-kubelet-plugin/sriov.go). *)
From S2P Require Import Prelude GoStd Host PciSysfs Device.
Open Scope string_scope.

Record sriovInfo := { parentPCIBusID : string; numVFs : Z }.

Definition isVF (s : sriovInfo) : bool := bool_decide (parentPCIBusID s <> "").
Definition isHostingPF (s : sriovInfo) : bool := negb (isVF s) && bool_decide (0 < numVFs s)%Z.

Definition partitionMode (s : sriovInfo) : string :=
  if isVF s then "vf" +:+ FormatInt (numVFs s) else "none".

Definition deviceName (s : sriovInfo) (base : string) : string :=
  if isVF s then base +:+ "-" +:+ partitionMode s else base.

Definition setAttributes (s : sriovInfo) (attrs : gmap string Attr) : gmap string Attr :=
  let attrs := <[vfAttributeKey := boolAttr (isVF s)]> attrs in
  let attrs := if isVF s then <[parentPCIBusIDAttributeKey := strAttr (parentPCIBusID s)]> attrs
               else attrs in
  let attrs := <[partitionModeAttributeKey := strAttr (partitionMode s)]> attrs in
  <[numVFsAttributeKey := intAttr (numVFs s)]> attrs.

Section sriov.
Context {hst : Host}.

Definition readSRIOVNumVFs (devPath : string) : M Sys Z :=
  let! raw := readSysfsValue devPath "sriov_numvfs" in
  let invalid := ErrText ("invalid sriov_numvfs " +:+ quote raw +:+ " in " +:+ devPath) in
  match ParseInt raw with
  | Err _ => throw invalid
  | Ok n => if bool_decide (n < 0)%Z then throw invalid else ret n
  end.

Definition probeSRIOV (root busID : string) : M Sys sriovInfo :=
  if negb (pciAddressRegexp busID)
  then throw (ErrText ("invalid PCI address " +:+ quote busID)) else
  let devPath := Join [root; ToLower busID] in
  do! wrap_err (fun e => ErrWrap ("stat PCI device " +:+ busID +:+ ": ") e "") (os_Stat devPath) in
  let? physfn := os_Lstat (Join [devPath; "physfn"]) in
  match physfn with
  | Ok _ =>
      let! parent := wrap_err (fun e => ErrWrap ("read physfn of " +:+ busID +:+ ": ") e "")
                       (readSysfsLinkBase devPath "physfn") in
      if negb (pciAddressRegexp parent) || EqualFold parent busID
      then throw (ErrText ("invalid parent PF " +:+ quote parent +:+ " for VF " +:+ busID)) else
      let! numVFs := wrap_err (fun e => ErrWrap ("read parent PF " +:+ parent +:+ " for VF " +:+ busID +:+ ": ") e "")
                       (readSRIOVNumVFs (Join [root; parent])) in
      if bool_decide (numVFs <> 1%Z /\ numVFs <> 4%Z)
      then throw (ErrWrap "" (ErrSentinel ErrUnsupportedDevice)
                    (": PF " +:+ parent +:+ " has " +:+ FormatInt numVFs +:+ " VFs (expected 1 or 4)"))
      else ret {| parentPCIBusID := parent; numVFs := numVFs |}
  | Err statErr =>
      if negb (is_not_exist statErr)
      then throw (ErrWrap ("stat physfn of " +:+ busID +:+ ": ") statErr "") else
      let? r := readSRIOVNumVFs devPath in
      match r with
      | Err e => if is_not_exist e then ret {| parentPCIBusID := ""; numVFs := 0 |} else throw e
      | Ok numVFs =>
          if bool_decide (numVFs <> 0%Z /\ numVFs <> 1%Z /\ numVFs <> 4%Z)
          then throw (ErrWrap "" (ErrSentinel ErrUnsupportedDevice)
                        (": PF " +:+ busID +:+ " has " +:+ FormatInt numVFs +:+ " VFs (expected 0, 1 or 4)"))
          else ret {| parentPCIBusID := ""; numVFs := numVFs |}
      end
  end.

(** ** What the machine shows *)

Definition numvfs_is (devPath : string) (n : Z) (k : OSView) : Prop :=
  exists raw, value_is devPath "sriov_numvfs" raw k /\ ParseInt raw = Ok n /\ (0 <= n)%Z.
Definition numvfs_absent (devPath : string) (k : OSView) : Prop :=
  value_fails devPath "sriov_numvfs" ENOENT k.
Definition physfn_absent (devPath : string) (k : OSView) : Prop :=
  v_lstat k (Join [devPath; "physfn"]) = inl ENOENT.

(** The specification of a successful probe between [s] and [s']: what was
    seen justifies the verdict. *)
Definition sriov_seen (root busID : string) (info : sriovInfo) (s s' : Sys) : Prop :=
  let devPath := Join [root; ToLower busID] in
  if isVF info then
    pciAddressRegexp (parentPCIBusID info) = true /\
    ToLower (parentPCIBusID info) <> ToLower busID /\
    (numVFs info = 1 \/ numVFs info = 4)%Z /\
    observed s s' (link_is devPath "physfn" (parentPCIBusID info)) /\
    observed s s' (numvfs_is (Join [root; parentPCIBusID info]) (numVFs info))
  else
    parentPCIBusID info = "" /\
    observed s s' (physfn_absent devPath) /\
    (((numVFs info = 0 \/ numVFs info = 1 \/ numVFs info = 4)%Z /\
      observed s s' (numvfs_is devPath (numVFs info))) \/
     (numVFs info = 0%Z /\ observed s s' (numvfs_absent devPath))).

(** An unsupported layout was seen: a VF whose parent has neither 1 nor 4 VFs,
    or a PF that has neither 0, 1 nor 4. *)
Definition sriov_unsupported (root busID : string) (s s' : Sys) : Prop :=
  let devPath := Join [root; ToLower busID] in
  (exists parent n, pciAddressRegexp parent = true /\ ToLower parent <> ToLower busID /\
     observed s s' (link_is devPath "physfn" parent) /\
     observed s s' (numvfs_is (Join [root; parent]) n) /\ n <> 1%Z /\ n <> 4%Z) \/
  (observed s s' (physfn_absent devPath) /\
   exists n, observed s s' (numvfs_is devPath n) /\ n <> 0%Z /\ n <> 1%Z /\ n <> 4%Z).

(** The count in [devPath] could not be read, or is none. *)
Definition numvfs_bad (devPath : string) (e : err) (s s' : Sys) : Prop :=
  (exists no, is_not_exist e = bool_decide (no = ENOENT) /\ observed s s' (value_fails devPath "sriov_numvfs" no)) \/
  (is_not_exist e = false /\
   exists raw, observed s s' (value_is devPath "sriov_numvfs" raw) /\ ~ exists n, ParseInt raw = Ok n /\ (0 <= n)%Z).

(** The probe could not tell: no such function, or one of the reads it needs
    failed or gave no sense. *)
Definition sriov_unread (root busID : string) (s s' : Sys) : Prop :=
  let devPath := Join [root; ToLower busID] in
  pciAddressRegexp busID = false \/
  (exists no, observed s s' (fun k => v_stat k devPath = inl no)) \/
  (exists no, no <> ENOENT /\ observed s s' (fun k => v_lstat k (Join [devPath; "physfn"]) = inl no)) \/
  (exists no, observed s s' (link_fails devPath "physfn" no)) \/
  (exists parent, observed s s' (link_is devPath "physfn" parent) /\
     (pciAddressRegexp parent = false \/ ToLower parent = ToLower busID \/
      exists e, numvfs_bad (Join [root; parent]) e s s')) \/
  (observed s s' (physfn_absent devPath) /\ exists e, is_not_exist e = false /\ numvfs_bad devPath e s s').

#[export] Instance readSRIOVNumVFs_respects p : Respects sys_le (readSRIOVNumVFs p).
Proof. unfold readSRIOVNumVFs. solve_respects. Qed.
#[export] Instance probeSRIOV_respects r b : Respects sys_le (probeSRIOV r b).
Proof. unfold probeSRIOV. solve_respects. Qed.

Lemma readSRIOVNumVFs_Ok p s s' n :
  readSRIOVNumVFs p s = (s', Ok n) -> observed s s' (numvfs_is p n).
Proof.
  unfold readSRIOVNumVFs. intros H. msplit.
  eapply observed_mono; [|by eapply readSysfsValue_Ok].
  intros k Hk. eexists. split_and!; [done|done|lia].
Qed.

Lemma readSRIOVNumVFs_ENOENT p s s' e :
  readSRIOVNumVFs p s = (s', Err e) -> is_not_exist e = true ->
  observed s s' (numvfs_absent p).
Proof.
  unfold readSRIOVNumVFs. intros H He. msplit; try done.
  match goal with H : readSysfsValue _ _ _ = _ |- _ =>
    apply readSysfsValue_Err in H as (no & -> & Ho) end.
  simpl in He. apply bool_decide_eq_true in He. by subst.
Qed.

Lemma readSRIOVNumVFs_Err p s s' e : readSRIOVNumVFs p s = (s', Err e) -> numvfs_bad p e s s'.
Proof.
  unfold readSRIOVNumVFs. intros H. msplit.
  - match goal with H : readSysfsValue _ _ _ = _ |- _ => apply readSysfsValue_Err in H as (no & -> & Ho) end.
    left. exists no. by split.
  - right. split; [done|]. eexists. split; [by eapply readSysfsValue_Ok|]. intros (n & Hn & ?). rewrite E in Hn.
    injection Hn as ->. lia.
  - right. split; [done|]. eexists. split; [by eapply readSysfsValue_Ok|]. intros (n & Hn & ?). congruence.
Qed.
Lemma numvfs_bad_widen p e s s1 s2 s' :
  later s s1 -> later s2 s' -> numvfs_bad p e s1 s2 -> numvfs_bad p e s s'.
Proof.
  intros H1 H2 [(no & ? & ?)|(? & raw & ? & ?)]; [left; exists no|right; split; [done|]; exists raw];
    split; eauto using observed_widen.
Qed.

#[export] Instance readSRIOVNumVFs_unmarked x p : Unmarked x (readSRIOVNumVFs p).
Proof.
  unfold readSRIOVNumVFs. intros s s' e H. msplit; try done.
  by eapply readSysfsValue_unmarked.
Qed.
End sriov.

Section sriov_props.
Context {hst : Host}.

Lemma physfn_lstat_ENOENT p s s' e :
  os_Lstat (Join [p; "physfn"]) s = (s', Err e) -> is_not_exist e = true ->
  observed s s' (physfn_absent p).
Proof.
  apply os_call_ENOENT.
Qed.

(** A successful probe is justified by what the machine showed during it: a
    VF by its physfn link and its parent's count, a PF by the absence of the
    link and by its own count. *)
Lemma probeSRIOV_sound root busID s s' info :
  probeSRIOV root busID s = (s', Ok info) ->
  pciAddressRegexp busID = true /\ sriov_seen root busID info s s'.
Proof.
  unfold probeSRIOV. intros H. destruct (pciAddressRegexp busID); [|by minv]. split; [done|].
  cbn [negb] in H. msplit; unfold sriov_seen, isVF; simpl.
  - apply orb_false_elim in E as [Hp%negb_false_iff Hn%EqualFold_false].
    rewrite bool_decide_true by (by intros ->). split_and!; [done|done|lia| |].
    + obs readSysfsLinkBase_Ok.
    + obs readSRIOVNumVFs_Ok.
  - split_and!; [done| |left; split; [lia|]].
    + obs physfn_lstat_ENOENT.
    + obs readSRIOVNumVFs_Ok.
  - split_and!; [done| |right; split; [done|]].
    + obs physfn_lstat_ENOENT.
    + obs readSRIOVNumVFs_ENOENT.
Qed.

(** An unsupported layout is reported only after it was seen; every other error
    of a probe is a failed read or parse. *)
Lemma probeSRIOV_unsupported root busID s s' e :
  probeSRIOV root busID s = (s', Err e) -> errors_Is e ErrUnsupportedDevice = true ->
  sriov_unsupported root busID s s'.
Proof.
  unfold probeSRIOV, sriov_unsupported. intros H He.
  destruct (pciAddressRegexp busID); cbn [negb] in H; [|minv; done]. msplit; simpl in He; try done;
    try not_marked.
  - apply orb_false_elim in E as [Hp%negb_false_iff Hn%EqualFold_false]. left.
    eexists _, _. split_and!; [done|done|obs readSysfsLinkBase_Ok|obs readSRIOVNumVFs_Ok|lia|lia].
  - right. split; [obs physfn_lstat_ENOENT|].
    eexists. split_and!; [obs readSRIOVNumVFs_Ok|lia..].
Qed.
Lemma probeSRIOV_unread root busID s s' e :
  probeSRIOV root busID s = (s', Err e) -> errors_Is e ErrUnsupportedDevice = false ->
  sriov_unread root busID s s'.
Proof.
  unfold probeSRIOV, sriov_unread. intros H He.
  destruct (pciAddressRegexp busID); cbn [negb] in H; [right|by left]. msplit; simpl in He; try done.
  - match goal with H : os_Stat _ _ = _ |- _ => apply os_call_Err in H as (no & _ & Ho) end. left. eauto.
  - do 2 right; left. match goal with H : readSysfsLinkBase _ _ _ = _ |- _ =>
      pose proof (readSysfsLinkBase_Err _ _ _ _ _ H) as (no & _ & Ho) end.
    exists no. learn_le. eapply observed_widen; [..|exact Ho]; sys_chain.
  - do 3 right; left. eexists. split; [obs readSysfsLinkBase_Ok|].
    apply orb_true_elim in E as [?%negb_true_iff|?%EqualFold_true]; auto.
  - do 3 right; left. eexists. split; [obs readSysfsLinkBase_Ok|]. do 2 right. eexists.
    match goal with H : readSRIOVNumVFs _ _ = _ |- _ => pose proof (readSRIOVNumVFs_Err _ _ _ _ H) as Hb end.
    learn_le. eapply numvfs_bad_widen; [..|exact Hb]; sys_chain.
  - do 4 right. split; [obs physfn_lstat_ENOENT|]. eexists. split; [done|].
    match goal with H : readSRIOVNumVFs _ _ = _ |- _ => pose proof (readSRIOVNumVFs_Err _ _ _ _ H) as Hb end.
    learn_le. eapply numvfs_bad_widen; [..|exact Hb]; sys_chain.
  - right; left. match goal with H : os_Lstat _ _ = _ |- _ => pose proof (os_call_Err _ _ _ _ _ _ H) as (no & -> & Ho) end.
    exists no. split; [intros ->; done|]. learn_le. eapply observed_widen; [..|exact Ho]; sys_chain.
Qed.

(** C32: Every verdict of the SR-IOV probe is justified by what the machine
    showed during it. A VF is reported for a function whose physfn link names a
    different, well-formed parent with exactly 1 or 4 VFs; a PF for one without
    the link that shows 0, 1 or 4 VFs, or no count at all; a layout is called
    unsupported only for a VF whose parent was seen with another count than 1
    and 4, or a PF seen with another one than 0, 1 and 4; and any other error
    means an address that is none, or a read that failed or gave no sense. *)
Theorem probeSRIOV_verdict root busID s s' r :
  probeSRIOV root busID s = (s', r) ->
  match r with
  | Ok info => pciAddressRegexp busID = true /\ sriov_seen root busID info s s'
  | Err e => if errors_Is e ErrUnsupportedDevice then sriov_unsupported root busID s s'
             else sriov_unread root busID s s'
  end.
Proof.
  destruct r as [info|e]; intros H; [by apply probeSRIOV_sound|].
  destruct (errors_Is e _) eqn:He; [by eapply probeSRIOV_unsupported|by eapply probeSRIOV_unread].
Qed.
End sriov_props.

Lemma sriov_unsupported_widen {hst : Host} root busID s s1 s2 s' :
  later s s1 -> later s2 s' -> sriov_unsupported root busID s1 s2 -> sriov_unsupported root busID s s'.
Proof.
  intros H1 H2 [(p & n & Hp & Hn & Ho & Hv & Hc)|(Ho & n & Hv & Hc)].
  - left. exists p, n. do 2 (split; [done|]). do 2 (split; [by eapply observed_widen|]). done.
  - right. split; [by eapply observed_widen|]. exists n. split; [by eapply observed_widen|]. done.
Qed.
Lemma sriov_seen_widen {hst : Host} root busID i s s1 s2 s' :
  later s s1 -> later s2 s' -> sriov_seen root busID i s1 s2 -> sriov_seen root busID i s s'.
Proof.
  intros H1 H2. unfold sriov_seen. case_match; intuition eauto using observed_widen.
Qed.

(** ** Names and attributes *)

Lemma string_app_inj_l (s t u : string) : s +:+ t = s +:+ u -> t = u.
Proof. apply (inj (String.append s)). Qed.

Lemma string_app_neq_self (s t : string) : t <> "" -> s +:+ t <> s.
Proof. intros Ht H. rewrite <- (string_app_nil_r s) in H at 2. by apply string_app_inj_l in H. Qed.

Lemma string_length_app (s t : string) :
  String.length (s +:+ t) = (String.length s + String.length t)%nat.
Proof. induction s as [|a s IH]; [done|]. change (String a s +:+ t) with (String a (s +:+ t)). simpl. by rewrite IH. Qed.

(** A different VF profile of the same function is a different logical device: equal names force
    equal partition modes, so a repartitioned PF never reuses a device name. *)
Theorem deviceName_partitionMode base i1 i2 :
  deviceName i1 base = deviceName i2 base -> partitionMode i1 = partitionMode i2.
Proof.
  unfold deviceName. destruct (isVF i1) eqn:E1, (isVF i2) eqn:E2; intros H.
  - apply string_app_inj_l in H. by injection H.
  - by apply string_app_neq_self in H.
  - symmetry in H. by apply string_app_neq_self in H.
  - unfold partitionMode. by rewrite E1, E2.
Qed.

Lemma partitionMode_inj i1 i2 :
  (0 <= numVFs i1 <= int64_max)%Z -> (0 <= numVFs i2 <= int64_max)%Z ->
  isVF i1 = true -> partitionMode i1 = partitionMode i2 ->
  isVF i2 = true /\ numVFs i1 = numVFs i2.
Proof.
  unfold partitionMode. intros H1 H2 E1. rewrite E1. destruct (isVF i2) eqn:E2; [|done].
  intros H%string_app_inj_l. split; [done|].
  apply FormatInt_inj; [unfold int64_min in *; lia..|done].
Qed.

Lemma setAttributes_vf i attrs : setAttributes i attrs !! vfAttributeKey = Some (boolAttr (isVF i)).
Proof.
  unfold setAttributes. rewrite !lookup_insert_ne by done.
  case_match; [rewrite lookup_insert_ne by done|]; by rewrite lookup_insert_eq.
Qed.
Lemma setAttributes_mode i attrs :
  setAttributes i attrs !! partitionModeAttributeKey = Some (strAttr (partitionMode i)).
Proof. unfold setAttributes. rewrite lookup_insert_ne by done. by rewrite lookup_insert_eq. Qed.
Lemma setAttributes_numVFs i attrs :
  setAttributes i attrs !! numVFsAttributeKey = Some (intAttr (numVFs i)).
Proof. unfold setAttributes. by rewrite lookup_insert_eq. Qed.
Lemma setAttributes_parent i attrs :
  attrs !! parentPCIBusIDAttributeKey = None ->
  setAttributes i attrs !! parentPCIBusIDAttributeKey =
    if isVF i then Some (strAttr (parentPCIBusID i)) else None.
Proof.
  intros Ha. unfold setAttributes. rewrite !lookup_insert_ne by done.
  case_match; [by rewrite lookup_insert_eq|]. by rewrite lookup_insert_ne.
Qed.
Lemma setAttributes_other i attrs key :
  key <> vfAttributeKey -> key <> partitionModeAttributeKey -> key <> numVFsAttributeKey ->
  key <> parentPCIBusIDAttributeKey -> setAttributes i attrs !! key = attrs !! key.
Proof.
  intros. unfold setAttributes. rewrite !lookup_insert_ne by done.
  case_match; by rewrite ?lookup_insert_ne by done.
Qed.

(** ** Concrete runs *)

Definition vf_table : list (string * fnode) :=
  [ ("/sys/0000:01:00.1", FDir []); ("/sys/0000:01:00.1/physfn", FLink "../0000:01:00.0");
    ("/sys/0000:01:00.0/sriov_numvfs", FFile "4") ].

Lemma probeSRIOV_verdict_witness :
  exists s' info, @probeSRIOV (table_host vf_table) "/sys" "0000:01:00.1" sys_start = (s', Ok info) /\
    partitionMode info = "vf4" /\ pciAddressRegexp "0000:01:00.1" = true /\
    @sriov_seen (table_host vf_table) "/sys" "0000:01:00.1" info sys_start s'.
Proof.
  destruct (run_ok (@probeSRIOV (table_host vf_table) "/sys" "0000:01:00.1" sys_start)
    (fun i => bool_decide (partitionMode i = "vf4"))) as (s' & i & E & Hi%bool_decide_eq_true);
    [vm_compute; reflexivity|].
  exists s', i. split; [exact E|]. split; [exact Hi|]. exact (probeSRIOV_verdict _ _ _ _ _ E).
Defined.

