(* ===== verification/Discovery.v ===== *)
(** What enumeration produces for each inventory entry, the skipped-device
    records and the native-candidate gate (cmd/npu-kubelet-plugin/scan.go). *)
From S2P Require Import Prelude GoStd Host PciSysfs Device Sriov.
Open Scope string_scope.

Record skippedDevice := {
  sk_name : string;
  sk_pciBusID : string;
  sk_sriov : sriovInfo;
  sk_err : option err;
}.

Definition no_sriov : sriovInfo := {| parentPCIBusID := ""; numVFs := 0 |}.

Definition reason (d : skippedDevice) : string :=
  match sk_err d with
  | Some e => Error e
  | None => "VF-hosting PF with " +:+ FormatInt (numVFs (sk_sriov d)) +:+ " VFs"
  end.

(** How the body of an enumeration loop leaves one entry: [continue], an append
    to the skipped list, or an append to the devices. *)
Inductive verdict :=
  | VNone
  | VSkip (d : skippedDevice)
  | VDevice (d : Device).

Definition v_device (v : verdict) : option Device :=
  match v with VDevice d => Some d | _ => None end.
Definition v_skip (v : verdict) : option skippedDevice :=
  match v with VSkip d => Some d | _ => None end.
Definition published (vs : list verdict) : list Device := omap v_device vs.
Definition skipped_of (vs : list verdict) : list skippedDevice := omap v_skip vs.

Definition logSkippedDevice (d : skippedDevice) : M Sys unit :=
  match sk_err d with
  | Some _ => log LError "Skipping NPU not usable in its current PCI state"
  | None => log LInfo "Excluding VF-hosting PF from advertisement"
  end.
Definition logSkippedDevices (skipped : list skippedDevice) : M Sys unit :=
  do! forM logSkippedDevice skipped in ret tt.

Section candidates.
Context {hst : Host}.

(** One directory entry: does it count as a native candidate? *)
Definition isNativeCandidate (root : string) (known : gset string) (name : string) : M Sys bool :=
  if negb (pciAddressRegexp name) then ret false else
  let devPath := Join [root; name] in
  let! matches := isRebellionsPCI devPath known in
  if negb matches then ret false else
  let! driver := readPCIDriver devPath in
  if bool_decide (driver <> nativePCIDriverName) then ret false else
  let? r := readSRIOVNumVFs devPath in
  match r with
  | Err e => if negb (is_not_exist e) then throw e else ret true
  | Ok numVFs => ret (negb (bool_decide (0 < numVFs)%Z))
  end.

Definition countNativeCandidates (root : string) (known : gset string) : M Sys nat :=
  let! entries := wrap_err (fun e => ErrWrap ("read " +:+ root +:+ ": ") e "") (os_ReadDir root) in
  let! counted := forM (fun entry => isNativeCandidate root known (de_name entry)) entries in
  ret (length (filter Is_true counted)).

#[export] Instance isNativeCandidate_respects root known name :
  Respects sys_le (isNativeCandidate root known name).
Proof. unfold isNativeCandidate. solve_respects. Qed.
#[export] Instance countNativeCandidates_respects root known :
  Respects sys_le (countNativeCandidates root known).
Proof. unfold countNativeCandidates. solve_respects. Qed.
End candidates.

#[export] Instance logSkippedDevice_respects d : Respects sys_le (logSkippedDevice d).
Proof. unfold logSkippedDevice. solve_respects. Qed.
#[export] Instance logSkippedDevices_respects l : Respects sys_le (logSkippedDevices l).
Proof. unfold logSkippedDevices. solve_respects. Qed.
