(* ===== verification/Vfio.v ===== *)
(** Discovery of the NPUs bound to vfio-pci (cmd/npu-kubelet-plugin/vfio.go). *)
From S2P Require Import Prelude GoStd Host PciSysfs Device Sriov Discovery.
Open Scope string_scope.

Definition npuPCIClassID : string := "0x120000".
Definition vfioPCIDriverName : string := "vfio-pci".
Definition vfioDevDir : string := "/dev/vfio".
Definition vfioContainerDevPath : string := "/dev/vfio/vfio".
Definition qemuUID : Z := 107.
Definition qemuGID : Z := 107.

Definition pciDeviceIDToProductName : gmap string string :=
  {[ "1220" := "RBLN-CA22"; "1221" := "RBLN-CA22"; "1250" := "RBLN-CA25";
     "1251" := "RBLN-CA25"; "2130" := "RBLN-CR13"; "2131" := "RBLN-CR13" ]}.

(** [strings.NewReplacer(":", "-", ".", "-")] *)
Definition bus_replace (a : ascii) : ascii :=
  if decide (a = ":"%char \/ a = "."%char) then "-"%char else a.
Definition vfioDeviceName (busID : string) : string :=
  "vfio-" +:+ ToLower (smap bus_replace busID).

Definition deviceIOMMUGroup (d : Device) : res string :=
  match Attributes d !! iommuGroupAttributeKey with
  | Some attr =>
      match IntValue attr with
      | Some v => Ok (FormatInt v)
      | None => Err (ErrText ("device " +:+ quote (Name d) +:+ " is missing attribute " +:+ iommuGroupAttributeKey))
      end
  | None => Err (ErrText ("device " +:+ quote (Name d) +:+ " is missing attribute " +:+ iommuGroupAttributeKey))
  end.

Section vfio.
Context {hst : Host}.

Definition deviceIOMMUGroupFromSysfs (devPath : string) : M Sys Z :=
  let! base := readSysfsLinkBase devPath "iommu_group" in
  match ParseInt base with
  | Err e => throw (ErrWrap ("unexpected iommu group " +:+ quote base +:+ " for " +:+ devPath +:+ ": ") e "")
  | Ok group => ret group
  end.

Definition isolatedIOMMUGroup (devPath busID : string) : M Sys Z :=
  let? r := deviceIOMMUGroupFromSysfs devPath in
  match r with
  | Err e =>
      if is_not_exist e
      then throw (ErrWrap "" (ErrSentinel ErrUnsupportedDevice) (": no IOMMU group for " +:+ busID))
      else throw e
  | Ok group =>
      let! members := os_ReadDir (Join [devPath; "iommu_group"; "devices"]) in
      let shared := throw (ErrWrap "" (ErrSentinel ErrUnsupportedDevice)
        (": IOMMU group " +:+ FormatInt group +:+ " is not exclusive to " +:+ busID)) in
      match members with
      | [m] => if negb (EqualFold (de_name m) busID) then shared else ret group
      | _ => shared
      end
  end.

(** The attributes of a device to publish. *)
Definition vfioAttributes (root busID devPath name : string) (sriov : sriovInfo) (group : Z)
    : M Sys (gmap string Attr) :=
  let attrs := {[ deviceTypeAttributeKey := strAttr deviceTypeVfio;
                  pciBusIDAttributeKey := strAttr busID;
                  iommuGroupAttributeKey := intAttr group ]} in
  let? r := readSysfsValue devPath "device" in
  let attrs :=
    match r with
    | Err _ => attrs
    | Ok deviceID =>
        let deviceID := TrimPrefix "0x" deviceID in
        let attrs := <["pciDeviceID" := strAttr deviceID]> attrs in
        match pciDeviceIDToProductName !! deviceID with
        | Some productName => <["productName" := strAttr productName]> attrs
        | None => attrs
        end
    end in
  let! (attrs, _) := setPCIERootAttr attrs name root busID in
  let? numa := readSysfsValue devPath "numa_node" in
  let! attrs := match numa with
                | Err _ => ret attrs
                | Ok numa => setNumaNodeAttr attrs name numa
                end in
  ret (setAttributes sriov attrs).

(** The body of the enumeration loop. *)
Definition vfioEntry (root : string) (known : gset string) (busID : string) : M Sys verdict :=
  if negb (pciAddressRegexp busID) then ret VNone else
  let devPath := Join [root; busID] in
  let! matches := isRebellionsPCI devPath known in
  if negb matches then ret VNone else
  let! driver := readPCIDriver devPath in
  if bool_decide (driver <> vfioPCIDriverName) then ret VNone else
  let? class := readSysfsValue devPath "class" in
  match class with
  | Err e => let! removed := pciEntryRemoved devPath e in
             if removed : bool then ret VNone else throw e
  | Ok class =>
      if bool_decide (class <> npuPCIClassID) then ret VNone else
      let name := vfioDeviceName busID in
      let? sriov := probeSRIOV root busID in
      match sriov with
      | Err e =>
          if negb (errors_Is e ErrUnsupportedDevice) then throw e
          else ret (VSkip {| sk_name := name; sk_pciBusID := busID; sk_sriov := no_sriov; sk_err := Some e |})
      | Ok sriov =>
          if isHostingPF sriov
          then ret (VSkip {| sk_name := name; sk_pciBusID := busID; sk_sriov := sriov; sk_err := None |})
          else
            let name := deviceName sriov name in
            let? group := isolatedIOMMUGroup devPath busID in
            match group with
            | Err e =>
                if negb (errors_Is e ErrUnsupportedDevice) then throw e
                else ret (VSkip {| sk_name := name; sk_pciBusID := busID; sk_sriov := no_sriov; sk_err := Some e |})
            | Ok group =>
                let! attrs := vfioAttributes root busID devPath name sriov group in
                ret (VDevice {| Name := name; Attributes := attrs; Capacity := ∅ |})
            end
      end
  end.

Definition enumerateVfioDevices (root : string) (known : gset string)
    : M Sys (list Device * list skippedDevice) :=
  let! entries := wrap_err (fun e => ErrWrap ("read " +:+ root +:+ ": ") e "") (os_ReadDir root) in
  let! vs := forM (fun entry => vfioEntry root known (de_name entry)) entries in
  ret (published vs, skipped_of vs).

(** ** Specification *)

Definition group_is (devPath : string) (g : Z) (k : OSView) : Prop :=
  exists b, link_is devPath "iommu_group" b k /\ ParseInt b = Ok g.
Definition group_exclusive (devPath busID : string) (k : OSView) : Prop :=
  exists m, v_readdir k (Join [devPath; "iommu_group"; "devices"]) = inr [m] /\
            ToLower (de_name m) = ToLower busID.

(** The function was seen without an IOMMU group, or in one that is not its own:
    the listing of the group's members is not this function alone. *)
Definition group_unsupported (devPath busID : string) (s s' : Sys) : Prop :=
  observed s s' (link_fails devPath "iommu_group" ENOENT) \/
  exists g members, observed s s' (group_is devPath g) /\
    observed s s' (fun k => v_readdir k (Join [devPath; "iommu_group"; "devices"]) = inr members) /\
    ~ exists m, members = [m] /\ ToLower (de_name m) = ToLower busID.

(** A device may be published for the entry [busID] when each fact the
    scheduler relies on was seen on the machine between [s] and [s']. *)
Record vfio_published (root busID : string) (s s' : Sys) (d : Device) : Prop := {
  vp_bus : pciAddressRegexp busID = true;
  vp_vendor : observed s s' (is_rebellions (Join [root; busID]));
  vp_driver : observed s s' (driver_is (Join [root; busID]) vfioPCIDriverName);
  vp_class : observed s s' (value_is (Join [root; busID]) "class" npuPCIClassID);
  vp_group : exists g, observed s s' (group_is (Join [root; busID]) g) /\
                       observed s s' (group_exclusive (Join [root; busID]) busID) /\
                       Attributes d !! iommuGroupAttributeKey = Some (intAttr g);
  vp_sriov : exists i, sriov_seen root busID i s s' /\ isHostingPF i = false /\
                       Name d = deviceName i (vfioDeviceName busID) /\
                       deviceStringAttr d partitionModeAttributeKey = partitionMode i /\
                       deviceStringAttr d parentPCIBusIDAttributeKey = parentPCIBusID i /\
                       deviceIntAttr d numVFsAttributeKey = Some (numVFs i);
  vp_type : isVfioDevice d = true;
  vp_busattr : devicePCIBusID d = Ok busID;
}.

#[export] Instance isolatedIOMMUGroup_respects p b : Respects sys_le (isolatedIOMMUGroup p b).
Proof. unfold isolatedIOMMUGroup, deviceIOMMUGroupFromSysfs. solve_respects. Qed.
#[export] Instance vfioAttributes_respects r b p n i g : Respects sys_le (vfioAttributes r b p n i g).
Proof. unfold vfioAttributes. solve_respects. Qed.
#[export] Instance vfioEntry_respects r k b : Respects sys_le (vfioEntry r k b).
Proof. unfold vfioEntry. solve_respects. Qed.
#[export] Instance enumerateVfioDevices_respects r k : Respects sys_le (enumerateVfioDevices r k).
Proof. unfold enumerateVfioDevices. solve_respects. Qed.
End vfio.

Section vfio_props.
Context {hst : Host}.

Definition vfioBaseAttrs (busID : string) (g : Z) : gmap string Attr :=
  {[ deviceTypeAttributeKey := strAttr deviceTypeVfio;
     pciBusIDAttributeKey := strAttr busID;
     iommuGroupAttributeKey := intAttr g ]}.

Lemma vfioAttributes_spec root busID devPath name i g s s' attrs :
  vfioAttributes root busID devPath name i g s = (s', Ok attrs) ->
  exists attrs0, attrs = setAttributes i attrs0 /\
    same_identity (vfioBaseAttrs busID g) attrs0.
Proof.
  unfold vfioAttributes. fold (vfioBaseAttrs busID g). intros H. minv.
  match goal with
  | H : setPCIERootAttr ?a _ _ _ _ = _ |- _ =>
      assert (same_identity (vfioBaseAttrs busID g) a) as Ha;
        [|apply setPCIERootAttr_identity in H]
  end.
  { repeat case_match; try done; repeat (etrans; [|apply same_identity_insert; identity_key]); done. }
  match goal with H : same_identity _ _.1 |- _ => rewrite H in Ha; clear H end.
  msplit; cbn [fst] in Ha.
  - eexists; split; [reflexivity|]. etrans; [exact Ha|]. by eapply setNumaNodeAttr_identity.
  - eexists; split; [reflexivity|exact Ha].
Qed.

Lemma isolatedIOMMUGroup_Ok p b s s' g :
  isolatedIOMMUGroup p b s = (s', Ok g) ->
  observed s s' (group_is p g) /\ observed s s' (group_exclusive p b).
Proof.
  unfold isolatedIOMMUGroup, deviceIOMMUGroupFromSysfs. intros H. msplit. split.
  - obsw readSysfsLinkBase_Ok. intros k Hk. by eexists.
  - obsw os_call_Ok. intros k Hk. eexists. split; [exact Hk|by apply EqualFold_true].
Qed.

Lemma ParseInt_Err x e : ParseInt x = Err e -> is_not_exist e = false /\ errors_Is e ErrUnsupportedDevice = false.
Proof. unfold ParseInt, num_error. repeat case_match; intros [=]; by subst. Qed.
Lemma isolatedIOMMUGroup_unsupported p b s s' e :
  isolatedIOMMUGroup p b s = (s', Err e) -> errors_Is e ErrUnsupportedDevice = true -> group_unsupported p b s s'.
Proof.
  unfold isolatedIOMMUGroup, deviceIOMMUGroupFromSysfs, group_unsupported. intros H He.
  msplit; simpl in He; try done; try not_marked.
  1-3: right; eexists _, _; split_and!;
    [obsw readSysfsLinkBase_Ok; intros k Hk; by eexists|obs os_call_Ok|intros (m & [=] & Hm)].
  { subst. match goal with E : EqualFold _ _ = false |- _ => by apply EqualFold_false in E end. }
  all: try (match goal with H : ParseInt _ = Err _ |- _ => apply ParseInt_Err in H as [??] end; simpl in *; congruence).
  match goal with H : readSysfsLinkBase _ _ _ = _ |- _ => apply readSysfsLinkBase_Err in H as (no & -> & Ho) end.
  left. match goal with Hn : is_not_exist _ = true |- _ => apply bool_decide_eq_true in Hn as -> end. exact Ho.
Qed.

(** Every device the loop body publishes is justified by what was seen. *)
Lemma vfioEntry_device root known busID s s' d :
  vfioEntry root known busID s = (s', Ok (VDevice d)) -> vfio_published root busID s s' d.
Proof.
  unfold vfioEntry. intros H. msplit.
  repeat match goal with Hn : ~ _ <> _ |- _ => apply dec_stable in Hn; subst end.
  match goal with H : vfioAttributes _ _ _ _ _ _ _ = (_, Ok _) |- _ =>
    pose proof (vfioAttributes_spec _ _ _ _ _ _ _ _ _ H) as (attrs0 & -> & Hid) end.
  match goal with H : probeSRIOV _ _ _ = _ |- _ => pose proof (probeSRIOV_sound _ _ _ _ _ H) as [_ Hs] end.
  match goal with H : isolatedIOMMUGroup _ _ _ = _ |- _ =>
    pose proof (isolatedIOMMUGroup_Ok _ _ _ _ _ H) as [Hg He] end.
  learn_le. split; [done| | | | | | |].
  - obs isRebellionsPCI_true.
  - obs readPCIDriver_Ok.
  - obs readSysfsValue_Ok.
  - eexists. split_and!; [eapply observed_widen; [..|exact Hg]; sys_chain
      |eapply observed_widen; [..|exact He]; sys_chain|].
    simpl. rewrite setAttributes_other by done. by rewrite Hid by identity_key.
  - eexists. split_and!; [eapply sriov_seen_widen; [..|exact Hs]; sys_chain|done|done| | |].
    + unfold deviceStringAttr. simpl. by rewrite setAttributes_mode.
    + unfold deviceStringAttr. simpl. rewrite setAttributes_parent.
      * unfold isVF. case_bool_decide as Hp; [done|]. by rewrite Hp.
      * by rewrite Hid by identity_key.
    + unfold deviceIntAttr. simpl. by rewrite setAttributes_numVFs.
  - unfold isVfioDevice. simpl. rewrite setAttributes_other by done.
    by rewrite Hid by identity_key.
  - unfold devicePCIBusID. simpl. rewrite setAttributes_other by done.
    rewrite Hid by identity_key.
    by destruct busID.
Qed.

Lemma vfio_published_widen root busID s s1 s2 s' d :
  later s s1 -> later s2 s' ->
  vfio_published root busID s1 s2 d -> vfio_published root busID s s' d.
Proof.
  intros H1 H2 [? ? ? ? (g&?&?&?) (i&?&?) ? ?].
  split; try done; try (by eapply observed_widen).
  - exists g. split_and!; try done; by eapply observed_widen.
  - exists i. split; [by eapply sriov_seen_widen|done].
Qed.

(** A skip is a function seen to host VFs, or one whose layout or IOMMU group
    was seen to be unsupported. *)
Definition skip_justified (root busID : string) (s s' : Sys) (sk : skippedDevice) : Prop :=
  match sk_err sk with
  | None => sriov_seen root busID (sk_sriov sk) s s' /\ isHostingPF (sk_sriov sk) = true /\
            sk_name sk = vfioDeviceName busID
  | Some e => errors_Is e ErrUnsupportedDevice = true /\
      ((sriov_unsupported root busID s s' /\ sk_name sk = vfioDeviceName busID) \/
       exists i, sriov_seen root busID i s s' /\ isHostingPF i = false /\
         group_unsupported (Join [root; busID]) busID s s' /\ sk_name sk = deviceName i (vfioDeviceName busID))
  end.

Lemma group_unsupported_widen p b s s1 s2 s' :
  later s s1 -> later s2 s' -> group_unsupported p b s1 s2 -> group_unsupported p b s s'.
Proof.
  intros H1 H2 [H|(g & ms & Hg & Hm & Hn)]; [left; by eapply observed_widen|right].
  exists g, ms. do 2 (split; [by eapply observed_widen|]). done.
Qed.
Lemma skip_justified_widen root busID s s1 s2 s' sk :
  later s s1 -> later s2 s' ->
  skip_justified root busID s1 s2 sk -> skip_justified root busID s s' sk.
Proof.
  intros H1 H2. unfold skip_justified. case_match.
  - intros [? [[? ?]|(i & ? & ? & ? & ?)]]; (split; [done|]); [left|right; exists i];
      split_and!; try done; eauto using sriov_unsupported_widen, sriov_seen_widen, group_unsupported_widen.
  - intros (? & ? & ?). split_and!; try done. by eapply sriov_seen_widen.
Qed.

Lemma vfioEntry_skip root known busID s s' sk :
  vfioEntry root known busID s = (s', Ok (VSkip sk)) ->
  sk_pciBusID sk = busID /\ skip_justified root busID s s' sk.
Proof.
  unfold vfioEntry. intros H. msplit; (split; [done|]); unfold skip_justified; simpl.
  all: repeat match goal with H : negb _ = false |- _ => apply negb_false_iff in H end.
  all: try match goal with H : probeSRIOV _ _ _ = (_, Ok _) |- _ => pose proof (probeSRIOV_sound _ _ _ _ _ H) as [_ Hs] end.
  - split_and!; [|done..]. learn_le. eapply sriov_seen_widen; [..|exact Hs]; sys_chain.
  - match goal with H : isolatedIOMMUGroup _ _ _ = (_, Err ?e), He : errors_Is ?e _ = true |- _ =>
      pose proof (isolatedIOMMUGroup_unsupported _ _ _ _ _ H He) as Hg end.
    split; [done|right]. learn_le. eexists. split_and!; [|done| |done].
    + eapply sriov_seen_widen; [..|exact Hs]; sys_chain.
    + eapply group_unsupported_widen; [..|exact Hg]; sys_chain.
  - match goal with H : probeSRIOV _ _ _ = (_, Err ?e), He : errors_Is ?e _ = true |- _ =>
      pose proof (probeSRIOV_unsupported _ _ _ _ _ H He) as Hs end.
    split; [done|left]. split; [|done]. learn_le. eapply sriov_unsupported_widen; [..|exact Hs]; sys_chain.
Qed.

(** An entry is left out without a record only when it was seen not to be an
    NPU bound to vfio-pci, or to be gone. *)
Definition vfio_excuse (root busID : string) (known : gset string) (s s' : Sys) : Prop :=
  let devPath := Join [root; busID] in
  pciAddressRegexp busID = false \/
  vendor_excuse devPath known s s' \/
  (exists d, d <> vfioPCIDriverName /\ observed s s' (driver_is devPath d)) \/
  (exists c, c <> npuPCIClassID /\ observed s s' (value_is devPath "class" c)) \/
  observed s s' (entry_gone devPath).

Lemma vfio_excuse_widen root busID known s s1 s2 s' :
  later s s1 -> later s2 s' ->
  vfio_excuse root busID known s1 s2 -> vfio_excuse root busID known s s'.
Proof.
  intros H1 H2. unfold vfio_excuse.
  intros [H|[H|[(d&?&H)|[(c&?&H)|H]]]]; [by left|right; left; by eapply vendor_excuse_widen
   |right; right; left; exists d|right; right; right; left; exists c|right; right; right; right];
   try (split; [done|]); by eapply observed_widen.
Qed.

Lemma vfioEntry_none root known busID s s' :
  vfioEntry root known busID s = (s', Ok VNone) -> vfio_excuse root busID known s s'.
Proof.
  unfold vfioEntry, vfio_excuse. intros H. msplit.
  - right; right; left. eexists. split; [done|]. obs readPCIDriver_Ok.
  - right; right; right; left. eexists. split; [done|]. obs readSysfsValue_Ok.
  - right; right; right; right.
    match goal with H : pciEntryRemoved _ _ _ = _ |- _ =>
      pose proof (pciEntryRemoved_true _ _ _ _ H) as [_ Ho] end.
    learn_le. eapply observed_widen; [..|exact Ho]; sys_chain.
  - right; left. match goal with H : isRebellionsPCI _ _ _ = _ |- _ =>
      apply isRebellionsPCI_false in H end. done.
  - by left.
Qed.

(** The outcome of the loop body for an entry, as the contract states it. *)
Definition vfio_verdict_ok (root : string) (known : gset string) (s s' : Sys)
    (busID : string) (v : verdict) : Prop :=
  match v with
  | VDevice d => vfio_published root busID s s' d
  | VSkip sk => sk_pciBusID sk = busID /\ skip_justified root busID s s' sk
  | VNone => vfio_excuse root busID known s s'
  end.

Lemma vfioEntry_ok root known busID s s' v :
  vfioEntry root known busID s = (s', Ok v) -> vfio_verdict_ok root known s s' busID v.
Proof.
  destruct v; [apply vfioEntry_none|apply vfioEntry_skip|apply vfioEntry_device].
Qed.

Lemma vfio_verdict_ok_widen root known s s1 s2 s' b v :
  later s s1 -> later s2 s' ->
  vfio_verdict_ok root known s1 s2 b v -> vfio_verdict_ok root known s s' b v.
Proof.
  intros H1 H2. destruct v; simpl.
  - by apply vfio_excuse_widen.
  - intros [? ?]. split; [done|by eapply skip_justified_widen].
  - by apply vfio_published_widen.
Qed.

(** The enumeration meets its contract entry by entry: it returns the devices
    and the skips of verdicts that each hold of the entry of the listing. *)
Lemma enumerateVfioDevices_verdicts root known s s' ds sks :
  enumerateVfioDevices root known s = (s', Ok (ds, sks)) ->
  exists entries vs,
    observed s s' (fun k => v_readdir k root = inr entries) /\
    Forall2 (fun e v => vfio_verdict_ok root known s s' (de_name e) v) entries vs /\
    ds = published vs /\ sks = skipped_of vs.
Proof.
  unfold enumerateVfioDevices. intros H. minv.
  eexists _, _. split_and!; [obs os_call_Ok| |done|done].
  match goal with H : forM _ _ _ = _ |- _ =>
    eapply Forall2_impl; [exact (forM_trace sys_le _ _ _ _ _ _ H)|] end.
  intros e v (s1 & s2 & ? & Hv%vfioEntry_ok & ?). simpl in Hv.
  learn_le. eapply vfio_verdict_ok_widen; [..|exact Hv]; sys_chain.
Qed.

Lemma bus_replace_hex a : is_hex a = true -> bus_replace a = a.
Proof. by destruct a as [[] [] [] [] [] [] [] []]. Qed.
Lemma bus_replace_oct a : is_oct a = true -> bus_replace a = a.
Proof. by destruct a as [[] [] [] [] [] [] [] []]. Qed.

(** Two PCI addresses get the same device name only when they are the same
    address up to letter case. *)
Theorem vfioDeviceName_inj a b :
  pciAddressRegexp a = true -> pciAddressRegexp b = true ->
  vfioDeviceName a = vfioDeviceName b -> ToLower a = ToLower b.
Proof.
  intros Ha Hb. unfold vfioDeviceName. intros H%string_app_inj_l.
  unfold ToLower in *. rewrite !smap_smap in H. revert H.
  eapply match_classes_smap_inj; [|exact Ha|exact Hb].
  unfold pciAddressClasses. repeat apply Forall_cons_2; [..|apply Forall_nil_2].
  all: intros x y Hx Hy Hxy; first
    [ by apply bool_decide_eq_true in Hx as ->, Hy as ->
    | by rewrite !bus_replace_hex in Hxy
    | by rewrite !bus_replace_oct in Hxy ].
Qed.
End vfio_props.

