(* ===== verification/Inventory.v ===== *)
(** Conversion of the rbln-smi inventory into publishable devices
    (cmd/npu-kubelet-plugin/state.go, npuDevicesFromInventory). *)
From S2P Require Import Prelude GoStd Host PciSysfs Device Sriov Discovery.
Open Scope string_scope.

(** The fields of rblnlib-go's device.Device that the conversion reads. *)
Record InvDevice := {
  iv_Name : string;
  iv_PCIBusID : string;
  iv_ProductName : string;
  iv_SID : string;
  iv_UUID : string;
  iv_PCIDeviceID : string;
  iv_PCILinkSpeed : string;
  iv_PCILinkWidth : string;
  iv_FirmwareVersion : string;
  iv_KMDVersion : string;
  iv_PCINumaNode : string;
  iv_MemoryTotalBytes : Z;
}.

Definition npuBaseAttrs (d : InvDevice) (deviceType : string) : gmap string Attr :=
  list_to_map
    [ (deviceNodeNameAttributeKey, strAttr (iv_Name d));
      (deviceTypeAttributeKey, strAttr deviceType);
      ("productName", strAttr (iv_ProductName d));
      ("sid", strAttr (iv_SID d));
      ("uuid", strAttr (iv_UUID d));
      ("pciDeviceID", strAttr (iv_PCIDeviceID d));
      (pciBusIDAttributeKey, strAttr (iv_PCIBusID d));
      ("pciLinkSpeed", strAttr (iv_PCILinkSpeed d));
      ("pciLinkWidth", strAttr (iv_PCILinkWidth d));
      ("firmwareVersion", strAttr (iv_FirmwareVersion d));
      ("driverVersion", strAttr (iv_KMDVersion d)) ].

Definition npuCapacity (d : InvDevice) : gmap string Z :=
  if bool_decide (0 < iv_MemoryTotalBytes d)%Z then {[ "memory" := iv_MemoryTotalBytes d ]} else ∅.

Section inventory.
Context {hst : Host}.

(** The body of the loop over the inventory. *)
Definition npuEntry (sysfsRoot : string) (d : InvDevice) : M Sys verdict :=
  let skip i e := VSkip {| sk_name := iv_Name d; sk_pciBusID := iv_PCIBusID d; sk_sriov := i; sk_err := e |} in
  let devPath := Join [sysfsRoot; ToLower (iv_PCIBusID d)] in
  let? st := os_Stat devPath in
  match st with
  | Err e => if is_not_exist e then ret (skip no_sriov (Some e)) else throw e
  | Ok _ =>
      let! driver := readPCIDriver devPath in
      if bool_decide (driver <> nativePCIDriverName) then ret VNone else
      let? sriov := probeSRIOV sysfsRoot (iv_PCIBusID d) in
      match sriov with
      | Err e =>
          if negb (errors_Is e ErrUnsupportedDevice) then throw e
          else ret (skip no_sriov (Some e))
      | Ok sriov =>
          if isHostingPF sriov then ret (skip sriov None) else
          let deviceType := if isVF sriov then deviceTypeNpuVF else deviceTypeNpu in
          let attrs := setAttributes sriov (npuBaseAttrs d deviceType) in
          let! attrs := setNumaNodeAttr attrs (iv_Name d) (iv_PCINumaNode d) in
          let! (attrs, _) := setPCIERootAttr attrs (iv_Name d) sysfsRoot (iv_PCIBusID d) in
          ret (VDevice {| Name := deviceName sriov (iv_Name d);
                          Attributes := attrs;
                          Capacity := npuCapacity d |})
      end
  end.

Definition npuDevicesFromInventory (sysfsRoot : string) (devs : list InvDevice)
    : M Sys (list Device * list skippedDevice) :=
  let! vs := forM (npuEntry sysfsRoot) devs in
  ret (published vs, skipped_of vs).

(** ** Specification *)

Record npu_published (root : string) (inv : InvDevice) (s s' : Sys) (d : Device) : Prop := {
  np_bus : pciAddressRegexp (iv_PCIBusID inv) = true;
  np_driver : observed s s' (driver_is (Join [root; ToLower (iv_PCIBusID inv)]) nativePCIDriverName);
  np_sriov : exists i, sriov_seen root (iv_PCIBusID inv) i s s' /\ isHostingPF i = false /\
                       Name d = deviceName i (iv_Name inv) /\
                       deviceStringAttr d deviceTypeAttributeKey =
                         (if isVF i then deviceTypeNpuVF else deviceTypeNpu) /\
                       deviceStringAttr d partitionModeAttributeKey = partitionMode i /\
                       deviceStringAttr d parentPCIBusIDAttributeKey = parentPCIBusID i /\
                       deviceIntAttr d numVFsAttributeKey = Some (numVFs i);
  np_busattr : devicePCIBusID d = Ok (iv_PCIBusID inv);
  np_node : deviceStringAttr d deviceNodeNameAttributeKey = iv_Name inv;
  np_memory : Capacity d !! "memory" =
    (if bool_decide (0 < iv_MemoryTotalBytes inv)%Z then Some (iv_MemoryTotalBytes inv) else None);
}.

(** A skipped entry was seen to be gone, to have an unsupported layout, or to
    host VFs. *)
Definition npu_skip_ok (root : string) (inv : InvDevice) (s s' : Sys) (sk : skippedDevice) : Prop :=
  sk_pciBusID sk = iv_PCIBusID inv /\ sk_name sk = iv_Name inv /\
  match sk_err sk with
  | None => sriov_seen root (iv_PCIBusID inv) (sk_sriov sk) s s' /\ isHostingPF (sk_sriov sk) = true
  | Some e =>
      (errors_Is e ErrUnsupportedDevice = true /\ sriov_unsupported root (iv_PCIBusID inv) s s') \/
      (is_not_exist e = true /\ observed s s' (entry_gone (Join [root; ToLower (iv_PCIBusID inv)])))
  end.

(** An entry is dropped without a record only when another driver, or none,
    was seen to hold the function. *)
Definition npu_verdict_ok (root : string) (s s' : Sys) (inv : InvDevice) (v : verdict) : Prop :=
  match v with
  | VDevice d => npu_published root inv s s' d
  | VSkip sk => npu_skip_ok root inv s s' sk
  | VNone => exists drv, drv <> nativePCIDriverName /\
               observed s s' (driver_is (Join [root; ToLower (iv_PCIBusID inv)]) drv)
  end.

#[export] Instance npuEntry_respects r d : Respects sys_le (npuEntry r d).
Proof. unfold npuEntry. solve_respects. Qed.
#[export] Instance npuDevicesFromInventory_respects r ds : Respects sys_le (npuDevicesFromInventory r ds).
Proof. unfold npuDevicesFromInventory. solve_respects. Qed.

Lemma npuEntry_device root inv s s' d :
  npuEntry root inv s = (s', Ok (VDevice d)) -> npu_published root inv s s' d.
Proof.
  unfold npuEntry. intros H. msplit.
  repeat match goal with Hn : ~ _ <> _ |- _ => apply dec_stable in Hn; subst end.
  match goal with H : probeSRIOV _ _ _ = (_, Ok ?i) |- _ =>
    pose proof (probeSRIOV_sound _ _ _ _ _ H) as [Hbus Hs]; rename i into sriov end.
  learn_le.
  match goal with
  | Hn : setNumaNodeAttr _ _ _ _ = _, Hp : setPCIERootAttr _ _ _ _ _ = _ |- _ =>
    apply setNumaNodeAttr_identity in Hn; apply setPCIERootAttr_identity in Hp;
    cbn [fst] in Hp; pose proof (transitivity Hn Hp) as Hid; clear Hn Hp
  end.
  assert (Hkey : forall k v, k ∈ identity_keys ->
    setAttributes sriov (npuBaseAttrs inv (if isVF sriov then deviceTypeNpuVF else deviceTypeNpu)) !! k = v ->
    g !! k = v) by (intros k v Hk Hv; by rewrite Hid).
  assert (Hbase : forall k v, k ∈ [deviceTypeAttributeKey; pciBusIDAttributeKey; deviceNodeNameAttributeKey] ->
    npuBaseAttrs inv (if isVF sriov then deviceTypeNpuVF else deviceTypeNpu) !! k = v -> g !! k = v).
  { intros k v Hk Hv. apply Hkey; [set_solver|].
    rewrite setAttributes_other; [done|..]; intros ->; revert Hk; identity_key. }
  split; [done| | | | |].
  - obs readPCIDriver_Ok.
  - eexists. split_and!; [eapply sriov_seen_widen; [..|exact Hs]; sys_chain|done|done| | | |].
    + unfold deviceStringAttr. simpl. by erewrite Hbase; [| |reflexivity]; [|identity_key].
    + unfold deviceStringAttr. simpl. by erewrite Hkey; [| |apply setAttributes_mode]; [|identity_key].
    + unfold deviceStringAttr. simpl.
      erewrite Hkey; [| |by apply setAttributes_parent]; [|identity_key].
      unfold isVF. case_bool_decide as Hp; [done|]. by rewrite Hp.
    + unfold deviceIntAttr. simpl. by erewrite Hkey; [| |apply setAttributes_numVFs]; [|identity_key].
  - assert (Hb : g !! pciBusIDAttributeKey = Some (strAttr (iv_PCIBusID inv)))
      by (apply Hbase; [identity_key|reflexivity]).
    unfold devicePCIBusID. simpl. rewrite Hb. simpl.
    rewrite bool_decide_false; [done|]. intros E0. by rewrite E0 in Hbus.
  - unfold deviceStringAttr. simpl. by erewrite Hbase; [| |reflexivity]; [|identity_key].
  - simpl. unfold npuCapacity. case_bool_decide; [by rewrite lookup_singleton_eq|by rewrite lookup_empty].
Qed.

Lemma npuEntry_ok root inv s s' v :
  npuEntry root inv s = (s', Ok v) -> npu_verdict_ok root s s' inv v.
Proof.
  destruct v as [|sk|d]; [..|apply npuEntry_device]; unfold npuEntry, npu_verdict_ok; intros H; msplit.
  - eexists. split; [done|]. obs readPCIDriver_Ok.
  - do 2 (split; [done|]). match goal with H : probeSRIOV _ _ _ = _ |- _ =>
      pose proof (probeSRIOV_sound _ _ _ _ _ H) as [_ Hs] end.
    split; [|done]. learn_le. eapply sriov_seen_widen; [..|exact Hs]; sys_chain.
  - do 2 (split; [done|]). left.
    match goal with H : probeSRIOV _ _ _ = (_, Err ?e), He : errors_Is ?e _ = true |- _ =>
      pose proof (probeSRIOV_unsupported _ _ _ _ _ H He) as Hs end.
    split; [done|]. learn_le. eapply sriov_unsupported_widen; [..|exact Hs]; sys_chain.
  - do 2 (split; [done|]). right. split; [done|]. obs os_call_ENOENT.
Qed.

Lemma npu_verdict_ok_widen root s s1 s2 s' inv v :
  later s s1 -> later s2 s' -> npu_verdict_ok root s1 s2 inv v -> npu_verdict_ok root s s' inv v.
Proof.
  intros H1 H2. destruct v as [|sk|d]; simpl.
  - intros (drv & ? & ?). exists drv. split; [done|by eapply observed_widen].
  - unfold npu_skip_ok. intros (? & ? & H). do 2 (split; [done|]). destruct (sk_err sk).
    + destruct H as [[? ?]|[? ?]]; [left|right]; (split; [done|]);
        [by eapply sriov_unsupported_widen|by eapply observed_widen].
    + destruct H. split; [by eapply sriov_seen_widen|done].
  - intros [? ? (i&?&?) ? ? ?]. split; try done; [by eapply observed_widen|].
    exists i. split; [by eapply sriov_seen_widen|done].
Qed.

(** The conversion meets its contract entry by entry. *)
Lemma npuDevicesFromInventory_verdicts root devs s s' ds sks :
  npuDevicesFromInventory root devs s = (s', Ok (ds, sks)) ->
  exists vs, Forall2 (npu_verdict_ok root s s') devs vs /\
             ds = published vs /\ sks = skipped_of vs.
Proof.
  unfold npuDevicesFromInventory. intros H. minv. eexists. split_and!; [|done|done].
  match goal with H : forM _ _ _ = _ |- _ =>
    eapply Forall2_impl; [exact (forM_trace sys_le _ _ _ _ _ _ H)|] end.
  intros inv v (s1 & s2 & ? & Hv%npuEntry_ok & ?).
  eapply npu_verdict_ok_widen; [..|exact Hv]; sys_chain.
Qed.
End inventory.
