(* ===== verification/Steady.v ===== *)
(** A machine that no longer changes: the reads of discovery then have one
    result each, whenever they run. *)
From S2P Require Import Prelude GoStd Host PciSysfs Device Sriov Discovery Vfio Inventory.
Open Scope string_scope.

(** Two actions that, where both run after [T] and succeed, give the same result. *)
Class Agree (T : nat) {A} (m1 m2 : M Sys A) : Prop :=
  agree s1 s2 a1 a2 : (T <= clk s1)%nat -> (T <= clk s2)%nat -> (m1 s1).2 = Ok a1 -> (m2 s2).2 = Ok a2 -> a1 = a2.
(** An action with one result, whenever it runs after [T]. *)
Class Stable (T : nat) {A} (m : M Sys A) : Prop :=
  stable s1 s2 : (T <= clk s1)%nat -> (T <= clk s2)%nat -> (m s1).2 = (m s2).2.

Section stability.
Context (T : nat).

#[export] Instance ret_stable {A} (a : A) : Stable T (ret a).
Proof. done. Qed.
#[export] Instance throw_stable {A} e : Stable T (throw (A:=A) e).
Proof. done. Qed.
#[export] Instance of_res_stable {A} (r : res A) : Stable T (of_res r).
Proof. done. Qed.
#[export] Instance log_stable l m : Stable T (log l m).
Proof. done. Qed.

Lemma respects_clk {A} (m : M Sys A) s : Respects sys_le m -> (T <= clk s)%nat -> (T <= clk (m s).1)%nat.
Proof. intros Hm H. destruct (Hm s) as [Hle _]. lia. Qed.

#[export] Instance bind_stable {A B} (m : M Sys A) (k : A -> M Sys B) :
  Respects sys_le m -> Stable T m -> (forall a, Stable T (k a)) -> Stable T (bind m k).
Proof.
  intros Hr Hm Hk s1 s2 H1 H2. unfold bind. specialize (Hm s1 s2 H1 H2).
  pose proof (respects_clk m s1 Hr H1). pose proof (respects_clk m s2 Hr H2).
  destruct (m s1) as [? [|]], (m s2) as [? [|]]; simpl in *; simplify_eq; [by apply Hk|done].
Qed.
#[export] Instance try_stable {A} (m : M Sys A) : Stable T m -> Stable T (try m).
Proof.
  intros Hm s1 s2 H1 H2. unfold try. specialize (Hm s1 s2 H1 H2). destruct (m s1), (m s2). simpl in *. by subst.
Qed.
#[export] Instance wrap_err_stable {A} f (m : M Sys A) : Stable T m -> Stable T (wrap_err f m).
Proof.
  intros Hm s1 s2 H1 H2. unfold wrap_err. specialize (Hm s1 s2 H1 H2).
  destruct (m s1) as [? [|]], (m s2) as [? [|]]; simpl in *; by simplify_eq.
Qed.

#[export] Instance stable_agree {A} (m : M Sys A) : Stable T m -> Agree T m m | 10.
Proof. intros Hm s1 s2 a1 a2 L1 L2 H1 H2. specialize (Hm s1 s2 L1 L2). congruence. Qed.
#[export] Instance bind_agree {A B} (m1 m2 : M Sys A) (k1 k2 : A -> M Sys B) :
  Respects sys_le m1 -> Respects sys_le m2 -> Agree T m1 m2 -> (forall a, Agree T (k1 a) (k2 a)) ->
  Agree T (bind m1 k1) (bind m2 k2) | 5.
Proof.
  intros Hr1 Hr2 Hm Hk s1 s2 b1 b2 L1 L2. unfold bind. specialize (Hm s1 s2).
  pose proof (respects_clk m1 s1 Hr1 L1). pose proof (respects_clk m2 s2 Hr2 L2).
  destruct (m1 s1) as [t1 [x1|]], (m2 s2) as [t2 [x2|]]; simpl in *; try done.
  rewrite (Hm _ _ L1 L2 eq_refl eq_refl). by apply Hk.
Qed.
#[export] Instance forM_agree {A B} (f1 f2 : A -> M Sys B) l :
  (forall x, Respects sys_le (f1 x)) -> (forall x, Respects sys_le (f2 x)) -> (forall x, Agree T (f1 x) (f2 x)) ->
  Agree T (forM f1 l) (forM f2 l) | 5.
Proof.
  intros Hr1 Hr2 Hf. induction l as [|x l IH]; simpl; [apply _|].
  apply bind_agree; [done|done|done|]. intros y. apply bind_agree; [apply _|apply _|done|]. intros ys. apply _.
Qed.
End stability.

Ltac solve_stable :=
  repeat first [ typeclasses eauto
    | match goal with |- Respects _ _ => progress solve_respects end
    | apply bind_stable | apply try_stable | apply wrap_err_stable
    | apply bind_agree | apply forM_agree | apply stable_agree
    | match goal with |- forall _, _ => intros ? end | case_match | progress simpl ].

Section steady_machine.
Context {hst : Host} (T : nat) (v : OSView) (Hsteady : steady_from T v).

#[export] Instance os_call_stable {A} op p (f : OSView -> errno + A) : Stable T (os_call op p f).
Proof using Hsteady. intros s1 s2 H1 H2. unfold os_call. simpl. by rewrite !Hsteady. Qed.
#[export] Instance readSysfsValue_stable p n : Stable T (readSysfsValue p n).
Proof using Hsteady. unfold readSysfsValue, os_ReadFile. solve_stable. Qed.
#[export] Instance readSysfsLinkBase_stable p n : Stable T (readSysfsLinkBase p n).
Proof using Hsteady. unfold readSysfsLinkBase, os_Readlink. solve_stable. Qed.
#[export] Instance pciEntryRemoved_stable p e : Stable T (pciEntryRemoved p e).
Proof using Hsteady. unfold pciEntryRemoved, os_Stat. solve_stable. Qed.
#[export] Instance readPCIDriver_stable p : Stable T (readPCIDriver p).
Proof using Hsteady. unfold readPCIDriver. solve_stable. Qed.
#[export] Instance readSRIOVNumVFs_stable p : Stable T (readSRIOVNumVFs p).
Proof using Hsteady. unfold readSRIOVNumVFs. solve_stable. Qed.
#[export] Instance probeSRIOV_stable r b : Stable T (probeSRIOV r b).
Proof using Hsteady. unfold probeSRIOV, os_Stat, os_Lstat. solve_stable. Qed.
#[export] Instance setNumaNodeAttr_stable a d n : Stable T (setNumaNodeAttr a d n).
Proof using Hsteady. unfold setNumaNodeAttr. solve_stable. Qed.
#[export] Instance setPCIERootAttr_stable a d r b : Stable T (setPCIERootAttr a d r b).
Proof using Hsteady. unfold setPCIERootAttr, resolvePCIERootID, EvalSymlinks. solve_stable. Qed.
#[export] Instance isolatedIOMMUGroup_stable p b : Stable T (isolatedIOMMUGroup p b).
Proof using Hsteady. unfold isolatedIOMMUGroup, deviceIOMMUGroupFromSysfs, os_ReadDir. solve_stable. Qed.
#[export] Instance vfioAttributes_stable r b p n i g : Stable T (vfioAttributes r b p n i g).
Proof using Hsteady. unfold vfioAttributes. solve_stable. Qed.

(** The known set decides between failing and going on, never between results. *)
#[export] Instance isRebellionsPCI_agree p k1 k2 : Agree T (isRebellionsPCI p k1) (isRebellionsPCI p k2).
Proof using Hsteady.
  unfold isRebellionsPCI. apply bind_agree; [apply _..|]. intros [v0|e]; [apply _|].
  intros s1 s2 a1 a2 _ _.
  assert (forall (k : gset string) s a, ((if bool_decide (ToLower (Base p) ∈ k) then
      let! removed := pciEntryRemoved p e in
      if negb removed then throw (ErrWrap ("read vendor for known NPU " +:+ Base p +:+ ": ") e "") else ret false
    else ret false) s).2 = Ok a -> a = false) as Hf; [|by intros ->%Hf ->%Hf].
  intros k s a. case_bool_decide; [|by intros [= <-]]. unfold bind.
  destruct (pciEntryRemoved p e s) as [? [[]|]]; simpl; congruence.
Qed.
#[export] Instance enumerateVfioDevices_agree r k1 k2 :
  Agree T (enumerateVfioDevices r k1) (enumerateVfioDevices r k2).
Proof using Hsteady. unfold enumerateVfioDevices, os_ReadDir, vfioEntry. solve_stable. Qed.
#[export] Instance countNativeCandidates_agree r k1 k2 :
  Agree T (countNativeCandidates r k1) (countNativeCandidates r k2).
Proof using Hsteady. unfold countNativeCandidates, os_ReadDir, isNativeCandidate. solve_stable. Qed.
#[export] Instance npuDevicesFromInventory_agree r devs :
  Agree T (npuDevicesFromInventory r devs) (npuDevicesFromInventory r devs).
Proof using Hsteady. unfold npuDevicesFromInventory, npuEntry, os_Stat. solve_stable. Qed.

Lemma agree_runs {A} (m1 m2 : M Sys A) s1 s1' s2 s2' a1 a2 :
  Agree T m1 m2 -> (T <= clk s1)%nat -> (T <= clk s2)%nat -> m1 s1 = (s1', Ok a1) -> m2 s2 = (s2', Ok a2) -> a1 = a2.
Proof. intros Hm L1 L2 H1 H2. eapply (Hm s1 s2); [done|done|by rewrite H1|by rewrite H2]. Qed.

Lemma enumerateVfioDevices_steady r k1 k2 s1 s1' s2 s2' a1 a2 :
  (T <= clk s1)%nat -> (T <= clk s2)%nat ->
  enumerateVfioDevices r k1 s1 = (s1', Ok a1) -> enumerateVfioDevices r k2 s2 = (s2', Ok a2) -> a1 = a2.
Proof using Hsteady. apply agree_runs, _. Qed.
Lemma countNativeCandidates_steady r k1 k2 s1 s1' s2 s2' a1 a2 :
  (T <= clk s1)%nat -> (T <= clk s2)%nat ->
  countNativeCandidates r k1 s1 = (s1', Ok a1) -> countNativeCandidates r k2 s2 = (s2', Ok a2) -> a1 = a2.
Proof using Hsteady. apply agree_runs, _. Qed.
Lemma npuDevicesFromInventory_steady r devs s1 s1' s2 s2' a1 a2 :
  (T <= clk s1)%nat -> (T <= clk s2)%nat ->
  npuDevicesFromInventory r devs s1 = (s1', Ok a1) -> npuDevicesFromInventory r devs s2 = (s2', Ok a2) -> a1 = a2.
Proof using Hsteady. apply agree_runs, _. Qed.
End steady_machine.

#[export] Hint Extern 1 (steady_from _ _) => eassumption : typeclass_instances.

(** A stable action that once succeeded succeeds whenever it runs. *)
Lemma stable_Ok {A} (m : M Sys A) `{!Stable 0 m} s s1 a :
  m s = (s1, Ok a) -> forall t, exists t', m t = (t', Ok a).
Proof.
  intros H t. pose proof (stable (m:=m) s t) as E. rewrite H in E.
  destruct (m t) as [t' r]. simpl in E. rewrite <- E by lia. by eexists.
Qed.
