(* ===== verification/Validate.v ===== *)
(** Revalidation of an allocated device before it is prepared
    (cmd/npu-kubelet-plugin/validate_device.go). *)
From S2P Require Import Prelude GoStd Host PciSysfs Device Sriov Discovery Vfio Inventory Steady.
Open Scope string_scope.

Section validate.
Context {hst : Host}.

Definition validateAllocatedDevice (root : string) (d : Device) : M Sys unit :=
  let! bus := of_res (devicePCIBusID d) in
  let devPath := Join [root; ToLower bus] in
  let! vendor := readSysfsValue devPath "vendor" in
  if negb (EqualFold vendor rblnPCIVendorID)
  then throw (ErrText ("PCI vendor changed for " +:+ bus)) else
  let wantDriver := if isVfioDevice d then vfioPCIDriverName else nativePCIDriverName in
  let! driver := readPCIDriver devPath in
  if bool_decide (driver <> wantDriver)
  then throw (ErrText ("PCI driver for " +:+ bus +:+ " is " +:+ quote driver +:+
                       ", expected " +:+ quote wantDriver)) else
  let! info := probeSRIOV root bus in
  if isHostingPF info || bool_decide (partitionMode info <> deviceStringAttr d partitionModeAttributeKey)
     || negb (EqualFold (parentPCIBusID info) (deviceStringAttr d parentPCIBusIDAttributeKey))
  then throw (ErrText ("SR-IOV layout changed for " +:+ bus)) else
  if isVfioDevice d then
    let! group := isolatedIOMMUGroup devPath bus in
    if bool_decide (deviceIntAttr d iommuGroupAttributeKey <> Some group)
    then throw (ErrText ("IOMMU group changed for " +:+ bus))
    else ret tt
  else ret tt.

(** ** Specification *)

(** What a validated device is known to be, from reads between [s] and [s']. *)
Record device_current (root bus : string) (d : Device) (s s' : Sys) : Prop := {
  dc_vendor : observed s s' (is_rebellions (Join [root; ToLower bus]));
  dc_driver : observed s s' (driver_is (Join [root; ToLower bus])
                (if isVfioDevice d then vfioPCIDriverName else nativePCIDriverName));
  dc_sriov : exists i, sriov_seen root bus i s s' /\ isHostingPF i = false /\
    partitionMode i = deviceStringAttr d partitionModeAttributeKey /\
    ToLower (parentPCIBusID i) = ToLower (deviceStringAttr d parentPCIBusIDAttributeKey);
  dc_group : isVfioDevice d = true -> exists g,
    deviceIntAttr d iommuGroupAttributeKey = Some g /\
    observed s s' (group_is (Join [root; ToLower bus]) g) /\
    observed s s' (group_exclusive (Join [root; ToLower bus]) bus);
}.

#[export] Instance validateAllocatedDevice_respects root d :
  Respects sys_le (validateAllocatedDevice root d).
Proof. unfold validateAllocatedDevice. solve_respects. Qed.

Lemma device_current_widen root bus d s s1 s2 s' :
  later s s1 -> later s2 s' -> device_current root bus d s1 s2 -> device_current root bus d s s'.
Proof.
  intros H1 H2 [? ? (i & ? & ?) Hg]. split.
  - by eapply observed_widen.
  - by eapply observed_widen.
  - exists i. split; [by eapply sriov_seen_widen|done].
  - intros (g & ? & ? & ?)%Hg. exists g. split_and!; [done|by eapply observed_widen..].
Qed.

Lemma validateAllocatedDevice_current root d s s' :
  validateAllocatedDevice root d s = (s', Ok tt) ->
  exists bus, devicePCIBusID d = Ok bus /\ device_current root bus d s s'.
Proof.
  unfold validateAllocatedDevice. intros H. msplit.
  all: match goal with H : probeSRIOV _ _ _ = (_, Ok _) |- _ =>
    pose proof (probeSRIOV_sound _ _ _ _ _ H) as [_ Hs] end; learn_le;
    repeat match goal with
    | H : ~ _ <> _ |- _ => apply dec_stable in H
    | H : _ || _ = false |- _ => apply orb_false_elim in H as [? ?]
    | H : bool_decide _ = false |- _ => apply bool_decide_eq_false in H
    | H : negb (EqualFold _ _) = false |- _ => apply negb_false_iff, EqualFold_true in H
    end; eexists; (split; [eassumption|]).
  all: split;
    [ obsw readSysfsValue_Ok; intros k Hk; eexists; split; [exact Hk|done]
    | subst; match goal with H : isVfioDevice _ = _ |- _ => rewrite H in * end; obs readPCIDriver_Ok
    | eexists; split_and!; [eapply sriov_seen_widen; [..|exact Hs]; sys_chain|done..]
    | ]; try done.
  - intros _. match goal with H : isolatedIOMMUGroup _ _ _ = (_, Ok ?g) |- _ =>
      exists g; pose proof (isolatedIOMMUGroup_Ok _ _ _ _ _ H) as [? ?] end.
    split_and!; [done|eapply observed_widen; [..|eassumption]; sys_chain..].
  - intros ?. congruence.
Qed.

(** The reads behind a device of either loop body, and what they put in it. *)
Lemma isRebellionsPCI_true_run p known s s' :
  isRebellionsPCI p known s = (s', Ok true) ->
  exists vendor s1, readSysfsValue p "vendor" s = (s1, Ok vendor) /\ EqualFold vendor rblnPCIVendorID = true.
Proof. unfold isRebellionsPCI. intros H. msplit. eauto. Qed.

Definition entry_reads (root bus devPath drv : string) (i : sriovInfo) : Prop :=
  (exists vendor s1 s2, readSysfsValue devPath "vendor" s1 = (s2, Ok vendor) /\
                        EqualFold vendor rblnPCIVendorID = true) /\
  (exists s1 s2, readPCIDriver devPath s1 = (s2, Ok drv)) /\
  (exists s1 s2, probeSRIOV root bus s1 = (s2, Ok i)) /\ isHostingPF i = false.

Lemma vfioEntry_reads root known busID s s' d :
  vfioEntry root known busID s = (s', Ok (VDevice d)) ->
  exists i g, entry_reads root busID (Join [root; busID]) vfioPCIDriverName i /\
    (exists s1 s2, isolatedIOMMUGroup (Join [root; busID]) busID s1 = (s2, Ok g)) /\
    deviceStringAttr d partitionModeAttributeKey = partitionMode i /\
    deviceStringAttr d parentPCIBusIDAttributeKey = parentPCIBusID i /\
    deviceIntAttr d iommuGroupAttributeKey = Some g.
Proof.
  unfold vfioEntry. intros H. msplit.
  repeat match goal with Hn : ~ _ <> _ |- _ => apply dec_stable in Hn; subst end.
  match goal with H : vfioAttributes _ _ _ _ _ _ _ = (_, Ok _) |- _ =>
    apply vfioAttributes_spec in H as (attrs0 & -> & Hid) end.
  match goal with H : isRebellionsPCI _ _ _ = _ |- _ =>
    apply isRebellionsPCI_true_run in H as (vendor & s1 & Hvendor & Hfold) end.
  do 2 eexists. split_and!; [split_and!; eauto 10|eauto| | |].
  - unfold deviceStringAttr. simpl. by rewrite setAttributes_mode.
  - unfold deviceStringAttr. simpl. rewrite setAttributes_parent.
    + unfold isVF. case_bool_decide as Hp; [done|]. by rewrite Hp.
    + by rewrite Hid by identity_key.
  - unfold deviceIntAttr. simpl. rewrite setAttributes_other by done. by rewrite Hid by identity_key.
Qed.

(** C29: A device that passes revalidation is still what its attributes say, by
    reads made during the revalidation itself: same vendor, the driver its kind
    needs, an SR-IOV layout with the same partition mode and parent that hosts
    no VFs, and for a VFIO device the same IOMMU group, still exclusive. *)
Theorem validateAllocatedDevice_sound root d s s' :
  validateAllocatedDevice root d s = (s', Ok tt) ->
  exists bus, devicePCIBusID d = Ok bus /\ device_current root bus d s s'.
Proof. apply validateAllocatedDevice_current. Qed.

(** C30: No false alarm: while the machine does not change, every VFIO device
    that the scan publishes for a lower-case sysfs entry passes the
    revalidation, at any later time. *)
Theorem validateAllocatedDevice_complete v root known busID s s' d :
  steady v -> ToLower busID = busID ->
  vfioEntry root known busID s = (s', Ok (VDevice d)) ->
  forall t, exists t', validateAllocatedDevice root d t = (t', Ok tt).
Proof.
  intros Hv Hlow Hd t. assert (steady_from 0 v) as Hv0 by (intros ? _; apply Hv).
  pose proof (vfioEntry_device _ _ _ _ _ _ Hd) as [_ _ _ _ _ _ Htype Hbus].
  apply vfioEntry_reads in Hd
    as (i & g & ((vendor & ? & ? & H1 & Hfold) & (? & ? & H2) & (? & ? & H3) & Hhost) & (? & ? & H4) & Hm & Hp & Hg).
  unfold validateAllocatedDevice. rewrite Hbus, Htype. unfold bind at 1. simpl. rewrite Hlow.
  unfold bind at 1. destruct (stable_Ok _ _ _ _ H1 t) as [t1 ->]. rewrite Hfold. simpl.
  unfold bind at 1. destruct (stable_Ok _ _ _ _ H2 t1) as [t2 ->]. rewrite bool_decide_false by tauto.
  unfold bind at 1. destruct (stable_Ok _ _ _ _ H3 t2) as [t3 ->].
  rewrite Hhost, Hm, Hp, bool_decide_false by tauto.
  assert (EqualFold (parentPCIBusID i) (parentPCIBusID i) = true) as -> by by apply EqualFold_true.
  simpl. unfold bind. destruct (stable_Ok _ _ _ _ H4 t3) as [t4 ->].
  rewrite Hg, bool_decide_false by tauto. by eexists.
Qed.
End validate.

(** ** Concrete runs *)

Definition passthrough_table : list (string * fnode) :=
  [ ("/sys/0000:02:00.0", FDir []); ("/sys/0000:02:00.0/vendor", FFile "0x1eff");
    ("/sys/0000:02:00.0/driver", FLink "../../drivers/vfio-pci");
    ("/sys/0000:02:00.0/class", FFile "0x120000");
    ("/sys/0000:02:00.0/physfn", FLink "../0000:01:00.0");
    ("/sys/0000:01:00.0/sriov_numvfs", FFile "4");
    ("/sys/0000:02:00.0/iommu_group", FLink "../../kernel/iommu_groups/7");
    ("/sys/0000:02:00.0/iommu_group/devices", FDir ["0000:02:00.0"]) ].

Definition is_device (v : verdict) : bool := match v with VDevice _ => true | _ => false end.

Lemma validateAllocatedDevice_complete_witness :
  exists d, Name d = "vfio-0000-02-00-0-vf4" /\ forall t, exists t',
    @validateAllocatedDevice (table_host passthrough_table) "/sys" d t = (t', Ok tt).
Proof.
  destruct (run_ok (@vfioEntry (table_host passthrough_table) "/sys" ∅ "0000:02:00.0" sys_start)
    (fun v => match v with VDevice d => bool_decide (Name d = "vfio-0000-02-00-0-vf4") | _ => false end))
    as (s' & [|sk|d] & E & Hn); [vm_compute; reflexivity|discriminate Hn..|].
  apply bool_decide_eq_true in Hn. exists d. split; [exact Hn|].
  exact (@validateAllocatedDevice_complete (table_host passthrough_table) (table_view passthrough_table)
    "/sys" ∅ "0000:02:00.0" sys_start s' d (fun t => eq_refl) eq_refl E).
Defined.

Lemma validateAllocatedDevice_sound_witness :
  exists d s', @validateAllocatedDevice (table_host passthrough_table) "/sys" d sys_start = (s', Ok tt) /\
    exists bus, devicePCIBusID d = Ok bus /\
    @device_current (table_host passthrough_table) "/sys" bus d sys_start s'.
Proof.
  pose (d := {| Name := "vfio-0000-02-00-0-vf4"; Capacity := ∅;
    Attributes := setAttributes {| parentPCIBusID := "0000:01:00.0"; numVFs := 4 |}
                    (vfioBaseAttrs "0000:02:00.0" 7) |}).
  destruct (run_ok (@validateAllocatedDevice (table_host passthrough_table) "/sys" d sys_start) (fun _ => true))
    as (s' & [] & E & _); [vm_compute; reflexivity|].
  exists d, s'. split; [exact E|]. exact (validateAllocatedDevice_sound _ _ _ _ E).
Defined.
