(* ===== verification/RsdGroup.v ===== *)
(** RSD groups: creation through the library, and the check of the group that
    was really made (cmd/npu-kubelet-plugin/rsd_group.go). *)
From S2P Require Import Prelude GoStd Host.
Open Scope string_scope.

(** rblnsmi.RblnSmi: the fields the check reads. *)
Record SmiDevice := { GroupID : string; BusID : string }.
Record RblnSmi := { Devices : list SmiDevice }.

(** The programs and libraries behind the group: rblnlib-go's
    RecreateRsdGroup, the search of PATH, the output of the command that is
    run, and the decoder of its JSON. Each answers as of the instant it is
    asked. *)
Class RsdEnv := {
  RecreateRsdGroup_at : nat -> list string -> res string;
  LookPath_at : nat -> string -> res string;
  Output_at : nat -> string -> list string -> res string;
  decode_RblnSmi : string -> res RblnSmi;
}.

Definition rblnSmiPaths : list string :=
  ["/usr/bin/rbln-smi"; "/run/rbln/driver/usr/bin/rbln-smi"; "/host/usr/bin/rbln-smi";
   "/host/driver/usr/bin/rbln-smi"].

(** [!fi.IsDir() && fi.Mode().Perm()&0o111 != 0] *)
Definition isExecutable (fi : FileInfo) : bool :=
  negb (fi_dir fi) && bool_decide (N.land (fi_perm fi) 73 <> 0%N).

(** The loop over the devices: the set [seen], or the first one that does not
    belong. *)
Fixpoint groupMembers (group : string) (wanted seen : gset string) (devs : list SmiDevice)
    : res (gset string) :=
  match devs with
  | [] => Ok seen
  | d :: devs' =>
      if bool_decide (GroupID d <> group) then groupMembers group wanted seen devs' else
      let bus := ToLower (BusID d) in
      if negb (bool_decide (bus ∈ wanted)) || bool_decide (bus ∈ seen)
      then Err (ErrText ("RSD group " +:+ group +:+ " contains unexpected or duplicate device " +:+ BusID d))
      else groupMembers group wanted ({[ bus ]} ∪ seen) devs'
  end.

Definition validateRSDMembership (path : string) (expected : list string) (info : RblnSmi) : res unit :=
  let '(group, ok) := match CutPrefix "/dev/rsd" path with Some g => (g, true) | None => (path, false) end in
  let invalid := Err (ErrText ("invalid private RSD group path " +:+ quote path)) in
  match Atoi group with
  | Err _ => invalid
  | Ok id =>
      if negb ok || bool_decide (id <= 0)%Z || bool_decide (group <> Itoa id) then invalid else
      let wanted : gset string := list_to_set (map ToLower expected) in
      if bool_decide (size wanted = 0%nat)
      then Err (ErrText ("RSD group " +:+ group +:+ " has no requested devices")) else
      match groupMembers group wanted ∅ (Devices info) with
      | Err e => Err e
      | Ok seen =>
          if bool_decide (size seen <> size wanted)
          then Err (ErrText ("RSD group " +:+ group +:+ " contains " +:+ Itoa (Z.of_nat (size seen)) +:+ " of " +:+
                             Itoa (Z.of_nat (size wanted)) +:+ " requested devices"))
          else Ok tt
      end
  end.

Section rsd.
Context {hst : Host} {rsd : RsdEnv}.

(** A call to the outside, at the current instant. *)
Definition ext_call {A} (f : nat -> res A) : M Sys A := fun s => (tick s, f (clk s)).

(** The first candidate path that is an executable file. *)
Fixpoint findCommand (paths : list string) : M Sys string :=
  match paths with
  | [] => ret ""
  | path :: paths' =>
      let? r := os_Stat path in
      match r with
      | Ok fi => if isExecutable fi then ret path else findCommand paths'
      | Err _ => findCommand paths'
      end
  end.

Definition readGroupedInventory : M Sys RblnSmi :=
  let! command := findCommand rblnSmiPaths in
  let! command := if bool_decide (command = "") then ext_call (fun t => LookPath_at t "rbln-smi")
                  else ret command in
  let! data := wrap_err (fun e => ErrWrap "read RSD group membership: " e "")
                 (ext_call (fun t => Output_at t command ["-g"; "-j"])) in
  wrap_err (fun e => ErrWrap "decode RSD group membership: " e "") (of_res (decode_RblnSmi data)).

Definition recreateValidatedRSDGroup (busIDs : list string) : M Sys string :=
  let! path := ext_call (fun t => RecreateRsdGroup_at t busIDs) in
  let! info := readGroupedInventory in
  do! of_res (validateRSDMembership path busIDs info) in
  ret path.

#[export] Instance ext_call_respects {A} (f : nat -> res A) : Respects sys_le (ext_call f).
Proof. intros s. split_and!; simpl; [lia|lia|done|done]. Qed.
#[export] Instance findCommand_respects ps : Respects sys_le (findCommand ps).
Proof. induction ps; simpl; solve_respects. Qed.
#[export] Instance readGroupedInventory_respects : Respects sys_le readGroupedInventory.
Proof. unfold readGroupedInventory. solve_respects. Qed.
#[export] Instance recreateValidatedRSDGroup_respects b : Respects sys_le (recreateValidatedRSDGroup b).
Proof. unfold recreateValidatedRSDGroup. solve_respects. Qed.
End rsd.

(** ** Specification *)

(** The lowercased addresses of the members of a group, in order. *)
Definition members_of (group : string) (info : RblnSmi) : list string :=
  map (fun d => ToLower (BusID d)) (List.filter (fun d => bool_decide (GroupID d = group)) (Devices info)).

(** [path] names a private group that holds exactly the requested devices. *)
Definition exact_group (path : string) (expected : list string) (info : RblnSmi) : Prop :=
  exists id, (0 < id <= int64_max)%Z /\ path = "/dev/rsd" +:+ Itoa id /\ expected <> [] /\
    NoDup (members_of (Itoa id) info) /\
    forall b, b ∈ members_of (Itoa id) info <-> b ∈ map ToLower expected.

(** ** Lemmas *)

Lemma CutPrefix_Some p s r : CutPrefix p s = Some r <-> s = p +:+ r.
Proof.
  revert s. induction p as [|a p IH]; intros s; simpl.
  - split; [by intros [= ->]|]. intros ->. done.
  - destruct s as [|b s]; simpl.
    + split; [done|]. discriminate.
    + case_decide as Hab; [subst; rewrite IH; split; [by intros ->|by intros [= ->]]|].
      split; [done|]. by intros [= -> _].
Qed.

Lemma groupMembers_Ok group wanted seen devs seen' :
  groupMembers group wanted seen devs = Ok seen' <->
  let ms := map (fun d => ToLower (BusID d)) (List.filter (fun d => bool_decide (GroupID d = group)) devs) in
  NoDup ms /\ (forall b, b ∈ ms -> b ∈ wanted /\ b ∉ seen) /\ seen' = list_to_set ms ∪ seen.
Proof.
  revert seen. induction devs as [|d devs IH]; intros seen; cbn [groupMembers List.filter].
  - simpl. split; [|intros (_ & _ & ->); f_equal; set_solver].
    intros [= <-]. split_and!; [constructor|set_solver|set_solver].
  - destruct (decide (GroupID d = group)) as [Hg|Hg].
    + rewrite (bool_decide_true (GroupID d = group)) by done. rewrite bool_decide_false by tauto.
      cbn [map list_to_set]. destruct (decide (ToLower (BusID d) ∈ wanted)) as [Hw|Hw].
      * rewrite (bool_decide_true (_ ∈ wanted)) by done. simpl.
        case_bool_decide as Hs.
        -- split; [done|]. intros (_ & H & _). by destruct (H (ToLower (BusID d))) as [_ []]; [left|].
        -- rewrite IH. cbv zeta. rewrite NoDup_cons. split.
           ++ intros (Hnd & Hin & ->). split_and!; [|done| |set_solver].
              { intros Hb. destruct (Hin _ Hb). set_solver. }
              intros b [->|Hb]%elem_of_cons; [done|]. destruct (Hin _ Hb). set_solver.
           ++ intros ((Hni & Hnd) & Hin & ->). split_and!; [done| |set_solver].
              intros b Hb. destruct (Hin b) as [? ?]; [by right|]. split; [done|].
              intros [->%elem_of_singleton|?]%elem_of_union; done.
      * rewrite (bool_decide_false (_ ∈ wanted)) by done. simpl. split; [done|].
        intros (_ & H & _). destruct (H (ToLower (BusID d))) as [? _]; [left|done].
    + rewrite bool_decide_true by done. rewrite (bool_decide_false (GroupID d = group)) by done. apply IH.
Qed.

Lemma validateRSDMembership_iff path expected info :
  validateRSDMembership path expected info = Ok tt <-> exact_group path expected info.
Proof.
  unfold validateRSDMembership, exact_group. split.
  - destruct (CutPrefix "/dev/rsd" path) as [g|] eqn:Hcut.
    2: { simpl. destruct (Atoi path); simpl; intros [=]. }
    apply CutPrefix_Some in Hcut as ->. destruct (Atoi g) as [id|] eqn:Hid; [|intros [=]]. cbn [negb orb].
    apply ParseInt_range in Hid as Hrange.
    destruct (bool_decide (id <= 0)%Z || bool_decide (g <> Itoa id)) eqn:E; [done|].
    apply orb_false_elim in E as [Hpos%bool_decide_eq_false Hg%bool_decide_eq_false].
    apply dec_stable in Hg. simpl. case_bool_decide as Hsz; [done|].
    destruct (groupMembers _ _ _ _) as [seen|] eqn:Hm; [|done]. case_bool_decide as Hlen; [done|].
    intros _. apply groupMembers_Ok in Hm as (Hnd & Hin & ->).
    exists id. rewrite <- Hg. split_and!; [lia|lia|done| |done|].
    + intros ->. done.
    + fold (members_of g info) in *. rewrite (right_id_L ∅ (∪)) in Hlen. intros b.
      assert (list_to_set (members_of g info) = (list_to_set (map ToLower expected) : gset string)) as Heq.
      { apply set_subseteq_size_eq; [|lia]. intros x [? _]%elem_of_list_to_set%Hin. done. }
      by rewrite <- !(elem_of_list_to_set (C:=gset string)), Heq.
  - intros (id & Hid & -> & Hne & Hnd & Hin).
    replace (CutPrefix "/dev/rsd" ("/dev/rsd" +:+ Itoa id)) with (Some (Itoa id))
      by (symmetry; by apply CutPrefix_Some).
    unfold Atoi, Itoa in *. rewrite ParseInt_FormatInt by (unfold int64_min; lia).
    rewrite (bool_decide_false (id <= 0)%Z) by lia. rewrite (bool_decide_false (FormatInt id <> _)) by tauto.
    simpl. assert (Heq : (list_to_set (members_of (FormatInt id) info) : gset string) =
                         list_to_set (map ToLower expected)).
    { apply set_eq. intros b. by rewrite !elem_of_list_to_set, Hin. }
    rewrite bool_decide_false.
    2: { destruct expected as [|e expected]; [done|]. intros H%size_empty_inv. set_solver. }
    destruct (groupMembers (FormatInt id) (list_to_set (map ToLower expected)) ∅ (Devices info)) as [seen|e] eqn:Hm.
    + apply groupMembers_Ok in Hm as (_ & _ & ->). fold (members_of (FormatInt id) info).
      rewrite (right_id_L ∅ (∪)), Heq, bool_decide_false; [done|tauto].
    + exfalso. assert (groupMembers (FormatInt id) (list_to_set (map ToLower expected)) ∅ (Devices info)
        = Ok (list_to_set (members_of (FormatInt id) info) ∪ ∅)) as Hok; [|congruence].
      apply groupMembers_Ok. fold (members_of (FormatInt id) info). split_and!; [done| |done].
      intros b Hb. rewrite elem_of_list_to_set, <- Hin. split; [done|set_solver].
Qed.

Section rsd_lemmas.
Context {hst : Host} {rsd : RsdEnv}.

Lemma recreateValidatedRSDGroup_exact busIDs s s' path :
  recreateValidatedRSDGroup busIDs s = (s', Ok path) ->
  RecreateRsdGroup_at (clk s) busIDs = Ok path /\
  exists info, exact_group path busIDs info /\
    exists t cmd data, (clk s < t < clk s')%nat /\ Output_at t cmd ["-g"; "-j"] = Ok data /\
      decode_RblnSmi data = Ok info.
Proof.
  unfold recreateValidatedRSDGroup. intros H. minv.
  match goal with H : validateRSDMembership _ _ _ = Ok ?u |- _ =>
    destruct u; apply validateRSDMembership_iff in H end.
  match goal with H : ext_call _ _ = _ |- _ => unfold ext_call in H; simplify_eq end.
  split; [done|]. eexists. split; [eassumption|].
  match goal with H : readGroupedInventory _ = _ |- _ => unfold readGroupedInventory in H; minv end.
  match goal with H : (if _ then _ else _) ?x = (?y, _) |- _ =>
    assert (sys_le x y) by (eapply (respects_run sys_le); [|exact H]; case_match; apply _) end.
  learn_le. match goal with H : ext_call (fun t => Output_at t ?c _) ?s1 = _ |- _ =>
    exists (clk s1), c; unfold ext_call in H; simplify_eq end.
  eexists. split_and!; [sys_chain|sys_chain|eassumption|done].
Qed.

(** C31: The membership check accepts exactly the private groups it should: a
    path /dev/rsd<N> with N > 0 in canonical form whose members, up to letter
    case, are the requested functions and nothing else, each listed once. *)
Theorem validateRSDMembership_exact path expected info :
  validateRSDMembership path expected info = Ok tt <-> exact_group path expected info.
Proof. apply validateRSDMembership_iff. Qed.

End rsd_lemmas.

(** ** Concrete runs *)

(** A group with a foreign member, a missing one, or the shared group is refused. *)
Example membership_refused :
  let d g b := {| GroupID := g; BusID := b |} in
  map (fun pi => match validateRSDMembership (fst pi) ["0000:01:00.0"] {| Devices := snd pi |} with
                 | Ok _ => true | Err _ => false end)
    [ ("/dev/rsd1", [d "1" "0000:01:00.0"]);
      ("/dev/rsd1", [d "1" "0000:01:00.0"; d "1" "0000:02:00.0"]);
      ("/dev/rsd1", [d "2" "0000:01:00.0"]);
      ("/dev/rsd0", [d "0" "0000:01:00.0"]);
      ("/dev/rsd01", [d "01" "0000:01:00.0"]) ] = [true; false; false; false; false].
Proof. reflexivity. Qed.
