(* ===== verification/Claim.v ===== *)
(** Resource claims and their allocation results, as the kubelet passes them
    (resourceapi.ResourceClaim), and what the driver reads off them. *)
From S2P Require Import Prelude GoStd Host PciSysfs Device.
Open Scope string_scope.

(** pkg/consts/consts.go *)
Definition DriverName : string := "npu.rebellions.ai".

(** resourceapi.DeviceRequestAllocationResult *)
Record AllocResult := { Request : string; Driver : string; Pool : string; ResultDevice : string }.

(** resourceapi.ResourceClaim: [Allocation] is Status.Allocation.Devices.Results
    when Status.Allocation is not nil. *)
Record ResourceClaim := {
  UID : string;
  ClaimName : string;
  ClaimNamespace : string;
  Annotations : gmap string string;
  Allocation : option (list AllocResult);
}.

(** The results for this driver, in order. *)
Definition ours (results : list AllocResult) : list AllocResult :=
  List.filter (fun r => bool_decide (Driver r = DriverName)) results.
Definition allocated_results (claim : ResourceClaim) : list AllocResult :=
  match Allocation claim with Some results => ours results | None => [] end.

(** kubevirt_metadata.go *)
Definition kubevirtMetadataRequestName (result : AllocResult) : string := Cut_before "/" (Request result).

(** state.go: one of the claim's results is a device published as VFIO. *)
Definition claimHasVfioDevice (allocatable : gmap string Device) (claim : ResourceClaim) : bool :=
  match Allocation claim with
  | None => false
  | Some results =>
      existsb (fun r => match allocatable !! ResultDevice r with
                        | Some d => isVfioDevice d
                        | None => false
                        end) (ours results)
  end.

Lemma elem_of_ours r l : r ∈ ours l <-> r ∈ l /\ Driver r = DriverName.
Proof.
  unfold ours. rewrite !list_elem_of_In, List.filter_In. by rewrite bool_decide_eq_true.
Qed.

Lemma claimHasVfioDevice_true allocatable claim :
  claimHasVfioDevice allocatable claim = true <->
  exists r d, r ∈ allocated_results claim /\ allocatable !! ResultDevice r = Some d /\ isVfioDevice d = true.
Proof.
  unfold claimHasVfioDevice, allocated_results. destruct (Allocation claim) as [rs|].
  - rewrite existsb_exists. split.
    + intros (r & Hr & H). case_match; [|done]. exists r. eexists. by rewrite list_elem_of_In.
    + intros (r & d & Hr & Hd & Hv). exists r. rewrite Hd. by rewrite <- list_elem_of_In.
  - split; [done|]. intros (r & d & Hr%not_elem_of_nil & _). done.
Qed.
