(* ===== verification/Fs.v ===== *)
(** The part of the file system the plugin itself writes: a tree changed by the
    calls of package os, each of which may fail half-way. *)
From S2P Require Import Prelude GoStd.
Open Scope string_scope.

Inductive fsnode := NFile (data : string) | NDir.
#[export] Instance fsnode_eq_dec : EqDecision fsnode.
Proof. solve_decision. Defined.

(** Paths are lists of elements; the root is the empty list. *)
Abbreviation Tree := (gmap (list string) fsnode).
Record FsState := { tree : Tree; fs_clk : nat }.

(** How a call fails: its errno and what it had done by then, the bytes already
    written (if the file was opened at all), the directories already made, the
    files not yet removed. *)
Record fault := {
  ft_errno : errno;
  ft_bytes : option nat;
  ft_dirs : nat;
  ft_keep : list string -> bool;
}.

(** The faults of a run, one answer per call. *)
Class Faults := { fault_at : nat -> option fault }.
Definition no_faults : Faults := {| fault_at _ := None |}.

Definition EISDIR : errno := EOTHER 21.

(** ** The tree *)

Definition node_at (t : Tree) (p : list string) : option fsnode :=
  match p with [] => Some NDir | _ => t !! p end.
Definition is_file (n : option fsnode) : bool := match n with Some (NFile _) => true | _ => false end.
Definition is_dir (n : option fsnode) : bool := match n with Some NDir => true | _ => false end.

(** The proper ancestors and the path itself, from the top. *)
Definition prefixes (p : list string) : list (list string) := map (fun k => take k p) (seq 1 (length p)).
(** Why a missing path cannot be reached. *)
Definition missing_errno (t : Tree) (p : list string) : errno :=
  if existsb (fun q => is_file (t !! q)) (prefixes p) then ENOTDIR else ENOENT.

Definition make_dir (t : Tree) (q : list string) : Tree :=
  match t !! q with None => <[q := NDir]> t | Some _ => t end.
Definition make_dirs (t : Tree) (qs : list (list string)) : Tree := foldl make_dir t qs.

(** The names in a directory, sorted. *)
Definition child_of (p k : list string) : option string :=
  if bool_decide (take (length p) k = p) then match drop (length p) k with [n] => Some n | _ => None end
  else None.
Definition children (t : Tree) (p : list string) : list string :=
  SortStrings (omap (fun kv => child_of p (fst kv)) (map_to_list t)).

(** What is left under [p] when a removal stops: the kept files and the
    directories that hold them. *)
Definition survives (keep : list string -> bool) (t : Tree) (k : list string) : bool :=
  existsb (fun q => bool_decide (k `prefix_of` q) && keep q) (map fst (map_to_list t)).
Definition remove_tree (t : Tree) (p : list string) (keep : list string -> bool) : Tree :=
  filter (fun kv => ~ (p `prefix_of` fst kv) \/ survives keep t (fst kv) = true) t.

Section fs.
Context {flt : Faults}.

(** One call: its fault, if any, decides which of its two outcomes it has. *)
Definition fs_call {A} (op path : string) (good : Tree -> Tree * (errno + A)) (bad : fault -> Tree -> Tree)
    : M FsState A := fun s =>
  let '(t', r) := match fault_at (fs_clk s) with
                  | None => good (tree s)
                  | Some f => (bad f (tree s), inl (ft_errno f))
                  end in
  ({| tree := t'; fs_clk := S (fs_clk s) |},
   match r with inr a => Ok a | inl no => Err (ErrPath op path no) end).

Definition fs_ReadFile (path : string) : M FsState string :=
  let p := comps path in
  fs_call "open" path
    (fun t => (t, match node_at t p with
                  | Some (NFile d) => inr d
                  | Some NDir => inl EISDIR
                  | None => inl (missing_errno t p)
                  end))
    (fun _ t => t).

Definition fs_ReadDir (path : string) : M FsState (list (string * bool)) :=
  let p := comps path in
  fs_call "open" path
    (fun t => (t, match node_at t p with
                  | Some NDir => inr (map (fun n => (n, is_dir (t !! (p ++ [n])%list))) (children t p))
                  | Some (NFile _) => inl ENOTDIR
                  | None => inl (missing_errno t p)
                  end))
    (fun _ t => t).

(** [os.Stat], for its IsDir. *)
Definition fs_Stat (path : string) : M FsState bool :=
  let p := comps path in
  fs_call "stat" path
    (fun t => (t, match node_at t p with
                  | Some n => inr (is_dir (Some n))
                  | None => inl (missing_errno t p)
                  end))
    (fun _ t => t).

Definition fs_MkdirAll (path : string) : M FsState unit :=
  let p := comps path in
  fs_call "mkdir" path
    (fun t => if existsb (fun q => is_file (t !! q)) (prefixes p) then (t, inl ENOTDIR)
              else (make_dirs t (prefixes p), inr tt))
    (fun f t => if existsb (fun q => is_file (t !! q)) (prefixes p) then t
                else make_dirs t (take (ft_dirs f) (prefixes p))).

(** Created or truncated, then written. *)
Definition fs_WriteFile (path data : string) : M FsState unit :=
  let p := comps path in
  let openable t := is_dir (node_at t (removelast p)) && negb (is_dir (node_at t p)) in
  fs_call "open" path
    (fun t => if openable t then (<[p := NFile data]> t, inr tt)
              else (t, inl (if is_dir (node_at t p) then EISDIR else missing_errno t p)))
    (fun f t => match ft_bytes f with
                | Some n => if openable t then <[p := NFile (String.substring 0 n data)]> t else t
                | None => t
                end).

(** [os.Rename] of a file. *)
Definition fs_Rename (old new : string) : M FsState unit :=
  let p := comps old in let q := comps new in
  fs_call "rename" old
    (fun t => match node_at t p with
              | Some (NFile d) =>
                  if is_dir (node_at t q) then (t, inl EEXIST)
                  else if is_dir (node_at t (removelast q)) then (<[q := NFile d]> (delete p t), inr tt)
                  else (t, inl ENOENT)
              | Some NDir => (t, inl (EOTHER 95))
              | None => (t, inl (missing_errno t p))
              end)
    (fun _ t => t).

Definition fs_RemoveAll (path : string) : M FsState unit :=
  let p := comps path in
  fs_call "unlinkat" path
    (fun t => (remove_tree t p (fun _ => false), inr tt))
    (fun f t => remove_tree t p (ft_keep f)).
End fs.

(** ** Well-formed trees *)

(** Every element of a path is a plain name and every ancestor is a directory. *)
Definition wf_tree (t : Tree) : Prop :=
  forall k n, t !! k = Some n ->
    k <> [] /\ Forall plain_name k /\ forall k', k' `prefix_of` k -> k' <> k -> node_at t k' = Some NDir.

Definition names_plain (t : Tree) : Prop := forall k n, t !! k = Some n -> Forall plain_name k.

Lemma wf_names_plain t : wf_tree t -> names_plain t.
Proof. intros H k n Hk. by destruct (H k n Hk) as (_ & ? & _). Qed.

(** ** Frames *)

(** Outside [dir] nothing changes, except that ancestors of [dir] may be made. *)
Definition writes_under (dir : list string) (s s' : FsState) : Prop :=
  forall k, ~ dir `prefix_of` k ->
    tree s' !! k = tree s !! k \/
    (tree s !! k = None /\ tree s' !! k = Some NDir /\ k `prefix_of` dir).

#[export] Instance writes_under_preorder dir : PreOrder (writes_under dir).
Proof.
  split; [by intros s k; left|]. intros s1 s2 s3 H12 H23 k Hk.
  destruct (H12 k Hk) as [E1|(N1&D1&P1)], (H23 k Hk) as [E2|(N2&D2&P2)].
  - left. congruence.
  - right. split_and!; congruence.
  - right. split_and!; congruence.
  - congruence.
Qed.

(** Nothing changes at all. *)
Definition reads_only (s s' : FsState) : Prop := tree s' = tree s.
#[export] Instance reads_only_preorder : PreOrder reads_only.
Proof. split; [done|]. intros s1 s2 s3. unfold reads_only. congruence. Qed.

(** ** Lemmas *)

Lemma elem_of_prefixes q p : q ∈ prefixes p <-> q `prefix_of` p /\ q <> [].
Proof.
  unfold prefixes. rewrite list_elem_of_fmap. split.
  - intros (k & -> & Hk%elem_of_seq). split; [apply prefix_take|].
    destruct p as [|x p]; simpl in *; [lia|]. destruct k; [lia|done].
  - intros [[r ->] Hq]. exists (length q). split; [by rewrite take_app_length|].
    apply elem_of_seq. rewrite length_app. destruct q; simpl in *; [done|lia].
Qed.

Lemma make_dirs_lookup t qs k :
  make_dirs t qs !! k = t !! k \/ (t !! k = None /\ make_dirs t qs !! k = Some NDir /\ k ∈ qs).
Proof.
  revert t. induction qs as [|q qs IH]; intros t; simpl; [by left|].
  destruct (IH (make_dir t q)) as [H|(H1 & H2 & H3)].
  - rewrite H. unfold make_dir. destruct (t !! q) eqn:E; [by left|].
    destruct (decide (q = k)) as [->|Hq]; [right; rewrite lookup_insert_eq; set_solver|].
    left. by rewrite lookup_insert_ne.
  - right. unfold make_dir in H1. destruct (t !! q) eqn:E; [set_solver|].
    rewrite lookup_insert in H1. case_decide; [done|]. set_solver.
Qed.

Lemma make_dirs_is_dir t qs q :
  q ∈ qs -> is_file (t !! q) = false -> make_dirs t qs !! q = Some NDir.
Proof.
  revert t. induction qs as [|q' qs IH]; intros t; [by intros ?%not_elem_of_nil|]. simpl.
  intros [->|Hq]%elem_of_cons Hf.
  - assert (make_dir t q' !! q' = Some NDir) as Hd.
    { unfold make_dir. destruct (t !! q') as [[]|] eqn:E; [done|done|by rewrite lookup_insert_eq]. }
    destruct (make_dirs_lookup (make_dir t q') qs q') as [H|(H & _)]; congruence.
  - apply IH; [done|]. unfold make_dir. destruct (t !! q') eqn:E; [done|].
    rewrite lookup_insert. by case_decide.
Qed.

Lemma take_prefix_prefixes p n q : q ∈ take n (prefixes p) -> q ∈ prefixes p.
Proof. intros H. rewrite <- (take_drop n (prefixes p)). set_solver. Qed.

Lemma elem_of_children t p n : n ∈ children t p <-> exists v, t !! (p ++ [n])%list = Some v.
Proof.
  unfold children. rewrite SortStrings_Permutation, list_elem_of_omap. split.
  - intros ([k v] & Hk%elem_of_map_to_list & H). simpl in H. unfold child_of in H.
    case_bool_decide as Ht; [|done]. destruct (drop (length p) k) as [|m [|]] eqn:Hd; simplify_eq.
    exists v. by rewrite <- Ht, <- Hd, take_drop.
  - intros [v Hv]. exists ((p ++ [n])%list, v). split; [by apply elem_of_map_to_list|].
    simpl. unfold child_of. by rewrite take_app_length, bool_decide_true, drop_app_length.
Qed.

Lemma remove_tree_lookup t p keep k :
  remove_tree t p keep !! k = t !! k \/ (remove_tree t p keep !! k = None /\ p `prefix_of` k).
Proof.
  unfold remove_tree. destruct (decide (p `prefix_of` k)) as [Hp|Hp].
  - rewrite map_lookup_filter. destruct (t !! k); simpl; [|by left].
    case_guard; simpl; [by left|by right].
  - left. rewrite map_lookup_filter. destruct (t !! k); simpl; [|done].
    case_guard as Hg; [done|]. destruct Hg. by left.
Qed.

Lemma remove_tree_all t p k : p `prefix_of` k -> remove_tree t p (fun _ => false) !! k = None.
Proof.
  intros Hp. unfold remove_tree. rewrite map_lookup_filter. destruct (t !! k); simpl; [|done].
  case_guard as Hg; [|done]. destruct Hg as [?|Hs]; [done|]. exfalso. unfold survives in Hs.
  apply existsb_exists in Hs as (q & _ & H). by rewrite andb_false_r in H.
Qed.

Lemma remove_tree_wf t p keep : wf_tree t -> wf_tree (remove_tree t p keep).
Proof.
  intros Hwf k n Hk. unfold remove_tree in Hk. apply map_lookup_filter_Some in Hk as [Hk Hs]. simpl in Hs.
  destruct (Hwf k n Hk) as (Hne & Hpl & Hanc). split_and!; [done|done|]. intros k' Hk' Hne'.
  specialize (Hanc k' Hk' Hne'). destruct k' as [|x k']; [done|]. simpl in *. unfold remove_tree.
  apply map_lookup_filter_Some. split; [done|]. simpl. destruct Hs as [Hs|Hs].
  - left. intros Hp. apply Hs. by etrans.
  - right. unfold survives in *. apply existsb_exists in Hs as (q & Hq & [Hkq Hkeep]%andb_prop).
    apply existsb_exists. exists q. split; [done|]. rewrite Hkeep, bool_decide_true; [done|].
    apply bool_decide_eq_true in Hkq. by etrans.
Qed.

Lemma prefix_snoc_inv {A} (k p : list A) x : k `prefix_of` (p ++ [x])%list -> k = (p ++ [x])%list \/ k `prefix_of` p.
Proof.
  intros [r Hr]. destruct r as [|y r] using rev_ind; [left; by rewrite Hr, app_nil_r|right].
  rewrite app_assoc in Hr. apply app_inj_tail in Hr as [-> _]. by eexists.
Qed.

Lemma elem_of_take_prefixes p n k k' :
  k ∈ take n (prefixes p) -> k' `prefix_of` k -> k' <> [] -> k' ∈ take n (prefixes p).
Proof.
  unfold prefixes. rewrite <- !firstn_map || rewrite <- !fmap_take. rewrite !list_elem_of_fmap.
  intros (i & -> & Hi) Hk' Hne. exists (length k').
  assert (length k' <= i)%nat as Hle.
  { apply prefix_length in Hk'. rewrite length_take in Hk'. lia. }
  split.
  - destruct Hk' as [r Hr]. assert (take (length k') (take i p) = k') as E by (rewrite Hr; by rewrite take_app_length).
    rewrite take_take in E. by replace (Nat.min (length k') i) with (length k') in E by lia.
  - apply list_elem_of_lookup in Hi as [j Hj]. apply lookup_take_Some in Hj as [Hj Hjn].
    apply lookup_seq in Hj as [-> Hj].
    apply list_elem_of_lookup. exists (length k' - 1)%nat. apply lookup_take_Some. split; [|lia].
    apply lookup_seq. destruct k'; simpl in *; [done|]. lia.
Qed.

Lemma make_dirs_wf t p n :
  wf_tree t -> Forall plain_name p -> existsb (fun q => is_file (t !! q)) (prefixes p) = false ->
  wf_tree (make_dirs t (take n (prefixes p))).
Proof.
  intros Hwf Hp Hfile k v Hk.
  assert (forall q, q ∈ take n (prefixes p) -> make_dirs t (take n (prefixes p)) !! q = Some NDir) as Hdirs.
  { intros q Hq. apply make_dirs_is_dir; [done|]. destruct (is_file (t !! q)) eqn:E; [|done]. exfalso.
    rewrite <- not_true_iff_false in Hfile. apply Hfile, existsb_exists. exists q.
    split; [|done]. apply list_elem_of_In. by eapply take_prefix_prefixes. }
  destruct (make_dirs_lookup t (take n (prefixes p)) k) as [E|(_ & _ & Hin)].
  - rewrite E in Hk. destruct (Hwf k v Hk) as (Hne & Hpl & Hanc). split_and!; [done|done|].
    intros k' Hk' Hne'. specialize (Hanc k' Hk' Hne'). destruct k' as [|x k']; [done|]. simpl in *.
    destruct (make_dirs_lookup t (take n (prefixes p)) (x :: k')) as [->|(E' & _)]; congruence.
  - pose proof (take_prefix_prefixes _ _ _ Hin) as [[r Hr] Hne]%elem_of_prefixes. split_and!; [done| |].
    + rewrite Hr in Hp. by apply Forall_app in Hp as [? _].
    + intros k' Hk' _. destruct k' as [|x k']; [done|]. simpl. apply Hdirs. by eapply elem_of_take_prefixes.
Qed.

(** A file put where its parent is a directory and no directory stands. *)
Lemma insert_file_wf t p d :
  wf_tree t -> Forall plain_name p -> p <> [] -> is_dir (node_at t (removelast p)) = true ->
  is_dir (node_at t p) = false -> wf_tree (<[p := NFile d]> t).
Proof.
  intros Hwf Hp Hne Hpar Hnd k v Hk.
  assert (forall k', node_at t k' = Some NDir -> node_at (<[p := NFile d]> t) k' = Some NDir) as Hkeep.
  { intros k' Hk'. destruct k' as [|x k']; [done|]. simpl in *. rewrite lookup_insert_ne; [done|].
    intros ->. simpl in Hnd. by rewrite Hk' in Hnd. }
  rewrite lookup_insert in Hk. case_decide as Heq; [subst k|].
  - split_and!; [done|done|]. intros k' Hk' Hk'ne. apply Hkeep.
    destruct p as [|x p] using rev_ind; [done|]. rewrite removelast_last in Hpar.
    apply prefix_snoc_inv in Hk' as [?|Hk']; [done|].
    destruct (decide (k' = p)) as [->|Hkp]; [by destruct (node_at t p) as [[]|]|].
    destruct p as [|y p]; [destruct Hk' as [r Hr]; symmetry in Hr; by apply app_eq_nil in Hr as [-> _]|].
    simpl in Hpar. destruct (t !! (y :: p)) as [[]|] eqn:E; try done.
    by destruct (Hwf _ _ E) as (_ & _ & Hanc); apply Hanc.
  - destruct (Hwf k v Hk) as (? & ? & Hanc). split_and!; [done|done|]. intros k' ? ?. apply Hkeep. by apply Hanc.
Qed.

Lemma delete_file_wf t p d : wf_tree t -> t !! p = Some (NFile d) -> wf_tree (delete p t).
Proof.
  intros Hwf Hp k v Hk. apply lookup_delete_Some in Hk as [Hne Hk].
  destruct (Hwf k v Hk) as (? & ? & Hanc). split_and!; [done|done|]. intros k' Hk' Hk'ne.
  specialize (Hanc k' Hk' Hk'ne). destruct k' as [|x k']; [done|]. simpl in *.
  rewrite lookup_delete_ne; [done|]. intros ->. congruence.
Qed.

(** Well-formedness survives. *)
Definition keeps_wf (s s' : FsState) : Prop := wf_tree (tree s) -> wf_tree (tree s').
#[export] Instance keeps_wf_preorder : PreOrder keeps_wf.
Proof. unfold keeps_wf. split; [by intros ?|]. intros ??? H1 H2 H. auto. Qed.

Section fs_lemmas.
Context {flt : Faults}.

#[export] Instance fs_ReadFile_reads p : Respects reads_only (fs_ReadFile p).
Proof. intros s. unfold fs_ReadFile, fs_call. by destruct (fault_at _). Qed.
#[export] Instance fs_ReadDir_reads p : Respects reads_only (fs_ReadDir p).
Proof. intros s. unfold fs_ReadDir, fs_call. by destruct (fault_at _). Qed.

#[export] Instance fs_ReadFile_wf p : Respects keeps_wf (fs_ReadFile p).
Proof. intros s. unfold keeps_wf. by rewrite (fs_ReadFile_reads p s). Qed.
#[export] Instance fs_ReadDir_wf p : Respects keeps_wf (fs_ReadDir p).
Proof. intros s. unfold keeps_wf. by rewrite (fs_ReadDir_reads p s). Qed.
#[export] Instance fs_RemoveAll_wf p : Respects keeps_wf (fs_RemoveAll p).
Proof.
  intros s. unfold keeps_wf, fs_RemoveAll, fs_call.
  destruct (fault_at _); simpl; apply remove_tree_wf.
Qed.

Lemma reads_writes_under dir {A} (m : M FsState A) : Respects reads_only m -> Respects (writes_under dir) m.
Proof. intros Hm s k _. left. by rewrite (Hm s). Qed.

Lemma fs_ReadFile_Ok p s s' d :
  fs_ReadFile p s = (s', Ok d) -> tree s' = tree s /\ node_at (tree s) (comps p) = Some (NFile d).
Proof.
  unfold fs_ReadFile, fs_call. destruct (fault_at _); [done|].
  destruct (node_at _ _) as [[|]|]; intros [= <- <-]; done.
Qed.

Lemma fs_ReadDir_Ok p s s' es :
  fs_ReadDir p s = (s', Ok es) ->
  tree s' = tree s /\
  es = map (fun n => (n, is_dir (tree s !! (comps p ++ [n])%list))) (children (tree s) (comps p)).
Proof.
  unfold fs_ReadDir, fs_call. destruct (fault_at _); [done|].
  destruct (node_at _ _) as [[|]|]; intros [= <- <-]; done.
Qed.

Lemma fs_MkdirAll_under dir p :
  comps p `prefix_of` dir \/ dir `prefix_of` comps p -> Respects (writes_under dir) (fs_MkdirAll p).
Proof.
  intros Hp s k Hk. unfold fs_MkdirAll, fs_call.
  assert (forall qs, (forall q, q ∈ qs -> q ∈ prefixes (comps p)) ->
    make_dirs (tree s) qs !! k = tree s !! k \/
    (tree s !! k = None /\ make_dirs (tree s) qs !! k = Some NDir /\ k `prefix_of` dir)) as Hqs.
  { intros qs Hin. destruct (make_dirs_lookup (tree s) qs k) as [?|(? & ? & Hq)]; [by left|right].
    split_and!; [done|done|]. apply Hin, elem_of_prefixes in Hq as [Hq _].
    destruct Hp as [Hp|Hp]; [by etrans|]. destruct (prefix_weak_total _ _ _ Hq Hp); done. }
  destruct (fault_at _) as [f|]; simpl.
  - destruct (existsb _ _); [by left|]. apply Hqs. intros q. apply take_prefix_prefixes.
  - destruct (existsb _ _); simpl; [by left|]. by apply Hqs.
Qed.

Lemma fs_MkdirAll_wf p : Forall plain_name (comps p) -> Respects keeps_wf (fs_MkdirAll p).
Proof.
  intros Hp s Hwf. unfold fs_MkdirAll, fs_call.
  destruct (existsb (fun q => is_file (tree s !! q)) (prefixes (comps p))) eqn:E.
  - by destruct (fault_at _).
  - destruct (fault_at _) as [f|]; simpl; [by apply make_dirs_wf|].
    pose proof (make_dirs_wf (tree s) (comps p) (length (prefixes (comps p))) Hwf Hp E) as H.
    by rewrite firstn_all in H.
Qed.

Lemma fs_WriteFile_wf p d : Forall plain_name (comps p) -> Respects keeps_wf (fs_WriteFile p d).
Proof.
  intros Hp s Hwf. unfold fs_WriteFile, fs_call.
  assert (forall d', is_dir (node_at (tree s) (removelast (comps p))) && negb (is_dir (node_at (tree s) (comps p))) = true ->
    wf_tree (<[comps p := NFile d']> (tree s))) as Hins.
  { intros d' [H1 H2%negb_true_iff]%andb_prop. apply insert_file_wf; try done. intros E. by rewrite E in H2. }
  destruct (fault_at _) as [f|]; simpl.
  - destruct (ft_bytes f); [|done]. destruct (_ && _) eqn:E; [by apply Hins|done].
  - destruct (_ && _) eqn:E; simpl; [by apply Hins|done].
Qed.

Lemma fs_Rename_wf p q : Forall plain_name (comps q) -> Respects keeps_wf (fs_Rename p q).
Proof.
  intros Hq s Hwf. unfold fs_Rename, fs_call. destruct (fault_at _); simpl; [done|].
  destruct (node_at (tree s) (comps p)) as [[d|]|] eqn:Ep; simpl; try done.
  destruct (is_dir (node_at (tree s) (comps q))) eqn:Eq; simpl; [done|].
  destruct (is_dir (node_at (tree s) (removelast (comps q)))) eqn:Er; simpl; [|done].
  assert (tree s !! comps p = Some (NFile d)) as Hp by (destruct (comps p); [done|exact Ep]).
  assert (forall k, is_dir (node_at (delete (comps p) (tree s)) k) = is_dir (node_at (tree s) k)) as Hdel.
  { intros k. destruct k as [|x k]; [done|]. simpl. destruct (decide (comps p = x :: k)) as [E|E].
    - rewrite <- E, lookup_delete_eq, Hp. done.
    - by rewrite lookup_delete_ne. }
  apply insert_file_wf; [by eapply delete_file_wf|done| |by rewrite Hdel|by rewrite Hdel].
  intros E. by rewrite E in Eq.
Qed.

Lemma fs_MkdirAll_Ok p s s' q :
  fs_MkdirAll p s = (s', Ok tt) -> q ∈ prefixes (comps p) -> tree s' !! q = Some NDir.
Proof.
  unfold fs_MkdirAll, fs_call. destruct (fault_at _); [done|].
  destruct (existsb _ _) eqn:E; [done|]. intros [= <-] Hq. simpl.
  apply make_dirs_is_dir; [done|]. destruct (is_file (tree s !! q)) eqn:Ef; [|done].
  exfalso. rewrite <- not_true_iff_false in E. apply E, existsb_exists. exists q.
  by rewrite <- list_elem_of_In.
Qed.

(** A write changes one path, to a prefix of the data when it fails. *)
Lemma fs_WriteFile_run p data s s' r :
  fs_WriteFile p data s = (s', r) ->
  (forall k, k <> comps p -> tree s' !! k = tree s !! k) /\
  match r with
  | Ok _ => tree s' !! comps p = Some (NFile data) /\ comps p <> []
  | Err _ => tree s' !! comps p = tree s !! comps p \/
             exists n, tree s' !! comps p = Some (NFile (String.substring 0 n data))
  end.
Proof.
  unfold fs_WriteFile, fs_call. destruct (fault_at _) as [f|]; simpl.
  - destruct (ft_bytes f) as [n|]; [|by intros [= <- <-]; split; [|left]].
    destruct (_ && _); intros [= <- <-]; simpl; split; try done; [..|by left].
    + intros k Hk. by rewrite lookup_insert_ne.
    + right. exists n. by rewrite lookup_insert_eq.
  - destruct (_ && _) eqn:E; intros [= <- <-]; simpl; split; try done; [..|by left].
    + intros k Hk. by rewrite lookup_insert_ne.
    + rewrite lookup_insert_eq. split; [done|]. intros Hp. rewrite Hp in E. done.
Qed.

Lemma fs_WriteFile_under dir p data :
  dir `prefix_of` comps p -> Respects (writes_under dir) (fs_WriteFile p data).
Proof.
  intros Hp s k Hk. destruct (fs_WriteFile p data s) as [s' r] eqn:E. left.
  apply fs_WriteFile_run in E as [E _]. apply E. by intros ->.
Qed.

Lemma fs_Rename_run p q s s' r :
  fs_Rename p q s = (s', r) ->
  (forall k, k <> comps p -> k <> comps q -> tree s' !! k = tree s !! k) /\
  match r with
  | Ok _ => exists d, node_at (tree s) (comps p) = Some (NFile d) /\ tree s' !! comps q = Some (NFile d)
  | Err _ => tree s' = tree s
  end.
Proof.
  unfold fs_Rename, fs_call. destruct (fault_at _) as [f|]; simpl; [by intros [= <- <-]|].
  destruct (node_at (tree s) (comps p)) as [[d|]|] eqn:E; simpl.
  - destruct (is_dir (node_at _ (comps q))); [by intros [= <- <-]|].
    destruct (is_dir _); intros [= <- <-]; simpl; split; try done.
    + intros k Hp Hq. by rewrite lookup_insert_ne, lookup_delete_ne.
    + exists d. by rewrite lookup_insert_eq.
  - by intros [= <- <-].
  - by intros [= <- <-].
Qed.

Lemma fs_Rename_under dir p q :
  dir `prefix_of` comps p -> dir `prefix_of` comps q -> Respects (writes_under dir) (fs_Rename p q).
Proof.
  intros Hp Hq s k Hk. destruct (fs_Rename p q s) as [s' r] eqn:E. left.
  apply fs_Rename_run in E as [E _]. apply E; by intros ->.
Qed.

Lemma fs_RemoveAll_run p s s' r :
  fs_RemoveAll p s = (s', r) ->
  (forall k, tree s' !! k = tree s !! k \/ (tree s' !! k = None /\ comps p `prefix_of` k)) /\
  (r = Ok tt -> forall k, comps p `prefix_of` k -> tree s' !! k = None).
Proof.
  unfold fs_RemoveAll, fs_call. destruct (fault_at _) as [f|]; simpl; intros [= <- <-]; simpl.
  - split; [apply remove_tree_lookup|done].
  - split; [apply remove_tree_lookup|]. intros _ k. apply remove_tree_all.
Qed.
End fs_lemmas.

(** ** Runs without faults *)

Lemma fs_ReadFile_no_faults p s :
  @fs_ReadFile no_faults p s =
  ({| tree := tree s; fs_clk := S (fs_clk s) |},
   match node_at (tree s) (comps p) with
   | Some (NFile d) => Ok d
   | Some NDir => Err (ErrPath "open" p EISDIR)
   | None => Err (ErrPath "open" p (missing_errno (tree s) (comps p)))
   end).
Proof. unfold fs_ReadFile, fs_call. simpl. by destruct (node_at _ _) as [[]|]. Qed.
