(* ===== verification/Json.v ===== *)
(** The output of encoding/json's Marshal, for the document types of this
    repository: strings escaped as the encoder does, maps in key order. *)
From S2P Require Import Prelude GoStd.
Open Scope string_scope.

Inductive json :=
  | JNull
  | JBool (b : bool)
  | JInt (z : Z)
  | JStr (s : string)
  | JArr (l : list json)
  | JObj (l : list (string * json)).

(** ** UTF-8 (utf8.DecodeRuneInString) *)

Definition byte_in (a : ascii) (lo hi : nat) : bool :=
  bool_decide (lo <= Ascii.nat_of_ascii a <= hi)%nat.

(** The number of bytes of the valid rune at the head, if there is one. *)
Definition rune_len (s : string) : option nat :=
  match s with
  | EmptyString => None
  | String a s1 =>
      if byte_in a 0 127 then Some 1%nat else
      match s1 with
      | EmptyString => None
      | String b s2 =>
          if byte_in a 194 223 then (if byte_in b 128 191 then Some 2%nat else None) else
          match s2 with
          | EmptyString => None
          | String c s3 =>
              if byte_in a 224 239 then
                let '(lo, hi) := if byte_in a 224 224 then (160, 191)%nat
                                 else if byte_in a 237 237 then (128, 159)%nat else (128, 191)%nat in
                if byte_in b lo hi && byte_in c 128 191 then Some 3%nat else None
              else
              match s3 with
              | EmptyString => None
              | String d _ =>
                  if byte_in a 240 244 then
                    let '(lo, hi) := if byte_in a 240 240 then (144, 191)%nat
                                     else if byte_in a 244 244 then (128, 143)%nat else (128, 191)%nat in
                    if byte_in b lo hi && byte_in c 128 191 && byte_in d 128 191 then Some 4%nat else None
                  else None
              end
          end
      end
  end.

(** ** Strings *)

Definition hex_digit (n : nat) : ascii :=
  if bool_decide (n < 10)%nat then Ascii.ascii_of_nat (48 + n) else Ascii.ascii_of_nat (87 + n).
Definition u_escape (n : nat) : string :=
  "\u00" +:+ String (hex_digit (n / 16)) (String (hex_digit (n mod 16)) "").

(** A byte below 128. *)
Definition escape_ascii (a : ascii) : string :=
  let n := Ascii.nat_of_ascii a in
  if bool_decide (n = 34 \/ n = 92)%nat then String "\" (String a "")
  else if bool_decide (n = 8)%nat then "\b"
  else if bool_decide (n = 12)%nat then "\f"
  else if bool_decide (n = 10)%nat then "\n"
  else if bool_decide (n = 13)%nat then "\r"
  else if bool_decide (n = 9)%nat then "\t"
  else if bool_decide (n < 32 \/ n = 60 \/ n = 62 \/ n = 38)%nat then u_escape n
  else String a "".

(** U+2028 and U+2029. *)
Definition line_separator (s : string) : option string :=
  match CutPrefix (String "226" (String "128" (String "168" ""))) s with
  | Some _ => Some "\u2028"
  | None => match CutPrefix (String "226" (String "128" (String "169" ""))) s with
            | Some _ => Some "\u2029"
            | None => None
            end
  end.

(** [skip] bytes of a rune already copied are left. *)
Fixpoint escape_from (skip : nat) (s : string) : string :=
  match s with
  | EmptyString => ""
  | String a s' =>
      match skip with
      | S k => escape_from k s'
      | O =>
          match rune_len s with
          | None => "\ufffd" +:+ escape_from 0 s'
          | Some 1%nat => escape_ascii a +:+ escape_from 0 s'
          | Some n =>
              match line_separator s with
              | Some e => e +:+ escape_from (n - 1) s'
              | None => String.substring 0 n s +:+ escape_from (n - 1) s'
              end
          end
      end
  end.
Definition json_string (s : string) : string :=
  String "034" (escape_from 0 s +:+ String "034" "").

(** ** Values *)

Fixpoint encode (j : json) : string :=
  match j with
  | JNull => "null"
  | JBool true => "true"
  | JBool false => "false"
  | JInt z => FormatInt z
  | JStr s => json_string s
  | JArr l => "[" +:+ Join_with "," (map encode l) +:+ "]"
  | JObj l => "{" +:+ Join_with "," (map (fun kv => json_string (fst kv) +:+ ":" +:+ encode (snd kv)) l) +:+ "}"
  end.

(** The fields of a map, in the order of their keys. *)
Definition obj_of_map {A} (f : A -> json) (m : gmap string A) : json :=
  JObj (omap (fun k => (fun v => (k, f v)) <$> m !! k) (SortStrings (map fst (map_to_list m)))).

(** [omitempty]: a field that is left out when its value is empty. *)
Definition omitempty (empty : bool) (key : string) (j : json) : list (string * json) :=
  if empty then [] else [(key, j)].
