(* ===== verification/Url.v ===== *)
(** The part of net/url and net that names sockets: URL.String and url.Parse for
    a URL made of a scheme and a path, and JoinHostPort. *)
From S2P Require Import Prelude GoStd.
Open Scope string_scope.

(** ** Escaping, in the mode of a path *)

Definition is_alnum (c : ascii) : bool :=
  let n := Ascii.nat_of_ascii c in
  bool_decide (97 <= n <= 122)%nat || bool_decide (65 <= n <= 90)%nat || bool_decide (48 <= n <= 57)%nat.
(** [shouldEscape(c, encodePath)] *)
Definition shouldEscape (c : ascii) : bool :=
  negb (is_alnum c || Contains_byte c "-_.~$&+,/:;=@").

Definition upperhex (n : nat) : ascii := default "0"%char (String.get n "0123456789ABCDEF").
Definition unhex (c : ascii) : nat :=
  let n := Ascii.nat_of_ascii c in
  if bool_decide (n <= 57)%nat then n - 48 else if bool_decide (n <= 70)%nat then n - 55 else n - 87.

Fixpoint escape (s : string) : string :=
  match s with
  | EmptyString => EmptyString
  | String c s' =>
      let n := Ascii.nat_of_ascii c in
      if shouldEscape c then String "%" (String (upperhex (n / 16)) (String (upperhex (n mod 16)) (escape s')))
      else String c (escape s')
  end.

(** A percent sign needs two hexadecimal digits. *)
Fixpoint unescape (s : string) : option string :=
  match s with
  | EmptyString => Some EmptyString
  | String c s' =>
      if decide (c = "%"%char) then
        match s' with
        | String a (String b s'') =>
            if is_hex a && is_hex b then String (Ascii.ascii_of_nat (16 * unhex a + unhex b)) <$> unescape s'' else None
        | _ => None
        end
      else String c <$> unescape s'
  end.

(** ** URLs *)

Record URL := { u_Scheme : string; u_Opaque : string; u_Authority : string; u_Path : string }.

(** String for a URL with the fields Scheme, not empty, and Path only. *)
Definition url_String (scheme path : string) : string :=
  scheme +:+ ":" +:+ (if bool_decide (path = "") then "" else "//") +:+
  (if bool_decide (path = "*") then "*" else escape path).

(** The scheme and the rest; a colon in front is an error. *)
Fixpoint scheme_chars (first : bool) (s : string) : option (option (string * string)) :=
  match s with
  | EmptyString => Some None
  | String c s' =>
      if bool_decide (c = ":"%char) then (if first then None else Some (Some ("", s'))) else
      if is_alnum c && negb (first && bool_decide (Ascii.nat_of_ascii c <= 57)%nat)
         || negb first && Contains_byte c "+-." then
        match scheme_chars false s' with
        | Some (Some (w, r)) => Some (Some (String c w, r))
        | r => r
        end
      else Some None
  end.
Definition getScheme (s : string) : option (string * string) := default ("", s) <$> scheme_chars true s.

Fixpoint has_ctl (s : string) : bool :=
  match s with
  | EmptyString => false
  | String c s' => let n := Ascii.nat_of_ascii c in bool_decide (n < 32)%nat || bool_decide (n = 127)%nat || has_ctl s'
  end.

(** url.Parse, without the validation of the authority and of the fragment; the
    asterisk and the relative references, for which no scheme is given, are not
    covered. *)
Definition url_Parse (raw : string) : option URL :=
  let s := Cut_before "#" raw in
  if has_ctl s then None else
  match getScheme s with
  | None | Some ("", _) => None
  | Some (scheme, rest) =>
      let rest := Cut_before "?" rest in
      let url opaque authority path :=
        {| u_Scheme := ToLower scheme; u_Opaque := opaque; u_Authority := authority; u_Path := path |} in
      match CutPrefix "/" rest with
      | None => Some (url rest "" "")
      | Some _ =>
          match CutPrefix "//" rest with
          | None => url "" "" <$> unescape rest
          | Some after =>
              let authority := Cut_before "/" after in
              url "" authority <$> unescape (default "" (CutPrefix authority after))
          end
      end
  end.

(** [net.JoinHostPort] *)
Definition JoinHostPort (host port : string) : string :=
  if Contains_byte ":" host then "[" +:+ host +:+ "]:" +:+ port else host +:+ ":" +:+ port.

Example url_String_ex : map (url_String "unix") ["/var/lib/x.sock"; "/a b?c#d%"; ""; "rel/x"] =
  ["unix:///var/lib/x.sock"; "unix:///a%20b%3Fc%23d%25"; "unix:"; "unix://rel/x"].
Proof. vm_compute. reflexivity. Qed.
Example url_Parse_ex : map url_Parse ["unix:///a%20b%3F"; "unix://rel/x"; "unix:rel"; "u%"; ":x"; "unix:///%zz"; "unix:/x?q#f"] =
  [Some {| u_Scheme := "unix"; u_Opaque := ""; u_Authority := ""; u_Path := "/a b?" |};
   Some {| u_Scheme := "unix"; u_Opaque := ""; u_Authority := "rel"; u_Path := "/x" |};
   Some {| u_Scheme := "unix"; u_Opaque := "rel"; u_Authority := ""; u_Path := "" |}; None; None; None;
   Some {| u_Scheme := "unix"; u_Opaque := ""; u_Authority := ""; u_Path := "/x" |}].
Proof. vm_compute. reflexivity. Qed.

(** ** Lemmas *)

(** What is written for a byte is read back, and is no separator and no control
    character. *)
Definition plain (c : ascii) : bool :=
  let n := Ascii.nat_of_ascii c in
  negb (bool_decide (n < 32)%nat || bool_decide (n = 127)%nat || bool_decide (c = "#"%char) || bool_decide (c = "?"%char)).
Definition byte_ok (c : ascii) : bool :=
  let n := Ascii.nat_of_ascii c in
  let hi := upperhex (n / 16) in
  let lo := upperhex (n mod 16) in
  if shouldEscape c then
    is_hex hi && is_hex lo && bool_decide (Ascii.ascii_of_nat (16 * unhex hi + unhex lo) = c) && plain hi && plain lo
  else negb (bool_decide (c = "%"%char)) && plain c.
Lemma byte_ok_all c : byte_ok c = true.
Proof. destruct c as [[] [] [] [] [] [] [] []]; vm_compute; reflexivity. Qed.

(** What the escaped text is made of. *)
Lemma escape_ind (P : string -> string -> Prop) :
  P "" "" ->
  (forall c s t, c <> "%"%char -> plain c = true -> P s t -> P (String c s) (String c t)) ->
  (forall c hi lo s t, is_hex hi = true -> is_hex lo = true -> plain hi = true -> plain lo = true ->
    Ascii.ascii_of_nat (16 * unhex hi + unhex lo) = c -> P s t -> P (String c s) (String "%" (String hi (String lo t)))) ->
  forall s, P s (escape s).
Proof.
  intros H0 H1 H2. induction s as [|c s IH]; [done|]. cbn [escape]. cbv zeta. pose proof (byte_ok_all c) as Hc.
  unfold byte_ok in Hc. cbv zeta in Hc. destruct (shouldEscape c).
  - apply andb_true_iff in Hc as [Hc Hl]. apply andb_true_iff in Hc as [Hc Hh]. apply andb_true_iff in Hc as [Hc Hv].
    apply andb_true_iff in Hc as [Hx Hy]. apply bool_decide_eq_true in Hv. by apply H2.
  - apply andb_true_iff in Hc as [Hc Hp]. apply negb_true_iff, bool_decide_eq_false in Hc. by apply H1.
Qed.

Lemma unescape_escape s : unescape (escape s) = Some s.
Proof.
  apply (escape_ind (fun s t => unescape t = Some s)); [done| |].
  - intros c s' t Hc _ IH. cbn [unescape]. by rewrite decide_False, IH.
  - intros c hi lo s' t Hh Hl _ _ Hv IH. cbn [unescape]. rewrite decide_True, Hh, Hl, IH by done. cbn [andb fmap option_fmap option_map]. by rewrite Hv.
Qed.

Lemma plain_inv c : plain c = true ->
  bool_decide (Ascii.nat_of_ascii c < 32)%nat = false /\ bool_decide (Ascii.nat_of_ascii c = 127)%nat = false /\
  c <> "#"%char /\ c <> "?"%char.
Proof.
  unfold plain. cbv zeta. intros H. apply negb_true_iff in H. repeat (apply orb_false_iff in H as [H ?]).
  rewrite !bool_decide_eq_false in *. done.
Qed.

(** What separates the parts of a URL does not occur in an escaped path. *)
Lemma escape_sep_free d s : d = "#"%char \/ d = "?"%char -> sep_free d (escape s).
Proof.
  intros Hd. assert (plain_sep : forall c, plain c = true -> c <> d).
  { intros c Hc ->. apply plain_inv in Hc. naive_solver. }
  unfold sep_free. apply (escape_ind (fun _ t => Contains_byte d t = false)); [done| |].
  - intros c _ t _ Hc IH. cbn [Contains_byte]. rewrite IH, bool_decide_false; [done|]. intros <-. by apply (plain_sep d).
  - intros c hi lo _ t _ _ Hh Hl _ IH. cbn [Contains_byte]. rewrite IH, (bool_decide_false (d = hi)), (bool_decide_false (d = lo)), (bool_decide_false (d = "%"%char)); [done|..].
    + by destruct Hd as [->| ->].
    + intros <-. by apply (plain_sep d).
    + intros <-. by apply (plain_sep d).
Qed.
Lemma escape_no_ctl s : has_ctl (escape s) = false.
Proof.
  apply (escape_ind (fun _ t => has_ctl t = false)); [done| |].
  - intros c _ t _ Hc IH. cbn [has_ctl]. cbv zeta. apply plain_inv in Hc as (-> & -> & _). by rewrite IH.
  - intros c hi lo _ t _ _ Hh Hl _ IH. apply plain_inv in Hh as (Eh & Eh' & _), Hl as (El & El' & _).
    cbn [has_ctl]. cbv zeta. by rewrite Eh, Eh', El, El', IH.
Qed.

(** An absolute path in a URL is read back as it was. *)
Lemma url_Parse_String p :
  IsAbs p = true ->
  url_Parse (url_String "unix" p) = Some {| u_Scheme := "unix"; u_Opaque := ""; u_Authority := ""; u_Path := p |}.
Proof.
  intros Hp. destruct p as [|c p]; [done|]. unfold IsAbs in Hp. simpl in Hp. apply bool_decide_eq_true in Hp. injection Hp as ->.
  change (url_String "unix" (String "/" p)) with ("unix:///" +:+ escape p). pose proof (unescape_escape p) as He.
  pose proof (escape_sep_free "#" p (or_introl eq_refl)) as H1. pose proof (escape_sep_free "?" p (or_intror eq_refl)) as H2.
  pose proof (escape_no_ctl p) as H3. revert He H1 H2 H3. generalize (escape p) as e. intros e He H1 H2 H3.
  unfold url_Parse. assert (Cut_before "#" ("unix:///" +:+ e) = "unix:///" +:+ e) as ->.
  { unfold Cut_before. rewrite Split_sep_free; [done|]. exact H1. }
  change (has_ctl ("unix:///" +:+ e)) with (has_ctl e). rewrite H3.
  change (getScheme ("unix:///" +:+ e)) with (Some ("unix", "///" +:+ e)). cbv beta iota zeta.
  assert (Cut_before "?" ("///" +:+ e) = "///" +:+ e) as ->.
  { unfold Cut_before. rewrite Split_sep_free; [done|]. exact H2. }
  change (CutPrefix "/" ("///" +:+ e)) with (Some ("//" +:+ e)). change (CutPrefix "//" ("///" +:+ e)) with (Some ("/" +:+ e)).
  cbv beta iota. change (Cut_before "/" ("/" +:+ e)) with "". change (CutPrefix "" ("/" +:+ e)) with (Some (String "/" e)). simpl.
  by rewrite He.
Qed.
