(* ===== verification/Flags.v ===== *)
(** The settings of the two commands (cmd/npu-kubelet-plugin/main.go, type
    Flags) and the API clients made from them (pkg/flags/kubeclient.go). *)
From Stdlib Require Import SpecFloat.
From S2P Require Import Prelude GoStd Claim.
Open Scope string_scope.

(** A float64 is an IEEE number of 53 bits. *)
Record KubeClientConfig := { KubeConfig : string; KubeAPIQPS : spec_float; KubeAPIBurst : Z }.

(** The interval is in nanoseconds. *)
Record Flags := {
  kubeClientConfig : KubeClientConfig;
  nodeName : string;
  cdiRoot : string;
  kubeletRegistrarDirectoryPath : string;
  kubeletPluginsDirectoryPath : string;
  healthcheckPort : Z;
  deviceScanInterval : Z;
}.

Definition DriverPluginPath (flags : Flags) : string := Join [kubeletPluginsDirectoryPath flags; DriverName].

(** The conversion float32(x): the nearest number of 24 bits, to even on a tie. *)
Definition float32 (x : spec_float) : spec_float :=
  match x with
  | S754_finite s m e => binary_normalize 24 128 (cond_Zopp s (Zpos m)) e s
  | _ => x
  end.

(** rest.Config: the two fields that are set, and the others. *)
Record RestConfig (rest : Type) := { rc_rest : rest; QPS : spec_float; Burst : Z }.
Arguments rc_rest {rest}.
Arguments QPS {rest}.
Arguments Burst {rest}.

(** client-go *)
Class ClientGo := {
  rest : Type;
  clientset : Type;
  InClusterConfig : res (RestConfig rest);
  BuildConfigFromFlags : string -> string -> res (RestConfig rest);
  NewForConfig : RestConfig rest -> res clientset;
}.

Definition map_err {A} (f : err -> err) (r : res A) : res A := match r with Ok a => Ok a | Err e => Err (f e) end.
Definition res_bind {A B} (r : res A) (k : A -> res B) : res B := match r with Ok a => k a | Err e => Err e end.

Section clients.
Context {client_go : ClientGo}.

Definition NewClientSetConfig (k : KubeClientConfig) : res (RestConfig rest) :=
  res_bind
    (if bool_decide (KubeConfig k = "")
     then map_err (fun e => ErrWrap "create in-cluster client configuration: " e "") InClusterConfig
     else map_err (fun e => ErrWrap "create out-of-cluster client configuration: " e "") (BuildConfigFromFlags "" (KubeConfig k)))
    (fun csconfig => Ok {| rc_rest := rc_rest csconfig; QPS := float32 (KubeAPIQPS k); Burst := KubeAPIBurst k |}).

(** The only field of ClientSets is the client. *)
Definition NewClientSets (k : KubeClientConfig) : res clientset :=
  res_bind (map_err (fun e => ErrWrap "create client configuration: " e "") (NewClientSetConfig k)) (fun csconfig =>
  map_err (fun e => ErrWrap "create core client: " e "") (NewForConfig csconfig)).
End clients.

(** 5, and 2 to the 24th plus 1, which is a tie, and one tenth. *)
Example float32_ex : map float32
    [binary_normalize 53 1024 5 0 false; binary_normalize 53 1024 16777217 0 false; SFdiv 53 1024 (binary_normalize 53 1024 1 0 false) (binary_normalize 53 1024 10 0 false)] =
  [binary_normalize 24 128 5 0 false; binary_normalize 24 128 16777216 0 false; S754_finite false 13421773 (-27)].
Proof. vm_compute. reflexivity. Qed.
