(* ===== verification/Health.v ===== *)
(** The health service of the node agent (cmd/npu-kubelet-plugin/health.go): how
    it is started, on which address and with which sockets behind it. *)
From S2P Require Import Prelude GoStd Host Claim Url Flags.
Open Scope string_scope.

(** The started service: where it listens, and the targets of the two clients
    its checks call. *)
Record healthcheck := { hc_addr : string; regClient : string; draClient : string }.

(** net and grpc: at each instant the address Listen takes for the one asked
    for; NewClient, which does not dial, may refuse a target. *)
Class Network := { Listen_at : nat -> string -> res string; grpc_NewClient : string -> res unit }.

(** The machine and the addresses the process listens on. *)
Record Net := { net_sys : Sys; net_listeners : list string }.

(** The path a target was made of. *)
Definition unix_target (path : string) : URL := {| u_Scheme := "unix"; u_Opaque := ""; u_Authority := ""; u_Path := path |}.

Section health.
Context {hst : Host} {net : Network}.

Definition net_log (l : Level) (msg : string) : M Net unit :=
  zoom net_sys (fun s n => {| net_sys := s; net_listeners := net_listeners n |}) (log l msg).
Definition net_Listen (addr : string) : M Net string := fun n =>
  let r := Listen_at (clk (net_sys n)) addr in
  ({| net_sys := tick (net_sys n);
      net_listeners := match r with Ok a => (net_listeners n ++ [a])%list | Err _ => net_listeners n end |}, r).

Definition regSockPath (flags : Flags) : string :=
  url_String "unix" (Join [kubeletRegistrarDirectoryPath flags; DriverName +:+ "-reg.sock"]).
Definition draSockPath (flags : Flags) : string := url_String "unix" (Join [DriverPluginPath flags; "dra.sock"]).

(** nil, without an error, when the service is disabled. *)
Definition startHealthcheck (flags : Flags) : M Net (option healthcheck) :=
  let port := healthcheckPort flags in
  if bool_decide (port < 0)%Z then ret None else
  let addr := JoinHostPort "" (Itoa port) in
  let! lis := wrap_err (fun e => ErrWrap ("failed to listen for healthcheck service at " +:+ addr +:+ ": ") e "") (net_Listen addr) in
  do! wrap_err (fun e => ErrWrap "connect to registration socket: " e "") (of_res (grpc_NewClient (regSockPath flags))) in
  do! wrap_err (fun e => ErrWrap "connect to DRA socket: " e "") (of_res (grpc_NewClient (draSockPath flags))) in
  do! net_log LInfo "Starting healthcheck service" in
  ret (Some {| hc_addr := lis; regClient := regSockPath flags; draClient := draSockPath flags |}).

(** ** Lemmas *)

Lemma IsAbs_Join d ns : IsAbs d = true -> IsAbs (Join (d :: ns)) = true.
Proof using Type.
  intros H. assert (d <> "") by (by intros ->). 
  change (Join (d :: ns)) with (if bool_decide (d = "") then Join ns else Clean (Join_with "/" (d :: ns))).
  rewrite bool_decide_false by done.
  assert (IsAbs (Join_with "/" (d :: ns)) = true) as Ha by (destruct d, ns; done).
  by rewrite (Clean_abs _ _ Ha eq_refl).
Qed.

Lemma startHealthcheck_listens flags n :
  match startHealthcheck flags n with
  | (n', Ok o) => net_listeners n' = (net_listeners n ++ match o with Some h => [hc_addr h] | None => [] end)%list
  | (n', Err _) => True
  end.
Proof using Type.
  unfold startHealthcheck. case_bool_decide; [simpl; by rewrite app_nil_r|]. cbv zeta. unfold bind, wrap_err, net_Listen, of_res.
  destruct (Listen_at _ _) as [lis|e]; [|done]. destruct (grpc_NewClient (regSockPath flags)) as [[]|e]; [|done].
  destruct (grpc_NewClient (draSockPath flags)) as [[]|e]; done.
Qed.

(** C38: The health service is started as its settings say. A negative port disables
    it and nothing is done. Otherwise it listens on that port of every address,
    and if that is refused the error says so and nothing is left open. Once it
    listens, it is started unless a client is refused, which is an error, and
    then leaves the listener open; with absolute directories the two clients
    call exactly the registration socket and the DRA socket of this driver,
    whatever bytes the directories' names have. *)
Theorem startHealthcheck_outcome flags n :
  let '(n', r) := startHealthcheck flags n in
  let addr := ":" +:+ Itoa (healthcheckPort flags) in
  ((healthcheckPort flags < 0)%Z -> n' = n /\ r = Ok None) /\
  ((0 <= healthcheckPort flags)%Z ->
     match Listen_at (clk (net_sys n)) addr with
     | Err e => net_listeners n' = net_listeners n /\
                r = Err (ErrWrap ("failed to listen for healthcheck service at " +:+ addr +:+ ": ") e "")
     | Ok lis =>
         net_listeners n' = (net_listeners n ++ [lis])%list /\
         ((exists e, r = Err e) <-> exists target e, target ∈ [regSockPath flags; draSockPath flags] /\ grpc_NewClient target = Err e) /\
         (forall o, r = Ok o -> exists h, o = Some h /\ hc_addr h = lis /\
            (IsAbs (kubeletRegistrarDirectoryPath flags) = true ->
               url_Parse (regClient h) = Some (unix_target (Join [kubeletRegistrarDirectoryPath flags; DriverName +:+ "-reg.sock"]))) /\
            (IsAbs (kubeletPluginsDirectoryPath flags) = true ->
               url_Parse (draClient h) = Some (unix_target (Join [DriverPluginPath flags; "dra.sock"]))))
     end).
Proof using Type.
  unfold startHealthcheck. destruct (decide (healthcheckPort flags < 0)%Z) as [Hp|Hp].
  { rewrite bool_decide_true by done. simpl. split; [done|lia]. }
  rewrite bool_decide_false by done. cbv zeta. change (JoinHostPort "" ?p) with (":" +:+ p).
  unfold bind, wrap_err, net_Listen, of_res. destruct (Listen_at _ _) as [lis|e]; [|by split_and!].
  destruct (grpc_NewClient (regSockPath flags)) as [[]|e] eqn:E1; [|split; [done|]; intros _; split_and!; [done| |done]; set_solver].
  destruct (grpc_NewClient (draSockPath flags)) as [[]|e] eqn:E2; [|split; [done|]; intros _; split_and!; [done| |done]; set_solver].
  simpl. split; [done|]. intros _. split_and!; [done| |].
  - split; [by intros [? [=]]|]. intros (target & e & Hin & He).
    apply elem_of_cons in Hin as [->|Hin%list_elem_of_singleton]; congruence.
  - intros o [= <-]. eexists. split; [done|]. split; [done|]. simpl. split; intros Ha; apply url_Parse_String;
      [by apply IsAbs_Join|by apply IsAbs_Join, IsAbs_Join].
Qed.
End health.
