(* ===== verification/Metadata.v ===== *)
(** KubeVirt device metadata on disk (cmd/npu-kubelet-plugin/kubevirt_metadata.go):
    directories owned by one claim each, the files written in them and their
    removal by owner. *)
From S2P Require Import Prelude GoStd Host PciSysfs Device Claim Fs Json.
Open Scope string_scope.

Definition kubevirtMetadataBasePath : string := "/var/run/kubernetes.io/dra-device-attributes".
Definition kubevirtMetadataAPIVersion : string := "metadata.resource.k8s.io/v1alpha1".
Definition kubevirtMetadataKind : string := "DeviceMetadata".
Definition resourceClaimsSubdir : string := "resourceclaims".
Definition resourceClaimTemplateSubdir : string := "resourceclaimtemplates".
Definition kubevirtMetadataOwnerFile : string := ".claim-uid".
Definition podClaimNameAnnotation : string := "resource.kubernetes.io/pod-claim-name".

(** ** Documents *)

Record kubevirtMetadataDevice := {
  md_Driver : string;
  md_Pool : string;
  md_Name : string;
  md_Attributes : gmap string Attr;
}.
Record kubevirtDeviceMetadataRequest := { mr_Name : string; mr_Devices : list kubevirtMetadataDevice }.
Record kubevirtDeviceMetadata := {
  APIVersion : string;
  Kind : string;
  PodClaimName : option string;
  Requests : list kubevirtDeviceMetadataRequest;
}.

(** The encoding of resourceapi.DeviceAttribute, whose JSON tags are in
    k8s.io/api, and the order in which a Go map is ranged over, which differs
    from call to call. *)
Class MetadataEnv := {
  attr_json : Attr -> json;
  range_order : nat -> gmap string (list kubevirtMetadataDevice) ->
                list (string * list kubevirtMetadataDevice);
  range_order_perm n m : range_order n m ≡ₚ map_to_list m;
}.

(** cdispec.Mount *)
Record Mount := { m_HostPath : string; m_ContainerPath : string; m_Options : list string; m_Type : string }.

Section documents.
Context {menv : MetadataEnv}.

Definition device_json (d : kubevirtMetadataDevice) : json :=
  JObj ([("driver", JStr (md_Driver d)); ("pool", JStr (md_Pool d)); ("name", JStr (md_Name d))] ++
        omitempty (bool_decide (md_Attributes d = ∅)) "attributes" (obj_of_map attr_json (md_Attributes d)))%list.
Definition request_json (r : kubevirtDeviceMetadataRequest) : json :=
  JObj (("name", JStr (mr_Name r)) ::
        omitempty (bool_decide (mr_Devices r = [])) "devices" (JArr (map device_json (mr_Devices r))))%list.
Definition metadata_json (m : kubevirtDeviceMetadata) : json :=
  JObj ([("apiVersion", JStr (APIVersion m)); ("kind", JStr (Kind m))] ++
        match PodClaimName m with Some n => [("podClaimName", JStr n)] | None => [] end ++
        omitempty (bool_decide (Requests m = [])) "requests" (JArr (map request_json (Requests m))))%list.
Definition json_Marshal (m : kubevirtDeviceMetadata) : string := encode (metadata_json m).
End documents.

(** ** Paths *)

Definition podClaimName (claim : ResourceClaim) : option string :=
  match Annotations claim !! podClaimNameAnnotation with
  | Some v => if bool_decide (v = "") then None else Some v
  | None => None
  end.

Definition kubevirtMetadataContainerDirs (basePath : string) (claim : ResourceClaim) : list string :=
  Join [basePath; resourceClaimsSubdir; ClaimName claim] ::
  match podClaimName claim with
  | Some n => [Join [basePath; resourceClaimTemplateSubdir; n]]
  | None => []
  end.

Definition kubevirtMetadataHostDir (basePath claimUID : string) : string :=
  Join [basePath; resourceClaimsSubdir; ".uid-" +:+ claimUID].

Definition kubevirtMetadataFilePath (claimDir requestName : string) : string :=
  Join [claimDir; requestName; DriverName +:+ "-metadata.json"].

Definition kubevirtMetadataMounts (basePath : string) (claim : ResourceClaim) (requestName : string)
    : list Mount :=
  let hostPath := kubevirtMetadataFilePath (kubevirtMetadataHostDir basePath (UID claim)) requestName in
  map (fun claimDir => {| m_HostPath := hostPath;
                          m_ContainerPath := kubevirtMetadataFilePath claimDir requestName;
                          m_Options := ["ro"; "bind"]; m_Type := "" |})
      (kubevirtMetadataContainerDirs basePath claim).

(** ** Writing *)

(** [devicesByRequest]: the allocatable results of the claim, by main request. *)
Definition metadataDevice (allocatable : gmap string Device) (result : AllocResult)
    : option kubevirtMetadataDevice :=
  d ← allocatable !! ResultDevice result;
  Some {| md_Driver := DriverName; md_Pool := Pool result; md_Name := ResultDevice result;
          md_Attributes := Attributes d |}.
Definition addMetadataDevice (allocatable : gmap string Device)
    (byRequest : gmap string (list kubevirtMetadataDevice)) (result : AllocResult)
    : gmap string (list kubevirtMetadataDevice) :=
  match metadataDevice allocatable result with
  | None => byRequest
  | Some md =>
      let requestName := kubevirtMetadataRequestName result in
      <[requestName := (default [] (byRequest !! requestName) ++ [md])%list]> byRequest
  end.
Definition devicesByRequest (allocatable : gmap string Device) (results : list AllocResult)
    : gmap string (list kubevirtMetadataDevice) :=
  foldl (addMetadataDevice allocatable) ∅ (ours results).

Definition wrap_path (before path : string) (e : err) : err := ErrWrap (before +:+ path +:+ ": ") e "".

Section metadata.
Context {flt : Faults} {menv : MetadataEnv}.

Definition claimMetadataOwnership (claimDir claimUID : string) : M FsState unit :=
  let ownerPath := Join [claimDir; kubevirtMetadataOwnerFile] in
  let? r := fs_ReadFile ownerPath in
  match r with
  | Ok data =>
      let owner := TrimSpace data in
      if bool_decide (owner <> claimUID)
      then throw (ErrText ("metadata directory " +:+ claimDir +:+ " is owned by claim " +:+ owner +:+
                           ": another claim with the same name is prepared on this node"))
      else ret tt
  | Err _ =>
      do! wrap_err (wrap_path "create metadata claim dir " claimDir) (fs_MkdirAll claimDir) in
      wrap_err (wrap_path "write owner marker " ownerPath)
        (fs_WriteFile ownerPath (claimUID +:+ String "010" ""))
  end.

(** The body of the loop over the requests. *)
Definition writeRequest (claimDir : string) (pod : option string)
    (rd : string * list kubevirtMetadataDevice) : M FsState unit :=
  let '(requestName, devices) := rd in
  let path := kubevirtMetadataFilePath claimDir requestName in
  let dir := Dir path in
  do! wrap_err (wrap_path "create metadata dir " dir) (fs_MkdirAll dir) in
  let data := json_Marshal {| APIVersion := kubevirtMetadataAPIVersion; Kind := kubevirtMetadataKind;
                              PodClaimName := pod;
                              Requests := [ {| mr_Name := requestName; mr_Devices := devices |} ] |} in
  let tmp := path +:+ ".tmp" in
  do! wrap_err (wrap_path "write metadata " tmp) (fs_WriteFile tmp data) in
  wrap_err (wrap_path "publish metadata " path) (fs_Rename tmp path).

Definition writeKubeVirtMetadata (basePath : string) (claim : ResourceClaim)
    (allocatable : gmap string Device) : M FsState unit :=
  let byRequest := devicesByRequest allocatable (default [] (Allocation claim)) in
  let claimDir := kubevirtMetadataHostDir basePath (UID claim) in
  do! claimMetadataOwnership claimDir (UID claim) in
  let! n := gets fs_clk in
  do! forM (writeRequest claimDir (podClaimName claim)) (range_order n byRequest) in
  ret tt.

(** ** Removing *)

(** The body of the loop over the entries of a parent directory. *)
Definition removeOwned (parent claimUID : string) (entry : string * bool) : M FsState unit :=
  let '(name, isDir) := entry in
  if negb isDir then ret tt else
  let claimDir := Join [parent; name] in
  let? r := fs_ReadFile (Join [claimDir; kubevirtMetadataOwnerFile]) in
  match r with
  | Err _ => ret tt
  | Ok data =>
      if bool_decide (TrimSpace data <> claimUID) then ret tt
      else wrap_err (wrap_path "remove metadata dir " claimDir) (fs_RemoveAll claimDir)
  end.

(** One of the two parents. *)
Definition removeUnder (basePath claimUID subdir : string) : M FsState unit :=
  let parent := Join [basePath; subdir] in
  let? entries := fs_ReadDir parent in
  match entries with
  | Err e => if os_IsNotExist e then ret tt
             else throw (ErrWrap ("scan metadata dir " +:+ parent +:+ ": ") e "")
  | Ok entries => do! forM (removeOwned parent claimUID) entries in ret tt
  end.

Definition removeKubeVirtMetadataForClaim (basePath claimUID : string) : M FsState unit :=
  do! forM (removeUnder basePath claimUID) [resourceClaimsSubdir; resourceClaimTemplateSubdir] in
  ret tt.
End metadata.
