(* ===== verification/MetadataProps.v ===== *)
(** Correctness of the KubeVirt metadata: frames of a write, ownership, what a
    claim's files hold, removal by owner, and the torn owner marker. *)
From S2P Require Import Prelude GoStd Host PciSysfs Device Claim Fs Json Metadata.
Open Scope string_scope.

(** ** Specification vocabulary *)

(** A claim UID as the API server makes them: one path element without
    surrounding white space. *)
Definition uid_ok (uid : string) : Prop := sep_free "/" uid /\ TrimSpace uid = uid.
#[export] Instance uid_ok_dec uid : Decision (uid_ok uid).
Proof. unfold uid_ok. apply _. Defined.

(** The main request of every result is a plain name, and not the marker's:
    request names are DNS labels. *)
Definition request_ok (r : AllocResult) : Prop :=
  plain_name (kubevirtMetadataRequestName r) /\ kubevirtMetadataRequestName r <> kubevirtMetadataOwnerFile.
Definition requests_ok (claim : ResourceClaim) : Prop := Forall request_ok (allocated_results claim).
#[export] Instance requests_ok_dec claim : Decision (requests_ok claim).
Proof. unfold requests_ok, request_ok. apply _. Defined.

Section spec.
Context (base : list string).

Definition host_dir (uid : string) : list string := (base ++ [resourceClaimsSubdir; ".uid-" +:+ uid])%list.
Definition metadata_file (uid request : string) : list string :=
  (host_dir uid ++ [request; DriverName +:+ "-metadata.json"])%list.

(** The owner a directory's marker names. *)
Definition marker (t : Tree) (dir : list string) : option string :=
  match t !! (dir ++ [kubevirtMetadataOwnerFile])%list with
  | Some (NFile d) => Some (TrimSpace d)
  | _ => None
  end.

Definition parents : list string := [resourceClaimsSubdir; resourceClaimTemplateSubdir].

(** A directory of one of the parents [subs] whose marker names [uid]. *)
Definition owned (subs : list string) (t : Tree) (uid : string) (dir : list string) : Prop :=
  (exists sub n, sub ∈ subs /\ dir = (base ++ [sub; n])%list) /\
  marker t dir = Some uid.

(** Only files and directories below a directory owned by [uid] are lost. *)
Definition removes_owned (subs : list string) (uid : string) (s s' : FsState) : Prop :=
  names_plain (tree s) ->
  forall k, tree s' !! k = tree s !! k \/
    (tree s' !! k = None /\ exists dir, owned subs (tree s) uid dir /\ dir `prefix_of` k).

(** The document of a request holds exactly its devices. *)
Definition request_document {menv : MetadataEnv} (claim : ResourceClaim) (allocatable : gmap string Device)
    (request : string) : string :=
  json_Marshal {| APIVersion := kubevirtMetadataAPIVersion; Kind := kubevirtMetadataKind;
    PodClaimName := podClaimName claim;
    Requests := [ {| mr_Name := request;
      mr_Devices := omap (metadataDevice allocatable)
        (List.filter (fun r => bool_decide (kubevirtMetadataRequestName r = request)) (allocated_results claim)) |} ] |}.
End spec.

(** ** Concrete environments *)

Definition plain_env : MetadataEnv.
Proof. refine {| attr_json _ := JNull; range_order _ m := map_to_list m |}. done. Defined.
(** The call number [n] fails as [f] says. *)
Definition fault_once (n : nat) (f : fault) : Faults := {| fault_at t := if decide (t = n) then Some f else None |}.

Definition base_dirs : list string := ["var"; "run"; "kubernetes.io"; "dra-device-attributes"].
Definition vm_device : Device :=
  {| Name := "vfio-0000-02-00-0"; Capacity := ∅;
     Attributes := {[ deviceTypeAttributeKey := strAttr deviceTypeVfio ]} |}.
Definition vm_allocatable : gmap string Device := {[ "vfio-0000-02-00-0" := vm_device ]}.
Definition vm_claim : ResourceClaim := {|
  UID := "uid-1"; ClaimName := "vm-claim"; ClaimNamespace := "default"; Annotations := ∅;
  Allocation := Some [ {| Request := "npu/one"; Driver := DriverName; Pool := "node1";
                          ResultDevice := "vfio-0000-02-00-0" |} ] |}.
Definition fs_start : FsState := {| tree := ∅; fs_clk := 0 |}.
Definition vm_write (flt : Faults) (s : FsState) : FsState * res unit :=
  @writeKubeVirtMetadata flt plain_env (abs_path base_dirs) vm_claim vm_allocatable s.
Definition vm_remove (flt : Faults) (s : FsState) : FsState * res unit :=
  @removeKubeVirtMetadataForClaim flt (abs_path base_dirs) (UID vm_claim) s.
(** The owner marker was created but nothing was written to it. *)
Definition torn_write : Faults :=
  fault_once 2 {| ft_errno := ENOSPC; ft_bytes := Some 0%nat; ft_dirs := 0; ft_keep _ := true |}.
(** The owner marker could not be created. *)
Definition missing_marker : Faults :=
  fault_once 2 {| ft_errno := ENOSPC; ft_bytes := None; ft_dirs := 0; ft_keep _ := true |}.
(** The owner marker cannot be read at the third call. *)
Definition unreadable_marker (n : nat) : Faults :=
  fault_once n {| ft_errno := EIO; ft_bytes := None; ft_dirs := 0; ft_keep _ := true |}.

(** ** Lemmas on removal *)

Lemma marker_sub t t' dir o :
  (forall k, t' !! k = t !! k \/ t' !! k = None) -> marker t' dir = Some o -> marker t dir = Some o.
Proof.
  unfold marker. intros Hsub. destruct (Hsub (dir ++ [kubevirtMetadataOwnerFile])%list) as [->|E]; [done|].
  by rewrite E.
Qed.

Lemma removes_owned_sub base subs uid s s' :
  removes_owned base subs uid s s' -> names_plain (tree s) ->
  (forall k, tree s' !! k = tree s !! k \/ tree s' !! k = None) /\ names_plain (tree s').
Proof.
  intros H Hn. specialize (H Hn). split; [intros k; destruct (H k) as [?|[? _]]; auto|].
  intros k n Hk. destruct (H k) as [E|[E _]]; [|congruence]. rewrite E in Hk. by eapply Hn.
Qed.

#[export] Instance removes_owned_preorder base subs uid : PreOrder (removes_owned base subs uid).
Proof.
  split; [by intros s _ k; left|]. intros s1 s2 s3 H12 H23 Hn k.
  destruct (removes_owned_sub _ _ _ _ _ H12 Hn) as [Hsub Hn2].
  destruct (H23 Hn2 k) as [E|(E & dir & [Hdir Hm] & Hp)].
  - rewrite E. by apply H12.
  - right. split; [done|]. exists dir. split; [|done]. split; [done|by eapply marker_sub].
Qed.

Lemma removes_owned_mono base subs subs' uid s s' :
  subs ⊆ subs' -> removes_owned base subs uid s s' -> removes_owned base subs' uid s s'.
Proof.
  intros Hs H Hn k. destruct (H Hn k) as [?|(? & dir & [(sub & n & ? & ?) ?] & ?)]; [by left|right].
  split; [done|]. exists dir. split; [|done]. split; [|done]. exists sub, n. split; [by apply Hs|done].
Qed.

Section removal.
Context {flt : Faults} (base : list string) (Hbase : Forall plain_name base).

Lemma subdir_plain sub :
  sub ∈ [resourceClaimsSubdir; resourceClaimTemplateSubdir] -> plain_name sub.
Proof using Type.
  intros Hs. apply (bool_decide_unpack _). revert Hs.
  intros [->|[->|[]%not_elem_of_nil]%elem_of_cons]%elem_of_cons; vm_compute; exact I.
Qed.
Lemma owner_plain : plain_name kubevirtMetadataOwnerFile.
Proof using Type. apply (bool_decide_unpack _). vm_compute. exact I. Qed.

Lemma comps_Join ws ns :
  Forall plain_name ws -> Forall plain_name ns -> comps (Join (abs_path ws :: ns)) = (ws ++ ns)%list.
Proof using Type. intros. rewrite Join_abs by done. apply comps_abs_path. by apply Forall_app. Qed.

Lemma Join_plain ws ns :
  Forall plain_name ws -> Forall plain_name ns -> Join (abs_path ws :: ns) = abs_path (ws ++ ns)%list.
Proof using Type. apply Join_abs. Qed.

(** One entry: only its own directory is removed, if its marker names the
    claim, and without faults all of it is. *)
Lemma removeOwned_run sub uid name isDir s s' r :
  sub ∈ [resourceClaimsSubdir; resourceClaimTemplateSubdir] -> plain_name name ->
  removeOwned (abs_path (base ++ [sub])%list) uid (name, isDir) s = (s', r) ->
  let dir := (base ++ [sub; name])%list in
  (forall k, tree s' !! k = tree s !! k \/
     (tree s' !! k = None /\ isDir = true /\ marker (tree s) dir = Some uid /\ dir `prefix_of` k)) /\
  ((forall n, fault_at n = None) -> r = Ok tt -> isDir = true -> marker (tree s) dir = Some uid ->
   forall k, dir `prefix_of` k -> tree s' !! k = None).
Proof using Hbase.
  intros Hsub Hname. cbv zeta. unfold removeOwned. destruct isDir; cbn [negb].
  2: { intros H; minv. split; [by left|done]. }
  pose proof (subdir_plain _ Hsub) as Hsp.
  assert (Forall plain_name (base ++ [sub])%list) as Hpar by (apply Forall_app; auto).
  rewrite (Join_plain (base ++ [sub])%list [name]) by auto. rewrite <- app_assoc. simpl app.
  assert (Forall plain_name (base ++ [sub; name])%list) as Hdir by (apply Forall_app; auto).
  set (dir := (base ++ [sub; name])%list) in *.
  rewrite (Join_plain dir [kubevirtMetadataOwnerFile]) by (auto using owner_plain).
  assert (comps (abs_path (dir ++ [kubevirtMetadataOwnerFile])%list) = (dir ++ [kubevirtMetadataOwnerFile])%list)
    as Hcomps by (apply comps_abs_path, Forall_app; auto using owner_plain).
  assert (forall t, node_at t (dir ++ [kubevirtMetadataOwnerFile])%list = t !! (dir ++ [kubevirtMetadataOwnerFile])%list)
    as Hnode by (intros t; by destruct dir).
  intros H. apply bind_try in H as (s1 & [data|e] & Hr & H).
  - apply fs_ReadFile_Ok in Hr as [Ht Hm]. rewrite Hcomps, Hnode in Hm.
    case_bool_decide as Ho.
    + minv. split; [intros k; left; by rewrite Ht|]. intros _ _ _ Hmk. unfold marker in Hmk.
      rewrite Hm in Hmk. congruence.
    + apply wrap_err_run in H as (r' & Hrm & Hr').
      apply fs_RemoveAll_run in Hrm as [Hrm Hall]. rewrite comps_abs_path in Hrm, Hall by done.
      split; [|intros _ Hok _ _; by apply Hall, Hr'].
      intros k. destruct (Hrm k) as [E|[E Hp]]; [left; by rewrite E, Ht|]. right. split_and!; [done|done| |done].
      unfold marker. by rewrite Hm, Ho.
  - minv. pose proof (respects_run reads_only _ _ _ _ _ Hr) as Ht. split; [intros k; left; by rewrite Ht|].
    intros Hnf _ _ Hm. exfalso. unfold marker in Hm. unfold fs_ReadFile, fs_call in Hr. rewrite Hnf in Hr.
    rewrite Hcomps, Hnode in Hr. destruct (tree s !! _) as [[]|]; simplify_eq.
Qed.

Lemma removeOwned_owned sub uid entry s s' r :
  sub ∈ [resourceClaimsSubdir; resourceClaimTemplateSubdir] -> plain_name entry.1 ->
  removeOwned (abs_path (base ++ [sub])%list) uid entry s = (s', r) -> removes_owned base [sub] uid s s'.
Proof using Hbase.
  destruct entry as [name isDir]. intros Hsub Hname H. apply removeOwned_run in H as [H _]; [|done..].
  intros _ k. destruct (H k) as [?|(? & _ & ? & ?)]; [by left|right]. split; [done|].
  exists (base ++ [sub; name])%list. split; [|done]. split; [|done]. exists sub, name. set_solver.
Qed.

(** The loop over the entries. *)
Lemma removeEntries_run sub uid l s s' r :
  sub ∈ [resourceClaimsSubdir; resourceClaimTemplateSubdir] -> Forall (fun e => plain_name e.1) l ->
  forM (removeOwned (abs_path (base ++ [sub])%list) uid) l s = (s', r) ->
  removes_owned base [sub] uid s s' /\
  ((forall n, fault_at n = None) -> (exists us, r = Ok us) -> names_plain (tree s) ->
   forall name, (name, true) ∈ l -> marker (tree s) (base ++ [sub; name])%list = Some uid ->
   forall k, (base ++ [sub; name])%list `prefix_of` k -> tree s' !! k = None).
Proof using Hbase.
  intros Hsub Hl. revert s r. induction Hl as [|[name isDir] l Hname Hl IH]; intros s r H; cbn [forM] in H.
  - minv. split; [reflexivity|]. by intros _ _ _ ? ?%not_elem_of_nil.
  - apply bind_run in H as [(s1 & [] & Hx & H)|(e & Hx & ->)].
    2: { split; [by eapply removeOwned_owned in Hx|]. by intros _ [? ?]. }
    assert (exists r', forM (removeOwned (abs_path (base ++ [sub])%list) uid) l s1 = (s', r') /\
              ((exists us, r = Ok us) -> exists us, r' = Ok us)) as (r' & Hrest & Hr').
    { apply bind_run in H as [(s2 & us & H & H')|(e & H & ->)]; [minv; eauto|eauto]. }
    pose proof (removeOwned_owned _ _ _ _ _ _ Hsub Hname Hx) as Hx1.
    apply IH in Hrest as [Hrest Hgone]. split; [by etrans|].
    intros Hnf Hok Hplain name' Hin Hm k Hk. apply removeOwned_run in Hx as [Hx Hxall]; [|done..].
    pose proof (removes_owned_sub _ _ _ _ _ Hx1 Hplain) as [_ Hplain1].
    pose proof (removes_owned_sub _ _ _ _ _ Hrest Hplain1) as [Hsub2 _].
    destruct (decide (name' = name /\ isDir = true)) as [[-> ->]|Hne].
    { specialize (Hxall Hnf eq_refl eq_refl Hm k Hk). destruct (Hsub2 k); congruence. }
    apply elem_of_cons in Hin as [Heq|Hin]; [simplify_eq; by destruct Hne|].
    apply (Hgone Hnf (Hr' Hok) Hplain1 name' Hin); [|done].
    destruct (Hx ((base ++ [sub; name']) ++ [kubevirtMetadataOwnerFile])%list) as [E|(_ & -> & _ & Hp)].
    + unfold marker in *. by rewrite E.
    + destruct Hne. split; [|done]. rewrite <- app_assoc in Hp. apply prefix_app_inv in Hp as [rest Hp].
      by simplify_eq/=.
Qed.
Lemma entries_plain t p :
  names_plain t ->
  Forall (fun e : string * bool => plain_name e.1) (map (fun n => (n, is_dir (t !! (p ++ [n])%list))) (children t p)).
Proof using Type.
  intros Hn. apply Forall_forall. intros e (n & -> & (v & Hv)%elem_of_children)%list_elem_of_fmap. simpl.
  apply Hn in Hv. apply Forall_app in Hv as [_ Hv]. by inversion Hv.
Qed.

(** What is gone without faults: all that a directory owned at the start held. *)
Definition owned_gone (subs : list string) (uid : string) (s s' : FsState) : Prop :=
  forall sub n, sub ∈ subs -> marker (tree s) (base ++ [sub; n])%list = Some uid ->
  forall k, (base ++ [sub; n])%list `prefix_of` k -> tree s' !! k = None.

Lemma removeUnder_run sub uid s s' r :
  sub ∈ [resourceClaimsSubdir; resourceClaimTemplateSubdir] ->
  removeUnder (abs_path base) uid sub s = (s', r) ->
  removes_owned base [sub] uid s s' /\
  ((forall n, fault_at n = None) -> r = Ok tt -> wf_tree (tree s) -> owned_gone [sub] uid s s').
Proof using Hbase.
  intros Hsub. pose proof (subdir_plain _ Hsub) as Hsp. unfold removeUnder.
  rewrite (Join_plain base [sub]) by auto.
  assert (Forall plain_name (base ++ [sub])%list) as Hpar by (apply Forall_app; auto).
  intros H. apply bind_try in H as (s1 & [es|e] & Hr & H).
  - apply fs_ReadDir_Ok in Hr as [Ht ->]. rewrite comps_abs_path in H by done.
    apply bind_run in H as [(s2 & us & Hl & H)|(e & Hl & ->)].
    all: assert (names_plain (tree s) -> Forall (fun e : string * bool => plain_name e.1)
      (map (fun n => (n, is_dir (tree s !! ((base ++ [sub]) ++ [n])%list))) (children (tree s) (base ++ [sub])%list)))
      as Hpl by apply entries_plain.
    + minv. split.
      * intros Hn. pose proof Hl as Hl'. apply removeEntries_run in Hl' as [Hl' _]; [|done|by apply Hpl].
        rewrite <- Ht in Hn. intros k. rewrite <- Ht. by apply Hl'.
      * intros Hnf _ Hwf sub' n ->%list_elem_of_singleton Hm k Hk.
        pose proof (wf_names_plain _ Hwf) as Hn.
        apply removeEntries_run in Hl as [_ Hl]; [|done|by apply Hpl].
        rewrite Ht in Hl. apply (Hl Hnf (ex_intro _ us eq_refl) Hn n); [|done|done].
        unfold marker in Hm. destruct (tree s !! _) as [v|] eqn:Ev; [|done].
        destruct (Hwf _ _ Ev) as (_ & _ & Hanc). specialize (Hanc (base ++ [sub; n])%list).
        rewrite <- app_assoc in *. simpl in *. assert (tree s !! (base ++ [sub; n])%list = Some NDir) as Hd.
        { assert (node_at (tree s) (base ++ [sub; n])%list = Some NDir) as Hd.
          { apply Hanc; [apply prefix_app; by exists [kubevirtMetadataOwnerFile]|]. intros E.
            apply app_inv_head in E. discriminate. }
          by destruct base. }
        apply list_elem_of_fmap. exists n. rewrite <- app_assoc. simpl. rewrite Hd. split; [done|].
        apply elem_of_children. rewrite <- app_assoc. by exists NDir.
    + split; [|done]. intros Hn. pose proof Hl as Hl'. apply removeEntries_run in Hl' as [Hl' _]; [|done|by apply Hpl].
      rewrite <- Ht in Hn. intros k. rewrite <- Ht. by apply Hl'.
  - pose proof (respects_run reads_only _ _ _ _ _ Hr) as Ht.
    assert (s' = s1) as -> by (destruct (os_IsNotExist e); by minv).
    split; [intros _ k; left; by rewrite Ht|].
    intros Hnf Hok Hwf sub' n ->%list_elem_of_singleton Hm k Hk. exfalso.
    unfold fs_ReadDir, fs_call in Hr. rewrite Hnf, comps_abs_path in Hr by done.
    unfold marker in Hm. destruct (tree s !! _) as [v|] eqn:Ev; [|done].
    destruct (Hwf _ _ Ev) as (_ & _ & Hanc). specialize (Hanc (base ++ [sub])%list).
    rewrite Hanc in Hr; [by simplify_eq| |].
    + rewrite <- app_assoc. apply prefix_app. by exists [n; kubevirtMetadataOwnerFile].
    + rewrite <- app_assoc. intros E. apply app_inv_head in E. discriminate.
Qed.

#[export] Instance removeUnder_wf uid sub : Respects keeps_wf (removeUnder (abs_path base) uid sub).
Proof using Type.
  unfold removeUnder, removeOwned. solve_respects.
Qed.

(** The two loops one after the other. *)
Lemma removeKubeVirtMetadataForClaim_steps uid s s' r :
  removeKubeVirtMetadataForClaim (abs_path base) uid s = (s', r) ->
  exists s1 r1, removeUnder (abs_path base) uid resourceClaimsSubdir s = (s1, r1) /\
    ((s' = s1 /\ r <> Ok tt) \/
     exists r2, r1 = Ok tt /\ removeUnder (abs_path base) uid resourceClaimTemplateSubdir s1 = (s', r2) /\
                (r = Ok tt -> r2 = Ok tt)).
Proof using Type.
  unfold removeKubeVirtMetadataForClaim. cbn [forM]. unfold bind, ret.
  destruct (removeUnder _ _ resourceClaimsSubdir s) as [s1 [[]|e]]; intros H.
  - exists s1, (Ok tt). split; [done|]. right.
    destruct (removeUnder _ _ resourceClaimTemplateSubdir s1) as [s2 [[]|e]]; simplify_eq; eauto.
  - simplify_eq. eexists _, _. split; [done|]. by left.
Qed.

Lemma removeKubeVirtMetadataForClaim_run uid s s' r :
  removeKubeVirtMetadataForClaim (abs_path base) uid s = (s', r) ->
  removes_owned base parents uid s s' /\
  ((forall n, fault_at n = None) -> r = Ok tt -> wf_tree (tree s) -> owned_gone parents uid s s').
Proof using Hbase.
  intros (s1 & r1 & H1 & H)%removeKubeVirtMetadataForClaim_steps.
  pose proof (removeUnder_run resourceClaimsSubdir _ _ _ _ ltac:(set_solver) H1) as [Ho1 Hg1].
  assert (removes_owned base parents uid s s1) as Ho1' by (eapply removes_owned_mono; [|exact Ho1]; set_solver).
  destruct H as [[-> Hr]|(r2 & -> & H2 & Hr)]; [done|].
  pose proof (removeUnder_run resourceClaimTemplateSubdir _ _ _ _ ltac:(set_solver) H2) as [Ho2 Hg2].
  split; [etrans; [done|]; eapply removes_owned_mono; [|exact Ho2]; set_solver|].
  intros Hnf Hok Hwf sub n Hsub Hm k Hk. pose proof (wf_names_plain _ Hwf) as Hn.
  destruct (removes_owned_sub _ _ _ _ _ Ho1 Hn) as [_ Hn1].
  destruct (removes_owned_sub _ _ _ _ _ Ho2 Hn1) as [Hsub2 _].
  apply elem_of_cons in Hsub as [->|Hsub]; [|apply list_elem_of_singleton in Hsub as ->].
  - specialize (Hg1 Hnf eq_refl Hwf _ n ltac:(by left) Hm k Hk). destruct (Hsub2 k); congruence.
  - apply (Hg2 Hnf (Hr Hok) (respects_run keeps_wf _ _ _ _ _ H1 Hwf) _ n ltac:(by left)); [|done].
    destruct (Ho1 Hn ((base ++ [resourceClaimTemplateSubdir; n]) ++ [kubevirtMetadataOwnerFile])%list)
      as [E|(_ & dir & [(sub & n' & Hsub & ->) _] & Hp)]; [unfold marker in *; by rewrite E|].
    apply list_elem_of_singleton in Hsub as ->.
    rewrite <- app_assoc in Hp. apply prefix_app_inv in Hp as [rest Hp]. discriminate.
Qed.
End removal.

(** ** Lemmas on writing *)

Lemma host_name_plain uid : sep_free "/" uid -> plain_name (".uid-" +:+ uid).
Proof.
  intros Hu. apply plain_name_app; [apply (bool_decide_unpack _); vm_compute; exact I|done|done|done].
Qed.

Lemma file_name_plain : plain_name (DriverName +:+ "-metadata.json").
Proof. apply (bool_decide_unpack _). vm_compute. exact I. Qed.
Lemma tmp_name_plain : plain_name ((DriverName +:+ "-metadata.json") +:+ ".tmp").
Proof. apply (bool_decide_unpack _). vm_compute. exact I. Qed.

(** Paths made of plain names. *)
Ltac plain := repeat first [assumption | apply Forall_nil_2 | apply Forall_cons_2 | apply Forall_app_2
  | apply owner_plain | apply file_name_plain | apply tmp_name_plain ].

Section writing.
Context {flt : Faults} {menv : MetadataEnv} (base : list string) (Hbase : Forall plain_name base).

Lemma host_dir_plain uid : sep_free "/" uid -> Forall plain_name (host_dir base uid).
Proof using Hbase.
  intros Hu. unfold host_dir. apply Forall_app. split; [done|].
  constructor; [apply subdir_plain; set_solver|]. constructor; [by apply host_name_plain|constructor].
Qed.

Lemma kubevirtMetadataHostDir_path uid :
  sep_free "/" uid -> kubevirtMetadataHostDir (abs_path base) uid = abs_path (host_dir base uid).
Proof using Hbase.
  intros Hu. unfold kubevirtMetadataHostDir. apply Join_abs; [done|].
  constructor; [apply subdir_plain; set_solver|]. constructor; [by apply host_name_plain|constructor].
Qed.

Section one_dir.
Context (dir : list string) (Hdir : Forall plain_name dir).

Lemma filePath_path req :
  plain_name req ->
  kubevirtMetadataFilePath (abs_path dir) req = abs_path ((dir ++ [req]) ++ [DriverName +:+ "-metadata.json"])%list.
Proof using Hdir.
  intros Hr. unfold kubevirtMetadataFilePath.
  rewrite (Join_abs dir [req; DriverName +:+ "-metadata.json"]) by plain.
  by rewrite <- app_assoc.
Qed.

Lemma claimMetadataOwnership_respects uid :
  Respects (writes_under dir) (claimMetadataOwnership (abs_path dir) uid) /\
  Respects keeps_wf (claimMetadataOwnership (abs_path dir) uid).
Proof using Hdir.
  unfold claimMetadataOwnership. rewrite (Join_plain dir [kubevirtMetadataOwnerFile]) by (auto using owner_plain).
  assert (Forall plain_name (dir ++ [kubevirtMetadataOwnerFile])%list) as Ho by (apply Forall_app; auto using owner_plain).
  split.
  - apply bind_respects; [apply _|apply try_respects, reads_writes_under, _|]. intros [d|e]; [case_bool_decide; apply _|].
    apply bind_respects; [apply _| |intros _]; apply wrap_err_respects.
    + apply fs_MkdirAll_under. rewrite comps_abs_path by done. by left.
    + apply fs_WriteFile_under. rewrite comps_abs_path by done. by apply prefix_app_r.
  - apply bind_respects; [apply _|apply try_respects, _|]. intros [d|e]; [case_bool_decide; apply _|].
    apply bind_respects; [apply _| |intros _]; apply wrap_err_respects.
    + apply fs_MkdirAll_wf. by rewrite comps_abs_path.
    + apply fs_WriteFile_wf. by rewrite comps_abs_path.
Qed.

Lemma claimMetadataOwnership_Ok uid s s' :
  TrimSpace uid = uid -> claimMetadataOwnership (abs_path dir) uid s = (s', Ok tt) ->
  marker (tree s') dir = Some uid.
Proof using Hdir.
  intros Hu. unfold claimMetadataOwnership.
  rewrite (Join_plain dir [kubevirtMetadataOwnerFile]) by (auto using owner_plain).
  assert (comps (abs_path (dir ++ [kubevirtMetadataOwnerFile])%list) = (dir ++ [kubevirtMetadataOwnerFile])%list)
    as Hcomps by (apply comps_abs_path, Forall_app; auto using owner_plain).
  intros H. apply bind_try in H as (s1 & [data|e] & Hr & H).
  - apply fs_ReadFile_Ok in Hr as [Ht Hm]. rewrite Hcomps in Hm. case_bool_decide as Ho; [minv|]. minv.
    unfold marker. rewrite Ht. destruct (dir ++ [kubevirtMetadataOwnerFile])%list eqn:E; [by destruct dir|].
    simpl in Hm. by rewrite Hm.
  - minv. match goal with H : fs_WriteFile _ _ _ = _ |- _ => apply fs_WriteFile_run in H as [_ [Hw _]] end.
    rewrite Hcomps in Hw. unfold marker. by rewrite Hw, TrimSpace_newline, Hu.
Qed.

Lemma writeRequest_respects pod req devs :
  plain_name req ->
  Respects (writes_under (dir ++ [req])%list) (writeRequest (abs_path dir) pod (req, devs)) /\
  Respects keeps_wf (writeRequest (abs_path dir) pod (req, devs)).
Proof using Hdir.
  intros Hr. unfold writeRequest. rewrite filePath_path by done. rewrite Dir_abs_path, abs_path_append
    by plain.
  assert (Forall plain_name (dir ++ [req])%list) as Hd by (apply Forall_app; auto).
  assert (Forall plain_name ((dir ++ [req]) ++ [DriverName +:+ "-metadata.json"])%list) as Hf
    by (apply Forall_app; auto using file_name_plain).
  assert (Forall plain_name ((dir ++ [req]) ++ [(DriverName +:+ "-metadata.json") +:+ ".tmp"])%list) as Ht
    by (apply Forall_app; auto using tmp_name_plain).
  split; repeat (apply bind_respects; [apply _| |intros ?]); apply wrap_err_respects.
  - apply fs_MkdirAll_under. rewrite comps_abs_path by done. by left.
  - apply fs_WriteFile_under. rewrite comps_abs_path by done. by apply prefix_app_r.
  - apply fs_Rename_under; rewrite comps_abs_path by done; by apply prefix_app_r.
  - apply fs_MkdirAll_wf. by rewrite comps_abs_path.
  - apply fs_WriteFile_wf. by rewrite comps_abs_path.
  - apply fs_Rename_wf. by rewrite comps_abs_path.
Qed.

Definition document (pod : option string) (req : string) (devs : list kubevirtMetadataDevice) : string :=
  json_Marshal {| APIVersion := kubevirtMetadataAPIVersion; Kind := kubevirtMetadataKind; PodClaimName := pod;
                  Requests := [ {| mr_Name := req; mr_Devices := devs |} ] |}.

Lemma writeRequest_Ok pod req devs s s' :
  plain_name req -> writeRequest (abs_path dir) pod (req, devs) s = (s', Ok tt) ->
  tree s' !! (dir ++ [req; DriverName +:+ "-metadata.json"])%list = Some (NFile (document pod req devs)).
Proof using Hdir.
  intros Hr. unfold writeRequest. rewrite filePath_path by done. rewrite Dir_abs_path, abs_path_append
    by plain.
  assert (Forall plain_name (dir ++ [req])%list) as Hd by (apply Forall_app; auto).
  intros H. minv.
  match goal with H : fs_WriteFile _ _ _ = _ |- _ => apply fs_WriteFile_run in H as [_ [Hw Hne]] end.
  match goal with H : fs_Rename _ _ _ = _ |- _ => apply fs_Rename_run in H as [_ (d & Hd1 & Hd2)] end.
  rewrite comps_abs_path in * by plain.
  rewrite <- !app_assoc in *. simpl app in *.
  destruct (dir ++ [req; _ +:+ ".tmp"])%list eqn:E; [done|]. simpl in Hd1.
  rewrite Hw in Hd1. injection Hd1 as <-. exact Hd2.
Qed.
End one_dir.
End writing.

(** ** The documents of a claim *)

Lemma addMetadataDevice_lookup allocatable m r req :
  default [] (addMetadataDevice allocatable m r !! req) =
  (default [] (m !! req) ++ omap (metadataDevice allocatable)
     (List.filter (fun r => bool_decide (kubevirtMetadataRequestName r = req)) [r]))%list.
Proof.
  unfold addMetadataDevice. simpl. destruct (metadataDevice allocatable r) as [md|] eqn:E.
  - case_bool_decide as Hr; simpl.
    + subst. by rewrite lookup_insert_eq, E.
    + by rewrite lookup_insert_ne, app_nil_r.
  - case_bool_decide; simpl; [rewrite E|]; by rewrite app_nil_r.
Qed.

Lemma devicesByRequest_lookup allocatable rs req :
  default [] (devicesByRequest allocatable rs !! req) =
  omap (metadataDevice allocatable)
    (List.filter (fun r => bool_decide (kubevirtMetadataRequestName r = req)) (ours rs)).
Proof.
  unfold devicesByRequest. induction (ours rs) as [|r l IH] using rev_ind; [done|].
  rewrite foldl_app. simpl foldl. rewrite addMetadataDevice_lookup, IH, List.filter_app, omap_app. done.
Qed.

Lemma devicesByRequest_Some allocatable rs req devs :
  devicesByRequest allocatable rs !! req = Some devs ->
  devs = omap (metadataDevice allocatable)
    (List.filter (fun r => bool_decide (kubevirtMetadataRequestName r = req)) (ours rs)) /\
  exists r, r ∈ ours rs /\ kubevirtMetadataRequestName r = req.
Proof.
  intros H. pose proof (devicesByRequest_lookup allocatable rs req) as E. rewrite H in E. split; [exact E|].
  revert H. unfold devicesByRequest. clear E. induction (ours rs) as [|r l IH] using rev_ind; [done|].
  rewrite foldl_app. simpl foldl. unfold addMetadataDevice at 1. destruct (metadataDevice allocatable r).
  - destruct (decide (kubevirtMetadataRequestName r = req)) as [E|E]; [intros _; exists r; set_solver|].
    rewrite lookup_insert_ne by done. intros (r' & ? & ?)%IH. exists r'. set_solver.
  - intros (r' & ? & ?)%IH. exists r'. set_solver.
Qed.

(** An allocatable result has a document that lists it. *)
Lemma devicesByRequest_of_result allocatable rs r d :
  r ∈ ours rs -> allocatable !! ResultDevice r = Some d ->
  exists devs, devicesByRequest allocatable rs !! kubevirtMetadataRequestName r = Some devs.
Proof.
  intros Hr Hd. pose proof (devicesByRequest_lookup allocatable rs (kubevirtMetadataRequestName r)) as E.
  destruct (devicesByRequest allocatable rs !! _) as [devs|]; [eauto|]. exfalso. simpl in E.
  assert (exists md, md ∈ omap (metadataDevice allocatable)
    (List.filter (fun r' => bool_decide (kubevirtMetadataRequestName r' = kubevirtMetadataRequestName r)) (ours rs)))
    as [md Hmd]; [|rewrite <- E in Hmd; by apply not_elem_of_nil in Hmd].
  eexists. apply list_elem_of_omap. exists r. split.
  - apply list_elem_of_In, List.filter_In. rewrite <- list_elem_of_In. split; [done|by apply bool_decide_eq_true].
  - unfold metadataDevice. rewrite Hd. simpl. reflexivity.
Qed.

Section write_props.
Context {flt : Faults} {menv : MetadataEnv}.

(** The loop over the requests of one directory. *)
Lemma writeRequests_run dir pod l s s' r :
  Forall plain_name dir -> Forall (fun rd => plain_name rd.1 /\ rd.1 <> kubevirtMetadataOwnerFile) l ->
  forM (writeRequest (abs_path dir) pod) l s = (s', r) ->
  writes_under dir s s' /\ keeps_wf s s' /\ marker (tree s') dir = marker (tree s) dir /\
  (forall req, plain_name req -> req ∉ map fst l ->
     tree s' !! (dir ++ [req; DriverName +:+ "-metadata.json"])%list =
     tree s !! (dir ++ [req; DriverName +:+ "-metadata.json"])%list) /\
  (forall us, r = Ok us -> NoDup (map fst l) -> forall req devs, (req, devs) ∈ l ->
     tree s' !! (dir ++ [req; DriverName +:+ "-metadata.json"])%list = Some (NFile (document pod req devs))).
Proof using Type.
  intros Hdir Hl. revert s r. induction Hl as [|[req devs] l [Hreq Hown] Hl IH]; intros s r H; cbn [forM] in H.
  { minv. split_and!; [reflexivity|reflexivity|done|done|]. intros us _ _ req devs ?%not_elem_of_nil. done. }
  simpl in Hreq, Hown. destruct (writeRequest_respects dir Hdir pod req devs Hreq) as [Hu Hw].
  assert (forall s1 r1, writeRequest (abs_path dir) pod (req, devs) s = (s1, r1) ->
    writes_under dir s s1 /\ keeps_wf s s1 /\ marker (tree s1) dir = marker (tree s) dir /\
    forall req', plain_name req' -> req' <> req ->
      tree s1 !! (dir ++ [req'; DriverName +:+ "-metadata.json"])%list =
      tree s !! (dir ++ [req'; DriverName +:+ "-metadata.json"])%list) as Hstep.
  { intros s1 r1 H1. pose proof (respects_run _ _ _ _ _ Hu H1) as Hu1.
    assert (forall k, dir `prefix_of` k -> ~ (dir ++ [req])%list `prefix_of` k -> k <> dir ->
      tree s1 !! k = tree s !! k \/ (tree s !! k = None /\ tree s1 !! k = Some NDir /\ k = (dir ++ [req])%list))
      as Hk.
    { intros k Hk1 Hk2 Hne. destruct (Hu1 k Hk2) as [?|(? & ? & [?|Hp]%prefix_snoc_inv)]; [by left|by right; auto|].
      destruct Hne. by apply (anti_symm prefix). }
    assert (forall x ys, x <> req -> tree s1 !! (dir ++ x :: ys)%list = tree s !! (dir ++ x :: ys)%list) as Hother.
    { intros x ys Hx. destruct (Hk (dir ++ x :: ys)%list) as [?|(_ & _ & E)]; [by eexists| | |done|].
      - intros [rest E]. rewrite <- app_assoc in E. apply app_inv_head in E. simplify_eq/=.
      - intros E. rewrite <- (app_nil_r dir) in E at 2. by apply app_inv_head in E.
      - apply app_inv_head in E. by simplify_eq/=. }
    split_and!.
    - intros k Hk'. destruct (Hu1 k) as [?|(? & ? & [->|?]%prefix_snoc_inv)]; [|by left| |by right].
      + intros Hp. apply Hk'. etrans; [|exact Hp]. by eexists.
      + destruct Hk'. by eexists.
    - exact (respects_run _ _ _ _ _ Hw H1).
    - unfold marker. by rewrite Hother.
    - intros req' _ Hne. by apply Hother. }
  apply bind_run in H as [(s1 & [] & Hx & H)|(e & Hx & ->)].
  2: { destruct (Hstep _ _ Hx) as (? & ? & ? & Ho). split_and!; [done|done|done| |done].
       intros req' Hp Hnin. apply Ho; [done|]. set_solver. }
  destruct (Hstep _ _ Hx) as (Hu1 & Hw1 & Hm1 & Ho1).
  assert (exists r', forM (writeRequest (abs_path dir) pod) l s1 = (s', r') /\
    (forall us, r = Ok us -> exists us', r' = Ok us')) as (r' & Hrest & Hr').
  { apply bind_run in H as [(s2 & us & H & H')|(e & H & ->)]; [minv; eauto|]. eexists. split; [exact H|done]. }
  destruct (IH _ _ Hrest) as (Hu2 & Hw2 & Hm2 & Ho2 & Hd2).
  split_and!; [by etrans|by etrans|congruence| |].
  - intros req' Hp Hnin. rewrite Ho2, Ho1; [done|done|set_solver|done|set_solver].
  - intros us Hus Hnd req' devs' Hin. apply NoDup_cons in Hnd as [Hni Hnd].
    destruct (Hr' us Hus) as [us' ->]. apply elem_of_cons in Hin as [[= -> ->]|Hin]; [|by eapply Hd2].
    rewrite Ho2 by done. by eapply writeRequest_Ok.
Qed.
End write_props.

Section metadata_lemmas.
Context {flt : Faults} {menv : MetadataEnv} (base : list string) (Hbase : Forall plain_name base).

(** The requests written are file names other than the marker's. *)
Lemma range_order_requests claim allocatable n :
  requests_ok claim ->
  Forall (fun rd : string * list kubevirtMetadataDevice => plain_name rd.1 /\ rd.1 <> kubevirtMetadataOwnerFile)
    (range_order n (devicesByRequest allocatable (default [] (Allocation claim)))).
Proof using Type.
  intros Hreqs. apply Forall_forall. intros [req devs] Hin. rewrite range_order_perm in Hin.
  apply elem_of_map_to_list, devicesByRequest_Some in Hin as (_ & x & Hx & <-). simpl.
  unfold requests_ok, allocated_results in Hreqs. destruct (Allocation claim) as [rs|]; [|by apply not_elem_of_nil in Hx].
  rewrite Forall_forall in Hreqs. by apply Hreqs.
Qed.

(** The marker first, the documents only in a directory that is the claim's. *)
Lemma writeKubeVirtMetadata_split claim allocatable s s' r :
  uid_ok (UID claim) -> requests_ok claim ->
  writeKubeVirtMetadata (abs_path base) claim allocatable s = (s', r) ->
  exists s1 r1, claimMetadataOwnership (abs_path (host_dir base (UID claim))) (UID claim) s = (s1, r1) /\
    ((s' = s1 /\ exists e, r1 = Err e) \/
     (r1 = Ok tt /\ marker (tree s') (host_dir base (UID claim)) = marker (tree s1) (host_dir base (UID claim)))).
Proof using Hbase.
  intros [Huid _] Hreqs. unfold writeKubeVirtMetadata. rewrite kubevirtMetadataHostDir_path by done.
  pose proof (host_dir_plain base Hbase _ Huid) as Hdir.
  intros H. apply bind_run in H as [(s1 & [] & Ho & H)|(e & Ho & ->)]; [|eexists _, _; split; [exact Ho|left; eauto]].
  exists s1, (Ok tt). split; [exact Ho|right; split; [done|]]. rewrite bind_gets in H.
  apply bind_run in H as [(s2 & us & H & H')|(e & H & ->)]; [minv|];
    by eapply writeRequests_run in H as (_ & _ & ? & _); [|done|by apply range_order_requests].
Qed.

Lemma writeKubeVirtMetadata_run claim allocatable s s' r :
  uid_ok (UID claim) -> requests_ok claim ->
  writeKubeVirtMetadata (abs_path base) claim allocatable s = (s', r) ->
  writes_under (host_dir base (UID claim)) s s' /\ keeps_wf s s' /\
  (r = Ok tt -> marker (tree s') (host_dir base (UID claim)) = Some (UID claim) /\
    forall req devs, devicesByRequest allocatable (default [] (Allocation claim)) !! req = Some devs ->
      tree s' !! metadata_file base (UID claim) req = Some (NFile (document (podClaimName claim) req devs))).
Proof using Hbase.
  intros [Huid Htrim] Hreqs. unfold writeKubeVirtMetadata. rewrite kubevirtMetadataHostDir_path by done.
  pose proof (host_dir_plain base Hbase _ Huid) as Hdir. set (dir := host_dir base (UID claim)) in *.
  set (m := devicesByRequest allocatable (default [] (Allocation claim))).
  destruct (claimMetadataOwnership_respects dir Hdir (UID claim)) as [Hou How].
  intros H. apply bind_run in H as [(s1 & [] & Ho & H)|(e & Ho & ->)].
  2: { split_and!; [exact (respects_run _ _ _ _ _ Hou Ho)|exact (respects_run _ _ _ _ _ How Ho)|done]. }
  rewrite bind_gets in H.
  assert (exists r', forM (writeRequest (abs_path dir) (podClaimName claim)) (range_order (fs_clk s1) m) s1 = (s', r')
    /\ (r = Ok tt -> exists us, r' = Ok us)) as (r' & Hw & Hr').
  { apply bind_run in H as [(s2 & us & H & H')|(e & H & ->)]; [minv; eauto|]. eexists. by split. }
  apply writeRequests_run in Hw as (Hu & Hwf & Hm & _ & Hdocs); [|done|by apply range_order_requests].
  split_and!.
  - etrans; [exact (respects_run _ _ _ _ _ Hou Ho)|done].
  - etrans; [exact (respects_run _ _ _ _ _ How Ho)|done].
  - intros Hok. split; [rewrite Hm; by eapply claimMetadataOwnership_Ok|].
    intros req devs Hd. destruct (Hr' Hok) as [us ->]. unfold metadata_file. fold dir. rewrite <- app_assoc || idtac.
    eapply Hdocs; [done| |].
    + rewrite range_order_perm. apply NoDup_fst_map_to_list.
    + rewrite range_order_perm. by apply elem_of_map_to_list.
Qed.

Lemma host_dir_distinct uid1 uid2 k :
  uid1 <> uid2 -> host_dir base uid2 `prefix_of` k -> ~ host_dir base uid1 `prefix_of` k.
Proof using Type.
  unfold host_dir. intros Hne [r2 ->] [r1 E]. rewrite <- !app_assoc in E. apply app_inv_head in E.
  by simplify_eq/=.
Qed.


(** C20: After a successful write, every metadata mount that Prepare adds for a
    device of the claim is read-only and its host file holds exactly the
    document of the device's main request: all the claim's allocatable devices
    of this driver for that request, in allocation order, and no other. *)
Theorem writeKubeVirtMetadata_documents claim allocatable s s' :
  uid_ok (UID claim) -> requests_ok claim ->
  writeKubeVirtMetadata (abs_path base) claim allocatable s = (s', Ok tt) ->
  forall x d m, x ∈ allocated_results claim -> allocatable !! ResultDevice x = Some d ->
    m ∈ kubevirtMetadataMounts (abs_path base) claim (kubevirtMetadataRequestName x) ->
    m_Options m = ["ro"; "bind"] /\
    tree s' !! comps (m_HostPath m) =
      Some (NFile (request_document claim allocatable (kubevirtMetadataRequestName x))).
Proof using Hbase.
  intros [Huid Htrim] Hr H x d m Hx Hd (cdir & -> & _)%list_elem_of_fmap.
  apply writeKubeVirtMetadata_run in H as (_ & _ & H); [|done..]. destruct (H eq_refl) as [_ Hdocs].
  split; [done|]. simpl m_HostPath. rewrite kubevirtMetadataHostDir_path by done.
  pose proof (host_dir_plain base Hbase _ Huid) as Hdir.
  assert (plain_name (kubevirtMetadataRequestName x)) as Hp.
  { unfold requests_ok in Hr. rewrite Forall_forall in Hr. by apply Hr. }
  rewrite filePath_path by done. rewrite comps_abs_path.
  2: { plain. }
  rewrite <- app_assoc. unfold allocated_results in *. destruct (Allocation claim) as [rs|] eqn:Ea;
    [|by apply not_elem_of_nil in Hx]. simpl in Hdocs.
  destruct (devicesByRequest_of_result allocatable rs x d Hx Hd) as [devs Hdevs].
  pose proof (Hdocs _ _ Hdevs) as Hfile. unfold metadata_file in Hfile. simpl app. rewrite Hfile.
  apply devicesByRequest_Some in Hdevs as [-> _]. unfold request_document, document, allocated_results. by rewrite Ea.
Qed.

(** C21: Removal by owner is safe whatever calls fail: a path is lost only if it
    lies below a directory of the two parents whose marker named the claim;
    everything else, directories marked by other claims included, stays. *)
Theorem removeKubeVirtMetadata_only_owned uid s s' r :
  names_plain (tree s) ->
  removeKubeVirtMetadataForClaim (abs_path base) uid s = (s', r) ->
  forall k, tree s' !! k = tree s !! k \/
    (tree s' !! k = None /\ exists dir, owned base parents (tree s) uid dir /\ dir `prefix_of` k).
Proof using Hbase. intros Hn H. apply removeKubeVirtMetadataForClaim_run in H as [H _]; [|done]. by apply H. Qed.
End metadata_lemmas.

Section no_fault_props.
Context {menv : MetadataEnv} (base : list string) (Hbase : Forall plain_name base).

(** A claim whose directory is marked by anything but its own UID cannot be
    prepared and is not cleaned up: the write is refused without a change, and
    removing the claim leaves the marker in place. This protects the directory
    of another live claim; but the same holds for a marker left empty or cut
    short by an interrupted write, which no later call of the driver repairs. *)
Theorem foreign_marker_blocks_claim claim allocatable data s :
  uid_ok (UID claim) -> wf_tree (tree s) ->
  tree s !! (host_dir base (UID claim) ++ [kubevirtMetadataOwnerFile])%list = Some (NFile data) ->
  TrimSpace data <> UID claim ->
  (exists s' e, @writeKubeVirtMetadata no_faults menv (abs_path base) claim allocatable s = (s', Err e) /\
                tree s' = tree s) /\
  (forall s' r, @removeKubeVirtMetadataForClaim no_faults (abs_path base) (UID claim) s = (s', r) ->
     tree s' !! (host_dir base (UID claim) ++ [kubevirtMetadataOwnerFile])%list = Some (NFile data)).
Proof using Hbase.
  intros [Huid Htrim] Hwf Hm Hne. pose proof (host_dir_plain base Hbase _ Huid) as Hdir. split.
  - unfold writeKubeVirtMetadata, claimMetadataOwnership. rewrite kubevirtMetadataHostDir_path by done.
    rewrite (Join_plain _ [kubevirtMetadataOwnerFile]) by (auto using owner_plain).
    unfold bind, try. rewrite fs_ReadFile_no_faults, comps_abs_path by (apply Forall_app; auto using owner_plain).
    assert (node_at (tree s) (host_dir base (UID claim) ++ [kubevirtMetadataOwnerFile])%list = Some (NFile data))
      as -> by (destruct (host_dir base (UID claim) ++ _)%list eqn:E; [by destruct base|done]).
    rewrite bool_decide_true by done. by do 2 eexists.
  - intros s' r H. apply removeKubeVirtMetadataForClaim_run in H as [H _]; [|done].
    destruct (H (wf_names_plain _ Hwf) (host_dir base (UID claim) ++ [kubevirtMetadataOwnerFile])%list)
      as [->|(_ & dir & [(sub & n & _ & ->) Hmd] & Hp)]; [done|]. exfalso.
    unfold host_dir in *. rewrite <- app_assoc in Hp. apply prefix_app_inv in Hp as [rest Hp]. simplify_eq/=.
    unfold marker in Hmd. rewrite Hm in Hmd. by simplify_eq.
Qed.
End no_fault_props.

(** An unreadable marker hides a directory from the clean-up: when the one
    read of the marker fails, the removal still reports success although the
    claim's directory and its document stay on disk. *)
Theorem unreadable_marker_leaks :
  let s1 := (vm_write no_faults fs_start).1 in
  (vm_write no_faults fs_start).2 = Ok tt /\
  (vm_remove (unreadable_marker (fs_clk s1 + 1)) s1).2 = Ok tt /\
  is_file (tree (vm_remove (unreadable_marker (fs_clk s1 + 1)) s1).1 !! metadata_file base_dirs "uid-1" "npu") = true.
Proof. vm_compute. auto. Qed.

(** ** Concrete runs *)

Lemma wf_tree_check t :
  map_Forall (fun k _ => k <> [] /\ Forall plain_name k /\
    Forall (fun k' => k' = k \/ node_at t k' = Some NDir) (prefixes k)) t -> wf_tree t.
Proof.
  intros H k n Hk. destruct (H k n Hk) as (Hne & Hpl & Hanc). split_and!; [done|done|].
  intros k' Hp Hne'. destruct k' as [|x k']; [done|]. rewrite Forall_forall in Hanc.
  destruct (Hanc (x :: k')) as [?|?]; [by apply elem_of_prefixes|done|done].
Qed.

Lemma base_dirs_plain : Forall plain_name base_dirs.
Proof. apply (bool_decide_unpack _). vm_compute. exact I. Qed.
Lemma vm_uid_ok : uid_ok (UID vm_claim).
Proof. apply (bool_decide_unpack _). vm_compute. exact I. Qed.
Lemma vm_requests_ok : requests_ok vm_claim.
Proof. apply (bool_decide_unpack _). vm_compute. exact I. Qed.

Lemma vm_written : (vm_write no_faults fs_start) = ((vm_write no_faults fs_start).1, Ok tt).
Proof.
  destruct (run_ok (vm_write no_faults fs_start) (fun _ => true)) as (s' & [] & E & _); [vm_compute; reflexivity|].
  by rewrite E.
Qed.

Lemma writeKubeVirtMetadata_documents_witness :
  is_file (tree (vm_write no_faults fs_start).1 !! metadata_file base_dirs "uid-1" "npu") = true /\
  forall m, m ∈ kubevirtMetadataMounts (abs_path base_dirs) vm_claim "npu" ->
    m_Options m = ["ro"; "bind"] /\
    tree (vm_write no_faults fs_start).1 !! comps (m_HostPath m) =
      Some (NFile (@request_document plain_env vm_claim vm_allocatable "npu")).
Proof.
  split; [vm_compute; reflexivity|]. intros m Hm.
  apply (@writeKubeVirtMetadata_documents no_faults plain_env base_dirs base_dirs_plain vm_claim vm_allocatable
    fs_start (vm_write no_faults fs_start).1 vm_uid_ok vm_requests_ok vm_written
    {| Request := "npu/one"; Driver := DriverName; Pool := "node1"; ResultDevice := "vfio-0000-02-00-0" |}
    vm_device m); [by left|reflexivity|exact Hm].
Defined.


Lemma removeKubeVirtMetadata_only_owned_witness :
  let s1 := (vm_write no_faults fs_start).1 in
  (vm_remove no_faults s1).2 = Ok tt /\ forall k, tree (vm_remove no_faults s1).1 !! k = tree s1 !! k \/
    (tree (vm_remove no_faults s1).1 !! k = None /\
     exists dir, owned base_dirs parents (tree s1) "uid-1" dir /\ dir `prefix_of` k).
Proof.
  intros s1. split; [vm_compute; reflexivity|]. apply (@removeKubeVirtMetadata_only_owned no_faults base_dirs base_dirs_plain "uid-1" s1
    (vm_remove no_faults s1).1 (vm_remove no_faults s1).2); [|apply surjective_pairing].
  apply wf_names_plain, wf_tree_check. apply (bool_decide_unpack _). vm_compute. exact I.
Defined.

Lemma foreign_marker_blocks_claim_witness :
  let s1 := (vm_write torn_write fs_start).1 in
  (vm_write torn_write fs_start).2 <> Ok tt /\ (vm_remove no_faults s1).2 = Ok tt /\
  (exists s' e, vm_write no_faults s1 = (s', Err e) /\ tree s' = tree s1) /\
  (forall s' r, vm_remove no_faults s1 = (s', r) ->
     tree s' !! (host_dir base_dirs "uid-1" ++ [kubevirtMetadataOwnerFile])%list = Some (NFile "")).
Proof.
  intros s1. split; [vm_compute; discriminate|]. split; [vm_compute; reflexivity|].
  apply (@foreign_marker_blocks_claim plain_env base_dirs base_dirs_plain vm_claim vm_allocatable "" s1 vm_uid_ok).
  - apply wf_tree_check. apply (bool_decide_unpack _). vm_compute. exact I.
  - vm_compute. reflexivity.
  - discriminate.
Defined.
