(* ===== verification/Rollback.v ===== *)
(** Removal and rollback of metadata on a file system whose calls do not fail:
    they always complete what they have to remove. *)
From S2P Require Import Prelude GoStd Device Claim Fs Metadata MetadataProps.
Open Scope string_scope.

#[local] Existing Instance no_faults.

Section rollback.
Context {menv : MetadataEnv} (base : list string) (Hbase : Forall plain_name base).

Lemma removeOwned_ok parent uid entry s : (removeOwned parent uid entry s).2 = Ok tt.
Proof using Type.
  destruct entry as [name []]; [|done]. unfold removeOwned, bind, try. cbn [negb].
  destruct (fs_ReadFile _ s) as [s1 [data|e]]; [|done]. by case_bool_decide.
Qed.
Lemma removeEntries_ok parent uid l s : exists us, (forM (removeOwned parent uid) l s).2 = Ok us.
Proof using Type.
  revert s. induction l as [|x l IH]; intros s; cbn [forM]; [by eexists|]. unfold bind at 1.
  pose proof (removeOwned_ok parent uid x s) as Hx. destruct (removeOwned _ _ _ s) as [s1 r]. simpl in Hx. subst r.
  unfold bind. destruct (IH s1) as [us Hus]. destruct (forM _ l s1) as [s2 r]. simpl in Hus. subst r. by eexists.
Qed.

Lemma removeUnder_ok sub uid s :
  sub ∈ parents -> node_at (tree s) (base ++ [sub])%list = Some NDir ->
  (removeUnder (abs_path base) uid sub s).2 = Ok tt.
Proof using Hbase.
  intros Hsub Hd. pose proof (subdir_plain _ Hsub) as Hsp. unfold removeUnder.
  rewrite (Join_plain base [sub]) by auto. unfold bind, try.
  unfold fs_ReadDir at 1, fs_call. simpl. rewrite comps_abs_path by (apply Forall_app; auto). rewrite Hd.
  match goal with |- context [forM (removeOwned ?p uid) ?l ?s1] =>
    destruct (removeEntries_ok p uid l s1) as [us Hus]; destruct (forM (removeOwned p uid) l s1) as [s2 r] end.
  simpl in Hus. by subst r.
Qed.

(** Whatever else the removal meets, the claim's own directory goes. *)
Lemma removal_gone uid s s' r :
  wf_tree (tree s) -> marker (tree s) (host_dir base uid) = Some uid ->
  removeKubeVirtMetadataForClaim (abs_path base) uid s = (s', r) ->
  forall k, host_dir base uid `prefix_of` k -> tree s' !! k = None.
Proof using Hbase.
  intros Hwf Hm (s1 & r1 & H1 & H)%removeKubeVirtMetadataForClaim_steps k Hk.
  assert (node_at (tree s) (base ++ [resourceClaimsSubdir])%list = Some NDir) as Hd.
  { unfold marker in Hm. destruct (tree s !! _) as [v|] eqn:Ev; [|done]. destruct (Hwf _ _ Ev) as (_ & _ & Hanc).
    apply Hanc; unfold host_dir; rewrite <- !app_assoc; simpl.
    - apply prefix_app. by exists [".uid-" +:+ uid; kubevirtMetadataOwnerFile].
    - intros E. apply app_inv_head in E. discriminate. }
  pose proof (removeUnder_ok resourceClaimsSubdir uid s ltac:(set_solver) Hd) as Hok.
  rewrite H1 in Hok. simpl in Hok. subst r1.
  pose proof (removeUnder_run _ Hbase resourceClaimsSubdir _ _ _ _ ltac:(set_solver) H1) as [Ho1 Hg1].
  assert (tree s1 !! k = None) as Hnone by (eapply (Hg1 (fun _ => eq_refl) eq_refl Hwf); [by left|exact Hm|exact Hk]).
  destruct H as [[-> _]|(r2 & _ & H2 & _)]; [done|].
  pose proof (removeUnder_run _ Hbase resourceClaimTemplateSubdir _ _ _ _ ltac:(set_solver) H2) as [Ho2 _].
  destruct (removes_owned_sub _ _ _ _ _ Ho1 (wf_names_plain _ Hwf)) as [_ Hn1].
  destruct (Ho2 Hn1 k) as [->|[? _]]; done.
Qed.

(** A write that fails has either marked the directory or changed nothing in it. *)
Lemma ownership_marks_or_same uid s s' r :
  uid_ok uid -> wf_tree (tree s) ->
  claimMetadataOwnership (abs_path (host_dir base uid)) uid s = (s', r) ->
  marker (tree s') (host_dir base uid) = Some uid \/
  (forall k, host_dir base uid `prefix_of` k -> tree s' !! k = tree s !! k).
Proof using Hbase.
  intros [Huid Htrim] Hwf. pose proof (host_dir_plain base Hbase _ Huid) as Hdir.
  set (dir := host_dir base uid) in *. destruct r as [[]|e].
  { intros H. left. by eapply claimMetadataOwnership_Ok. }
  assert (dir <> []) as Hne by (unfold dir, host_dir; by destruct base).
  unfold claimMetadataOwnership. rewrite (Join_plain dir [kubevirtMetadataOwnerFile]) by (auto using owner_plain).
  assert (comps (abs_path (dir ++ [kubevirtMetadataOwnerFile])%list) = (dir ++ [kubevirtMetadataOwnerFile])%list)
    as Hcomps by (apply comps_abs_path, Forall_app; auto using owner_plain).
  assert (forall t, node_at t (dir ++ [kubevirtMetadataOwnerFile])%list = t !! (dir ++ [kubevirtMetadataOwnerFile])%list)
    as Hnode by (intros t; by destruct dir).
  intros H. apply bind_try in H as (s1 & r1 & Hr & H). right.
  assert (tree s1 = tree s) as Hs1 by exact (respects_run reads_only _ _ _ _ _ Hr).
  destruct r1 as [data|e1]; [case_bool_decide; minv; by rewrite Hs1|].
  revert H. unfold bind, wrap_err, fs_MkdirAll, fs_call. simpl. rewrite comps_abs_path, Hs1 by done.
  destruct (existsb _ _) eqn:Ex; simpl; [by intros [= <- _]|].
  unfold fs_WriteFile, fs_call. simpl. rewrite Hcomps, removelast_last, !Hnode.
  assert (is_dir (node_at (make_dirs (tree s) (prefixes dir)) dir) = true) as ->.
  { assert (tree s !! dir = None \/ tree s !! dir = Some NDir) as Hd.
    { destruct (tree s !! dir) as [[d|]|] eqn:Ed; [|by right|by left]. exfalso.
      apply not_true_iff_false in Ex. apply Ex, existsb_exists. exists dir. split; [|by rewrite Ed].
      apply list_elem_of_In. by apply elem_of_prefixes. }
    assert (make_dirs (tree s) (prefixes dir) !! dir = Some NDir) as E.
    { destruct Hd as [Hd|Hd]; [apply make_dirs_is_dir; [by apply elem_of_prefixes|by rewrite Hd]|].
      destruct (make_dirs_lookup (tree s) (prefixes dir) dir) as [->|(E & _)]; congruence. }
    assert (forall t, node_at t dir = t !! dir) as -> by (intros t; by destruct dir). by rewrite E. }
  assert (forall k, dir `prefix_of` k -> tree s !! k <> None -> make_dirs (tree s) (prefixes dir) !! k = tree s !! k) as Hsame.
  { intros k _ Hk. destruct (make_dirs_lookup (tree s) (prefixes dir) k) as [->|(? & _)]; done. }
  destruct (make_dirs (tree s) (prefixes dir) !! (dir ++ [kubevirtMetadataOwnerFile])%list) as [[d|]|] eqn:Em; simpl; [by intros [=]| |by intros [=]].
  intros [= <- _] k Hk. simpl.
  destruct (make_dirs_lookup (tree s) (prefixes dir) k) as [->|(E & -> & Hp)]; [done|].
  assert (k = dir) as -> by (apply elem_of_prefixes in Hp as [Hp _]; apply prefix_length_eq; [done|by apply prefix_length]).
  exfalso. destruct (make_dirs_lookup (tree s) (prefixes dir) (dir ++ [kubevirtMetadataOwnerFile])%list)
    as [E2|(_ & _ & [Hp2 _]%elem_of_prefixes)]; [|apply prefix_length in Hp2; rewrite length_app in Hp2; simpl in Hp2; lia].
  rewrite Em in E2. destruct (Hwf _ _ (eq_sym E2)) as (_ & _ & Hanc). specialize (Hanc dir).
  assert (node_at (tree s) dir = tree s !! dir) as E3 by (by destruct dir). rewrite E3, E in Hanc.
  discriminate Hanc; [by eexists|]. intros E4. apply (f_equal length) in E4. rewrite length_app in E4. simpl in E4. lia.
Qed.

Lemma write_marks_or_same claim allocatable s s' r :
  uid_ok (UID claim) -> requests_ok claim -> wf_tree (tree s) ->
  writeKubeVirtMetadata (abs_path base) claim allocatable s = (s', r) ->
  marker (tree s') (host_dir base (UID claim)) = Some (UID claim) \/
  (forall k, host_dir base (UID claim) `prefix_of` k -> tree s' !! k = tree s !! k).
Proof using Hbase.
  intros Hu Hreqs Hwf H.
  apply writeKubeVirtMetadata_split in H as (s1 & r1 & Ho & Hs); [|done..].
  destruct Hs as [[-> _]|[-> ->]]; [by eapply ownership_marks_or_same|].
  left. destruct Hu as [Huid Htrim]. eapply claimMetadataOwnership_Ok; [by apply host_dir_plain|done|exact Ho].
Qed.

(** Nothing is new but parent directories, and what is gone lay in the claim's
    directory or in another one that was marked as the claim's. *)
Definition restored (uid : string) (t t' : Tree) : Prop :=
  forall k, t' !! k = t !! k \/
    (t !! k = None /\ t' !! k = Some NDir /\ k `prefix_of` host_dir base uid /\ k <> host_dir base uid) \/
    (t' !! k = None /\ exists dir, (dir = host_dir base uid \/ owned base parents t uid dir) /\ dir `prefix_of` k).

(** What a removal leaves after a write of the same claim, complete or not. *)
Lemma removal_undoes uid s s1 s2 r :
  wf_tree (tree s1) -> writes_under (host_dir base uid) s s1 ->
  marker (tree s1) (host_dir base uid) = Some uid \/
  (forall k, host_dir base uid `prefix_of` k -> tree s1 !! k = tree s !! k) ->
  removeKubeVirtMetadataForClaim (abs_path base) uid s1 = (s2, r) ->
  restored uid (tree s) (tree s2) /\ marker (tree s2) (host_dir base uid) <> Some uid.
Proof using Hbase.
  intros Hwf1 Hunder Hm Hrm.
  pose proof (removeKubeVirtMetadataForClaim_run base Hbase _ _ _ _ Hrm) as [Hown _].
  specialize (Hown (wf_names_plain _ Hwf1)).
  pose proof (fun H => removal_gone _ _ _ _ Hwf1 H Hrm) as Hgone. split.
  - intros k. destruct (decide (host_dir base uid `prefix_of` k)) as [Hk|Hk].
    + destruct (tree s2 !! k) as [v|] eqn:Ev; [|by right; right; eauto]. left.
      destruct Hm as [Hm|Hm]; [by rewrite (Hgone Hm k Hk) in Ev|]. specialize (Hm k Hk).
      destruct (Hown k) as [E|[E _]]; congruence.
    + destruct (Hown k) as [E|(E & dir & [Hdir Hmd] & Hp)].
      * rewrite E. destruct (Hunder k Hk) as [?|(? & ? & ?)]; [by left|right; left]. split_and!; try done.
        intros ->. by destruct Hk.
      * right; right. split; [done|]. exists dir. split; [|done]. right. split; [done|].
        unfold marker in *. destruct (Hunder (dir ++ [kubevirtMetadataOwnerFile])%list) as [<-|(_ & E2 & _)];
          [|done|by rewrite E2 in Hmd].
        intros Hp2. destruct Hdir as (sub & n & Hsub & ->). apply Hk. etrans; [|exact Hp].
        unfold host_dir in *. rewrite <- app_assoc in Hp2. apply prefix_app_inv in Hp2 as [rest Hp2]. simplify_eq/=.
        reflexivity.
  - destruct (decide (marker (tree s1) (host_dir base uid) = Some uid)) as [Hm1|Hm1].
    + unfold marker. rewrite (Hgone Hm1); [done|by eexists].
    + unfold marker in *. destruct (Hown (host_dir base uid ++ [kubevirtMetadataOwnerFile])%list) as [->|[-> _]]; done.
Qed.
End rollback.

