(* ===== verification/Cdi.v ===== *)
(** CDI specifications: what the driver reads from the container toolkit and
    the transient specs it writes (cmd/npu-kubelet-plugin/cdi.go). *)
From S2P Require Import Prelude GoStd Host PciSysfs Device Claim Metadata.
Open Scope string_scope.

Definition cdiCommonDeviceName : string := "common".
Definition rblnRuntimeSpecFile : string := "rbln.yaml".
Definition rblnRuntimeSpecKind : string := "rebellions.ai/npu".
Definition rblnRuntimeDeviceName : string := "runtime".
Definition rblnRDSSpecFile : string := "rbln-rds.yaml".
Definition rblnRDSSpecKind : string := "rebellions.ai/rds".
Definition rblnRDSDeviceName : string := "all".

(** ** Documents (tags.cncf.io/container-device-interface/specs-go) *)

(** The fields of cdispec.DeviceNode the driver sets or copies. *)
Record DeviceNode := {
  dn_Path : string;
  dn_HostPath : string;
  dn_Permissions : string;
  dn_UID : option Z;
  dn_GID : option Z;
}.
Record Hook := {
  h_HookName : string; h_Path : string; h_Args : list string; h_Env : list string; h_Timeout : option Z
}.
Record ContainerEdits := { e_DeviceNodes : list DeviceNode; e_Mounts : list Mount; e_Hooks : list Hook }.
Record CDIDevice := { cd_Name : string; cd_Edits : ContainerEdits }.
Record Spec := { s_Version : string; s_Kind : string; s_Devices : list CDIDevice }.
Definition no_edits : ContainerEdits := {| e_DeviceNodes := []; e_Mounts := []; e_Hooks := [] |}.

#[export] Instance DeviceNode_eq_dec : EqDecision DeviceNode.
Proof. solve_decision. Defined.
#[export] Instance Mount_eq_dec : EqDecision Mount.
Proof. solve_decision. Defined.
#[export] Instance Hook_eq_dec : EqDecision Hook.
Proof. solve_decision. Defined.
#[export] Instance ContainerEdits_eq_dec : EqDecision ContainerEdits.
Proof. solve_decision. Defined.

(** rbln.yaml, the toolkit's runtime spec. *)
Record rblnRuntimeMount := { rm_HostPath : string; rm_ContainerPath : string; rm_Options : list string; rm_Type : string }.
Record rblnRuntimeHook := {
  rh_HookName : string; rh_Path : string; rh_Args : list string; rh_Env : list string; rh_Timeout : option Z
}.
Record rblnRuntimeDeviceEdits := { re_Mounts : list rblnRuntimeMount; re_Hooks : list rblnRuntimeHook }.
Record rblnRuntimeDevice := { rt_Name : string; rt_ContainerEdits : rblnRuntimeDeviceEdits }.
Record rblnRuntimeSpec := { rt_Kind : string; rt_Devices : list rblnRuntimeDevice }.

(** types.go: a device prepared for a claim, with the edits written to its spec. *)
Record PreparedDevice := {
  RequestNames : list string;
  PoolName : string;
  DeviceName : string;
  CdiDeviceIds : list string;
  Edits : ContainerEdits;
}.
Abbreviation PreparedDevices := (list PreparedDevice).
(** GetDevices: the device part of each. *)
Definition pb_of (pd : PreparedDevice) : list string * string * string * list string :=
  (RequestNames pd, PoolName pd, DeviceName pd, CdiDeviceIds pd).
Definition GetDevices (pds : PreparedDevices) := map pb_of pds.
Definition GetDeviceNames (pds : PreparedDevices) : list string := map DeviceName pds.

(** ** The CDI library *)

(** Parsing, naming and merging, as the CDI packages and the YAML decoder do
    them. [EditsAppend_nil]: appending to empty edits copies. A transient name
    is made of the vendor, the class and an identifier, which it determines;
    the name generated for a spec takes the first two from its kind. *)
Class CdiLib := {
  yaml_Unmarshal : string -> res rblnRuntimeSpec;
  ParseSpec : string -> res (option Spec);
  MinimumRequiredVersion : Spec -> res string;
  GenerateNameForTransientSpec : Spec -> string -> res string;
  GenerateTransientSpecName : string -> string -> string -> string;
  QualifiedName : string -> string -> string -> string;
  EditsAppend : ContainerEdits -> ContainerEdits -> ContainerEdits;
  EditsAppend_nil e : EditsAppend no_edits e = e;
  transient_name_inj v c u1 u2 : sep_free "/" u1 -> sep_free "/" u2 ->
    GenerateTransientSpecName v c u1 = GenerateTransientSpecName v c u2 -> u1 = u2;
  transient_name_kind sp v c id n : sep_free "/" v -> s_Kind sp = v +:+ "/" +:+ c ->
    GenerateNameForTransientSpec sp id = Ok n -> n = GenerateTransientSpecName v c id;
}.

(** The cache of spec files: a failing call may leave its own file in any
    state, never another one. *)
Class CdiCache (store : Type) := {
  specs : store -> gmap string Spec;
  WriteSpec : Spec -> string -> M store unit;
  RemoveSpec : string -> M store unit;
  WriteSpec_Ok sp n s s' : WriteSpec sp n s = (s', Ok tt) -> specs s' = <[n := sp]> (specs s);
  WriteSpec_frame sp n s m : m <> n -> specs (WriteSpec sp n s).1 !! m = specs s !! m;
  RemoveSpec_Ok n s s' : RemoveSpec n s = (s', Ok tt) -> specs s' = delete n (specs s);
  RemoveSpec_frame n s m : m <> n -> specs (RemoveSpec n s).1 !! m = specs s !! m;
}.

Record CDIHandler := { cdi_root : string; cdi_class : string }.

(** The cache is made by its library; it is part of the state of the model. *)
Definition NewCDIHandler (root class : string) (NewCache : res unit) : res CDIHandler :=
  match NewCache with
  | Err e => Err (ErrWrap "unable to create a new CDI cache: " e "")
  | Ok _ => Ok {| cdi_root := root; cdi_class := class |}
  end.

Definition vendor : string := "k8s." +:+ DriverName.
Definition kind (h : CDIHandler) : string := vendor +:+ "/" +:+ cdi_class h.

(** The machine and the spec cache together. *)
Record CdiState (store : Type) := { ci_sys : Sys; ci_cache : store }.
Arguments ci_sys {store}.
Arguments ci_cache {store}.

Section cdi.
Context {hst : Host} {lib : CdiLib} {store : Type} `{!CdiCache store}.
Implicit Types h : CDIHandler.

Definition ci_on_sys {A} (m : M Sys A) : M (CdiState store) A :=
  zoom ci_sys (fun s c => {| ci_sys := s; ci_cache := ci_cache c |}) m.
Definition ci_on_cache {A} (m : M store A) : M (CdiState store) A :=
  zoom ci_cache (fun k c => {| ci_sys := ci_sys c; ci_cache := k |}) m.

(** The first device called "runtime", its mounts and hooks copied. *)
Definition runtimeMount (mount : rblnRuntimeMount) : Mount :=
  {| m_HostPath := rm_HostPath mount; m_ContainerPath := rm_ContainerPath mount; m_Options := rm_Options mount; m_Type := rm_Type mount |}.
Definition runtimeHook (hook : rblnRuntimeHook) : Hook :=
  {| h_HookName := rh_HookName hook; h_Path := rh_Path hook; h_Args := rh_Args hook; h_Env := rh_Env hook; h_Timeout := rh_Timeout hook |}.
Definition getRuntimeUMDEdits h : M Sys (list Mount * list Hook) :=
  let specPath := Join [cdi_root h; rblnRuntimeSpecFile] in
  let! specBytes := wrap_err (fun e => ErrWrap ("failed to read " +:+ specPath +:+ ": ") e "") (os_ReadFile specPath) in
  let! runtimeSpec := wrap_err (fun e => ErrWrap ("failed to parse " +:+ specPath +:+ ": ") e "")
                        (of_res (yaml_Unmarshal specBytes)) in
  if bool_decide (rt_Kind runtimeSpec <> rblnRuntimeSpecKind)
  then throw (ErrText ("unexpected CDI kind " +:+ quote (rt_Kind runtimeSpec) +:+ " in " +:+ specPath)) else
  match List.find (fun d => bool_decide (rt_Name d = rblnRuntimeDeviceName)) (rt_Devices runtimeSpec) with
  | Some d => ret (map runtimeMount (re_Mounts (rt_ContainerEdits d)), map runtimeHook (re_Hooks (rt_ContainerEdits d)))
  | None => throw (ErrText ("runtime device " +:+ quote rblnRuntimeDeviceName +:+ " not found in " +:+ specPath))
  end.

Definition CreateCommonSpecFile h : M (CdiState store) unit :=
  let! (mounts, hooks) := wrap_err (fun e => ErrWrap "failed to get runtime UMD edits: " e "")
                            (ci_on_sys (getRuntimeUMDEdits h)) in
  let spec := {| s_Version := ""; s_Kind := kind h;
                 s_Devices := [ {| cd_Name := cdiCommonDeviceName;
                                   cd_Edits := {| e_DeviceNodes := []; e_Mounts := mounts; e_Hooks := hooks |} |} ] |} in
  let! minVersion := wrap_err (fun e => ErrWrap "failed to get minimum required CDI spec version: " e "")
                       (of_res (MinimumRequiredVersion spec)) in
  let spec := {| s_Version := minVersion; s_Kind := s_Kind spec; s_Devices := s_Devices spec |} in
  let! specName := wrap_err (fun e => ErrWrap "failed to generate Spec name: " e "")
                     (of_res (GenerateNameForTransientSpec spec cdiCommonDeviceName)) in
  do! ci_on_cache (WriteSpec spec specName) in
  ci_on_sys (log LDebug "Wrote common CDI spec with runtime edits").

(** The nodes of the RDS device "all", none on a host without the spec file. *)
Definition getRDSDeviceNodes h : M Sys (list DeviceNode) :=
  let specPath := Join [cdi_root h; rblnRDSSpecFile] in
  let? data := os_ReadFile specPath in
  match data with
  | Err e => if os_IsNotExist e then ret []
             else throw (ErrWrap ("failed to read " +:+ specPath +:+ ": ") e "")
  | Ok data =>
      let! spec := wrap_err (fun e => ErrWrap ("failed to parse " +:+ specPath +:+ ": ") e "") (of_res (ParseSpec data)) in
      match spec with
      | None => throw (ErrText ("empty RDS CDI spec in " +:+ specPath))
      | Some spec =>
          if bool_decide (s_Kind spec <> rblnRDSSpecKind)
          then throw (ErrText ("unexpected CDI kind " +:+ quote (s_Kind spec) +:+ " in " +:+ specPath)) else
          match List.find (fun d => bool_decide (cd_Name d = rblnRDSDeviceName)) (s_Devices spec) with
          | Some d => ret (e_DeviceNodes (cd_Edits d))
          | None => ret []
          end
      end
  end.

(** What a native claim adds for RDS, given what reading the host's spec file
    answers: the nodes of its device "all" when the file parses as a spec of
    the RDS kind, none otherwise. *)
Definition rds_nodes (file : errno + string) : list DeviceNode :=
  match file with
  | inl _ => []
  | inr data =>
      match ParseSpec data with
      | Ok (Some sp) =>
          if bool_decide (s_Kind sp = rblnRDSSpecKind)
          then default [] ((fun d => e_DeviceNodes (cd_Edits d)) <$>
                           List.find (fun d => bool_decide (cd_Name d = rblnRDSDeviceName)) (s_Devices sp))
          else []
      | _ => []
      end
  end.

Definition claimCDIDevice (claimUID : string) (device : PreparedDevice) : CDIDevice :=
  {| cd_Name := claimUID +:+ "-" +:+ DeviceName device; cd_Edits := EditsAppend no_edits (Edits device) |}.

Definition claimSpecName h (claimUID : string) : string :=
  GenerateTransientSpecName vendor (cdi_class h) claimUID.

Definition CreateClaimSpecFile h (claimUID : string) (devices : PreparedDevices) : M (CdiState store) unit :=
  let specName := claimSpecName h claimUID in
  let spec := {| s_Version := ""; s_Kind := kind h; s_Devices := map (claimCDIDevice claimUID) devices |} in
  let! minVersion := wrap_err (fun e => ErrWrap "failed to get minimum required CDI spec version: " e "")
                       (of_res (MinimumRequiredVersion spec)) in
  let spec := {| s_Version := minVersion; s_Kind := s_Kind spec; s_Devices := s_Devices spec |} in
  do! ci_on_cache (WriteSpec spec specName) in
  ci_on_sys (log LDebug "Wrote CDI spec for claim").

Definition DeleteClaimSpecFile h (claimUID : string) : M (CdiState store) unit :=
  do! ci_on_cache (RemoveSpec (claimSpecName h claimUID)) in
  ci_on_sys (log LDebug "Removed CDI spec for claim").

Definition GetClaimDevices h (claimUID : string) (devices : list string) (includeCommon : bool) : list string :=
  ((if includeCommon then [QualifiedName vendor (cdi_class h) cdiCommonDeviceName] else []) ++
   map (fun d => QualifiedName vendor (cdi_class h) (claimUID +:+ "-" +:+ d)) devices)%list.
End cdi.
