(* ===== verification/Checkpoint.v ===== *)
(** The checkpoint of prepared claims and its checksum
    (cmd/npu-kubelet-plugin/checkpoint.go). *)
From S2P Require Import Prelude GoStd Host PciSysfs Device Claim Metadata Cdi.
Open Scope string_scope.

Abbreviation PreparedClaims := (gmap string PreparedDevices).
Record CheckpointV1 := { cv_PreparedClaims : PreparedClaims }.
(** [V1] is a pointer: nil is [None]. *)
Record Checkpoint := { Checksum : N; V1 : option CheckpointV1 }.

Definition newCheckpoint : Checkpoint :=
  {| Checksum := 0; V1 := Some {| cv_PreparedClaims := ∅ |} |}.
Definition set_checksum (c : N) (cp : Checkpoint) : Checkpoint := {| Checksum := c; V1 := V1 cp |}.

(** encoding/json on the tagged k8s and CDI types of a checkpoint, and the
    kubelet's checksum package. Decoding what was encoded, into a new
    checkpoint, gives the same value back; a checksum verifies exactly the data
    it was computed from. *)
Class CheckpointCodec := {
  cp_Marshal : Checkpoint -> res string;
  cp_Unmarshal : string -> Checkpoint -> res Checkpoint;
  checksum_New : string -> N;
  checksum_Verify : N -> string -> res unit;
  cp_roundtrip cp out : cp_Marshal cp = Ok out -> V1 cp <> None -> cp_Unmarshal out newCheckpoint = Ok cp;
  checksum_Verify_iff c data : checksum_Verify c data = Ok tt <-> c = checksum_New data;
}.

Section checkpoint.
Context {codec : CheckpointCodec}.

(** Methods of [*Checkpoint]: the state is the value they are called on. *)
Definition MarshalCheckpoint : M Checkpoint string :=
  do! modify (set_checksum 0) in
  let! cp := gets id in
  let! out := of_res (cp_Marshal cp) in
  do! modify (set_checksum (checksum_New out)) in
  let! cp := gets id in
  of_res (cp_Marshal cp).

Definition UnmarshalCheckpoint (data : string) : M Checkpoint unit := fun cp =>
  match cp_Unmarshal data cp with
  | Ok cp' => (cp', Ok tt)
  | Err e => (cp, Err e)
  end.

(** The deferred assignment puts the checksum back on every path. *)
Definition VerifyChecksum : M Checkpoint unit := fun cp =>
  let ck := Checksum cp in
  let cp0 := set_checksum 0 cp in
  let r := match cp_Marshal cp0 with
           | Err e => Err e
           | Ok out => checksum_Verify ck out
           end in
  (set_checksum ck cp0, r).

(** What a stored blob means to a reader that starts from a new checkpoint. *)
Definition decode_blob (data : string) : option PreparedClaims :=
  match UnmarshalCheckpoint data newCheckpoint with
  | (cp, Ok _) => match VerifyChecksum cp with
                  | (_, Ok _) => cv_PreparedClaims <$> V1 cp
                  | _ => None
                  end
  | _ => None
  end.

(** ** Lemmas *)

Lemma set_checksum_id cp : set_checksum (Checksum cp) (set_checksum 0 cp) = cp.
Proof using Type. by destruct cp. Qed.

Lemma VerifyChecksum_run cp :
  VerifyChecksum cp = (cp, match cp_Marshal (set_checksum 0 cp) with
                           | Err e => Err e | Ok out => checksum_Verify (Checksum cp) out end).
Proof using Type. unfold VerifyChecksum. by rewrite set_checksum_id. Qed.

Lemma MarshalCheckpoint_run cp cp' data :
  MarshalCheckpoint cp = (cp', Ok data) ->
  V1 cp' = V1 cp /\ cp_Marshal cp' = Ok data /\
  exists out, cp_Marshal (set_checksum 0 cp') = Ok out /\ Checksum cp' = checksum_New out.
Proof using Type.
  unfold MarshalCheckpoint. intros H. minv. unfold id in *. split_and!; [done|done|]. eexists. split; [eassumption|done].
Qed.

Lemma MarshalCheckpoint_decodes cp cp' data v :
  V1 cp = Some v -> MarshalCheckpoint cp = (cp', Ok data) -> decode_blob data = Some (cv_PreparedClaims v).
Proof using Type.
  intros Hv H. apply MarshalCheckpoint_run in H as (HV & Hm & out & Hout & Hck).
  unfold decode_blob, UnmarshalCheckpoint.
  rewrite (cp_roundtrip _ _ Hm) by congruence. rewrite VerifyChecksum_run, Hout, Hck.
  rewrite (proj2 (checksum_Verify_iff _ _) eq_refl). by rewrite HV, Hv.
Qed.

(** C22: What is checkpointed is what a restarted driver reads back: decoding
    the marshalled checkpoint into a new one gives the same prepared claims,
    its checksum verifies, and verifying leaves the value as it is. *)
Theorem checkpoint_roundtrip cp cp' data v :
  V1 cp = Some v -> MarshalCheckpoint cp = (cp', Ok data) ->
  exists cp2, UnmarshalCheckpoint data newCheckpoint = (cp2, Ok tt) /\
    VerifyChecksum cp2 = (cp2, Ok tt) /\ V1 cp2 = Some v /\ Checksum cp2 = Checksum cp'.
Proof using Type.
  intros Hv H. apply MarshalCheckpoint_run in H as (HV & Hm & out & Hout & Hck).
  exists cp'. unfold UnmarshalCheckpoint. rewrite (cp_roundtrip _ _ Hm) by congruence.
  rewrite VerifyChecksum_run, Hout, Hck, (proj2 (checksum_Verify_iff _ _) eq_refl). by rewrite HV.
Qed.

(** The checksum covers everything but itself: a checkpoint verifies exactly
    when its checksum is the one of its own encoding with the field cleared. *)
Theorem VerifyChecksum_exact cp :
  (VerifyChecksum cp).1 = cp /\
  ((VerifyChecksum cp).2 = Ok tt <->
   exists out, cp_Marshal (set_checksum 0 cp) = Ok out /\ Checksum cp = checksum_New out).
Proof using Type.
  rewrite VerifyChecksum_run. split; [done|]. simpl. destruct (cp_Marshal _) as [out|e].
  - rewrite checksum_Verify_iff. naive_solver.
  - naive_solver.
Qed.
End checkpoint.

(** ** The checkpoint manager (k8s.io/kubernetes/pkg/kubelet/checkpointmanager) *)

(** It keeps one blob per key, written by the methods above; a read decodes
    into the value passed and verifies it; a write replaces the file as a whole. *)
Class CheckpointManager {codec : CheckpointCodec} (store : Type) := {
  blobs : store -> gmap string string;
  GetCheckpoint : string -> Checkpoint -> M store Checkpoint;
  CreateCheckpoint : string -> Checkpoint -> M store unit;
  ListCheckpoints : M store (list string);
  GetCheckpoint_frame k cp s : blobs (GetCheckpoint k cp s).1 = blobs s;
  GetCheckpoint_Ok k cp s s' cp' : GetCheckpoint k cp s = (s', Ok cp') ->
    exists data, blobs s !! k = Some data /\ UnmarshalCheckpoint data cp = (cp', Ok tt) /\
                 VerifyChecksum cp' = (cp', Ok tt);
  CreateCheckpoint_Ok k cp s s' : CreateCheckpoint k cp s = (s', Ok tt) ->
    exists cp' data, MarshalCheckpoint cp = (cp', Ok data) /\ blobs s' = <[k := data]> (blobs s);
  CreateCheckpoint_Err k cp s s' e : CreateCheckpoint k cp s = (s', Err e) -> blobs s' = blobs s;
  ListCheckpoints_frame s : blobs (ListCheckpoints s).1 = blobs s;
  ListCheckpoints_Ok s s' l : ListCheckpoints s = (s', Ok l) ->
    forall k, k ∈ l <-> is_Some (blobs s !! k);
}.

Definition DriverPluginCheckpointFile : string := "checkpoint.json".

Section manager.
Context {codec : CheckpointCodec} {store : Type} `{!CheckpointManager store}.

(** The prepared claims a reader of the store sees. *)
Definition prepared_in (s : store) : option PreparedClaims :=
  data ← blobs s !! DriverPluginCheckpointFile; decode_blob data.

Lemma GetCheckpoint_prepared s s' cp :
  GetCheckpoint DriverPluginCheckpointFile newCheckpoint s = (s', Ok cp) ->
  blobs s' = blobs s /\ prepared_in s = cv_PreparedClaims <$> V1 cp.
Proof using Type.
  intros H. pose proof (GetCheckpoint_frame DriverPluginCheckpointFile newCheckpoint s) as Hf.
  rewrite H in Hf. split; [exact Hf|].
  apply GetCheckpoint_Ok in H as (data & Hd & Hu & Hv). unfold prepared_in. rewrite Hd. simpl.
  unfold decode_blob. by rewrite Hu, Hv.
Qed.

Lemma CreateCheckpoint_prepared cp v s s' :
  V1 cp = Some v -> CreateCheckpoint DriverPluginCheckpointFile cp s = (s', Ok tt) ->
  prepared_in s' = Some (cv_PreparedClaims v).
Proof using Type.
  intros Hv H. apply CreateCheckpoint_Ok in H as (cp' & data & Hm & Hb).
  unfold prepared_in. rewrite Hb, lookup_insert_eq. simpl. by eapply MarshalCheckpoint_decodes.
Qed.

Lemma prepared_in_blobs s s' : blobs s' = blobs s -> prepared_in s' = prepared_in s.
Proof using Type. unfold prepared_in. by intros ->. Qed.
End manager.
