(* ===== verification/Scan.v ===== *)
(** The device inventory and the scan loop: rebuildResources, the discovery
    part of NewDeviceState (state.go) and RescanDevices (scan.go). *)
From S2P Require Import Prelude GoStd Host PciSysfs Device Sriov Discovery Vfio Inventory.
Open Scope string_scope.

(** scan.go: scanStatus *)
Record scanStatus := { sysfsFailing : bool; npuFailing : bool; slow : bool }.

(** resourceslice.DriverResources: pool name to the devices of each slice. *)
Abbreviation DriverResources := (gmap string (list (list Device))).

(** state.go: the part of DeviceState that discovery owns. *)
Record DeviceState := {
  nodeName : string;
  allocatable : gmap string Device;
  driverResources : DriverResources;
  npuDevices : list Device;
  vfioDevices : list Device;
  sysfsRoot : string;
  scan : scanStatus;
}.

(** The plugin between two calls: the machine, the state, and how many times
    the rbln-smi inventory was read. *)
Record Plugin := { sys : Sys; ds : DeviceState; smi_runs : nat }.

(** The rbln-smi inventory (rblnlib-go device.GetDevices), at each instant. *)
Class Smi := { smi_at : nat -> res (list InvDevice) }.

Definition set_sys (s : Sys) (p : Plugin) : Plugin :=
  {| sys := s; ds := ds p; smi_runs := smi_runs p |}.
Definition set_ds (d : DeviceState) (p : Plugin) : Plugin :=
  {| sys := sys p; ds := d; smi_runs := smi_runs p |}.
Abbreviation on_sys m := (zoom sys set_sys m).
Abbreviation upd_ds f := (modify (fun p => set_ds (f (ds p)) p)).
Definition set_scan (f : scanStatus -> scanStatus) (d : DeviceState) : DeviceState :=
  {| nodeName := nodeName d; allocatable := allocatable d; driverResources := driverResources d;
     npuDevices := npuDevices d; vfioDevices := vfioDevices d; sysfsRoot := sysfsRoot d;
     scan := f (scan d) |}.
Definition set_sysfsFailing (b : bool) (s : scanStatus) : scanStatus :=
  {| sysfsFailing := b; npuFailing := npuFailing s; slow := slow s |}.
Definition set_npuFailing (b : bool) (s : scanStatus) : scanStatus :=
  {| sysfsFailing := sysfsFailing s; npuFailing := b; slow := slow s |}.
Definition set_slow (b : bool) (s : scanStatus) : scanStatus :=
  {| sysfsFailing := sysfsFailing s; npuFailing := npuFailing s; slow := b |}.
Definition when (b : bool) {S} (m : M S unit) : M S unit := if b then m else ret tt.

(** rebuildResources, after the two lists were assigned. *)
Definition rebuildResources (d : DeviceState) : DeviceState :=
  let devices := (npuDevices d ++ vfioDevices d)%list in
  {| nodeName := nodeName d;
     allocatable := index_by_name devices;
     driverResources := {[ nodeName d := [devices] ]};
     npuDevices := npuDevices d; vfioDevices := vfioDevices d;
     sysfsRoot := sysfsRoot d; scan := scan d |}.
Definition set_devices (npu vfio : list Device) (d : DeviceState) : DeviceState :=
  {| nodeName := nodeName d; allocatable := allocatable d; driverResources := driverResources d;
     npuDevices := npu; vfioDevices := vfio; sysfsRoot := sysfsRoot d; scan := scan d |}.

(** The addresses of the published devices and of their parents, lowercased. *)
Definition known_of (alloc : gmap string Device) : gset string :=
  list_to_set (flat_map
    (fun kd => omap (fun key => let bus := deviceStringAttr (snd kd) key in
                                if bool_decide (bus = "") then None else Some (ToLower bus))
                    [pciBusIDAttributeKey; parentPCIBusIDAttributeKey])
    (map_to_list alloc)).

(** The loop over [seen]: the first address met twice. *)
Fixpoint first_duplicate (seen : gset string) (l : list Device) : option string :=
  match l with
  | [] => None
  | d :: l' =>
      let bus := ToLower (deviceStringAttr d pciBusIDAttributeKey) in
      if bool_decide (bus ∈ seen) then Some bus else first_duplicate ({[ bus ]} ∪ seen) l'
  end.

(** time.Duration values, in nanoseconds. *)
Definition observeScanDuration (took interval : Z) : M Plugin unit :=
  let slow_now := bool_decide (interval < took)%Z in
  let! was := gets (fun p => slow (scan (ds p))) in
  do! when (slow_now && negb was) (on_sys (log LWarn "Device scan slower than its interval")) in
  do! when (negb slow_now && was) (on_sys (log LInfo "Device scan duration back under its interval")) in
  upd_ds (set_scan (set_slow slow_now)).

Definition res_is_err {A} (r : res A) : bool := match r with Ok _ => false | Err _ => true end.

Section scan.
Context {hst : Host} {smi : Smi} `{!SemanticEqual Device, !SemanticEqual (list Device)}.

Definition inventoryFn : M Plugin (list InvDevice) := fun p =>
  ({| sys := tick (sys p); ds := ds p; smi_runs := S (smi_runs p) |}, smi_at (clk (sys p))).

Definition enumerateNpuDevices : M Plugin (list Device * list skippedDevice) :=
  let! devs := inventoryFn in
  let! root := gets (fun p => sysfsRoot (ds p)) in
  on_sys (npuDevicesFromInventory root devs).

(** The sysfs half of a tick. *)
Definition rescanSysfs (root : string) (known : gset string)
    : M Sys (list Device * list skippedDevice * nat) :=
  let! (vfio, skipped) := enumerateVfioDevices root known in
  let! candidates := countNativeCandidates root known in
  ret (vfio, skipped, candidates).

(** The native half: rbln-smi runs only when there is a candidate. *)
Definition rescanNative (candidates : nat) : M Plugin (list Device * list skippedDevice) :=
  if bool_decide (0 < candidates)%nat then
    let? r := enumerateNpuDevices in
    let! was := gets (fun p => npuFailing (scan (ds p))) in
    do! when (res_is_err r && negb was)
          (on_sys (log LError "NPU enumeration failed, keeping last inventory")) in
    do! when (negb (res_is_err r) && was) (on_sys (log LInfo "NPU enumeration recovered")) in
    do! upd_ds (set_scan (set_npuFailing (res_is_err r))) in
    of_res r
  else
    do! upd_ds (set_scan (set_npuFailing false)) in
    ret ([], []).

(** The skips that are news: of devices that leave the published inventory. *)
Definition newly_skipped (removed : list string) (prev : list Device) (sk : skippedDevice) : bool :=
  existsb (fun p => bool_decide (Name p ∈ removed) &&
                    EqualFold (deviceStringAttr p pciBusIDAttributeKey) (sk_pciBusID sk)) prev.

(** The part of a tick that runs under the lock. *)
Definition rescanCommit (npu vfio : list Device) (skipped : list skippedDevice)
    : M Plugin (DriverResources * bool) :=
  let! d := gets ds in
  let changed := negb (DeepEqual npu (npuDevices d)) || negb (DeepEqual vfio (vfioDevices d)) in
  do! when changed
    (let prev := (npuDevices d ++ vfioDevices d)%list in
     let '(_, removed, _) := deviceNameDelta prev (npu ++ vfio)%list in
     do! on_sys (log LInfo "Device inventory changed, republishing resources") in
     do! on_sys (logSkippedDevices (List.filter (newly_skipped removed prev) skipped)) in
     upd_ds (fun d => rebuildResources (set_devices npu vfio d))) in
  do! on_sys (log LDebug "Scanned device inventory") in
  let! r := gets (fun p => driverResources (ds p)) in
  ret (r, changed).

(** RescanDevices returns its resources and [changed] with the error too. *)
Definition RescanDevices : M Plugin (DriverResources * bool * option err) :=
  let keep e := let! r := gets (fun p => driverResources (ds p)) in ret (r, false, Some e) in
  let! known := gets (fun p => known_of (allocatable (ds p))) in
  let! root := gets (fun p => sysfsRoot (ds p)) in
  let? read := on_sys (rescanSysfs root known) in
  let! was := gets (fun p => sysfsFailing (scan (ds p))) in
  match read with
  | Err e =>
      do! when (negb was) (on_sys (log LError "Device scan failed, keeping last inventory")) in
      do! upd_ds (set_scan (set_sysfsFailing true)) in
      keep e
  | Ok (vfio, vfioSkipped, candidates) =>
      do! when was (do! on_sys (log LInfo "Device scan recovered") in
                    upd_ds (set_scan (set_sysfsFailing false))) in
      let? native := rescanNative candidates in
      match native with
      | Err e => keep e
      | Ok (npu, npuSkipped) =>
          match first_duplicate ∅ (npu ++ vfio)%list with
          | Some bus =>
              do! on_sys (log LError "Discarding inconsistent device scan") in
              keep (ErrText ("PCI function " +:+ bus +:+ " appeared in both discovery results"))
          | None =>
              let! (r, changed) := rescanCommit npu vfio (npuSkipped ++ vfioSkipped)%list in
              ret (r, changed, None)
          end
      end
  end.

(** The records about the first inventory (lines 133-165). *)
Definition logInitialInventory (npu vfio : list Device) (npuSkipped vfioSkipped : list skippedDevice)
    : M Sys unit :=
  do! (if bool_decide (npu = []) && bool_decide (vfio = [])
       then log LWarn "No NPU devices found on this node" else ret tt) in
  do! forM (fun _ : Device => log LDebug "Enumerated vfio-pci NPU device") vfio in
  do! logSkippedDevices (npuSkipped ++ vfioSkipped)%list in
  do! forM (fun _ : Device => log LDebug "Enumerated NPU device") npu in
  ret tt.

(** NewDeviceState up to the construction of the state (lines 102-188): the
    initial inventory. The CDI handler and the checkpoint follow in
    Prepare.v. *)
Definition initialDiscovery (node root : string) : M Plugin unit :=
  let? vr := on_sys (enumerateVfioDevices root ∅) in
  do! when (res_is_err vr) (on_sys (log LError "Failed to enumerate vfio-pci NPU devices")) in
  let '(vfio, vfioSkipped) := match vr with Ok p => p | Err _ => ([], []) end in
  let? cr := on_sys (countNativeCandidates root ∅) in
  let! nr := match cr with
             | Ok O => do! on_sys (log LInfo "No NPU bound to the native driver, skipping rbln-smi") in
                       ret (Ok ([], []))
             | _ => try (let! devs := inventoryFn in on_sys (npuDevicesFromInventory root devs))
             end in
  do! when (res_is_err nr)
        (on_sys (log LError "rbln-smi enumeration failed, starting without native devices")) in
  let '(npu, npuSkipped) := match nr with Ok p => p | Err _ => ([], []) end in
  do! on_sys (logInitialInventory npu vfio npuSkipped vfioSkipped) in
  upd_ds (fun _ => rebuildResources
    {| nodeName := node; allocatable := ∅; driverResources := ∅;
       npuDevices := npu; vfioDevices := vfio; sysfsRoot := root;
       scan := {| sysfsFailing := false; npuFailing := res_is_err nr; slow := false |} |}).
End scan.

(** ** Runs of the pieces *)

(** [p'] is [p] with [l] appended to the log. *)
Definition logged (l : list LogRec) (p p' : Plugin) : Prop :=
  p' = {| sys := {| clk := clk (sys p); now := now (sys p); logs := (logs (sys p) ++ l)%list |};
          ds := ds p; smi_runs := smi_runs p |}.

Lemma log_run l m p p' (r : res unit) :
  on_sys (log l m) p = (p', r) ->
  r = Ok tt /\ logged [{| lr_level := l; lr_msg := m |}] p p'.
Proof. unfold log. intros H. by minv. Qed.

Lemma logged_nil p : logged [] p p.
Proof. destruct p as [[c n l] d k]. unfold logged. simpl. by rewrite app_nil_r. Qed.

Lemma when_log_run b l m p p' (r : res unit) :
  when b (on_sys (log l m)) p = (p', r) ->
  r = Ok tt /\ logged (if b then [{| lr_level := l; lr_msg := m |}] else []) p p'.
Proof.
  destruct b; unfold when; [apply log_run|]. intros H. minv. split; [done|apply logged_nil].
Qed.

Ltac logs_inv :=
  repeat match goal with
  | H : when _ (on_sys (log _ _)) _ = _ |- _ =>
      apply when_log_run in H; destruct H as [? H]; unfold logged in H; simplify_eq
  | H : on_sys (log _ _) _ = _ |- _ =>
      apply log_run in H; destruct H as [? H]; unfold logged in H; simplify_eq
  end.
(** [minv], with the log runs read first. *)
Ltac pinv := repeat first [ progress logs_inv | minv_step; cbv beta iota in *; simplify_eq ].

Section scan_runs.
Context {hst : Host} {smi : Smi} `{!SemanticEqual Device, !SemanticEqual (list Device)}.

#[export] Instance rescanSysfs_respects root known : Respects sys_le (rescanSysfs root known).
Proof. unfold rescanSysfs. solve_respects. Qed.

Lemma enumerateNpuDevices_run p p' r :
  enumerateNpuDevices p = (p', r) ->
  later (sys p) (sys p') /\ logs (sys p) `prefix_of` logs (sys p') /\
  filter scan_record (logs (sys p')) = filter scan_record (logs (sys p)) /\
  smi_runs p' = S (smi_runs p) /\ ds p' = ds p /\
  match r with
  | Err _ => True
  | Ok (npu, sk) => exists devs t s1 s2, (clk (sys p) <= t < clk (sys p'))%nat /\ smi_at t = Ok devs /\
      later (sys p) s1 /\ later s2 (sys p') /\
      npuDevicesFromInventory (sysfsRoot (ds p)) devs s1 = (s2, Ok (npu, sk))
  end.
Proof.
  unfold enumerateNpuDevices, inventoryFn. intros H. minv; simpl in *.
  - match goal with H : npuDevicesFromInventory _ _ _ = _ |- _ =>
      pose proof (respects_run sys_le _ _ _ _ _ H) as (?&?&?&?) end.
    unfold later in *; simpl in *. split_and!; try done; [lia|].
    case_match; [|done]. case_match. subst. do 4 eexists. split_and!; [| |eassumption|..|done]; simpl; lia.
  - unfold later; simpl. split_and!; try done. lia.
Qed.

Lemma rescanNative_run c p p' r :
  rescanNative c p = (p', r) ->
  later (sys p) (sys p') /\
  smi_runs p' = (if bool_decide (0 < c)%nat then S (smi_runs p) else smi_runs p) /\
  ds p' = set_scan (set_npuFailing (res_is_err r)) (ds p) /\
  match r with
  | Err _ => (0 < c)%nat
  | Ok (npu, sk) =>
      (c = 0%nat /\ npu = [] /\ sk = []) \/
      ((0 < c)%nat /\ exists devs t s1 s2, (clk (sys p) <= t < clk (sys p'))%nat /\ smi_at t = Ok devs /\
        later (sys p) s1 /\ later s2 (sys p') /\
        npuDevicesFromInventory (sysfsRoot (ds p)) devs s1 = (s2, Ok (npu, sk)))
  end.
Proof.
  unfold rescanNative. case_bool_decide as Hc; intros H; pinv; simpl.
  - match goal with H : enumerateNpuDevices _ = _ |- _ =>
      apply enumerateNpuDevices_run in H as (? & _ & _ & ? & Hds & Hr) end.
    rewrite Hds in *. split_and!; try done. case_match; [|done]. case_match. by right.
  - split_and!; try done. left. split; [lia|done].
Qed.

Lemma DeepEqual_false {A} `{!SemanticEqual A} (a b : A) : DeepEqual a b = false <-> a <> b.
Proof. rewrite <- not_true_iff_false. by rewrite DeepEqual_spec. Qed.

Lemma logSkippedDevices_run l s :
  exists s', logSkippedDevices l s = (s', Ok tt) /\ later s s'.
Proof.
  assert (exists s' us, forM logSkippedDevice l s = (s', Ok us)) as (s' & us & H).
  { revert s. induction l as [|d l IH]; intros s; simpl; [by do 2 eexists|].
    unfold bind at 1. unfold logSkippedDevice at 1, log, modify.
    destruct (sk_err d);
      match goal with |- exists _ _, bind _ _ ?s1 = _ =>
        destruct (IH s1) as (s' & us & E) end; unfold bind; rewrite E; by do 2 eexists. }
  exists s'. unfold logSkippedDevices. unfold bind. rewrite H. split; [done|].
  apply sys_le_later. eapply (respects_run sys_le); [|exact H]. apply _.
Qed.

Lemma forM_log_run {A} l m (xs : list A) s :
  exists s' us, forM (fun _ : A => log l m) xs s = (s', Ok us).
Proof.
  revert s. induction xs as [|x xs IH]; intros s; simpl; [by do 2 eexists|].
  unfold bind at 1, log at 1, modify at 1.
  match goal with |- exists _ _, bind _ _ ?s1 = _ => destruct (IH s1) as (s' & us & E) end.
  unfold bind. rewrite E. by do 2 eexists.
Qed.

Lemma logInitialInventory_run npu vfio sk1 sk2 s :
  exists s', logInitialInventory npu vfio sk1 sk2 s = (s', Ok tt).
Proof.
  unfold logInitialInventory.
  assert (exists s1, (if bool_decide (npu = []) && bool_decide (vfio = [])
       then log LWarn "No NPU devices found on this node" else ret tt) s = (s1, Ok tt)) as [s1 E1]
    by (case_match; by eexists).
  destruct (forM_log_run LDebug "Enumerated vfio-pci NPU device" vfio s1) as (s2 & us2 & E2).
  destruct (logSkippedDevices_run (sk1 ++ sk2) s2) as (s3 & E3 & _).
  destruct (forM_log_run LDebug "Enumerated NPU device" npu s3) as (s4 & us4 & E4).
  unfold bind. rewrite E1, E2, E3, E4. by eexists.
Qed.

#[export] Instance logInitialInventory_respects npu vfio sk1 sk2 :
  Respects sys_le (logInitialInventory npu vfio sk1 sk2).
Proof. unfold logInitialInventory. solve_respects. Qed.

Lemma rescanCommit_run npu vfio sk p :
  exists p' ch r, rescanCommit npu vfio sk p = (p', Ok (r, ch)) /\ r = driverResources (ds p') /\
  later (sys p) (sys p') /\ smi_runs p' = smi_runs p /\
  (ch = false <-> npu = npuDevices (ds p) /\ vfio = vfioDevices (ds p)) /\
  ds p' = (if ch then rebuildResources (set_devices npu vfio (ds p)) else ds p).
Proof.
  unfold rescanCommit. rewrite bind_gets. cbv zeta.
  destruct (negb (DeepEqual npu (npuDevices (ds p))) || _) eqn:Ech; unfold when.
  - destruct (deviceNameDelta _ _) as [[added removed] changed].
    match goal with |- context [logSkippedDevices ?l] => set (skl := l) end.
    unfold bind, zoom, log, modify, gets, ret. simpl.
    match goal with |- context [logSkippedDevices skl ?s1] =>
      destruct (logSkippedDevices_run skl s1) as (s' & -> & Hl) end.
    do 3 eexists. split; [reflexivity|]. unfold later in *; simpl in *. split_and!; try done; [].
    split; [done|]. intros [-> ->].
    rewrite !(proj2 (DeepEqual_spec _ _)) in Ech by done. done.
  - unfold bind, zoom, log, modify, gets, ret. simpl.
    do 3 eexists. split; [reflexivity|]. unfold later in *; simpl in *. split_and!; try done; [].
    apply orb_false_elim in Ech as [H1%negb_false_iff H2%negb_false_iff].
    by rewrite DeepEqual_spec in H1, H2.
Qed.

(** rbln-smi ran at most once, and only after candidates were counted. *)
Definition tick_smi (p p' : Plugin) : Prop :=
  smi_runs p' = smi_runs p \/
  (smi_runs p' = S (smi_runs p) /\ exists c s1 s2, (0 < c)%nat /\ later (sys p) s1 /\ later s2 (sys p') /\
    countNativeCandidates (sysfsRoot (ds p)) (known_of (allocatable (ds p))) s1 = (s2, Ok c)).

(** What one tick does, on each of its outcomes. *)
Record tick_failed (p p' : Plugin) (r : DriverResources) (changed : bool) : Prop := {
  tf_changed : changed = false;
  tf_resources : r = driverResources (ds p);
  tf_state : exists f, ds p' = set_scan f (ds p);
  tf_smi : tick_smi p p';
}.

Record tick_done (p p' : Plugin) (r : DriverResources) (changed : bool) : Prop := {
  td_resources : r = driverResources (ds p');
  td_changed : changed = false <->
    npuDevices (ds p') = npuDevices (ds p) /\ vfioDevices (ds p') = vfioDevices (ds p);
  td_state : exists f, ds p' =
    (if changed then rebuildResources (set_devices (npuDevices (ds p')) (vfioDevices (ds p')) (set_scan f (ds p)))
     else set_scan f (ds p));
  td_vfio : exists s1 s2 sk, later (sys p) s1 /\ later s2 (sys p') /\
    enumerateVfioDevices (sysfsRoot (ds p)) (known_of (allocatable (ds p))) s1 =
      (s2, Ok (vfioDevices (ds p'), sk));
  td_npu : exists c s1 s2, later (sys p) s1 /\ later s2 (sys p') /\
    countNativeCandidates (sysfsRoot (ds p)) (known_of (allocatable (ds p))) s1 = (s2, Ok c) /\
    smi_runs p' = (if bool_decide (0 < c)%nat then S (smi_runs p) else smi_runs p) /\
    ((c = 0%nat /\ npuDevices (ds p') = []) \/
     ((0 < c)%nat /\ exists devs t s1 s2 sk, (clk (sys p) <= t < clk (sys p'))%nat /\ smi_at t = Ok devs /\
      later (sys p) s1 /\ later s2 (sys p') /\
      npuDevicesFromInventory (sysfsRoot (ds p)) devs s1 = (s2, Ok (npuDevices (ds p'), sk))));
  td_smi : tick_smi p p';
  td_unique : first_duplicate ∅ (npuDevices (ds p') ++ vfioDevices (ds p')) = None;
}.

Definition sys_clk_eq (p p' : Plugin) : Prop := clk (sys p') = clk (sys p).

Lemma set_scan_set_scan f g d : set_scan f (set_scan g d) = set_scan (fun x => f (g x)) d.
Proof. done. Qed.
Lemma set_scan_id d : set_scan id d = d.
Proof. by destruct d. Qed.

Lemma recover_run b m f p p' (r : res unit) :
  when b (do! on_sys (log LInfo m) in upd_ds (set_scan f)) p = (p', r) ->
  r = Ok tt /\ sys_clk_eq p p' /\ smi_runs p' = smi_runs p /\
  ds p' = (if b then set_scan f (ds p) else ds p).
Proof. unfold when, sys_clk_eq. destruct b; intros H; pinv; done. Qed.

Lemma rescanSysfs_run root known s s' vfio sk c :
  rescanSysfs root known s = (s', Ok (vfio, sk, c)) ->
  exists s1, enumerateVfioDevices root known s = (s1, Ok (vfio, sk)) /\
             countNativeCandidates root known s1 = (s', Ok c).
Proof.
  unfold rescanSysfs. intros H. minv.
  match goal with H : (let '(_, _) := ?x in _) _ = _ |- _ => destruct x end.
  minv. eauto.
Qed.

Lemma RescanDevices_run p :
  exists p' r changed oe, RescanDevices p = (p', Ok (r, changed, oe)) /\
    match oe with Some _ => tick_failed p p' r changed | None => tick_done p p' r changed end.
Proof.
  destruct (RescanDevices p) as [p' res] eqn:E. unfold RescanDevices in E. pinv.
  match goal with H : rescanSysfs _ _ _ = (?s, ?rd) |- _ =>
    rename H into Hs; rename s into s1; destruct rd as [[[vfio vsk] c]|e] end.
  2: { pinv. do 4 eexists. split; [reflexivity|]. split; [done|done|by eexists|by left]. }
  pose proof (respects_run sys_le _ _ _ _ _ Hs) as [Hs1 _].
  apply rescanSysfs_run in Hs as (s2 & Hv & Hc).
  pose proof (respects_run sys_le _ _ _ _ _ Hv) as [Hs2 _].
  pose proof (respects_run sys_le _ _ _ _ _ Hc) as [Hs3 _].
  apply bind_run in H0 as [(p1 & [] & Hr & H0)|(e & Hr & ->)];
    [|by apply recover_run in Hr as [? _]].
  apply recover_run in Hr as (_ & Hclk & Hsmi & Hds).
  assert (exists f, ds p1 = set_scan f (ds p)) as [f Hf].
  { rewrite Hds. case_match; [by eexists|]. exists id. by rewrite set_scan_id. }
  apply bind_try in H0 as (p2 & rn & Hn & H0). apply rescanNative_run in Hn as (Hl & Hsm & Hd2 & Hn).
  rewrite Hf, set_scan_set_scan in Hd2.
  assert (Hq : forall q, later (sys p2) (sys q) -> smi_runs q = smi_runs p2 -> tick_smi p q).
  { intros q Hlq Hsq. unfold tick_smi, later, sys_clk_eq in *. simpl in *. rewrite Hsq, Hsm, Hsmi.
    case_bool_decide; [right; split; [done|]|by left].
    exists c, s2, s1. split_and!; [lia|lia|lia|done]. }
  destruct rn as [[npu nsk]|e].
  2: { pinv. do 4 eexists. split; [reflexivity|]. rewrite Hd2. split; [done|done|by eexists|apply Hq; [unfold later; simpl; lia|done]]. }
  destruct (first_duplicate ∅ (npu ++ vfio)) as [bus|] eqn:Hdup.
  { pinv. do 4 eexists. split; [reflexivity|]. simpl. rewrite Hd2. split; [done|done|by eexists|apply Hq; [unfold later; simpl; lia|done]]. }
  destruct (rescanCommit_run npu vfio (nsk ++ vsk)%list p2) as (p3 & ch & r & Hr & -> & Hl3 & Hsm3 & Hch & Hd3).
  apply bind_run in H0 as [(p4 & [r' ch'] & Hr' & H0)|(e & Hr' & ->)]; [|by rewrite Hr in Hr'].
  rewrite Hr in Hr'. simplify_eq. pinv.
  assert (npuDevices (ds p4) = npu /\ vfioDevices (ds p4) = vfio) as [Hnpu Hvf].
  { rewrite Hd3. destruct ch'; [done|]. by destruct (proj1 Hch) as [-> ->]. }
  do 4 eexists. split; [reflexivity|]. rewrite Hd2 in Hch, Hd3. split.
  - done.
  - by rewrite Hnpu, Hvf.
  - eexists. rewrite Hnpu, Hvf, Hd3. destruct ch'; reflexivity.
  - rewrite Hvf. exists (sys p), s2, vsk. unfold later, sys_clk_eq in *; simpl in *. split_and!; [lia|lia|done].
  - exists c, s2, s1. unfold later, sys_clk_eq in *; simpl in *. split_and!; [lia|lia|done|by rewrite Hsm3, Hsm, Hsmi|].
    rewrite Hnpu. destruct Hn as [(->&->&_)|(?&devs&t&sa&sb&?&?&?&?&Hn)]; [by left|right].
    split; [done|]. rewrite Hf in Hn. exists devs, t, sa, sb, nsk. split_and!; [lia|lia|done|lia|lia|done].
  - by apply Hq.
  - by rewrite Hnpu, Hvf.
Qed.
End scan_runs.
