(* ===== verification/Prepare.v ===== *)
(** Preparing and unpreparing claims (cmd/npu-kubelet-plugin/state.go and
    vfio.go): the waits for device nodes, the edits of each device, Prepare,
    Unprepare, the rollback, and the end of NewDeviceState. *)
From S2P Require Import Prelude GoStd Host PciSysfs Device Sriov Vfio Validate Claim Fs Metadata.
From S2P Require Import Cdi Checkpoint Discovery Inventory Scan.
Open Scope string_scope.

(** 5 s and 100 ms, in nanoseconds. *)
Definition deviceNodePollTimeout : N := 5000000000.
Definition deviceNodePollInterval : N := 100000000.
(** A poll later than the deadline returns, and the 52nd poll is: 51 sleeps
    last 5.1 s. *)
Definition poll_fuel : nat := 52.

Definition missing_allocation : err := ErrText "claim not yet allocated".

Section device_nodes.
Context {hst : Host}.

(** The loop; a fuel of 0 is never reached (see [waitForDeviceNode_run]). *)
Fixpoint waitLoop (fuel : nat) (deadline : N) (waited : bool) (hostPath : string) : M Sys FileInfo :=
  match fuel with
  | O => throw (ErrText "out of fuel")
  | S fuel' =>
      let? fi := os_Stat hostPath in
      match fi with
      | Ok fi =>
          do! (if waited then log LDebug "Device node appeared" else ret tt) in
          ret fi
      | Err e =>
          if negb (is_not_exist e) then throw e else
          let! t := time_Now in
          if bool_decide (deadline < t)%N then throw e else
          do! (if waited then ret tt else log LDebug "Waiting for device node to appear") in
          do! time_Sleep deviceNodePollInterval in
          waitLoop fuel' deadline true hostPath
      end
  end.

Definition waitForDeviceNode (hostPath : string) : M Sys FileInfo :=
  let! t := time_Now in
  waitLoop poll_fuel (t + deviceNodePollTimeout) false hostPath.

Definition plain_node (containerPath hostPath : string) : DeviceNode :=
  {| dn_Path := containerPath; dn_HostPath := hostPath; dn_Permissions := ""; dn_UID := None; dn_GID := None |}.

Definition newDeviceNode (containerPath hostPath : string) : M Sys DeviceNode :=
  do! wrap_err (fun e => ErrWrap ("stat device " +:+ quote hostPath +:+ ": ") e "") (waitForDeviceNode hostPath) in
  ret (plain_node containerPath hostPath).

Definition vfio_node (path : string) : DeviceNode :=
  {| dn_Path := path; dn_HostPath := path; dn_Permissions := "mrw";
     dn_UID := Some qemuUID; dn_GID := Some qemuGID |}.

Definition vfioContainerEdits (device : Device) (metadataMounts : list Mount) : M Sys ContainerEdits :=
  let! group := of_res (deviceIOMMUGroup device) in
  let! nodes := forM (fun path =>
      do! wrap_err (fun e => ErrWrap ("vfio device node " +:+ quote path +:+ ": ") e "") (waitForDeviceNode path) in
      ret (vfio_node path)) [vfioContainerDevPath; Join [vfioDevDir; group]] in
  ret {| e_DeviceNodes := nodes; e_Mounts := metadataMounts; e_Hooks := [] |}.

Definition applyConfig (allocatable : gmap string Device) (deviceName hostRsdPath : string) : M Sys ContainerEdits :=
  let! rsdNode := wrap_err (fun e => ErrWrap "rsd device node: " e "") (newDeviceNode "/dev/rsd0" hostRsdPath) in
  match allocatable !! deviceName with
  | None => throw (ErrText ("allocatable device " +:+ quote deviceName +:+ " not found"))
  | Some d =>
      let nodeName := deviceStringAttr d deviceNodeNameAttributeKey in
      if bool_decide (nodeName = "" \/ nodeName = "." \/ nodeName = ".." \/ Base nodeName <> nodeName)
      then throw (ErrText ("invalid native device node name " +:+ quote nodeName +:+ " for " +:+ deviceName)) else
      let rblnPath := Join ["/dev"; nodeName] in
      let! rblnNode := wrap_err (fun e => ErrWrap "rbln device node: " e "") (newDeviceNode rblnPath rblnPath) in
      ret {| e_DeviceNodes := [rsdNode; rblnNode]; e_Mounts := []; e_Hooks := [] |}
  end.

(** The checks on one allocation result. *)
Definition checkResult (d : DeviceState) (result : AllocResult) : M Sys AllocResult :=
  match allocatable d !! ResultDevice result with
  | None => throw (ErrText ("requested device is not allocatable: " +:+ ResultDevice result))
  | Some allocated =>
      if bool_decide (Pool result <> nodeName d)
      then throw (ErrText ("allocated pool " +:+ quote (Pool result) +:+ " does not match this node " +:+ quote (nodeName d)))
      else
        do! wrap_err (fun e => ErrWrap ("allocated device " +:+ ResultDevice result +:+ " is unavailable: ") e "")
              (validateAllocatedDevice (sysfsRoot d) allocated) in
        ret result
  end.

#[export] Instance waitLoop_respects fuel dl w p : Respects sys_le (waitLoop fuel dl w p).
Proof. revert w. induction fuel; intros w; simpl; solve_respects. Qed.
#[export] Instance waitForDeviceNode_respects p : Respects sys_le (waitForDeviceNode p).
Proof. unfold waitForDeviceNode. solve_respects. Qed.
#[export] Instance newDeviceNode_respects c p : Respects sys_le (newDeviceNode c p).
Proof. unfold newDeviceNode. solve_respects. Qed.
#[export] Instance vfioContainerEdits_respects d m : Respects sys_le (vfioContainerEdits d m).
Proof. unfold vfioContainerEdits. solve_respects. Qed.
#[export] Instance applyConfig_respects a n r : Respects sys_le (applyConfig a n r).
Proof. unfold applyConfig. solve_respects. Qed.
#[export] Instance checkResult_respects d r : Respects sys_le (checkResult d r).
Proof. unfold checkResult. solve_respects. Qed.
End device_nodes.

(** A device missing from the table reads as the zero Device, as a Go map does. *)
Definition zero_device : Device := {| Name := ""; Attributes := ∅; Capacity := ∅ |}.
Definition alloc_at (a : gmap string Device) (n : string) : Device := default zero_device (a !! n).

(** The addresses of the native results, in allocation order. *)
Fixpoint nativeBusIDs (a : gmap string Device) (results : list AllocResult) : res (list string) :=
  match results with
  | [] => Ok []
  | r :: rs =>
      let device := alloc_at a (ResultDevice r) in
      if isVfioDevice device then nativeBusIDs a rs else
      match devicePCIBusID device with
      | Err e => Err e
      | Ok busID => match nativeBusIDs a rs with Err e => Err e | Ok ids => Ok (busID :: ids) end
      end
  end.

(** The node agent between two calls: the plugin, the metadata tree, the spec
    cache and the checkpoint store. *)
Record Node (cdi_store cp_store : Type) := {
  nd_plugin : Plugin;
  nd_meta : FsState;
  nd_cdi : cdi_store;
  nd_cp : cp_store;
}.
Arguments nd_plugin {cdi_store cp_store}.
Arguments nd_meta {cdi_store cp_store}.
Arguments nd_cdi {cdi_store cp_store}.
Arguments nd_cp {cdi_store cp_store}.

(** What does not change while the plugin runs: the CDI handler that
    NewDeviceState returns, and the base path of the metadata (the constant
    [kubevirtMetadataBasePath] in the code). *)
Record Config := { cfg_cdi : CDIHandler; cfg_metadata : string }.

Section prepare.
Context {hst : Host} {smi : Smi} `{!SemanticEqual Device, !SemanticEqual (list Device)}
  {flt : Faults} {menv : MetadataEnv} {lib : CdiLib} {codec : CheckpointCodec}
  {cdi_store cp_store : Type} `{!CdiCache cdi_store, !CheckpointManager cp_store}
  (cfg : Config) (rsdGroupFn : list string -> M Sys string).

Abbreviation NodeM A := (M (Node cdi_store cp_store) A).

Definition nd_on_sys {A} (m : M Sys A) : NodeM A :=
  zoom (fun n => sys (nd_plugin n))
       (fun s n => {| nd_plugin := set_sys s (nd_plugin n); nd_meta := nd_meta n;
                      nd_cdi := nd_cdi n; nd_cp := nd_cp n |}) m.
Definition nd_on_meta {A} (m : M FsState A) : NodeM A :=
  zoom nd_meta (fun f n => {| nd_plugin := nd_plugin n; nd_meta := f; nd_cdi := nd_cdi n; nd_cp := nd_cp n |}) m.
Definition nd_on_cdi {A} (m : M (CdiState cdi_store) A) : NodeM A :=
  zoom (fun n => {| ci_sys := sys (nd_plugin n); ci_cache := nd_cdi n |})
       (fun c n => {| nd_plugin := set_sys (ci_sys c) (nd_plugin n); nd_meta := nd_meta n;
                      nd_cdi := ci_cache c; nd_cp := nd_cp n |}) m.
Definition nd_on_cp {A} (m : M cp_store A) : NodeM A :=
  zoom nd_cp (fun k n => {| nd_plugin := nd_plugin n; nd_meta := nd_meta n; nd_cdi := nd_cdi n; nd_cp := k |}) m.
Definition nd_state : NodeM DeviceState := gets (fun n => ds (nd_plugin n)).

Definition wrapped {A} (text : string) (m : NodeM A) : NodeM A := wrap_err (fun e => ErrWrap text e "") m.

(** A list of strings as the verb %v prints it. *)
Definition fmt_list (l : list string) : string := "[" +:+ Join_with " " l +:+ "]".

(** The RSD group and the RDS nodes of a claim with native devices. *)
Definition prepareRSD (npuBusIDs : list string) : NodeM (string * list DeviceNode) :=
  if bool_decide (npuBusIDs = []) then ret ("", []) else
  do! wrapped "create common CDI spec: " (nd_on_cdi (CreateCommonSpecFile (cfg_cdi cfg))) in
  let! hostRsdPath := wrapped ("create RSD group for " +:+ fmt_list npuBusIDs +:+ ": ") (nd_on_sys (rsdGroupFn npuBusIDs)) in
  if bool_decide (hostRsdPath = "")
  then throw (ErrText ("RSD group creation returned no device path for " +:+ fmt_list npuBusIDs)) else
  do! nd_on_sys (log LInfo "Created RSD group device") in
  let? rds := nd_on_sys (getRDSDeviceNodes (cfg_cdi cfg)) in
  match rds with
  | Ok rdsNodes => ret (hostRsdPath, rdsNodes)
  | Err _ => do! nd_on_sys (log LWarn "Reading RDS CDI spec failed, continuing without RDS") in
             ret (hostRsdPath, [])
  end.

(** The loop over the checked results; [mounted] holds the requests whose
    metadata is mounted, [rdsNodes] what is still to inject. *)
Fixpoint prepareResults (claim : ResourceClaim) (hostRsdPath : string) (rdsNodes : list DeviceNode)
    (mounted : gset string) (results : list AllocResult) : NodeM PreparedDevices :=
  match results with
  | [] => ret []
  | result :: rest =>
      let! d := nd_state in
      let device := alloc_at (allocatable d) (ResultDevice result) in
      let vfio := isVfioDevice device in
      let requestName := kubevirtMetadataRequestName result in
      let mount := vfio && negb (bool_decide (requestName ∈ mounted)) in
      let! edits := nd_on_sys (
        if vfio
        then vfioContainerEdits device
               (if mount then kubevirtMetadataMounts (cfg_metadata cfg) claim requestName else [])
        else applyConfig (allocatable d) (ResultDevice result) hostRsdPath) in
      let edits := if vfio then edits
                   else {| e_DeviceNodes := (e_DeviceNodes edits ++ rdsNodes)%list;
                           e_Mounts := e_Mounts edits; e_Hooks := e_Hooks edits |} in
      let prepared := {| RequestNames := [Request result]; PoolName := Pool result;
                         DeviceName := ResultDevice result;
                         CdiDeviceIds := GetClaimDevices (cfg_cdi cfg) (UID claim) [ResultDevice result] (negb vfio);
                         Edits := edits |} in
      let! more := prepareResults claim hostRsdPath (if vfio then rdsNodes else [])
                     (if mount then {[ requestName ]} ∪ mounted else mounted) rest in
      ret (prepared :: more)
  end.

Definition prepareDevices (claim : ResourceClaim) : NodeM PreparedDevices :=
  match Allocation claim with
  | None => throw missing_allocation
  | Some all =>
      let! d := nd_state in
      let! results := forM (fun r => nd_on_sys (checkResult d r)) (ours all) in
      let! npuBusIDs := of_res (nativeBusIDs (allocatable d) results) in
      let! (hostRsdPath, rdsNodes) := prepareRSD (SortStrings npuBusIDs) in
      prepareResults claim hostRsdPath rdsNodes ∅ results
  end.

Definition unprepareDevices (claimUID : string) (devices : PreparedDevices) : NodeM unit := ret tt.

Definition rollbackKubeVirtMetadata (claimUID : string) : NodeM unit :=
  let? r := nd_on_meta (removeKubeVirtMetadataForClaim (cfg_metadata cfg) claimUID) in
  match r with
  | Ok _ => ret tt
  | Err _ => nd_on_sys (log LWarn "Failed to roll back KubeVirt device metadata after prepare failure")
  end.

(** [if err := m; err != nil { rollback; return wrap(err) }] *)
Definition or_rollback {A} (claimUID text : string) (m : NodeM A) : NodeM A :=
  let? r := m in
  match r with
  | Ok a => ret a
  | Err e => do! rollbackKubeVirtMetadata claimUID in throw (ErrWrap text e "")
  end.

Definition nil_dereference : err := ErrText "panic: invalid memory address or nil pointer dereference".

(** A checkpoint without V1 is a nil pointer to the code below, which panics. *)
Definition preparedClaims_of (cp : Checkpoint) : NodeM PreparedClaims :=
  match V1 cp with
  | Some v => ret (cv_PreparedClaims v)
  | None => throw nil_dereference
  end.
Definition with_claims (cp : Checkpoint) (m : PreparedClaims) : Checkpoint :=
  {| Checksum := Checksum cp; V1 := Some {| cv_PreparedClaims := m |} |}.

(** An entry without devices is a nil slice: the driver stores it as null. *)
Definition Prepare (claim : ResourceClaim) : NodeM (list (list string * string * string * list string)) :=
  let claimUID := UID claim in
  let! checkpoint := wrapped "unable to sync from checkpoint: "
                       (nd_on_cp (GetCheckpoint DriverPluginCheckpointFile newCheckpoint)) in
  let! preparedClaims := preparedClaims_of checkpoint in
  match preparedClaims !! claimUID with
  | Some ((_ :: _) as prepared) =>
      do! nd_on_sys (log LDebug "Claim already prepared, reusing checkpointed devices") in
      ret (GetDevices prepared)
  | _ =>
      let! preparedDevices := wrapped "prepare failed: " (prepareDevices claim) in
      let! d := nd_state in
      do! (if claimHasVfioDevice (allocatable d) claim
           then or_rollback claimUID "unable to write KubeVirt device metadata: "
                  (nd_on_meta (writeKubeVirtMetadata (cfg_metadata cfg) claim (allocatable d)))
           else ret tt) in
      do! or_rollback claimUID "unable to create CDI spec file for claim: "
            (nd_on_cdi (CreateClaimSpecFile (cfg_cdi cfg) claimUID preparedDevices)) in
      do! or_rollback claimUID "unable to sync to checkpoint: "
            (nd_on_cp (CreateCheckpoint DriverPluginCheckpointFile
                         (with_claims checkpoint (<[claimUID := preparedDevices]> preparedClaims)))) in
      ret (GetDevices preparedDevices)
  end.

Definition Unprepare (claimUID : string) : NodeM unit :=
  let! checkpoint := wrapped "unable to sync from checkpoint: "
                       (nd_on_cp (GetCheckpoint DriverPluginCheckpointFile newCheckpoint)) in
  let! preparedClaims := preparedClaims_of checkpoint in
  match preparedClaims !! claimUID with
  | Some ((_ :: _) as prepared) =>
      do! wrapped "unprepare failed: " (unprepareDevices claimUID prepared) in
      do! wrapped "unable to delete CDI spec file for claim: "
            (nd_on_cdi (DeleteClaimSpecFile (cfg_cdi cfg) claimUID)) in
      do! wrapped "unable to remove KubeVirt device metadata: "
            (nd_on_meta (removeKubeVirtMetadataForClaim (cfg_metadata cfg) claimUID)) in
      do! wrapped "unable to sync to checkpoint: "
            (nd_on_cp (CreateCheckpoint DriverPluginCheckpointFile
                         (with_claims checkpoint (delete claimUID preparedClaims)))) in
      nd_on_sys (log LInfo "Unprepared devices for claim")
  | _ => nd_on_sys (log LDebug "No prepared state for claim, nothing to unprepare")
  end.

(** The end of NewDeviceState: a checkpoint is there before the first call. *)
Definition initialCheckpoint : NodeM unit :=
  let! checkpoints := wrapped "unable to list checkpoints: " (nd_on_cp ListCheckpoints) in
  if bool_decide (DriverPluginCheckpointFile ∈ checkpoints) then ret tt else
  wrapped "unable to sync to checkpoint: "
    (nd_on_cp (CreateCheckpoint DriverPluginCheckpointFile newCheckpoint)).

Definition nd_on_plugin {A} (m : M Plugin A) : NodeM A :=
  zoom nd_plugin (fun p n => {| nd_plugin := p; nd_meta := nd_meta n; nd_cdi := nd_cdi n; nd_cp := nd_cp n |}) m.
(** NewDeviceState; the cache and the checkpoint manager are made by their
    libraries, which may fail. The state is in the node, but for the handler. *)
Definition NewDeviceState (node cdiRoot root : string) (NewCache NewCheckpointManager : res unit) : NodeM CDIHandler :=
  do! nd_on_plugin (initialDiscovery node root) in
  let! cdi := wrapped "unable to create CDI handler: " (of_res (NewCDIHandler cdiRoot "npu" NewCache)) in
  do! wrapped "unable to create checkpoint manager: " (of_res NewCheckpointManager) in
  do! initialCheckpoint in
  ret cdi.
End prepare.
