(* ===== verification/PrepareProps.v ===== *)
(** The steps of Prepare: device-node waits end, the nodes and edits of each
    device, the loop over the results, and what each step leaves alone. *)
From S2P Require Import Prelude GoStd Host PciSysfs Device Sriov Vfio Validate RsdGroup Claim Fs.
From S2P Require Import Metadata MetadataProps Cdi Checkpoint Discovery Inventory Scan Prepare.
Open Scope string_scope.

(** ** Waiting for a device node *)

Section waiting.
Context {hst : Host}.

(** A wait that polled [k] times in vain: every other call of the run is a poll,
    the ones between are sleeps. *)
Definition waited_for (p : string) (deadline : N) (s s' : Sys) (r : res FileInfo) (k : nat) : Prop :=
  clk s' = (clk s + 2 * k + 1)%nat /\
  (forall i, (i < k)%nat -> v_stat (host_at (clk s + 2 * i)) p = inl ENOENT) /\
  r = os_result "stat" p (v_stat (host_at (clk s + 2 * k)) p) /\
  (v_stat (host_at (clk s + 2 * k)) p = inl ENOENT -> (deadline < now s')%N) /\
  ((0 < k)%nat -> (now s' <= deadline + deviceNodePollInterval + host_delay (clk s + 2 * k - 1) + host_delay (clk s + 2 * k))%N) /\
  (k = 0%nat -> now s' = (now s + host_delay (clk s))%N).

Lemma waitLoop_run fuel deadline waited p s s' r :
  (now s + N.of_nat (fuel - 1) * deviceNodePollInterval > deadline)%N -> (0 < fuel)%nat ->
  waitLoop fuel deadline waited p s = (s', r) ->
  exists k, (k < fuel)%nat /\ waited_for p deadline s s' r k.
Proof.
  revert waited s. induction fuel as [|fuel IH]; intros waited s Hf Hpos H; [lia|]. clear Hpos.
  cbn [waitLoop] in H. apply bind_try in H as (s1 & r1 & Hst & H). unfold os_Stat, os_call in Hst. injection Hst as <- <-.
  destruct (v_stat (host_at (clk s)) p) as [no|fi] eqn:Est; simpl in H.
  2: { assert (r = Ok fi /\ clk s' = S (clk s) /\ now s' = now (tick s)) as (-> & Hs' & Hn) by (unfold log in H; destruct waited; minv; done).
       exists 0%nat. split; [lia|]. unfold waited_for. rewrite Nat.mul_0_r, Nat.add_0_r, Est. split_and!; try done; lia. }
  assert (forall d, (no = ENOENT -> (d < now (tick s))%N) -> exists k, (k < S fuel)%nat /\
    waited_for p d s (tick s) (Err (ErrPath "stat" p no)) k) as Hend.
  { intros d Hd. exists 0%nat. split; [lia|]. unfold waited_for. rewrite Nat.mul_0_r, Nat.add_0_r, Est.
    split_and!; [simpl; lia|lia|done| |lia|done]. intros [= ->]. by apply Hd. }
  case_bool_decide as Hno; cbn [negb] in H; [|minv; by apply Hend].
  subst no. unfold time_Now in H. rewrite bind_gets in H. case_bool_decide as Hd; [minv; by apply Hend|].
  destruct fuel as [|fuel]; [simpl in Hf, Hd; lia|].
  apply bind_run in H as [(s2 & [] & Hlog & H)|(e & Hlog & ->)]; [|unfold log in Hlog; by destruct waited; minv].
  assert (clk s2 = S (clk s) /\ now s2 = now (tick s)) as [Hc2 Hn2] by (unfold log in Hlog; destruct waited; minv; done).
  unfold time_Sleep in H. rewrite bind_modify in H.
  match type of H with waitLoop _ _ _ _ ?s3 = _ => set (s3' := s3) in H end.
  assert (clk s3' = (clk s + 2)%nat /\ now s3' = (now (tick s) + deviceNodePollInterval + host_delay (S (clk s)))%N) as [Hc3 Hn3]
    by (simpl; rewrite Hc2, Hn2; split; [lia|done]).
  apply IH in H as (k & Hk & Hclk & Hpolls & Hr & Hdl & Hlate & Hzero); [|simpl in Hn3; simpl; lia|lia].
  exists (S k). split; [lia|]. unfold waited_for. rewrite Hc3 in *.
  replace (clk s + 2 * S k)%nat with (clk s + 2 + 2 * k)%nat by lia. split_and!; [lia| |done|done| |done].
  - intros [|i] Hi; [by rewrite Nat.mul_0_r, Nat.add_0_r|].
    replace (clk s + 2 * S i)%nat with (clk s + 2 + 2 * i)%nat by lia. apply Hpolls. lia.
  - intros _. destruct k as [|k]; [|replace (clk s + 2 + 2 * S k - 1)%nat with (clk s + 2 + 2 * S k - 1)%nat by lia; apply Hlate; lia].
    rewrite Hzero by done. rewrite Hn3, ?Hc3. simpl in *. rewrite Nat.add_0_r.
    replace (clk s + 2 - 1)%nat with (S (clk s)) by lia. lia.
Qed.

Lemma waitForDeviceNode_run p s s' r :
  waitForDeviceNode p s = (s', r) -> exists k, (k < poll_fuel)%nat /\ waited_for p (now s + deviceNodePollTimeout) s s' r k.
Proof.
  unfold waitForDeviceNode, time_Now. rewrite bind_gets. apply waitLoop_run; unfold poll_fuel; [|lia].
  unfold deviceNodePollTimeout, deviceNodePollInterval. lia.
Qed.

(** C17: The wait for a device node always ends, after at most 52 polls, on any
    machine and clock, with what its last poll answered: the node's
    information, or the error. Every poll before the last one answered "does
    not exist", so that any other error ends the wait at once; "does not exist"
    itself is returned only after more than five seconds, and a wait that
    slept ends at most one interval of 100 ms, and the time of its last two
    calls, after that. *)
Theorem waitForDeviceNode_terminates p s s' r :
  waitForDeviceNode p s = (s', r) ->
  exists k, (k <= 51)%nat /\ clk s' = (clk s + 2 * k + 1)%nat /\
    (forall i, (i < k)%nat -> v_stat (host_at (clk s + 2 * i)) p = inl ENOENT) /\
    r = os_result "stat" p (v_stat (host_at (clk s + 2 * k)) p) /\
    (v_stat (host_at (clk s + 2 * k)) p = inl ENOENT -> (now s + 5000000000 < now s')%N) /\
    ((0 < k)%nat -> (now s' <= now s + 5000000000 + 100000000 + host_delay (clk s + 2 * k - 1) + host_delay (clk s + 2 * k))%N).
Proof.
  intros (k & Hk & H)%waitForDeviceNode_run. exists k. split; [unfold poll_fuel in Hk; lia|].
  destruct H as (? & ? & ? & ? & ? & _). by split_and!.
Qed.

Lemma newDeviceNode_Ok c p s s' n :
  newDeviceNode c p s = (s', Ok n) -> n = plain_node c p /\ observed s s' (fun v => exists fi, v_stat v p = inr fi).
Proof.
  unfold newDeviceNode. intros H. minv. split; [done|].
  match goal with H : waitForDeviceNode _ _ = (_, Ok ?x) |- _ => rename x into fi; apply waitForDeviceNode_run in H as (k & _ & Hc & _ & Hr & _) end.
  exists (clk s + 2 * k)%nat. split; [lia|]. destruct (v_stat _ p) as [no|fi'] eqn:E; simplify_eq/=; eauto.
Qed.

(** The name of a native device's node: one element, or the root. *)
Definition node_name_ok (name : string) : Prop := plain_name name \/ name = "/".

Lemma applyConfig_Ok a n rsd s s' edits :
  applyConfig a n rsd s = (s', Ok edits) ->
  exists d, a !! n = Some d /\ node_name_ok (deviceStringAttr d deviceNodeNameAttributeKey) /\
    let path := Join ["/dev"; deviceStringAttr d deviceNodeNameAttributeKey] in
    edits = {| e_DeviceNodes := [plain_node "/dev/rsd0" rsd; plain_node path path]; e_Mounts := []; e_Hooks := [] |} /\
    observed s s' (fun v => exists fi, v_stat v rsd = inr fi) /\
    observed s s' (fun v => exists fi, v_stat v path = inr fi).
Proof.
  unfold applyConfig. intros H. minv.
  match goal with H : (match ?x with _ => _ end) _ = _ |- _ => destruct x as [d|]; [|by minv] end.
  case_bool_decide as Hname; [by minv|]. minv.
  repeat match goal with H : newDeviceNode _ _ _ = _ |- _ =>
    pose proof (respects_run sys_le _ _ _ _ _ H); apply newDeviceNode_Ok in H as [-> ?] end.
  exists d. split_and!; [done| |done| |].
  - apply not_or_and_not in Hname || idtac.
    destruct (decide (deviceStringAttr d deviceNodeNameAttributeKey = "/")) as [|Hs]; [by right|left].
    assert (Base (deviceStringAttr d deviceNodeNameAttributeKey) = deviceStringAttr d deviceNodeNameAttributeKey) as Hb
      by (apply dec_stable; tauto).
    destruct (Base_fixpoint _ Hb) as [?|Hsep]; [done|]. unfold plain_name. tauto.
  - eapply observed_widen; [..|eassumption]; sys_chain.
  - eapply observed_widen; [..|eassumption]; sys_chain.
Qed.

Lemma vfioContainerEdits_Ok d m s s' edits :
  vfioContainerEdits d m s = (s', Ok edits) ->
  exists g, deviceIOMMUGroup d = Ok g /\
    edits = {| e_DeviceNodes := map vfio_node [vfioContainerDevPath; Join [vfioDevDir; g]]; e_Mounts := m; e_Hooks := [] |}.
Proof.
  unfold vfioContainerEdits. intros H. cbn [forM] in H. minv. eexists. split; [eassumption|done].
Qed.
End waiting.

(** ** The devices of a claim *)

(** What the container of a claim gets for one result, after the results
    [before] it: the VFIO nodes owned by QEMU, with the metadata of the request
    mounted by its first VFIO device; or the RSD group and the device's own
    node, with the RDS nodes on the first native device. *)
Definition device_for {lib : CdiLib} (cfg : Config) (a : gmap string Device) (claim : ResourceClaim)
    (rsd : string) (rds : list DeviceNode) (before : list AllocResult) (r : AllocResult) (pd : PreparedDevice) : Prop :=
  RequestNames pd = [Request r] /\ PoolName pd = Pool r /\ DeviceName pd = ResultDevice r /\
  let d := alloc_at a (ResultDevice r) in
  if isVfioDevice d then
    exists g, deviceIOMMUGroup d = Ok g /\
      CdiDeviceIds pd = GetClaimDevices (cfg_cdi cfg) (UID claim) [ResultDevice r] false /\
      Edits pd = {| e_DeviceNodes := map vfio_node [vfioContainerDevPath; Join [vfioDevDir; g]];
        e_Mounts := if existsb (fun b => isVfioDevice (alloc_at a (ResultDevice b)) &&
                         bool_decide (kubevirtMetadataRequestName b = kubevirtMetadataRequestName r)) before
                    then [] else kubevirtMetadataMounts (cfg_metadata cfg) claim (kubevirtMetadataRequestName r);
        e_Hooks := [] |}
  else
    node_name_ok (deviceStringAttr d deviceNodeNameAttributeKey) /\
    CdiDeviceIds pd = GetClaimDevices (cfg_cdi cfg) (UID claim) [ResultDevice r] true /\
    let path := Join ["/dev"; deviceStringAttr d deviceNodeNameAttributeKey] in
    Edits pd = {| e_DeviceNodes := ([plain_node "/dev/rsd0" rsd; plain_node path path] ++
        (if existsb (fun b => negb (isVfioDevice (alloc_at a (ResultDevice b)))) before then [] else rds))%list;
      e_Mounts := []; e_Hooks := [] |}.

(** Nothing but the machine and the common spec changes. *)
Definition prep_frame {lib : CdiLib} {cdi_store cp_store : Type} `{!CdiCache cdi_store} (h : CDIHandler)
    (n n' : Node cdi_store cp_store) : Prop :=
  ds (nd_plugin n') = ds (nd_plugin n) /\ later (sys (nd_plugin n)) (sys (nd_plugin n')) /\
  nd_meta n' = nd_meta n /\ nd_cp n' = nd_cp n /\
  forall uid, sep_free "/" uid -> uid <> cdiCommonDeviceName ->
    specs (nd_cdi n') !! claimSpecName h uid = specs (nd_cdi n) !! claimSpecName h uid.

#[export] Instance prep_frame_preorder {lib : CdiLib} {cdi_store cp_store : Type} `{!CdiCache cdi_store} h :
  PreOrder (prep_frame (cdi_store:=cdi_store) (cp_store:=cp_store) h).
Proof.
  split; [by intros n|]. intros n1 n2 n3 (?&?&?&?&Hs1) (?&?&?&?&Hs2). split_and!; try congruence.
  - by etrans.
  - intros uid Hu Hc. by rewrite Hs2, Hs1.
Qed.

Section prepare_lemmas.
Context {hst : Host} {lib : CdiLib} {menv : MetadataEnv} {cdi_store cp_store : Type} `{!CdiCache cdi_store}
  (cfg : Config).
Implicit Types n : Node cdi_store cp_store.

#[export] Instance nd_on_sys_frame {A} (m : M Sys A) :
  Respects sys_le m -> Respects (prep_frame (cfg_cdi cfg)) (nd_on_sys (cdi_store:=cdi_store) (cp_store:=cp_store) m).
Proof using Type.
  intros Hm n. unfold nd_on_sys, zoom. pose proof (Hm (sys (nd_plugin n))) as Hle.
  destruct (m _) as [s' r]. simpl in *. split_and!; try done. by apply sys_le_later.
Qed.

(** The same for the machine and the cache alone. *)
Definition cdi_frame (c c' : CdiState cdi_store) : Prop :=
  later (ci_sys c) (ci_sys c') /\
  forall uid, sep_free "/" uid -> uid <> cdiCommonDeviceName ->
    specs (ci_cache c') !! claimSpecName (cfg_cdi cfg) uid = specs (ci_cache c) !! claimSpecName (cfg_cdi cfg) uid.
#[export] Instance cdi_frame_preorder : PreOrder cdi_frame.
Proof using Type.
  split; [by intros c|]. intros c1 c2 c3 [? H12] [? H23]. split; [by etrans|].
  intros uid Hu Hc. by rewrite H23, H12.
Qed.
#[export] Instance ci_on_sys_frame {A} (m : M Sys A) : Respects sys_le m -> Respects cdi_frame (ci_on_sys m).
Proof using Type.
  intros Hm c. unfold ci_on_sys, zoom. pose proof (Hm (ci_sys c)) as Hle.
  destruct (m _) as [s' r]. simpl in *. split; [by apply sys_le_later|done].
Qed.
#[export] Instance getRuntimeUMDEdits_respects h : Respects sys_le (getRuntimeUMDEdits h).
Proof using Type. unfold getRuntimeUMDEdits. solve_respects. Qed.
#[export] Instance getRDSDeviceNodes_respects h : Respects sys_le (getRDSDeviceNodes h).
Proof using Type. unfold getRDSDeviceNodes. solve_respects. Qed.

Lemma CreateCommonSpecFile_frame : Respects cdi_frame (CreateCommonSpecFile (cfg_cdi cfg)).
Proof using Type.
  unfold CreateCommonSpecFile. apply bind_respects; [apply _|apply wrap_err_respects, _|].
  intros [mounts hooks]. cbv zeta. apply of_res_bind_respects; [apply _|]. intros v _.
  apply of_res_bind_respects; [apply _|]. intros name Hname.
  apply bind_respects; [apply _| |intros _; apply _].
  intros c. unfold ci_on_cache, zoom. destruct (WriteSpec _ name (ci_cache c)) as [k r] eqn:E. simpl.
  split; [unfold later; done|]. intros uid Hu Hc. simpl.
  match type of E with WriteSpec ?sp _ _ = _ =>
    pose proof (WriteSpec_frame sp name (ci_cache c) (claimSpecName (cfg_cdi cfg) uid)) as Hf end.
  rewrite E in Hf. apply Hf. intros Heq.
  apply (transient_name_kind _ vendor (cdi_class (cfg_cdi cfg))) in Hname; [|done|done]. rewrite Hname in Heq.
  symmetry in Heq. by apply transient_name_inj in Heq.
Qed.

#[export] Instance CreateCommonSpecFile_nd :
  Respects (prep_frame (cfg_cdi cfg))
    (nd_on_cdi (cdi_store:=cdi_store) (cp_store:=cp_store) (CreateCommonSpecFile (cfg_cdi cfg))).
Proof using Type.
  intros n. unfold nd_on_cdi, zoom.
  pose proof (CreateCommonSpecFile_frame {| ci_sys := sys (nd_plugin n); ci_cache := nd_cdi n |}) as [H1 H2].
  destruct (CreateCommonSpecFile _ _) as [c' r]. simpl in *. done.
Qed.

#[export] Instance prepareResults_frame claim rsd rds mounted rs :
  Respects (prep_frame (cfg_cdi cfg)) (prepareResults (cdi_store:=cdi_store) (cp_store:=cp_store) cfg claim rsd rds mounted rs).
Proof using Type.
  revert rds mounted. induction rs as [|r rs IH]; intros rds mounted; cbn [prepareResults]; [apply _|].
  unfold nd_state. apply bind_respects; [apply _|apply _|]. intros d. cbv zeta.
  apply bind_respects; [apply _|apply nd_on_sys_frame; case_match; apply _|]. intros edits.
  apply bind_respects; [apply _|apply IH|]. intros more. apply _.
Qed.
(** The metadata already mounted and the RDS nodes still to inject, after the
    results [before]. *)
Definition loop_state (a : gmap string Device) (rds0 : list DeviceNode) (before : list AllocResult)
    (mounted : gset string) (rds : list DeviceNode) : Prop :=
  (forall req, req ∈ mounted <-> existsb (fun b => isVfioDevice (alloc_at a (ResultDevice b)) &&
                                   bool_decide (kubevirtMetadataRequestName b = req)) before = true) /\
  rds = if existsb (fun b => negb (isVfioDevice (alloc_at a (ResultDevice b)))) before then [] else rds0.

Lemma loop_state_step a rds0 before mounted rds r :
  let vfio := isVfioDevice (alloc_at a (ResultDevice r)) in
  let mount := vfio && negb (bool_decide (kubevirtMetadataRequestName r ∈ mounted)) in
  loop_state a rds0 before mounted rds ->
  loop_state a rds0 (before ++ [r])
    (if mount then {[ kubevirtMetadataRequestName r ]} ∪ mounted else mounted) (if vfio then rds else []).
Proof using Type.
  intros vfio mount [Hm ->]. split.
  - intros req. rewrite existsb_app, orb_true_iff, <- Hm. simpl. rewrite orb_false_r, andb_true_iff, bool_decide_eq_true.
    fold vfio. subst mount. destruct vfio; simpl; [|naive_solver].
    case_bool_decide as Hin; simpl; [naive_solver|set_solver].
  - rewrite existsb_app. simpl. fold vfio. rewrite orb_false_r. destruct vfio; simpl.
    + by rewrite orb_false_r.
    + by rewrite orb_true_r.
Qed.

Lemma existsb_false_mounted (mounted : gset string) req b :
  (req ∈ mounted <-> b = true) -> bool_decide (req ∈ mounted) = b.
Proof using Type. intros H. destruct b; [apply bool_decide_true|apply bool_decide_false]; naive_solver. Qed.

(** One result. *)
Lemma prepareResult_for claim rsd rds0 rds mounted before r n n' edits :
  let a := allocatable (ds (nd_plugin n)) in
  let vfio := isVfioDevice (alloc_at a (ResultDevice r)) in
  let mount := vfio && negb (bool_decide (kubevirtMetadataRequestName r ∈ mounted)) in
  loop_state a rds0 before mounted rds ->
  nd_on_sys (cdi_store:=cdi_store) (cp_store:=cp_store) (
    if vfio then vfioContainerEdits (alloc_at a (ResultDevice r))
                   (if mount then kubevirtMetadataMounts (cfg_metadata cfg) claim (kubevirtMetadataRequestName r) else [])
    else applyConfig a (ResultDevice r) rsd) n = (n', Ok edits) ->
  device_for cfg a claim rsd rds0 before r
    {| RequestNames := [Request r]; PoolName := Pool r; DeviceName := ResultDevice r;
       CdiDeviceIds := GetClaimDevices (cfg_cdi cfg) (UID claim) [ResultDevice r] (negb vfio);
       Edits := if vfio then edits
                else {| e_DeviceNodes := (e_DeviceNodes edits ++ rds)%list;
                        e_Mounts := e_Mounts edits; e_Hooks := e_Hooks edits |} |}.
Proof using Type.
  intros a vfio mount [Hm Hrds] H. unfold nd_on_sys in H. minv.
  unfold device_for. cbv zeta. fold vfio. split_and!; [done..|]. destruct vfio eqn:Hv.
  - match goal with H : vfioContainerEdits _ _ _ = _ |- _ => apply vfioContainerEdits_Ok in H as (g & Hg & ->) end.
    exists g. split_and!; [done|done|]. simpl. f_equal.
    rewrite <- (existsb_false_mounted mounted (kubevirtMetadataRequestName r) _ (Hm _)).
    subst mount. simpl. by destruct (bool_decide _).
  - match goal with H : applyConfig _ _ _ _ = _ |- _ => apply applyConfig_Ok in H as (d & Hd & Hn & -> & _) end.
    unfold alloc_at. rewrite Hd. simpl. split_and!; done.
Qed.

Lemma prepareResults_for claim rsd rds0 rs : forall rds mounted before n n' pds,
  loop_state (allocatable (ds (nd_plugin n))) rds0 before mounted rds ->
  prepareResults (cdi_store:=cdi_store) (cp_store:=cp_store) cfg claim rsd rds mounted rs n = (n', Ok pds) ->
  length pds = length rs /\
  forall l1 r l2, rs = (l1 ++ r :: l2)%list -> exists pd, pds !! length l1 = Some pd /\
    device_for cfg (allocatable (ds (nd_plugin n))) claim rsd rds0 (before ++ l1) r pd.
Proof using Type.
  induction rs as [|r rs IH]; intros rds mounted before n n' pds Hst H; cbn [prepareResults] in H.
  - minv. split; [done|]. intros l1 r l2 E. by destruct l1.
  - unfold nd_state in H. rewrite bind_gets in H. cbv zeta in H.
    apply bind_Ok in H as (n1 & edits & Hed & H). apply bind_Ok in H as (n2 & more & Hmore & H). minv.
    assert (ds (nd_plugin n1) = ds (nd_plugin n)) as Hds.
    { unfold nd_on_sys in Hed. minv. done. }
    pose proof (prepareResult_for _ _ _ _ _ _ _ _ _ _ Hst Hed) as Hfor.
    pose proof (loop_state_step _ _ _ _ _ r Hst) as Hst'.
    eapply IH in Hmore as [Hlen Hall]; [|rewrite Hds; exact Hst']. split; [simpl; by rewrite Hlen|].
    intros l1 r0 l2 E. destruct l1 as [|x l1]; simpl in E; injection E as -> E.
    + eexists. split; [reflexivity|]. rewrite app_nil_r. exact Hfor.
    + destruct (Hall l1 r0 l2 E) as (pd & Hpd & Hf). exists pd. split; [exact Hpd|].
      rewrite Hds in Hf. by rewrite <- app_assoc in Hf.
Qed.

Context (rsdGroupFn : list string -> M Sys string) {Hrsd : forall ids, Respects sys_le (rsdGroupFn ids)}.

#[export] Instance prepareRSD_frame ids :
  Respects (prep_frame (cfg_cdi cfg)) (prepareRSD (cp_store:=cp_store) cfg rsdGroupFn ids).
Proof using Hrsd. unfold prepareRSD, wrapped. solve_respects. Qed.
#[export] Instance prepareDevices_frame claim :
  Respects (prep_frame (cfg_cdi cfg)) (prepareDevices (cp_store:=cp_store) cfg rsdGroupFn claim).
Proof using Hrsd.
  unfold prepareDevices, nd_state. destruct (Allocation claim) as [rs|]; [|apply _]. solve_respects.
Qed.
(** The host's spec file is read once, and a failure counts as no nodes. *)
Lemma getRDSDeviceNodes_observed h s s' r :
  getRDSDeviceNodes h s = (s', r) ->
  observed s s' (fun v => match r with Ok l => l | Err _ => [] end = rds_nodes (v_read v (Join [cdi_root h; rblnRDSSpecFile]))).
Proof using Type.
  unfold getRDSDeviceNodes, os_ReadFile. intros H. apply bind_try in H as (s1 & r0 & Hr & H).
  assert (s' = s1 /\ match r with Ok l => l | Err _ => [] end =
    rds_nodes (match r0 with Ok d => inr d | Err _ => inl ENOENT end)) as [-> ->].
  { destruct r0 as [data|e]; cbn [rds_nodes].
    - unfold of_res in H. destruct (ParseSpec data) as [[sp|]|e]; msplit; try done;
        repeat case_bool_decide; try done; by destruct (List.find _ _).
    - by msplit. }
  eapply observed_mono; [|by eapply os_call_observed]. cbv beta. intros v <-.
  by destruct (v_read v _).
Qed.
Lemma prepareRSD_Ok ids n n' rsd rds :
  prepareRSD (cp_store:=cp_store) cfg rsdGroupFn ids n = (n', Ok (rsd, rds)) -> ids <> [] ->
  rsd <> "" /\ (exists s1 s2, later (sys (nd_plugin n)) s1 /\ later s2 (sys (nd_plugin n')) /\
    rsdGroupFn ids s1 = (s2, Ok rsd)) /\
  observed (sys (nd_plugin n)) (sys (nd_plugin n'))
    (fun v => rds = rds_nodes (v_read v (Join [cdi_root (cfg_cdi cfg); rblnRDSSpecFile]))).
Proof using Hrsd.
  unfold prepareRSD. intros H Hids. rewrite bool_decide_false in H by done.
  apply bind_Ok in H as (n1 & [] & H1 & H).
  pose proof (respects_run (prep_frame (cfg_cdi cfg)) _ _ _ _ (wrap_err_respects _ _ _ _) H1) as (_ & Hl1 & _).
  apply bind_Ok in H as (n2 & path & H2 & H). case_bool_decide as Hp; [by minv|].
  apply bind_Ok in H as (n3 & [] & H3 & H). apply bind_try in H as (n4 & r4 & H4 & H).
  assert (later (sys (nd_plugin n1)) (sys (nd_plugin n2)) /\ exists s1, rsdGroupFn ids (sys (nd_plugin n1)) = (s1, Ok path) /\
    sys (nd_plugin n2) = s1) as (Hl2 & s2 & Hg & Hs2).
  { unfold wrapped, nd_on_sys in H2. minv. split; [|by eexists].
    match goal with H : rsdGroupFn _ _ = _ |- _ => apply (respects_run sys_le) in H as (? & _); [done|apply Hrsd] end. }
  pose proof (respects_run (prep_frame (cfg_cdi cfg)) _ _ _ _ (nd_on_sys_frame _ _) H3) as (_ & Hl3 & _).
  assert (Respects (prep_frame (cfg_cdi cfg)) (match r4 with
    | Ok rdsNodes => ret (path, rdsNodes)
    | Err _ => do! nd_on_sys (cdi_store:=cdi_store) (cp_store:=cp_store)
        (log LWarn "Reading RDS CDI spec failed, continuing without RDS") in ret (path, [])
    end)) as Hf by (destruct r4; solve_respects).
  pose proof (respects_run _ _ _ _ _ Hf H) as (_ & Hl5 & _).
  assert (rsd = path /\ rds = match r4 with Ok l => l | Err _ => [] end) as [-> ->].
  { unfold nd_on_sys in H. destruct r4; by minv. }
  unfold nd_on_sys in H4. minv.
  match goal with H : getRDSDeviceNodes _ _ = _ |- _ => apply getRDSDeviceNodes_observed in H as Ho;
    apply (respects_run sys_le) in H as (Hl4 & _); [|apply _] end.
  unfold later in *. simpl in *. split_and!; [done| |].
  - do 2 eexists. split_and!; [| |exact Hg]; lia.
  - eapply observed_widen; [..|exact Ho]; unfold later; lia.
Qed.
End prepare_lemmas.
