(* ===== verification/PrepareRuns.v ===== *)
(** The outcomes of Prepare and Unprepare, one constructor per way the code can
    end, and the frames of their steps. *)
From S2P Require Import Prelude GoStd Host PciSysfs Device Sriov Vfio Validate RsdGroup Claim Fs.
From S2P Require Import Metadata MetadataProps Cdi Checkpoint Discovery Inventory Scan Prepare.
From S2P Require Import PrepareProps.
Open Scope string_scope.

Section runs.
Context {hst : Host} {flt : Faults} {menv : MetadataEnv} {lib : CdiLib} {codec : CheckpointCodec}
  {cdi_store cp_store : Type} `{!CdiCache cdi_store, !CheckpointManager cp_store}
  (cfg : Config) (rsdGroupFn : list string -> M Sys string)
  {Hrsd : forall ids, Respects sys_le (rsdGroupFn ids)}.
Implicit Types n : Node cdi_store cp_store.
Abbreviation base := (cfg_metadata cfg).

(** The checkpoint was read; only the store may have moved, not its contents. *)
Record after_read n n0 (cp : Checkpoint) (m : PreparedClaims) : Prop := {
  ar_plugin : nd_plugin n0 = nd_plugin n;
  ar_meta : nd_meta n0 = nd_meta n;
  ar_cdi : nd_cdi n0 = nd_cdi n;
  ar_blobs : blobs (nd_cp n0) = blobs (nd_cp n);
  ar_claims : prepared_in (nd_cp n) = Some m;
  ar_v1 : V1 cp = Some {| cv_PreparedClaims := m |};
}.

(** Everything but the clock and the log is as before. *)
Record untouched n n' : Prop := {
  un_ds : ds (nd_plugin n') = ds (nd_plugin n);
  un_time : later (sys (nd_plugin n)) (sys (nd_plugin n'));
  un_meta : nd_meta n' = nd_meta n;
  un_cdi : nd_cdi n' = nd_cdi n;
  un_blobs : blobs (nd_cp n') = blobs (nd_cp n);
}.

(** The metadata step of Prepare, without its rollback. *)
Definition meta_phase (claim : ResourceClaim) n : Node cdi_store cp_store * res unit :=
  if claimHasVfioDevice (allocatable (ds (nd_plugin n))) claim
  then nd_on_meta (writeKubeVirtMetadata base claim (allocatable (ds (nd_plugin n)))) n
  else (n, Ok tt).

(** The claim is not recorded as prepared. *)
Definition unrecorded (m : PreparedClaims) (uid : string) : Prop := default [] (m !! uid) = [].

(** Why the recorded claims could not be read. *)
Definition read_error (e : err) : Prop :=
  (exists e0, e = ErrWrap "unable to sync from checkpoint: " e0 "") \/ e = nil_dereference.

Inductive prepare_outcome (claim : ResourceClaim) n
    : Node cdi_store cp_store -> res (list (list string * string * string * list string)) -> Prop :=
  | po_unread n' e : untouched n n' -> read_error e -> prepare_outcome claim n n' (Err e)
  | po_replay n' m x l :
      untouched n n' -> prepared_in (nd_cp n) = Some m -> m !! UID claim = Some (x :: l) ->
      prepare_outcome claim n n' (Ok (GetDevices (x :: l)))
  | po_devices n0 cp m n' e :
      after_read n n0 cp m -> unrecorded m (UID claim) ->
      prepareDevices cfg rsdGroupFn claim n0 = (n', Err e) ->
      prepare_outcome claim n n' (Err (ErrWrap "prepare failed: " e ""))
  | po_metadata n0 cp m n1 pds n2 n' e :
      after_read n n0 cp m -> unrecorded m (UID claim) ->
      prepareDevices cfg rsdGroupFn claim n0 = (n1, Ok pds) ->
      meta_phase claim n1 = (n2, Err e) ->
      rollbackKubeVirtMetadata cfg (UID claim) n2 = (n', Ok tt) ->
      prepare_outcome claim n n' (Err (ErrWrap "unable to write KubeVirt device metadata: " e ""))
  | po_spec n0 cp m n1 pds n2 n3 n' e :
      after_read n n0 cp m -> unrecorded m (UID claim) ->
      prepareDevices cfg rsdGroupFn claim n0 = (n1, Ok pds) ->
      meta_phase claim n1 = (n2, Ok tt) ->
      nd_on_cdi (CreateClaimSpecFile (cfg_cdi cfg) (UID claim) pds) n2 = (n3, Err e) ->
      rollbackKubeVirtMetadata cfg (UID claim) n3 = (n', Ok tt) ->
      prepare_outcome claim n n' (Err (ErrWrap "unable to create CDI spec file for claim: " e ""))
  | po_checkpoint n0 cp m n1 pds n2 n3 n4 n' e :
      after_read n n0 cp m -> unrecorded m (UID claim) ->
      prepareDevices cfg rsdGroupFn claim n0 = (n1, Ok pds) ->
      meta_phase claim n1 = (n2, Ok tt) ->
      nd_on_cdi (CreateClaimSpecFile (cfg_cdi cfg) (UID claim) pds) n2 = (n3, Ok tt) ->
      nd_on_cp (CreateCheckpoint DriverPluginCheckpointFile (with_claims cp (<[UID claim := pds]> m))) n3 = (n4, Err e) ->
      rollbackKubeVirtMetadata cfg (UID claim) n4 = (n', Ok tt) ->
      prepare_outcome claim n n' (Err (ErrWrap "unable to sync to checkpoint: " e ""))
  | po_done n0 cp m n1 pds n2 n3 n' :
      after_read n n0 cp m -> unrecorded m (UID claim) ->
      prepareDevices cfg rsdGroupFn claim n0 = (n1, Ok pds) ->
      meta_phase claim n1 = (n2, Ok tt) ->
      nd_on_cdi (CreateClaimSpecFile (cfg_cdi cfg) (UID claim) pds) n2 = (n3, Ok tt) ->
      nd_on_cp (CreateCheckpoint DriverPluginCheckpointFile (with_claims cp (<[UID claim := pds]> m))) n3 = (n', Ok tt) ->
      prepare_outcome claim n n' (Ok (GetDevices pds)).

Lemma nd_on_cp_run {A} (m : M cp_store A) n n' r :
  nd_on_cp (cdi_store:=cdi_store) m n = (n', r) ->
  exists k, m (nd_cp n) = (k, r) /\
    n' = {| nd_plugin := nd_plugin n; nd_meta := nd_meta n; nd_cdi := nd_cdi n; nd_cp := k |}.
Proof using Type. unfold nd_on_cp, zoom. destruct (m _) as [k r0]. intros [= <- <-]. eauto. Qed.
Lemma nd_on_meta_run {A} (m : M FsState A) n n' r :
  nd_on_meta (cdi_store:=cdi_store) (cp_store:=cp_store) m n = (n', r) ->
  exists k, m (nd_meta n) = (k, r) /\
    n' = {| nd_plugin := nd_plugin n; nd_meta := k; nd_cdi := nd_cdi n; nd_cp := nd_cp n |}.
Proof using Type. unfold nd_on_meta, zoom. destruct (m _) as [k r0]. intros [= <- <-]. eauto. Qed.
Lemma nd_log_run l t n n' r :
  nd_on_sys (cdi_store:=cdi_store) (cp_store:=cp_store) (log l t) n = (n', r) ->
  r = Ok tt /\ untouched n n'.
Proof using Type. unfold nd_on_sys, log. intros H. minv. split; [done|]. split; try done. unfold later. simpl. lia. Qed.

Lemma rollback_run uid n n' r :
  rollbackKubeVirtMetadata (cdi_store:=cdi_store) (cp_store:=cp_store) cfg uid n = (n', r) ->
  r = Ok tt /\ ds (nd_plugin n') = ds (nd_plugin n) /\ nd_cdi n' = nd_cdi n /\ nd_cp n' = nd_cp n /\
  exists rr, removeKubeVirtMetadataForClaim base uid (nd_meta n) = (nd_meta n', rr).
Proof using Type.
  unfold rollbackKubeVirtMetadata. intros H. apply bind_try in H as (n1 & rr & H1 & H).
  apply nd_on_meta_run in H1 as (k & Hk & ->).
  destruct rr; [minv; simpl in *; eauto 10|]. unfold nd_on_sys, log in H. minv. simpl. eauto 10.
Qed.

Lemma or_rollback_run {A} uid text (m : M (Node cdi_store cp_store) A) n n' r :
  or_rollback cfg uid text m n = (n', r) ->
  (exists a, r = Ok a /\ m n = (n', Ok a)) \/
  (exists e n1, r = Err (ErrWrap text e "") /\ m n = (n1, Err e) /\
                rollbackKubeVirtMetadata cfg uid n1 = (n', Ok tt)).
Proof using Type.
  unfold or_rollback. intros H. apply bind_try in H as (n1 & [a|e] & H1 & H); [minv; eauto|].
  right. apply bind_run in H as [(n2 & [] & Hr & H)|(e' & Hr & ->)].
  - minv. eauto.
  - by apply rollback_run in Hr as [? _].
Qed.

Lemma wrapped_run {A} text (m : M (Node cdi_store cp_store) A) n n' r :
  wrapped text m n = (n', r) ->
  (exists a, r = Ok a /\ m n = (n', Ok a)) \/ (exists e, r = Err (ErrWrap text e "") /\ m n = (n', Err e)).
Proof using Type. unfold wrapped, wrap_err. destruct (m n) as [? [a|e]]; intros [= <- <-]; eauto. Qed.

Lemma read_checkpoint_run n n' r :
  (let! checkpoint := wrapped "unable to sync from checkpoint: "
                       (nd_on_cp (cdi_store:=cdi_store) (GetCheckpoint DriverPluginCheckpointFile newCheckpoint)) in
   let! preparedClaims := preparedClaims_of checkpoint in ret (checkpoint, preparedClaims)) n = (n', r) ->
  match r with
  | Err e => untouched n n' /\ read_error e
  | Ok (cp, m) => after_read n n' cp m
  end.
Proof using Type.
  intros H. apply bind_run in H as [(n1 & cp & H1 & H)|(e & H1 & ->)];
    apply wrapped_run in H1 as [(a & Heq & H1)|(e' & Heq & H1)]; simplify_eq;
    apply nd_on_cp_run in H1 as (k & Hk & ->).
  - apply GetCheckpoint_prepared in Hk as [Hb Hp].
    unfold preparedClaims_of in H. destruct (V1 a) as [[m]|] eqn:Ev; minv; [split; done|].
    split; [split; done|by right].
  - pose proof (GetCheckpoint_frame DriverPluginCheckpointFile newCheckpoint (nd_cp n)) as Hf. rewrite Hk in Hf.
    split; [split; done|left; by eexists].
Qed.
(** Split off the common beginning of Prepare and Unprepare. *)
Lemma read_then {B} (k : Checkpoint -> PreparedClaims -> M (Node cdi_store cp_store) B) n n' r :
  (let! checkpoint := wrapped "unable to sync from checkpoint: "
                       (nd_on_cp (GetCheckpoint DriverPluginCheckpointFile newCheckpoint)) in
   let! preparedClaims := preparedClaims_of checkpoint in k checkpoint preparedClaims) n = (n', r) ->
  (exists e, r = Err e /\ untouched n n' /\ read_error e) \/
  (exists n0 cp m, after_read n n0 cp m /\ k cp m n0 = (n', r)).
Proof using Type.
  intros H.
  destruct ((let! checkpoint := wrapped "unable to sync from checkpoint: "
                       (nd_on_cp (cdi_store:=cdi_store) (GetCheckpoint DriverPluginCheckpointFile newCheckpoint)) in
   let! preparedClaims := preparedClaims_of checkpoint in ret (checkpoint, preparedClaims)) n) as [n0 rr] eqn:E.
  pose proof (read_checkpoint_run _ _ _ E) as Hr. unfold bind, ret in *.
  destruct (wrapped _ _ n) as [n1 [cp|e]]; [|simplify_eq; left; eauto].
  destruct (preparedClaims_of cp n1) as [n2 [m|e]]; simplify_eq; [right; eauto 10|left; eauto].
Qed.

Lemma meta_phase_eq claim n :
  (if claimHasVfioDevice (allocatable (ds (nd_plugin n))) claim
   then nd_on_meta (writeKubeVirtMetadata base claim (allocatable (ds (nd_plugin n)))) n
   else (n, Ok tt)) = meta_phase claim n.
Proof using Type. done. Qed.

Lemma meta_step_run claim d n n' r :
  d = ds (nd_plugin n) ->
  (if claimHasVfioDevice (allocatable d) claim
   then or_rollback cfg (UID claim) "unable to write KubeVirt device metadata: "
          (nd_on_meta (cdi_store:=cdi_store) (cp_store:=cp_store) (writeKubeVirtMetadata base claim (allocatable d)))
   else ret tt) n = (n', r) ->
  (r = Ok tt /\ meta_phase claim n = (n', Ok tt)) \/
  (exists e n1, r = Err (ErrWrap "unable to write KubeVirt device metadata: " e "") /\
     meta_phase claim n = (n1, Err e) /\ rollbackKubeVirtMetadata cfg (UID claim) n1 = (n', Ok tt)).
Proof using Type.
  intros ->. unfold meta_phase. destruct (claimHasVfioDevice _ _).
  - intros [([] & -> & H)|(e & n1 & -> & H & Hr)]%or_rollback_run; [by left|right; eauto].
  - intros [= <- <-]. by left.
Qed.

Lemma meta_phase_keeps claim n n' r :
  meta_phase claim n = (n', r) ->
  nd_plugin n' = nd_plugin n /\ nd_cdi n' = nd_cdi n /\ nd_cp n' = nd_cp n.
Proof using Type.
  unfold meta_phase. case_match; [|by intros [= <- <-]].
  intros (k & _ & ->)%nd_on_meta_run. done.
Qed.

Lemma Prepare_run claim n n' r :
  Prepare cfg rsdGroupFn claim n = (n', r) -> prepare_outcome claim n n' r.
Proof using Type.
  unfold Prepare. intros [(e & -> & H & Hre)|(n0 & cp & m & Hread & H)]%read_then; [by apply po_unread|].
  destruct (m !! UID claim) as [[|x l]|] eqn:Em.
  2: { apply bind_run in H as [(n1 & [] & Hl & H)|(e & Hl & ->)]; apply nd_log_run in Hl as [? Hl]; [minv|done].
       destruct Hl as [? ? ? ? ?], Hread as [Hp ? ? ? ?].
       eapply po_replay; [|eassumption|eassumption]. rewrite Hp in *. split; congruence. }
  all: assert (unrecorded m (UID claim)) as Hun by (unfold unrecorded; by rewrite Em).
  all: apply bind_run in H as [(n1 & pds & H1 & H)|(e & H1 & ->)];
    apply wrapped_run in H1 as [(pds' & Heq & H1)|(e' & Heq & H1)]; simplify_eq; [|by eapply po_devices].
  all: unfold nd_state in H; rewrite bind_gets in H.
  all: apply bind_run in H as [(n2 & [] & H2 & H)|(e & H2 & ->)]; apply meta_step_run in H2 as [[Heq H2]|(e' & n3 & Heq & H2 & Hr)];
    try done; simplify_eq; [|by eapply po_metadata].
  all: apply bind_run in H as [(n3 & [] & H3 & H)|(e & H3 & ->)]; apply or_rollback_run in H3 as [([] & Heq & H3)|(e' & n4 & Heq & H3 & Hr)];
    simplify_eq; [|by eapply po_spec].
  all: apply bind_run in H as [(n4 & [] & H4 & H)|(e & H4 & ->)]; apply or_rollback_run in H4 as [([] & Heq & H4)|(e' & n5 & Heq & H4 & Hr)];
    simplify_eq; [|by eapply po_checkpoint].
  all: minv; by eapply po_done.
Qed.

(** ** Unprepare *)

Inductive unprepare_outcome (uid : string) n : Node cdi_store cp_store -> res unit -> Prop :=
  | uo_unread n' e : untouched n n' -> read_error e -> unprepare_outcome uid n n' (Err e)
  | uo_unknown n' m :
      untouched n n' -> prepared_in (nd_cp n) = Some m -> unrecorded m uid -> unprepare_outcome uid n n' (Ok tt)
  | uo_spec n0 cp m n' e :
      after_read n n0 cp m -> ~ unrecorded m uid ->
      nd_on_cdi (DeleteClaimSpecFile (cfg_cdi cfg) uid) n0 = (n', Err e) -> unprepare_outcome uid n n'
        (Err (ErrWrap "unable to delete CDI spec file for claim: " e ""))
  | uo_metadata n0 cp m n1 n' e :
      after_read n n0 cp m -> ~ unrecorded m uid ->
      nd_on_cdi (DeleteClaimSpecFile (cfg_cdi cfg) uid) n0 = (n1, Ok tt) ->
      nd_on_meta (removeKubeVirtMetadataForClaim base uid) n1 = (n', Err e) -> unprepare_outcome uid n n'
        (Err (ErrWrap "unable to remove KubeVirt device metadata: " e ""))
  | uo_checkpoint n0 cp m n1 n2 n' e :
      after_read n n0 cp m -> ~ unrecorded m uid ->
      nd_on_cdi (DeleteClaimSpecFile (cfg_cdi cfg) uid) n0 = (n1, Ok tt) ->
      nd_on_meta (removeKubeVirtMetadataForClaim base uid) n1 = (n2, Ok tt) ->
      nd_on_cp (CreateCheckpoint DriverPluginCheckpointFile (with_claims cp (delete uid m))) n2 = (n', Err e) ->
      unprepare_outcome uid n n' (Err (ErrWrap "unable to sync to checkpoint: " e ""))
  | uo_done n0 cp m n1 n2 n3 n' :
      after_read n n0 cp m -> ~ unrecorded m uid ->
      nd_on_cdi (DeleteClaimSpecFile (cfg_cdi cfg) uid) n0 = (n1, Ok tt) ->
      nd_on_meta (removeKubeVirtMetadataForClaim base uid) n1 = (n2, Ok tt) ->
      nd_on_cp (CreateCheckpoint DriverPluginCheckpointFile (with_claims cp (delete uid m))) n2 = (n3, Ok tt) ->
      untouched n3 n' -> unprepare_outcome uid n n' (Ok tt).

Lemma Unprepare_run uid n n' r : Unprepare cfg uid n = (n', r) -> unprepare_outcome uid n n' r.
Proof using Type.
  unfold Unprepare. intros [(e & -> & H & Hre)|(n0 & cp & m & Hread & H)]%read_then; [by apply uo_unread|].
  destruct (m !! uid) as [[|x l]|] eqn:Em.
  1, 3: apply nd_log_run in H as [-> [? ? ? ? ?]]; destruct Hread as [Hp ? ? ? ? ?];
    eapply uo_unknown; [rewrite Hp in *; split; congruence|eassumption|unfold unrecorded; by rewrite Em].
  assert (~ unrecorded m uid) as Hrec by (unfold unrecorded; by rewrite Em).
  unfold unprepareDevices in H.
  apply bind_run in H as [(n1 & [] & H1 & H)|(e & H1 & ->)]; [|by apply wrapped_run in H1 as [(? & ? & ?)|(? & ? & ?)]; minv].
  apply wrapped_run in H1 as [([] & _ & H1)|(? & [=] & _)]. apply ret_inv in H1 as [-> _].
  apply bind_run in H as [(n2 & [] & H2 & H)|(e & H2 & ->)];
    apply wrapped_run in H2 as [([] & Heq & H2)|(e' & Heq & H2)]; simplify_eq; [|by eapply uo_spec].
  apply bind_run in H as [(n3 & [] & H3 & H)|(e & H3 & ->)];
    apply wrapped_run in H3 as [([] & Heq & H3)|(e' & Heq & H3)]; simplify_eq; [|by eapply uo_metadata].
  apply bind_run in H as [(n4 & [] & H4 & H)|(e & H4 & ->)];
    apply wrapped_run in H4 as [([] & Heq & H4)|(e' & Heq & H4)]; simplify_eq; [|by eapply uo_checkpoint].
  apply nd_log_run in H as [-> H]. by eapply uo_done.
Qed.
End runs.
