(* ===== verification/Lifecycle.v ===== *)
(** What the devices of a claim's spec are, in terms of its allocation results,
    and the effects of prepareDevices and of the spec file calls. *)
From S2P Require Import Prelude GoStd Host PciSysfs Device Sriov Vfio Validate RsdGroup Claim Fs.
From S2P Require Import Metadata MetadataProps Cdi Checkpoint Discovery Inventory Scan Prepare.
From S2P Require Import PrepareProps PrepareRuns.
Open Scope string_scope.

Section lifecycle.
Context {hst : Host} {flt : Faults} {menv : MetadataEnv} {lib : CdiLib} {codec : CheckpointCodec}
  {cdi_store cp_store : Type} `{!CdiCache cdi_store, !CheckpointManager cp_store}
  (cfg : Config) (rsdGroupFn : list string -> M Sys string)
  {Hrsd : forall ids, Respects sys_le (rsdGroupFn ids)}.
Implicit Types n : Node cdi_store cp_store.

(** What a new spec of a claim holds, in the order of the results. *)
Definition spec_for (claim : ResourceClaim) (a : gmap string Device) (rsd : string) (rds : list DeviceNode)
    (sp : Spec) : Prop :=
  s_Kind sp = kind (cfg_cdi cfg) /\ length (s_Devices sp) = length (allocated_results claim) /\
  forall l1 r l2, allocated_results claim = (l1 ++ r :: l2)%list ->
    exists pd, device_for cfg a claim rsd rds l1 r pd /\
      s_Devices sp !! length l1 = Some {| cd_Name := UID claim +:+ "-" +:+ ResultDevice r; cd_Edits := Edits pd |}.

(** What the native devices of a claim share: the group that this call made for
    exactly their sorted addresses, and the nodes which the host's RDS spec
    file gave for its device "all" when this call read it. *)
Definition native_shared (ids : list string) (rsd : string) (rds : list DeviceNode) (s s' : Sys) : Prop :=
  rsd <> "" /\
  (exists s1 s2, later s s1 /\ later s2 s' /\ rsdGroupFn (SortStrings ids) s1 = (s2, Ok rsd)) /\
  observed s s' (fun v => rds = rds_nodes (v_read v (Join [cdi_root (cfg_cdi cfg); rblnRDSSpecFile]))).

(** An allocated device is published, on this node, and current. *)
Definition result_current (d : DeviceState) (s s' : Sys) (r : AllocResult) : Prop :=
  Pool r = nodeName d /\ exists dev bus, allocatable d !! ResultDevice r = Some dev /\
    devicePCIBusID dev = Ok bus /\ device_current (sysfsRoot d) bus dev s s'.

(** ** Lemmas *)

Lemma checkResults_run d rs n n' results :
  forM (fun r => nd_on_sys (cdi_store:=cdi_store) (cp_store:=cp_store) (checkResult d r)) rs n = (n', Ok results) ->
  results = rs /\ Forall (result_current d (sys (nd_plugin n)) (sys (nd_plugin n'))) rs.
Proof using CdiCache0 cfg lib.
  assert (forall x, Respects (prep_frame (cfg_cdi cfg)) (nd_on_sys (cdi_store:=cdi_store) (cp_store:=cp_store) (checkResult d x)))
    as Hf by (intros x; apply nd_on_sys_frame, _).
  intros H. apply (forM_trace (prep_frame (cfg_cdi cfg))) in H; [|done].
  assert (Forall2 (fun r y => y = r /\ result_current d (sys (nd_plugin n)) (sys (nd_plugin n')) r) rs results) as H2.
  { eapply Forall2_impl; [exact H|]. intros r y (n1 & n2 & (_ & Hl1 & _) & Hr & (_ & Hl2 & _)).
    unfold nd_on_sys, checkResult in Hr. minv.
    destruct (allocatable d !! ResultDevice r) as [dev|] eqn:Ed; [|by minv].
    match goal with H : (if bool_decide ?P then _ else _) _ = _ |- _ => destruct (decide P) as [Hp|Hp];
      [rewrite bool_decide_true in H by done; by minv|rewrite bool_decide_false in H by done] end.
    minv. split; [done|]. split; [by apply dec_stable|].
    match goal with H : validateAllocatedDevice _ _ _ = (_, Ok ?u) |- _ =>
      destruct u; apply validateAllocatedDevice_current in H as (bus & Hbus & Hc) end.
    exists dev, bus. split_and!; [done|done|]. eapply device_current_widen; [exact Hl1| |exact Hc]. exact Hl2. }
  split.
  - clear H. induction H2 as [|r y rs' ys [-> _] _ IH]; [done|]. f_equal. by apply IH.
  - apply Forall_forall. intros r Hr. apply list_elem_of_lookup in Hr as [i Hi].
    destruct (Forall2_lookup_l _ _ _ _ _ H2 Hi) as (y & _ & _ & ?). done.
Qed.

Lemma native_shared_widen ids rsd rds s s1 s2 s' :
  later s s1 -> later s2 s' -> native_shared ids rsd rds s1 s2 -> native_shared ids rsd rds s s'.
Proof using Type.
  intros H1 H2 (Hne & (t1 & t2 & Ht1 & Ht2 & Hg) & Ho). split; [done|]. split.
  - exists t1, t2. split_and!; [by etrans|by etrans|done].
  - by eapply observed_widen.
Qed.
Lemma prepareDevices_Ok claim n n' pds :
  prepareDevices cfg rsdGroupFn claim n = (n', Ok pds) ->
  let d := ds (nd_plugin n) in
  prep_frame (cfg_cdi cfg) n n' /\
  Forall (result_current d (sys (nd_plugin n)) (sys (nd_plugin n'))) (allocated_results claim) /\
  length pds = length (allocated_results claim) /\
  exists ids rsd rds,
    nativeBusIDs (allocatable d) (allocated_results claim) = Ok ids /\
    (ids <> [] -> native_shared ids rsd rds (sys (nd_plugin n)) (sys (nd_plugin n'))) /\
    forall l1 r l2, allocated_results claim = (l1 ++ r :: l2)%list ->
      exists pd, pds !! length l1 = Some pd /\ device_for cfg (allocatable d) claim rsd rds l1 r pd.
Proof using Hrsd.
  intros H d. pose proof (respects_run _ _ _ _ _ (prepareDevices_frame cfg rsdGroupFn claim) H) as Hframe.
  split; [exact Hframe|]. unfold prepareDevices, allocated_results in *. destruct (Allocation claim) as [all|]; [|minv].
  unfold nd_state in H. rewrite bind_gets in H. fold d in H.
  apply bind_Ok in H as (n1 & results & H1 & H). pose proof (checkResults_run _ _ _ _ _ H1) as [-> Hcur].
  assert (prep_frame (cfg_cdi cfg) n n1) as (Hds1 & Hl1 & _).
  { eapply (respects_run (prep_frame (cfg_cdi cfg))); [|exact H1]. apply forM_respects; [apply _|].
    intros x. apply nd_on_sys_frame, _. }
  apply bind_Ok in H as (n2 & ids & Hids & H). unfold of_res in Hids. injection Hids as <- Hids.
  apply bind_Ok in H as (n3 & [rsd rds] & H3 & H).
  pose proof (respects_run _ _ _ _ _ (prepareRSD_frame cfg rsdGroupFn (SortStrings ids)) H3) as (Hds3 & Hl3 & _).
  pose proof (respects_run _ _ _ _ _ (prepareResults_frame cfg claim rsd rds ∅ (ours all)) H) as (_ & Hl4 & _).
  pose proof (prepareResults_for cfg claim rsd rds (ours all) rds ∅ [] n3 n' pds) as Hpds.
  specialize (Hpds ltac:(split; [intros req; split; [set_solver|done]|done]) H).
  split_and!.
  - apply Forall_forall. rewrite Forall_forall in Hcur. intros r Hr. destruct (Hcur r Hr) as (? & dev & bus & ? & ? & Hc).
    split; [done|]. exists dev, bus. split_and!; [done|done|].
    eapply device_current_widen; [| |exact Hc]; unfold later in *; lia.
  - exact (proj1 Hpds).
  - exists ids, rsd, rds. split; [done|]. split.
    + intros Hne. eapply native_shared_widen;
        [| |exact (prepareRSD_Ok cfg rsdGroupFn (SortStrings ids) _ _ _ _ H3 ltac:(by rewrite SortStrings_nil))];
        unfold later in *; lia.
    + intros l1 r l2 E. destruct (proj2 Hpds l1 r l2 E) as (pd & Hpd & Hf). exists pd. split; [done|].
      simpl in Hf. unfold d. rewrite Hds3, Hds1 in Hf. exact Hf.
Qed.

(** The claim's own spec and nobody else's. *)
Lemma CreateClaimSpecFile_run uid pds n n' r :
  sep_free "/" uid ->
  nd_on_cdi (cp_store:=cp_store) (CreateClaimSpecFile (cfg_cdi cfg) uid pds) n = (n', r) ->
  ds (nd_plugin n') = ds (nd_plugin n) /\ nd_meta n' = nd_meta n /\ nd_cp n' = nd_cp n /\
  later (sys (nd_plugin n)) (sys (nd_plugin n')) /\
  (forall uid', sep_free "/" uid' -> uid' <> uid ->
     specs (nd_cdi n') !! claimSpecName (cfg_cdi cfg) uid' = specs (nd_cdi n) !! claimSpecName (cfg_cdi cfg) uid') /\
  (r = Ok tt -> exists v, specs (nd_cdi n') !! claimSpecName (cfg_cdi cfg) uid =
     Some {| s_Version := v; s_Kind := kind (cfg_cdi cfg); s_Devices := map (claimCDIDevice uid) pds |}).
Proof using Type.
  intros Huid. unfold nd_on_cdi, zoom, CreateClaimSpecFile, bind, wrap_err, of_res.
  destruct (MinimumRequiredVersion _) as [v|e]; simpl.
  2: { intros [= <- <-]. simpl. split_and!; try done; try (unfold later; simpl; lia). }
  unfold ci_on_cache, zoom. simpl. destruct (WriteSpec _ _ (nd_cdi n)) as [k [[]|e]] eqn:E; simpl; intros [= <- <-]; simpl.
  - split_and!; try done; try (unfold later; simpl; lia).
    + intros uid' Hu' Hne. erewrite <- (WriteSpec_frame _ (claimSpecName (cfg_cdi cfg) uid) (nd_cdi n)); [by rewrite E|].
      intros Heq. apply Hne. by eapply transient_name_inj.
    + intros _. exists v. by rewrite (WriteSpec_Ok _ _ _ _ E), lookup_insert_eq.
  - split_and!; try done; try (unfold later; simpl; lia).
    intros uid' Hu' Hne. erewrite <- (WriteSpec_frame _ (claimSpecName (cfg_cdi cfg) uid) (nd_cdi n)); [by rewrite E|].
    intros Heq. apply Hne. by eapply transient_name_inj.
Qed.

Lemma DeleteClaimSpecFile_run uid n n' r :
  sep_free "/" uid ->
  nd_on_cdi (cp_store:=cp_store) (DeleteClaimSpecFile (cfg_cdi cfg) uid) n = (n', r) ->
  ds (nd_plugin n') = ds (nd_plugin n) /\ nd_meta n' = nd_meta n /\ nd_cp n' = nd_cp n /\
  (forall uid', sep_free "/" uid' -> uid' <> uid ->
     specs (nd_cdi n') !! claimSpecName (cfg_cdi cfg) uid' = specs (nd_cdi n) !! claimSpecName (cfg_cdi cfg) uid') /\
  (r = Ok tt -> specs (nd_cdi n') !! claimSpecName (cfg_cdi cfg) uid = None).
Proof using Type.
  intros Huid. unfold nd_on_cdi, zoom, DeleteClaimSpecFile, bind, ci_on_cache, zoom. simpl.
  destruct (RemoveSpec _ (nd_cdi n)) as [k [[]|e]] eqn:E; simpl; intros [= <- <-]; simpl.
  - split_and!; try done; try (unfold later; simpl; lia).
    + intros uid' Hu' Hne. erewrite <- (RemoveSpec_frame (claimSpecName (cfg_cdi cfg) uid) (nd_cdi n)); [by rewrite E|].
      intros Heq. apply Hne. by eapply transient_name_inj.
    + intros _. by rewrite (RemoveSpec_Ok _ _ _ E), lookup_delete_eq.
  - split_and!; try done; try (unfold later; simpl; lia).
    intros uid' Hu' Hne. erewrite <- (RemoveSpec_frame (claimSpecName (cfg_cdi cfg) uid) (nd_cdi n)); [by rewrite E|].
    intros Heq. apply Hne. by eapply transient_name_inj.
Qed.
End lifecycle.
