(* ===== verification/LifecycleProps.v ===== *)
(** Claims end to end: what a kubelet can rely on when it prepares and unprepares
    claims, in any order and with any failure in between. *)
From S2P Require Import Prelude GoStd Host PciSysfs Device Sriov Vfio Validate RsdGroup Claim Fs.
From S2P Require Import Metadata MetadataProps Rollback Cdi Checkpoint Discovery Inventory Scan.
From S2P Require Import Prepare PrepareProps PrepareRuns Lifecycle.
Open Scope string_scope.

(** A claim's UID: an element of a path that is not the name of the common spec. *)
Definition claim_uid_ok (uid : string) : Prop := uid_ok uid /\ uid <> cdiCommonDeviceName.
#[export] Instance claim_uid_ok_dec uid : Decision (claim_uid_ok uid).
Proof. unfold claim_uid_ok. apply _. Defined.

Section isolation.
Context {flt : Faults} {menv : MetadataEnv} (base : list string) (Hbase : Forall plain_name base).

Lemma host_dir_eq (uid2 sub n : string) k :
  host_dir base uid2 `prefix_of` k -> (base ++ [sub; n])%list `prefix_of` k -> (base ++ [sub; n])%list = host_dir base uid2.
Proof using Type.
  intros H1 H2. unfold host_dir in *. destruct H1 as [r1 E1], H2 as [r2 E2]. rewrite E1, <- !app_assoc in E2.
  apply app_inv_head in E2. by simplify_eq/=.
Qed.

Lemma removal_isolated uid uid2 s s' r :
  names_plain (tree s) -> marker (tree s) (host_dir base uid2) <> Some uid ->
  removeKubeVirtMetadataForClaim (abs_path base) uid s = (s', r) ->
  forall k, host_dir base uid2 `prefix_of` k -> tree s' !! k = tree s !! k.
Proof using Hbase.
  intros Hn Hm [H _]%removeKubeVirtMetadataForClaim_run k Hk; [|done].
  destruct (H Hn k) as [?|(_ & dir & [(sub & n & _ & ->) Hmd] & Hp)]; [done|].
  erewrite host_dir_eq in Hmd by done. congruence.
Qed.

Lemma write_isolated claim allocatable uid2 s s' r :
  uid_ok (UID claim) -> requests_ok claim -> uid2 <> UID claim ->
  writeKubeVirtMetadata (abs_path base) claim allocatable s = (s', r) ->
  forall k, host_dir base uid2 `prefix_of` k -> tree s' !! k = tree s !! k.
Proof using Hbase.
  intros Hu Hr Hne H k Hk. apply writeKubeVirtMetadata_run in H as (Hw & _ & _); [|done..].
  destruct (Hw k) as [?|(_ & _ & Hp)]; [by eapply host_dir_distinct|done|].
  exfalso. assert (host_dir base uid2 `prefix_of` host_dir base (UID claim)) as Hpp by (by etrans).
  by eapply (host_dir_distinct base uid2 (UID claim)); [..|reflexivity|exact Hpp].
Qed.
End isolation.

Section claims.
Context {hst : Host} {flt : Faults} {menv : MetadataEnv} {lib : CdiLib} {codec : CheckpointCodec}
  {cdi_store cp_store : Type} `{!CdiCache cdi_store, !CheckpointManager cp_store}
  (cfg : Config) (rsdGroupFn : list string -> M Sys string)
  {Hrsd : forall ids, Respects sys_le (rsdGroupFn ids)}.
Implicit Types n : Node cdi_store cp_store.

(** ** Lemmas *)

Lemma nd_on_cdi_keeps {A} (m : M (CdiState cdi_store) A) n n' r :
  nd_on_cdi (cp_store:=cp_store) m n = (n', r) ->
  ds (nd_plugin n') = ds (nd_plugin n) /\ nd_meta n' = nd_meta n /\ nd_cp n' = nd_cp n.
Proof using Type. unfold nd_on_cdi, zoom. destruct (m _) as [c ?]. by intros [= <- <-]. Qed.
Lemma nd_on_cp_keeps {A} (m : M cp_store A) n n' r :
  nd_on_cp (cdi_store:=cdi_store) m n = (n', r) ->
  nd_plugin n' = nd_plugin n /\ nd_meta n' = nd_meta n /\ nd_cdi n' = nd_cdi n.
Proof using Type. intros (k & _ & ->)%nd_on_cp_run. done. Qed.
Lemma nd_on_meta_keeps {A} (m : M FsState A) n n' r :
  nd_on_meta (cdi_store:=cdi_store) (cp_store:=cp_store) m n = (n', r) ->
  nd_plugin n' = nd_plugin n /\ nd_cdi n' = nd_cdi n /\ nd_cp n' = nd_cp n.
Proof using Type. intros (k & _ & ->)%nd_on_meta_run. done. Qed.
Lemma prepareDevices_keeps claim n n' r :
  prepareDevices (cp_store:=cp_store) cfg rsdGroupFn claim n = (n', r) ->
  nd_meta n' = nd_meta n /\ nd_cp n' = nd_cp n /\ ds (nd_plugin n') = ds (nd_plugin n).
Proof using Hrsd.
  intros H. by pose proof (respects_run _ _ _ _ _ (prepareDevices_frame cfg rsdGroupFn claim) H) as (? & _ & ? & ? & _).
Qed.

Lemma create_prepared cp m n n' r :
  nd_on_cp (cdi_store:=cdi_store) (CreateCheckpoint DriverPluginCheckpointFile (with_claims cp m)) n = (n', r) ->
  match r with
  | Ok _ => prepared_in (nd_cp n') = Some m
  | Err _ => prepared_in (nd_cp n') = prepared_in (nd_cp n)
  end.
Proof using Type.
  intros (k & Hk & ->)%nd_on_cp_run. destruct r as [[]|e]; simpl.
  - exact (CreateCheckpoint_prepared (with_claims cp m) {| cv_PreparedClaims := m |} _ _ eq_refl Hk).
  - apply prepared_in_blobs. by eapply CreateCheckpoint_Err.
Qed.

(** What each phase of a call leaves alone. *)
Ltac phases := repeat match goal with
  | H : after_read _ _ _ _ |- _ => destruct H
  | H : prepareDevices _ _ _ _ = _ |- _ => apply prepareDevices_keeps in H as (? & ? & ?)
  | H : meta_phase _ _ _ = _ |- _ => apply meta_phase_keeps in H as (? & ? & ?)
  | H : nd_on_cdi _ _ = _ |- _ => apply nd_on_cdi_keeps in H as (? & ? & ?)
  | H : nd_on_meta _ _ = _ |- _ => apply nd_on_meta_keeps in H as (? & ? & ?)
  | H : nd_on_cp (CreateCheckpoint _ _) _ = _ |- _ =>
      pose proof (nd_on_cp_keeps _ _ _ _ H) as (? & ? & ?); apply create_prepared in H
  | H : rollbackKubeVirtMetadata _ _ _ = _ |- _ => apply rollback_run in H as (_ & ? & ? & ? & _)
  | H : untouched _ _ |- _ => destruct H
  end.

(** The end of a call that records nothing. *)
Ltac same_records := phases;
  repeat match goal with H : nd_cp ?a = nd_cp _ |- _ => rewrite H in * end;
  repeat match goal with H : blobs (nd_cp ?a) = blobs (nd_cp ?b) |- _ => apply prepared_in_blobs in H end;
  congruence.

(** No call touches the inventory. *)
Lemma Prepare_ds claim n n' r :
  Prepare cfg rsdGroupFn claim n = (n', r) -> ds (nd_plugin n') = ds (nd_plugin n).
Proof using Hrsd. intros []%Prepare_run; phases; congruence. Qed.
Lemma Unprepare_ds uid n n' r : Unprepare cfg uid n = (n', r) -> ds (nd_plugin n') = ds (nd_plugin n).
Proof using Type. intros []%Unprepare_run; phases; congruence. Qed.

Lemma prepared_eq n0 n : blobs (nd_cp n0) = blobs (nd_cp n) -> prepared_in (nd_cp n0) = prepared_in (nd_cp n).
Proof using Type. apply prepared_in_blobs. Qed.

(** A recorded claim is answered from the checkpoint. *)
Lemma Prepare_replay (cfg' : Config) (rsdGroupFn' : list string -> M Sys string) claim n k cp m x l :
  GetCheckpoint DriverPluginCheckpointFile newCheckpoint (nd_cp n) = (k, Ok cp) ->
  prepared_in (nd_cp n) = Some m -> m !! UID claim = Some (x :: l) ->
  exists n', Prepare cfg' rsdGroupFn' claim n = (n', Ok (GetDevices (x :: l))) /\ untouched n n'.
Proof using Type.
  intros Hk Hp Hm. pose proof (GetCheckpoint_prepared _ _ _ Hk) as [Hb Hv]. rewrite Hp in Hv.
  destruct (V1 cp) as [[m']|] eqn:Ev; simplify_eq/=.
  unfold Prepare, wrapped, wrap_err, bind at 1, nd_on_cp, zoom. rewrite Hk. unfold preparedClaims_of. rewrite Ev.
  unfold bind at 1, ret. simpl. rewrite Hm. eexists. split; [reflexivity|]. split; try done. unfold later. simpl. lia.
Qed.

(** ** The checkpoint *)

Lemma Prepare_checkpoint_run claim n n' r :
  Prepare cfg rsdGroupFn claim n = (n', r) ->
  match r with
  | Err _ => prepared_in (nd_cp n') = prepared_in (nd_cp n)
  | Ok devices => exists m pds, prepared_in (nd_cp n) = Some m /\
      prepared_in (nd_cp n') = Some (<[UID claim := pds]> m) /\ devices = GetDevices pds /\
      (unrecorded m (UID claim) \/ m !! UID claim = Some pds)
  end.
Proof using Hrsd.
  intros []%Prepare_run; phases; try (erewrite <- (prepared_eq _ n) by eassumption; congruence).
  - exists m, (x :: l). rewrite insert_id by done. split_and!; [done| |done|by right].
    by erewrite prepared_eq by eassumption.
  - exists m, pds. split_and!; [done|done|done|by left].
Qed.

(** C2: The checkpoint is a transaction: a Prepare that returns an error,
    at whatever step, leaves the prepared claims as they were; one that returns
    devices has recorded exactly them for its claim (or found them recorded)
    and has left every other claim alone. *)
Theorem Prepare_checkpoint claim n n' r :
  Prepare cfg rsdGroupFn claim n = (n', r) ->
  match r with
  | Err _ => prepared_in (nd_cp n') = prepared_in (nd_cp n)
  | Ok devices => exists m pds, prepared_in (nd_cp n) = Some m /\
      prepared_in (nd_cp n') = Some (<[UID claim := pds]> m) /\ devices = GetDevices pds /\
      (unrecorded m (UID claim) \/ m !! UID claim = Some pds)
  end.
Proof using Hrsd. apply Prepare_checkpoint_run. Qed.

(** C3: Preparing a claim twice gives the same devices and changes nothing:
    after a successful Prepare, any later Prepare of the same UID returns them
    as soon as the checkpoint is still the same and can be read, in a restarted
    driver with another configuration, other devices and another group
    function too, and writes no spec, no metadata and no checkpoint. *)
Theorem Prepare_idempotent claim n n1 devices (cfg' : Config) (rsdGroupFn' : list string -> M Sys string) claim' n2 k cp :
  Prepare cfg rsdGroupFn claim n = (n1, Ok devices) -> devices <> [] ->
  prepared_in (nd_cp n2) = prepared_in (nd_cp n1) -> UID claim' = UID claim ->
  GetCheckpoint DriverPluginCheckpointFile newCheckpoint (nd_cp n2) = (k, Ok cp) ->
  exists n3, Prepare cfg' rsdGroupFn' claim' n2 = (n3, Ok devices) /\ untouched n2 n3.
Proof using Hrsd.
  intros H Hne Heq Hu Hk.
  assert (exists m pds, prepared_in (nd_cp n1) = Some m /\ m !! UID claim = Some pds /\ devices = GetDevices pds)
    as (m & pds & Hm & Hl & ->).
  { apply Prepare_run in H. remember (Ok devices) as r eqn:Er. destruct H; phases; simplify_eq.
    - exists m, (x :: l). split_and!; [|done|done]. by erewrite prepared_eq by eassumption.
    - eexists _, pds. split; [eassumption|]. by rewrite lookup_insert_eq. }
  destruct pds as [|x l]; [done|]. rewrite Hm in Heq. rewrite <- Hu in Hl. by eapply Prepare_replay.
Qed.
(** The records of other claims, whatever the name of this one. *)
Lemma Unprepare_other_records uid uid2 n n' r :
  uid2 <> uid -> Unprepare cfg uid n = (n', r) ->
  (prepared_in (nd_cp n') ≫= lookup uid2) = (prepared_in (nd_cp n) ≫= lookup uid2).
Proof using Type.
  intros Hne []%Unprepare_run; try same_records. phases.
  match goal with H : prepared_in (nd_cp n) = _ |- _ => rewrite H end.
  erewrite prepared_in_blobs by eassumption.
  match goal with H : prepared_in (nd_cp n3) = _ |- _ => rewrite H end. simpl. by rewrite lookup_delete_ne.
Qed.

Lemma Unprepare_complete_run uid n n' r :
  sep_free "/" uid -> Unprepare cfg uid n = (n', r) ->
  match r with
  | Err _ => prepared_in (nd_cp n') = prepared_in (nd_cp n)
  | Ok _ => exists m m', prepared_in (nd_cp n) = Some m /\ prepared_in (nd_cp n') = Some m' /\
      unrecorded m' uid /\ (forall uid2, uid2 <> uid -> m' !! uid2 = m !! uid2) /\
      (unrecorded m uid -> untouched n n') /\
      (~ unrecorded m uid -> specs (nd_cdi n') !! claimSpecName (cfg_cdi cfg) uid = None)
  end.
Proof using Type.
  intros Hu []%Unprepare_run; try same_records.
  - exists m, m. split_and!; try done. destruct H as [? ? ? ? Hb]. by rewrite (prepared_in_blobs _ _ Hb).
  - assert (specs (nd_cdi n1) !! claimSpecName (cfg_cdi cfg) uid = None) as Hsp.
    { by apply DeleteClaimSpecFile_run in H1 as (_ & _ & _ & _ & Hs); [apply Hs|]. }
    phases. exists m, (delete uid m). split_and!; try done.
    + by erewrite prepared_in_blobs by eassumption.
    + unfold unrecorded. by rewrite lookup_delete_eq.
    + intros uid2 Hne. by rewrite lookup_delete_ne.
    + intros _. congruence.
Qed.

(** C4: Unprepare is complete or leaves the claim recorded: success means that
    no devices are recorded for the claim any more, that its CDI spec is gone if
    there were any, and that nothing at all was touched if there were none; an
    error at any step leaves the checkpoint as it was, so that the kubelet's
    retry does the whole work again. *)
Theorem Unprepare_complete uid n n' r :
  sep_free "/" uid -> Unprepare cfg uid n = (n', r) ->
  match r with
  | Err _ => prepared_in (nd_cp n') = prepared_in (nd_cp n)
  | Ok _ => exists m m', prepared_in (nd_cp n) = Some m /\ prepared_in (nd_cp n') = Some m' /\
      unrecorded m' uid /\ (forall uid2, uid2 <> uid -> m' !! uid2 = m !! uid2) /\
      (unrecorded m uid -> untouched n n') /\
      (~ unrecorded m uid -> specs (nd_cdi n') !! claimSpecName (cfg_cdi cfg) uid = None)
  end.
Proof using Type. apply Unprepare_complete_run. Qed.

(** ** What the container gets *)

(** The answer to the kubelet for one result. *)
Definition answer_for (a : gmap string Device) (claim : ResourceClaim) (r : AllocResult)
    : list string * string * string * list string :=
  ([Request r], Pool r, ResultDevice r,
   GetClaimDevices (cfg_cdi cfg) (UID claim) [ResultDevice r] (negb (isVfioDevice (alloc_at a (ResultDevice r))))).

Lemma lookup_split {A} (l : list A) i x : l !! i = Some x -> exists l1 l2, l = (l1 ++ x :: l2)%list /\ i = length l1.
Proof using Type. intros H. exists (take i l), (drop (S i) l). split; [by rewrite take_drop_middle|].
  apply lookup_lt_Some in H. rewrite length_take. lia. Qed.

Lemma device_for_answer a claim rsd rds l1 r pd :
  device_for cfg a claim rsd rds l1 r pd -> pb_of pd = answer_for a claim r.
Proof using Type.
  unfold device_for, pb_of, answer_for. intros (-> & -> & -> & H). cbv zeta in H. f_equal.
  destruct (isVfioDevice _); simpl; [by destruct H as (g & _ & -> & _)|by destruct H as (_ & -> & _)].
Qed.
Lemma prepared_answers a claim rsd rds (rs : list AllocResult) pds :
  length pds = length rs ->
  (forall l1 r l2, rs = (l1 ++ r :: l2)%list ->
     exists pd, pds !! length l1 = Some pd /\ device_for cfg a claim rsd rds l1 r pd) ->
  GetDevices pds = map (answer_for a claim) rs.
Proof using Type.
  intros Hlen Hall. apply list_eq. intros i. change (GetDevices pds) with (pb_of <$> pds).
  change (map ?f rs) with (f <$> rs). rewrite !list_lookup_fmap. destruct (rs !! i) as [r|] eqn:Er.
  - apply lookup_split in Er as (l1 & l2 & E & ->). destruct (Hall l1 r l2 E) as (pd & -> & Hf). simpl. f_equal.
    by eapply device_for_answer.
  - apply lookup_ge_None in Er. rewrite (proj2 (lookup_ge_None pds i)); [done|lia].
Qed.
Lemma prepared_spec a claim rsd rds pds v :
  length pds = length (allocated_results claim) ->
  (forall l1 r l2, allocated_results claim = (l1 ++ r :: l2)%list ->
     exists pd, pds !! length l1 = Some pd /\ device_for cfg a claim rsd rds l1 r pd) ->
  spec_for cfg claim a rsd rds
    {| s_Version := v; s_Kind := kind (cfg_cdi cfg); s_Devices := map (claimCDIDevice (UID claim)) pds |}.
Proof using Type.
  intros Hlen Hall. split_and!; [done|by simpl; rewrite length_map|]. intros l1 r l2 E.
  destruct (Hall l1 r l2 E) as (pd & Hpd & Hf). exists pd. split; [exact Hf|]. simpl.
  change (map ?f pds) with (f <$> pds). rewrite list_lookup_fmap, Hpd. simpl. unfold claimCDIDevice. rewrite EditsAppend_nil.
  destruct Hf as (_ & _ & -> & _). done.
Qed.

Lemma Prepare_fresh_run claim n n' devices m :
  prepared_in (nd_cp n) = Some m -> unrecorded m (UID claim) ->
  Prepare cfg rsdGroupFn claim n = (n', Ok devices) ->
  exists n0 cp n1 pds n2 n3,
    after_read n n0 cp m /\ prepareDevices cfg rsdGroupFn claim n0 = (n1, Ok pds) /\
    meta_phase cfg claim n1 = (n2, Ok tt) /\
    nd_on_cdi (CreateClaimSpecFile (cfg_cdi cfg) (UID claim) pds) n2 = (n3, Ok tt) /\
    nd_on_cp (CreateCheckpoint DriverPluginCheckpointFile (with_claims cp (<[UID claim := pds]> m))) n3 = (n', Ok tt) /\
    devices = GetDevices pds.
Proof using Type.
  intros Hm Hun H. apply Prepare_run in H. remember (Ok devices) as r eqn:Er. destruct H; simplify_eq.
  - unfold unrecorded in Hun. by simplify_option_eq.
  - pose proof (ar_claims _ _ _ _ H). simplify_eq. eauto 12.
Qed.

Lemma Prepare_container_run claim n n' devices m :
  sep_free "/" (UID claim) -> prepared_in (nd_cp n) = Some m -> unrecorded m (UID claim) ->
  Prepare cfg rsdGroupFn claim n = (n', Ok devices) ->
  let d := ds (nd_plugin n) in
  Forall (result_current d (sys (nd_plugin n)) (sys (nd_plugin n'))) (allocated_results claim) /\
  devices = map (answer_for (allocatable d) claim) (allocated_results claim) /\
  exists ids rsd rds sp,
    nativeBusIDs (allocatable d) (allocated_results claim) = Ok ids /\
    (ids <> [] -> native_shared cfg rsdGroupFn ids rsd rds (sys (nd_plugin n)) (sys (nd_plugin n'))) /\
    specs (nd_cdi n') !! claimSpecName (cfg_cdi cfg) (UID claim) = Some sp /\
    spec_for cfg claim (allocatable d) rsd rds sp.
Proof using Hrsd.
  intros Hu Hm Hun H d.
  destruct (Prepare_fresh_run _ _ _ _ _ Hm Hun H) as (n0 & cp & n1 & pds & n2 & n3 & Hr & Hd & Hme & Hs & Hc & ->).
  apply (prepareDevices_Ok cfg rsdGroupFn (Hrsd:=Hrsd)) in Hd as (_ & Hcur & Hlen & ids & rsd & rds & Hids & Hgrp & Hall).
  apply meta_phase_keeps in Hme as (Hp2 & _). apply CreateClaimSpecFile_run in Hs as (_ & _ & _ & Hl & _ & Hsp); [|done].
  destruct (Hsp eq_refl) as [v Hv]. apply nd_on_cp_keeps in Hc as (Hp4 & _ & Hc4).
  rewrite (ar_plugin _ _ _ _ Hr) in *. fold d in Hall, Hcur, Hids. rewrite Hp2 in Hl. rewrite Hp4, Hc4.
  split_and!.
  - eapply Forall_impl; [exact Hcur|]. intros r (Hpool & dev & bus & Ha & Hb & Hdc). split; [done|].
    exists dev, bus. split_and!; [done|done|]. refine (device_current_widen _ _ _ _ _ _ _ _ _ Hdc); [by unfold later|exact Hl].
  - by eapply prepared_answers.
  - exists ids, rsd, rds. eexists. split_and!; [done| |exact Hv|by apply prepared_spec].
    intros Hne. refine (native_shared_widen _ _ _ _ _ _ _ _ _ _ _ (Hgrp Hne)); [by unfold later|exact Hl].
Qed.

(** C1: A prepared claim gives its container exactly what was allocated to it.
    Every result of this driver names a published device of this node that the
    checks of this very call found to be still the one discovered; the CDI
    spec stored under the claim's name holds one device per result, in order,
    with that device's nodes and mounts only; native devices share one group,
    made for exactly their sorted addresses, and the first of them also carries
    the nodes which the host's RDS spec file, read in this call, gives its
    device "all" (none when the file is missing, unreadable or of another
    kind); and the kubelet is answered with one entry per result. *)
Theorem Prepare_container claim n n' devices m :
  sep_free "/" (UID claim) -> prepared_in (nd_cp n) = Some m -> unrecorded m (UID claim) ->
  Prepare cfg rsdGroupFn claim n = (n', Ok devices) ->
  let d := ds (nd_plugin n) in
  Forall (result_current d (sys (nd_plugin n)) (sys (nd_plugin n'))) (allocated_results claim) /\
  devices = map (answer_for (allocatable d) claim) (allocated_results claim) /\
  exists ids rsd rds sp,
    nativeBusIDs (allocatable d) (allocated_results claim) = Ok ids /\
    (ids <> [] -> native_shared cfg rsdGroupFn ids rsd rds (sys (nd_plugin n)) (sys (nd_plugin n'))) /\
    specs (nd_cdi n') !! claimSpecName (cfg_cdi cfg) (UID claim) = Some sp /\
    spec_for cfg claim (allocatable d) rsd rds sp.
Proof using Hrsd. apply Prepare_container_run. Qed.

(** ** Isolation *)

(** The spec of a claim and what lies in its metadata directory are the same. *)
Definition same_for (base : list string) (uid : string) n n' : Prop :=
  specs (nd_cdi n') !! claimSpecName (cfg_cdi cfg) uid = specs (nd_cdi n) !! claimSpecName (cfg_cdi cfg) uid /\
  forall k, host_dir base uid `prefix_of` k -> tree (nd_meta n') !! k = tree (nd_meta n) !! k.
#[local] Instance same_for_preorder base uid : PreOrder (same_for base uid).
Proof using Type.
  split; [by intros n; split|]. intros n1 n2 n3 [H1 H2] [H3 H4]. split; [congruence|].
  intros k Hk. by rewrite H4, H2.
Qed.
Lemma same_for_refl base uid n n' : nd_cdi n' = nd_cdi n -> nd_meta n' = nd_meta n -> same_for base uid n n'.
Proof using Type. intros H1 H2. unfold same_for. by rewrite H1, H2. Qed.

Section with_base.
Context (base : list string) (Hbase : Forall plain_name base) (Hcfg : cfg_metadata cfg = abs_path base).

Lemma prepareDevices_same claim uid2 n n' r :
  claim_uid_ok uid2 -> prepareDevices (cp_store:=cp_store) cfg rsdGroupFn claim n = (n', r) -> same_for base uid2 n n'.
Proof using Hrsd.
  intros [[Hs _] Hc] H.
  pose proof (respects_run _ _ _ _ _ (prepareDevices_frame cfg rsdGroupFn claim) H) as (_ & _ & Hm & _ & Hsp).
  split; [by apply Hsp|]. by rewrite Hm.
Qed.
Lemma meta_phase_run claim n n' r :
  uid_ok (UID claim) -> requests_ok claim -> meta_phase cfg claim n = (n', r) ->
  nd_cdi n' = nd_cdi n /\ keeps_wf (nd_meta n) (nd_meta n') /\
  (forall uid2, uid2 <> UID claim -> same_for base uid2 n n').
Proof using Hbase Hcfg.
  intros Hu Hr H. pose proof (meta_phase_keeps _ _ _ _ _ H) as (_ & Hc & _). split; [done|].
  unfold meta_phase in H. destruct (claimHasVfioDevice _ _).
  - apply nd_on_meta_run in H as (k & Hk & ->). rewrite Hcfg in Hk. simpl. split.
    + by apply writeKubeVirtMetadata_run in Hk as (_ & ? & _).
    + intros uid2 Hne. split; [done|]. simpl. by eapply write_isolated.
  - simplify_eq. split; [by intros ?|]. intros uid2 _. by split.
Qed.
Lemma rollback_same uid uid2 n n' r :
  wf_tree (tree (nd_meta n)) -> marker (tree (nd_meta n)) (host_dir base uid2) <> Some uid ->
  rollbackKubeVirtMetadata cfg uid n = (n', r) -> same_for base uid2 n n'.
Proof using Hbase Hcfg.
  intros Hwf Hm H. apply rollback_run in H as (_ & _ & Hc & _ & rr & Hrm). rewrite Hcfg in Hrm.
  split; [by rewrite Hc|]. eapply removal_isolated; [done|by apply wf_names_plain|done|exact Hrm].
Qed.
Lemma CreateClaimSpecFile_same uid uid2 pds n n' r :
  claim_uid_ok uid -> claim_uid_ok uid2 -> uid2 <> uid ->
  nd_on_cdi (cp_store:=cp_store) (CreateClaimSpecFile (cfg_cdi cfg) uid pds) n = (n', r) -> same_for base uid2 n n'.
Proof using Type.
  intros [[Hu _] _] [[Hu2 _] _] Hne H. apply CreateClaimSpecFile_run in H as (_ & Hm & _ & _ & Hs & _); [|done].
  split; [by apply Hs|]. by rewrite Hm.
Qed.
Lemma marker_same uid2 uid n n' :
  same_for base uid2 n n' -> marker (tree (nd_meta n)) (host_dir base uid2) <> Some uid ->
  marker (tree (nd_meta n')) (host_dir base uid2) <> Some uid.
Proof using Type. intros [_ H]. unfold marker. rewrite H; [done|]. by eexists. Qed.

Lemma after_read_same uid2 n n0 cp m : after_read n n0 cp m -> same_for base uid2 n n0.
Proof using Type. intros []. by apply same_for_refl. Qed.
Lemma nd_on_cp_same {A} (m : M cp_store A) uid2 n n' r : nd_on_cp m n = (n', r) -> same_for base uid2 n n'.
Proof using Type. intros (_ & ? & ?)%nd_on_cp_keeps. by apply same_for_refl. Qed.

(** Up to the rollback nothing of the other claim changes. *)
Lemma Prepare_same claim uid2 n n' r :
  claim_uid_ok (UID claim) -> requests_ok claim -> claim_uid_ok uid2 -> uid2 <> UID claim ->
  wf_tree (tree (nd_meta n)) -> marker (tree (nd_meta n)) (host_dir base uid2) <> Some (UID claim) ->
  Prepare cfg rsdGroupFn claim n = (n', r) -> same_for base uid2 n n'.
Proof using Hbase Hcfg Hrsd.
  intros Hu Hreq Hu2 Hne Hwf Hmk H.
  assert (forall n3, same_for base uid2 n n3 -> wf_tree (tree (nd_meta n3)) ->
    rollbackKubeVirtMetadata cfg (UID claim) n3 = (n', Ok tt) -> same_for base uid2 n n') as Hroll.
  { intros n3 H3 Hw3 Hr. etrans; [exact H3|]. eapply rollback_same; [exact Hw3| |exact Hr]. by eapply marker_same. }
  apply Prepare_run in H. destruct H as [n' e []|n' m x l []| n0 cp m n' e Hread Hun Hd|n0 cp m n1 pds n2 n' e Hread Hun Hd Hme Hr
    |n0 cp m n1 pds n2 n3 n' e Hread Hun Hd Hme Hs Hr|n0 cp m n1 pds n2 n3 n4 n' e Hread Hun Hd Hme Hs Hc Hr
    |n0 cp m n1 pds n2 n3 n' Hread Hun Hd Hme Hs Hc]; [by apply same_for_refl|by apply same_for_refl|..].
  all: pose proof (prepareDevices_keeps _ _ _ _ Hd) as (Hmeta & _); rewrite (ar_meta _ _ _ _ Hread) in Hmeta.
  all: apply (after_read_same uid2) in Hread; apply (prepareDevices_same _ uid2) in Hd; [|done].
  1: by etrans.
  all: apply meta_phase_run in Hme as (_ & Hk & Hme); [|apply Hu|done]; specialize (Hme _ Hne).
  all: rewrite Hmeta in Hk; specialize (Hk Hwf).
  all: assert (same_for base uid2 n n2) as H2 by (etrans; [exact Hread|etrans; [exact Hd|exact Hme]]).
  1: by eapply Hroll.
  all: pose proof (nd_on_cdi_keeps _ _ _ _ Hs) as (_ & Hm3 & _); rewrite <- Hm3 in Hk.
  all: apply (CreateClaimSpecFile_same _ uid2) in Hs; [|done..].
  1: eapply Hroll; [|exact Hk|exact Hr]; by etrans.
  all: pose proof (nd_on_cp_keeps _ _ _ _ Hc) as (_ & Hm4 & _); rewrite <- Hm4 in Hk; apply (nd_on_cp_same _ uid2) in Hc.
  - eapply Hroll; [|exact Hk|exact Hr]. etrans; [exact H2|by etrans].
  - etrans; [exact H2|by etrans].
Qed.

(** C9: Claims do not interfere: preparing one claim, whether it succeeds or
    fails at any step and is rolled back, and whichever calls of the file
    system, the cache or the store fail, leaves every other claim's CDI spec
    and metadata as they are. *)
Theorem Prepare_isolated claim uid2 n n' r :
  claim_uid_ok (UID claim) -> requests_ok claim -> claim_uid_ok uid2 -> uid2 <> UID claim ->
  wf_tree (tree (nd_meta n)) -> marker (tree (nd_meta n)) (host_dir base uid2) <> Some (UID claim) ->
  Prepare cfg rsdGroupFn claim n = (n', r) ->
  specs (nd_cdi n') !! claimSpecName (cfg_cdi cfg) uid2 = specs (nd_cdi n) !! claimSpecName (cfg_cdi cfg) uid2 /\
  (forall k, host_dir base uid2 `prefix_of` k -> tree (nd_meta n') !! k = tree (nd_meta n) !! k) /\
  (prepared_in (nd_cp n') ≫= lookup uid2) = (prepared_in (nd_cp n) ≫= lookup uid2).
Proof using Hbase Hcfg Hrsd.
  intros Hu Hreq Hu2 Hne Hwf Hmk H. apply and_assoc. split.
  - exact (Prepare_same claim uid2 n n' r Hu Hreq Hu2 Hne Hwf Hmk H).
  - apply Prepare_checkpoint_run in H. destruct r as [devs|e]; [|by rewrite H].
    destruct H as (m & pds & -> & -> & _). simpl. by rewrite lookup_insert_ne.
Qed.
(** ** Unpreparing *)

Lemma DeleteClaimSpecFile_same uid uid2 n n' r :
  claim_uid_ok uid -> claim_uid_ok uid2 -> uid2 <> uid ->
  nd_on_cdi (cp_store:=cp_store) (DeleteClaimSpecFile (cfg_cdi cfg) uid) n = (n', r) -> same_for base uid2 n n'.
Proof using Type.
  intros [[Hu _] _] [[Hu2 _] _] Hne H. apply DeleteClaimSpecFile_run in H as (_ & Hm & _ & Hs & _); [|done].
  split; [by apply Hs|]. by rewrite Hm.
Qed.
Lemma removal_same uid uid2 n n' r :
  wf_tree (tree (nd_meta n)) -> marker (tree (nd_meta n)) (host_dir base uid2) <> Some uid ->
  nd_on_meta (removeKubeVirtMetadataForClaim (cfg_metadata cfg) uid) n = (n', r) -> same_for base uid2 n n'.
Proof using Hbase Hcfg.
  intros Hwf Hm H. pose proof (nd_on_meta_keeps _ _ _ _ H) as (_ & Hc & _).
  apply nd_on_meta_run in H as (k & Hk & E). rewrite Hcfg in Hk. split; [by rewrite Hc|].
  rewrite E. simpl. eapply removal_isolated; [done|by apply wf_names_plain|done|exact Hk].
Qed.

Lemma Unprepare_same uid uid2 n n' r :
  claim_uid_ok uid -> claim_uid_ok uid2 -> uid2 <> uid ->
  wf_tree (tree (nd_meta n)) -> marker (tree (nd_meta n)) (host_dir base uid2) <> Some uid ->
  Unprepare cfg uid n = (n', r) -> same_for base uid2 n n'.
Proof using Hbase Hcfg.
  intros Hu Hu2 Hne Hwf Hmk H. apply Unprepare_run in H.
  destruct H as [n' e []|n' m []|n0 cp m n' e Hr _ Hs|n0 cp m n1 n' e Hr _ Hs Hm|n0 cp m n1 n2 n' e Hr _ Hs Hm Hc
    |n0 cp m n1 n2 n3 n' Hr _ Hs Hm Hc []]; [by apply same_for_refl|by apply same_for_refl|..].
  all: pose proof (ar_meta _ _ _ _ Hr) as Hm0; apply (after_read_same uid2) in Hr.
  all: pose proof (nd_on_cdi_keeps _ _ _ _ Hs) as (_ & Hm1 & _); apply (DeleteClaimSpecFile_same _ uid2) in Hs; [|done..].
  1: by etrans.
  all: apply (removal_same _ uid2) in Hm; [|by rewrite Hm1, Hm0..].
  all: assert (same_for base uid2 n n1) as H1 by (by etrans).
  1: by etrans.
  all: apply (nd_on_cp_same _ uid2) in Hc; assert (same_for base uid2 n n2) as H2 by (by etrans).
  1: by etrans.
  etrans; [exact H2|etrans; [exact Hc|by apply same_for_refl]].
Qed.

(** Unpreparing one claim leaves every other claim's CDI spec, metadata and
    checkpoint entry as they are, whichever calls fail on the way. *)
Lemma Unprepare_isolated uid uid2 n n' r :
  claim_uid_ok uid -> claim_uid_ok uid2 -> uid2 <> uid ->
  wf_tree (tree (nd_meta n)) -> marker (tree (nd_meta n)) (host_dir base uid2) <> Some uid ->
  Unprepare cfg uid n = (n', r) ->
  specs (nd_cdi n') !! claimSpecName (cfg_cdi cfg) uid2 = specs (nd_cdi n) !! claimSpecName (cfg_cdi cfg) uid2 /\
  (forall k, host_dir base uid2 `prefix_of` k -> tree (nd_meta n') !! k = tree (nd_meta n) !! k) /\
  (prepared_in (nd_cp n') ≫= lookup uid2) = (prepared_in (nd_cp n) ≫= lookup uid2).
Proof using Hbase Hcfg.
  intros Hu Hu2 Hne Hwf Hmk H. apply and_assoc. split.
  - exact (Unprepare_same uid uid2 n n' r Hu Hu2 Hne Hwf Hmk H).
  - apply Unprepare_run in H. destruct H; phases;
      repeat match goal with H : nd_cp ?a = nd_cp _ |- _ => rewrite H in * end;
      repeat match goal with H : blobs (nd_cp ?a) = blobs (nd_cp ?b) |- _ => apply prepared_in_blobs in H end;
      try congruence.
    replace (prepared_in (nd_cp n')) with (Some (delete uid m)) by congruence.
    replace (prepared_in (nd_cp n)) with (Some m) by congruence. simpl. by rewrite lookup_delete_ne.
Qed.
End with_base.
End claims.

(** ** With the group function of the driver *)

Lemma exact_group_perm path l1 l2 info : Permutation l1 l2 -> exact_group path l1 info -> exact_group path l2 info.
Proof.
  intros P (id & Hid & Hp & Hne & Hnd & Hm). exists id. split_and!; [lia|lia|done| |done|].
  - intros ->. symmetry in P. by apply Hne, Permutation_nil.
  - intros b. rewrite Hm. by rewrite P.
Qed.

Section group.
Context {hst : Host} {rsd : RsdEnv} {flt : Faults} {menv : MetadataEnv} {lib : CdiLib} {codec : CheckpointCodec}
  {cdi_store cp_store : Type} `{!CdiCache cdi_store, !CheckpointManager cp_store} (cfg : Config).
Implicit Types n : Node cdi_store cp_store.

(** C16: The native devices of a prepared claim are reached through a private
    group that holds exactly them: an inventory the management tool reported
    during the call lists the functions of the claim's native results, and no
    other, as the members of the group whose node every native device of the
    claim's spec carries as /dev/rsd0. *)
Theorem Prepare_group claim n n' devices m ids :
  sep_free "/" (UID claim) -> prepared_in (nd_cp n) = Some m -> unrecorded m (UID claim) ->
  nativeBusIDs (allocatable (ds (nd_plugin n))) (allocated_results claim) = Ok ids -> ids <> [] ->
  Prepare cfg recreateValidatedRSDGroup claim n = (n', Ok devices) ->
  exists path info, exact_group path ids info /\
    (exists t cmd data, (clk (sys (nd_plugin n)) < t < clk (sys (nd_plugin n')))%nat /\
       Output_at t cmd ["-g"; "-j"] = Ok data /\ decode_RblnSmi data = Ok info) /\
    exists sp, specs (nd_cdi n') !! claimSpecName (cfg_cdi cfg) (UID claim) = Some sp /\
      forall l1 r l2, allocated_results claim = (l1 ++ r :: l2)%list ->
        isVfioDevice (alloc_at (allocatable (ds (nd_plugin n))) (ResultDevice r)) = false ->
        exists dev, s_Devices sp !! length l1 = Some dev /\
          head (e_DeviceNodes (cd_Edits dev)) = Some (plain_node "/dev/rsd0" path).
Proof using Type.
  intros Hu Hm Hun Hids Hne H.
  destruct (Prepare_container_run cfg recreateValidatedRSDGroup _ _ _ _ _ Hu Hm Hun H)
    as (_ & _ & ids' & path & rds & sp & Hids' & Hgrp & Hsp & Hfor).
  rewrite Hids in Hids'. injection Hids' as <-.
  destruct (Hgrp Hne) as (_ & (s1 & s2 & Hl1 & Hl2 & Hr) & _). unfold later in *.
  apply recreateValidatedRSDGroup_exact in Hr as (_ & info & Hex & t & cmd & data & Ht & Hout & Hdec).
  exists path, info. split; [eapply exact_group_perm; [apply SortStrings_Permutation|exact Hex]|]. split.
  - exists t, cmd, data. split_and!; [lia|lia|done|done].
  - exists sp. split; [done|]. intros l1 r l2 E Hv. destruct Hfor as (_ & _ & Hfor).
    destruct (Hfor l1 r l2 E) as (pd & Hf & Hdev). eexists. split; [exact Hdev|]. simpl.
    destruct Hf as (_ & _ & _ & Hf). cbv zeta in Hf. rewrite Hv in Hf. by destruct Hf as (_ & _ & ->).
Qed.
End group.
