(* ===== verification/Cleanup.v ===== *)
(** What is left behind: claims prepared and unprepared again, failed
    preparations, and the files a failed write of the checkpoint leaves. *)
From S2P Require Import Prelude GoStd Host PciSysfs Device Sriov Vfio Validate RsdGroup Claim Fs.
From S2P Require Import Metadata MetadataProps Rollback Cdi Checkpoint Discovery Inventory Scan.
From S2P Require Import Prepare PrepareProps PrepareRuns Lifecycle LifecycleProps.
Open Scope string_scope.

(** The tree is as before, but for directories above [dir] that were made. *)
Definition same_but_parents (dir : list string) (t t' : Tree) : Prop :=
  forall k, t' !! k = t !! k \/ (t !! k = None /\ t' !! k = Some NDir /\ k `prefix_of` dir /\ k <> dir).

(** No directory is marked as the claim's, and its own one does not exist. *)
Record no_metadata (base : list string) (uid : string) (t : Tree) : Prop := {
  nm_unowned dir : ~ owned base parents t uid dir;
  nm_fresh k : host_dir base uid `prefix_of` k -> t !! k = None;
}.

Section leftover.
Context {hst : Host} {flt : Faults} {menv : MetadataEnv} {lib : CdiLib} {codec : CheckpointCodec}
  {cdi_store cp_store : Type} `{!CdiCache cdi_store, !CheckpointManager cp_store}
  (cfg : Config) (rsdGroupFn : list string -> M Sys string)
  {Hrsd : forall ids, Respects sys_le (rsdGroupFn ids)}.
Implicit Types n : Node cdi_store cp_store.

(** C40: The rollback of a failed checkpoint write is not complete: the CDI spec
    written for the claim stays, the claim is not recorded, and so the
    Unprepare that follows, if it succeeds, leaves the spec there too. *)
Theorem failed_checkpoint_leaves_spec claim n n1 n2 m e :
  sep_free "/" (UID claim) -> prepared_in (nd_cp n) = Some m -> unrecorded m (UID claim) ->
  Prepare cfg rsdGroupFn claim n = (n1, Err (ErrWrap "unable to sync to checkpoint: " e "")) ->
  Unprepare cfg (UID claim) n1 = (n2, Ok tt) ->
  exists sp, specs (nd_cdi n1) !! claimSpecName (cfg_cdi cfg) (UID claim) = Some sp /\
             specs (nd_cdi n2) !! claimSpecName (cfg_cdi cfg) (UID claim) = Some sp.
Proof using Hrsd.
  intros Hu Hm Hun Hp Hup. apply Prepare_run in Hp.
  remember (Err (ErrWrap "unable to sync to checkpoint: " e "")) as r eqn:Er.
  destruct Hp as [? ? ? [[? ->]| ->]| | | | |n0 cp m' n3 pds n4 n5 n6 n7 e' Hr _ Hd Hme Hs Hc Hrb|]; simplify_eq.
  pose proof (ar_claims _ _ _ _ Hr) as Hcl. rewrite Hm in Hcl. injection Hcl as <-.
  pose proof (nd_on_cdi_keeps _ _ _ _ Hs) as (_ & _ & Hcp5).
  apply CreateClaimSpecFile_run in Hs as (_ & _ & _ & _ & _ & Hsp); [|done]. destruct (Hsp eq_refl) as [v Hv].
  pose proof (nd_on_cp_keeps _ _ _ _ Hc) as (_ & _ & Hcdi6). apply create_prepared in Hc.
  apply rollback_run in Hrb as (_ & _ & Hcdi & Hcp & _). eexists. split; [by rewrite Hcdi, Hcdi6|].
  apply prepareDevices_keeps in Hd as (_ & Hcp3 & _); [|exact Hrsd]. apply meta_phase_keeps in Hme as (_ & _ & Hcp4).
  assert (prepared_in (nd_cp n7) = Some m) as Hrec.
  { rewrite Hcp, Hc, Hcp5, Hcp4, Hcp3. rewrite (prepared_in_blobs _ _ (ar_blobs _ _ _ _ Hr)). done. }
  apply Unprepare_run in Hup. remember (Ok tt) as r eqn:Er. destruct Hup as [|? m2 []| | | |? ? m2 ? ? ? ? Hr2 Hnot]; simplify_eq.
  - rewrite un_cdi, Hcdi, Hcdi6. exact Hv.
  - pose proof (ar_claims _ _ _ _ Hr2). by simplify_eq.
Qed.
End leftover.

Section no_faults.
Context {hst : Host} {menv : MetadataEnv} {lib : CdiLib} {codec : CheckpointCodec}
  {cdi_store cp_store : Type} `{!CdiCache cdi_store, !CheckpointManager cp_store}
  (cfg : Config) (rsdGroupFn : list string -> M Sys string)
  {Hrsd : forall ids, Respects sys_le (rsdGroupFn ids)}
  (base : list string) (Hbase : Forall plain_name base) (Hcfg : cfg_metadata cfg = abs_path base).
Implicit Types n : Node cdi_store cp_store.
#[local] Existing Instance no_faults.

(** ** Lemmas *)

(** After the metadata phase: the directory is marked, or it is as it was. *)
Lemma meta_phase_tree claim n n' r :
  uid_ok (UID claim) -> requests_ok claim -> wf_tree (tree (nd_meta n)) -> meta_phase cfg claim n = (n', r) ->
  wf_tree (tree (nd_meta n')) /\ writes_under (host_dir base (UID claim)) (nd_meta n) (nd_meta n') /\
  (marker (tree (nd_meta n')) (host_dir base (UID claim)) = Some (UID claim) \/
   forall k, host_dir base (UID claim) `prefix_of` k -> tree (nd_meta n') !! k = tree (nd_meta n) !! k).
Proof using Hbase Hcfg.
  intros Hu Hr Hwf H. unfold meta_phase in H. destruct (claimHasVfioDevice _ _).
  - apply nd_on_meta_run in H as (k & Hk & ->). rewrite Hcfg in Hk. simpl.
    pose proof (write_marks_or_same base Hbase _ _ _ _ _ Hu Hr Hwf Hk) as Hm.
    apply writeKubeVirtMetadata_run in Hk as (? & Hkeep & _); [|done..]. split_and!; [by apply Hkeep|done|done].
  - simplify_eq. split_and!; [done|reflexivity|by right].
Qed.

(** Any removal after that phase restores the tree. *)
Lemma removal_restores claim n n' r (s s' : FsState) rr :
  uid_ok (UID claim) -> requests_ok claim -> wf_tree (tree (nd_meta n)) -> meta_phase cfg claim n = (n', r) ->
  s = nd_meta n' -> removeKubeVirtMetadataForClaim (cfg_metadata cfg) (UID claim) s = (s', rr) ->
  restored base (UID claim) (tree (nd_meta n)) (tree s') /\
  marker (tree s') (host_dir base (UID claim)) <> Some (UID claim).
Proof using Hbase Hcfg.
  intros Hu Hr Hwf H -> Hrm. pose proof (meta_phase_tree _ _ _ _ Hu Hr Hwf H) as (Hwf' & Hw & Hm).
  rewrite Hcfg in Hrm. exact (removal_undoes base Hbase _ _ _ _ _ Hwf' Hw Hm Hrm).
Qed.

(** With nothing of the claim there before, nothing but parents is new. *)
Lemma restored_fresh uid t t' :
  no_metadata base uid t -> restored base uid t t' -> same_but_parents (host_dir base uid) t t'.
Proof using Type.
  intros [Hno Hfresh] H k. destruct (H k) as [?|[?|(E & dir & [->|Hd] & Hp)]]; [by left|by right|left|].
  - by rewrite E, Hfresh.
  - by destruct (Hno dir).
Qed.

(** The failures after which Prepare rolls the metadata back. *)
Definition rolls_back (e : err) : Prop :=
  exists text e0, e = ErrWrap text e0 "" /\
    text ∈ ["unable to write KubeVirt device metadata: "; "unable to create CDI spec file for claim: ";
            "unable to sync to checkpoint: "].

Lemma rollback_restores claim n n0 n1 n2 n' r0 r e :
  uid_ok (UID claim) -> requests_ok claim -> wf_tree (tree (nd_meta n)) ->
  meta_phase cfg claim n0 = (n1, r0) -> nd_meta n0 = nd_meta n -> nd_meta n2 = nd_meta n1 ->
  rollbackKubeVirtMetadata cfg (UID claim) n2 = (n', r) -> rolls_back e ->
  restored base (UID claim) (tree (nd_meta n)) (tree (nd_meta n')) /\
  (rolls_back e -> marker (tree (nd_meta n')) (host_dir base (UID claim)) <> Some (UID claim)) /\
  (~ rolls_back e -> tree (nd_meta n') = tree (nd_meta n)).
Proof using Hbase Hcfg.
  intros Hu Hreq Hwf Hme E0 E1 Hrb He. apply rollback_run in Hrb as (_ & _ & _ & _ & rr & Hrm). rewrite <- E0 in *.
  destruct (removal_restores claim _ _ _ _ _ _ Hu Hreq Hwf Hme E1 Hrm). by split_and!.
Qed.

(** C15: A Prepare that fails adds no metadata, on a file system whose calls do
    not fail: every path is as before the call, but for parent directories
    that were made and for what an earlier, perhaps interrupted write of the
    same claim had left, which may be gone. When the failure is of the metadata
    itself, of the CDI spec or of writing the checkpoint, no directory marked as
    the claim's stays under its name; when it comes earlier (the checkpoint cannot
    be read, a device is refused), no path has changed. *)
Theorem Prepare_failure_no_metadata claim n n' e :
  uid_ok (UID claim) -> requests_ok claim -> wf_tree (tree (nd_meta n)) ->
  Prepare cfg rsdGroupFn claim n = (n', Err e) ->
  restored base (UID claim) (tree (nd_meta n)) (tree (nd_meta n')) /\
  (rolls_back e -> marker (tree (nd_meta n')) (host_dir base (UID claim)) <> Some (UID claim)) /\
  (~ rolls_back e -> tree (nd_meta n') = tree (nd_meta n)).
Proof using Hbase Hcfg Hrsd.
  intros Hu Hreq Hwf H. apply Prepare_run in H. remember (Err e) as r eqn:Er.
  assert (tree (nd_meta n') = tree (nd_meta n) -> ~ rolls_back e ->
    restored base (UID claim) (tree (nd_meta n)) (tree (nd_meta n')) /\
    (rolls_back e -> marker (tree (nd_meta n')) (host_dir base (UID claim)) <> Some (UID claim)) /\
    (~ rolls_back e -> tree (nd_meta n') = tree (nd_meta n))) as Hsame.
  { intros E Hrb. split_and!; [intros k; left; by rewrite E|by intros ?|done]. }
  destruct H as [n' e' [] Hre| |n0 cp m n' e' Hr _ Hd|n0 cp m n1 pds n2 n' e' Hr _ Hd Hme Hrb
    |n0 cp m n1 pds n2 n3 n' e' Hr _ Hd Hme Hs Hrb|n0 cp m n1 pds n2 n3 n4 n' e' Hr _ Hd Hme Hs Hc Hrb|]; simplify_eq.
  1: apply Hsame; [by rewrite un_meta|]; intros (text & e0 & -> & Ht); destruct Hre as [[e1 [= -> _]]|[=]]; set_solver.
  all: apply prepareDevices_keeps in Hd as (Hm1 & _ & _); [|exact Hrsd]; rewrite (ar_meta _ _ _ _ Hr) in Hm1.
  1: apply Hsame; [by rewrite Hm1|]; intros (text & e0 & [= <- _] & Ht); set_solver.
  - eapply rollback_restores; [done..|exact Hme|done|done|exact Hrb|].
    eexists _, _. split; [done|set_solver].
  - apply nd_on_cdi_keeps in Hs as (_ & Hm & _). eapply rollback_restores; [done..|exact Hme|done|exact Hm|exact Hrb|].
    eexists _, _. split; [done|set_solver].
  - apply nd_on_cdi_keeps in Hs as (_ & Hm & _). apply nd_on_cp_keeps in Hc as (_ & Hm2 & _).
    eapply rollback_restores; [done..|exact Hme|done|by rewrite Hm2|exact Hrb|].
    eexists _, _. split; [done|set_solver].
Qed.

(** C14: A claim leaves no trace. On a file system whose calls do not fail, a
    claim with at least one device of this driver, of which there is no record,
    no CDI spec and no metadata yet, is prepared and unprepared again, both with
    success. Then the checkpoint, the CDI specs of all claims and the metadata
    tree are as they were before it came, except that parent directories may
    have been made. *)
Theorem Prepare_Unprepare_no_trace claim n n1 n2 devices m :
  claim_uid_ok (UID claim) -> requests_ok claim -> wf_tree (tree (nd_meta n)) ->
  no_metadata base (UID claim) (tree (nd_meta n)) ->
  prepared_in (nd_cp n) = Some m -> m !! UID claim = None ->
  specs (nd_cdi n) !! claimSpecName (cfg_cdi cfg) (UID claim) = None ->
  allocated_results claim <> [] ->
  Prepare cfg rsdGroupFn claim n = (n1, Ok devices) -> Unprepare cfg (UID claim) n1 = (n2, Ok tt) ->
  prepared_in (nd_cp n2) = Some m /\
  (forall uid, claim_uid_ok uid ->
     specs (nd_cdi n2) !! claimSpecName (cfg_cdi cfg) uid = specs (nd_cdi n) !! claimSpecName (cfg_cdi cfg) uid) /\
  same_but_parents (host_dir base (UID claim)) (tree (nd_meta n)) (tree (nd_meta n2)).
Proof using Hbase Hcfg Hrsd.
  intros Hu Hreq Hwf Hno Hm Hnone Hspec Hne HP HU.
  assert (unrecorded m (UID claim)) as Hun by (unfold unrecorded; by rewrite Hnone).
  destruct (Prepare_fresh_run _ _ _ _ _ _ _ Hm Hun HP) as (n0 & cp & n3 & pds & n4 & n5 & Hr & Hd & Hme & Hs & Hc & ->).
  assert (pds <> []) as Hpds.
  { apply (prepareDevices_Ok cfg rsdGroupFn (Hrsd:=Hrsd)) in Hd as (_ & _ & Hlen & _). intros ->. by destruct (allocated_results claim). }
  apply prepareDevices_keeps in Hd as (Hm3 & _ & _); [|exact Hrsd]. rewrite (ar_meta _ _ _ _ Hr) in Hm3.
  rewrite <- Hm3 in Hwf, Hno. pose proof (meta_phase_tree _ _ _ _ (proj1 Hu) Hreq Hwf Hme) as (Hwf4 & _ & _).
  pose proof (nd_on_cdi_keeps _ _ _ _ Hs) as (_ & Hm5 & _). pose proof (nd_on_cp_keeps _ _ _ _ Hc) as (_ & Hm1 & _).
  apply create_prepared in Hc. rewrite Hm3 in Hwf, Hno.
  assert (forall uid, claim_uid_ok uid -> uid <> UID claim ->
    specs (nd_cdi n2) !! claimSpecName (cfg_cdi cfg) uid = specs (nd_cdi n) !! claimSpecName (cfg_cdi cfg) uid) as Hother.
  { intros uid Hu' Hneq.
    assert (marker (tree (nd_meta n)) (host_dir base uid) <> Some (UID claim)) as Hmk.
    { intros Hmk. apply (nm_unowned _ _ _ Hno (host_dir base uid)). split; [|done]. exists resourceClaimsSubdir, (".uid-" +:+ uid).
      split; [by left|done]. }
    pose proof (Prepare_same cfg rsdGroupFn base Hbase Hcfg claim uid n n1 _ Hu Hreq Hu' Hneq Hwf Hmk HP) as H1.
    pose proof (marker_same cfg base _ _ _ _ H1 Hmk) as Hmk1.
    assert (wf_tree (tree (nd_meta n1))) as Hwf1 by (by rewrite Hm1, Hm5).
    pose proof (Unprepare_same cfg base Hbase Hcfg (UID claim) uid n1 n2 _ Hu Hu' Hneq Hwf1 Hmk1 HU) as H2.
    by rewrite (proj1 H2), (proj1 H1). }
  apply Unprepare_run in HU. remember (Ok tt) as r eqn:Er.
  destruct HU as [|n2 m2 ? Hm2 Hun2| | | |n6 cp2 m2 n7 n8 n9 n2 Hr2 _ Hs2 Hrm Hc2 Hun2]; simplify_eq.
  { unfold unrecorded in Hun2. by rewrite lookup_insert_eq in Hun2. }
  pose proof (ar_claims _ _ _ _ Hr2) as Hcl.
  assert (Some m2 = Some (<[UID claim := pds]> m)) as E by congruence. injection E as ->.
  pose proof (nd_on_cp_keeps _ _ _ _ Hc2) as (_ & Hm9 & Hcdi9). apply create_prepared in Hc2.
  destruct Hun2 as [_ _ Hmeta2 Hcdi2 Hb2]. split_and!.
  - rewrite (prepared_in_blobs _ _ Hb2), Hc2. by rewrite delete_insert_id.
  - intros uid Hu'. destruct (decide (uid = UID claim)) as [->|Hneq]; [|by apply Hother].
    rewrite Hspec, Hcdi2, Hcdi9. apply nd_on_meta_keeps in Hrm as (_ & -> & _).
    apply DeleteClaimSpecFile_run in Hs2 as (_ & _ & _ & _ & Hgone); [by apply Hgone|apply Hu].
  - rewrite Hmeta2, Hm9. pose proof (nd_on_cdi_keeps _ _ _ _ Hs2) as (_ & Hm7 & _).
    apply nd_on_meta_run in Hrm as (k & Hk & ->). simpl. rewrite <- Hm3.
    apply restored_fresh; [by rewrite Hm3|].
    eapply (removal_restores claim); [apply Hu|done| |exact Hme| |exact Hk]; [by rewrite Hm3|].
    by rewrite Hm7, (ar_meta _ _ _ _ Hr2), Hm1, Hm5.
Qed.
End no_faults.
