(* ===== verification/ScanProps.v ===== *)
(** Correctness of the scan loop: what a tick keeps, what it publishes, when it
    runs rbln-smi and what it logs; invariants over every sequence of ticks. *)
From S2P Require Import Prelude GoStd Host PciSysfs Device Sriov Discovery Vfio Inventory Steady.
From S2P Require Import Scan.
Open Scope string_scope.

(** ** Specification vocabulary *)

(** What the rest of the driver relies on: the published pool and the lookup
    table are both made of the two current device lists. *)
Record inventory_ok (d : DeviceState) : Prop := {
  io_alloc : allocatable d = index_by_name (npuDevices d ++ vfioDevices d);
  io_pool : driverResources d = {[ nodeName d := [(npuDevices d ++ vfioDevices d)%list] ]};
}.

(** The two states publish the same. *)
Definition same_inventory (d d' : DeviceState) : Prop :=
  nodeName d' = nodeName d /\ allocatable d' = allocatable d /\
  driverResources d' = driverResources d /\ npuDevices d' = npuDevices d /\
  vfioDevices d' = vfioDevices d /\ sysfsRoot d' = sysfsRoot d.

(** The transitions of the sysfs half, read back from the log: [true] for a
    failure record, [false] for a recovery. *)
Definition sysfs_record (r : LogRec) : option bool :=
  if bool_decide (lr_msg r = "Device scan failed, keeping last inventory") then Some true
  else if bool_decide (lr_msg r = "Device scan recovered") then Some false
  else None.
Definition sysfs_records (l : list LogRec) : list bool := omap sysfs_record l.

(** The same for the native half; the start has a failure record of its own. *)
Definition native_record (r : LogRec) : option bool :=
  if bool_decide (lr_msg r = "NPU enumeration failed, keeping last inventory") then Some true
  else if bool_decide (lr_msg r = "rbln-smi enumeration failed, starting without native devices") then Some true
  else if bool_decide (lr_msg r = "NPU enumeration recovered") then Some false
  else None.
Definition native_records (l : list LogRec) : list bool := omap native_record l.
Definition native_flag (p : Plugin) : bool := npuFailing (scan (ds p)).

(** Transitions that alternate, from the flag [b] to the flag returned. *)
Fixpoint alternates (b : bool) (l : list bool) : option bool :=
  match l with
  | [] => Some b
  | x :: l' => if bool_decide (x = b) then None else alternates x l'
  end.

(** The machine shows a function the native driver could be exposing. *)
Definition native_seen {hst : Host} (root : string) (s s' : Sys) : Prop :=
  exists name, pciAddressRegexp name = true /\
    observed s s' (is_rebellions (Join [root; name])) /\
    observed s s' (driver_is (Join [root; name]) nativePCIDriverName) /\
    (observed s s' (numvfs_is (Join [root; name]) 0) \/
     observed s s' (numvfs_absent (Join [root; name]))).

Definition lower_bus (d : Device) : string := ToLower (deviceStringAttr d pciBusIDAttributeKey).

Section reach.
Context {hst : Host} {smi : Smi} `{!SemanticEqual Device, !SemanticEqual (list Device)}.

(** The plugin's discovery life: the start, then ticks, each timed. *)
Inductive discovery_step : relation Plugin :=
  | step_tick p p' r : RescanDevices p = (p', r) -> discovery_step p p'
  | step_timed took interval p p' r :
      observeScanDuration took interval p = (p', r) -> discovery_step p p'.

Inductive discovery_reach (node root : string) (p0 : Plugin) : Plugin -> Prop :=
  | reach_start p r : initialDiscovery node root p0 = (p, r) -> discovery_reach node root p0 p
  | reach_step p p' : discovery_reach node root p0 p -> discovery_step p p' ->
      discovery_reach node root p0 p'.

(** This step counted the functions that the native driver could expose, and
    found none. *)
Definition no_candidate (p p' : Plugin) : Prop :=
  exists s1 s2, later (sys p) s1 /\ later s2 (sys p') /\
    countNativeCandidates (sysfsRoot (ds p)) (known_of (allocatable (ds p))) s1 = (s2, Ok 0%nat).

(** The failing streaks of the native half, with the transitions to report:
    a streak begins with the start, or with the first step that fails, and
    ends with a recovery, or silently when there is nothing to enumerate. *)
Inductive native_streaks (node root : string) (p0 : Plugin) : list bool -> Plugin -> Prop :=
  | ns_start p r : initialDiscovery node root p0 = (p, r) ->
      native_streaks node root p0 (if native_flag p then [true] else []) p
  | ns_same l p p' : native_streaks node root p0 l p -> discovery_step p p' ->
      native_flag p' = native_flag p -> native_streaks node root p0 l p'
  | ns_fail l p p' : native_streaks node root p0 l p -> discovery_step p p' ->
      native_flag p = false -> native_flag p' = true -> native_streaks node root p0 (l ++ [true]) p'
  | ns_recover l p p' : native_streaks node root p0 l p -> discovery_step p p' ->
      native_flag p = true -> native_flag p' = false -> native_streaks node root p0 (l ++ [false]) p'
  | ns_none l p p' : native_streaks node root p0 l p -> discovery_step p p' ->
      native_flag p' = false -> no_candidate p p' -> native_streaks node root p0 l p'.
End reach.

(** ** Concrete machines for the examples *)

Definition rootdir : string := "/sys/bus/pci/devices".
(** A native physical function without SR-IOV, and one bound to vfio-pci. *)
Definition native_fn : list (string * fnode) :=
  [ ("/sys/bus/pci/devices/0000:01:00.0", FDir []);
    ("/sys/bus/pci/devices/0000:01:00.0/vendor", FFile "0x1eff");
    ("/sys/bus/pci/devices/0000:01:00.0/driver", FLink "../../drivers/rebellions") ].
Definition vfio_fn (bus : string) : list (string * fnode) :=
  let dir := "/sys/bus/pci/devices/" +:+ bus in
  [ (dir, FDir []); (dir +:+ "/vendor", FFile "0x1eff");
    (dir +:+ "/driver", FLink "../../drivers/vfio-pci");
    (dir +:+ "/class", FFile "0x120000");
    (dir +:+ "/iommu_group", FLink "../../kernel/iommu_groups/7");
    (dir +:+ "/iommu_group/devices", FDir [bus]) ].
Definition node_table : list (string * fnode) :=
  ([(rootdir, FDir ["0000:01:00.0"; "0000:02:00.0"])] ++ native_fn ++ vfio_fn "0000:02:00.0")%list.
Definition native_inv : InvDevice :=
  {| iv_Name := "rbln0"; iv_PCIBusID := "0000:01:00.0"; iv_ProductName := "RBLN-CA25";
     iv_SID := "sid"; iv_UUID := "uuid"; iv_PCIDeviceID := "1250"; iv_PCILinkSpeed := "32GT/s";
     iv_PCILinkWidth := "16"; iv_FirmwareVersion := "3.0"; iv_KMDVersion := "2.0";
     iv_PCINumaNode := "0"; iv_MemoryTotalBytes := 17179869184 |}.
Definition node_smi : Smi := {| smi_at _ := Ok [native_inv] |}.
Definition empty_state (node root : string) : DeviceState :=
  {| nodeName := node; allocatable := ∅; driverResources := ∅; npuDevices := []; vfioDevices := [];
     sysfsRoot := root; scan := {| sysfsFailing := false; npuFailing := false; slow := false |} |}.
Definition plugin_start : Plugin :=
  {| sys := sys_start; ds := empty_state "node1" rootdir; smi_runs := 0 |}.

(** A published VFIO device whose vendor cannot be read any more. *)
Definition broken_table : list (string * fnode) :=
  [ (rootdir, FDir ["0000:02:00.0"]); ("/sys/bus/pci/devices/0000:02:00.0", FDir []);
    ("/sys/bus/pci/devices/0000:02:00.0/vendor", FBad EIO) ].

(** Runs on concrete machines. *)
Abbreviation tick_on l p := (@RescanDevices (table_host l) node_smi _ _ p).
Definition start_on (l : list (string * fnode)) : Plugin :=
  (@initialDiscovery (table_host l) node_smi "node1" rootdir plugin_start).1.
Definition tick_succeeds (o : Plugin * res (DriverResources * bool * option err)) : bool :=
  match o with (_, Ok (_, _, None)) => true | _ => false end.
Definition tick_changes (o : Plugin * res (DriverResources * bool * option err)) : bool :=
  match o with (_, Ok (_, ch, _)) => ch | _ => false end.
Definition names_of (o : Plugin) : list string * list string :=
  (map Name (npuDevices (ds o)), map Name (vfioDevices (ds o))).

(** A function bound to vfio-pci while the sysfs half of the start runs, and
    rebound to the native driver before rbln-smi reports it. *)
Definition rebound_early : list (string * fnode) :=
  ((rootdir, FDir ["0000:02:00.0"]) :: vfio_fn "0000:02:00.0")%list.
Definition rebound_late : list (string * fnode) :=
  [ (rootdir, FDir ["0000:02:00.0"]); ("/sys/bus/pci/devices/0000:02:00.0", FDir []);
    ("/sys/bus/pci/devices/0000:02:00.0/vendor", FFile "0x1eff");
    ("/sys/bus/pci/devices/0000:02:00.0/driver", FLink "../../drivers/rebellions") ].
Definition rebound_host : Host := switch_host 14 rebound_early rebound_late.
Definition rebound_smi : Smi := {| smi_at _ := Ok [ {|
  iv_Name := "rbln0"; iv_PCIBusID := "0000:02:00.0"; iv_ProductName := "RBLN-CA25";
  iv_SID := "sid"; iv_UUID := "uuid"; iv_PCIDeviceID := "1250"; iv_PCILinkSpeed := "32GT/s";
  iv_PCILinkWidth := "16"; iv_FirmwareVersion := "3.0"; iv_KMDVersion := "2.0";
  iv_PCINumaNode := ""; iv_MemoryTotalBytes := 0 |} ] |}.
Definition rebound_start : Plugin := (@initialDiscovery rebound_host rebound_smi "node1" rootdir plugin_start).1.

(** ** Lemmas *)

Section lemmas.
Context {hst : Host} {smi : Smi} `{!SemanticEqual Device, !SemanticEqual (list Device)}.

Lemma rebuildResources_ok d : inventory_ok (rebuildResources d).
Proof. done. Qed.

Lemma set_scan_ok f d : inventory_ok d -> inventory_ok (set_scan f d).
Proof. by intros [? ?]. Qed.

Lemma set_scan_same f d : same_inventory d (set_scan f d).
Proof. done. Qed.

Lemma first_duplicate_None seen l :
  first_duplicate seen l = None ->
  NoDup (map lower_bus l) /\ (forall d, d ∈ l -> lower_bus d ∉ seen).
Proof.
  revert seen. induction l as [|d l IH]; intros seen; simpl.
  - intros _. split; [constructor|set_solver].
  - fold (lower_bus d). case_bool_decide as Hs; [done|]. intros [Hnd Hl]%IH. split.
    + constructor; [|done]. intros (d' & Hd' & Hin)%list_elem_of_fmap.
      apply (Hl d' Hin). rewrite <- Hd'. set_solver.
    + intros d' [->|Hd']%elem_of_cons; [done|]. specialize (Hl _ Hd'). set_solver.
Qed.

Lemma first_duplicate_Some seen l bus :
  first_duplicate seen l = Some bus ->
  exists l1 d l2, l = (l1 ++ d :: l2)%list /\ lower_bus d = bus /\ (bus ∈ seen \/ bus ∈ map lower_bus l1).
Proof.
  revert seen. induction l as [|d l IH]; intros seen; simpl; [done|].
  fold (lower_bus d). case_bool_decide as Hs.
  - intros [= <-]. exists [], d, l. split_and!; [done|done|by left].
  - intros (l1 & d' & l2 & -> & Hb & Hin)%IH. exists (d :: l1), d', l2.
    split_and!; [done|done|]. simpl. set_solver.
Qed.

Lemma elem_of_known_of alloc bus :
  bus ∈ known_of alloc <->
  exists n d key, alloc !! n = Some d /\ key ∈ [pciBusIDAttributeKey; parentPCIBusIDAttributeKey] /\
    deviceStringAttr d key <> "" /\ bus = ToLower (deviceStringAttr d key).
Proof.
  unfold known_of. rewrite elem_of_list_to_set, list_elem_of_In, in_flat_map. split.
  - intros ([n d] & Hd%list_elem_of_In%elem_of_map_to_list & H%list_elem_of_In).
    apply list_elem_of_omap in H as (key & Hkey & H). simpl in H. case_bool_decide; [done|].
    injection H as <-. by exists n, d, key.
  - intros (n & d & key & Hd & Hkey & Hne & ->). exists (n, d). split.
    + by apply list_elem_of_In, elem_of_map_to_list.
    + apply list_elem_of_In, list_elem_of_omap. exists key. split; [done|].
      simpl. by rewrite bool_decide_false.
Qed.

(** A loop over an element that always fails fails. *)
Lemma forM_fails {S A B} (f : A -> M S B) l x s :
  x ∈ l -> (forall s0, exists s1 e, f x s0 = (s1, Err e)) -> exists s' e, forM f l s = (s', Err e).
Proof.
  intros Hx Hf. revert s. induction l as [|y l IH]; intros s; [by apply not_elem_of_nil in Hx|].
  simpl. unfold bind at 1. destruct (f y s) as [s1 [b|e]] eqn:E; [|eauto].
  apply elem_of_cons in Hx as [->|Hx].
  - destruct (Hf s) as (? & ? & ?). congruence.
  - destruct (IH Hx s1) as (s2 & e & H). unfold bind. rewrite H. eauto.
Qed.

Lemma isNativeCandidate_true root known name s s' :
  isNativeCandidate root known name s = (s', Ok true) ->
  pciAddressRegexp name = true /\
  observed s s' (is_rebellions (Join [root; name])) /\
  observed s s' (driver_is (Join [root; name]) nativePCIDriverName) /\
  (observed s s' (numvfs_is (Join [root; name]) 0) \/
   observed s s' (numvfs_absent (Join [root; name]))).
Proof.
  unfold isNativeCandidate. intros H. msplit;
    repeat match goal with Hn : ~ _ <> _ |- _ => apply dec_stable in Hn; subst end;
    (split_and!; [done|obs isRebellionsPCI_true|obs readPCIDriver_Ok|]).
  - left. obsw readSRIOVNumVFs_Ok. intros k (raw & ? & ? & ?). exists raw.
    match goal with H : true = negb _ |- _ =>
      symmetry in H; apply negb_true_iff, bool_decide_eq_false in H end.
    split_and!; [done| |lia]. match goal with H : ParseInt _ = Ok ?n |- _ =>
      replace 0%Z with n by lia end. done.
  - right. obs readSRIOVNumVFs_ENOENT.
Qed.

Lemma countNativeCandidates_seen root known s s' c :
  countNativeCandidates root known s = (s', Ok c) -> (0 < c)%nat -> native_seen root s s'.
Proof.
  unfold countNativeCandidates. intros H Hc. minv.
  match goal with H : forM _ _ _ = (_, Ok ?ys) |- _ =>
    pose proof (forM_trace sys_le _ _ _ _ _ _ H) as Ht;
    assert (true ∈ ys) as Hin end.
  { match goal with |- _ ∈ ?ys =>
      destruct (filter Is_true ys) as [|b l] eqn:E; [simpl in Hc; lia|];
      assert (b ∈ filter Is_true ys) as [Hb Hba]%list_elem_of_filter by (rewrite E; set_solver) end.
    by destruct b. }
  apply list_elem_of_lookup in Hin as [i Hi].
  destruct (Forall2_lookup_r _ _ _ _ _ Ht Hi) as (e & _ & s1 & s2 & ? & Hf & ?).
  exists (de_name e). apply isNativeCandidate_true in Hf as (? & ? & ? & Hn).
  learn_le. split_and!; [done|..].
  - eapply observed_widen; [..|done]; sys_chain.
  - eapply observed_widen; [..|done]; sys_chain.
  - destruct Hn; [left|right]; (eapply observed_widen; [..|done]; sys_chain).
Qed.

(** A known function whose vendor cannot be read although its entry is there
    stops the enumeration. *)
Lemma enumerateVfioDevices_known_unreadable v root known entries name no s :
  steady v -> v_readdir v root = inr entries -> name ∈ map de_name entries ->
  pciAddressRegexp name = true -> Base (Join [root; name]) = name -> ToLower name ∈ known ->
  value_fails (Join [root; name]) "vendor" no v ->
  no <> ENOENT \/ (exists fi, v_stat v (Join [root; name]) = inr fi) ->
  exists s' e, enumerateVfioDevices root known s = (s', Err e).
Proof.
  intros Hv Hdir Hin Hre Hbase Hk Hven Hno. unfold enumerateVfioDevices.
  unfold os_ReadDir, os_call, wrap_err, bind at 1. rewrite Hv, Hdir. simpl.
  apply list_elem_of_fmap in Hin as (e & -> & He).
  match goal with |- context [bind (forM ?f entries) _ ?s1] =>
    destruct (forM_fails f entries e s1 He) as (s2 & er & Hf) end; [|unfold bind; rewrite Hf; eauto].
  intros s0. unfold vfioEntry. rewrite Hre. cbn [negb]. cbv zeta. unfold bind at 1.
  assert (exists s1 e1, isRebellionsPCI (Join [root; de_name e]) known s0 = (s1, Err e1)) as (s1 & e1 & ->);
    [|eauto].
  unfold isRebellionsPCI, readSysfsValue, os_ReadFile, os_call. unfold bind, try. rewrite Hv.
  unfold value_fails in Hven. rewrite Hven. simpl. rewrite Hbase, bool_decide_true by done.
  unfold pciEntryRemoved. simpl. case_bool_decide as Hn; simpl; [|by do 2 eexists].
  subst no. destruct Hno as [?|[fi Hfi]]; [done|].
  unfold bind, try, os_Stat, os_call. rewrite Hv, Hfi. simpl. by do 2 eexists.
Qed.
End lemmas.

(** ** Log records of the sysfs half *)

(** No transition of the sysfs half is logged. *)
Definition quiet (p p' : Plugin) : Prop :=
  sysfs_records (logs (sys p')) = sysfs_records (logs (sys p)).

#[export] Instance quiet_preorder : PreOrder quiet.
Proof. split; [done|]. intros p1 p2 p3. unfold quiet. congruence. Qed.

Lemma sysfs_records_app l1 l2 : sysfs_records (l1 ++ l2) = (sysfs_records l1 ++ sysfs_records l2)%list.
Proof. apply omap_app. Qed.

Lemma sysfs_records_cons r l :
  sysfs_records (r :: l) =
  match sysfs_record r with Some b => b :: sysfs_records l | None => sysfs_records l end.
Proof. done. Qed.

Lemma sysfs_records_filter l : sysfs_records (filter scan_record l) = sysfs_records l.
Proof.
  induction l as [|r l IH]; [done|]. rewrite filter_cons, (sysfs_records_cons r l). case_decide as Hr.
  - by rewrite sysfs_records_cons, IH.
  - rewrite IH. unfold sysfs_record. unfold scan_record, scan_messages in Hr.
    rewrite !bool_decide_false; [done|..]; intros E; apply Hr; rewrite E; set_solver.
Qed.

#[export] Instance on_sys_quiet {A} (m : M Sys A) : Respects sys_le m -> Respects quiet (on_sys m).
Proof.
  intros Hm p. unfold zoom. specialize (Hm (sys p)). destruct (m (sys p)) as [s' r].
  destruct Hm as (_ & _ & _ & Hf). unfold quiet. simpl in *.
  by rewrite <- sysfs_records_filter, Hf, sysfs_records_filter.
Qed.

#[export] Instance on_sys_log_quiet l m :
  TCEq (bool_decide (sysfs_record {| lr_level := l; lr_msg := m |} = None)) true ->
  Respects quiet (on_sys (log l m)).
Proof.
  intros H%TCEq_eq%bool_decide_eq_true p. unfold quiet. simpl. rewrite sysfs_records_app.
  unfold sysfs_records at 2. cbn [omap list_omap]. by rewrite H, app_nil_r.
Qed.
#[export] Hint Extern 1 (Respects quiet (modify _)) => (intros ?; reflexivity) : typeclass_instances.
#[export] Instance when_quiet b m : Respects quiet m -> Respects quiet (when b m).
Proof. intros Hm. destruct b; [done|]. by intros p. Qed.

Lemma alternates_app b l1 l2 :
  alternates b (l1 ++ l2) = match alternates b l1 with Some b' => alternates b' l2 | None => None end.
Proof. revert b. induction l1 as [|x l1 IH]; intros b; simpl; [done|]. case_bool_decide; done. Qed.

(** [p'] continues the log of [p] with alternating transitions. *)
Definition alternating_from (b : bool) (p p' : Plugin) : Prop :=
  exists new, sysfs_records (logs (sys p')) = (sysfs_records (logs (sys p)) ++ new)%list /\
              alternates b new = Some (sysfsFailing (scan (ds p'))).

Lemma alternating_quiet p p' :
  quiet p p' -> sysfsFailing (scan (ds p')) = sysfsFailing (scan (ds p)) ->
  alternating_from (sysfsFailing (scan (ds p))) p p'.
Proof. intros Hq Hf. exists []. rewrite app_nil_r. split; [exact Hq|simpl; by rewrite Hf]. Qed.

Lemma alternating_trans b p1 p2 p3 :
  alternating_from b p1 p2 -> alternating_from (sysfsFailing (scan (ds p2))) p2 p3 ->
  alternating_from b p1 p3.
Proof.
  intros (n1 & H1 & Ha1) (n2 & H2 & Ha2). exists (n1 ++ n2)%list.
  split; [by rewrite H2, H1, app_assoc|]. by rewrite alternates_app, Ha1.
Qed.

Lemma alternating_log l m b p :
  sysfs_record {| lr_level := l; lr_msg := m |} = Some b -> sysfsFailing (scan (ds p)) = negb b ->
  forall p', logged [{| lr_level := l; lr_msg := m |}] p p' ->
  alternating_from (negb b) p (set_ds (set_scan (set_sysfsFailing b) (ds p')) p').
Proof.
  intros Hr Hf p' ->. exists [b]. simpl. rewrite sysfs_records_app. unfold sysfs_records at 2.
  cbn [omap list_omap]. rewrite Hr. split; [done|]. by destruct b.
Qed.

Section tick_logs.
Context {hst : Host} {smi : Smi} `{!SemanticEqual Device, !SemanticEqual (list Device)}.

#[export] Instance inventoryFn_quiet : Respects quiet inventoryFn.
Proof. by intros p. Qed.
#[export] Instance enumerateNpuDevices_quiet : Respects quiet enumerateNpuDevices.
Proof. unfold enumerateNpuDevices. solve_respects. Qed.
#[export] Instance rescanNative_quiet c : Respects quiet (rescanNative c).
Proof. unfold rescanNative. solve_respects. Qed.
#[export] Instance rescanCommit_quiet npu vfio sk : Respects quiet (rescanCommit npu vfio sk).
Proof. unfold rescanCommit. solve_respects; apply when_quiet; solve_respects. Qed.
#[export] Instance initialDiscovery_quiet node root : Respects quiet (initialDiscovery node root).
Proof. unfold initialDiscovery. solve_respects. Qed.
#[export] Instance observeScanDuration_quiet a b : Respects quiet (observeScanDuration a b).
Proof. unfold observeScanDuration. solve_respects. Qed.
End tick_logs.

(** ** Log records of the native half *)

(** No transition of the native half is logged, and its flag stays. *)
Definition nkeep (p p' : Plugin) : Prop :=
  native_records (logs (sys p')) = native_records (logs (sys p)) /\ native_flag p' = native_flag p /\
  later (sys p) (sys p').

#[export] Instance nkeep_preorder : PreOrder nkeep.
Proof. split; [done|]. intros p1 p2 p3 (? & ? & ?) (? & ? & ?). split_and!; [congruence..|by etrans]. Qed.

Lemma native_records_app l1 l2 : native_records (l1 ++ l2) = (native_records l1 ++ native_records l2)%list.
Proof. apply omap_app. Qed.

Lemma native_records_filter l : native_records (filter scan_record l) = native_records l.
Proof.
  induction l as [|r l IH]; [done|]. rewrite filter_cons. change (r :: l) with ([r] ++ l)%list.
  rewrite (native_records_app [r] l). case_decide as Hr.
  - change (r :: filter scan_record l) with ([r] ++ filter scan_record l)%list. by rewrite native_records_app, IH.
  - rewrite IH. assert (native_record r = None) as Hn.
    { unfold native_record. unfold scan_record, scan_messages in Hr.
      rewrite !bool_decide_false; [done|..]; intros E; apply Hr; rewrite E; set_solver. }
    unfold native_records at 2. cbn [omap list_omap]. by rewrite Hn.
Qed.

#[export] Instance on_sys_nkeep {A} (m : M Sys A) : Respects sys_le m -> Respects nkeep (on_sys m).
Proof.
  intros Hm p. unfold zoom. specialize (Hm (sys p)). destruct (m (sys p)) as [s' r].
  destruct Hm as (Hc & _ & _ & Hf). split; [|by split]. simpl in *.
  by rewrite <- native_records_filter, Hf, native_records_filter.
Qed.
#[export] Instance on_sys_log_nkeep l m :
  TCEq (bool_decide (native_record {| lr_level := l; lr_msg := m |} = None)) true ->
  Respects nkeep (on_sys (log l m)).
Proof.
  intros H%TCEq_eq%bool_decide_eq_true p. split; [|split; [done|unfold later; simpl; lia]]. simpl. rewrite native_records_app.
  unfold native_records at 2. cbn [omap list_omap]. by rewrite H, app_nil_r.
Qed.
#[export] Instance upd_ds_nkeep f :
  (forall d, npuFailing (scan (f d)) = npuFailing (scan d)) -> Respects nkeep (upd_ds f).
Proof. intros Hf p. split_and!; [done|apply Hf|done]. Qed.
#[export] Hint Extern 1 (Respects nkeep (modify _)) => (intros ?; split_and!; reflexivity) : typeclass_instances.
#[export] Instance when_nkeep b m : Respects nkeep m -> Respects nkeep (when b m).
Proof. intros Hm. destruct b; [done|]. by intros p. Qed.

Section native_logs.
Context {hst : Host} {smi : Smi} `{!SemanticEqual Device, !SemanticEqual (list Device)}.

#[export] Instance inventoryFn_nkeep : Respects nkeep inventoryFn.
Proof. intros p. split_and!; [done|done|]. unfold later. simpl. lia. Qed.
#[export] Instance enumerateNpuDevices_nkeep : Respects nkeep enumerateNpuDevices.
Proof. unfold enumerateNpuDevices. solve_respects. Qed.
#[export] Instance rescanCommit_nkeep npu vfio sk : Respects nkeep (rescanCommit npu vfio sk).
Proof. unfold rescanCommit. solve_respects; apply when_nkeep; solve_respects. Qed.
#[export] Instance observeScanDuration_nkeep a b : Respects nkeep (observeScanDuration a b).
Proof. unfold observeScanDuration. solve_respects. Qed.

(** What a step reports of the native half. *)
Definition native_reports (p p' : Plugin) (l : list bool) : Prop :=
  native_records (logs (sys p')) = (native_records (logs (sys p)) ++ l)%list.

Lemma rescanNative_reports c p p' r :
  rescanNative c p = (p', r) ->
  exists l, native_reports p p' l /\
    ((l = [] /\ native_flag p' = native_flag p) \/ (l = [true] /\ native_flag p = false /\ native_flag p' = true) \/
     (l = [false] /\ native_flag p = true /\ native_flag p' = false) \/ (l = [] /\ native_flag p' = false /\ c = 0%nat)).
Proof.
  unfold rescanNative, native_reports. case_bool_decide as Hc; intros H.
  2: { minv. exists []. rewrite app_nil_r. split; [done|]. do 3 right. split_and!; [done|done|lia]. }
  apply bind_try in H as (p1 & rn & Hn & H). apply (respects_run nkeep) in Hn as (Hn1 & Hn2 & _); [|apply _].
  rewrite bind_gets in H. rewrite <- Hn1, <- Hn2. fold (native_flag p1) in H.
  destruct (res_is_err rn), (native_flag p1) eqn:Ef; unfold when in H; cbn [negb andb] in H; pinv;
    eexists; (split; [simpl; try (rewrite native_records_app; f_equal; reflexivity); by rewrite app_nil_r|]); auto 10.
Qed.
End native_logs.

(** ** Runs of the discovery steps *)

Section steps.
Context {hst : Host} {smi : Smi} `{!SemanticEqual Device, !SemanticEqual (list Device)}.

Lemma observeScanDuration_run a b p p' r :
  observeScanDuration a b p = (p', r) -> exists f, ds p' = set_scan f (ds p) /\
    (forall x, sysfsFailing (f x) = sysfsFailing x).
Proof. unfold observeScanDuration. intros H. pinv. by eexists. Qed.

(** The start never returns an error of its own. *)
Lemma initialDiscovery_run node root p p' r :
  initialDiscovery node root p = (p', r) ->
  r = Ok tt /\ inventory_ok (ds p') /\ sysfsFailing (scan (ds p')) = false /\
  nodeName (ds p') = node /\ sysfsRoot (ds p') = root.
Proof.
  unfold initialDiscovery. intros H.
  apply bind_try in H as (p1 & vr & _ & H).
  apply bind_run in H as [(p2 & [] & _ & H)|(e & H & ->)]; [|by apply when_log_run in H as [? _]].
  destruct (match vr with Ok p => p | Err _ => ([], []) end) as [vfio vsk].
  apply bind_try in H as (p3 & cr & _ & H).
  apply bind_run in H as [(p4 & nr & _ & H)|(e & H & _)].
  2: { destruct cr as [[|]|]; [|by apply try_not_Err in H..]. pinv. }
  apply bind_run in H as [(p5 & [] & _ & H)|(e & H & ->)]; [|by apply when_log_run in H as [? _]].
  destruct (match nr with Ok p => p | Err _ => ([], []) end) as [npu nsk].
  destruct (logInitialInventory_run npu vfio nsk vsk (sys p5)) as [s6 E6].
  unfold bind, zoom in H. rewrite E6 in H. unfold modify in H. by simplify_eq.
Qed.

Lemma RescanDevices_same p p' r ch e :
  RescanDevices p = (p', Ok (r, ch, Some e)) ->
  ch = false /\ r = driverResources (ds p) /\ same_inventory (ds p) (ds p').
Proof.
  intros H. destruct (RescanDevices_run p) as (q & r' & ch' & oe & E & Hq).
  rewrite E in H. simplify_eq. destruct Hq as [-> -> [f ->] _]. done.
Qed.

Lemma RescanDevices_ok p p' r ch oe :
  inventory_ok (ds p) -> RescanDevices p = (p', Ok (r, ch, oe)) -> inventory_ok (ds p').
Proof.
  intros Hok H. destruct (RescanDevices_run p) as (q & r' & ch' & oe' & E & Hq).
  rewrite E in H. simplify_eq. destruct oe as [e|].
  - destruct Hq as [_ _ [f ->] _]. by apply set_scan_ok.
  - destruct (td_state _ _ _ _ Hq) as [f ->]. destruct ch; [apply rebuildResources_ok|by apply set_scan_ok].
Qed.

Lemma sysfs_quiet {A} (m : M Sys A) p s' r :
  Respects sys_le m -> m (sys p) = (s', r) ->
  alternating_from (sysfsFailing (scan (ds p))) p (set_sys s' p).
Proof.
  intros Hm H. apply alternating_quiet; [|done]. unfold quiet. simpl.
  pose proof (respects_run sys_le _ _ _ _ _ H) as (_ & _ & _ & Hf).
  by rewrite <- sysfs_records_filter, Hf, sysfs_records_filter.
Qed.

Lemma recover_alternating p p' r :
  when (sysfsFailing (scan (ds p))) (do! on_sys (log LInfo "Device scan recovered") in
    upd_ds (set_scan (set_sysfsFailing false))) p = (p', r) ->
  alternating_from (sysfsFailing (scan (ds p))) p p'.
Proof.
  unfold when. destruct (sysfsFailing (scan (ds p))) eqn:E; intros H.
  - apply bind_run in H as [(p3 & [] & Hl & H)|(e & Hl & ?)]; [|by apply log_run in Hl as [? _]].
    apply log_run in Hl as [_ Hl]. unfold modify in H. simplify_eq.
    eapply (alternating_log LInfo "Device scan recovered" false); [done|exact E|exact Hl].
  - minv. rewrite <- E. by apply alternating_quiet.
Qed.

Lemma failure_alternating p p' r :
  (do! when (negb (sysfsFailing (scan (ds p))))
        (on_sys (log LError "Device scan failed, keeping last inventory")) in
   upd_ds (set_scan (set_sysfsFailing true))) p = (p', r) ->
  alternating_from (sysfsFailing (scan (ds p))) p p'.
Proof.
  unfold when. destruct (sysfsFailing (scan (ds p))) eqn:E; intros H; simpl in H.
  - minv. exists []. simpl. by rewrite app_nil_r.
  - apply bind_run in H as [(p3 & [] & Hl & H)|(e & Hl & ?)]; [|by apply log_run in Hl as [? _]].
    apply log_run in Hl as [_ Hl]. unfold modify in H. simplify_eq.
    eapply (alternating_log LError "Device scan failed, keeping last inventory" true); [done|exact E|exact Hl].
Qed.

(** The rest of a tick, after the sysfs half was read. *)
Lemma native_part_alternating c vfio vsk p p' r :
  (let? native := rescanNative c in
   match native with
   | Err e => let! r := gets (fun p => driverResources (ds p)) in ret (r, false, Some e)
   | Ok (npu, npuSkipped) =>
       match first_duplicate ∅ (npu ++ vfio)%list with
       | Some bus =>
           do! on_sys (log LError "Discarding inconsistent device scan") in
           let! r := gets (fun p => driverResources (ds p)) in
           ret (r, false, Some (ErrText ("PCI function " +:+ bus +:+ " appeared in both discovery results")))
       | None =>
           let! (r, changed) := rescanCommit npu vfio (npuSkipped ++ vsk)%list in
           ret (r, changed, None)
       end
   end) p = (p', r) ->
  alternating_from (sysfsFailing (scan (ds p))) p p'.
Proof.
  intros H. apply bind_try in H as (p3 & rn & Hn & H).
  eapply alternating_trans.
  { apply alternating_quiet; [by eapply (respects_run quiet); [|exact Hn]; apply _|].
    by apply rescanNative_run in Hn as (_ & _ & -> & _). }
  destruct rn as [[npu nsk]|e]; [|pinv; by apply alternating_quiet].
  destruct (first_duplicate ∅ (npu ++ vfio)) as [bus|].
  { apply bind_run in H as [(p4 & [] & Hl & H)|(e & Hl & ->)]; [|by apply log_run in Hl as [? _]].
    apply log_run in Hl as [_ ->]. minv. apply alternating_quiet; [|done].
    unfold quiet. simpl. rewrite sysfs_records_app. apply app_nil_r. }
  destruct (rescanCommit_run npu vfio (nsk ++ vsk)%list p3) as (p4 & ch & r' & Hc & _ & _ & _ & _ & Hd).
  unfold bind in H. rewrite Hc in H. cbv beta iota in H. minv.
  apply alternating_quiet; [by eapply (respects_run quiet); [|exact Hc]; apply _|].
  rewrite Hd. by destruct ch.
Qed.

Lemma RescanDevices_records p p' r :
  RescanDevices p = (p', r) -> alternating_from (sysfsFailing (scan (ds p))) p p'.
Proof.
  unfold RescanDevices. intros H. rewrite !bind_gets in H.
  apply bind_try in H as (p1 & rd & Hs & H). rewrite bind_gets in H.
  apply zoom_inv in Hs as (s1 & Hs & ->). apply sysfs_quiet in Hs; [|apply _].
  eapply alternating_trans; [exact Hs|]. destruct rd as [[[vfio vsk] c]|e].
  - apply bind_run in H as [(p2 & [] & Hr & H)|(e & Hr & ->)];
      [|by apply recover_run in Hr as [? _]].
    apply recover_alternating in Hr. eapply alternating_trans; [exact Hr|].
    by eapply native_part_alternating.
  - destruct (failure_alternating (set_sys s1 p) p' (Ok tt)) as (new & ? & ?); [|by exists new].
    revert H. unfold when. case_match; intros Hrun; pinv; done.
Qed.

Lemma sysfs_alternates node root p0 p : discovery_reach node root p0 p -> alternating_from false p0 p.
Proof.
  intros Hreach. induction Hreach as [p r H|p p' _ IH Hstep].
  - pose proof (respects_run quiet _ _ _ _ _ H) as Hq.
    apply initialDiscovery_run in H as (_ & _ & Hf & _). exists []. rewrite app_nil_r, Hf. done.
  - eapply alternating_trans; [exact IH|]. destruct Hstep as [p p' r H|a b p p' r H].
    + by eapply RescanDevices_records.
    + pose proof (respects_run quiet _ _ _ _ _ H) as Hq.
      apply observeScanDuration_run in H as (f & Hd & Hf). apply alternating_quiet; [done|].
      rewrite Hd. apply Hf.
Qed.

(** The native half of the start and of a step. *)
Lemma initialDiscovery_reports node root p p' r :
  initialDiscovery node root p = (p', r) -> native_reports p p' (if native_flag p' then [true] else []).
Proof.
  unfold initialDiscovery, native_reports. intros H.
  apply bind_try in H as (p1 & vr & Hv & H). apply (respects_run nkeep) in Hv as [Hv _]; [|apply _].
  apply bind_run in H as [(p2 & [] & Hw & H)|(e & H & ->)]; [|by apply when_log_run in H as [? _]].
  apply (respects_run nkeep) in Hw as [Hw _]; [|apply _].
  destruct (match vr with Ok p => p | Err _ => ([], []) end) as [vfio vsk].
  apply bind_try in H as (p3 & cr & Hc & H). apply (respects_run nkeep) in Hc as [Hc _]; [|apply _].
  apply bind_run in H as [(p4 & nr & Hn & H)|(e & H & _)].
  2: { destruct cr as [[|]|]; [|by apply try_not_Err in H..]. pinv. }
  assert (native_records (logs (sys p4)) = native_records (logs (sys p3))) as Hn4.
  { destruct cr as [[|]|]; (eapply (respects_run nkeep) in Hn as [? _]; [done|]); solve_respects. }
  apply bind_run in H as [(p5 & [] & Hl & H)|(e & H & ->)]; [|by apply when_log_run in H as [? _]].
  apply when_log_run in Hl as [_ ->].
  destruct (match nr with Ok p => p | Err _ => ([], []) end) as [npu nsk].
  apply bind_run in H as [(p6 & [] & Hi & H)|(e & Hi & ->)].
  2: { apply zoom_inv in Hi as (s6 & Hi & _). destruct (logInitialInventory_run npu vfio nsk vsk
    (sys {| sys := {| clk := clk (sys p4); now := now (sys p4);
       logs := (logs (sys p4) ++ if res_is_err nr then [{| lr_level := LError; lr_msg := "rbln-smi enumeration failed, starting without native devices" |}] else [])%list |};
       ds := ds p4; smi_runs := smi_runs p4 |})) as [s7 E]. rewrite E in Hi. by simplify_eq. }
  apply (respects_run nkeep) in Hi as [Hi _]; [|apply _]. unfold modify in H. simplify_eq. simpl. rewrite Hi. simpl.
  rewrite native_records_app, Hn4, Hc, Hw, Hv. unfold native_flag. simpl. by destruct (res_is_err nr).
Qed.

Lemma RescanDevices_reports p p' r :
  RescanDevices p = (p', r) ->
  exists l, native_reports p p' l /\
    ((l = [] /\ native_flag p' = native_flag p) \/ (l = [true] /\ native_flag p = false /\ native_flag p' = true) \/
     (l = [false] /\ native_flag p = true /\ native_flag p' = false) \/
     (l = [] /\ native_flag p' = false /\ no_candidate p p')).
Proof.
  intros Hrun. pose proof Hrun as H. unfold RescanDevices in H. rewrite !bind_gets in H.
  apply bind_try in H as (p1 & rd & Hs & H). rewrite bind_gets in H.
  pose proof (respects_run nkeep _ _ _ _ _ Hs) as (Hs1 & Hs2 & Hs3).
  destruct rd as [[[vfio vsk] c]|e].
  - apply bind_run in H as [(p2 & [] & Hr & H)|(e & Hr & ->)]; [|by apply recover_run in Hr as [? _]].
    assert (nkeep p1 p2) as (Hr1 & Hr2 & Hr3).
    { eapply (respects_run nkeep); [|exact Hr]. apply when_nkeep. solve_respects. }
    apply bind_try in H as (p3 & rn & Hn & H). pose proof Hn as Hn'. apply rescanNative_reports in Hn as (l & Hn & Hl).
    assert (nkeep p3 p') as (H1 & H2 & H3).
    { eapply (respects_run nkeep); [|exact H]. destruct rn as [[npu nsk]|e]; [|solve_respects].
      destruct (first_duplicate _ _); solve_respects. }
    exists l. unfold native_reports in *. split; [by rewrite H1, Hn, Hr1, Hs1|]. rewrite H2, <- Hs2, <- Hr2.
    destruct Hl as [?|[?|[?|(-> & ? & ->)]]]; auto 10. do 3 right. split_and!; [done|done|].
    apply zoom_inv in Hs as (s1 & Hs & ->). apply rescanSysfs_run in Hs as (s0 & He & Hc). exists s0, s1.
    split_and!; [|apply rescanNative_run in Hn' as (Hn' & _); unfold later in *; simpl in *; lia|exact Hc].
    by apply (respects_run sys_le) in He as (He & _); [|apply _].
  - assert (nkeep p1 p') as (H1 & H2 & _) by (eapply (respects_run nkeep); [|exact H]; solve_respects; apply when_nkeep; solve_respects).
    exists []. unfold native_reports. rewrite app_nil_r. split; [by rewrite H1|left; split; [done|congruence]].
Qed.

Lemma discovery_step_reports p p' :
  discovery_step p p' ->
  exists l, native_reports p p' l /\
    ((l = [] /\ native_flag p' = native_flag p) \/ (l = [true] /\ native_flag p = false /\ native_flag p' = true) \/
     (l = [false] /\ native_flag p = true /\ native_flag p' = false) \/
     (l = [] /\ native_flag p' = false /\ no_candidate p p')).
Proof.
  intros [p1 p2 r H|a b p1 p2 r H]; [by eapply RescanDevices_reports|].
  apply (respects_run nkeep) in H as (H1 & H2 & _); [|apply _]. exists []. unfold native_reports. rewrite app_nil_r. auto.
Qed.
End steps.

(** ** The properties *)

Section theorems.
Context {hst : Host} {smi : Smi} `{!SemanticEqual Device, !SemanticEqual (list Device)}.

(** A tick that fails, whatever read failed and whatever the machine did
    meanwhile, publishes nothing new: it answers the last resources with
    [changed = false], and the lists, the lookup table and the pool are those
    of before. *)
Theorem RescanDevices_failed_keeps p p' r ch e :
  RescanDevices p = (p', Ok (r, ch, Some e)) ->
  ch = false /\ r = driverResources (ds p) /\ same_inventory (ds p) (ds p').
Proof. apply RescanDevices_same. Qed.

(** In every state the discovery can reach, by any sequence of ticks on
    any history of the machine, the published pool holds exactly the current
    native and VFIO lists, and Prepare's lookup table indexes the same lists. *)
Theorem discovery_inventory_ok node root p0 p :
  discovery_reach node root p0 p -> inventory_ok (ds p).
Proof.
  intros Hreach. induction Hreach as [p r H|p p' _ IH Hstep]; [by apply initialDiscovery_run in H as (_ & ? & _)|].
  destruct Hstep as [p p' r H|a b p p' r H].
  - destruct (RescanDevices_run p) as (q & r' & ch & oe & E & _). rewrite E in H. simplify_eq.
    by eapply RescanDevices_ok.
  - apply observeScanDuration_run in H as (f & -> & _). by apply set_scan_ok.
Qed.


(** C6: No successful tick publishes one PCI function twice, under whatever
    names and letter case, even when the function was rebound between the
    sysfs and the rbln-smi reads. *)
Theorem RescanDevices_no_duplicate p p' r ch :
  RescanDevices p = (p', Ok (r, ch, None)) ->
  NoDup (map lower_bus (npuDevices (ds p') ++ vfioDevices (ds p'))).
Proof.
  intros H. destruct (RescanDevices_run p) as (q & r' & ch' & oe & E & Hq). rewrite E in H. simplify_eq.
  apply (first_duplicate_None ∅). apply Hq.
Qed.

(** C7: Every device a successful tick leaves published was justified by
    reads of that same tick: a VFIO device by its vendor, driver, class,
    SR-IOV layout and exclusive IOMMU group, a native one by an entry of the
    inventory rbln-smi gave then, its driver and its SR-IOV layout. *)
Theorem RescanDevices_justified p p' r ch :
  RescanDevices p = (p', Ok (r, ch, None)) ->
  (forall d, d ∈ vfioDevices (ds p') -> exists bus, vfio_published (sysfsRoot (ds p)) bus (sys p) (sys p') d) /\
  (forall d, d ∈ npuDevices (ds p') -> exists inv devs t,
     (clk (sys p) <= t < clk (sys p'))%nat /\ smi_at t = Ok devs /\ inv ∈ devs /\
     npu_published (sysfsRoot (ds p)) inv (sys p) (sys p') d).
Proof.
  intros H. destruct (RescanDevices_run p) as (q & r' & ch' & oe & E & Hq). rewrite E in H. simplify_eq.
  destruct Hq as [_ _ _ (s1 & s2 & sk & ? & ? & Hv) (c & _ & _ & _ & _ & _ & _ & Hn) _ _]. split.
  - apply enumerateVfioDevices_verdicts in Hv as (entries & vs & _ & Hvs & -> & _).
    intros d Hd. destruct (omap_Forall2 _ _ _ _ _ Hvs Hd) as (e & [|sk'|d'] & _ & _ & Hver & Hd'); simplify_eq/=.
    exists (de_name e). by eapply vfio_published_widen.
  - destruct Hn as [[_ ->]|(_ & devs & t & s3 & s4 & sk' & Ht & Hsmi & ? & ? & Hn)]; [by intros d ?%not_elem_of_nil|].
    apply npuDevicesFromInventory_verdicts in Hn as (vs & Hvs & -> & _).
    intros d Hd. destruct (omap_Forall2 _ _ _ _ _ Hvs Hd) as (inv & [|sk2|d'] & Hinv & _ & Hver & Hd'); simplify_eq/=.
    exists inv, devs, t. split_and!; [lia|lia|done|done|].
    eapply (npu_verdict_ok_widen _ _ _ _ _ _ (VDevice d)); [| |exact Hver]; done.
Qed.

(** A tick runs rbln-smi at most once, and only if during that tick sysfs
    showed a Rebellions function bound to the native driver that hosts no
    VFs; a VM-passthrough node never executes it. *)
Theorem RescanDevices_smi_gate p p' r :
  RescanDevices p = (p', r) ->
  smi_runs p' = smi_runs p \/
  (smi_runs p' = S (smi_runs p) /\ native_seen (sysfsRoot (ds p)) (sys p) (sys p')).
Proof.
  intros H. destruct (RescanDevices_run p) as (q & r' & ch & oe & E & Hq). rewrite E in H. simplify_eq.
  assert (tick_smi p p') as [?|(? & c & s1 & s2 & Hc & ? & ? & Hn)] by (destruct oe; apply Hq); [by left|right].
  split; [done|]. destruct (countNativeCandidates_seen _ _ _ _ _ Hn Hc) as (name & ? & ? & ? & Hv).
  exists name. split_and!; [done|by eapply observed_widen|by eapply observed_widen|].
  destruct Hv; [left|right]; by eapply observed_widen.
Qed.


(** On a machine and an inventory that no longer change, two successful scans
    find the same devices, whatever failed in between. *)
Lemma RescanDevices_settles T v devs p p1 q q2 r1 r2 ch1 ch2 :
  steady_from T v -> (forall t, (T <= t)%nat -> smi_at t = devs) -> (T <= clk (sys p))%nat -> (T <= clk (sys q))%nat ->
  same_inventory (ds p1) (ds q) ->
  RescanDevices p = (p1, Ok (r1, ch1, None)) -> RescanDevices q = (q2, Ok (r2, ch2, None)) ->
  ch2 = false /\ same_inventory (ds p1) (ds q2).
Proof.
  intros Hv Hsmi HTp HTq (Hnode & Halloc & Hres & Hnpuq & Hvfioq & Hrootq) H1 H2.
  destruct (RescanDevices_run p) as (? & ? & ? & ? & E1 & Hq1). rewrite E1 in H1. simplify_eq.
  destruct (RescanDevices_run q) as (? & ? & ? & ? & E2 & Hq2). rewrite E2 in H2. simplify_eq.
  assert (sysfsRoot (ds q) = sysfsRoot (ds p)) as Hroot.
  { rewrite Hrootq. destruct Hq1 as [_ _ [f ->] _ _ _ _]. by destruct ch1. }
  destruct Hq1 as [_ _ _ (? & ? & ? & ? & _ & Hv1) (c1 & ? & ? & ? & _ & Hc1 & _ & Hn1) _ _].
  destruct Hq2 as [_ Hch2 [f2 Hf2] (? & ? & ? & ? & _ & Hv2) (c2 & ? & ? & ? & _ & Hc2 & _ & Hn2) _ _].
  rewrite Hroot in *. unfold later in *.
  match type of Hv1 with _ ?a = _ => match type of Hv2 with _ ?b = _ =>
    assert (T <= clk a)%nat as Ha by lia; assert (T <= clk b)%nat as Hb by lia end end.
  pose proof (enumerateVfioDevices_steady T v Hv _ _ _ _ _ _ _ _ _ Ha Hb Hv1 Hv2). simplify_eq. clear Ha Hb.
  match type of Hc1 with _ ?a = _ => match type of Hc2 with _ ?b = _ =>
    assert (T <= clk a)%nat as Ha by lia; assert (T <= clk b)%nat as Hb by lia end end.
  pose proof (countNativeCandidates_steady T v Hv _ _ _ _ _ _ _ _ _ Ha Hb Hc1 Hc2). subst c2.
  assert (npuDevices (ds q2) = npuDevices (ds p1)) as Hnpu.
  { destruct Hn1 as [[? Hn1]|(? & d1 & t1 & u1 & ? & ? & ? & Hs1 & ? & _ & Hn1)],
      Hn2 as [[? Hn2]|(? & d2 & t2 & u2 & ? & ? & ? & Hs2 & ? & _ & Hn2)]; [congruence|lia|lia|].
    rewrite Hsmi in Hs1, Hs2 by lia. simplify_eq.
    unshelve epose proof (npuDevicesFromInventory_steady T v Hv _ _ _ _ _ _ _ _ _ _ Hn1 Hn2); [lia|lia|]. by simplify_eq. }
  assert (ch2 = false) as -> by (apply Hch2; split; congruence). split; [done|]. rewrite Hf2.
  exact (conj Hnode (conj Halloc (conj Hres (conj Hnpuq (conj Hvfioq (eq_trans Hroot Hrootq)))))).
Qed.

End theorems.

(** C25: The VFIO enumeration accounts for every entry of the directory it
    listed, in order: the entry's function is published; or it is recorded as
    skipped, because it was seen to host VFs, or with an unsupported SR-IOV
    layout, or without an IOMMU group of its own; or it was seen not to be a
    vfio-pci NPU. The devices and the skips returned are those of the entries,
    in the order of the listing, and no other. *)
Theorem enumerateVfioDevices_accounts {hst : Host} root known s s' devs sks :
  enumerateVfioDevices root known s = (s', Ok (devs, sks)) ->
  exists entries vs, observed s s' (fun k => v_readdir k root = inr entries) /\
    Forall2 (fun e v =>
      match v with
      | VDevice d => vfio_published root (de_name e) s s' d
      | VSkip sk => sk_pciBusID sk = de_name e /\ skip_justified root (de_name e) s s' sk
      | VNone => vfio_excuse root (de_name e) known s s'
      end) entries vs /\
    devs = published vs /\ sks = skipped_of vs.
Proof. apply enumerateVfioDevices_verdicts. Qed.

(** C26: The native conversion accounts for every entry of the rbln-smi
    inventory in order: it is published; or it is recorded as skipped, because
    it was seen to be gone from sysfs, with an unsupported SR-IOV layout, or
    hosting VFs; or another driver, or none, was seen to hold it. The devices
    and the skips returned are those of the entries, in the order of the
    inventory, and no other. *)
Theorem npuDevicesFromInventory_accounts {hst : Host} root invs s s' devs sks :
  npuDevicesFromInventory root invs s = (s', Ok (devs, sks)) ->
  exists vs,
    Forall2 (fun inv v =>
      match v with
      | VDevice d => npu_published root inv s s' d
      | VSkip sk => npu_skip_ok root inv s s' sk
      | VNone => exists drv, drv <> nativePCIDriverName /\
                   observed s s' (driver_is (Join [root; ToLower (iv_PCIBusID inv)]) drv)
      end) invs vs /\
    devs = published vs /\ sks = skipped_of vs.
Proof. apply npuDevicesFromInventory_verdicts. Qed.

(** The start has no such check: on a machine where a function is rebound
    from vfio-pci to the native driver between the two reads of
    NewDeviceState, the first published inventory holds it under both names. *)
Theorem initialDiscovery_publishes_twice :
  inventory_ok (ds rebound_start) /\
  names_of rebound_start = (["rbln0"], ["vfio-0000-02-00-0"]) /\
  map lower_bus (npuDevices (ds rebound_start) ++ vfioDevices (ds rebound_start)) =
    ["0000:02:00.0"; "0000:02:00.0"].
Proof.
  split_and!; [|vm_compute; reflexivity..].
  assert (exists r, @initialDiscovery rebound_host rebound_smi "node1" rootdir plugin_start = (rebound_start, r))
    as [r H] by (unfold rebound_start; destruct (@initialDiscovery _ _ _ _ _); by eexists).
  by apply initialDiscovery_run in H as (_ & ? & _).
Qed.

(** ** Concrete runs *)

Lemma tick_succeeds_run (o : Plugin * res (DriverResources * bool * option err)) :
  tick_succeeds o = true -> exists p' r ch, o = (p', Ok (r, ch, None)).
Proof. destruct o as [? [[[??] [?|]]|?]]; [done|eauto|done]. Qed.

Lemma tick_failed_run (p : Plugin) {hst : Host} {smi : Smi}
    `{!SemanticEqual Device, !SemanticEqual (list Device)} :
  tick_succeeds (RescanDevices p) = false -> exists p' r ch e, RescanDevices p = (p', Ok (r, ch, Some e)).
Proof.
  destruct (RescanDevices_run p) as (p' & r & ch & [e|] & -> & _); [|done]. eauto.
Qed.

Lemma RescanDevices_failed_keeps_witness :
  exists p' r ch e, tick_on broken_table (start_on node_table) = (p', Ok (r, ch, Some e)) /\
    ch = false /\ r = driverResources (ds (start_on node_table)) /\
    same_inventory (ds (start_on node_table)) (ds p').
Proof.
  destruct (@tick_failed_run (start_on node_table) (table_host broken_table) node_smi _ _)
    as (p' & r & ch & e & E); [vm_compute; reflexivity|].
  exists p', r, ch, e. split; [exact E|]. exact (RescanDevices_failed_keeps _ _ _ _ _ E).
Defined.

Lemma RescanDevices_no_duplicate_witness :
  exists p' r ch, tick_on node_table plugin_start = (p', Ok (r, ch, None)) /\
    map lower_bus (npuDevices (ds p') ++ vfioDevices (ds p')) = ["0000:01:00.0"; "0000:02:00.0"] /\
    NoDup (map lower_bus (npuDevices (ds p') ++ vfioDevices (ds p'))).
Proof.
  destruct (tick_succeeds_run (tick_on node_table plugin_start))
    as (p' & r & ch & E); [vm_compute; reflexivity|]. exists p', r, ch. split_and!; [exact E| |].
  - change p' with ((p', @Ok (DriverResources * bool * option err) (r, ch, None)).1). rewrite <- E. vm_compute. reflexivity.
  - exact (RescanDevices_no_duplicate _ _ _ _ E).
Defined.

Lemma RescanDevices_justified_witness :
  exists p' r ch, tick_on node_table plugin_start = (p', Ok (r, ch, None)) /\
    names_of p' = (["rbln0"], ["vfio-0000-02-00-0"]) /\
    (forall d, d ∈ vfioDevices (ds p') -> exists bus,
       @vfio_published (table_host node_table) rootdir bus sys_start (sys p') d).
Proof.
  destruct (tick_succeeds_run (tick_on node_table plugin_start))
    as (p' & r & ch & E); [vm_compute; reflexivity|]. exists p', r, ch. split_and!; [exact E| |].
  - change p' with ((p', @Ok (DriverResources * bool * option err) (r, ch, None)).1). rewrite <- E. vm_compute. reflexivity.
  - exact (proj1 (RescanDevices_justified _ _ _ _ E)).
Defined.


(** A start whose inventory fails, then failing ticks and a good one. *)
Definition failing_host : Host := switch_host 5 [(rootdir, FBad EIO)] node_table.
Definition late_smi : Smi :=
  {| smi_at t := if decide (t < 5)%nat then Err (ErrText "rbln-smi: no device") else Ok [native_inv] |}.
Definition failing_tick (p : Plugin) : Plugin := (@RescanDevices failing_host late_smi _ _ p).1.


(** The second function shares its IOMMU group. *)
Definition shared_table : list (string * fnode) :=
  ([(rootdir, FDir ["0000:01:00.0"; "0000:02:00.0"; "0000:03:00.0"]);
    (rootdir +:+ "/0000:03:00.0/iommu_group/devices", FDir ["0000:03:00.0"; "0000:03:00.1"])] ++
   node_table ++ vfio_fn "0000:03:00.0")%list.
Lemma enumerateVfioDevices_accounts_witness :
  exists s' devs sks,
    @enumerateVfioDevices (table_host shared_table) rootdir ∅ sys_start = (s', Ok (devs, sks)) /\
    (map Name devs, map sk_name sks) = (["vfio-0000-02-00-0"], ["vfio-0000-03-00-0"]) /\
    exists entries vs, Forall2 (fun e => @vfio_verdict_ok (table_host shared_table) rootdir ∅ sys_start s' (de_name e)) entries vs /\
      devs = published vs /\ sks = skipped_of vs.
Proof.
  destruct (run_ok (@enumerateVfioDevices (table_host shared_table) rootdir ∅ sys_start)
    (fun '(devs, sks) => bool_decide ((map Name devs, map sk_name sks) = (["vfio-0000-02-00-0"], ["vfio-0000-03-00-0"]))))
    as (s' & [devs sks] & E & Hn%bool_decide_eq_true); [vm_compute; reflexivity|].
  exists s', devs, sks. split; [exact E|]. split; [exact Hn|].
  destruct (enumerateVfioDevices_accounts _ _ _ _ _ _ E) as (entries & vs & _ & H). exists entries, vs. exact H.
Defined.

(** The first entry of the inventory is no longer there. *)
Definition gone_inv : InvDevice :=
  {| iv_Name := "rbln5"; iv_PCIBusID := "0000:05:00.0"; iv_ProductName := "RBLN-CA25";
     iv_SID := "sid"; iv_UUID := "uuid"; iv_PCIDeviceID := "1250"; iv_PCILinkSpeed := "32GT/s";
     iv_PCILinkWidth := "16"; iv_FirmwareVersion := "3.0"; iv_KMDVersion := "2.0";
     iv_PCINumaNode := "0"; iv_MemoryTotalBytes := 0 |}.
Lemma npuDevicesFromInventory_accounts_witness :
  exists s' devs sks,
    @npuDevicesFromInventory (table_host node_table) rootdir [gone_inv; native_inv] sys_start = (s', Ok (devs, sks)) /\
    (map Name devs, map sk_name sks) = (["rbln0"], ["rbln5"]) /\
    exists vs, Forall2 (@npu_verdict_ok (table_host node_table) rootdir sys_start s') [gone_inv; native_inv] vs /\
      devs = published vs /\ sks = skipped_of vs.
Proof.
  destruct (run_ok (@npuDevicesFromInventory (table_host node_table) rootdir [gone_inv; native_inv] sys_start)
    (fun '(devs, sks) => bool_decide ((map Name devs, map sk_name sks) = (["rbln0"], ["rbln5"]))))
    as (s' & [devs sks] & E & Hn%bool_decide_eq_true); [vm_compute; reflexivity|].
  exists s', devs, sks. split; [exact E|]. split; [exact Hn|].
  exact (npuDevicesFromInventory_accounts _ _ _ _ _ _ E).
Defined.
