(* ===== verification/Driver.v ===== *)
(** The gRPC side of the plugin and its background work
    (cmd/npu-kubelet-plugin/driver.go, health.go): prepare and unprepare
    requests, the ticks of the device scan, publication, registration, health,
    fatal errors and the shutdown. *)
From S2P Require Import Prelude GoStd Host PciSysfs Device Sriov Vfio Validate RsdGroup Claim Fs.
From S2P Require Import Metadata Cdi Checkpoint Discovery Inventory Scan Prepare.
From S2P Require Import Flags Health.
Open Scope string_scope.

(** Why the main context ended: a signal, or the first fatal error. *)
Inductive cause := Canceled | Fatal (e : err).

(** The driver between two steps: the node, every attempt to publish with
    whether it was accepted, the kubelet's acknowledgement, the end of the
    main context, the health service, the addresses listened on, and whether the
    helper serves. *)
Record Driver (cdi_store cp_store : Type) := {
  dr_node : Node cdi_store cp_store;
  dr_attempts : list (DriverResources * bool);
  dr_registered : bool;
  dr_cause : option cause;
  dr_health : option healthcheck;
  dr_listeners : list string;
  dr_helper : bool;
}.
Arguments dr_node {cdi_store cp_store}.
Arguments dr_attempts {cdi_store cp_store}.
Arguments dr_registered {cdi_store cp_store}.
Arguments dr_cause {cdi_store cp_store}.
Arguments dr_health {cdi_store cp_store}.
Arguments dr_listeners {cdi_store cp_store}.
Arguments dr_helper {cdi_store cp_store}.

(** kubeletplugin: the answer of PublishResources at each instant, and whether
    an error reported by the helper is one it recovers from. *)
Class Helper := { PublishResources_at : nat -> res unit; is_recoverable : err -> bool }.

(** kubeletplugin.PrepareResult, without the fields the driver leaves empty. *)
Record PrepareResult := { pr_Devices : list (list string * string * string * list string); pr_Err : option err }.

(** Registration messages of the kubelet, and the other calls on that service. *)
Inductive RegistrarRequest := RegistrationStatus (PluginRegistered : bool) | OtherRequest.

(** health.go *)
Inductive HealthStatus := SERVING | NOT_SERVING.
(** The answers of the sockets behind the targets, at each instant. *)
Class Sockets := { GetInfo_at : string -> nat -> res unit; NodePrepareResources_at : string -> nat -> res unit }.
Definition knownServices : list string := [""; "liveness"; "readiness"].
Definition unknown_service : err := ErrText "rpc error: code = NotFound desc = unknown service".

(** The calls by which the main goroutine ends the driver: the record, the two
    that wait for the health service, and the stop of the helper. *)
Inductive action := StopRecord | GracefulStop | WgWait | HelperStop.

(** Where a call of Check is: before its own tests, before each of the calls it
    makes, or at its return. *)
Inductive check := CheckCalled (service : string) | CheckGetInfo | CheckPrepare | CheckDone (r : res HealthStatus).

Section driver.
Context {hst : Host} {smi : Smi} `{!SemanticEqual Device, !SemanticEqual (list Device)}
  {flt : Faults} {menv : MetadataEnv} {lib : CdiLib} {codec : CheckpointCodec}
  {cdi_store cp_store : Type} `{!CdiCache cdi_store, !CheckpointManager cp_store} {helper : Helper} {net : Network} {sockets : Sockets}
  (cfg : Config) (rsdGroupFn : list string -> M Sys string).
Abbreviation DriverM A := (M (Driver cdi_store cp_store) A).

Definition set_node n (d : Driver cdi_store cp_store) : Driver cdi_store cp_store :=
  {| dr_node := n; dr_attempts := dr_attempts d; dr_registered := dr_registered d; dr_cause := dr_cause d;
     dr_health := dr_health d; dr_listeners := dr_listeners d; dr_helper := dr_helper d |}.
Definition set_net (health : option healthcheck) (listeners : list string) (up : bool) (d : Driver cdi_store cp_store) :
    Driver cdi_store cp_store :=
  {| dr_node := dr_node d; dr_attempts := dr_attempts d; dr_registered := dr_registered d; dr_cause := dr_cause d;
     dr_health := health; dr_listeners := listeners; dr_helper := up |}.
Definition set_plugin p (d : Driver cdi_store cp_store) : Driver cdi_store cp_store :=
  set_node {| nd_plugin := p; nd_meta := nd_meta (dr_node d); nd_cdi := nd_cdi (dr_node d);
              nd_cp := nd_cp (dr_node d) |} d.
Definition on_node {A} (m : M (Node cdi_store cp_store) A) : DriverM A := zoom dr_node set_node m.
Definition on_plugin {A} (m : M Plugin A) : DriverM A := zoom (fun d => nd_plugin (dr_node d)) set_plugin m.
Definition on_net {A} (m : M Net A) : DriverM A :=
  zoom (fun d => {| net_sys := sys (nd_plugin (dr_node d)); net_listeners := dr_listeners d |})
       (fun n d => set_net (dr_health d) (net_listeners n) (dr_helper d)
                     (set_plugin (set_sys (net_sys n) (nd_plugin (dr_node d))) d)) m.
Definition dr_log (l : Level) (msg : string) : DriverM unit := on_plugin (on_sys (log l msg)).

(** ** Requests *)

(** What follows the call of Prepare, outside the lock. *)
Definition answerPrepare (claim : ResourceClaim) (r : res (list (list string * string * string * list string))) :
    DriverM PrepareResult :=
  match r with
  | Err e =>
      do! dr_log LError "Failed to prepare devices for claim" in
      ret {| pr_Devices := [];
             pr_Err := Some (ErrWrap ("error preparing devices for claim " +:+ UID claim +:+ ": ") e "") |}
  | Ok prepared =>
      do! dr_log LInfo "Prepared devices for claim" in
      do! dr_log LDebug "Prepared device details" in
      ret {| pr_Devices := prepared; pr_Err := None |}
  end.
Definition prepareResourceClaim (claim : ResourceClaim) : DriverM PrepareResult :=
  let? r := on_node (Prepare cfg rsdGroupFn claim) in answerPrepare claim r.

(** The loop over the claims fills a map; a later claim with the same UID wins. *)
Definition collect {A} (key : A -> string) {R} (f : A -> DriverM R) (l : list A) : DriverM (gmap string R) :=
  let! rs := forM (fun c => let! r := f c in ret (key c, r)) l in
  ret (list_to_map (rev rs)).

Definition received (n : nat) (msg : string) : DriverM unit := if bool_decide (n = 0) then ret tt else dr_log LInfo msg.
Definition PrepareResourceClaims (claims : list ResourceClaim) : DriverM (gmap string PrepareResult) :=
  do! received (length claims) "Received request to prepare resource claims" in
  collect UID prepareResourceClaim claims.

(** The error of a claim is part of the answer: nil is [None]. *)
Definition answerUnprepare (claimUID : string) (r : res unit) : DriverM (option err) :=
  match r with
  | Err e =>
      do! dr_log LError "Failed to unprepare devices for claim" in
      ret (Some (ErrWrap ("error unpreparing devices for claim " +:+ claimUID +:+ ": ") e ""))
  | Ok _ => ret None
  end.
Definition unprepareResourceClaim (claimUID : string) : DriverM (option err) :=
  let? r := on_node (Unprepare cfg claimUID) in answerUnprepare claimUID r.
Definition UnprepareResourceClaims (claims : list string) : DriverM (gmap string (option err)) :=
  do! received (length claims) "Received request to unprepare resource claims" in
  collect id unprepareResourceClaim claims.

(** ** Publication and the scan loop *)

Definition PublishResources (r : DriverResources) : DriverM unit := fun d =>
  let answer := PublishResources_at (clk (sys (nd_plugin (dr_node d)))) in
  ({| dr_node := dr_node (set_plugin (set_sys (tick (sys (nd_plugin (dr_node d)))) (nd_plugin (dr_node d))) d);
      dr_attempts := (dr_attempts d ++ [(r, match answer with Ok _ => true | Err _ => false end)])%list;
      dr_registered := dr_registered d; dr_cause := dr_cause d;
      dr_health := dr_health d; dr_listeners := dr_listeners d; dr_helper := dr_helper d |}, answer).

(** The end of NewDriver, from the first publication on. *)
Definition firstPublication : DriverM unit :=
  let! r := gets (fun d => driverResources (ds (nd_plugin (dr_node d)))) in
  do! PublishResources r in
  dr_log LInfo "Driver started".

(** NewDriver: the state, then the helper, which its library starts and which
    may fail, then the health service, then the first publication. *)
Definition new_driver (n : Node cdi_store cp_store) : Driver cdi_store cp_store :=
  {| dr_node := n; dr_attempts := []; dr_registered := false; dr_cause := None;
     dr_health := None; dr_listeners := []; dr_helper := false |}.
Definition startDriver (flags : Flags) (root : string) (NewCache NewCheckpointManager Start : res unit) : DriverM unit :=
  do! on_node (NewDeviceState (nodeName flags) (cdiRoot flags) root NewCache NewCheckpointManager) in
  do! of_res Start in
  do! modify (fun d => set_net (dr_health d) (dr_listeners d) true d) in
  let! h := wrap_err (fun e => ErrWrap "start healthcheck: " e "") (on_net (startHealthcheck flags)) in
  modify (fun d => set_net h (dr_listeners d) (dr_helper d) d).
Definition NewDriver (flags : Flags) (root : string) (NewCache NewCheckpointManager Start : res unit) : DriverM unit :=
  do! startDriver flags root NewCache NewCheckpointManager Start in
  firstPublication.

(** What a changed scan leads to. *)
Definition republish (resources : DriverResources) : DriverM unit :=
  let? r := PublishResources resources in
  match r with
  | Ok _ => ret tt
  | Err _ => dr_log LError "Failed to publish resources after device scan"
  end.

(** The body of the loop of runDeviceScan, for one tick. *)
Definition scanTick (interval : Z) : DriverM unit :=
  let! start := on_plugin (on_sys time_Now) in
  let! scanned := on_plugin RescanDevices in
  let! stop := on_plugin (on_sys time_Now) in
  do! on_plugin (observeScanDuration (Z.of_N stop - Z.of_N start) interval) in
  match scanned with
  | (_, _, Some _) => ret tt
  | (resources, changed, None) => if changed then republish resources else ret tt
  end.

(** runDeviceScan for [n] ticks; it ends with the context. *)
Definition runDeviceScan (interval : Z) (n : nat) : DriverM unit :=
  Nat.iter n (fun m => do! scanTick interval in m) (ret tt).

(** ** Registration, fatal errors, shutdown *)

(** The interceptor: [handled] is the outcome of the call it passes on. *)
Definition observeRegistration {A} (req : RegistrarRequest) (handled : res A) : DriverM A :=
  match req with
  | RegistrationStatus b =>
      do! modify (fun d =>
        {| dr_node := dr_node d; dr_attempts := dr_attempts d;
           dr_registered := b && match handled with Ok _ => true | Err _ => false end; dr_cause := dr_cause d;
           dr_health := dr_health d; dr_listeners := dr_listeners d; dr_helper := dr_helper d |}) in of_res handled
  | OtherRequest => of_res handled
  end.

(** A context keeps the cause of its first cancellation. *)
Definition cancelMainCtx (c : cause) : DriverM unit :=
  modify (fun d =>
    {| dr_node := dr_node d; dr_attempts := dr_attempts d; dr_registered := dr_registered d;
       dr_cause := match dr_cause d with Some c0 => Some c0 | None => Some c end;
       dr_health := dr_health d; dr_listeners := dr_listeners d; dr_helper := dr_helper d |}).

Definition HandleError (e : err) : DriverM unit :=
  if is_recoverable e then ret tt else cancelMainCtx (Fatal (ErrWrap "fatal background error: " e "")).

(** The record RunPlugin ends with. *)
Definition shutdownRecord (c : cause) : LogRec :=
  match c with
  | Fatal _ => {| lr_level := LWarn; lr_msg := "Shutting down after fatal background error" |}
  | Canceled => {| lr_level := LInfo; lr_msg := "Shutting down on signal" |}
  end.

(** What the main goroutine calls to end the driver, in order: the statements of
    healthcheck.Stop, whose server is never nil (startHealthcheck sets it), and
    those of Shutdown around it. *)
Definition Stop : list action := [StopRecord; GracefulStop; WgWait].
Definition shutdownActions (health : option healthcheck) : list action :=
  (match health with Some _ => Stop | None => [] end ++ [HelperStop])%list.

(** What has changed when a call has returned. GracefulStop only blocks; when
    Wait has returned the goroutine that serves is over, and Serve closes its
    listener before it returns. Shutdown.v has the waiting itself. *)
Definition close_listener (a : string) : DriverM unit :=
  modify (fun d => set_net (dr_health d) (List.filter (fun b => negb (bool_decide (b = a))) (dr_listeners d)) (dr_helper d) d).
Definition perform (health : option healthcheck) (a : action) : DriverM unit :=
  match a with
  | StopRecord => dr_log LDebug "Stopping healthcheck service"
  | GracefulStop => ret tt
  | WgWait => match health with Some h => close_listener (hc_addr h) | None => ret tt end
  | HelperStop => modify (fun d => set_net (dr_health d) (dr_listeners d) false d)
  end.
Definition Shutdown : DriverM unit :=
  let! h := gets dr_health in
  do! forM (perform h) (shutdownActions h) in
  ret tt.

(** healthcheck.Check *)
Definition socket_call (answer : nat -> res unit) : DriverM unit := fun d =>
  (set_plugin (set_sys (tick (sys (nd_plugin (dr_node d)))) (nd_plugin (dr_node d))) d,
   answer (clk (sys (nd_plugin (dr_node d))))).

Definition Check_health (h : healthcheck) (service : string) : DriverM HealthStatus :=
  if negb (bool_decide (service ∈ knownServices)) then throw unknown_service else
  let! registered := gets dr_registered in
  if bool_decide (service = "readiness") && negb registered then ret NOT_SERVING else
  let? info := socket_call (GetInfo_at (regClient h)) in
  match info with
  | Err _ => do! dr_log LError "Healthcheck failed calling GetInfo" in ret NOT_SERVING
  | Ok _ =>
      do! dr_log LTrace "Successfully invoked GetInfo" in
      let? r := socket_call (NodePrepareResources_at (draClient h)) in
      match r with
      | Err _ => do! dr_log LError "Healthcheck failed calling NodePrepareResources" in ret NOT_SERVING
      | Ok _ => do! dr_log LTrace "Successfully invoked NodePrepareResources" in ret SERVING
      end
  end.

(** Check up to its next call or to its return. *)
Definition check_step (h : healthcheck) (c : check) : DriverM check :=
  match c with
  | CheckCalled service =>
      if negb (bool_decide (service ∈ knownServices)) then ret (CheckDone (Err unknown_service)) else
      let! registered := gets dr_registered in
      if bool_decide (service = "readiness") && negb registered then ret (CheckDone (Ok NOT_SERVING))
      else ret CheckGetInfo
  | CheckGetInfo =>
      let? info := socket_call (GetInfo_at (regClient h)) in
      match info with
      | Err _ => do! dr_log LError "Healthcheck failed calling GetInfo" in ret (CheckDone (Ok NOT_SERVING))
      | Ok _ => do! dr_log LTrace "Successfully invoked GetInfo" in ret CheckPrepare
      end
  | CheckPrepare =>
      let? r := socket_call (NodePrepareResources_at (draClient h)) in
      match r with
      | Err _ =>
          do! dr_log LError "Healthcheck failed calling NodePrepareResources" in ret (CheckDone (Ok NOT_SERVING))
      | Ok _ => do! dr_log LTrace "Successfully invoked NodePrepareResources" in ret (CheckDone (Ok SERVING))
      end
  | CheckDone r => ret (CheckDone r)
  end.
End driver.
