(* ===== verification/Shutdown.v ===== *)
(** The end of the driver (cmd/npu-kubelet-plugin/driver.go, Shutdown, and
    health.go, Stop) against the goroutine that serves health checks, over a
    gRPC server given by its documented behaviour, the checks it still runs,
    and whatever else the process does meanwhile. *)
From S2P Require Import Prelude GoStd Host PciSysfs Device Sriov Vfio Validate RsdGroup Claim Fs.
From S2P Require Import Metadata Cdi Checkpoint Discovery Inventory Scan Prepare Flags Health Driver.
Open Scope string_scope.

(** ** The gRPC server *)

(** What its user can tell apart: a call of Serve and its return, with an error or
    not; a handler that begins and one that ends; a call of GracefulStop and its
    return. *)
Inductive server_event :=
  | ServeBegin | ServeEnd (failed : bool) | CallBegin | CallEnd | StopBegin | StopEnd.

(** grpc.Server (google.golang.org/grpc): the handlers that run, whether a call
    of Serve does, and whether it was stopped. Serve returns an error unless the
    server was stopped; only a server that serves and was not stopped begins a
    handler; GracefulStop returns when it was called and no handler runs. In
    return Serve and GracefulStop may be called at any time, a handler may end,
    and, once the server was stopped and no handler runs, both of them return. *)
Class GrpcServer := {
  gserver : Type;
  NewServer : gserver;
  server_step : gserver -> server_event -> gserver -> Prop;
  calls : gserver -> nat;
  serving : gserver -> bool;
  stopped : gserver -> bool;
  NewServer_idle : calls NewServer = 0 /\ serving NewServer = false /\ stopped NewServer = false;
  server_step_law s e s' : server_step s e s' ->
    match e with
    | ServeBegin => serving s = false /\ serving s' = true /\ calls s' = calls s /\ stopped s' = stopped s
    | ServeEnd failed => serving s = true /\ serving s' = false /\ calls s' = calls s /\ stopped s' = stopped s /\
                         (failed = false -> stopped s = true)
    | CallBegin => serving s = true /\ stopped s = false /\
                   serving s' = serving s /\ calls s' = S (calls s) /\ stopped s' = stopped s
    | CallEnd => calls s = S (calls s') /\ serving s' = serving s /\ stopped s' = stopped s
    | StopBegin => serving s' = serving s /\ calls s' = calls s /\ stopped s' = true
    | StopEnd => stopped s = true /\ calls s = 0 /\ serving s' = serving s /\ calls s' = calls s /\ stopped s' = stopped s
    end;
  ServeBegin_can s : serving s = false -> exists s', server_step s ServeBegin s';
  ServeEnd_can s : serving s = true -> stopped s = true -> calls s = 0 -> exists failed s', server_step s (ServeEnd failed) s';
  CallEnd_can s : calls s <> 0 -> exists s', server_step s CallEnd s';
  StopBegin_can s : exists s', server_step s StopBegin s';
  StopEnd_can s : stopped s = true -> calls s = 0 -> exists s', server_step s StopEnd s';
}.

(** The goroutine of startHealthcheck: before Serve, in it, over. *)
Inductive serve := Before | Inside | Over.
(** The main goroutine: before Shutdown, or with the calls it still has to make;
    [blocked] when it is inside the first of them, a GracefulStop. *)
Inductive main := Running | Ending (blocked : bool) (todo : list action).

Definition serve_failed : string := "Failed to serve healthcheck service".

Section shutdown.
Context {grpc : GrpcServer} {hst : Host} {cdi_store cp_store : Type} {sockets : Sockets}.
Abbreviation Dr := (Driver cdi_store cp_store).
Implicit Types d : Dr.

Record Control := { c_server : gserver; c_serve : serve; c_checks : list check; c_main : main }.

(** startHealthcheck starts the goroutine when there is a service. *)
Definition control_start d : Control :=
  {| c_server := NewServer; c_serve := match dr_health d with Some _ => Before | None => Over end;
     c_checks := []; c_main := Running |}.

(** What the goroutine does when Serve has returned, its listener closed. *)
Definition serve_returned (h : healthcheck) (failed : bool) : M Dr unit :=
  do! close_listener (hc_addr h) in
  if failed then dr_log LError serve_failed else ret tt.

(** One step of the goroutine that serves, of a check, or of the main
    goroutine. *)
Inductive shutdown_step : Dr * Control -> Dr * Control -> Prop :=
  | sd_serve d s s' cs m :
      server_step s ServeBegin s' ->
      shutdown_step (d, Build_Control s Before cs m) (d, Build_Control s' Inside cs m)
  | sd_served d d' h failed s s' cs m :
      server_step s (ServeEnd failed) s' -> dr_health d = Some h -> serve_returned h failed d = (d', Ok tt) ->
      shutdown_step (d, Build_Control s Inside cs m) (d', Build_Control s' Over cs m)
  | sd_check d service s s' sv cs m :
      server_step s CallBegin s' ->
      shutdown_step (d, Build_Control s sv cs m) (d, Build_Control s' sv (CheckCalled service :: cs) m)
  | sd_checking d d' h c c' s sv cs1 cs2 m :
      dr_health d = Some h -> (forall r, c <> CheckDone r) -> check_step h c d = (d', Ok c') ->
      shutdown_step (d, Build_Control s sv (cs1 ++ c :: cs2) m) (d', Build_Control s sv (cs1 ++ c' :: cs2) m)
  | sd_checked d r s s' sv cs1 cs2 m :
      server_step s CallEnd s' ->
      shutdown_step (d, Build_Control s sv (cs1 ++ CheckDone r :: cs2) m) (d, Build_Control s' sv (cs1 ++ cs2) m)
  | sd_call d s sv cs :
      shutdown_step (d, Build_Control s sv cs Running)
                    (d, Build_Control s sv cs (Ending false (shutdownActions (dr_health d))))
  | sd_graceful d s s' sv cs l :
      server_step s StopBegin s' ->
      shutdown_step (d, Build_Control s sv cs (Ending false (GracefulStop :: l)))
                    (d, Build_Control s' sv cs (Ending true (GracefulStop :: l)))
  | sd_stopped d d' s s' sv cs l :
      server_step s StopEnd s' -> perform (dr_health d) GracefulStop d = (d', Ok tt) ->
      shutdown_step (d, Build_Control s sv cs (Ending true (GracefulStop :: l)))
                    (d', Build_Control s' sv cs (Ending false l))
  | sd_waited d s cs l :
      shutdown_step (d, Build_Control s Over cs (Ending false (WgWait :: l)))
                    (d, Build_Control s Over cs (Ending false l))
  | sd_record d d' s sv cs a l :
      a = StopRecord \/ a = HelperStop -> perform (dr_health d) a d = (d', Ok tt) ->
      shutdown_step (d, Build_Control s sv cs (Ending false (a :: l)))
                    (d', Build_Control s sv cs (Ending false l)).

(** Shutdown has returned. *)
Definition returned (c : Control) : Prop := c_main c = Ending false [].

(** [k] of these steps, beside whatever the rest of the process does: requests,
    ticks, publications and registration leave the service, its listener and the
    helper as they are ([driver_step_net] in Agent.v). *)
Definition net_same d d' : Prop :=
  dr_health d' = dr_health d /\ dr_listeners d' = dr_listeners d /\ dr_helper d' = dr_helper d.
Inductive beside (x : Dr * Control) : nat -> Dr * Control -> Prop :=
  | beside_start : beside x 0 x
  | beside_own k y z : beside x k y -> shutdown_step y z -> beside x (S k) z
  | beside_other k d d' c : beside x k (d, c) -> net_same d d' -> beside x k (d', c).

(** ** Lemmas *)

#[export] Instance net_same_preorder : PreOrder net_same.
Proof using Type. split; [by intros d|]. intros d1 d2 d3 (? & ? & ?) (? & ? & ?). unfold net_same. split_and!; congruence. Qed.
#[export] Instance on_plugin_net {A} (m : M Plugin A) : Respects net_same (on_plugin (cdi_store:=cdi_store) (cp_store:=cp_store) m).
Proof using Type. intros d. unfold on_plugin, zoom. by destruct (m _). Qed.
#[export] Instance on_node_net {A} (m : M (Node cdi_store cp_store) A) : Respects net_same (on_node m).
Proof using Type. intros d. unfold on_node, zoom. by destruct (m _). Qed.
#[export] Instance dr_log_net l text : Respects net_same (dr_log (cdi_store:=cdi_store) (cp_store:=cp_store) l text).
Proof using Type. by intros d. Qed.
#[export] Instance socket_call_net answer : Respects net_same (socket_call (cdi_store:=cdi_store) (cp_store:=cp_store) answer).
Proof using Type. by intros d. Qed.
Lemma Check_health_net h service d d' r : Check_health h service d = (d', r) -> net_same d d'.
Proof using Type. intros H. eapply respects_run; [|exact H]. unfold Check_health. solve_respects. Qed.
#[export] Instance check_step_net h c : Respects net_same (check_step (cdi_store:=cdi_store) (cp_store:=cp_store) h c).
Proof using Type. destruct c; unfold check_step; solve_respects. Qed.

(** A check step by step is Check. *)
Lemma Check_health_steps h service d :
  Check_health h service d =
  (let! c1 := check_step h (CheckCalled service) in
   let! c2 := check_step h c1 in
   let! c3 := check_step h c2 in
   match c3 with CheckDone r => of_res r | _ => throw unknown_service end) d.
Proof using Type.
  unfold Check_health, check_step. unfold bind, try, gets, ret, throw, of_res, dr_log, on_plugin, zoom, log, modify.
  destruct (negb _); [done|]. destruct (bool_decide _ && _); [done|]. unfold socket_call.
  destruct (GetInfo_at _ _) as [[]|e]; [|done]. by destruct (NodePrepareResources_at _ _) as [[]|e].
Qed.

(** What is left of a check, of the goroutine, of the main goroutine. *)
Definition check_left (c : check) : nat :=
  match c with CheckCalled _ => 4 | CheckGetInfo => 3 | CheckPrepare => 2 | CheckDone _ => 1 end.
Fixpoint checks_left (cs : list check) : nat :=
  match cs with [] => 0 | c :: cs' => check_left c + checks_left cs' end.
Definition serve_left (sv : serve) : nat := match sv with Before => 2 | Inside => 1 | Over => 0 end.
Fixpoint actions_left (l : list action) : nat :=
  match l with [] => 0 | a :: l' => match a with GracefulStop => 2 | _ => 1 end + actions_left l' end.
Definition main_left (m : main) : nat :=
  match m with Running => 6 | Ending b l => actions_left l - (if b then 1 else 0) end.
Definition remaining (c : Control) : nat := checks_left (c_checks c) + serve_left (c_serve c) + main_left (c_main c).

Lemma check_step_run h c d : (forall r, c <> CheckDone r) ->
  exists d' c', check_step h c d = (d', Ok c') /\ net_same d d' /\ check_left c' < check_left c.
Proof using Type.
  intros Hc. destruct (check_step h c d) as [d' r] eqn:E. pose proof (respects_run net_same _ _ _ _ _ E) as Hn.
  assert (exists c', r = Ok c' /\ check_left c' < check_left c) as (c' & -> & Hl); [|by exists d', c'].
  destruct c as [service| | |r0]; [| | |by destruct (Hc r0)]; simpl in E.
  - destruct (negb _) in E; [injection E as _ <-; eexists; split; [done|simpl; lia]|]. rewrite bind_gets in E.
    destruct (bool_decide _ && _) in E; injection E as _ <-; eexists; (split; [done|simpl; lia]).
  - unfold bind, try, socket_call, dr_log, on_plugin, zoom, log, modify, ret in E. simpl in E.
    destruct (GetInfo_at _ _); simpl in E; injection E as _ <-; eexists; (split; [done|simpl; lia]).
  - unfold bind, try, socket_call, dr_log, on_plugin, zoom, log, modify, ret in E. simpl in E.
    destruct (NodePrepareResources_at _ _); simpl in E; injection E as _ <-; eexists; (split; [done|simpl; lia]).
Qed.
Lemma checks_left_app l1 l2 : checks_left (l1 ++ l2) = checks_left l1 + checks_left l2.
Proof using Type. induction l1 as [|c l1 IH]; [done|]. simpl. rewrite IH. lia. Qed.
Lemma checks_left_bound cs : checks_left cs <= 4 * length cs.
Proof using Type.
  induction cs as [|c cs IH]; [done|]. simpl. destruct c; simpl; lia.
Qed.
Lemma serve_returned_run h failed d : exists d', serve_returned h failed d = (d', Ok tt).
Proof using Type. unfold serve_returned. destruct failed; by eexists. Qed.

Definition without (a : string) : list string -> list string := List.filter (fun b => negb (bool_decide (b = a))).
Lemma serve_returned_net h failed d d' :
  serve_returned h failed d = (d', Ok tt) ->
  dr_health d' = dr_health d /\ dr_listeners d' = without (hc_addr h) (dr_listeners d) /\ dr_helper d' = dr_helper d.
Proof using Type. unfold serve_returned, close_listener. rewrite bind_modify. by destruct failed; intros [= <-]. Qed.

(** Where the main goroutine can be, and what it has waited for. *)
Inductive waited_for (service : bool) (s : gserver) (cs : list check) (sv : serve) : main -> Prop :=
  | wf_running : stopped s = false -> waited_for service s cs sv Running
  | wf_record : service = true -> stopped s = false -> waited_for service s cs sv (Ending false (Stop ++ [HelperStop]))
  | wf_before : service = true -> stopped s = false ->
      waited_for service s cs sv (Ending false [GracefulStop; WgWait; HelperStop])
  | wf_blocked : service = true -> stopped s = true ->
      waited_for service s cs sv (Ending true [GracefulStop; WgWait; HelperStop])
  | wf_graceful : service = true -> stopped s = true -> cs = [] -> waited_for service s cs sv (Ending false [WgWait; HelperStop])
  | wf_over l : stopped s = service -> cs = [] -> sv = Over -> l = [HelperStop] \/ l = [] ->
      waited_for service s cs sv (Ending false l).

Definition has_service d : bool := match dr_health d with Some _ => true | None => false end.
Record inv d0 (x : Dr * Control) : Prop := {
  i_health : dr_health x.1 = dr_health d0;
  i_helper : dr_helper x.1 = match c_main x.2 with Ending _ [] => false | _ => dr_helper d0 end;
  i_calls : calls (c_server x.2) = length (c_checks x.2);
  i_serving : serving (c_server x.2) = match c_serve x.2 with Inside => true | _ => false end;
  i_listeners : dr_listeners x.1 =
    match dr_health d0, c_serve x.2 with Some h, Over => without (hc_addr h) (dr_listeners d0) | _, _ => dr_listeners d0 end;
  i_none : has_service d0 = false -> c_serve x.2 = Over /\ c_checks x.2 = [];
  i_main : waited_for (has_service d0) (c_server x.2) (c_checks x.2) (c_serve x.2) (c_main x.2);
}.

Lemma start_inv d0 : inv d0 (d0, control_start d0).
Proof using Type.
  destruct NewServer_idle as (Hc & Hs & Hst). unfold control_start.
  split; simpl; [done|done|by rewrite Hc|rewrite Hs; by destruct (dr_health d0)|by destruct (dr_health d0)| |by constructor].
  unfold has_service. by destruct (dr_health d0).
Qed.
Lemma perform_net o a d d' : a = StopRecord \/ a = HelperStop -> perform o a d = (d', Ok tt) ->
  dr_health d' = dr_health d /\ dr_listeners d' = dr_listeners d /\
  dr_helper d' = match a with HelperStop => false | _ => dr_helper d end.
Proof using Type. by intros [-> | ->] [= <-]. Qed.


Lemma waited_for_mono b s s' cs cs' sv sv' m :
  waited_for b s cs sv m -> stopped s' = stopped s -> (cs = [] -> cs' = []) -> (sv = Over -> sv' = Over) ->
  waited_for b s' cs' sv' m.
Proof using Type. intros [] Hs Hc Hv; constructor; auto; congruence. Qed.

Lemma waited_for_next b s cs sv blocked a l :
  waited_for b s cs sv (Ending blocked (a :: l)) ->
  (a = StopRecord /\ blocked = false /\ l = [GracefulStop; WgWait; HelperStop] /\ b = true /\ stopped s = false) \/
  (a = GracefulStop /\ l = [WgWait; HelperStop] /\ b = true /\ stopped s = blocked) \/
  (a = WgWait /\ blocked = false /\ l = [HelperStop] /\ b = true /\ stopped s = true /\ cs = []) \/
  (a = HelperStop /\ blocked = false /\ l = [] /\ stopped s = b /\ cs = [] /\ sv = Over).
Proof using Type. inversion 1; subst; try (destruct_or!; simplify_eq); auto 10. Qed.
Ltac next_action Hm :=
  apply waited_for_next in Hm as [(?&?&?&?&?)|[(?&?&?&?)|[(?&?&?&?&?&?)|(?&?&?&?&?&?)]]]; simplify_eq.

Ltac server_law := match goal with H : server_step _ _ _ |- _ => apply server_step_law in H; destruct_and? H end.
Lemma step_inv d0 x y : inv d0 x -> shutdown_step x y -> inv d0 y.
Proof using Type.
  intros [Hh Hp Hc Hs Hl Hn Hm] H.
  destruct H as [d s s' cs m H|d d' h failed s s' cs m H Hd Hr|d service s s' sv cs m H|d d' h c c' s sv cs1 cs2 m Hd Hx Hr
    |d r s s' sv cs1 cs2 m H|d s sv cs|d s s' sv cs l H|d d' s s' sv cs l H Hr|d s cs l|d d' s sv cs a l Ha Hr]; simpl in *.
  - server_law. split; simpl; try congruence; try exact Hn; [intros Hb; by destruct (Hn Hb)|].
    by eapply waited_for_mono.
  - server_law. apply serve_returned_net in Hr as (E1 & E2 & E3). assert (dr_health d0 = Some h) as E0 by congruence.
    rewrite E0 in Hl. split; simpl; try congruence; try exact Hn.
    + by rewrite E0, E2, Hl.
    + intros Hb. by destruct (Hn Hb).
    + by eapply waited_for_mono.
  - server_law. split; simpl; try congruence; try exact Hn.
    { intros Hb. destruct (Hn Hb) as [-> _]. congruence. }
    destruct Hm as [?|??|??|??|???|????]; [apply wf_running|apply wf_record|apply wf_before|apply wf_blocked|exfalso|exfalso];
      first [congruence|subst sv; simpl in *; congruence].
  - destruct (check_step_run h c d Hx) as (d2 & c2 & E & (E1 & E2 & E3) & _). rewrite E in Hr. injection Hr as <- <-.
    split; simpl; try congruence; try exact Hn; 
      [by rewrite Hc, !length_app|intros Hb; destruct (Hn Hb) as [_ Hb']; by destruct cs1|].
    eapply waited_for_mono; [exact Hm|done| |done]. by destruct cs1.
  - server_law. split; simpl; try congruence; try exact Hn; 
      [rewrite !length_app in *; simpl in *; lia|intros Hb; destruct (Hn Hb) as [_ Hb']; by destruct cs1|].
    eapply waited_for_mono; [exact Hm|congruence| |done]. by destruct cs1.
  - split; simpl; try done; [unfold shutdownActions; by destruct (dr_health d)|].
    inversion Hm; subst. unfold shutdownActions, has_service in *. rewrite Hh in *. destruct (dr_health d0); [by apply wf_record|].
    destruct (Hn eq_refl) as [-> ->]. by apply wf_over; [| | |left].
  - server_law. next_action Hm. split; simpl; try congruence; try exact Hn.
    by apply wf_blocked.
  - server_law. injection Hr as <-. next_action Hm. split; simpl; try congruence; try exact Hn.
    apply wf_graceful; [done|congruence|]. apply length_zero_iff_nil. congruence.
  - next_action Hm. split; simpl; try congruence; try exact Hn; try done. apply wf_over; [congruence|done|done|by left].
  - apply perform_net in Hr as (E1 & E2 & E3); [|done]. next_action Hm; try (by destruct Ha).
    + split; simpl; try congruence; try exact Hn; try done. by apply wf_before.
    + split; simpl; try congruence; try exact Hn; try done. apply wf_over; [done..|by right].
Qed.

Lemma beside_rtc x k y z : beside x k y -> rtc shutdown_step y z -> exists k', beside x k' z.
Proof using Type. intros H Hr. revert k H. induction Hr as [y|y w z Hs _ IH]; eauto using beside_own. Qed.
Lemma other_inv d0 d d' c : net_same d d' -> inv d0 (d, c) -> inv d0 (d', c).
Proof using Type.
  intros (Eh & El & Ep) [Hh Hp Hc Hs Hl Hn Hm]. split; simpl in *; rewrite ?Eh, ?El, ?Ep; done.
Qed.
Lemma reach_inv d0 k x : beside (d0, control_start d0) k x -> inv d0 x.
Proof using Type. induction 1; eauto using start_inv, step_inv, other_inv. Qed.

(** Once the server is stopped it stays so, and every step is one less to make. *)
Lemma stopped_step x y :
  stopped (c_server x.2) = true -> shutdown_step x y ->
  stopped (c_server y.2) = true /\ remaining y.2 < remaining x.2.
Proof using Type.
  intros Hst H. unfold remaining.
  destruct H as [d s s' cs m H|d d' h failed s s' cs m H Hd Hr|d service s s' sv cs m H|d d' h c c' s sv cs1 cs2 m Hd Hx Hr
    |d r s s' sv cs1 cs2 m H|d s sv cs|d s s' sv cs l H|d d' s s' sv cs l H Hr|d s cs l|d d' s sv cs a l Ha Hr]; simpl in *;
    try server_law; try (split; [congruence|]); 
    rewrite ?checks_left_app; simpl; try lia.
  - congruence.
  - destruct (check_step_run h c d Hx) as (d2 & c2 & E & _ & Hlt). rewrite E in Hr. injection Hr as <- <-.
    lia.
  - unfold shutdownActions. destruct (dr_health d); simpl; lia.
  - destruct Ha as [-> | ->]; simpl; lia.
Qed.
Lemma stopped_bounded x k y :
  stopped (c_server x.2) = true -> beside x k y ->
  stopped (c_server y.2) = true /\ k + remaining y.2 <= remaining x.2.
Proof using Type.
  intros Hr. induction 1 as [|k y z _ [Hy IH] Hs|k d d' c _ IH _]; [split; [done|lia]| |exact IH].
  destruct (stopped_step _ _ Hy Hs) as [Hz Hlt]. split; [done|lia].
Qed.

(** Whatever is still to do can be done: one step brings the end nearer. *)
Lemma check_progress d0 d s sv c cs m :
  inv d0 (d, Build_Control s sv (c :: cs) m) ->
  exists y, shutdown_step (d, Build_Control s sv (c :: cs) m) y /\
    remaining y.2 < remaining (Build_Control s sv (c :: cs) m).
Proof using Type.
  intros Hi. unfold remaining. simpl.
  assert (exists h, dr_health d = Some h) as [h Hh].
  { destruct Hi as [Hh _ _ _ _ Hn _]. simpl in *. unfold has_service in Hn. rewrite Hh. destruct (dr_health d0); [by eexists|].
    by destruct (Hn eq_refl). }
  assert ((exists r, c = CheckDone r) \/ forall r, c <> CheckDone r) as [[r ->]|Hc]
    by (destruct c; first [by right|left; by eexists]).
  - destruct (CallEnd_can s) as [s' Hs]; [destruct Hi as [_ _ Hc _ _ _ _]; simpl in Hc; lia|].
    eexists. split; [by eapply (sd_checked _ _ _ _ _ [])|]. simpl. lia.
  - destruct (check_step_run h c d Hc) as (d' & c' & E & _ & Hlt).
    eexists. split; [by eapply (sd_checking _ _ _ _ _ _ _ [])|]. simpl. lia.
Qed.
Lemma shutdown_progress d0 x :
  inv d0 x -> ~ returned x.2 -> exists y, shutdown_step x y /\ remaining y.2 < remaining x.2.
Proof using Type.
  destruct x as [d [s sv cs m]]. intros Hi Hret. pose proof Hi as [Hh _ Hc Hs _ Hn Hm]. unfold returned in Hret. simpl in *.
  destruct Hm as [Hst|Hb Hst|Hb Hst|Hb Hst|Hb Hst Hcs|l Hst Hcs Hsv Hl].
  - eexists. split; [apply sd_call|]. unfold remaining, shutdownActions. simpl. destruct (dr_health d); simpl; lia.
  - eexists. split; [eapply sd_record; [by left|reflexivity]|]. unfold remaining. simpl. lia.
  - destruct (StopBegin_can s) as [s' H]. eexists. split; [by eapply sd_graceful|]. unfold remaining. simpl. lia.
  - destruct cs as [|c cs]; [|by eapply check_progress].
    destruct (StopEnd_can s) as [s' H]; [done|done|]. eexists. split; [by eapply sd_stopped|]. unfold remaining. simpl. lia.
  - subst cs. destruct sv.
    + destruct (ServeBegin_can s) as [s' H]; [done|]. eexists. split; [by eapply sd_serve|]. unfold remaining. simpl. lia.
    + unfold has_service in Hb. destruct (dr_health d0) as [h|] eqn:E; [|done].
      destruct (ServeEnd_can s) as (failed & s' & H); [done..|]. destruct (serve_returned_run h failed d) as [d' Hr].
      eexists. split; [by eapply sd_served|]. unfold remaining. simpl. lia.
    + eexists. split; [apply sd_waited|]. unfold remaining. simpl. lia.
  - destruct Hl as [-> | ->]; [|done]. eexists. split; [eapply sd_record; [by right|reflexivity]|]. unfold remaining. simpl. lia.
Qed.
Lemma shutdown_can_end d0 x : inv d0 x -> exists y, rtc shutdown_step x y /\ returned y.2.
Proof using Type.
  remember (remaining x.2) as k eqn:Ek. revert x Ek. induction (lt_wf k) as [k _ IH]. intros x -> Hi.
  assert (returned x.2 \/ ~ returned x.2) as [Hd|Hd].
  { unfold returned. destruct (c_main x.2) as [|[] [|]]; first [by left|by right]. }
  { by exists x. }
  destruct (shutdown_progress _ _ Hi Hd) as (y & Hs & Hlt).
  destruct (IH _ Hlt y eq_refl) as (z & Hz & Hdone); [by eapply step_inv|]. exists z. split; [by eapply rtc_l|done].
Qed.

(** The calls of Shutdown one after the other, each once it has returned. *)
Lemma Shutdown_run d :
  exists d', Shutdown d = (d', Ok tt) /\ dr_health d' = dr_health d /\ dr_helper d' = false /\
    dr_listeners d' = match dr_health d with Some h => without (hc_addr h) (dr_listeners d) | None => dr_listeners d end.
Proof using Type.
  unfold Shutdown, shutdownActions. rewrite bind_gets. destruct (dr_health d) as [h|] eqn:E; (eexists; split; [reflexivity|]);
    simpl; by rewrite ?E.
Qed.

(** C12: Shutdown ends, and in order, however it interleaves with the goroutine of
    the health server, the checks that still run, call by call, and everything
    else the process does meanwhile, requests included; the gRPC server is any
    one that behaves as documented. Shutdown can end from every point reached,
    and once the server is stopped only as many steps are left as the checks,
    the goroutine and Shutdown itself still have to make, so that every run
    ends. The helper, which answers what the checks call, is stopped only when
    no check runs and the goroutine is over, and nothing is left to do after
    it; then the service's listener is closed, as after the sequence of calls
    of Shutdown. *)
Theorem Shutdown_ends d0 n x :
  beside (d0, control_start d0) n x ->
  (exists y, rtc shutdown_step x y /\ returned y.2) /\
  (stopped (c_server x.2) = true -> forall k y, beside x k y -> k <= 4 * length (c_checks x.2) + 5) /\
  (dr_helper d0 = true -> dr_helper x.1 = false -> returned x.2) /\
  (returned x.2 ->
     c_checks x.2 = [] /\ c_serve x.2 = Over /\ dr_health x.1 = dr_health (Shutdown d0).1 /\
     dr_listeners x.1 = dr_listeners (Shutdown d0).1 /\ dr_helper x.1 = dr_helper (Shutdown d0).1).
Proof using Type.
  intros Hx%reach_inv. split; [by eapply shutdown_can_end|]. split; [|split].
  - intros Hs k y Hk. pose proof (stopped_bounded x _ _ Hs Hk) as [_ Hb]. pose proof (checks_left_bound (c_checks x.2)) as Hcb.
    unfold remaining in Hb. assert (main_left (c_main x.2) <= 3 /\ serve_left (c_serve x.2) <= 2) as [? ?]; [|lia].
    split; [|destruct (c_serve x.2); simpl; lia]. destruct (i_main _ _ Hx) as [?|??|??|??|???|l ??? [-> | ->]]; simpl; first [congruence|lia].
  - intros Hu Hd. destruct Hx as [_ Hp _ _ _ _ Hm]. unfold returned. destruct Hm as [?|??|??|??|???|l ??? [-> | ->]]; simpl in *; congruence.
  - intros Hd. destruct Hx as [Hh Hp _ _ Hl _ Hm]. unfold returned in Hd. rewrite Hd in Hp, Hm.
    destruct (Shutdown_run d0) as (d' & -> & E1 & E2 & E3). simpl. inversion Hm; subst.
    match goal with H : c_serve x.2 = Over |- _ => rewrite H in Hl end. split_and!; congruence.
Qed.
End shutdown.

(** ** A server that behaves as documented *)

(** The handlers that run, the call of Serve if any, with whether the server was
    stopped before it, and whether it was stopped. Serve of a stopped server
    returns grpc.ErrServerStopped. *)
Record plainServer := { ps_calls : nat; ps_serve : option bool; ps_stopped : bool }.
Definition plain_step (s : plainServer) (e : server_event) (s' : plainServer) : Prop :=
  match e with
  | ServeBegin => ps_serve s = None /\ s' = Build_plainServer (ps_calls s) (Some (ps_stopped s)) (ps_stopped s)
  | ServeEnd failed => exists late, ps_serve s = Some late /\ s' = Build_plainServer (ps_calls s) None (ps_stopped s) /\
      failed = (late || negb (ps_stopped s))
  | CallBegin => is_Some (ps_serve s) /\ ps_stopped s = false /\ s' = Build_plainServer (S (ps_calls s)) (ps_serve s) false
  | CallEnd => exists n, ps_calls s = S n /\ s' = Build_plainServer n (ps_serve s) (ps_stopped s)
  | StopBegin => s' = Build_plainServer (ps_calls s) (ps_serve s) true
  | StopEnd => ps_stopped s = true /\ ps_calls s = 0 /\ s' = s
  end.
Definition plain_server : GrpcServer.
Proof.
  refine {| gserver := plainServer; NewServer := Build_plainServer 0 None false; server_step := plain_step;
    calls := ps_calls; serving s := match ps_serve s with Some _ => true | None => false end; stopped := ps_stopped |}.
  - done.
  - intros [n sv st] [|failed| | | |] s' H; simpl in H; simpl.
    + destruct H as [-> ->]. done.
    + destruct H as (late & -> & -> & ->). split_and!; try done. by destruct late, st.
    + destruct H as ([late ->] & -> & ->). done.
    + destruct H as (m & -> & ->). done.
    + subst s'. done.
    + destruct H as (-> & -> & ->). done.
  - intros [n [late|] st] H; [done|]. by eexists.
  - intros [n [late|] st] H Hst _; [|done]. simpl in Hst. subst st. by eexists _, _, late.
  - intros [[|n] sv st] H; [done|]. by eexists _, n.
  - intros s. by eexists.
  - intros s H1 H2. by eexists.
Defined.

#[local] Existing Instance plain_server.

(** A stop that comes before Serve does makes a server that never failed report
    that it could not serve. *)
Lemma Stop_before_Serve {hst : Host} {cdi_store cp_store : Type} {sockets : Sockets} (d0 : Driver cdi_store cp_store) h :
  dr_health d0 = Some h ->
  exists x, rtc shutdown_step (d0, control_start d0) x /\ returned x.2 /\
    logs (sys (nd_plugin (dr_node x.1))) =
      (logs (sys (nd_plugin (dr_node d0))) ++
        [{| lr_level := LDebug; lr_msg := "Stopping healthcheck service" |}; {| lr_level := LError; lr_msg := serve_failed |}])%list.
Proof.
  intros E. unfold control_start. rewrite E. eexists. split.
  - eapply rtc_l; [apply sd_call|]. rewrite E.
    eapply rtc_l; [eapply sd_record; [by left|reflexivity]|]. eapply rtc_l; [by eapply sd_graceful|].
    eapply rtc_l; [eapply sd_stopped; [by split_and!|reflexivity]|]. eapply rtc_l; [by eapply sd_serve; split|].
    eapply rtc_l; [eapply (sd_served _ _ h true); [by exists true|exact E|reflexivity]|].
    eapply rtc_l; [apply sd_waited|]. apply rtc_once. eapply sd_record; [by right|reflexivity].
  - split; [done|]. simpl. by rewrite <- app_assoc.
Qed.
