(* ===== verification/DriverProps.v ===== *)
(** Correctness of the driver: the start, batches of requests, the health
    verdict, readiness. *)
From S2P Require Import Prelude GoStd Host PciSysfs Device Sriov Vfio Validate RsdGroup Claim Fs.
From S2P Require Import Metadata MetadataProps Cdi Checkpoint Discovery Inventory Scan ScanProps.
From S2P Require Import Prepare PrepareProps PrepareRuns Lifecycle LifecycleProps Flags Health Driver.
Open Scope string_scope.

(** ** The start *)

Section start.
Context {hst : Host} {smi : Smi} {codec : CheckpointCodec} {cdi_store cp_store : Type} `{!CheckpointManager cp_store}.
Implicit Types n : Node cdi_store cp_store.

Lemma initialCheckpoint_run n n' r :
  initialCheckpoint n = (n', r) ->
  nd_plugin n' = nd_plugin n /\ nd_meta n' = nd_meta n /\ nd_cdi n' = nd_cdi n /\
  (is_Some (blobs (nd_cp n) !! DriverPluginCheckpointFile) -> blobs (nd_cp n') = blobs (nd_cp n)) /\
  (r = Ok tt -> blobs (nd_cp n) !! DriverPluginCheckpointFile = None -> prepared_in (nd_cp n') = Some ∅).
Proof using Type.
  unfold initialCheckpoint. intros H. apply bind_run in H as [(n1 & l & H1 & H)|(e & H1 & ->)];
    apply wrapped_run in H1 as [(a & Heq & H1)|(e' & Heq & H1)]; simplify_eq;
    apply nd_on_cp_run in H1 as (k & Hk & ->); pose proof (ListCheckpoints_frame (nd_cp n)) as Hf; rewrite Hk in Hf;
    [|done]. simpl in Hf.
  pose proof (ListCheckpoints_Ok _ _ _ Hk DriverPluginCheckpointFile) as Hl.
  case_bool_decide as Hin.
  - minv. split_and!; try done. intros _ Hnone. apply Hl in Hin. rewrite Hnone in Hin. by destruct Hin.
  - apply wrapped_run in H as [([] & Heq & H1)|(e & Heq & H1)]; simplify_eq; apply nd_on_cp_run in H1 as (k' & Hk' & ->);
      simpl in *; split_and!; try done; try (intros Hs; by destruct Hin; apply Hl).
    intros _ _. exact (CreateCheckpoint_prepared newCheckpoint {| cv_PreparedClaims := ∅ |} _ _ eq_refl Hk').
Qed.

(** The inventory it starts with is that of its discovery. *)
Lemma NewDeviceState_discovers node cdiRoot root cache manager n n' r :
  NewDeviceState node cdiRoot root cache manager n = (n', r) ->
  exists p, initialDiscovery node root (nd_plugin n) = (p, Ok tt) /\ ds (nd_plugin n') = ds p.
Proof using Type.
  unfold NewDeviceState. intros H. unfold bind at 1, nd_on_plugin, zoom in H.
  destruct (initialDiscovery node root (nd_plugin n)) as [p1 r1] eqn:E. exists p1.
  pose proof E as E'. apply initialDiscovery_run in E' as (-> & _). split; [done|].
  unfold wrapped, NewCDIHandler in H. destruct cache as [[]|e]; minv; try done.
  all: match goal with H : initialCheckpoint _ = _ |- _ => apply initialCheckpoint_run in H as (Hp & _) end; by rewrite Hp.
Qed.

Lemma NewDeviceState_run node cdiRoot root cache manager n n' r :
  NewDeviceState node cdiRoot root cache manager n = (n', r) ->
  inventory_ok (ds (nd_plugin n')) /\ nd_meta n' = nd_meta n /\ nd_cdi n' = nd_cdi n /\
  (is_Some (blobs (nd_cp n) !! DriverPluginCheckpointFile) -> prepared_in (nd_cp n') = prepared_in (nd_cp n)) /\
  (forall h, r = Ok h -> h = {| cdi_root := cdiRoot; cdi_class := "npu" |} /\
     (blobs (nd_cp n) !! DriverPluginCheckpointFile = None -> prepared_in (nd_cp n') = Some ∅)).
Proof using Type.
  unfold NewDeviceState. intros H. unfold bind at 1, nd_on_plugin, zoom in H.
  destruct (initialDiscovery node root (nd_plugin n)) as [p1 r1] eqn:E.
  apply initialDiscovery_run in E as (-> & Hok & _).
  unfold wrapped, NewCDIHandler in H. destruct cache as [[]|e]; minv; try (split_and!; done).
  all: match goal with H : initialCheckpoint _ = _ |- _ => apply initialCheckpoint_run in H as (Hp & Hm & Hc & Hb & Hn) end.
  all: simpl in *; rewrite Hp; split_and!; try done; try (intros Hs; by apply prepared_in_blobs, Hb).
  intros h [= <-]. split; [done|]. apply Hn. by repeat match goal with u : unit |- _ => destruct u end.
Qed.

(** C28: A restart keeps the claims: whatever the node shows while the driver
    starts, and whichever step of the start fails, an existing checkpoint is
    left as it is and no spec or metadata is touched; where there was none, a
    successful start leaves one without claims. The CDI handler is the one for the
    configured root, and the inventory is consistent from the first moment. *)
Theorem NewDeviceState_keeps_claims node cdiRoot root cache manager n n' r :
  NewDeviceState node cdiRoot root cache manager n = (n', r) ->
  inventory_ok (ds (nd_plugin n')) /\ nd_meta n' = nd_meta n /\ nd_cdi n' = nd_cdi n /\
  (is_Some (blobs (nd_cp n) !! DriverPluginCheckpointFile) -> prepared_in (nd_cp n') = prepared_in (nd_cp n)) /\
  (forall h, r = Ok h -> h = {| cdi_root := cdiRoot; cdi_class := "npu" |} /\
     (blobs (nd_cp n) !! DriverPluginCheckpointFile = None -> prepared_in (nd_cp n') = Some ∅)).
Proof using Type. apply NewDeviceState_run. Qed.
End start.

(** ** Batches *)

Section collect.
Context {cdi_store cp_store A R : Type} (key : A -> string) (f : A -> M (Driver cdi_store cp_store) R).
(** What an answer means in a state, and what keeps the meaning of the answers
    for a key. *)
Context (P : string -> R -> Driver cdi_store cp_store -> Prop)
        (same : string -> Driver cdi_store cp_store -> Driver cdi_store cp_store -> Prop).
Context (same_refl : forall k d, same k d d)
        (same_trans : forall k d1 d2 d3, same k d1 d2 -> same k d2 d3 -> same k d1 d3)
        (P_same : forall k r d d', same k d d' -> P k r d -> P k r d')
        (good : A -> Prop)
        (f_step : forall a d d' r, good a -> f a d = (d', r) ->
           exists x, r = Ok x /\ P (key a) x d' /\ forall k, k <> key a -> same k d d').

Lemma collect_run l d d' r :
  Forall good l -> collect key f l d = (d', r) ->
  exists m, r = Ok m /\ dom m = list_to_set (map key l) /\
    (forall k x, m !! k = Some x -> P k x d') /\ (forall k, k ∉ map key l -> same k d d').
Proof using same_refl same_trans P_same f_step.
  unfold collect. intros Hg H.
  assert (exists rs, forM (fun c => let! r := f c in ret (key c, r)) l d = (d', Ok rs) /\ r = Ok (list_to_map (rev rs)))
    as (rs & Hrs & ->).
  { clear -Hg H f_step. apply bind_run in H as [(d1 & rs & H & H')|(e & H & ->)]; [minv; eauto|exfalso].
    revert d H. induction Hg as [|a l Ha Hg IH]; intros d H; cbn [forM] in H; [minv|].
    unfold bind in H. destruct (f a d) as [d1 r1] eqn:E. apply f_step in E as (x & -> & _); [|done]. unfold ret in H.
    destruct (forM _ l d1) as [d2 [rs|e']] eqn:E2; simplify_eq. by eapply IH. }
  eexists. split; [reflexivity|]. clear H. revert d rs Hrs. induction Hg as [|a l Hga Hg IH]; intros d rs H; cbn [forM] in H.
  { minv. simpl. split_and!; [by rewrite dom_empty_L|done|by intros]. }
  apply bind_Ok in H as (d1 & y & Ha & H). apply bind_Ok in H as (d2 & ys & Hl & H).
  unfold ret in H. injection H as <- <-. apply bind_Ok in Ha as (d3 & x & Ha & Hy). unfold ret in Hy. injection Hy as <- <-.
  apply f_step in Ha as (x' & [= <-] & HP & Hs); [|done].
  destruct (IH _ _ Hl) as (Hdom & HPl & Hsl). simpl rev. rewrite list_to_map_app, list_to_map_cons, list_to_map_nil.
  split_and!.
  - rewrite dom_union_L, Hdom, dom_insert_L, dom_empty_L. simpl. set_solver.
  - intros k z [Hk|[Hn Hk]]%lookup_union_Some_raw; [by apply HPl|].
    apply lookup_insert_Some in Hk as [[<- <-]|[_ Hk]]; [|done]. eapply P_same; [|exact HP]. apply Hsl.
    apply not_elem_of_dom in Hn. rewrite Hdom in Hn. intros Hin. by apply Hn, elem_of_list_to_set.
  - simpl. intros k Hk. eapply same_trans; [apply Hs; set_solver|apply Hsl; set_solver].
Qed.
End collect.

Section driver_props.
Context {hst : Host} {smi : Smi} `{!SemanticEqual Device, !SemanticEqual (list Device)}
  {flt : Faults} {menv : MetadataEnv} {lib : CdiLib} {codec : CheckpointCodec}
  {cdi_store cp_store : Type} `{!CdiCache cdi_store, !CheckpointManager cp_store} {helper : Helper} {sockets : Sockets}
  (cfg : Config) (rsdGroupFn : list string -> M Sys string)
  {Hrsd : forall ids, Respects sys_le (rsdGroupFn ids)}.
Implicit Types d : Driver cdi_store cp_store.

(** The claims recorded in the node's checkpoint. *)
Abbreviation recorded d := (prepared_in (nd_cp (dr_node d))).
Definition same_record (uid : string) d d' : Prop :=
  (recorded d' ≫= lookup uid) = (recorded d ≫= lookup uid).

Lemma dr_log_run l t d d' r :
  dr_log l t d = (d', r) ->
  r = Ok tt /\ nd_cp (dr_node d') = nd_cp (dr_node d) /\ ds (nd_plugin (dr_node d')) = ds (nd_plugin (dr_node d)) /\
  dr_attempts d' = dr_attempts d /\ dr_registered d' = dr_registered d /\ dr_cause d' = dr_cause d.
Proof using Type. unfold dr_log, on_plugin, log. intros H. minv. done. Qed.
Lemma on_node_run {A} (m : M (Node cdi_store cp_store) A) d d' r :
  on_node m d = (d', r) -> exists n', m (dr_node d) = (n', r) /\ d' = set_node n' d.
Proof using Type. unfold on_node, zoom. destruct (m _) as [n' r0]. intros [= <- <-]. eauto. Qed.

Lemma received_run k msg d d' r : received k msg d = (d', r) -> r = Ok tt /\ nd_cp (dr_node d') = nd_cp (dr_node d).
Proof using Type. unfold received. case_bool_decide; [by intros [= <- <-]|]. by intros (? & ? & _)%dr_log_run. Qed.

(** ** Answers *)

(** An answer without an error lists what the checkpoint records. *)
Definition answered (uid : string) (pr : PrepareResult) d : Prop :=
  match pr_Err pr with
  | None => exists pds, (recorded d ≫= lookup uid) = Some pds /\ pr_Devices pr = GetDevices pds
  | Some _ => pr_Devices pr = []
  end.

Lemma prepareResourceClaim_run claim d d' r :
  prepareResourceClaim cfg rsdGroupFn claim d = (d', r) ->
  exists pr, r = Ok pr /\ answered (UID claim) pr d' /\ forall uid, uid <> UID claim -> same_record uid d d'.
Proof using Hrsd.
  unfold prepareResourceClaim, answerPrepare. intros H. apply bind_try in H as (d1 & rp & Hp & H).
  apply on_node_run in Hp as (n' & Hp & ->). apply (Prepare_checkpoint_run cfg rsdGroupFn (Hrsd:=Hrsd)) in Hp.
  destruct rp as [devs|e].
  - apply bind_run in H as [(d2 & [] & Hl & H)|(e & Hl & ->)]; apply dr_log_run in Hl as (? & Hcp & _); [|done].
    apply bind_run in H as [(d3 & [] & Hl2 & H)|(e & Hl2 & ->)]; apply dr_log_run in Hl2 as (? & Hcp2 & _); [|done].
    minv. destruct Hp as (m & pds & Hm & Hm' & -> & _). eexists. split; [reflexivity|].
    unfold answered, same_record. rewrite Hcp2, Hcp. simpl. rewrite Hm, Hm'. simpl. split.
    + exists pds. by rewrite lookup_insert_eq.
    + intros uid Hne. by rewrite lookup_insert_ne.
  - apply bind_run in H as [(d2 & [] & Hl & H)|(e' & Hl & ->)]; apply dr_log_run in Hl as (? & Hcp & _); [|done].
    minv. eexists. split; [reflexivity|]. split; [done|]. intros uid _. unfold same_record. by rewrite Hcp, <- Hp.
Qed.

(** C18: A batch of claims is answered claim by claim: there is one answer per
    UID asked for and no other; an answer without an error lists exactly the
    devices that the checkpoint records for that UID when the call returns; a
    claim that fails answers with an error and no devices, without affecting
    the others; and the record of any claim not asked for is untouched. *)
Theorem PrepareResourceClaims_answers claims d d' r :
  PrepareResourceClaims cfg rsdGroupFn claims d = (d', r) ->
  exists answers, r = Ok answers /\ dom answers = list_to_set (map UID claims) /\
    (forall uid pr, answers !! uid = Some pr -> answered uid pr d') /\
    (forall uid, uid ∉ map UID claims -> same_record uid d d').
Proof using Hrsd.
  unfold PrepareResourceClaims. intros H.
  apply bind_run in H as [(d1 & [] & Hl & H)|(e & Hl & ->)]; apply received_run in Hl as [? Hcp]; [|done].
  apply (collect_run UID _ answered same_record) with (good := fun _ => True) in H as (m & -> & Hdom & HP & Hs).
  - exists m. split_and!; [done|done|done|]. intros uid Hu. unfold same_record. rewrite (Hs uid Hu). by rewrite Hcp.
  - done.
  - unfold same_record. intros. congruence.
  - unfold answered, same_record. intros k pr d2 d3 E. by rewrite E.
  - intros claim d2 d3 r3 _. apply prepareResourceClaim_run.
  - by apply Forall_true.
Qed.

(** A claim unprepared without an error is not recorded any more. *)
Definition released (uid : string) (e : option err) d : Prop :=
  e = None -> exists m, recorded d = Some m /\ unrecorded m uid.
Definition same_lookup (uid : string) d d' : Prop :=
  same_record uid d d' /\ (is_Some (recorded d) <-> is_Some (recorded d')).

Lemma unprepareResourceClaim_run uid d d' r :
  sep_free "/" uid -> unprepareResourceClaim cfg uid d = (d', r) ->
  exists e, r = Ok e /\ released uid e d' /\ forall uid2, uid2 <> uid -> same_lookup uid2 d d'.
Proof using Type.
  intros Hu. unfold unprepareResourceClaim, answerUnprepare. intros H. apply bind_try in H as (d1 & rp & Hp & H).
  apply on_node_run in Hp as (n' & Hp & ->). apply (Unprepare_complete_run cfg) in Hp; [|done].
  destruct rp as [devs|e].
  - minv. destruct Hp as (m & m' & Hm & Hm' & Hun & Hoth & _). eexists. split; [reflexivity|].
    split; [intros _; by exists m'|]. intros uid2 Hne. unfold same_lookup, same_record. simpl. rewrite Hm, Hm'. simpl.
    split; [by apply Hoth|]. split; by eexists.
  - apply bind_run in H as [(d2 & [] & Hl & H)|(e' & Hl & ->)]; apply dr_log_run in Hl as (? & Hcp & _); [|done].
    minv. eexists. split; [reflexivity|]. split; [done|]. intros uid2 _. unfold same_lookup, same_record.
    by rewrite Hcp, <- Hp.
Qed.

(** A batch of claims to unprepare is answered UID by UID: one without an
    error is not recorded when the call returns, and the record of any claim
    not in the batch is untouched. *)
Theorem UnprepareResourceClaims_answers uids d d' r :
  Forall (sep_free "/") uids -> UnprepareResourceClaims cfg uids d = (d', r) ->
  exists answers, r = Ok answers /\ dom answers = list_to_set uids /\
    (forall uid, answers !! uid = Some None -> exists m, recorded d' = Some m /\ unrecorded m uid) /\
    (forall uid, uid ∉ uids -> same_record uid d d').
Proof using Type.
  intros Hu. unfold UnprepareResourceClaims. intros H.
  apply bind_run in H as [(d1 & [] & Hl & H)|(e & Hl & ->)]; apply received_run in Hl as [? Hcp]; [|done].
  apply (collect_run id _ released same_lookup) with (good := sep_free "/") in H as (m & -> & Hdom & HP & Hs).
  - rewrite map_id in *. exists m. split_and!; [done|done| |].
    + intros uid Hm. by apply (HP uid None Hm).
    + intros uid Hn. unfold same_record. rewrite (proj1 (Hs uid Hn)). by rewrite Hcp.
  - done.
  - unfold same_lookup, same_record. intros k d2 d3 d4 [E1 E2] [E3 E4]. split; [congruence|tauto].
  - unfold released, same_lookup, same_record. intros k e d2 d3 [E1 E2] H2 He. destruct (H2 He) as (m & Hm & Hun).
    destruct (proj1 E2 ltac:(by eexists)) as [m' Hm']. exists m'. split; [done|].
    rewrite Hm, Hm' in E1. simpl in E1. unfold unrecorded. by rewrite E1.
  - intros uid d2 d3 r3. apply unprepareResourceClaim_run.
  - done.
Qed.

(** ** Health and registration *)

(** C39: The health service answers SERVING exactly when it should: for a known
    service, if both sockets answered during this very call, and for readiness
    only while the kubelet's last acknowledgement stands; every other known
    service is NOT_SERVING, without an error, and an unknown one is refused. *)
Theorem Check_health_verdict h service d :
  let '(d', r) := Check_health h service d in
  (service ∉ knownServices -> r = Err unknown_service) /\
  (service ∈ knownServices ->
     (r = Ok SERVING <->
        (service = "readiness" -> dr_registered d = true) /\
        GetInfo_at (regClient h) (clk (sys (nd_plugin (dr_node d)))) = Ok tt /\
        NodePrepareResources_at (draClient h) (S (clk (sys (nd_plugin (dr_node d))))) = Ok tt) /\
     (r <> Ok SERVING -> r = Ok NOT_SERVING)) /\
  dr_registered d' = dr_registered d /\ ds (nd_plugin (dr_node d')) = ds (nd_plugin (dr_node d)) /\
  nd_cp (dr_node d') = nd_cp (dr_node d).
Proof using Type.
  unfold Check_health. destruct (decide (service ∈ knownServices)) as [Hk|Hk].
  2: { rewrite bool_decide_false by done. simpl. split_and!; done. }
  rewrite bool_decide_true by done. cbn [negb]. unfold bind, gets, try.
  destruct (bool_decide (service = "readiness") && negb (dr_registered d)) eqn:Eg.
  { simpl. apply andb_prop in Eg as [Hs%bool_decide_eq_true Hr%negb_true_iff]. split_and!; try done.
    intros _. split; [|done]. split; [done|]. intros [H _]. rewrite H in Hr by done. done. }
  assert (service = "readiness" -> dr_registered d = true) as Hreg.
  { intros Hs. rewrite bool_decide_true in Eg by done. simpl in Eg. by apply negb_false_iff in Eg. }
  unfold socket_call. simpl. destruct (GetInfo_at _ _) as [[]|e] eqn:E1; simpl.
  - destruct (NodePrepareResources_at _ _) as [[]|e] eqn:E2; simpl; split_and!; try done; naive_solver.
  - split_and!; try done. naive_solver.
Qed.

(** The acknowledgement a registration message and its handling stand for. *)
Definition acknowledgement (m : RegistrarRequest * res unit) : option bool :=
  match m with
  | (RegistrationStatus b, h) => Some (b && match h with Ok _ => true | Err _ => false end)
  | (OtherRequest, _) => None
  end.

(** Readiness follows the kubelet: after any sequence of calls to the
    registrar, readiness is SERVING only if the last registration status said
    that the plugin is registered and was handled without an error, or if none
    was received and the plugin was acknowledged before. *)
Theorem readiness_after_registration hc l d d1 us d2 :
  forM (fun m => try (observeRegistration m.1 m.2)) l d = (d1, Ok us) ->
  Check_health hc "readiness" d1 = (d2, Ok SERVING) ->
  last (omap acknowledgement l) = Some true \/ (omap acknowledgement l = [] /\ dr_registered d = true).
Proof using Type.
  clear rsdGroupFn Hrsd. intros Hl Hc.
  assert (dr_registered d1 = true) as Hr.
  { unfold Check_health in Hc. rewrite bool_decide_true in Hc by (vm_compute; set_solver). cbn [negb] in Hc.
    rewrite bind_gets in Hc. destruct (dr_registered d1); [done|]. by minv. }
  clear Hc. revert d us Hl. induction l as [|[req h] l IH]; intros d us Hl; cbn [forM] in Hl; [minv; by right|].
  apply bind_Ok in Hl as (d3 & u & H1 & Hl). apply bind_Ok in Hl as (d4 & us' & Hl & H4).
  apply ret_inv in H4 as [<- _]. destruct (IH _ _ Hl) as [Hlast|[Hnil Hreg]].
  - left. cbn [omap list_omap]. destruct (acknowledgement (req, h)); [|exact Hlast]. rewrite last_cons. by rewrite Hlast.
  - simpl. unfold try, observeRegistration in H1. simpl in H1. destruct req as [b|].
    + left. cbn [omap list_omap]. change (list_omap _ _ acknowledgement l) with (omap acknowledgement l). rewrite Hnil.
      simpl. f_equal. unfold bind, modify, of_res in H1. destruct h; simplify_eq; done.
    + right. simpl. split; [done|]. unfold of_res in H1. by simplify_eq.
Qed.
End driver_props.
