(* ===== verification/Interleave.v ===== *)
(** The scan loop beside the requests: each tick cut where the lock is free and
    where its two reads meet, each request down to what it does under the lock. *)
From S2P Require Import Prelude GoStd Host PciSysfs Device Sriov Vfio Validate RsdGroup Claim Fs.
From S2P Require Import Metadata MetadataProps Cdi Checkpoint Discovery Inventory Scan ScanProps.
From S2P Require Import Prepare PrepareProps PrepareRuns Lifecycle LifecycleProps Flags Health Driver.
From S2P Require Import DriverProps.
Open Scope string_scope.

(** What a tick read: the error that discards it, or a snapshot. *)
Abbreviation snapshot := (err + (list Device * list Device * list skippedDevice))%type.

(** What a complete tick read: the native and the passthrough devices, and those
    skipped. *)
Abbreviation complete := (list Device * list Device * list skippedDevice)%type.

(** What the first half read: the passthrough devices, those skipped, and the
    number of native candidates. *)
Abbreviation sysfs_snapshot := (list Device * list skippedDevice * nat)%type.

(** Where the start and then the scan goroutine are. *)
Inductive phase :=
  | Starting | Idle
  | HalfRead (start : N) (x : sysfs_snapshot)
  | Scanned (start : N) (x : snapshot)
  | Publishing (r : DriverResources).

(** What a step does under the lock for a request. *)
Inductive request := RPrepare (claim : ResourceClaim) | RUnprepare (uid : string).

Section interleave.
Context {hst : Host} {smi : Smi} `{!SemanticEqual Device, !SemanticEqual (list Device)}
  {flt : Faults} {menv : MetadataEnv} {lib : CdiLib} {codec : CheckpointCodec}
  {cdi_store cp_store : Type} `{!CdiCache cdi_store, !CheckpointManager cp_store} {helper : Helper} {net : Network} {sockets : Sockets}
  (cfg : Config) (rsdGroupFn : list string -> M Sys string)
  {Hrsd : forall ids, Respects sys_le (rsdGroupFn ids)}.
Implicit Types d : Driver cdi_store cp_store.
Abbreviation state d := (ds (nd_plugin (dr_node d))).

(** The part of RescanDevices outside the lock, in two: sysfs, and rbln-smi with
    what it leads to. *)
Definition readSysfs : M Plugin (err + sysfs_snapshot) :=
  let! known := gets (fun p => known_of (allocatable (ds p))) in
  let! root := gets (fun p => sysfsRoot (ds p)) in
  let? read := on_sys (rescanSysfs root known) in
  let! was := gets (fun p => sysfsFailing (scan (ds p))) in
  match read with
  | Err e =>
      do! when (negb was) (on_sys (log LError "Device scan failed, keeping last inventory")) in
      do! upd_ds (set_scan (set_sysfsFailing true)) in
      ret (inl e)
  | Ok x =>
      do! when was (do! on_sys (log LInfo "Device scan recovered") in
                    upd_ds (set_scan (set_sysfsFailing false))) in
      ret (inr x)
  end.
Definition readNative (x : sysfs_snapshot) : M Plugin snapshot :=
  let '(vfio, vfioSkipped, candidates) := x in
  let? native := rescanNative candidates in
  match native with
  | Err e => ret (inl e)
  | Ok (npu, npuSkipped) =>
      match first_duplicate ∅ (npu ++ vfio)%list with
      | Some bus =>
          do! on_sys (log LError "Discarding inconsistent device scan") in
          ret (inl (ErrText ("PCI function " +:+ bus +:+ " appeared in both discovery results")))
      | None => ret (inr (npu, vfio, npuSkipped ++ vfioSkipped)%list)
      end
  end.
Definition rescanRead : M Plugin snapshot :=
  let! r := readSysfs in match r with inl e => ret (inl e) | inr x => readNative x end.

(** The rest: the commit under the lock, or the last resources. *)
Definition rescanFinish (x : snapshot) : M Plugin (DriverResources * bool * option err) :=
  match x with
  | inl e => let! r := gets (fun p => driverResources (ds p)) in ret (r, false, Some e)
  | inr (npu, vfio, skipped) => let! (r, changed) := rescanCommit npu vfio skipped in ret (r, changed, None)
  end.

Definition tick_rest (interval : Z) (start : N) (x : snapshot) : M (Driver cdi_store cp_store) phase :=
  let! scanned := on_plugin (rescanFinish x) in
  let! stop := on_plugin (on_sys time_Now) in
  do! on_plugin (observeScanDuration (Z.of_N stop - Z.of_N start) interval) in
  match scanned with
  | (_, _, Some _) => ret Idle
  | (resources, changed, None) => ret (if changed then Publishing resources else Idle)
  end.

(** Labelled with what is done for a request, if anything. Prepare and Unprepare
    hold the lock; the records of the handlers around them come at any time. *)
Inductive driver_step (interval : Z) :
    option request -> Driver cdi_store cp_store * phase -> Driver cdi_store cp_store * phase -> Prop :=
  | ds_start d d' : firstPublication d = (d', Ok tt) -> driver_step interval None (d, Starting) (d', Idle)
  | ds_sysfs d d' r :
      (0 < interval)%Z -> on_plugin readSysfs d = (d', Ok r) ->
      let start := now (sys (nd_plugin (dr_node d))) in
      driver_step interval None (d, Idle) (d', match r with inl e => Scanned start (inl e) | inr x => HalfRead start x end)
  | ds_native d d' start x s :
      on_plugin (readNative x) d = (d', Ok s) -> driver_step interval None (d, HalfRead start x) (d', Scanned start s)
  | ds_commit d d' start x ph :
      tick_rest interval start x d = (d', Ok ph) -> driver_step interval None (d, Scanned start x) (d', ph)
  | ds_publish d d' resources r :
      republish resources d = (d', r) -> driver_step interval None (d, Publishing resources) (d', Idle)
  | ds_prepare d d' ph claim r :
      on_node (Prepare cfg rsdGroupFn claim) d = (d', r) ->
      driver_step interval (Some (RPrepare claim)) (d, ph) (d', ph)
  | ds_unprepare d d' ph uid r :
      on_node (Unprepare cfg uid) d = (d', r) -> driver_step interval (Some (RUnprepare uid)) (d, ph) (d', ph)
  | ds_record d d' ph l text r : dr_log l text d = (d', r) -> driver_step interval None (d, ph) (d', ph)
  | ds_registration d d' ph req (handled : res unit) r :
      observeRegistration req handled d = (d', r) -> driver_step interval None (d, ph) (d', ph)
  | ds_error d d' ph e r : HandleError e d = (d', r) -> driver_step interval None (d, ph) (d', ph)
  | ds_health d d' ph h service r :
      dr_health d = Some h -> Check_health h service d = (d', r) -> driver_step interval None (d, ph) (d', ph).

(** From a driver that just started; only a positive interval starts the scan. *)
Inductive driver_reach (interval : Z) : Driver cdi_store cp_store * phase -> Prop :=
  | dreach_start flags root cache manager helper_up n d :
      startDriver flags root cache manager helper_up (new_driver n) = (d, Ok tt) ->
      driver_reach interval (d, Starting)
  | dreach_step ev x y : driver_reach interval x -> driver_step interval ev x y -> driver_reach interval y.

(** The devices of a snapshot, and those published by a driver. *)
Definition devices_of (s : complete) : list Device * list Device := s.1.
Definition devices d : list Device * list Device := (npuDevices (state d), vfioDevices (state d)).
#[export] Instance devices_eq_dec (x y : list Device * list Device) : Decision (x = y).
Proof using Type. apply _. Defined.

(** ** Where published devices come from *)

(** Any step, and the steps of others while the scan goroutine is in [ph]. *)
Definition any_step (interval : Z) (x y : Driver cdi_store cp_store * phase) : Prop := exists ev, driver_step interval ev x y.
Definition meanwhile (interval : Z) (ph : phase) : relation (Driver cdi_store cp_store) :=
  rtc (fun d d' => any_step interval (d, ph) (d', ph)).

(** The devices that the start found, in a run that has led to [z]. *)
Definition from_start (interval : Z) (z : Driver cdi_store cp_store * phase) (l : list Device * list Device) : Prop :=
  exists flags root cache manager helper_up n d0 p,
    startDriver flags root cache manager helper_up (new_driver n) = (d0, Ok tt) /\
    rtc (any_step interval) (d0, Starting) z /\
    initialDiscovery (nodeName flags) root (nd_plugin n) = (p, Ok tt) /\
    l = (npuDevices (ds p), vfioDevices (ds p)).

(** One tick read both halves of a scan: sysfs in [dA], and, after what others did
    meanwhile, the native devices in [d0]. *)
Definition reads_sysfs (interval : Z) (start : N) (h : sysfs_snapshot) (d0 : Driver cdi_store cp_store) : Prop :=
  exists dA dB, driver_reach interval (dA, Idle) /\ start = now (sys (nd_plugin (dr_node dA))) /\ (0 < interval)%Z /\
    on_plugin readSysfs dA = (dB, Ok (inr h)) /\ meanwhile interval (HalfRead start h) dB d0.
Definition reads_scan (interval : Z) (start : N) (s : complete) (d2 : Driver cdi_store cp_store) : Prop :=
  exists h d0 d1, reads_sysfs interval start h d0 /\
    on_plugin (readNative h) d0 = (d1, Ok (inr s)) /\ meanwhile interval (Scanned start (inr s)) d1 d2.

(** The devices that one tick found and committed, in a run that has led to [z]. *)
Definition from_tick (interval : Z) (z : Driver cdi_store cp_store * phase) (l : list Device * list Device) : Prop :=
  exists start s d2 d3 ph, reads_scan interval start s d2 /\ tick_rest interval start (inr s) d2 = (d3, Ok ph) /\
    rtc (any_step interval) (d3, ph) z /\ l = devices_of s.

(** ** Lemmas *)

Lemma same_inventory_trans x y z : same_inventory x y -> same_inventory y z -> same_inventory x z.
Proof using Type.
  intros (? & ? & ? & ? & ? & ?) (? & ? & ? & ? & ? & ?). unfold same_inventory. split_and!; congruence.
Qed.

Lemma RescanDevices_split p : RescanDevices p = (let! x := rescanRead in rescanFinish x) p.
Proof using Type.
  unfold RescanDevices, rescanRead, readSysfs, readNative, rescanFinish. unfold bind, gets, try, ret. unfold zoom.
  destruct (rescanSysfs _ _ _) as [s1 [[[vfio vsk] c]|e]].
  - destruct (when _ _ _) as [p1 [[]|e]]; [|done]. destruct (rescanNative c p1) as [p2 [[npu nsk]|e]]; [|done].
    destruct (first_duplicate _ _); [done|]. by destruct (rescanCommit _ _ _ p2) as [p3 [[r ch]|e]].
  - destruct (when _ _ _) as [p1 [[]|e']]; [|done]. unfold modify. done.
Qed.

(** Only the flags of the scan loop change. *)
Definition flags_only (x y : DeviceState) : Prop := exists f, y = set_scan f x.
#[local] Instance flags_only_preorder : PreOrder flags_only.
Proof using Type.
  split; [intros x; exists id; by rewrite set_scan_id|].
  intros x y z [f ->] [g ->]. eexists. apply set_scan_set_scan.
Qed.
Lemma flags_only_ok x y : flags_only x y -> inventory_ok x -> inventory_ok y.
Proof using Type. intros [f ->]. apply set_scan_ok. Qed.
Lemma flags_same x y : flags_only x y -> same_inventory x y.
Proof using Type. intros [f ->]. apply set_scan_same. Qed.
Lemma flags_only_resources x y : flags_only x y -> driverResources y = driverResources x.
Proof using Type. by intros [f ->]. Qed.

Lemma readSysfs_flags p p' r : readSysfs p = (p', r) -> flags_only (ds p) (ds p').
Proof using Type.
  unfold readSysfs. intros H. rewrite !bind_gets in H. apply bind_try in H as (p1 & rd & Hs & H). rewrite bind_gets in H.
  apply zoom_inv in Hs as (s1 & Hs & ->). destruct rd as [x|e].
  - apply bind_run in H as [(p2 & [] & Hr & H)|(e & Hr & ->)]; apply recover_run in Hr as (? & _ & _ & Hds); [|done].
    minv. rewrite Hds. destruct (sysfsFailing _); [by eexists|by apply flags_only_preorder].
  - pinv. by eexists.
Qed.
Lemma readNative_flags x p p' r : readNative x p = (p', r) -> flags_only (ds p) (ds p').
Proof using Type.
  destruct x as [[vfio vsk] c]. simpl. intros H. apply bind_try in H as (p3 & rn & Hn & H).
  apply rescanNative_run in Hn as (_ & _ & Hd3 & _). assert (flags_only (ds p) (ds p3)) as H3 by (by eexists).
  destruct rn as [[npu nsk]|e]; [|by minv]. destruct (first_duplicate _ _); [|by minv]. pinv. exact H3.
Qed.
Lemma rescanRead_flags p p' r : rescanRead p = (p', r) -> flags_only (ds p) (ds p').
Proof using Type.
  unfold rescanRead. intros [(p1 & x & H1 & H)|(e & H1 & ->)]%bind_run; [|by eapply readSysfs_flags].
  apply readSysfs_flags in H1. destruct x as [e|x]; [by minv|]. etrans; [exact H1|by eapply readNative_flags].
Qed.

Lemma rescanFinish_run x p p' r ch oe :
  rescanFinish x p = (p', Ok (r, ch, oe)) ->
  r = driverResources (ds p') /\
  (if ch then oe = None /\ inventory_ok (ds p') else flags_only (ds p) (ds p')).
Proof using Type.
  destruct x as [e|[[npu vfio] sk]]; simpl; intros H; [minv; split; [done|reflexivity]|].
  destruct (rescanCommit_run npu vfio sk p) as (p1 & ch1 & r1 & E & -> & _ & _ & _ & Hd).
  unfold bind in H. rewrite E in H. unfold ret in H. simplify_eq. split; [done|]. rewrite Hd.
  destruct ch; [split; [done|apply rebuildResources_ok]|reflexivity].
Qed.

Lemma on_plugin_run {A} (m : M Plugin A) d d' r :
  on_plugin m d = (d', r) ->
  exists p', m (nd_plugin (dr_node d)) = (p', r) /\ state d' = ds p' /\ dr_attempts d' = dr_attempts d.
Proof using Type. unfold on_plugin, zoom. destruct (m _) as [p' r0]. intros [= <- <-]. eauto. Qed.

Lemma tick_rest_run interval start x d d' r :
  tick_rest interval start x d = (d', Ok r) ->
  dr_attempts d' = dr_attempts d /\
  match r with
  | Idle => flags_only (state d) (state d')
  | Publishing resources => inventory_ok (state d') /\ resources = driverResources (state d')
  | Starting | HalfRead _ _ | Scanned _ _ => False
  end.
Proof using Type.
  unfold tick_rest. intros H. apply bind_Ok in H as (d1 & [[res ch] oe] & H1 & H).
  apply on_plugin_run in H1 as (p1 & H1 & Hs1 & Ha1). apply rescanFinish_run in H1 as [-> H1].
  apply bind_Ok in H as (d2 & stop & H2 & H). unfold time_Now in H2.
  apply on_plugin_run in H2 as (p2 & H2 & Hs2 & Ha2). apply zoom_inv in H2 as (s2 & H2 & ->).
  apply bind_Ok in H as (d3 & [] & H3 & H). apply on_plugin_run in H3 as (p3 & H3 & Hs3 & Ha3).
  apply observeScanDuration_run in H3 as (f & Hf & _). simpl in Hs2.
  assert (flags_only (state d1) (state d3)) as H13 by (exists f; congruence).
  rewrite <- Hs1 in H1. assert (dr_attempts d3 = dr_attempts d) as Ha by congruence.
  destruct oe as [e|]; [|destruct ch]; apply ret_inv in H as [-> H]; simplify_eq; split; try done.
  - destruct ch; [by destruct H1|]. by etrans.
  - destruct H1 as [_ H1]. split; [by eapply flags_only_ok|]. by rewrite (flags_only_resources _ _ H13), Hs1.
  - by etrans.
Qed.

(** The commit of a complete scan. *)
Lemma tick_rest_commits interval start s d d' ph :
  tick_rest interval start (inr s) d = (d', Ok ph) ->
  dr_attempts d' = dr_attempts d /\
  if decide (devices_of s = devices d) then ph = Idle /\ same_inventory (state d) (state d')
  else ph = Publishing (driverResources (state d')) /\
       same_inventory (rebuildResources (set_devices s.1.1 s.1.2 (state d))) (state d').
Proof using Type.
  intros H. pose proof (tick_rest_run _ _ _ _ _ _ H) as [Ha Hph]. split; [done|].
  destruct s as [[npu vfio] sk]. unfold tick_rest in H. apply bind_Ok in H as (d1 & [[r ch] oe] & H1 & H).
  apply on_plugin_run in H1 as (p1 & H1 & Hs1 & _). simpl in H1.
  destruct (rescanCommit_run npu vfio sk (nd_plugin (dr_node d))) as (p2 & ch' & r' & E & -> & _ & _ & Hch & Hds).
  unfold bind in H1. rewrite E in H1. unfold ret in H1. injection H1 as <- <- <- <-.
  apply bind_Ok in H as (d2 & stop & H2 & H). apply on_plugin_run in H2 as (q & H2 & Hs2 & _).
  unfold time_Now in H2. apply zoom_inv in H2 as (t2 & _ & ->). simpl in Hs2.
  apply bind_Ok in H as (d3 & [] & H3 & H). apply on_plugin_run in H3 as (p3 & H3 & Hs3 & _).
  apply observeScanDuration_run in H3 as (f & Hf & _). apply ret_inv in H as [-> Hp].
  assert (same_inventory (ds p2) (state d3)) as Hsame by (apply flags_same; exists f; congruence). unfold devices_of, devices.
  simpl. destruct ch'; injection Hp as ->; case_decide as Hdec.
  - exfalso. injection Hdec as ? ?. assert (true = false) by (by apply Hch). done.
  - split; [by destruct Hph as [_ ->]|]. by rewrite <- Hds.
  - split; [done|]. by rewrite <- Hds.
  - exfalso. apply Hdec. destruct (proj1 Hch eq_refl) as [-> ->]. done.
Qed.

Lemma devices_same d d' : same_inventory (state d) (state d') -> devices d' = devices d.
Proof using Type. intros (_ & _ & _ & H1 & H2 & _). unfold devices. by rewrite H1, H2. Qed.

(** Requests, registration, errors and health checks. *)
Definition quiet_step d d' : Prop := state d' = state d /\ dr_attempts d' = dr_attempts d.
#[local] Instance quiet_step_preorder : PreOrder quiet_step.
Proof using Type. split; [by split|]. intros d1 d2 d3 [? ?] [? ?]. split; congruence. Qed.
Lemma quiet_same d d' : quiet_step d d' -> same_inventory (state d) (state d').
Proof using Type. intros [-> _]. done. Qed.
#[local] Instance dr_log_quiet l t : Respects quiet_step (dr_log (cdi_store:=cdi_store) (cp_store:=cp_store) l t).
Proof using Type. intros d. destruct (dr_log l t d) as [d' r] eqn:E. by apply dr_log_run in E as (_ & _ & ? & ? & _). Qed.
#[local] Instance on_node_quiet {A} (m : M (Node cdi_store cp_store) A) :
  (forall n, ds (nd_plugin (m n).1) = ds (nd_plugin n)) -> Respects quiet_step (on_node m).
Proof using Type.
  intros Hm d. unfold on_node, zoom. specialize (Hm (dr_node d)). by destruct (m (dr_node d)) as [n' r].
Qed.
#[local] Instance prepare_quiet claim : Respects quiet_step (on_node (Prepare cfg rsdGroupFn claim)).
Proof using Hrsd. apply on_node_quiet. intros n. destruct (Prepare _ _ _ n) as [n' r] eqn:E. by eapply Prepare_ds. Qed.
#[local] Instance unprepare_quiet uid : Respects quiet_step (on_node (Unprepare cfg uid)).
Proof using Type. apply on_node_quiet. intros n. destruct (Unprepare _ _ n) as [n' r] eqn:E. by eapply Unprepare_ds. Qed.
#[local] Instance socket_call_quiet a : Respects quiet_step (socket_call (cdi_store:=cdi_store) (cp_store:=cp_store) a).
Proof using Type. intros d. done. Qed.
#[local] Instance on_net_quiet {A} (m : M Net A) : Respects quiet_step (on_net (cdi_store:=cdi_store) (cp_store:=cp_store) m).
Proof using Type. intros d. unfold on_net, zoom. by destruct (m _). Qed.
#[local] Instance set_net_quiet f g b :
  Respects quiet_step (modify (fun d : Driver cdi_store cp_store => set_net (f d) (g d) (b d) d)).
Proof using Type. by intros d. Qed.
#[local] Instance Check_health_quiet h service : Respects quiet_step (Check_health (cdi_store:=cdi_store) (cp_store:=cp_store) h service).
Proof using Type. unfold Check_health. solve_respects. Qed.
#[local] Instance observeRegistration_quiet req (h : res unit) :
  Respects quiet_step (observeRegistration (cdi_store:=cdi_store) (cp_store:=cp_store) req h).
Proof using Type. intros d. destruct req, h; done. Qed.
#[local] Instance HandleError_quiet e : Respects quiet_step (HandleError (cdi_store:=cdi_store) (cp_store:=cp_store) e).
Proof using Type. unfold HandleError. case_match; [apply _|]. intros d. done. Qed.

Lemma republish_run resources d d' r :
  republish resources d = (d', r) ->
  state d' = state d /\ exists ok, dr_attempts d' = (dr_attempts d ++ [(resources, ok)])%list.
Proof using Type.
  unfold republish. intros H. apply bind_try in H as (d1 & a & H1 & H). unfold PublishResources in H1.
  injection H1 as <- <-.
  match type of H with _ ?d1 = _ => assert (quiet_step d1 d') as [Hs Ha] end.
  { eapply (respects_run quiet_step); [|exact H]. case_match; apply _. }
  split; [by rewrite Hs|]. eexists. by rewrite Ha.
Qed.

Lemma firstPublication_state d d' r : firstPublication d = (d', r) -> state d' = state d.
Proof using Type.
  unfold firstPublication. rewrite bind_gets. unfold bind, PublishResources.
  destruct (PublishResources_at _) as [[]|e]; by intros [= <- <-].
Qed.

(** What holds at every point of every interleaving. *)
Record driver_inv (x : Driver cdi_store cp_store * phase) : Prop := {
  di_inventory : inventory_ok (state x.1);
  di_published : match x.2 with
    | Starting => dr_attempts x.1 = []
    | Publishing r => r = driverResources (state x.1)
    | _ => fst <$> last (dr_attempts x.1) = Some (driverResources (state x.1))
    end;
}.
Lemma quiet_inv d d' ph : quiet_step d d' -> driver_inv (d, ph) -> driver_inv (d', ph).
Proof using Type. intros [Hs Ha] [H1 H2]. split; simpl in *; rewrite ?Hs, ?Ha; done. Qed.
Lemma flags_inv d d' ph ph' :
  flags_only (state d) (state d') -> dr_attempts d' = dr_attempts d ->
  (forall r, ph <> Publishing r) -> (forall r, ph' <> Publishing r) -> ph <> Starting -> ph' <> Starting ->
  driver_inv (d, ph) -> driver_inv (d', ph').
Proof using Type.
  intros Hf Ha Hp Hp' Hn Hn' [H1 H2]. split; simpl in *; [by eapply flags_only_ok|].
  rewrite (flags_only_resources _ _ Hf), Ha. destruct ph, ph'; naive_solver.
Qed.

(** A step is one of the scan goroutine, or leaves inventory and publications. *)
Lemma driver_step_cases interval ev d ph d' ph' :
  driver_step interval ev (d, ph) (d', ph') ->
  (quiet_step d d' /\ ph' = ph) \/
  (ph = Starting /\ ph' = Idle /\ firstPublication d = (d', Ok tt)) \/
  (ph = Idle /\ exists r, on_plugin readSysfs d = (d', Ok r) /\
     ph' = match r with inl e => Scanned (now (sys (nd_plugin (dr_node d)))) (inl e)
                      | inr x => HalfRead (now (sys (nd_plugin (dr_node d)))) x end) \/
  (exists start x s, ph = HalfRead start x /\ ph' = Scanned start s /\ on_plugin (readNative x) d = (d', Ok s)) \/
  (exists start x, ph = Scanned start x /\ tick_rest interval start x d = (d', Ok ph')) \/
  (exists resources r, ph = Publishing resources /\ ph' = Idle /\ republish resources d = (d', r)).
Proof using Hrsd.
  intros H. inversion H; subst; [by eauto 10..|left|left|left|left|left|left];
    (split; [|done]); (eapply (respects_run quiet_step); [|eassumption]); apply _.
Qed.

Lemma driver_reach_inv interval x : driver_reach interval x -> driver_inv x.
Proof using Hrsd.
  induction 1 as [flags root cache manager hu n d H|ev [d ph] [d' ph'] _ IH Hstep].
  - unfold startDriver in H. apply bind_Ok in H as (d1 & [] & H1 & H). unfold on_node, zoom in H1.
    destruct (NewDeviceState _ _ _ _ _ _) as [n' r] eqn:E. injection H1 as <- ->. apply NewDeviceState_run in E as (Hok & _).
    assert (quiet_step (set_node n' (new_driver n)) d) as [Hs Ha] by (eapply respects_run; [|exact H]; solve_respects).
    split; simpl; [by rewrite Hs|by rewrite Ha].
  - apply driver_step_cases in Hstep as
      [[H ->]|[(-> & -> & H)|[(-> & x & H & ->)|[(start & x & y & -> & -> & H)|[(start & x & -> & H)|(res & r & -> & -> & H)]]]]].
    + by eapply quiet_inv.
    + destruct IH as [Hok _]. unfold firstPublication in H. rewrite bind_gets in H. apply bind_Ok in H as (d1 & [] & H1 & H).
      pose proof (respects_run quiet_step _ _ _ _ _ H) as [Hs Ha]. unfold PublishResources in H1. injection H1 as <- _.
      split; simpl; rewrite Hs; [done|]. rewrite Ha. simpl. by rewrite last_snoc.
    + apply on_plugin_run in H as (p' & H & Hs & Ha). apply readSysfs_flags in H. rewrite <- Hs in H.
      eapply flags_inv; [exact H|exact Ha| | | | |exact IH]; by destruct x.
    + apply on_plugin_run in H as (p' & H & Hs & Ha). apply readNative_flags in H. rewrite <- Hs in H.
      eapply flags_inv; [exact H|exact Ha| | | | |exact IH]; done.
    + apply tick_rest_run in H as [Ha H]. destruct ph' as [| | | |resources]; [done| |done..|].
      * eapply flags_inv; [exact H|exact Ha| | | | |exact IH]; done.
      * destruct H as [H1 H2]. by split.
    + apply republish_run in H as (Hs & ok & Ha). destruct IH as [H1 H2]. simpl in *.
      split; simpl; rewrite Hs; [done|]. rewrite Ha, last_snoc. simpl. by rewrite H2.
Qed.

(** A step of the driver moves every history on. *)
Lemma history_step interval x y l :
  any_step interval x y ->
  from_start interval x l \/ from_tick interval x l -> from_start interval y l \/ from_tick interval y l.
Proof using Type.
  intros H [(fl & root & ca & ma & hu & n & d0 & p & H1 & H2 & H3)|(st & s & d2 & d3 & ph & H1 & H2 & H3 & H4)]; [left|right].
  - exists fl, root, ca, ma, hu, n, d0, p. split_and!; [done|by eapply rtc_r|apply H3..].
  - exists st, s, d2, d3, ph. split_and!; [done|done|by eapply rtc_r|done].
Qed.
Lemma meanwhile_step interval ph d d' d2 :
  any_step interval (d', ph) (d2, ph) -> meanwhile interval ph d d' -> meanwhile interval ph d d2.
Proof using Type. intros H Hm. by eapply rtc_r. Qed.

(** What is published, and what a tick in progress holds, was read by one scan. *)
Record scan_inv (interval : Z) (x : Driver cdi_store cp_store * phase) : Prop := {
  si_devices : from_start interval x (devices x.1) \/ from_tick interval x (devices x.1);
  si_reading : match x.2 with
    | HalfRead start h => reads_sysfs interval start h x.1
    | Scanned start (inr s) => reads_scan interval start s x.1
    | _ => True
    end;
}.
Lemma reading_step interval d d' ph :
  any_step interval (d, ph) (d', ph) -> quiet_step d d' -> scan_inv interval (d, ph) -> scan_inv interval (d', ph).
Proof using Type.
  intros H Hq [Hd Hr]. split; simpl in *.
  - rewrite (devices_same _ _ (quiet_same _ _ Hq)). by eapply history_step.
  - destruct ph as [| |st h|st [e|s]|]; try done.
    + destruct Hr as (dA & dB & ? & ? & ? & ? & ?). exists dA, dB. split_and!; try done. by eapply meanwhile_step.
    + destruct Hr as (h & d0 & d1 & ? & ? & ?). exists h, d0, d1. split_and!; try done. by eapply meanwhile_step.
Qed.

Lemma driver_reach_scan interval x : driver_reach interval x -> scan_inv interval x.
Proof using Hrsd.
  intros Hx. induction Hx as [flags root cache manager hu n d H|ev [d ph] [d' ph'] Hx IH Hstep].
  - split; [left|done]. pose proof H as Hs. unfold startDriver in H. apply bind_Ok in H as (d1 & [] & H1 & H).
    unfold on_node, zoom in H1. destruct (NewDeviceState _ _ _ _ _ _) as [n' r] eqn:E. injection H1 as <- ->.
    apply NewDeviceState_discovers in E as (p & Hp & E).
    assert (quiet_step (set_node n' (new_driver n)) d) as [Hd _] by (eapply respects_run; [|exact H]; solve_respects).
    exists flags, root, cache, manager, hu, n, d, p. split_and!; [exact Hs|reflexivity|exact Hp|].
    unfold devices. simpl in *. by rewrite Hd, E.
  - assert (any_step interval (d, ph) (d', ph')) as Hany by (by exists ev).
    assert (forall P, same_inventory (state d) (state d') -> match ph' with HalfRead start h => reads_sysfs interval start h d'
      | Scanned start (inr s) => reads_scan interval start s d' | _ => P end -> scan_inv interval (d', ph')) as Hsame.
    { intros P Hs Hr. destruct IH as [IH _]. split; simpl in *; [rewrite (devices_same _ _ Hs); by eapply history_step|].
      by destruct ph' as [| | |? []|]. }
    pose proof Hstep as Hst. apply driver_step_cases in Hstep as
      [[H ->]|[(-> & -> & H)|[(-> & x & H & ->)|[(start & h & y & -> & -> & H)|[(start & x & -> & H)|(res & r & -> & -> & H)]]]]].
    + by eapply reading_step.
    + apply (Hsame True); [|done]. by rewrite (firstPublication_state _ _ _ H).
    + pose proof H as Hrun. apply on_plugin_run in H as (p' & H & Hs & _). apply readSysfs_flags in H. rewrite <- Hs in H.
      apply flags_same in H. destruct x as [e|h]; apply (Hsame True); try done.
      exists d, d'. split_and!; [exact Hx|done| |exact Hrun|by left].
      inversion Hst; subst; done.
    + pose proof H as Hrun. apply on_plugin_run in H as (p' & H & Hs & _). apply readNative_flags in H. rewrite <- Hs in H.
      apply flags_same in H. destruct y as [e|s]; apply (Hsame True); try done.
      exists h, d, d'. split_and!; [by destruct IH|exact Hrun|by left].
    + pose proof H as Hrun. apply tick_rest_run in H as [_ H]. destruct x as [e|s].
      * destruct ph' as [| | | |res]; [done|by apply (Hsame True); [apply flags_same|]|done..|exfalso].
        unfold tick_rest in Hrun. apply bind_Ok in Hrun as (d1 & [[r ch] oe] & (p1 & H1 & _)%on_plugin_run & Hrun).
        simpl in H1. minv.
      * destruct IH as [_ Hr]. simpl in Hr.
        assert (devices d' = devices_of s) as Hdev.
        { apply tick_rest_commits in Hrun as [_ Hrun]. case_decide as Hdec; destruct Hrun as [_ Hs].
          - rewrite (devices_same _ _ Hs). done.
          - destruct Hs as (_ & _ & _ & H1 & H2 & _). unfold devices, devices_of. rewrite H1, H2. by destruct s as [[npu vfio] sk]. }
        split; simpl; [|by destruct ph'].
        right. exists start, s, d, d', ph'. split_and!; [exact Hr|exact Hrun|reflexivity|exact Hdev].
    + apply republish_run in H as (Hs & _). apply (Hsame True); [|done]. by rewrite Hs.
Qed.


(** A tick in parts. *)
Definition tick_end (ph : phase) : M (Driver cdi_store cp_store) unit :=
  match ph with Publishing r => republish r | _ => ret tt end.
Lemma on_plugin_bind {A B} (m : M Plugin A) (k : A -> M Plugin B) d :
  on_plugin (bind m k) d = bind (on_plugin m) (fun a => on_plugin (k a)) d.
Proof using Type. unfold on_plugin, zoom, bind. destruct (m _) as [p1 [a|e]]; [|done]. simpl. by destruct (k a p1). Qed.
Lemma on_plugin_ext {A} (m m' : M Plugin A) d :
  (forall p, m p = m' p) -> on_plugin (cdi_store:=cdi_store) (cp_store:=cp_store) m d = on_plugin m' d.
Proof using Type. intros H. unfold on_plugin, zoom. by rewrite H. Qed.

Lemma scanTick_parts interval d :
  scanTick interval d =
  (let! x := on_plugin rescanRead in
   let! ph := tick_rest interval (now (sys (nd_plugin (dr_node d)))) x in tick_end ph) d.
Proof using Type.
  set (start := now (sys (nd_plugin (dr_node d)))).
  assert (scanTick interval d =
    (let! scanned := on_plugin RescanDevices in
     let! stop := on_plugin (on_sys time_Now) in
     do! on_plugin (observeScanDuration (Z.of_N stop - Z.of_N start) interval) in
     match scanned with
     | (_, _, Some _) => ret tt
     | (resources, changed, None) => if changed then republish resources else ret tt
     end) d) as ->.
  { unfold scanTick. unfold bind at 1, on_plugin at 1, zoom at 1. simpl. by destruct d as [[[s ds0 k] ? ? ?] ? ? ?]. }
  unfold bind at 1. rewrite (on_plugin_ext _ _ _ RescanDevices_split), on_plugin_bind. unfold bind at 1 4.
  destruct (on_plugin rescanRead d) as [d1 [x|e]]; [|done]. unfold tick_rest, bind.
  destruct (on_plugin (rescanFinish x) d1) as [d2 [[[r ch] oe]|e]]; [|done].
  destruct (on_plugin (on_sys time_Now) d2) as [d3 [stop|e]]; [|done].
  destruct (on_plugin (observeScanDuration _ _) d3) as [d4 [[]|e]]; [|done]. by destruct oe, ch.
Qed.

Lemma readSysfs_never_fails p : exists p' r, readSysfs p = (p', Ok r).
Proof using Type.
  unfold readSysfs. rewrite !bind_gets. unfold bind, try, gets, zoom, when, ret. destruct (rescanSysfs _ _ _) as [s [x|e]]; simpl.
  - destruct (sysfsFailing _); by eexists _, _.
  - destruct (negb _); by eexists _, _.
Qed.
Lemma readNative_never_fails x p : exists p' y, readNative x p = (p', Ok y).
Proof using Type.
  destruct x as [[vfio vsk] c]. simpl. unfold bind, try. destruct (rescanNative c p) as [p1 [[npu nsk]|e]]; [|by eexists _, _].
  destruct (first_duplicate _ _); by eexists _, _.
Qed.
Lemma rescanFinish_never_fails x p : exists p' r, rescanFinish x p = (p', Ok r).
Proof using Type.
  destruct x as [e|[[npu vfio] sk]]; [by eexists _, _|]. destruct (rescanCommit_run npu vfio sk p) as (p1 & ch & r & E & _).
  eexists _, _. simpl. unfold bind. by rewrite E.
Qed.
Lemma tick_rest_never_fails interval start x d r p2 :
  rescanFinish x (nd_plugin (dr_node d)) = (p2, Ok r) -> exists d' ph, tick_rest interval start x d = (d', Ok ph).
Proof using Type.
  intros H. unfold tick_rest, bind, on_plugin at 1, zoom at 1. rewrite H. destruct r as [[r ch] oe].
  unfold on_plugin at 1, zoom, time_Now, gets.
  match goal with |- context [on_plugin (observeScanDuration ?a ?b) ?d1] =>
    destruct (on_plugin (observeScanDuration a b) d1) as [d2 r2] eqn:E end.
  assert (r2 = Ok tt) as ->.
  { unfold on_plugin, zoom in E. destruct (observeScanDuration _ _ _) as [p3 r3] eqn:E3. injection E as _ <-.
    unfold observeScanDuration in E3. by pinv. }
  destruct oe; eauto.
Qed.

Lemma republish_never_fails resources d : exists d', republish resources d = (d', Ok tt).
Proof using Type.
  destruct (republish resources d) as [d' r] eqn:E. exists d'. f_equal.
  unfold republish, bind, try, PublishResources in E.
  destruct (PublishResources_at _); unfold ret, dr_log, on_plugin, zoom, log, modify in E; by simplify_eq.
Qed.

(** From every point after the start, the scan goroutine can finish its tick. *)
Lemma publishing_finishes interval d resources :
  exists d', republish resources d = (d', Ok tt) /\ rtc (driver_step interval None) (d, Publishing resources) (d', Idle).
Proof using Type.
  destruct (republish_never_fails resources d) as [d' E]. exists d'. split; [done|]. apply rtc_once. by eapply ds_publish.
Qed.
Lemma scanned_finishes interval d start x :
  exists d', (let! ph := tick_rest interval start x in tick_end ph) d = (d', Ok tt) /\
    rtc (driver_step interval None) (d, Scanned start x) (d', Idle).
Proof using Type.
  destruct (rescanFinish_never_fails x (nd_plugin (dr_node d))) as (p2 & r & E2).
  destruct (tick_rest_never_fails interval start x d r p2 E2) as (d1 & ph & E1).
  pose proof (tick_rest_run _ _ _ _ _ _ E1) as [_ Hph]. pose proof (ds_commit interval _ _ _ _ _ E1) as S1.
  unfold bind. rewrite E1. destruct ph as [| | | |res]; [done| |done..|]; simpl.
  - exists d1. split; [done|by apply rtc_once].
  - destruct (publishing_finishes interval d1 res) as (d2 & E & S2). exists d2. split; [done|]. by eapply rtc_l.
Qed.
Lemma half_read_finishes interval d start x :
  exists d', (let! y := on_plugin (readNative x) in let! ph := tick_rest interval start y in tick_end ph) d = (d', Ok tt) /\
    rtc (driver_step interval None) (d, HalfRead start x) (d', Idle).
Proof using Type.
  destruct (readNative_never_fails x (nd_plugin (dr_node d))) as (p1 & y & E).
  assert (on_plugin (readNative x) d = (set_plugin p1 d, Ok y)) as E1 by (unfold on_plugin, zoom; by rewrite E).
  destruct (scanned_finishes interval (set_plugin p1 d) start y) as (d' & E2 & S2). exists d'.
  split; [unfold bind at 1; by rewrite E1|]. eapply rtc_l; [by eapply ds_native|exact S2].
Qed.
Lemma driver_step_finishes interval d ph :
  ph <> Starting -> exists d', rtc (driver_step interval None) (d, ph) (d', Idle).
Proof using Type.
  intros Hn. destruct ph as [| |start x|start x|res]; [done|by exists d|..].
  - destruct (half_read_finishes interval d start x) as (d' & _ & H). by exists d'.
  - destruct (scanned_finishes interval d start x) as (d' & _ & H). by exists d'.
  - destruct (publishing_finishes interval d res) as (d' & _ & H). by exists d'.
Qed.

(** One tick. *)
Lemma scanTick_interleaves interval d :
  (0 < interval)%Z ->
  exists d', scanTick interval d = (d', Ok tt) /\ rtc (driver_step interval None) (d, Idle) (d', Idle).
Proof using Type.
  intros Hi. rewrite scanTick_parts. set (start := now _). unfold rescanRead. unfold bind at 1. rewrite on_plugin_bind. unfold bind at 1.
  destruct (readSysfs_never_fails (nd_plugin (dr_node d))) as (p1 & r & E).
  assert (on_plugin readSysfs d = (set_plugin p1 d, Ok r)) as E1 by (unfold on_plugin, zoom; by rewrite E).
  pose proof (ds_sysfs interval _ _ _ Hi E1) as S1. rewrite E1. destruct r as [e|x].
  - destruct (scanned_finishes interval (set_plugin p1 d) start (inl e)) as (d' & E2 & S2). exists d'.
    split; [|by eapply rtc_l]. rewrite <- E2. unfold on_plugin at 1, zoom, ret. by destruct d as [[[]] ? ? ?].
  - destruct (half_read_finishes interval (set_plugin p1 d) start x) as (d' & E2 & S2). exists d'. split; [exact E2|by eapply rtc_l].
Qed.

(** The loop of runDeviceScan, which runs at a positive interval only, is
    one of these interleavings: for any number of ticks it never fails, and is a
    sequence of steps that serve no request, from an idle scan goroutine to an
    idle one. *)
Theorem runDeviceScan_interleaves interval n d :
  (0 < interval)%Z ->
  exists d', runDeviceScan interval n d = (d', Ok tt) /\ rtc (driver_step interval None) (d, Idle) (d', Idle).
Proof using Type.
  intros Hi. revert d. induction n as [|n IH]; intros d; [by exists d|].
  destruct (scanTick_interleaves interval d Hi) as (d1 & E1 & H1). destruct (IH d1) as (d2 & E2 & H2).
  exists d2. split; [|by etrans].
  change (runDeviceScan interval (S n) d) with ((do! scanTick interval in runDeviceScan interval n) d).
  unfold bind. by rewrite E1, E2.
Qed.
End interleave.
