(* ===== verification/Time.v ===== *)
(** Time moves forward: every request and every step of the driver makes its
    calls after those made before it. *)
From S2P Require Import Prelude GoStd Host PciSysfs Device Sriov Vfio Validate RsdGroup Claim Fs.
From S2P Require Import Metadata MetadataProps Cdi Checkpoint Discovery Inventory Scan ScanProps.
From S2P Require Import Prepare PrepareProps PrepareRuns Lifecycle LifecycleProps Flags Health Driver.
From S2P Require Import DriverProps Interleave.
Open Scope string_scope.

(** Later, for a state that holds the machine. *)
Definition later_in {S} (f : S -> Sys) (x y : S) : Prop := later (f x) (f y).
#[export] Instance later_in_preorder {S} (f : S -> Sys) : PreOrder (later_in f).
Proof. split; [intros x|intros x y z]; unfold later_in, later; lia. Qed.

#[export] Instance sys_le_in_time {A} (m : M Sys A) : Respects sys_le m -> Respects later m.
Proof. intros Hm s. apply sys_le_later, Hm. Qed.
#[export] Instance log_in_time l text : Respects later (log l text).
Proof. intros s. unfold later. simpl. lia. Qed.
#[export] Instance zoom_in_time {S A} (f : S -> Sys) put (m : M Sys A) :
  (forall t s, f (put t s) = t) -> Respects later m -> Respects (later_in f) (zoom f put m).
Proof.
  intros Hf Hm s. unfold zoom, later_in. specialize (Hm (f s)). destruct (m (f s)) as [t r]. simpl in *. by rewrite Hf.
Qed.
#[export] Instance modify_in_time {S} (f : S -> Sys) (g : S -> S) :
  (forall s, f (g s) = f s) -> Respects (later_in f) (modify g).
Proof. intros Hg s. unfold later_in, modify, later. simpl. by rewrite Hg. Qed.

Section time.
Context {hst : Host} {smi : Smi} `{!SemanticEqual Device, !SemanticEqual (list Device)}
  {flt : Faults} {menv : MetadataEnv} {lib : CdiLib} {codec : CheckpointCodec}
  {cdi_store cp_store : Type} `{!CdiCache cdi_store, !CheckpointManager cp_store} {helper : Helper} {net : Network} {sockets : Sockets}
  (cfg : Config) (rsdGroupFn : list string -> M Sys string)
  {Hrsd : forall ids, Respects sys_le (rsdGroupFn ids)}.
Abbreviation node_sys := (fun n : Node cdi_store cp_store => sys (nd_plugin n)).
Abbreviation driver_sys := (fun d : Driver cdi_store cp_store => sys (nd_plugin (dr_node d))).

(** ** Requests *)

#[export] Instance frame_in_time {A} (m : M (Node cdi_store cp_store) A) :
  Respects (prep_frame (cfg_cdi cfg)) m -> Respects (later_in node_sys) m | 50.
Proof using Type. intros Hm n. by destruct (Hm n) as (_ & ? & _). Qed.
#[export] Instance nd_log_in_time l text :
  Respects (later_in node_sys) (nd_on_sys (cdi_store:=cdi_store) (cp_store:=cp_store) (log l text)).
Proof using Type. unfold nd_on_sys. refine (zoom_in_time _ _ _ _ (log_in_time l text)). done. Qed.
#[export] Instance nd_meta_in_time {A} (m : M FsState A) :
  Respects (later_in node_sys) (nd_on_meta (cdi_store:=cdi_store) (cp_store:=cp_store) m).
Proof using Type. intros n. unfold nd_on_meta, zoom, later_in, later. destruct (m _). simpl. lia. Qed.
#[export] Instance nd_cp_in_time {A} (m : M cp_store A) :
  Respects (later_in node_sys) (nd_on_cp (cdi_store:=cdi_store) m).
Proof using Type. intros n. unfold nd_on_cp, zoom, later_in, later. destruct (m _). simpl. lia. Qed.
#[export] Instance nd_cdi_in_time {A} (m : M (CdiState cdi_store) A) :
  Respects (later_in ci_sys) m -> Respects (later_in node_sys) (nd_on_cdi (cp_store:=cp_store) m).
Proof using Type.
  intros Hm n. unfold nd_on_cdi, zoom. pose proof (Hm {| ci_sys := sys (nd_plugin n); ci_cache := nd_cdi n |}) as H.
  by destruct (m _) as [c r].
Qed.
#[export] Instance ci_log_in_time l text : Respects (later_in ci_sys) (ci_on_sys (store:=cdi_store) (log l text)).
Proof using Type. unfold ci_on_sys. refine (zoom_in_time _ _ _ _ (log_in_time l text)). done. Qed.
#[export] Instance ci_cache_in_time {A} (m : M cdi_store A) : Respects (later_in ci_sys) (ci_on_cache m).
Proof using Type. intros c. unfold ci_on_cache, zoom, later_in, later. destruct (m _). simpl. lia. Qed.
#[export] Instance preparedClaims_in_time cp :
  Respects (later_in node_sys) (preparedClaims_of (cdi_store:=cdi_store) (cp_store:=cp_store) cp).
Proof using Type. unfold preparedClaims_of. case_match; apply _. Qed.

Lemma Prepare_in_time claim : Respects (later_in node_sys) (Prepare cfg rsdGroupFn claim).
Proof using Hrsd.
  unfold Prepare, wrapped, or_rollback, rollbackKubeVirtMetadata, nd_state, CreateClaimSpecFile. solve_respects.
Qed.
Lemma Unprepare_in_time uid : Respects (later_in node_sys) (Unprepare cfg uid).
Proof using Type. unfold Unprepare, wrapped, unprepareDevices, DeleteClaimSpecFile. solve_respects. Qed.

(** ** Scans *)

#[export] Instance on_sys_in_time {A} (m : M Sys A) : Respects later m -> Respects (later_in sys) (on_sys m).
Proof using Type. intros Hm. apply zoom_in_time; [done|done]. Qed.
#[export] Instance upd_ds_in_time f : Respects (later_in sys) (upd_ds f).
Proof using Type. by apply modify_in_time. Qed.
#[export] Instance when_in_time b (m : M Plugin unit) : Respects (later_in sys) m -> Respects (later_in sys) (when b m).
Proof using Type. unfold when. case_match; [done|intros _; apply _]. Qed.
#[export] Instance rescanNative_in_time c : Respects (later_in sys) (rescanNative c).
Proof using Type. intros p. destruct (rescanNative c p) as [p' r] eqn:E. by apply rescanNative_run in E as (? & _). Qed.
#[export] Instance rescanCommit_in_time npu vfio sk : Respects (later_in sys) (rescanCommit npu vfio sk).
Proof using Type. intros p. destruct (rescanCommit_run npu vfio sk p) as (p' & ch & r & -> & _ & ? & _). done. Qed.
#[export] Instance observeScanDuration_in_time took interval : Respects (later_in sys) (observeScanDuration took interval).
Proof using Type. unfold observeScanDuration. solve_respects. Qed.
#[export] Instance readSysfs_in_time : Respects (later_in sys) readSysfs.
Proof using Type. unfold readSysfs. solve_respects. Qed.
#[export] Instance readNative_in_time x : Respects (later_in sys) (readNative x).
Proof using Type. unfold readNative. solve_respects. Qed.
#[export] Instance rescanRead_in_time : Respects (later_in sys) rescanRead.
Proof using Type. unfold rescanRead. solve_respects. Qed.
#[export] Instance rescanFinish_in_time x : Respects (later_in sys) (rescanFinish x).
Proof using Type. unfold rescanFinish. solve_respects. Qed.

(** ** The driver *)

#[export] Instance on_plugin_in_time {A} (m : M Plugin A) :
  Respects (later_in sys) m -> Respects (later_in driver_sys) (on_plugin m).
Proof using Type.
  intros Hm d. unfold on_plugin, zoom. specialize (Hm (nd_plugin (dr_node d))). by destruct (m _) as [p r].
Qed.
#[export] Instance on_node_in_time {A} (m : M (Node cdi_store cp_store) A) :
  Respects (later_in node_sys) m -> Respects (later_in driver_sys) (on_node m).
Proof using Type. intros Hm d. unfold on_node, zoom. specialize (Hm (dr_node d)). by destruct (m _) as [p r]. Qed.
#[export] Instance dr_log_in_time l text : Respects (later_in driver_sys) (dr_log (cdi_store:=cdi_store) (cp_store:=cp_store) l text).
Proof using Type. unfold dr_log. apply _. Qed.
#[export] Instance PublishResources_in_time res :
  Respects (later_in driver_sys) (PublishResources (cdi_store:=cdi_store) (cp_store:=cp_store) res).
Proof using Type. intros d. unfold later_in, later. simpl. lia. Qed.
#[export] Instance socket_call_in_time answer :
  Respects (later_in driver_sys) (socket_call (cdi_store:=cdi_store) (cp_store:=cp_store) answer).
Proof using Type. intros d. unfold later_in, later. simpl. lia. Qed.
#[export] Instance observeRegistration_in_time req (h : res unit) :
  Respects (later_in driver_sys) (observeRegistration (cdi_store:=cdi_store) (cp_store:=cp_store) req h).
Proof using Type. intros d. unfold later_in, later. destruct req, h; simpl; lia. Qed.
#[export] Instance HandleError_in_time e :
  Respects (later_in driver_sys) (HandleError (cdi_store:=cdi_store) (cp_store:=cp_store) e).
Proof using Type. intros d. unfold HandleError, later_in, later. case_match; simpl; lia. Qed.

Lemma driver_step_in_time interval ev x y :
  driver_step cfg rsdGroupFn interval ev x y -> later (driver_sys x.1) (driver_sys y.1).
Proof using Hrsd.
  intros []; simpl; (eapply (respects_run (later_in driver_sys)); [|eassumption]).
  - unfold firstPublication. solve_respects.
  - apply _.
  - apply _.
  - unfold tick_rest. solve_respects.
  - unfold republish. solve_respects.
  - apply on_node_in_time, (Prepare_in_time claim).
  - apply on_node_in_time, (Unprepare_in_time uid).
  - apply _.
  - apply _.
  - apply _.
  - unfold Check_health. solve_respects.
Qed.
End time.
