(* ===== verification/Converge.v ===== *)
(** The scan loop on a machine that no longer changes: whatever runs beside it,
    it publishes what it found once, and rests. *)
From S2P Require Import Prelude GoStd Host PciSysfs Device Sriov Vfio Validate RsdGroup Claim Fs Steady.
From S2P Require Import Metadata Cdi Checkpoint Discovery Inventory Scan ScanProps Prepare Flags Health Driver.
From S2P Require Import DriverProps Interleave Time.
Open Scope string_scope.

Section converge.
Context {hst : Host} {smi : Smi} `{!SemanticEqual Device, !SemanticEqual (list Device)}
  {flt : Faults} {menv : MetadataEnv} {lib : CdiLib} {codec : CheckpointCodec}
  {cdi_store cp_store : Type} `{!CdiCache cdi_store, !CheckpointManager cp_store} {helper : Helper} {net : Network} {sockets : Sockets}
  (cfg : Config) (rsdGroupFn : list string -> M Sys string)
  {Hrsd : forall ids, Respects sys_le (rsdGroupFn ids)}.
Context (T : nat) (v : OSView) (devs : res (list InvDevice)).
Context (machine_settled : steady_from T v) (smi_settled : forall t, (T <= t)%nat -> smi_at t = devs).
Implicit Types d : Driver cdi_store cp_store.
Abbreviation state d := (ds (nd_plugin (dr_node d))).
Abbreviation clock d := (clk (sys (nd_plugin (dr_node d)))).
Abbreviation step := (driver_step cfg rsdGroupFn).

(** ** What there is to find *)

Definition sysfs_found (root : string) (x : sysfs_snapshot) : Prop :=
  exists p p', (T <= clk (sys p))%nat /\ sysfsRoot (ds p) = root /\ readSysfs p = (p', Ok (inr x)).
Definition found (root : string) (s : complete) : Prop :=
  exists x p p', sysfs_found root x /\ (T <= clk (sys p))%nat /\ sysfsRoot (ds p) = root /\ readNative x p = (p', Ok (inr s)).

(** The reads behind a half. *)
Lemma readSysfs_reads p p' vfio sk c :
  readSysfs p = (p', Ok (inr (vfio, sk, c))) ->
  exists known s1 s2, enumerateVfioDevices (sysfsRoot (ds p)) known (sys p) = (s1, Ok (vfio, sk)) /\
    countNativeCandidates (sysfsRoot (ds p)) known s1 = (s2, Ok c).
Proof using Type.
  unfold readSysfs. intros H. rewrite !bind_gets in H. apply bind_try in H as (p1 & rd & (s1 & Hs & _)%zoom_inv & H).
  assert (rd = Ok (vfio, sk, c)) as ->.
  { rewrite bind_gets in H. destruct rd as [x|e]; [|by pinv].
    apply bind_Ok in H as (? & ? & _ & H). apply ret_inv in H as [_ H]. by simplify_eq. }
  unfold rescanSysfs in Hs. apply bind_Ok in Hs as (s0 & [vfio' sk'] & H1 & Hs). apply bind_Ok in Hs as (s3 & c' & H2 & Hs).
  apply ret_inv in Hs as [-> Hs]. simplify_eq. by exists (known_of (allocatable (ds p))), s0, s3.
Qed.
Lemma readNative_reads vfio vsk c p p' npu vfio' sk :
  readNative (vfio, vsk, c) p = (p', Ok (inr (npu, vfio', sk))) ->
  vfio' = vfio /\ exists p1 nsk, rescanNative c p = (p1, Ok (npu, nsk)).
Proof using Type.
  simpl. intros H. apply bind_try in H as (p1 & rn & Hn & H). destruct rn as [[npu0 nsk]|e]; [|by minv].
  destruct (first_duplicate _ _); [by minv|]. apply ret_inv in H as [_ H]. simplify_eq. eauto.
Qed.

(** On the settled machine every read of sysfs finds the same, and so does every
    complete scan. *)
Lemma sysfs_found_unique root x y : sysfs_found root x -> sysfs_found root y -> x = y.
Proof using machine_settled smi_settled.
  destruct x as [[v1 k1] c1], y as [[v2 k2] c2]. intros (p & p' & HT & Hr & H) (q & q' & HTq & Hrq & Hq).
  apply readSysfs_reads in H as (kn1 & s1 & s1' & He1 & Hc1). apply readSysfs_reads in Hq as (kn2 & s2 & s2' & He2 & Hc2).
  rewrite Hr in He1, Hc1. rewrite Hrq in He2, Hc2.
  pose proof (respects_run sys_le _ _ _ _ _ He1) as [L1 _]. pose proof (respects_run sys_le _ _ _ _ _ He2) as [L2 _].
  pose proof (enumerateVfioDevices_steady T v machine_settled _ _ _ _ _ _ _ _ _ HT HTq He1 He2). simplify_eq.
  unshelve epose proof (countNativeCandidates_steady T v machine_settled _ _ _ _ _ _ _ _ _ _ _ Hc1 Hc2); [lia|lia|]. by subst.
Qed.
Lemma found_unique root s1 s2 : found root s1 -> found root s2 -> devices_of s1 = devices_of s2.
Proof using machine_settled smi_settled.
  intros (x & p & p' & Hx & HT & Hr & H) (y & q & q' & Hy & HTq & Hrq & Hq).
  rewrite <- (sysfs_found_unique _ _ _ Hx Hy) in Hq. destruct x as [[vfio vsk] c], s1 as [[n1 f1] k1], s2 as [[n2 f2] k2].
  apply readNative_reads in H as (-> & p1 & nsk1 & H). apply readNative_reads in Hq as (-> & q1 & nsk2 & Hq).
  apply rescanNative_run in H as (_ & _ & _ & H), Hq as (_ & _ & _ & Hq). unfold devices_of. simpl. f_equal.
  destruct H as [(Hc & -> & _)|(Hc & d1 & t1 & a1 & b1 & Ht1 & Hs1 & Hl1 & _ & Hn1)],
    Hq as [(Hc' & -> & _)|(Hc' & d2 & t2 & a2 & b2 & Ht2 & Hs2 & Hl2 & _ & Hn2)]; [done|lia|lia|].
  unfold later in *. rewrite Hr in Hn1. rewrite Hrq in Hn2. rewrite smi_settled in Hs1, Hs2 by lia. simplify_eq.
  unshelve epose proof (npuDevicesFromInventory_steady T v machine_settled _ _ _ _ _ _ _ _ _ _ Hn1 Hn2); [lia|lia|]. by simplify_eq.
Qed.

(** ** At rest *)

(** From the commit of a scan that found [s] on, no step publishes: what a scan in
    flight has read is there already. *)
Section round.
Context (root : string) (s : complete) (Hs : found root s).
Record resting (x : Driver cdi_store cp_store * phase) : Prop := {
  re_time : (T <= clock x.1)%nat;
  re_root : sysfsRoot (state x.1) = root;
  re_devices : devices x.1 = devices_of s;
  re_phase : match x.2 with
    | Idle | Scanned _ (inl _) => True
    | HalfRead _ y => sysfs_found root y
    | Scanned _ (inr s') => found root s'
    | Starting | Publishing _ => False end;
}.

Lemma root_same d d' : same_inventory (state d) (state d') -> sysfsRoot (state d') = sysfsRoot (state d).
Proof using Type. by intros (_ & _ & _ & _ & _ & H). Qed.

Lemma resting_step interval ev x y :
  step interval ev x y -> resting x ->
  resting y /\ same_inventory (state x.1) (state y.1) /\ dr_attempts y.1 = dr_attempts x.1.
Proof using machine_settled smi_settled Hrsd Hs.
  intros H [HT Hroot Hdev Hph]. pose proof (driver_step_in_time _ _ _ _ _ _ H) as Hl. destruct x as [d ph], y as [d' ph'].
  assert ((T <= clock d')%nat) as HT' by (unfold later in Hl; simpl in *; lia). simpl in *.
  assert (same_inventory (state d) (state d') -> dr_attempts d' = dr_attempts d ->
    match ph' with Idle | Scanned _ (inl _) => True | HalfRead _ y => sysfs_found root y
                 | Scanned _ (inr s') => found root s' | _ => False end ->
    resting (d', ph') /\ same_inventory (state d) (state d') /\ dr_attempts d' = dr_attempts d) as Hdone.
  { intros Hsame Ha Hp. split_and!; [|done|done]. split; simpl; [done|by rewrite (root_same _ _ Hsame)|by rewrite (devices_same _ _ Hsame)|done]. }
  apply driver_step_cases in H as
    [[H ->]|[(-> & _)|[(-> & r & H & Hr)|[(start & y & s' & -> & -> & H)|[(start & x & -> & H)|(res & r & -> & _)]]]]]; try done.
  - apply Hdone; [by apply quiet_same|apply H|done].
  - apply on_plugin_run in H as (p' & H & Hs' & Ha).
    assert (same_inventory (state d) (state d')) as Hd by (apply flags_same; rewrite Hs'; by eapply readSysfs_flags).
    apply Hdone; [done|done|]. subst ph'. destruct r as [e|y]; [done|]. by exists (nd_plugin (dr_node d)), p'.
  - apply on_plugin_run in H as (p' & H & Hs' & Ha).
    assert (same_inventory (state d) (state d')) as Hd by (apply flags_same; rewrite Hs'; by eapply readNative_flags).
    apply Hdone; [done|done|]. destruct s' as [e|s']; [done|]. by exists y, (nd_plugin (dr_node d)), p'.
  - pose proof (tick_rest_run _ _ _ _ _ _ H) as [Ha Hr]. destruct x as [e|s'].
    + destruct ph' as [| | | |res]; [done|by apply Hdone; [apply flags_same|..]|done..|exfalso].
      unfold tick_rest in H. apply bind_Ok in H as (d1 & [[r ch] oe] & (p1 & H1 & _)%on_plugin_run & H). simpl in H1. minv.
    + apply tick_rest_commits in H as [_ H]. rewrite decide_True in H by (rewrite Hdev; by eapply found_unique).
      destruct H as [-> Hsame]. by apply Hdone.
Qed.

(** Where the driver is after a complete scan that found [s], read to its end by [d0]. *)
Inductive round (d0 : Driver cdi_store cp_store) (start : N) : Driver cdi_store cp_store * phase -> Prop :=
  | round_reading d :
      (T <= clock d)%nat -> sysfsRoot (state d) = root -> devices d = devices d0 -> dr_attempts d = dr_attempts d0 ->
      round d0 start (d, Scanned start (inr s))
  | round_publishing d :
      (T <= clock d)%nat -> sysfsRoot (state d) = root -> devices d = devices_of s -> devices_of s <> devices d0 ->
      dr_attempts d = dr_attempts d0 -> round d0 start (d, Publishing (driverResources (state d)))
  | round_over d ph :
      resting (d, ph) ->
      (if decide (devices_of s = devices d0) then dr_attempts d = dr_attempts d0
       else exists ok, dr_attempts d = (dr_attempts d0 ++ [(driverResources (state d), ok)])%list) ->
      round d0 start (d, ph).

Lemma round_step interval ev d0 start x y : step interval ev x y -> round d0 start x -> round d0 start y.
Proof using machine_settled smi_settled Hrsd Hs.
  intros H Hround. pose proof (driver_step_in_time _ _ _ _ _ _ H) as Hl. unfold later in Hl.
  destruct Hround as [d HT Hr Hd Ha|d HT Hr Hd Hnew Ha|d ph Hrest Ha]; simpl in Hl; destruct y as [d' ph']; simpl in Hl.
  - apply driver_step_cases in H as
      [[Hq ->]|[(Hx & _)|[(Hx & _)|[(? & ? & ? & Hx & _)|[(start' & s' & Hx & H)|(res & r & Hx & _)]]]]]; try done.
    { pose proof (quiet_same _ _ Hq) as Hsame. destruct Hq as [_ Hqa].
      apply round_reading; [lia|by rewrite (root_same _ _ Hsame)|by rewrite (devices_same _ _ Hsame)|congruence]. }
    injection Hx as <- <-. apply tick_rest_commits in H as [Ha' H]. rewrite Hd in H. case_decide as Hdec; destruct H as [-> Hsame].
    + apply round_over; [|rewrite decide_True by done; congruence].
      split; simpl; [lia|by rewrite (root_same _ _ Hsame)|rewrite (devices_same _ _ Hsame); congruence|done].
    + destruct Hsame as (_ & _ & _ & H1 & H2 & H3). apply round_publishing; [lia|by rewrite H3| |done|congruence].
      unfold devices. rewrite H1, H2. by destruct s as [[npu vfio] sk].
  - apply driver_step_cases in H as
      [[Hq ->]|[(Hx & _)|[(Hx & _)|[(? & ? & ? & Hx & _)|[(start' & s' & Hx & H)|(res & r & Hx & -> & H)]]]]]; try done.
    { pose proof (quiet_same _ _ Hq) as Hsame. destruct Hq as [Hq Hqa]. rewrite <- Hq.
      apply round_publishing; [lia|by rewrite (root_same _ _ Hsame)|by rewrite (devices_same _ _ Hsame)|done|congruence]. }
    injection Hx as <-. apply republish_run in H as (Hst & ok & Hat).
    apply round_over; [split; simpl; [lia|by rewrite Hst|unfold devices; by rewrite Hst|done]|].
    rewrite decide_False by done. exists ok. rewrite Hat, Hst. congruence.
  - apply resting_step in H as (Hy & Hsame & Hat); [|done]. simpl in *. apply round_over; [done|]. case_decide; [congruence|].
    destruct Ha as [ok Ha]. exists ok. destruct Hsame as (_ & _ & -> & _). congruence.
Qed.
End round.

(** Nothing moves the sysfs root. *)
Lemma step_root interval ev x y :
  step interval ev x y -> sysfsRoot (state y.1) = sysfsRoot (state x.1).
Proof using Hrsd.
  destruct x as [d ph], y as [d' ph']. intros H. simpl. apply (driver_step_cases cfg rsdGroupFn) in H as
    [[Hq _]|[(_ & _ & H)|[(_ & r & H & _)|[(start & y & s' & _ & _ & H)|[(start & [e|s] & _ & H)|(res & r & _ & _ & H)]]]]].
  - by destruct Hq as [-> _].
  - apply firstPublication_state in H. by rewrite H.
  - apply on_plugin_run in H as (p' & H & -> & _). by apply readSysfs_flags in H as [f ->].
  - apply on_plugin_run in H as (p' & H & -> & _). by apply readNative_flags in H as [f ->].
  - pose proof (tick_rest_run _ _ _ _ _ _ H) as [_ Hr]. destruct ph' as [| | | |res]; [done|by destruct Hr as [f ->]|done..|exfalso].
    unfold tick_rest in H. apply bind_Ok in H as (d1 & [[r ch] oe] & (p1 & H1 & _)%on_plugin_run & H). simpl in H1. minv.
  - apply tick_rest_commits in H as [_ H]. case_decide; destruct H as [_ Hsame]; by destruct Hsame as (_ & _ & _ & _ & _ & ->).
  - by apply republish_run in H as (-> & _).
Qed.
Lemma steps_root_time interval x y :
  rtc (fun x y => exists ev, step interval ev x y) x y ->
  sysfsRoot (state y.1) = sysfsRoot (state x.1) /\ (clock x.1 <= clock y.1)%nat.
Proof using Hrsd.
  induction 1 as [x|x y z [ev H] _ [IH1 IH2]]; [done|]. pose proof (driver_step_in_time _ _ _ _ _ _ H) as Hl. unfold later in Hl.
  split; [by rewrite IH1, (step_root _ _ _ _ H)|lia].
Qed.

(** C8: The scan loop converges and rests. Once the machine and the management
    tool no longer change, take a scan that reads sysfs, then, after whatever the
    driver does in between, the native devices, to the end. In
    every interleaving that follows, whatever requests, registrations, errors
    and health checks come in between and whichever later ticks fail, the loop
    can always finish its tick, and from the commit of that scan on the driver
    has exactly the devices it found; if they are news it attempts to publish
    them exactly once, whether the attempt is accepted or refused, and if they
    are not, never. *)
Theorem scan_converges interval dA dB y d0 s d1 x :
  (T <= clock dA)%nat -> on_plugin readSysfs dA = (dB, Ok (inr y)) ->
  let start := now (sys (nd_plugin (dr_node dA))) in
  rtc (fun x y => exists ev, step interval ev x y) (dB, HalfRead start y) (d0, HalfRead start y) ->
  on_plugin (readNative y) d0 = (d1, Ok (inr s)) ->
  rtc (fun x y => exists ev, step interval ev x y) (d1, Scanned start (inr s)) x ->
  (exists d', rtc (step interval None) x (d', Idle)) /\
  ((x.2 = Scanned start (inr s) /\ dr_attempts x.1 = dr_attempts d0) \/
   (devices x.1 = devices_of s /\
    if decide (devices_of s = devices d0) then dr_attempts x.1 = dr_attempts d0
    else (x.2 = Publishing (driverResources (state x.1)) /\ dr_attempts x.1 = dr_attempts d0) \/
         exists ok, dr_attempts x.1 = (dr_attempts d0 ++ [(driverResources (state x.1), ok)])%list)).
Proof using machine_settled smi_settled Hrsd.
  intros HT HA start HB H0 Hx.
  pose proof (respects_run (later_in (fun d => sys (nd_plugin (dr_node d)))) _ _ _ _ _ HA) as LA.
  pose proof (respects_run (later_in (fun d => sys (nd_plugin (dr_node d)))) _ _ _ _ _ H0) as L0.
  unfold later_in, later in LA, L0. apply steps_root_time in HB as [HrB LB]. simpl in HrB, LB.
  apply on_plugin_run in HA as (pA & HA & HsA & _). apply on_plugin_run in H0 as (p0 & H0 & Hs0 & Ha0).
  pose proof (readSysfs_flags _ _ _ HA) as [fA HfA]. pose proof (readNative_flags _ _ _ _ H0) as [f0 Hf0].
  assert (sysfsRoot (state d0) = sysfsRoot (state dA)) as Hr by (by rewrite HrB, HsA, HfA).
  assert (found (sysfsRoot (state dA)) s) as Hfound.
  { exists y, (nd_plugin (dr_node d0)), p0. split; [by exists (nd_plugin (dr_node dA)), pA|]. split; [lia|done]. }
  assert (round (sysfsRoot (state dA)) s d0 start (d1, Scanned start (inr s))) as H1.
  { apply round_reading; [lia|by rewrite Hs0, Hf0|unfold devices; by rewrite Hs0, Hf0|done]. }
  assert (round (sysfsRoot (state dA)) s d0 start x) as Hround.
  { clear -Hx H1 Hfound machine_settled smi_settled Hrsd. induction Hx as [|x y z (ev & H) _ IH]; [done|]. apply IH. by eapply round_step. }
  split.
  - destruct x as [d ph]. apply driver_step_finishes. inversion Hround; subst; try done.
    match goal with H : resting _ _ _ |- _ => destruct H as [_ _ _ Hph] end. by intros ->.
  - destruct Hround as [d _ _ _ Had|d _ _ Hd Hnew Had|d ph [_ _ Hd _] Had]; [by left|right|right]; (split; [exact Hd|]); simpl.
    + rewrite decide_False by done. by left.
    + case_decide; [exact Had|by right].
Qed.
End converge.
