(* ===== verification/Durable.v ===== *)
(** Claims over the whole life of a node: requests and scans interleaved, the
    process killed in the middle of any of them, failed and successful restarts.
    What was prepared stays until it is unprepared. *)
From S2P Require Import Prelude GoStd Host PciSysfs Device Sriov Vfio Validate RsdGroup Claim Fs.
From S2P Require Import Metadata MetadataProps Cdi Checkpoint Discovery Inventory Scan ScanProps.
From S2P Require Import Prepare PrepareProps PrepareRuns Lifecycle LifecycleProps Flags Health Driver.
From S2P Require Import DriverProps Interleave.
Open Scope string_scope.

(** ** Crashes *)

Section crash.
Context {hst : Host} {menv : MetadataEnv} {lib : CdiLib} {codec : CheckpointCodec}
  {cdi_store cp_store : Type} `{!CdiCache cdi_store, !CheckpointManager cp_store}
  (cfg : Config) (rsdGroupFn : list string -> M Sys string).
Implicit Types n : Node cdi_store cp_store.

(** The nodes that a Prepare killed at some point leaves: the ends of its
    steps, or the end of the whole with the rollback. A kill inside a step on
    the metadata tree is a run of it whose calls fail from there on, hence the
    choice of [flt]. *)
Inductive prepare_killed (claim : ResourceClaim) n : Node cdi_store cp_store -> Prop :=
  | pk_end flt n' r : Prepare (flt:=flt) cfg rsdGroupFn claim n = (n', r) -> prepare_killed claim n n'
  | pk_devices n0 cp m n1 r :
      after_read n n0 cp m -> unrecorded m (UID claim) ->
      prepareDevices cfg rsdGroupFn claim n0 = (n1, r) -> prepare_killed claim n n1
  | pk_metadata flt n0 cp m n1 pds n2 r :
      after_read n n0 cp m -> unrecorded m (UID claim) ->
      prepareDevices cfg rsdGroupFn claim n0 = (n1, Ok pds) ->
      meta_phase (flt:=flt) cfg claim n1 = (n2, r) -> prepare_killed claim n n2
  | pk_spec flt n0 cp m n1 pds n2 n3 r :
      after_read n n0 cp m -> unrecorded m (UID claim) ->
      prepareDevices cfg rsdGroupFn claim n0 = (n1, Ok pds) ->
      meta_phase (flt:=flt) cfg claim n1 = (n2, Ok tt) ->
      nd_on_cdi (CreateClaimSpecFile (cfg_cdi cfg) (UID claim) pds) n2 = (n3, r) -> prepare_killed claim n n3
  | pk_checkpoint flt n0 cp m n1 pds n2 n3 n4 r :
      after_read n n0 cp m -> unrecorded m (UID claim) ->
      prepareDevices cfg rsdGroupFn claim n0 = (n1, Ok pds) ->
      meta_phase (flt:=flt) cfg claim n1 = (n2, Ok tt) ->
      nd_on_cdi (CreateClaimSpecFile (cfg_cdi cfg) (UID claim) pds) n2 = (n3, Ok tt) ->
      nd_on_cp (CreateCheckpoint DriverPluginCheckpointFile (with_claims cp (<[UID claim := pds]> m))) n3 = (n4, r) ->
      prepare_killed claim n n4.

Inductive unprepare_killed (uid : string) n : Node cdi_store cp_store -> Prop :=
  | uk_end flt n' r : Unprepare (flt:=flt) cfg uid n = (n', r) -> unprepare_killed uid n n'
  | uk_spec n0 cp m n1 r :
      after_read n n0 cp m -> ~ unrecorded m uid ->
      nd_on_cdi (DeleteClaimSpecFile (cfg_cdi cfg) uid) n0 = (n1, r) -> unprepare_killed uid n n1
  | uk_metadata flt n0 cp m n1 n2 r :
      after_read n n0 cp m -> ~ unrecorded m uid ->
      nd_on_cdi (DeleteClaimSpecFile (cfg_cdi cfg) uid) n0 = (n1, Ok tt) ->
      nd_on_meta (removeKubeVirtMetadataForClaim (flt:=flt) (cfg_metadata cfg) uid) n1 = (n2, r) ->
      unprepare_killed uid n n2
  | uk_checkpoint flt n0 cp m n1 n2 n3 r :
      after_read n n0 cp m -> ~ unrecorded m uid ->
      nd_on_cdi (DeleteClaimSpecFile (cfg_cdi cfg) uid) n0 = (n1, Ok tt) ->
      nd_on_meta (removeKubeVirtMetadataForClaim (flt:=flt) (cfg_metadata cfg) uid) n1 = (n2, Ok tt) ->
      nd_on_cp (CreateCheckpoint DriverPluginCheckpointFile (with_claims cp (delete uid m))) n2 = (n3, r) ->
      unprepare_killed uid n n3.
End crash.

(** ** The life of a node *)

Section life.
Context {hst : Host} {smi : Smi} `{!SemanticEqual Device, !SemanticEqual (list Device)}
  {flt : Faults} {menv : MetadataEnv} {lib : CdiLib} {codec : CheckpointCodec}
  {cdi_store cp_store : Type} `{!CdiCache cdi_store, !CheckpointManager cp_store} {helper : Helper} {net : Network} {sockets : Sockets}
  (cfg : Config) (rsdGroupFn : list string -> M Sys string)
  {Hrsd : forall ids, Respects sys_le (rsdGroupFn ids)}.
Implicit Types n : Node cdi_store cp_store.
Implicit Types d : Driver cdi_store cp_store.

(** What the process leaves when it is killed, while serving a request or not,
    and what starts that fail leave after that. *)
Inductive killed : option request -> Node cdi_store cp_store -> Node cdi_store cp_store -> Prop :=
  | killed_idle n : killed None n n
  | killed_prepare claim n n' : prepare_killed cfg rsdGroupFn claim n n' -> killed (Some (RPrepare claim)) n n'
  | killed_unprepare uid n n' : unprepare_killed cfg uid n n' -> killed (Some (RUnprepare uid)) n n'
  | killed_start ev n n' flags root cache manager helper_up d e :
      killed ev n n' ->
      startDriver flags root cache manager helper_up (new_driver n') = (d, Err e) ->
      killed ev n (dr_node d).

Inductive life_step (interval : Z) :
    option request -> Driver cdi_store cp_store * phase -> Driver cdi_store cp_store * phase -> Prop :=
  | life_run ev x y : driver_step cfg rsdGroupFn interval ev x y -> life_step interval ev x y
  | life_restart ev d ph n' flags root cache manager helper_up d' :
      killed ev (dr_node d) n' ->
      startDriver flags root cache manager helper_up (new_driver n') = (d', Ok tt) ->
      life_step interval ev (d, ph) (d', Starting).

(** Requests of other claims, and to prepare this one again. *)
Definition spares (uid : string) (ev : option request) : Prop :=
  match ev with
  | None => True
  | Some (RPrepare claim) => claim_uid_ok (UID claim) /\ requests_ok claim
  | Some (RUnprepare uid') => claim_uid_ok uid' /\ uid' <> uid
  end.
Definition spared (interval : Z) (uid : string) (x y : Driver cdi_store cp_store * phase) : Prop :=
  exists ev, spares uid ev /\ life_step interval ev x y.

(** ** Lemmas *)

Section with_base.
Context (base : list string) (Hbase : Forall plain_name base) (Hcfg : cfg_metadata cfg = abs_path base).

(** What the claim owns is the same, and the tree stays a tree. *)
Record kept (uid : string) n n' : Prop := {
  kept_same : same_for cfg base uid n n';
  kept_wf : keeps_wf (nd_meta n) (nd_meta n');
  kept_record : (prepared_in (nd_cp n') ≫= lookup uid) = (prepared_in (nd_cp n) ≫= lookup uid);
}.
#[local] Instance kept_preorder uid : PreOrder (kept uid).
Proof using Type.
  split; [intros n; split; [split; done|by intros ?|done]|].
  intros n1 n2 n3 [[Hs1 Ht1] Hw1 Hr1] [[Hs2 Ht2] Hw2 Hr2]. split; [split| |].
  - congruence.
  - intros k Hk. by rewrite Ht2, Ht1.
  - intros Hw. auto.
  - congruence.
Qed.
Lemma kept_disk uid n n' :
  nd_meta n' = nd_meta n -> nd_cdi n' = nd_cdi n -> blobs (nd_cp n') = blobs (nd_cp n) -> kept uid n n'.
Proof using Type.
  intros Hm Hc Hb. split; [by apply same_for_refl|by rewrite Hm; intros ?|]. by rewrite (prepared_in_blobs _ _ Hb).
Qed.
Lemma untouched_kept uid n n' : untouched n n' -> kept uid n n'.
Proof using Type. intros []. by apply kept_disk. Qed.
Lemma after_read_kept uid n n0 cp m : after_read n n0 cp m -> kept uid n n0.
Proof using Type. intros []. by apply kept_disk. Qed.

(** The steps of a request, on the claim [uid] of another one. *)
Lemma prepareDevices_kept claim uid n n' r :
  claim_uid_ok uid -> prepareDevices cfg rsdGroupFn claim n = (n', r) -> kept uid n n'.
Proof using Hrsd.
  intros Hu H. pose proof (prepareDevices_same cfg rsdGroupFn base claim uid _ _ _ Hu H) as Hs.
  apply prepareDevices_keeps in H as (Hm & Hc & _); [|exact Hrsd]. split; [done|by rewrite Hm; intros ?|by rewrite Hc].
Qed.
Lemma meta_phase_kept flt' claim uid n n' r :
  claim_uid_ok (UID claim) -> requests_ok claim -> uid <> UID claim ->
  meta_phase (flt:=flt') cfg claim n = (n', r) -> kept uid n n'.
Proof using Hbase Hcfg.
  intros Hu Hreq Hne H. pose proof (meta_phase_keeps cfg _ _ _ _ H) as (_ & _ & Hc).
  apply (meta_phase_run cfg base Hbase Hcfg) in H as (_ & Hw & Hs); [|apply Hu|done].
  split; [by apply Hs|done|by rewrite Hc].
Qed.
Lemma CreateClaimSpecFile_kept uid' uid pds n n' r :
  claim_uid_ok uid' -> claim_uid_ok uid -> uid <> uid' ->
  nd_on_cdi (CreateClaimSpecFile (cfg_cdi cfg) uid' pds) n = (n', r) -> kept uid n n'.
Proof using Type.
  intros Hu' Hu Hne H. pose proof (nd_on_cdi_keeps _ _ _ _ H) as (_ & Hm & Hc).
  apply (CreateClaimSpecFile_same cfg base _ uid) in H; [|done..]. split; [done|by rewrite Hm; intros ?|by rewrite Hc].
Qed.
Lemma DeleteClaimSpecFile_kept uid' uid n n' r :
  claim_uid_ok uid' -> claim_uid_ok uid -> uid <> uid' ->
  nd_on_cdi (DeleteClaimSpecFile (cfg_cdi cfg) uid') n = (n', r) -> kept uid n n'.
Proof using Type.
  intros Hu' Hu Hne H. pose proof (nd_on_cdi_keeps _ _ _ _ H) as (_ & Hm & Hc).
  apply (DeleteClaimSpecFile_same cfg base _ uid) in H; [|done..]. split; [done|by rewrite Hm; intros ?|by rewrite Hc].
Qed.
Lemma removal_kept flt' uid' uid n n' r :
  wf_tree (tree (nd_meta n)) -> marker (tree (nd_meta n)) (host_dir base uid) <> Some uid' ->
  nd_on_meta (removeKubeVirtMetadataForClaim (flt:=flt') (cfg_metadata cfg) uid') n = (n', r) -> kept uid n n'.
Proof using Hbase Hcfg.
  intros Hwf Hmk H. pose proof (nd_on_meta_keeps _ _ _ _ H) as (_ & _ & Hc).
  split; [by eapply (removal_same cfg base Hbase Hcfg); [..|exact H]| |by rewrite Hc].
  apply nd_on_meta_run in H as (k & Hk & ->). rewrite Hcfg in Hk. simpl.
  eapply (respects_run keeps_wf); [|exact Hk]. unfold removeKubeVirtMetadataForClaim. solve_respects.
Qed.
Lemma rollback_kept flt' uid' uid n n' r :
  wf_tree (tree (nd_meta n)) -> marker (tree (nd_meta n)) (host_dir base uid) <> Some uid' ->
  rollbackKubeVirtMetadata (flt:=flt') cfg uid' n = (n', r) -> kept uid n n'.
Proof using Hbase Hcfg.
  intros Hwf Hmk H. pose proof H as (_ & _ & Hcdi & Hcp & rr & Hr)%rollback_run.
  split; [by eapply (rollback_same cfg base Hbase Hcfg); [..|exact H]| |by rewrite Hcp].
  rewrite Hcfg in Hr. eapply (respects_run keeps_wf); [|exact Hr]. unfold removeKubeVirtMetadataForClaim. solve_respects.
Qed.
Lemma create_kept cp m uid n n' r :
  (prepared_in (nd_cp n) ≫= lookup uid) = m !! uid ->
  nd_on_cp (CreateCheckpoint DriverPluginCheckpointFile (with_claims cp m)) n = (n', r) -> kept uid n n'.
Proof using Type.
  intros Hm H. pose proof (nd_on_cp_keeps _ _ _ _ H) as (_ & Hme & Hc). apply create_prepared in H.
  split; [by apply same_for_refl|by rewrite Hme; intros ?|]. destruct r; rewrite H; [by rewrite Hm|done].
Qed.

(** The claim is recorded and no other claim marks its directory. *)
Record held (uid : string) n : Prop := {
  held_wf : wf_tree (tree (nd_meta n));
  held_marker uid' : uid' <> uid -> marker (tree (nd_meta n)) (host_dir base uid) <> Some uid';
  held_record : exists x l, (prepared_in (nd_cp n) ≫= lookup uid) = Some (x :: l);
}.
Lemma kept_held uid n n' : kept uid n n' -> held uid n -> held uid n'.
Proof using Type.
  intros [Hs Hw Hr] [Hwf Hm (x & l & Hx)]. split.
  - by apply Hw.
  - intros uid' Hne. eapply (marker_same cfg base); [exact Hs|by apply Hm].
  - rewrite Hr. eauto.
Qed.
Lemma held_recorded uid n n0 cp m : held uid n -> after_read n n0 cp m -> ~ unrecorded m uid.
Proof using Type.
  intros [_ _ (x & l & Hx)] Hr. rewrite (ar_claims _ _ _ _ Hr) in Hx. simpl in Hx. unfold unrecorded. by rewrite Hx.
Qed.
Lemma read_record uid n n0 cp m : after_read n n0 cp m -> (prepared_in (nd_cp n) ≫= lookup uid) = m !! uid.
Proof using Type. intros []. by rewrite ar_claims. Qed.

(** A claim that is recorded is left alone by its own preparation. *)
Lemma Prepare_own flt' claim n n' r :
  held (UID claim) n -> Prepare (flt:=flt') cfg rsdGroupFn claim n = (n', r) -> kept (UID claim) n n'.
Proof using Type.
  intros Hh H. apply Prepare_run in H. destruct H; try (by apply untouched_kept);
    match goal with Hr : after_read _ _ _ _ |- _ => by destruct (held_recorded _ _ _ _ _ Hh Hr) end.
Qed.
Lemma prepare_killed_own claim n n' :
  held (UID claim) n -> prepare_killed cfg rsdGroupFn claim n n' -> kept (UID claim) n n'.
Proof using Type.
  intros Hh []; [by eapply Prepare_own|..];
    match goal with Hr : after_read _ _ _ _ |- _ => by destruct (held_recorded _ _ _ _ _ Hh Hr) end.
Qed.

(** Up to the metadata, another claim's preparation. *)
Lemma prepare_begun flt' claim uid n n0 cp m n1 pds n2 r :
  claim_uid_ok uid -> claim_uid_ok (UID claim) -> requests_ok claim -> uid <> UID claim ->
  after_read n n0 cp m -> prepareDevices cfg rsdGroupFn claim n0 = (n1, Ok pds) ->
  meta_phase (flt:=flt') cfg claim n1 = (n2, r) -> kept uid n n2.
Proof using Hbase Hcfg Hrsd.
  intros Hu Hu' Hreq Hne Hr Hd Hm. etrans; [by eapply after_read_kept|].
  etrans; [by eapply prepareDevices_kept|by eapply meta_phase_kept].
Qed.
Lemma prepare_recording cp m claim pds uid n n0 n3 n4 r :
  uid <> UID claim -> after_read n n0 cp m -> kept uid n n3 ->
  nd_on_cp (CreateCheckpoint DriverPluginCheckpointFile (with_claims cp (<[UID claim := pds]> m))) n3 = (n4, r) -> kept uid n n4.
Proof using Type.
  intros Hne Hr Hk H. etrans; [exact Hk|]. eapply create_kept; [|exact H].
  rewrite lookup_insert_ne by done. by rewrite (kept_record _ _ _ Hk), (read_record uid _ _ _ _ Hr).
Qed.
Lemma rollback_after flt' uid' uid n n3 n' r :
  uid' <> uid -> held uid n -> kept uid n n3 -> rollbackKubeVirtMetadata (flt:=flt') cfg uid' n3 = (n', r) -> kept uid n n'.
Proof using Hbase Hcfg.
  intros Hne Hh Hk H. etrans; [exact Hk|]. pose proof (kept_held _ _ _ Hk Hh) as []. by eapply rollback_kept; eauto.
Qed.
Lemma Prepare_other flt' claim uid n n' r :
  claim_uid_ok uid -> claim_uid_ok (UID claim) -> requests_ok claim -> uid <> UID claim -> held uid n ->
  Prepare (flt:=flt') cfg rsdGroupFn claim n = (n', r) -> kept uid n n'.
Proof using Hbase Hcfg Hrsd.
  intros Hu Hu' Hreq Hne Hh H. apply Prepare_run in H.
  destruct H as [n' e H|n' m x l H| n0 cp m n' e Hread Hun Hd|n0 cp m n1 pds n2 n' e Hread Hun Hd Hme Hr
    |n0 cp m n1 pds n2 n3 n' e Hread Hun Hd Hme Hs Hr|n0 cp m n1 pds n2 n3 n4 n' e Hread Hun Hd Hme Hs Hc Hr
    |n0 cp m n1 pds n2 n3 n' Hread Hun Hd Hme Hs Hc]; [by apply untouched_kept|by apply untouched_kept|..].
  1: etrans; [by eapply after_read_kept|by eapply prepareDevices_kept].
  all: pose proof (prepare_begun _ _ _ _ _ _ _ _ _ _ _ Hu Hu' Hreq Hne Hread Hd Hme) as H2.
  1: eapply rollback_after; [|exact Hh|exact H2|exact Hr]; done.
  all: assert (kept uid n n3) as H3 by (etrans; [exact H2|by eapply CreateClaimSpecFile_kept]).
  1: eapply rollback_after; [|exact Hh|exact H3|exact Hr]; done.
  all: pose proof (prepare_recording _ _ _ _ _ _ _ _ _ _ Hne Hread H3 Hc) as H4.
  2: exact H4.
  eapply rollback_after; [|exact Hh|exact H4|exact Hr]; done.
Qed.
Lemma prepare_killed_other claim uid n n' :
  claim_uid_ok uid -> claim_uid_ok (UID claim) -> requests_ok claim -> uid <> UID claim -> held uid n ->
  prepare_killed cfg rsdGroupFn claim n n' -> kept uid n n'.
Proof using Hbase Hcfg Hrsd.
  intros Hu Hu' Hreq Hne Hh [flt' n1 r H|n0 cp m n1 r Hread _ Hd|flt' n0 cp m n1 pds n2 r Hread _ Hd Hme
    |flt' n0 cp m n1 pds n2 n3 r Hread _ Hd Hme Hs|flt' n0 cp m n1 pds n2 n3 n4 r Hread _ Hd Hme Hs Hc].
  - by eapply Prepare_other.
  - etrans; [by eapply after_read_kept|by eapply prepareDevices_kept].
  - by eapply prepare_begun.
  - etrans; [by eapply prepare_begun|by eapply CreateClaimSpecFile_kept].
  - eapply prepare_recording; [done|exact Hread| |exact Hc]. etrans; [by eapply prepare_begun|by eapply CreateClaimSpecFile_kept].
Qed.

Lemma unprepare_killed_other uid' uid n n' :
  claim_uid_ok uid -> claim_uid_ok uid' -> uid <> uid' -> held uid n ->
  unprepare_killed cfg uid' n n' -> kept uid n n'.
Proof using Hbase Hcfg.
  assert (forall flt' n0 cp m n1 n2 r, claim_uid_ok uid -> claim_uid_ok uid' -> uid <> uid' -> held uid n -> after_read n n0 cp m ->
    nd_on_cdi (DeleteClaimSpecFile (cfg_cdi cfg) uid') n0 = (n1, Ok tt) ->
    nd_on_meta (removeKubeVirtMetadataForClaim (flt:=flt') (cfg_metadata cfg) uid') n1 = (n2, r) -> kept uid n n2) as Hrm.
  { intros flt' n0 cp m n1 n2 r Hu Hu' Hne Hh Hread Hs Hm.
    assert (kept uid n n1) as H1 by (etrans; [by eapply after_read_kept|by eapply DeleteClaimSpecFile_kept]).
    etrans; [exact H1|]. pose proof (kept_held _ _ _ H1 Hh) as []. eapply removal_kept; [..|exact Hm]; auto. }
  assert (forall flt' n0 cp m n1 n2 n3 r, claim_uid_ok uid -> claim_uid_ok uid' -> uid <> uid' -> held uid n -> after_read n n0 cp m ->
    nd_on_cdi (DeleteClaimSpecFile (cfg_cdi cfg) uid') n0 = (n1, Ok tt) ->
    nd_on_meta (removeKubeVirtMetadataForClaim (flt:=flt') (cfg_metadata cfg) uid') n1 = (n2, Ok tt) ->
    nd_on_cp (CreateCheckpoint DriverPluginCheckpointFile (with_claims cp (delete uid' m))) n2 = (n3, r) -> kept uid n n3) as Hcr.
  { intros flt' n0 cp m n1 n2 n3 r Hu Hu' Hne Hh Hread Hs Hm Hc.
    pose proof (Hrm _ _ _ _ _ _ _ Hu Hu' Hne Hh Hread Hs Hm) as H2. etrans; [exact H2|]. eapply create_kept; [|exact Hc].
    rewrite lookup_delete_ne by done. by rewrite (kept_record _ _ _ H2), (read_record uid _ _ _ _ Hread). }
  intros Hu Hu' Hne Hh [flt' n1 r H|n0 cp m n1 r Hread _ Hs|flt' n0 cp m n1 n2 r Hread _ Hs Hm
    |flt' n0 cp m n1 n2 n3 r Hread _ Hs Hm Hc]; [|etrans; [by eapply after_read_kept|by eapply DeleteClaimSpecFile_kept]|by eapply Hrm|by eapply Hcr].
  apply Unprepare_run in H. destruct H as [n9 e H|n9 m H| n0 cp m n9 e Hread _ Hs|n0 cp m n1 n9 e Hread _ Hs Hm
    |n0 cp m n1 n2 n9 e Hread _ Hs Hm Hc|n0 cp m n1 n2 n3 n9 Hread _ Hs Hm Hc H];
    [by apply untouched_kept|by apply untouched_kept| |by eapply Hrm|by eapply Hcr|].
  - etrans; [by eapply after_read_kept|by eapply DeleteClaimSpecFile_kept].
  - etrans; [by eapply Hcr|by apply untouched_kept].
Qed.

(** ** Steps of the driver *)

(** What is on disk is the same. *)
Definition same_disk d d' : Prop :=
  nd_meta (dr_node d') = nd_meta (dr_node d) /\ nd_cdi (dr_node d') = nd_cdi (dr_node d) /\
  nd_cp (dr_node d') = nd_cp (dr_node d).
#[local] Instance same_disk_preorder : PreOrder same_disk.
Proof using Type. split; [by intros d|]. intros d1 d2 d3 (? & ? & ?) (? & ? & ?). unfold same_disk. split_and!; congruence. Qed.
#[local] Instance on_plugin_disk {A} (m : M Plugin A) : Respects same_disk (on_plugin (cdi_store:=cdi_store) (cp_store:=cp_store) m).
Proof using Type. intros d. unfold on_plugin, zoom. by destruct (m _). Qed.
#[local] Instance dr_log_disk l text : Respects same_disk (dr_log (cdi_store:=cdi_store) (cp_store:=cp_store) l text).
Proof using Type. unfold dr_log. apply _. Qed.
#[local] Instance PublishResources_disk res : Respects same_disk (PublishResources (cdi_store:=cdi_store) (cp_store:=cp_store) res).
Proof using Type. by intros d. Qed.
#[local] Instance socket_call_disk answer : Respects same_disk (socket_call (cdi_store:=cdi_store) (cp_store:=cp_store) answer).
Proof using Type. by intros d. Qed.
#[local] Instance modify_disk (g : Driver cdi_store cp_store -> Driver cdi_store cp_store) :
  (forall d, dr_node (g d) = dr_node d) -> Respects same_disk (modify g).
Proof using Type. intros Hg d. unfold same_disk, modify. simpl. by rewrite Hg. Qed.
#[local] Instance on_net_disk {A} (m : M Net A) : Respects same_disk (on_net (cdi_store:=cdi_store) (cp_store:=cp_store) m).
Proof using Type. intros d. unfold on_net, zoom. by destruct (m _). Qed.
#[local] Instance set_net_disk f g b :
  Respects same_disk (modify (fun d : Driver cdi_store cp_store => set_net (f d) (g d) (b d) d)).
Proof using Type. by intros d. Qed.
Lemma background_disk interval d ph d' ph' :
  driver_step cfg rsdGroupFn interval None (d, ph) (d', ph') -> same_disk d d'.
Proof using Type.
  intros H. inversion H; subst.
  - eapply respects_run; [|eassumption]. unfold firstPublication. solve_respects.
  - eapply respects_run; [|eassumption]. apply _.
  - eapply respects_run; [|eassumption]. apply _.
  - eapply respects_run; [|eassumption]. unfold tick_rest. solve_respects.
  - eapply respects_run; [|eassumption]. unfold republish. solve_respects.
  - eapply respects_run; [|eassumption]. apply _.
  - eapply respects_run; [|eassumption]. unfold observeRegistration. case_match; [|apply _].
    apply bind_respects; [apply _|by apply modify_disk|intros ?; apply _].
  - eapply respects_run; [|eassumption]. unfold HandleError, cancelMainCtx. case_match; [apply _|by apply modify_disk].
  - eapply respects_run; [|eassumption]. unfold Check_health. solve_respects.
Qed.
Lemma same_disk_kept uid d d' : same_disk d d' -> kept uid (dr_node d) (dr_node d').
Proof using Type. intros (? & ? & Hc). apply kept_disk; [done|done|by rewrite Hc]. Qed.

Lemma startDriver_kept flags root cache manager helper_up uid n d r :
  held uid n -> startDriver flags root cache manager helper_up (new_driver n) = (d, r) -> kept uid n (dr_node d).
Proof using Type.
  intros [_ _ (x & l & Hx)] H. unfold startDriver in H.
  assert (forall n' rr, NewDeviceState (nodeName flags) (cdiRoot flags) root cache manager n = (n', rr) -> kept uid n n') as Hnew.
  { intros n' rr (_ & Hm & Hc & Hp & _)%NewDeviceState_run.
    assert (is_Some (blobs (nd_cp n) !! DriverPluginCheckpointFile)) as Hs.
    { unfold prepared_in in Hx. destruct (blobs _ !! _); [by eexists|done]. }
    split; [by apply same_for_refl|by rewrite Hm; intros ?|by rewrite (Hp Hs)]. }
  apply bind_run in H as [(d1 & [] & (n' & Hn & ->)%on_node_run & H)|(e & (n' & Hn & ->)%on_node_run & _)];
    apply Hnew in Hn; [|exact Hn]. etrans; [exact Hn|].
  change (kept uid (dr_node (set_node n' (new_driver n))) (dr_node d)). apply same_disk_kept.
  eapply respects_run; [|exact H]. solve_respects.
Qed.

Lemma killed_kept ev uid n n' :
  claim_uid_ok uid -> spares uid ev -> held uid n -> killed ev n n' -> kept uid n n'.
Proof using Hbase Hcfg Hrsd.
  intros Hu Hs Hh H. induction H as [n|claim n n' H|uid' n n' H|ev n n' flags root cache manager hu d e Hk IH Hst].
  - reflexivity.
  - destruct Hs as [Hu' Hreq]. destruct (decide (uid = UID claim)) as [->|Hne];
      [by eapply prepare_killed_own|by eapply prepare_killed_other].
  - destruct Hs as [Hu' Hne]. by eapply unprepare_killed_other.
  - specialize (IH Hs Hh). etrans; [exact IH|]. eapply startDriver_kept; [|exact Hst]. by eapply kept_held.
Qed.
Lemma life_step_kept interval ev uid x y :
  claim_uid_ok uid -> spares uid ev -> held uid (dr_node x.1) ->
  life_step interval ev x y -> kept uid (dr_node x.1) (dr_node y.1).
Proof using Hbase Hcfg Hrsd.
  intros Hu Hs Hh H. destruct H as [ev' [d ph] [d' ph'] H|ev' d ph n' flags root cache manager hu d' Hk Hst].
  - simpl in *. destruct ev' as [[claim|uid']|].
    + inversion H; subst. match goal with Hp : on_node _ _ = _ |- _ => apply on_node_run in Hp as (n' & Hrun & ->) end.
      apply (killed_kept (Some (RPrepare claim))); [done|exact Hs|exact Hh|]. eapply killed_prepare, pk_end, Hrun.
    + inversion H; subst. match goal with Hp : on_node _ _ = _ |- _ => apply on_node_run in Hp as (n' & Hrun & ->) end.
      apply (killed_kept (Some (RUnprepare uid'))); [done|exact Hs|exact Hh|]. eapply killed_unprepare, uk_end, Hrun.
    + by eapply same_disk_kept, background_disk.
  - simpl in *. pose proof (killed_kept _ _ _ _ Hu Hs Hh Hk) as H1. etrans; [exact H1|].
    eapply startDriver_kept; [|exact Hst]. by eapply kept_held.
Qed.
Lemma spared_kept interval uid x y :
  claim_uid_ok uid -> held uid (dr_node x.1) -> rtc (spared interval uid) x y ->
  kept uid (dr_node x.1) (dr_node y.1).
Proof using Hbase Hcfg Hrsd.
  intros Hu Hh H. revert Hh. induction H as [x|x y z (ev & Hs & H) _ IH]; intros Hh; [reflexivity|].
  pose proof (life_step_kept _ _ _ _ _ Hu Hs Hh H) as H1. etrans; [exact H1|]. apply IH. by eapply kept_held.
Qed.

(** A successful preparation makes the claim held. *)
Lemma Prepare_held claim n n' devices :
  claim_uid_ok (UID claim) -> requests_ok claim -> wf_tree (tree (nd_meta n)) ->
  (forall uid', uid' <> UID claim -> marker (tree (nd_meta n)) (host_dir base (UID claim)) <> Some uid') ->
  Prepare cfg rsdGroupFn claim n = (n', Ok devices) -> devices <> [] -> held (UID claim) n'.
Proof using Hbase Hcfg Hrsd.
  intros [Hu _] Hreq Hwf Hmk H Hne. apply Prepare_run in H. remember (Ok devices) as r eqn:Er.
  destruct H as [|n' m x l H Hp Hm| | | | |n0 cp m n1 pds n2 n3 n' Hread Hun Hd Hme Hs Hc]; simplify_eq.
  - destruct H as [_ _ Hmeta _ Hb]. split; [by rewrite Hmeta|by rewrite Hmeta|].
    exists x, l. by rewrite (prepared_in_blobs _ _ Hb), Hp.
  - pose proof (nd_on_cp_keeps _ _ _ _ Hc) as (_ & Hm4 & _). pose proof (nd_on_cdi_keeps _ _ _ _ Hs) as (_ & Hm3 & _).
    apply prepareDevices_keeps in Hd as (Hm1 & _ & _); [|exact Hrsd]. rewrite (ar_meta _ _ _ _ Hread) in Hm1.
    rewrite <- Hm1 in Hwf, Hmk. apply create_prepared in Hc.
    assert (exists x l, (prepared_in (nd_cp n') ≫= lookup (UID claim)) = Some (x :: l)) as Hrec.
    { rewrite Hc. simpl. rewrite lookup_insert_eq. destruct pds; [done|eauto]. }
    pose proof (meta_phase_run cfg base Hbase Hcfg _ _ _ _ Hu Hreq Hme) as (_ & Hw & _).
    split; [by rewrite Hm4, Hm3; apply Hw| |exact Hrec]. rewrite Hm4, Hm3.
    intros uid' Hneq. unfold meta_phase in Hme. destruct (claimHasVfioDevice _ _); [|simplify_eq; by apply Hmk].
    apply nd_on_meta_run in Hme as (k & Hk & ->). rewrite Hcfg in Hk. simpl.
    apply (writeKubeVirtMetadata_run base Hbase) in Hk as (_ & _ & Hok); [|done..].
    destruct (Hok eq_refl) as [-> _]. congruence.
Qed.

(** C10: A prepared claim survives everything but its own removal. From the
    moment a Prepare has answered with devices, through any sequence of
    preparations and removals of other claims, new preparations of this one,
    scans, publications, registrations, errors and health checks, whichever of
    their calls fail, through kills of the process at any point of them, failed
    starts and restarts, up to an Unprepare of the claim: its CDI spec, its
    metadata files and its record stay as they were left, and a Prepare of the
    claim by the driver that runs then, as soon as the checkpoint can be read,
    answers with the same devices and touches nothing. *)
Theorem prepared_claim_durable interval claim d0 d ph devices y :
  claim_uid_ok (UID claim) -> requests_ok claim -> wf_tree (tree (nd_meta (dr_node d0))) ->
  (forall uid', uid' <> UID claim -> marker (tree (nd_meta (dr_node d0))) (host_dir base (UID claim)) <> Some uid') ->
  Prepare cfg rsdGroupFn claim (dr_node d0) = (dr_node d, Ok devices) -> devices <> [] ->
  rtc (spared interval (UID claim)) (d, ph) y ->
  specs (nd_cdi (dr_node y.1)) !! claimSpecName (cfg_cdi cfg) (UID claim) =
    specs (nd_cdi (dr_node d)) !! claimSpecName (cfg_cdi cfg) (UID claim) /\
  (forall k, host_dir base (UID claim) `prefix_of` k -> tree (nd_meta (dr_node y.1)) !! k = tree (nd_meta (dr_node d)) !! k) /\
  exists pds, (prepared_in (nd_cp (dr_node y.1)) ≫= lookup (UID claim)) = Some pds /\ GetDevices pds = devices /\
    forall k cp, GetCheckpoint DriverPluginCheckpointFile newCheckpoint (nd_cp (dr_node y.1)) = (k, Ok cp) ->
      exists n', Prepare cfg rsdGroupFn claim (dr_node y.1) = (n', Ok devices) /\ untouched (dr_node y.1) n'.
Proof using Hbase Hcfg Hrsd.
  intros Hu Hreq Hwf Hmk HP Hne Hl.
  pose proof (Prepare_held _ _ _ _ Hu Hreq Hwf Hmk HP Hne) as Hh.
  apply Prepare_checkpoint_run in HP as (m & pds & _ & Hp & -> & _); [|exact Hrsd].
  pose proof (spared_kept interval (UID claim) (d, ph) y Hu Hh Hl) as [[Hs Ht] _ Hr]. split_and!; [exact Hs|exact Ht|].
  simpl in Hr. rewrite Hp in Hr. simpl in Hr. rewrite lookup_insert_eq in Hr. exists pds. split_and!; [done|done|].
  intros k cp Hk. destruct pds as [|x l]; [done|]. destruct (prepared_in (nd_cp (dr_node y.1))) as [m'|] eqn:Em; [|done].
  eapply Prepare_replay; [exact Hk|exact Em|exact Hr].
Qed.
End with_base.
End life.
