(* ===== verification/Concurrent.v ===== *)
(** The handlers of PrepareResourceClaims and UnprepareResourceClaims as
    goroutines: each holds the lock of the state only inside Prepare and
    Unprepare, so requests overlap, with each other and with the scan loop. *)
From S2P Require Import Prelude GoStd Host PciSysfs Device Sriov Vfio Validate RsdGroup Claim Fs.
From S2P Require Import Metadata MetadataProps Cdi Checkpoint Discovery Inventory Scan ScanProps.
From S2P Require Import Prepare PrepareProps PrepareRuns Lifecycle LifecycleProps Flags Health Driver.
From S2P Require Import DriverProps Interleave Durable.
Open Scope string_scope.

(** A call of one of the two handlers, and what one locked call inside returned. *)
Inductive call := PrepareCall (claims : list ResourceClaim) | UnprepareCall (uids : list string).
Abbreviation devices_answer := (list (list string * string * string * list string)).
Inductive served :=
  | ServedPrepare (claim : ResourceClaim) (r : res devices_answer)
  | ServedUnprepare (uid : string) (r : res unit).

(** Where a handler is: before the next claim, with the answers given so far, or
    between a locked call and its answer. It returns when no claim is left, and
    stays in the table with its answers. *)
Inductive handler :=
  | Preparing (todo : list ResourceClaim) (answers : gmap string PrepareResult)
  | PrepareDone (claim : ResourceClaim) (r : res devices_answer) (todo : list ResourceClaim) (answers : gmap string PrepareResult)
  | Unpreparing (todo : list string) (answers : gmap string (option err))
  | UnprepareDone (uid : string) (r : res unit) (todo : list string) (answers : gmap string (option err)).

Inductive event := Called (i : nat) (c : call) | Locked (i : nat) (s : served).

Section concurrent.
Context {hst : Host} {smi : Smi} `{!SemanticEqual Device, !SemanticEqual (list Device)}
  {flt : Faults} {menv : MetadataEnv} {lib : CdiLib} {codec : CheckpointCodec}
  {cdi_store cp_store : Type} `{!CdiCache cdi_store, !CheckpointManager cp_store} {helper : Helper} {net : Network} {sockets : Sockets}
  (cfg : Config) (rsdGroupFn : list string -> M Sys string)
  {Hrsd : forall ids, Respects sys_le (rsdGroupFn ids)}.
Implicit Types d : Driver cdi_store cp_store.
Abbreviation pool := (Driver cdi_store cp_store * phase * gmap nat handler)%type.
Abbreviation recorded d := (prepared_in (nd_cp (dr_node d))).

Inductive pool_step (interval : Z) : option event -> pool -> pool -> Prop :=
  | ps_background d ph d' ph' hs :
      driver_step cfg rsdGroupFn interval None (d, ph) (d', ph') -> pool_step interval None (d, ph, hs) (d', ph', hs)
  | ps_prepare_call d d' ph hs i claims :
      hs !! i = None -> received (length claims) "Received request to prepare resource claims" d = (d', Ok tt) ->
      pool_step interval (Some (Called i (PrepareCall claims))) (d, ph, hs) (d', ph, <[i := Preparing claims ∅]> hs)
  | ps_prepare d d' ph hs i c todo a r :
      hs !! i = Some (Preparing (c :: todo) a) -> on_node (Prepare cfg rsdGroupFn c) d = (d', r) ->
      pool_step interval (Some (Locked i (ServedPrepare c r))) (d, ph, hs) (d', ph, <[i := PrepareDone c r todo a]> hs)
  | ps_prepare_answer d d' ph hs i c todo a r pr :
      hs !! i = Some (PrepareDone c r todo a) -> answerPrepare c r d = (d', Ok pr) ->
      pool_step interval None (d, ph, hs) (d', ph, <[i := Preparing todo (<[UID c := pr]> a)]> hs)
  | ps_unprepare_call d d' ph hs i uids :
      hs !! i = None -> received (length uids) "Received request to unprepare resource claims" d = (d', Ok tt) ->
      pool_step interval (Some (Called i (UnprepareCall uids))) (d, ph, hs) (d', ph, <[i := Unpreparing uids ∅]> hs)
  | ps_unprepare d d' ph hs i uid todo a r :
      hs !! i = Some (Unpreparing (uid :: todo) a) -> on_node (Unprepare cfg uid) d = (d', r) ->
      pool_step interval (Some (Locked i (ServedUnprepare uid r))) (d, ph, hs) (d', ph, <[i := UnprepareDone uid r todo a]> hs)
  | ps_unprepare_answer d d' ph hs i uid todo a r e :
      hs !! i = Some (UnprepareDone uid r todo a) -> answerUnprepare uid r d = (d', Ok e) ->
      pool_step interval None (d, ph, hs) (d', ph, <[i := Unpreparing todo (<[uid := e]> a)]> hs).

(** A run, with its history. *)
Inductive pool_run (interval : Z) (x : pool) : list event -> pool -> Prop :=
  | run_start : pool_run interval x [] x
  | run_step tr ev y z :
      pool_run interval x tr y -> pool_step interval ev y z -> pool_run interval x (tr ++ option_list ev)%list z.

(** The locked calls of a history, in order, and those of one handler. *)
Definition locked (tr : list event) : list served :=
  omap (fun e => match e with Locked _ s => Some s | Called _ _ => None end) tr.
Definition locked_by (i : nat) (tr : list event) : list served :=
  omap (fun e => match e with Locked j s => if decide (j = i) then Some s else None | Called _ _ => None end) tr.

(** ** What the answers mean *)

(** The answer to one claim; those of a batch, in which a later one wins. *)
Definition prepare_result (claim : ResourceClaim) (r : res devices_answer) : PrepareResult :=
  match r with
  | Ok prepared => {| pr_Devices := prepared; pr_Err := None |}
  | Err e => {| pr_Devices := []; pr_Err := Some (ErrWrap ("error preparing devices for claim " +:+ UID claim +:+ ": ") e "") |}
  end.
Definition unprepare_result (uid : string) (r : res unit) : option err :=
  match r with
  | Ok _ => None
  | Err e => Some (ErrWrap ("error unpreparing devices for claim " +:+ uid +:+ ": ") e "")
  end.
Definition prepare_results (l : list (ResourceClaim * res devices_answer)) : gmap string PrepareResult :=
  list_to_map (rev (map (fun x => (UID x.1, prepare_result x.1 x.2)) l)).
Definition unprepare_results (l : list (string * res unit)) : gmap string (option err) :=
  list_to_map (rev (map (fun x => (x.1, unprepare_result x.1 x.2)) l)).

(** How far a handler is: [l] are the claims it has answered. *)
Definition progress (tr : list event) (i : nat) (h : handler) : Prop :=
  match h with
  | Preparing todo a => exists l, a = prepare_results l /\
      Called i (PrepareCall (map fst l ++ todo)) ∈ tr /\ locked_by i tr = map (uncurry ServedPrepare) l
  | PrepareDone c r todo a => exists l, a = prepare_results l /\
      Called i (PrepareCall (map fst l ++ c :: todo)) ∈ tr /\ locked_by i tr = map (uncurry ServedPrepare) (l ++ [(c, r)])
  | Unpreparing todo a => exists l, a = unprepare_results l /\
      Called i (UnprepareCall (map fst l ++ todo)) ∈ tr /\ locked_by i tr = map (uncurry ServedUnprepare) l
  | UnprepareDone uid r todo a => exists l, a = unprepare_results l /\
      Called i (UnprepareCall (map fst l ++ uid :: todo)) ∈ tr /\
      locked_by i tr = map (uncurry ServedUnprepare) (l ++ [(uid, r)])
  end%list.

(** ** Lemmas *)

Lemma prepare_results_snoc l c r : prepare_results (l ++ [(c, r)])%list = <[UID c := prepare_result c r]> (prepare_results l).
Proof using Type. unfold prepare_results. by rewrite map_app, rev_app_distr. Qed.
Lemma unprepare_results_snoc l uid r :
  unprepare_results (l ++ [(uid, r)])%list = <[uid := unprepare_result uid r]> (unprepare_results l).
Proof using Type. unfold unprepare_results. by rewrite map_app, rev_app_distr. Qed.
Lemma prepare_results_lookup l uid pr :
  prepare_results l !! uid = Some pr -> exists c r, (c, r) ∈ l /\ UID c = uid /\ pr = prepare_result c r.
Proof using Type.
  intros H. apply elem_of_list_to_map_2, list_elem_of_In, in_rev, list_elem_of_In, list_elem_of_fmap in H
    as ([c r] & [= -> ->] & Hin). eauto.
Qed.

Lemma omap_snoc {A B} (f : A -> option B) (l : list A) o : omap f (l ++ option_list o)%list = (omap f l ++ option_list (o ≫= f))%list.
Proof using Type. rewrite omap_app. destruct o as [a|]; simpl; [by destruct (f a)|done]. Qed.

(** The records of an answer are steps of the driver. *)
Abbreviation some_steps interval := (rtc (fun x y => exists ev, driver_step cfg rsdGroupFn interval ev x y)).
Lemma record_step interval l text d ph :
  exists d', dr_log l text d = (d', Ok tt) /\ some_steps interval (d, ph) (d', ph) /\ recorded d' = recorded d.
Proof using Type.
  destruct (dr_log l text d) as [d' r] eqn:E. exists d'. pose proof E as (-> & Hcp & _)%dr_log_run.
  split; [done|]. split; [|by rewrite Hcp]. apply rtc_once. exists None. by eapply ds_record.
Qed.
Lemma received_steps interval n text d ph :
  exists d', received n text d = (d', Ok tt) /\ some_steps interval (d, ph) (d', ph) /\ recorded d' = recorded d.
Proof using Type. unfold received. case_bool_decide; [by exists d|apply record_step]. Qed.
Lemma answerPrepare_steps interval c r d ph :
  exists d', answerPrepare c r d = (d', Ok (prepare_result c r)) /\ some_steps interval (d, ph) (d', ph) /\
    recorded d' = recorded d.
Proof using Type.
  unfold answerPrepare, bind. destruct r as [devs|e].
  - destruct (record_step interval LInfo "Prepared devices for claim" d ph) as (d1 & -> & S1 & R1).
    destruct (record_step interval LDebug "Prepared device details" d1 ph) as (d2 & -> & S2 & R2).
    exists d2. split; [done|]. split; [by etrans|congruence].
  - destruct (record_step interval LError "Failed to prepare devices for claim" d ph) as (d1 & -> & S1 & R1). by exists d1.
Qed.
Lemma answerUnprepare_steps interval uid r d ph :
  exists d', answerUnprepare uid r d = (d', Ok (unprepare_result uid r)) /\ some_steps interval (d, ph) (d', ph) /\
    recorded d' = recorded d.
Proof using Type.
  unfold answerUnprepare, bind. destruct r as [[]|e]; [by exists d|].
  destruct (record_step interval LError "Failed to unprepare devices for claim" d ph) as (d1 & -> & S1 & R1). by exists d1.
Qed.

(** ** The history of a run *)

Definition locked_event (e : event) : option served := match e with Locked _ s => Some s | Called _ _ => None end.
Lemma locked_snoc tr ev : locked (tr ++ option_list ev)%list = (locked tr ++ option_list (ev ≫= locked_event))%list.
Proof using Type. apply omap_snoc. Qed.
Lemma locked_by_same i tr ev :
  (forall s, ev <> Some (Locked i s)) -> locked_by i (tr ++ option_list ev)%list = locked_by i tr.
Proof using Type.
  intros H. unfold locked_by. rewrite omap_snoc. destruct ev as [[j c|j s]|]; simpl; [by rewrite app_nil_r| |by rewrite app_nil_r].
  rewrite decide_False by (intros ->; by eapply H). by rewrite app_nil_r.
Qed.
Lemma locked_by_here i tr s : locked_by i (tr ++ option_list (Some (Locked i s)))%list = (locked_by i tr ++ [s])%list.
Proof using Type. unfold locked_by. rewrite omap_snoc. simpl. by rewrite decide_True. Qed.

Lemma progress_later tr ev i h :
  (forall s, ev <> Some (Locked i s)) -> progress tr i h -> progress (tr ++ option_list ev)%list i h.
Proof using Type.
  intros Hev H. destruct h; destruct H as (l & Ha & Hc & Hl); exists l; rewrite (locked_by_same _ _ _ Hev);
    (split_and!; [done|apply elem_of_app; by left|done]).
Qed.

(** Every handler present has done what the history says, and one that is absent
    has done nothing. *)
Definition on_course (tr : list event) (hs : gmap nat handler) : Prop :=
  forall i, match hs !! i with Some h => progress tr i h | None => locked_by i tr = [] end.
Lemma on_course_insert tr ev hs i h :
  (forall j s, ev = Some (Locked j s) -> j = i) ->
  progress (tr ++ option_list ev)%list i h -> on_course tr hs -> on_course (tr ++ option_list ev)%list (<[i := h]> hs).
Proof using Type.
  intros Hev Hh H j. specialize (H j). destruct (decide (i = j)) as [<-|Hne]; [by rewrite lookup_insert_eq|].
  rewrite lookup_insert_ne by done. assert (forall s, ev <> Some (Locked j s)) as Hj by (intros s ->; by eapply Hne, eq_sym, Hev).
  destruct (hs !! j); [by apply progress_later|by rewrite locked_by_same].
Qed.
Lemma on_course_at tr hs i h : on_course tr hs -> hs !! i = Some h -> progress tr i h.
Proof using Type. intros H Hi. specialize (H i). by rewrite Hi in H. Qed.

Lemma pool_step_on_course interval tr ev x y :
  pool_step interval ev x y -> on_course tr x.2 -> on_course (tr ++ option_list ev)%list y.2.
Proof using Hrsd.
  intros H Hc. destruct H as [d ph d' ph' hs _|d d' ph hs i claims Hi _|d d' ph hs i c todo a r Hi _|d d' ph hs i c todo a r pr Hi Hr
    |d d' ph hs i uids Hi _|d d' ph hs i uid todo a r Hi _|d d' ph hs i uid todo a r e Hi Hr]; cbn [fst snd] in *.
  1: by rewrite app_nil_r.
  all: apply on_course_insert; [by intros ? ? [= ->]| |exact Hc].
  1, 4: exists []; rewrite locked_by_same by done; pose proof (Hc i) as H; rewrite Hi in H; split_and!; [done|set_solver|exact H].
  all: destruct (on_course_at _ _ _ _ Hc Hi) as (l & -> & Hcall & Hl).
  1, 3: exists l; rewrite locked_by_here, Hl, map_app; split_and!; set_solver.
  - destruct (answerPrepare_steps 0 c r d ph) as (d2 & E & _). rewrite E in Hr. injection Hr as _ <-.
    exists (l ++ [(c, r)])%list. rewrite locked_by_same, prepare_results_snoc, map_app, <- app_assoc by done. split_and!; set_solver.
  - destruct (answerUnprepare_steps 0 uid r d ph) as (d2 & E & _). rewrite E in Hr. injection Hr as _ <-.
    exists (l ++ [(uid, r)])%list. rewrite locked_by_same, unprepare_results_snoc, map_app, <- app_assoc by done. split_and!; set_solver.
Qed.

(** A step of the pool is made of steps of the driver. *)
Lemma pool_step_driver interval ev x y : pool_step interval ev x y -> some_steps interval x.1 y.1.
Proof using Type.
  intros H. destruct H as [d ph d' ph' hs H|d d' ph hs i claims _ H|d d' ph hs i c todo a r _ H|d d' ph hs i c todo a r pr _ H
    |d d' ph hs i uids _ H|d d' ph hs i uid todo a r _ H|d d' ph hs i uid todo a r e _ H]; simpl.
  - apply rtc_once. by exists None.
  - destruct (received_steps interval (length claims) "Received request to prepare resource claims" d ph) as (d2 & E & S & _).
    rewrite E in H. by injection H as <-.
  - apply rtc_once. exists (Some (RPrepare c)). by eapply ds_prepare.
  - destruct (answerPrepare_steps interval c r d ph) as (d2 & E & S & _). rewrite E in H. by injection H as <-.
  - destruct (received_steps interval (length uids) "Received request to unprepare resource claims" d ph) as (d2 & E & S & _).
    rewrite E in H. by injection H as <-.
  - apply rtc_once. exists (Some (RUnprepare uid)). by eapply ds_unprepare.
  - destruct (answerUnprepare_steps interval uid r d ph) as (d2 & E & S & _). rewrite E in H. by injection H as <-.
Qed.

(** ** Records *)

(** What was prepared under the lock, and not unprepared since, is recorded. *)
Definition standing (h : list served) d : Prop :=
  forall h1 c devs h2, h = (h1 ++ ServedPrepare c (Ok devs) :: h2)%list -> devs <> [] ->
    (forall r, ServedUnprepare (UID c) r ∉ h2) ->
    exists pds, (recorded d ≫= lookup (UID c)) = Some pds /\ devs = GetDevices pds.

Lemma snoc_split {A} (l l1 l2 : list A) x y :
  (l ++ [x] = l1 ++ y :: l2)%list -> (l2 = [] /\ x = y) \/ exists l3, l2 = (l3 ++ [x])%list /\ l = (l1 ++ y :: l3)%list.
Proof using Type.
  destruct l2 as [|z l2 _] using rev_ind; intros H.
  - apply app_inj_tail in H as [_ ->]. by left.
  - rewrite app_comm_cons, app_assoc in H. apply app_inj_tail in H as [-> ->]. right. by exists l2.
Qed.
Lemma standing_prepare h c r d d' :
  on_node (Prepare cfg rsdGroupFn c) d = (d', r) -> standing h d -> standing (h ++ [ServedPrepare c r])%list d'.
Proof using Hrsd.
  intros (n' & H & ->)%on_node_run Hs h1 c0 devs h2 Eh Hne Hun. simpl.
  apply (Prepare_checkpoint_run cfg rsdGroupFn (Hrsd:=Hrsd)) in H. apply snoc_split in Eh as [[-> [= -> ->]]|(h3 & -> & ->)].
  - destruct H as (m & pds & _ & -> & -> & _). exists pds. simpl. by rewrite lookup_insert_eq.
  - destruct (Hs h1 c0 devs h3 eq_refl Hne) as (pds0 & Hp & ->); [intros r' Hr; apply (Hun r'); apply elem_of_app; by left|].
    exists pds0. split; [|done]. destruct r as [devs'|e]; [|by rewrite H].
    destruct H as (m & pds & Hm & -> & _ & Hold). rewrite Hm in Hp. simpl in *.
    destruct (decide (UID c = UID c0)) as [Hu|Hu]; [|by rewrite lookup_insert_ne].
    rewrite Hu in Hold |- *. rewrite lookup_insert_eq. destruct Hold as [Hold|Hold]; [|congruence].
    unfold unrecorded in Hold. rewrite Hp in Hold. simpl in Hold. by subst.
Qed.
Lemma standing_unprepare h uid r d d' :
  on_node (Unprepare cfg uid) d = (d', r) -> standing h d -> standing (h ++ [ServedUnprepare uid r])%list d'.
Proof using Type.
  intros (n' & H & ->)%on_node_run Hs h1 c0 devs h2 Eh Hne Hun. simpl.
  apply snoc_split in Eh as [[_ [=]]|(h3 & -> & ->)].
  assert (UID c0 <> uid) as Hu by (intros <-; apply (Hun r), elem_of_app; right; by apply list_elem_of_singleton).
  rewrite (Unprepare_other_records cfg uid (UID c0) _ _ _ Hu H).
  apply (Hs h1 c0 devs h3 eq_refl Hne). intros r' Hr. apply (Hun r'), elem_of_app. by left.
Qed.
Lemma standing_same h d d' : recorded d' = recorded d -> standing h d -> standing (h ++ [])%list d'.
Proof using Type. rewrite app_nil_r. unfold standing. by intros ->. Qed.

Lemma pool_step_standing interval tr ev x y :
  pool_step interval ev x y -> standing (locked tr) x.1.1 -> standing (locked (tr ++ option_list ev)%list) y.1.1.
Proof using Hrsd.
  intros H. rewrite locked_snoc.
  destruct H as [d ph d' ph' hs H|d d' ph hs i claims _ H|d d' ph hs i c todo a r _ H|d d' ph hs i c todo a r pr _ H
    |d d' ph hs i uids _ H|d d' ph hs i uid todo a r _ H|d d' ph hs i uid todo a r e _ H]; simpl.
  - apply standing_same. apply background_disk in H as (_ & _ & ->). done.
  - apply standing_same. destruct (received_steps 0 (length claims) "Received request to prepare resource claims" d ph)
      as (d2 & E & _ & R). rewrite E in H. by injection H as <-.
  - by apply standing_prepare.
  - apply standing_same. destruct (answerPrepare_steps 0 c r d ph) as (d2 & E & _ & R). rewrite E in H. by injection H as <-.
  - apply standing_same. destruct (received_steps 0 (length uids) "Received request to unprepare resource claims" d ph)
      as (d2 & E & _ & R). rewrite E in H. by injection H as <-.
  - by apply standing_unprepare.
  - apply standing_same. destruct (answerUnprepare_steps 0 uid r d ph) as (d2 & E & _ & R). rewrite E in H. by injection H as <-.
Qed.

Lemma pool_run_facts interval d ph tr y :
  pool_run interval (d, ph, ∅) tr y ->
  some_steps interval (d, ph) y.1 /\ on_course tr y.2 /\ standing (locked tr) y.1.1.
Proof using Hrsd.
  remember (d, ph, ∅) as x eqn:Ex. induction 1 as [|tr ev y z _ IH Hstep].
  - subst x. split; [done|]. split; [by intros i|]. intros [|? h1] c devs h2 [=].
  - destruct IH as (H1 & H2 & H3). split_and!.
    + etrans; [exact H1|by eapply pool_step_driver].
    + by eapply pool_step_on_course.
    + by eapply pool_step_standing.
Qed.
Lemma locked_by_locked i s tr : s ∈ locked_by i tr -> s ∈ locked tr.
Proof using Type.
  intros (e & Hin & He)%list_elem_of_omap. apply list_elem_of_omap. exists e. split; [done|].
  destruct e as [|j s']; [done|]. by case_decide.
Qed.

(** C11: Requests may overlap, with each other and with the scan loop, and are
    still served as if one at a time. Whatever the goroutines of the handlers do
    between their locked calls, the driver goes through steps of the
    interleavings above; each handler answers the claims it was called with, in
    their order, with what its own locked calls returned; and an answer with
    devices stays true: it was given at one point of the order in which the lock
    was held, and unless a removal of that claim comes later in that order,
    exactly its devices are recorded for the claim at the end. *)
Theorem overlapping_answers interval d ph tr d' ph' hs :
  pool_run interval (d, ph, ∅) tr (d', ph', hs) ->
  rtc (fun x y => exists ev, driver_step cfg rsdGroupFn interval ev x y) (d, ph) (d', ph') /\
  (forall i h, hs !! i = Some h -> progress tr i h) /\
  (forall i todo a uid pr, hs !! i = Some (Preparing todo a) -> a !! uid = Some pr ->
     pr_Err pr = None -> pr_Devices pr <> [] ->
     exists h1 c h2, locked tr = (h1 ++ ServedPrepare c (Ok (pr_Devices pr)) :: h2)%list /\ UID c = uid /\
       ((forall r, ServedUnprepare uid r ∉ h2) ->
        exists pds, (recorded d' ≫= lookup uid) = Some pds /\ pr_Devices pr = GetDevices pds)).
Proof using Hrsd.
  intros (H1 & H2 & H3)%pool_run_facts. simpl in *. split; [exact H1|]. split; [intros i h; by apply on_course_at|].
  intros i todo a uid pr Hi Ha He Hne. destruct (on_course_at _ _ _ _ H2 Hi) as (l & -> & _ & Hl).
  apply prepare_results_lookup in Ha as (c & r & Hin & <- & ->). destruct r as [devs|e]; [|done]. simpl in *.
  assert (ServedPrepare c (Ok devs) ∈ locked tr) as (h1 & h2 & Hh)%list_elem_of_split.
  { apply (locked_by_locked i). rewrite Hl. change (ServedPrepare c (Ok devs)) with (uncurry ServedPrepare (c, Ok devs)).
    by apply list_elem_of_fmap_2. }
  exists h1, c, h2. split; [exact Hh|]. split; [done|]. by apply (H3 h1 c devs h2).
Qed.

(** ** The functions as runs *)

Lemma pool_run_app interval x tr y tr' z :
  pool_run interval x tr y -> pool_run interval y tr' z -> pool_run interval x (tr ++ tr')%list z.
Proof using Type.
  intros H. induction 1 as [|tr' ev z w _ IH Hs]; [by rewrite app_nil_r|]. rewrite app_assoc. by eapply run_step.
Qed.
Lemma pool_run_once interval ev x y : pool_step interval ev x y -> pool_run interval x (option_list ev) y.
Proof using Type. intros H. rewrite <- (app_nil_l (option_list ev)). by eapply run_step; [constructor|]. Qed.
Lemma background_run interval x y hs :
  rtc (driver_step cfg rsdGroupFn interval None) x y -> pool_run interval (x, hs) [] (y, hs).
Proof using Type.
  induction 1 as [x|[d ph] [d1 ph1] y H _ IH]; [constructor|].
  rewrite <- (app_nil_l []). eapply pool_run_app; [|exact IH]. apply (pool_run_once interval None). by constructor.
Qed.

(** The loop of a batch, in one handler. *)
Section batch.
Context {A B R : Type} (key : A -> string) (f : A -> M (Driver cdi_store cp_store) R) (serve : A -> B -> served) (result : A -> B -> R)
  (at_ : list A -> gmap string R -> handler) (interval : Z) (i : nat) (ph : phase).
Context (one : forall c todo a d hs, hs !! i = Some (at_ (c :: todo) a) -> exists d' b,
  f c d = (d', Ok (result c b)) /\
  pool_run interval (d, ph, hs) [Locked i (serve c b)] (d', ph, <[i := at_ todo (<[key c := result c b]> a)]> hs)).
Abbreviation pairs l := (map (fun x => (key x.1, result x.1 x.2)) l).
Abbreviation results l := (list_to_map (rev (pairs l)) : gmap string R).

Lemma batch_loop hs todo : forall l d,
  hs !! i = Some (at_ todo (results l)) ->
  exists d' l', forM (fun c => let! r := f c in ret (key c, r)) todo d = (d', Ok (pairs l')) /\ map fst l' = todo /\
    pool_run interval (d, ph, hs) (map (fun x => Locked i (serve x.1 x.2)) l') (d', ph, <[i := at_ [] (results (l ++ l')%list)]> hs).
Proof using one.
  revert hs. induction todo as [|c todo IH]; intros hs l d Hi.
  { exists d, []. rewrite app_nil_r. split; [done|]. split; [done|]. rewrite insert_id by done. constructor. }
  destruct (one _ _ _ d hs Hi) as (d1 & b & E1 & R1).
  assert (<[key c := result c b]> (results l) = results (l ++ [(c, b)])%list) as Hr by (by rewrite map_app, rev_app_distr).
  rewrite Hr in R1. destruct (IH (<[i := at_ todo (results (l ++ [(c, b)])%list)]> hs) (l ++ [(c, b)])%list d1) as (d2 & l' & E2 & Hl & R2);
    [by rewrite lookup_insert_eq|]. exists d2, ((c, b) :: l'). split_and!.
  - cbn [forM]. assert ((let! r := f c in ret (key c, r)) d = (d1, Ok (key c, result c b))) as E by (unfold bind; by rewrite E1).
    by rewrite (bind_then _ _ _ _ _ E), (bind_then _ _ _ _ _ E2).
  - simpl. by rewrite Hl.
  - rewrite insert_insert_eq, <- app_assoc in R2. exact (pool_run_app _ _ _ _ _ _ R1 R2).
Qed.
Lemma batch_run hs todo d :
  hs !! i = Some (at_ todo ∅) ->
  exists d' l, collect key f todo d = (d', Ok (results l)) /\ map fst l = todo /\
    pool_run interval (d, ph, hs) (map (fun x => Locked i (serve x.1 x.2)) l) (d', ph, <[i := at_ [] (results l)]> hs).
Proof using one.
  intros Hi. destruct (batch_loop hs todo [] d Hi) as (d' & l & E & Hl & H). exists d', l. unfold collect. by rewrite (bind_then _ _ _ _ _ E).
Qed.
End batch.

Lemma prepare_one interval i ph c todo a d hs :
  hs !! i = Some (Preparing (c :: todo) a) -> exists d' r,
    prepareResourceClaim cfg rsdGroupFn c d = (d', Ok (prepare_result c r)) /\
    pool_run interval (d, ph, hs) [Locked i (ServedPrepare c r)] (d', ph, <[i := Preparing todo (<[UID c := prepare_result c r]> a)]> hs).
Proof using Type.
  intros Hi. destruct (on_node (Prepare cfg rsdGroupFn c) d) as [d1 r] eqn:E1.
  destruct (answerPrepare_steps interval c r d1 ph) as (d2 & E2 & _). exists d2, r.
  split; [unfold prepareResourceClaim, bind, try; by rewrite E1|].
  change [Locked i (ServedPrepare c r)] with (option_list (Some (Locked i (ServedPrepare c r))) ++ option_list None)%list.
  eapply run_step; [eapply pool_run_once; by eapply ps_prepare|].
  rewrite <- (insert_insert_eq hs i (Preparing _ _) (PrepareDone c r todo a)). eapply ps_prepare_answer; [apply lookup_insert_eq|exact E2].
Qed.
Lemma unprepare_one interval i ph uid todo a d hs :
  hs !! i = Some (Unpreparing (uid :: todo) a) -> exists d' r,
    unprepareResourceClaim cfg uid d = (d', Ok (unprepare_result uid r)) /\
    pool_run interval (d, ph, hs) [Locked i (ServedUnprepare uid r)] (d', ph, <[i := Unpreparing todo (<[uid := unprepare_result uid r]> a)]> hs).
Proof using Type.
  intros Hi. destruct (on_node (Unprepare cfg uid) d) as [d1 r] eqn:E1.
  destruct (answerUnprepare_steps interval uid r d1 ph) as (d2 & E2 & _). exists d2, r.
  split; [unfold unprepareResourceClaim, bind, try; by rewrite E1|].
  change [Locked i (ServedUnprepare uid r)] with (option_list (Some (Locked i (ServedUnprepare uid r))) ++ option_list None)%list.
  eapply run_step; [eapply pool_run_once; by eapply ps_unprepare|].
  rewrite <- (insert_insert_eq hs i (Unpreparing _ _) (UnprepareDone uid r todo a)). eapply ps_unprepare_answer; [apply lookup_insert_eq|exact E2].
Qed.

(** C27: The functions of driver.go, each run alone, are such runs, and return
    what the handlers answer: the loop of runDeviceScan, for any number of ticks
    at a positive interval, never fails and leads from an idle scan goroutine to
    an idle one without a locked call of a handler; PrepareResourceClaims and
    UnprepareResourceClaims never fail as a whole, serve the claims of the batch
    one by one, in order, and return the map in which a later claim wins. *)
Theorem handlers_are_runs interval i ph hs d :
  (0 < interval)%Z -> hs !! i = None ->
  (forall n, exists d', runDeviceScan interval n d = (d', Ok tt) /\ pool_run interval (d, Idle, hs) [] (d', Idle, hs)) /\
  (forall claims, exists d' l,
     PrepareResourceClaims cfg rsdGroupFn claims d = (d', Ok (prepare_results l)) /\ map fst l = claims /\
     pool_run interval (d, ph, hs) (Called i (PrepareCall claims) :: map (fun x => Locked i (ServedPrepare x.1 x.2)) l)
       (d', ph, <[i := Preparing [] (prepare_results l)]> hs)) /\
  (forall uids, exists d' l,
     UnprepareResourceClaims cfg uids d = (d', Ok (unprepare_results l)) /\ map fst l = uids /\
     pool_run interval (d, ph, hs) (Called i (UnprepareCall uids) :: map (fun x => Locked i (ServedUnprepare x.1 x.2)) l)
       (d', ph, <[i := Unpreparing [] (unprepare_results l)]> hs)).
Proof using Type.
  intros Hint Hi. split_and!.
  - intros n. destruct (runDeviceScan_interleaves cfg rsdGroupFn interval n d Hint) as (d' & E & S). exists d'.
    split; [exact E|by apply background_run].
  - intros claims. destruct (received_steps interval (length claims) "Received request to prepare resource claims" d ph) as (d1 & E1 & _).
    destruct (batch_run _ _ _ _ Preparing interval i ph (prepare_one interval i ph) (<[i := Preparing claims ∅]> hs) claims d1)
      as (d2 & l & E2 & Hl & R2); [apply lookup_insert_eq|]. exists d2, l. unfold PrepareResourceClaims, bind. rewrite E1.
    split; [exact E2|]. split; [exact Hl|]. rewrite insert_insert_eq in R2.
    eapply (pool_run_app _ _ [_]); [eapply (pool_run_once interval (Some _)); by eapply ps_prepare_call|exact R2].
  - intros uids. destruct (received_steps interval (length uids) "Received request to unprepare resource claims" d ph) as (d1 & E1 & _).
    destruct (batch_run _ _ _ _ Unpreparing interval i ph (unprepare_one interval i ph) (<[i := Unpreparing uids ∅]> hs) uids d1)
      as (d2 & l & E2 & Hl & R2); [apply lookup_insert_eq|]. exists d2, l. unfold UnprepareResourceClaims, bind. rewrite E1.
    split; [exact E2|]. split; [exact Hl|]. rewrite insert_insert_eq in R2.
    eapply (pool_run_app _ _ [_]); [eapply (pool_run_once interval (Some _)); by eapply ps_unprepare_call|exact R2].
Qed.
End concurrent.
