(* ===== verification/Plugin.v ===== *)
(** The life of the node agent (cmd/npu-kubelet-plugin/main.go, RunPlugin): the
    directories it needs, the start, and the end of the main context. *)
From S2P Require Import Prelude GoStd Host PciSysfs Device Sriov Vfio Validate RsdGroup Claim Fs.
From S2P Require Import Metadata Cdi Checkpoint Discovery Inventory Scan Prepare Flags Health Driver.
Open Scope string_scope.

Section plugin.
Context {hst : Host} {smi : Smi} `{!SemanticEqual Device, !SemanticEqual (list Device)}
  {flt : Faults} {codec : CheckpointCodec} {cdi_store cp_store : Type} `{!CheckpointManager cp_store} {helper : Helper} {net : Network}.

(** The plugin directory and the CDI root. *)
Definition prepareDirectories (pluginPath cdiRoot : string) : M FsState unit :=
  do! fs_MkdirAll pluginPath in
  let? info := fs_Stat cdiRoot in
  match info with
  | Err e => if os_IsNotExist e then fs_MkdirAll cdiRoot else throw e
  | Ok isDir =>
      if isDir then ret tt
      else throw (ErrText ("path for CDI file generation is not a directory: " +:+ quote cdiRoot))
  end.

(** [life] is what happens until the main context ends, and why it ends. *)
Definition RunPlugin (flags : Flags) (root : string) (NewCache NewCheckpointManager Start : res unit)
    (life : M (Driver cdi_store cp_store) cause) : M (Driver cdi_store cp_store) unit :=
  do! on_node (nd_on_meta (prepareDirectories (DriverPluginPath flags) (cdiRoot flags))) in
  do! NewDriver flags root NewCache NewCheckpointManager Start in
  let! c := life in
  do! dr_log (lr_level (shutdownRecord c)) (lr_msg (shutdownRecord c)) in
  let? r := Shutdown in
  match r with Ok _ => ret tt | Err _ => dr_log LError "Failed to shut down driver cleanly" end.

(** Directories may appear; nothing else changes. *)
Definition only_directories (s s' : FsState) : Prop :=
  forall k, tree s' !! k = tree s !! k \/ (tree s !! k = None /\ tree s' !! k = Some NDir).
#[export] Instance only_directories_preorder : PreOrder only_directories.
Proof using Type.
  split; [by intros s k; left|]. intros s1 s2 s3 H12 H23 k.
  destruct (H12 k) as [E1|[N1 D1]], (H23 k) as [E2|[N2 D2]]; [left|right|right|]; try split; congruence.
Qed.
Lemma make_dirs_only t qs k : make_dirs t qs !! k = t !! k \/ (t !! k = None /\ make_dirs t qs !! k = Some NDir).
Proof using Type. destruct (make_dirs_lookup t qs k) as [?|(? & ? & _)]; [by left|by right]. Qed.
#[export] Instance fs_MkdirAll_only p : Respects only_directories (fs_MkdirAll p).
Proof using Type.
  intros s k. unfold fs_MkdirAll, fs_call. destruct (existsb _ _), (fault_at _); simpl; try (by left); apply make_dirs_only.
Qed.
#[export] Instance fs_Stat_only p : Respects only_directories (fs_Stat p).
Proof using Type. intros s k. left. unfold fs_Stat, fs_call. by destruct (fault_at _). Qed.

Lemma only_directories_node s s' p : only_directories s s' -> node_at (tree s) p = Some NDir -> node_at (tree s') p = Some NDir.
Proof using Type. intros H Hn. unfold node_at in *. destruct p; [done|]. destruct (H (s0 :: p)) as [->|[E _]]; [done|]. congruence. Qed.
Lemma fs_MkdirAll_node p s s' : fs_MkdirAll p s = (s', Ok tt) -> node_at (tree s') (comps p) = Some NDir.
Proof using Type.
  intros H. unfold node_at. destruct (comps p) as [|w ws] eqn:E; [done|]. eapply fs_MkdirAll_Ok; [exact H|].
  rewrite E. by apply elem_of_prefixes.
Qed.

(** The start never harms what is on disk: whatever step fails, only missing
    directories are made; and where it goes on, both are directories. *)
Lemma prepareDirectories_spec pluginPath cdiRoot s s' r :
  prepareDirectories pluginPath cdiRoot s = (s', r) ->
  only_directories s s' /\
  (r = Ok tt -> node_at (tree s') (comps pluginPath) = Some NDir /\ node_at (tree s') (comps cdiRoot) = Some NDir).
Proof using Type.
  intros H. split.
  { apply (respects_run only_directories) in H; [done|]. unfold prepareDirectories. solve_respects. }
  intros ->. unfold prepareDirectories in H. apply bind_Ok in H as (s1 & [] & H1 & H).
  pose proof (fs_MkdirAll_node _ _ _ H1) as Hp. apply bind_try in H as (s2 & info & H2 & H).
  pose proof (respects_run only_directories _ _ _ _ _ H2) as H12.
  destruct info as [[|]|e]; [|done|].
  - apply ret_inv in H as [-> _]. split; [by eapply only_directories_node|].
    unfold fs_Stat, fs_call in H2. destruct (fault_at _); [done|]. injection H2 as <- H2. simpl.
    destruct (node_at (tree s1) (comps cdiRoot)) as [[]|]; done.
  - destruct (os_IsNotExist e); [|done]. pose proof (respects_run only_directories _ _ _ _ _ H) as H23.
    split; [|by eapply fs_MkdirAll_node]. eapply only_directories_node; [exact H23|]. by eapply only_directories_node.
Qed.
End plugin.
