(* ===== verification/Agent.v ===== *)
(** The node agent from its start to its end: RunPlugin around the driver whose
    scan loop, requests, registrations, errors and health checks interleave. *)
From S2P Require Import Prelude GoStd Host PciSysfs Device Sriov Vfio Validate RsdGroup Claim Fs.
From S2P Require Import Metadata MetadataProps Cdi Checkpoint Discovery Inventory Scan ScanProps.
From S2P Require Import Prepare PrepareProps PrepareRuns Lifecycle LifecycleProps Flags Health Driver.
From S2P Require Import Shutdown DriverProps Interleave Plugin.
Open Scope string_scope.

Section agent.
Context {hst : Host} {smi : Smi} `{!SemanticEqual Device, !SemanticEqual (list Device)}
  {flt : Faults} {menv : MetadataEnv} {lib : CdiLib} {codec : CheckpointCodec}
  {cdi_store cp_store : Type} `{!CdiCache cdi_store, !CheckpointManager cp_store} {helper : Helper} {net : Network} {sockets : Sockets}
  (cfg : Config) (rsdGroupFn : list string -> M Sys string)
  {Hrsd : forall ids, Respects sys_le (rsdGroupFn ids)}.
Implicit Types d : Driver cdi_store cp_store.

(** What runs until the main context ends is the driver's steps, in any order;
    the context ends with the first fatal error, or by a signal. *)
Definition lives (interval : Z) (life : M (Driver cdi_store cp_store) cause) : Prop :=
  forall d, exists d' ph, life d = (d', Ok (default Canceled (dr_cause d'))) /\
    rtc (fun x y => exists ev, driver_step cfg rsdGroupFn interval ev x y) (d, Idle) (d', ph).

(** ** Lemmas *)

#[local] Instance PublishResources_net res : Respects net_same (PublishResources (cdi_store:=cdi_store) (cp_store:=cp_store) res).
Proof using Type. by intros d. Qed.
#[local] Instance observeRegistration_net req (h : res unit) :
  Respects net_same (observeRegistration (cdi_store:=cdi_store) (cp_store:=cp_store) req h).
Proof using Type. intros d. by destruct req, h. Qed.
#[local] Instance HandleError_net e : Respects net_same (HandleError (cdi_store:=cdi_store) (cp_store:=cp_store) e).
Proof using Type. intros d. unfold HandleError. by case_match. Qed.

Lemma driver_step_net interval ev x y : driver_step cfg rsdGroupFn interval ev x y -> net_same x.1 y.1.
Proof using Type.
  intros H. destruct H; simpl; try (eapply Check_health_net; eassumption); (eapply (respects_run net_same); [|eassumption]).
  - unfold firstPublication. solve_respects.
  - apply _.
  - apply _.
  - unfold tick_rest. solve_respects.
  - unfold republish. solve_respects.
  - apply _.
  - apply _.
  - apply _.
  - apply _.
  - apply _.
Qed.

(** So the shutdown may run beside any of these steps. *)
Lemma driver_step_beside {grpc : GrpcServer} interval ev x0 k d ph d' ph' c :
  driver_step cfg rsdGroupFn interval ev (d, ph) (d', ph') -> beside x0 k (d, c) -> beside x0 k (d', c).
Proof using Type. intros H%driver_step_net. by eauto using beside_other. Qed.

(** Attempts to publish are only added. *)
Lemma driver_step_attempts interval ev x y :
  driver_step cfg rsdGroupFn interval ev x y -> x.2 <> Starting -> dr_attempts x.1 `prefix_of` dr_attempts y.1 /\ y.2 <> Starting.
Proof using Hrsd.
  destruct x as [d ph], y as [d' ph']. simpl.
  intros [[H ->]|[(-> & _)|[(_ & x & H & ->)|[(start & x & s & _ & -> & H)|[(start & x & _ & H)|(res & r & _ & -> & H)]]]]]%driver_step_cases
    Hp; try done.
  - destruct H as [_ ->]. done.
  - apply on_plugin_run in H as (p' & _ & _ & ->). by destruct x.
  - by apply on_plugin_run in H as (p' & _ & _ & ->).
  - apply tick_rest_run in H as [-> H]. split; [done|]. by destruct ph'.
  - apply republish_run in H as (_ & ok & ->). split; [by eexists|done].
Qed.
Lemma driver_steps_run interval x y :
  rtc (fun x y => exists ev, driver_step cfg rsdGroupFn interval ev x y) x y -> x.2 <> Starting ->
  net_same x.1 y.1 /\ dr_attempts x.1 `prefix_of` dr_attempts y.1.
Proof using Hrsd.
  induction 1 as [x|x y z [ev H] _ IH]; intros Hp; [done|]. pose proof (driver_step_net _ _ _ _ H) as Hn.
  destruct (driver_step_attempts _ _ _ _ H Hp) as [Ha Hy]. destruct (IH Hy) as [Hn' Ha']. split; by etrans.
Qed.
Lemma driver_steps_reach interval x y :
  rtc (fun x y => exists ev, driver_step cfg rsdGroupFn interval ev x y) x y ->
  driver_reach cfg rsdGroupFn interval x -> driver_reach cfg rsdGroupFn interval y.
Proof using Type. induction 1 as [x|x y z [ev H] _ IH]; intros Hx; [done|]. apply IH. by eapply dreach_step. Qed.

(** A new driver has published nothing, no error is fatal yet, and it listens
    where its health service does. *)
Definition not_running d : Prop := dr_attempts d = [] /\ dr_cause d = None.
Definition own_listeners d : list string := match dr_health d with Some h => [hc_addr h] | None => [] end.
Lemma startDriver_listens flags root cache manager started n d r :
  startDriver flags root cache manager started (new_driver n) = (d, r) ->
  not_running d /\ (r = Ok tt -> dr_listeners d = own_listeners d).
Proof using Type.
  unfold startDriver. intros H. apply bind_run in H as [(d1 & [] & (n1 & _ & ->)%on_node_run & H)|(e & (n1 & _ & ->)%on_node_run & ->)]; [|done].
  unfold bind at 1, of_res in H. destruct started as [[]|e]; [|by injection H as <- <-]. rewrite bind_modify in H.
  unfold bind, wrap_err, on_net, zoom in H. unfold modify in H.
  match type of H with context [startHealthcheck flags ?n0] => pose proof (startHealthcheck_listens flags n0) as Hl end.
  destruct (startHealthcheck flags _) as [n2 [h|e]]; injection H as <- <-; [|done].
  split; [done|]. intros _. unfold own_listeners. simpl in *. rewrite Hl. by destruct h.
Qed.

Lemma firstPublication_run d d' r :
  firstPublication d = (d', r) ->
  exists res, dr_attempts d' = (dr_attempts d ++ [(res, match r with Ok _ => true | Err _ => false end)])%list /\
    dr_cause d' = dr_cause d /\ net_same d d'.
Proof using Type.
  unfold firstPublication. rewrite bind_gets. unfold bind, PublishResources.
  destruct (PublishResources_at _) as [[]|e]; intros [= <- <-]; by eexists.
Qed.

(** The records of the end. *)
Definition farewell (d : Driver cdi_store cp_store) (c : cause) : list LogRec :=
  shutdownRecord c :: match dr_health d with Some _ => [{| lr_level := LDebug; lr_msg := "Stopping healthcheck service" |}] | None => [] end.
Lemma ending_run (c : cause) d :
  dr_listeners d = own_listeners d ->
  exists d', (do! dr_log (lr_level (shutdownRecord c)) (lr_msg (shutdownRecord c)) in
     let? r := Shutdown in match r with Ok _ => ret tt | Err _ => dr_log LError "Failed to shut down driver cleanly" end) d = (d', Ok tt) /\
    dr_attempts d' = dr_attempts d /\ ds (nd_plugin (dr_node d')) = ds (nd_plugin (dr_node d)) /\
    nd_meta (dr_node d') = nd_meta (dr_node d) /\ nd_cdi (dr_node d') = nd_cdi (dr_node d) /\ nd_cp (dr_node d') = nd_cp (dr_node d) /\
    logs (sys (nd_plugin (dr_node d'))) = (logs (sys (nd_plugin (dr_node d))) ++ farewell d c)%list /\
    dr_helper d' = false /\ dr_listeners d' = [].
Proof using Type.
  intros Hl. unfold farewell, own_listeners in *. unfold Shutdown, Stop, close_listener. unfold bind, try, gets, dr_log, on_plugin, zoom. simpl.
  destruct (dr_health d) as [h|]; simpl; eexists; (split; [reflexivity|]); simpl; (split_and!; try done).
  - destruct c; simpl; by rewrite <- app_assoc.
  - rewrite Hl. simpl. by rewrite bool_decide_true.
  - by destruct c.
Qed.

(** C13: RunPlugin from end to end, around every interleaving of the driver. If it
    fails, no publication was accepted: it fails at the start, never later. If
    it succeeds, the driver it ran was published first and then went through
    states that the interleavings reach, so what holds in all of these holds
    until the end; the shutdown leaves the inventory, what is on disk and what
    was published as they are; the log ends with the reason, a warning exactly
    when an error was fatal; the helper is stopped and no listener is left open. *)
Theorem RunPlugin_life flags root cache manager started life n d' r :
  lives (deviceScanInterval flags) life ->
  RunPlugin flags root cache manager started life (new_driver n) = (d', r) ->
  match r with
  | Err _ => (forall a, a ∈ dr_attempts d' -> a.2 = false) /\ dr_cause d' = None
  | Ok _ => exists d1 ph, driver_reach cfg rsdGroupFn (deviceScanInterval flags) (d1, ph) /\
      (exists res, head (dr_attempts d1) = Some (res, true)) /\
      dr_attempts d' = dr_attempts d1 /\ ds (nd_plugin (dr_node d')) = ds (nd_plugin (dr_node d1)) /\
      nd_meta (dr_node d') = nd_meta (dr_node d1) /\ nd_cdi (dr_node d') = nd_cdi (dr_node d1) /\ nd_cp (dr_node d') = nd_cp (dr_node d1) /\
      logs (sys (nd_plugin (dr_node d'))) =
        (logs (sys (nd_plugin (dr_node d1))) ++ farewell d1 (default Canceled (dr_cause d1)))%list /\
      dr_helper d' = false /\ dr_listeners d' = []
  end.
Proof using Hrsd.
  intros Hlife H. unfold RunPlugin in H.
  apply bind_run in H as [(d0 & [] & (n0 & _ & ->)%on_node_run & H)|(e & (n0 & _ & ->)%on_node_run & ->)]; [|by split; [set_solver|]].
  change (set_node n0 (new_driver n)) with (new_driver (cdi_store:=cdi_store) (cp_store:=cp_store) n0) in H.
  unfold NewDriver in H. apply bind_run in H as [(d2 & [] & H & Hend)|(e & H & ->)].
  - apply bind_Ok in H as (d1 & [] & H1 & H2). destruct (startDriver_listens _ _ _ _ _ _ _ _ H1) as [[Ha Hc] Hl].
    specialize (Hl eq_refl). destruct (firstPublication_run _ _ _ H2) as (res & Ha2 & _ & Hn). rewrite Ha in Ha2.
    destruct (Hlife d2) as (d3 & ph & H3 & Hs). destruct (driver_steps_run _ _ _ Hs) as [Hn3 [after Ha3]]; [done|]. simpl in Hn3, Ha3.
    unfold bind at 1 in Hend. rewrite H3 in Hend. destruct (ending_run (default Canceled (dr_cause d3)) d3) as (d4 & E & Hrest).
    { destruct Hn as (Hh & Hl2 & _), Hn3 as (Hh3 & Hl3 & _). unfold own_listeners in *. by rewrite Hl3, Hl2, Hl, Hh3, Hh. }
    rewrite E in Hend. injection Hend as <- <-. exists d3, ph. split.
    { eapply driver_steps_reach; [exact Hs|]. eapply dreach_step; [by eapply dreach_start|]. by apply ds_start. }
    split; [exists res; by rewrite Ha3, Ha2|exact Hrest].
  - apply bind_run in H as [(d1 & [] & H1 & H2)|(e' & H1 & _)].
    + destruct (startDriver_listens _ _ _ _ _ _ _ _ H1) as [[Ha Hc] _]. destruct (firstPublication_run _ _ _ H2) as (res & Ha2 & Hc2 & _).
      rewrite Ha2, Ha, Hc2. split; [|done]. intros a ->%list_elem_of_singleton. done.
    + destruct (startDriver_listens _ _ _ _ _ _ _ _ H1) as [[Ha Hc] _]. rewrite Ha. split; [set_solver|done].
Qed.
End agent.
