(* ===== verification/Runs.v ===== *)
(** A concrete node, with in-memory stores that obey the laws of the interfaces,
    and runs on it: the hypotheses of the theorems on claims can hold. *)
From S2P Require Import Prelude GoStd Host PciSysfs Device Sriov Vfio Validate RsdGroup Claim Fs.
From S2P Require Import Metadata MetadataProps Rollback Cdi Checkpoint Discovery Inventory Scan.
From S2P Require Import Prepare PrepareProps PrepareRuns Lifecycle LifecycleProps Cleanup ScanProps.
From S2P Require Import Flags Health Driver Shutdown DriverProps Interleave Converge Durable Concurrent.
Open Scope string_scope.

(** ** The CDI library and its cache *)

(** A CDI library with names as the real one makes them. *)
Definition plain_cdi : CdiLib.
Proof.
  refine {|
    yaml_Unmarshal s := if decide (s = "runtime") then
        Ok {| rt_Kind := rblnRuntimeSpecKind;
              rt_Devices := [ {| rt_Name := rblnRuntimeDeviceName; rt_ContainerEdits := {| re_Mounts := []; re_Hooks := [] |} |} ] |}
      else Err (ErrText "yaml");
    ParseSpec _ := Ok None;
    MinimumRequiredVersion _ := Ok "0.5.0";
    GenerateNameForTransientSpec sp id := match Split "/" (s_Kind sp) with
      | v :: (_ :: _) as cs => Ok (v +:+ "-" +:+ TrimPrefix (v +:+ "/") (s_Kind sp) +:+ "_" +:+ id)
      | _ => Err (ErrText "kind") end;
    GenerateTransientSpecName v c id := v +:+ "-" +:+ c +:+ "_" +:+ id;
    QualifiedName v c d := v +:+ "/" +:+ c +:+ "=" +:+ d;
    EditsAppend a b := {| e_DeviceNodes := e_DeviceNodes a ++ e_DeviceNodes b;
      e_Mounts := e_Mounts a ++ e_Mounts b; e_Hooks := e_Hooks a ++ e_Hooks b |}%list;
  |}.
  - by intros [].
  - intros v c u1 u2 _ _ E. by simplify_eq.
  - intros sp v c id n Hv Hk. rewrite Hk. change (v +:+ "/" +:+ c) with (v +:+ String "/" c).
    rewrite (Split_app "/" v c), (Split_sep_free "/" v Hv). simpl.
    destruct (Split "/" c) eqn:Ec; [by apply Split_nonnil in Ec|]. intros [= <-].
    unfold TrimPrefix. by rewrite (proj2 (CutPrefix_Some (v +:+ "/") (v +:+ String "/" c) c)) by (clear; induction v as [|a v IH]; [done|exact (f_equal (String a) IH)]).
Defined.

(** A cache in memory; a file whose name is in [mc_broken] cannot be written. *)
Record MemCache := { mc_specs : gmap string Spec; mc_broken : list string }.
Definition mem_cache : CdiCache MemCache.
Proof.
  refine {|
    specs := mc_specs;
    WriteSpec sp n s := if decide (n ∈ mc_broken s) then (s, Err (ErrText "read-only cache")) else
      ({| mc_specs := <[n := sp]> (mc_specs s); mc_broken := mc_broken s |}, Ok tt);
    RemoveSpec n s := if decide (n ∈ mc_broken s) then (s, Err (ErrText "read-only cache")) else
      ({| mc_specs := delete n (mc_specs s); mc_broken := mc_broken s |}, Ok tt);
  |}.
  - intros sp n s s' H. case_decide; by simplify_eq.
  - intros sp n s m Hm. case_decide; simpl; [done|]. by rewrite lookup_insert_ne.
  - intros n s s' H. case_decide; by simplify_eq.
  - intros n s m Hm. case_decide; simpl; [done|]. by rewrite lookup_delete_ne.
Defined.

(** ** The checkpoint store *)

#[local] Instance PreparedDevice_eq_dec : EqDecision PreparedDevice.
Proof. solve_decision. Defined.
#[local] Instance CheckpointV1_eq_dec : EqDecision CheckpointV1.
Proof. solve_decision. Defined.
#[local] Instance Checkpoint_eq_dec : EqDecision Checkpoint.
Proof. solve_decision. Defined.

Definition name_sum (s : string) : N := N.of_nat (String.length s) * 2654435761.

(** An encoding of the checkpoints of a table; any other cannot be marshalled. *)
Definition table_codec (l : list (string * Checkpoint)) : CheckpointCodec.
Proof.
  pose (decode data := snd <$> List.find (fun e : string * Checkpoint => bool_decide (e.1 = data)) l).
  refine {|
    cp_Marshal cp := match List.find (fun e => bool_decide (e.2 = cp)) l with
      | Some (name, _) => if decide (decode name = Some cp) then Ok name else Err (ErrText "marshal")
      | None => Err (ErrText "marshal") end;
    cp_Unmarshal data _ := match decode data with Some cp => Ok cp | None => Err (ErrText "unmarshal") end;
    checksum_New := name_sum;
    checksum_Verify c data := if decide (c = name_sum data) then Ok tt else Err (ErrText "checkpoint is corrupted");
  |}.
  - intros cp out H _. destruct (List.find _ l) as [[name cp']|]; [|done]. case_decide as Hd; [|done].
    injection H as <-. by rewrite Hd.
  - intros c data. case_decide; naive_solver.
Defined.
(** The two encodings of a value: with the checksum cleared, and with it. *)
Definition encodings (name : string) (m : PreparedClaims) : list (string * Checkpoint) :=
  [ (name, {| Checksum := 0; V1 := Some {| cv_PreparedClaims := m |} |});
    (name +:+ "-sum", {| Checksum := name_sum name; V1 := Some {| cv_PreparedClaims := m |} |}) ].

(** A store in memory; [ms_full] makes every write fail. *)
Record MemStore := { ms_blobs : gmap string string; ms_full : bool }.
Definition mem_store {codec : CheckpointCodec} : CheckpointManager MemStore.
Proof.
  refine {|
    blobs := ms_blobs;
    GetCheckpoint k cp s := match ms_blobs s !! k with
      | None => (s, Err (ErrText "checkpoint is not found"))
      | Some data => match UnmarshalCheckpoint data cp with
        | (cp', Ok _) => match VerifyChecksum cp' with
          | (cp'', Ok _) => (s, Ok cp'') | (_, Err e) => (s, Err e) end
        | (_, Err e) => (s, Err e) end
      end;
    CreateCheckpoint k cp s := match MarshalCheckpoint cp with
      | (_, Ok data) => if ms_full s then (s, Err (ErrText "no space left on device"))
                        else ({| ms_blobs := <[k := data]> (ms_blobs s); ms_full := ms_full s |}, Ok tt)
      | (_, Err e) => (s, Err e) end;
    ListCheckpoints s := (s, Ok (map fst (map_to_list (ms_blobs s))));
  |}.
  - intros k cp s. repeat case_match; done.
  - intros k cp s s' cp' H. destruct (ms_blobs s !! k) as [data|]; [|done]. exists data.
    destruct (UnmarshalCheckpoint data cp) as [cp1 [[]|e]] eqn:Eu; [|done].
    destruct (VerifyChecksum cp1) as [cp2 [[]|e]] eqn:Ev; [|done]. injection H as <- <-.
    pose proof (VerifyChecksum_run cp1) as E. rewrite Ev in E. injection E as -> _. done.
  - intros k cp s s' H. destruct (MarshalCheckpoint cp) as [cp' [data|e]]; [|done]. destruct (ms_full s); [done|].
    injection H as <-. by exists cp', data.
  - intros k cp s s' e H. destruct (MarshalCheckpoint cp) as [cp' [data|e']]; [|by simplify_eq].
    destruct (ms_full s); by simplify_eq.
  - done.
  - intros s s' l [= <- <-] k. change (map ?f ?m) with (f <$> m). rewrite list_elem_of_fmap. split.
    + intros ([k' v] & -> & H%elem_of_map_to_list). by eexists.
    + intros [v Hv]. exists (k, v). split; [done|]. by apply elem_of_map_to_list.
Defined.

(** ** A node with one native and one VFIO device *)

Definition claim_table : list (string * fnode) := (node_table ++
  [ ("/dev/vfio/vfio", FFile ""); ("/dev/vfio/7", FFile ""); ("/dev/rsd3", FFile ""); ("/dev/rbln0", FFile "");
    ("/var/run/cdi/rbln.yaml", FFile "runtime"); ("/usr/bin/rbln-smi", FFile "") ])%list.
(** The native device alone in group 3. *)
Definition npu_group : RsdEnv := {|
  RecreateRsdGroup_at _ _ := Ok "/dev/rsd3";
  LookPath_at _ _ := Err (ErrSentinel ErrNotFoundInPath);
  Output_at _ cmd args := if decide (cmd = "/usr/bin/rbln-smi") then Ok "json" else Err (ErrText "exec");
  decode_RblnSmi data := if decide (data = "json")
    then Ok {| Devices := [ {| GroupID := "3"; BusID := "0000:01:00.0" |} ] |} else Err (ErrText "invalid JSON") |}.
Definition npu_claim : ResourceClaim := {|
  UID := "uid-2"; ClaimName := "npu-claim"; ClaimNamespace := "default"; Annotations := ∅;
  Allocation := Some [ {| Request := "npu"; Claim.Driver := DriverName; Pool := "node1"; ResultDevice := "rbln0" |} ] |}.
Definition node_cfg : Config :=
  {| cfg_cdi := {| cdi_root := "/var/run/cdi"; cdi_class := "npu" |}; cfg_metadata := abs_path base_dirs |}.

#[local] Instance claim_host : Host := table_host claim_table.
#[local] Existing Instances npu_group plain_env plain_cdi mem_cache plain_server.

Definition node_plugin : Plugin := set_sys sys_start (start_on node_table).
Definition claim_devices {codec : CheckpointCodec} (claim : ResourceClaim) : PreparedDevices :=
  let _ := mem_store in
  match prepareDevices node_cfg recreateValidatedRSDGroup claim
          {| nd_plugin := node_plugin; nd_meta := fs_start;
             nd_cdi := {| mc_specs := ∅; mc_broken := [] |}; nd_cp := {| ms_blobs := ∅; ms_full := false |} |} with
  | (_, Ok pds) => pds
  | _ => []
  end.
Definition vm_prepared : PreparedDevices := Eval vm_compute in claim_devices (codec := table_codec []) vm_claim.
Definition npu_prepared : PreparedDevices := Eval vm_compute in claim_devices (codec := table_codec []) npu_claim.
#[local] Instance node_codec : CheckpointCodec := table_codec
  (encodings "empty" ∅ ++ encodings "vm" {[ "uid-1" := vm_prepared ]} ++ encodings "npu" {[ "uid-2" := npu_prepared ]})%list.
#[local] Existing Instance mem_store.

Definition start_node (full : bool) (broken : list string) : Node MemCache MemStore :=
  {| nd_plugin := node_plugin; nd_meta := fs_start; nd_cdi := {| mc_specs := ∅; mc_broken := broken |};
     nd_cp := {| ms_blobs := {[ DriverPluginCheckpointFile := "empty-sum" ]}; ms_full := full |} |}.
Abbreviation prepare_on flt claim n :=
  (@Prepare _ flt _ _ _ MemCache MemStore _ _ node_cfg recreateValidatedRSDGroup claim n).
Abbreviation unprepare_on flt uid n := (@Unprepare flt _ _ MemCache MemStore _ _ node_cfg uid n).

(** The runs: each claim prepared, prepared with a full disk, and unprepared. *)
Abbreviation vm_done := (prepare_on no_faults vm_claim (start_node false [])).
Abbreviation npu_done := (prepare_on no_faults npu_claim (start_node false [])).
Abbreviation vm_full := (prepare_on no_faults vm_claim (start_node true [])).
Abbreviation vm_gone := (unprepare_on no_faults "uid-1" (vm_done.1)).

Lemma run_pair {S A} (o : S * res A) (r : res A) : o.2 = r -> o = (o.1, r).
Proof. by destruct o; simpl; intros ->. Qed.

Definition vm_answer : list (list string * string * string * list string) := GetDevices vm_prepared.
Lemma vm_done_run : vm_done = (vm_done.1, Ok vm_answer).
Proof. apply run_pair. vm_compute. reflexivity. Qed.
Lemma npu_done_run : npu_done = (npu_done.1, Ok (GetDevices npu_prepared)).
Proof. apply run_pair. vm_compute. reflexivity. Qed.
Lemma vm_full_run :
  vm_full = (vm_full.1, Err (ErrWrap "unable to sync to checkpoint: " (ErrText "no space left on device") "")).
Proof. apply run_pair. vm_compute. reflexivity. Qed.
Lemma vm_gone_run : vm_gone = (vm_gone.1, Ok tt).
Proof. apply run_pair. vm_compute. reflexivity. Qed.
Lemma start_prepared full : prepared_in (nd_cp (start_node full [])) = Some ∅.
Proof. vm_compute. reflexivity. Qed.
Lemma group_respects ids : Respects sys_le (recreateValidatedRSDGroup ids).
Proof. apply _. Qed.
Lemma vm_claim_uid_ok : claim_uid_ok (UID vm_claim).
Proof. apply (bool_decide_unpack _). vm_compute. exact I. Qed.
Lemma fs_start_wf : wf_tree (tree fs_start).
Proof. intros k n Hk. discriminate Hk. Qed.
Lemma fs_start_no_metadata uid : no_metadata base_dirs uid (tree fs_start).
Proof. split; [intros dir [_ Hm]; discriminate Hm|done]. Qed.

(** ** Witnesses *)

(** A node that never comes. *)
Lemma waitForDeviceNode_terminates_witness :
  exists s' k, @waitForDeviceNode (table_host []) "/dev/vfio/7" sys_start = (s', Err (ErrPath "stat" "/dev/vfio/7" ENOENT)) /\
    (k <= 51)%nat /\ clk s' = (2 * k + 1)%nat /\ (5000000000 < now s')%N /\
    ((0 < k)%nat -> (now s' <= 5100000000)%N).
Proof.
  destruct (@waitForDeviceNode (table_host []) "/dev/vfio/7" sys_start) as [s' r] eqn:E.
  destruct (@waitForDeviceNode_terminates (table_host []) "/dev/vfio/7" sys_start s' r E)
    as (k & Hk & Hc & _ & -> & Hn & Hl).
  exists s', k. split; [reflexivity|]. split; [exact Hk|]. split; [exact Hc|]. split; [exact (Hn eq_refl)|exact Hl].
Defined.

Lemma checkpoint_roundtrip_witness :
  exists cp' data, MarshalCheckpoint (with_claims newCheckpoint {[ "uid-1" := vm_prepared ]}) = (cp', Ok data) /\
  exists cp2, UnmarshalCheckpoint data newCheckpoint = (cp2, Ok tt) /\
    VerifyChecksum cp2 = (cp2, Ok tt) /\ V1 cp2 = Some {| cv_PreparedClaims := {[ "uid-1" := vm_prepared ]} |} /\
    Checksum cp2 = Checksum cp'.
Proof.
  destruct (run_ok (MarshalCheckpoint (with_claims newCheckpoint {[ "uid-1" := vm_prepared ]})) (fun _ => true))
    as (cp' & data & E & _); [vm_compute; reflexivity|].
  exists cp', data. split; [exact E|]. 
  exact (@checkpoint_roundtrip node_codec (with_claims newCheckpoint {[ "uid-1" := vm_prepared ]}) cp' data
    {| cv_PreparedClaims := {[ "uid-1" := vm_prepared ]} |} eq_refl E).
Defined.

Lemma Prepare_checkpoint_witness :
  prepared_in (nd_cp vm_full.1) = Some ∅ /\
  exists m pds, prepared_in (nd_cp (start_node false [])) = Some m /\
      prepared_in (nd_cp vm_done.1) = Some (<[UID vm_claim := pds]> m) /\ vm_answer = GetDevices pds /\
      (unrecorded m (UID vm_claim) \/ m !! UID vm_claim = Some pds).
Proof.
  split.
  - rewrite <- (start_prepared true).
    exact (Prepare_checkpoint node_cfg recreateValidatedRSDGroup (Hrsd:=group_respects) _ _ _ _ vm_full_run).
  - exact (Prepare_checkpoint node_cfg recreateValidatedRSDGroup (Hrsd:=group_respects) _ _ _ _ vm_done_run).
Defined.

(** Replayed by a driver with another root and a group function that fails. *)
Lemma Prepare_idempotent_witness :
  exists n3, @Prepare _ no_faults _ _ _ MemCache MemStore _ _
      {| cfg_cdi := {| cdi_root := "/etc/cdi"; cdi_class := "other" |}; cfg_metadata := "/tmp" |}
      (fun _ => throw (ErrText "no library")) vm_claim vm_done.1 = (n3, Ok vm_answer) /\ untouched vm_done.1 n3.
Proof.
  destruct (run_ok (GetCheckpoint DriverPluginCheckpointFile newCheckpoint (nd_cp vm_done.1)) (fun _ => true))
    as (k & cp & E & _); [vm_compute; reflexivity|].
  eapply (Prepare_idempotent node_cfg recreateValidatedRSDGroup (Hrsd:=group_respects));
    [exact vm_done_run|vm_compute; discriminate|reflexivity|reflexivity|exact E].
Defined.

Lemma Unprepare_complete_witness :
  exists m m', prepared_in (nd_cp vm_done.1) = Some m /\ prepared_in (nd_cp vm_gone.1) = Some m' /\
      unrecorded m' "uid-1" /\ (forall uid2, uid2 <> "uid-1" -> m' !! uid2 = m !! uid2) /\
      (unrecorded m "uid-1" -> untouched vm_done.1 vm_gone.1) /\
      (~ unrecorded m "uid-1" -> specs (nd_cdi vm_gone.1) !! claimSpecName (cfg_cdi node_cfg) "uid-1" = None).
Proof. exact (Unprepare_complete node_cfg "uid-1" _ _ _ eq_refl vm_gone_run). Defined.

Lemma Prepare_container_witness :
  Forall (result_current (ds node_plugin) sys_start (sys (nd_plugin npu_done.1))) (allocated_results npu_claim) /\
  exists ids sp rsd rds, nativeBusIDs (allocatable (ds node_plugin)) (allocated_results npu_claim) = Ok ids /\
    native_shared node_cfg recreateValidatedRSDGroup ids rsd rds sys_start (sys (nd_plugin npu_done.1)) /\
    specs (nd_cdi npu_done.1) !! claimSpecName (cfg_cdi node_cfg) "uid-2" = Some sp /\
    spec_for node_cfg npu_claim (allocatable (ds node_plugin)) rsd rds sp.
Proof.
  destruct (Prepare_container node_cfg recreateValidatedRSDGroup (Hrsd:=group_respects) npu_claim (start_node false [])
    npu_done.1 _ ∅ eq_refl (start_prepared false) eq_refl npu_done_run)
    as (Hcur & _ & ids & rsd & rds & sp & Hids & Hsh & Hsp & Hfor).
  split; [exact Hcur|]. exists ids, sp, rsd, rds. split; [exact Hids|]. split; [|split; [exact Hsp|exact Hfor]].
  apply Hsh. intros ->. vm_compute in Hids. discriminate Hids.
Defined.

Lemma Prepare_group_witness :
  exists path info, exact_group path ["0000:01:00.0"] info.
Proof.
  assert (nativeBusIDs (allocatable (ds node_plugin)) (allocated_results npu_claim) = Ok ["0000:01:00.0"]) as Hids
    by (vm_compute; reflexivity).
  destruct (Prepare_group (flt:=no_faults) node_cfg npu_claim (start_node false []) npu_done.1
    (GetDevices npu_prepared) ∅ _ eq_refl (start_prepared false) eq_refl Hids) as (path & info & Hex & _); [discriminate|exact npu_done_run|].
  exists path, info. exact Hex.
Defined.

(** The second claim cannot be recorded and is rolled back; the first stays. *)
Lemma Prepare_isolated_witness :
  let n := npu_done.1 in let o := prepare_on torn_write vm_claim n in
  is_Some (specs (nd_cdi n) !! claimSpecName (cfg_cdi node_cfg) "uid-2") /\ (exists e, o.2 = Err e) /\
  specs (nd_cdi o.1) !! claimSpecName (cfg_cdi node_cfg) "uid-2" =
    specs (nd_cdi n) !! claimSpecName (cfg_cdi node_cfg) "uid-2" /\
  (forall k, host_dir base_dirs "uid-2" `prefix_of` k -> tree (nd_meta o.1) !! k = tree (nd_meta n) !! k) /\
  (prepared_in (nd_cp o.1) ≫= lookup "uid-2") = (prepared_in (nd_cp n) ≫= lookup "uid-2").
Proof.
  intros n o. split; [vm_compute; by eexists|]. split; [vm_compute; by eexists|].
  apply (Prepare_isolated (flt:=torn_write) node_cfg recreateValidatedRSDGroup (Hrsd:=group_respects) base_dirs base_dirs_plain eq_refl
    vm_claim "uid-2" n o.1 o.2 vm_claim_uid_ok vm_requests_ok).
  - apply (bool_decide_unpack _). vm_compute. exact I.
  - discriminate.
  - exact fs_start_wf.
  - vm_compute. discriminate.
  - apply surjective_pairing.
Defined.

Lemma Unprepare_isolated_witness :
  let n := vm_done.1 in let o := unprepare_on (unreadable_marker 7) "uid-1" n in
  specs (nd_cdi o.1) !! claimSpecName (cfg_cdi node_cfg) "uid-2" =
    specs (nd_cdi n) !! claimSpecName (cfg_cdi node_cfg) "uid-2" /\
  (forall k, host_dir base_dirs "uid-2" `prefix_of` k -> tree (nd_meta o.1) !! k = tree (nd_meta n) !! k) /\
  (prepared_in (nd_cp o.1) ≫= lookup "uid-2") = (prepared_in (nd_cp n) ≫= lookup "uid-2").
Proof.
  intros n o.
  apply (Unprepare_isolated (flt:=unreadable_marker 7) node_cfg base_dirs base_dirs_plain eq_refl
    "uid-1" "uid-2" n o.1 o.2 vm_claim_uid_ok).
  - apply (bool_decide_unpack _). vm_compute. exact I.
  - discriminate.
  - apply wf_tree_check. apply (bool_decide_unpack _). vm_compute. exact I.
  - vm_compute. discriminate.
  - apply surjective_pairing.
Defined.

Lemma failed_checkpoint_leaves_spec_witness :
  let o := unprepare_on no_faults "uid-1" vm_full.1 in
  o.2 = Ok tt /\
  exists sp, specs (nd_cdi vm_full.1) !! claimSpecName (cfg_cdi node_cfg) "uid-1" = Some sp /\
             specs (nd_cdi o.1) !! claimSpecName (cfg_cdi node_cfg) "uid-1" = Some sp.
Proof.
  intros o. assert (o = (o.1, Ok tt)) as Ho by (apply run_pair; vm_compute; reflexivity).
  split; [by rewrite Ho|].
  exact (failed_checkpoint_leaves_spec node_cfg recreateValidatedRSDGroup (Hrsd:=group_respects) vm_claim
    (start_node true []) vm_full.1 o.1 ∅ _ eq_refl (start_prepared true) eq_refl vm_full_run Ho).
Defined.

(** On what an interrupted write of the same claim left. *)
Lemma Prepare_failure_no_metadata_witness :
  let n := {| nd_plugin := node_plugin; nd_meta := (vm_write missing_marker fs_start).1;
              nd_cdi := nd_cdi (start_node true []); nd_cp := nd_cp (start_node true []) |} in
  let o := prepare_on no_faults vm_claim n in
  node_at (tree (nd_meta n)) (host_dir base_dirs "uid-1") = Some NDir /\
  restored base_dirs "uid-1" (tree (nd_meta n)) (tree (nd_meta o.1)) /\
  marker (tree (nd_meta o.1)) (host_dir base_dirs "uid-1") <> Some "uid-1".
Proof.
  intros n o.
  assert (o = (o.1, Err (ErrWrap "unable to sync to checkpoint: " (ErrText "no space left on device") ""))) as Ho
    by (apply run_pair; vm_compute; reflexivity).
  destruct (Prepare_failure_no_metadata node_cfg recreateValidatedRSDGroup (Hrsd:=group_respects) base_dirs base_dirs_plain eq_refl
    vm_claim n o.1 _ vm_uid_ok vm_requests_ok
    ltac:(apply wf_tree_check, (bool_decide_unpack _); vm_compute; exact I) Ho) as (Hr & Hm & _).
  split; [vm_compute; reflexivity|]. split; [exact Hr|]. apply Hm. eexists _, _. split; [reflexivity|].
  apply list_elem_of_In. right. right. left. reflexivity.
Defined.

Lemma Prepare_Unprepare_no_trace_witness :
  prepared_in (nd_cp vm_gone.1) = Some ∅ /\
  (forall uid, claim_uid_ok uid -> specs (nd_cdi vm_gone.1) !! claimSpecName (cfg_cdi node_cfg) uid = None) /\
  same_but_parents (host_dir base_dirs "uid-1") ∅ (tree (nd_meta vm_gone.1)).
Proof.
  exact (Prepare_Unprepare_no_trace node_cfg recreateValidatedRSDGroup (Hrsd:=group_respects) base_dirs base_dirs_plain eq_refl
    vm_claim (start_node false []) vm_done.1 vm_gone.1 vm_answer ∅ vm_claim_uid_ok vm_requests_ok fs_start_wf
    (fs_start_no_metadata _) (start_prepared false) eq_refl eq_refl ltac:(discriminate) vm_done_run vm_gone_run).
Defined.

(** ** The driver *)

(** A helper that refuses publications between its 1st and its 101st call time. *)
Definition late_helper : Helper := {|
  PublishResources_at t := if decide (t = 0 \/ 100 < t)%nat then Ok tt else Err (ErrText "not ready");
  is_recoverable _ := true |}.
Definition both_sockets : Sockets := {| GetInfo_at _ _ := Ok tt; NodePrepareResources_at _ _ := Ok tt |}.
Definition free_ports : Network := {| Listen_at _ addr := Ok ("[::]" +:+ addr); grpc_NewClient _ := Ok tt |}.
Definition node_flags : Flags := {|
  kubeClientConfig := {| KubeConfig := ""; KubeAPIQPS := SpecFloat.S754_zero false; KubeAPIBurst := 10 |};
  nodeName := "node1"; cdiRoot := "/etc/cdi"; kubeletRegistrarDirectoryPath := "/var/lib/kubelet/plugins_registry";
  kubeletPluginsDirectoryPath := "/var/lib/kubelet/plugins"; healthcheckPort := 51515; deviceScanInterval := 5000000000;
|}.
Definition the_service : healthcheck :=
  {| hc_addr := "[::]:51515"; regClient := regSockPath node_flags; draClient := draSockPath node_flags |}.
Definition cold_driver : Driver MemCache MemStore :=
  {| dr_node := {| nd_plugin := set_sys sys_start (start_on [(rootdir, FDir [])]); nd_meta := fs_start;
       nd_cdi := {| mc_specs := ∅; mc_broken := [] |};
       nd_cp := {| ms_blobs := {[ DriverPluginCheckpointFile := "empty-sum" ]}; ms_full := false |} |};
     dr_attempts := []; dr_registered := false; dr_cause := None;
     dr_health := None; dr_listeners := []; dr_helper := true |}.
#[local] Existing Instances node_smi late_helper free_ports both_sockets.

Abbreviation first_publication := (firstPublication cold_driver).
Abbreviation ticks n := (runDeviceScan 5000000000 n first_publication.1).
Definition attempt_sizes (d : Driver MemCache MemStore) : list (nat * bool) :=
  map (fun a => (length (concat (default [] (a.1 !! "node1"))), a.2)) (dr_attempts d).

(** A publication that is refused is not tried again: after the one attempt
    that failed, nine ticks later on an unchanged machine and with a helper that
    accepts again, the kubelet is still offered the old, empty inventory, while
    the driver's own is that of the two devices. *)
Theorem failed_publish_not_retried :
  attempt_sizes (ticks 1).1 = [(0, true); (2, false)]%nat /\
  dr_attempts (ticks 9).1 = dr_attempts (ticks 1).1 /\
  length (npuDevices (ds (nd_plugin (dr_node (ticks 9).1))) ++ vfioDevices (ds (nd_plugin (dr_node (ticks 9).1)))) = 2%nat /\
  PublishResources_at (clk (sys (nd_plugin (dr_node (ticks 2).1)))) = Err (ErrText "not ready") /\
  PublishResources_at (clk (sys (nd_plugin (dr_node (ticks 9).1)))) = Ok tt.
Proof. split_and!; vm_compute; reflexivity. Qed.

Definition messages (p : Plugin) : list string := map lr_msg (logs (sys p)).
Definition broken_start (n : nat) : Plugin :=
  (@initialDiscovery (switch_host n [(rootdir, FBad EIO)] node_table) node_smi "node1" rootdir plugin_start).1.
Definition first_tick (n : nat) : Plugin :=
  (@RescanDevices (switch_host n [(rootdir, FBad EIO)] node_table) node_smi _ _ (broken_start n)).1.

(** A sysfs failure at start-up does not begin a failing streak: the record
    of the failure is written at start-up, and then the first tick repeats it
    if sysfs still fails (here for 1000 calls), and reports no recovery if it
    works again (here after 2). *)
Theorem startup_failure_no_streak :
  "Failed to enumerate vfio-pci NPU devices" ∈ messages (broken_start 1000) /\
  "Device scan failed, keeping last inventory" ∈ messages (first_tick 1000) /\
  "Failed to enumerate vfio-pci NPU devices" ∈ messages (broken_start 2) /\
  length (npuDevices (ds (first_tick 2)) ++ vfioDevices (ds (first_tick 2))) = 2%nat /\
  "Device scan recovered" ∉ messages (first_tick 2).
Proof. split_and!; first [vm_compute; reflexivity | apply (bool_decide_unpack _); vm_compute; exact I]. Qed.

Lemma PrepareResourceClaims_answers_witness :
  exists d' answers, PrepareResourceClaims (flt:=no_faults) node_cfg recreateValidatedRSDGroup [npu_claim; vm_claim] cold_driver =
      (d', Ok answers) /\ dom answers = {[ "uid-2"; "uid-1" ]} /\
    (forall uid pr, answers !! uid = Some pr -> answered uid pr d').
Proof.
  destruct (PrepareResourceClaims (flt:=no_faults) node_cfg recreateValidatedRSDGroup [npu_claim; vm_claim] cold_driver)
    as [d' r] eqn:E.
  destruct (PrepareResourceClaims_answers (flt:=no_faults) node_cfg recreateValidatedRSDGroup (Hrsd:=group_respects) _ _ _ _ E)
    as (answers & -> & Hdom & HP & _).
  exists d', answers. split; [reflexivity|]. split; [rewrite Hdom; vm_compute; reflexivity|exact HP].
Defined.

Definition loaded_driver : Driver MemCache MemStore := set_node vm_done.1 cold_driver.
Lemma UnprepareResourceClaims_answers_witness :
  exists d' answers, UnprepareResourceClaims (flt:=no_faults) node_cfg ["uid-1"; "uid-7"] loaded_driver = (d', Ok answers) /\
    answers !! "uid-1" = Some None /\ exists m, prepared_in (nd_cp (dr_node d')) = Some m /\ unrecorded m "uid-1".
Proof.
  destruct (UnprepareResourceClaims (flt:=no_faults) node_cfg ["uid-1"; "uid-7"] loaded_driver) as [d' r] eqn:E.
  destruct (UnprepareResourceClaims_answers (flt:=no_faults) node_cfg ["uid-1"; "uid-7"] loaded_driver d' r)
    as (answers & -> & _ & HP & _); [apply (bool_decide_unpack _); vm_compute; exact I|exact E|].
  assert (answers !! "uid-1" = Some None) as Ha.
  { assert (match (UnprepareResourceClaims (flt:=no_faults) node_cfg ["uid-1"; "uid-7"] loaded_driver).2 with
            | Ok a => a !! "uid-1" | Err _ => None end = Some None) as H by (vm_compute; reflexivity).
    rewrite E in H. exact H. }
  exists d', answers. split; [reflexivity|]. split; [exact Ha|exact (HP "uid-1" Ha)].
Defined.

Lemma readiness_after_registration_witness :
  exists d2, @Check_health claim_host MemCache MemStore both_sockets the_service "readiness"
      (observeRegistration (RegistrationStatus true) (Ok tt) cold_driver).1 = (d2, Ok SERVING) /\
    last (omap acknowledgement [(RegistrationStatus true, Ok tt)]) = Some true.
Proof.
  destruct (run_ok (@Check_health claim_host MemCache MemStore both_sockets the_service "readiness"
      (observeRegistration (RegistrationStatus true) (Ok tt) cold_driver).1)
      (fun h => match h with SERVING => true | _ => false end)) as (d2 & [|] & E & Hn);
    [vm_compute; reflexivity| |discriminate Hn].
  exists d2. split; [exact E|].
  destruct (@readiness_after_registration claim_host MemCache MemStore both_sockets the_service
    [(RegistrationStatus true, Ok tt)] cold_driver (observeRegistration (RegistrationStatus true) (Ok tt) cold_driver).1
    [Ok tt] d2 eq_refl E) as [H|[H _]]; [exact H|discriminate H].
Defined.

(** The driver restarts after it prepared the virtual machine's claim. *)
Lemma NewDeviceState_keeps_claims_witness :
  exists n', @NewDeviceState claim_host node_smi node_codec MemCache MemStore mem_store
      "node1" "/etc/cdi" rootdir (Ok tt) (Ok tt) vm_done.1 = (n', Ok {| cdi_root := "/etc/cdi"; cdi_class := "npu" |}) /\
    prepared_in (nd_cp n') = prepared_in (nd_cp vm_done.1) /\ inventory_ok (ds (nd_plugin n')).
Proof.
  destruct (run_ok (@NewDeviceState claim_host node_smi node_codec MemCache MemStore mem_store
      "node1" "/etc/cdi" rootdir (Ok tt) (Ok tt) vm_done.1) (fun _ => true)) as (n' & h & E & _); [vm_compute; reflexivity|].
  destruct (NewDeviceState_keeps_claims _ _ _ _ _ _ _ _ E) as (Hok & _ & _ & Hp & Hh).
  destruct (Hh h eq_refl) as [-> _].
  exists n'. split; [exact E|]. split; [apply Hp; vm_compute; by eexists|exact Hok].
Defined.

(** The start with a prepared claim on disk, then a request while a tick has
    read sysfs but not yet the native devices. *)
Definition ready_helper : Helper := {| PublishResources_at _ := Ok tt; is_recoverable _ := true |}.
Abbreviation reached := (@driver_reach claim_host node_smi _ _ no_faults plain_env plain_cdi node_codec MemCache MemStore
  mem_cache mem_store ready_helper free_ports both_sockets node_cfg recreateValidatedRSDGroup 5000000000).
Abbreviation started := (startDriver node_flags rootdir (Ok tt) (Ok tt) (Ok tt) (new_driver vm_done.1)).
Abbreviation published := (firstPublication (helper:=ready_helper) started.1).
Lemma published_reached : reached (published.1, Idle).
Proof.
  eapply dreach_step.
  - apply (dreach_start _ _ _ node_flags rootdir (Ok tt) (Ok tt) (Ok tt) vm_done.1). apply run_pair. vm_compute. reflexivity.
  - apply ds_start. apply run_pair. vm_compute. reflexivity.
Qed.
Definition half_of (d : Driver MemCache MemStore * res (err + sysfs_snapshot)) : sysfs_snapshot :=
  match d.2 with Ok (inr x) => x | _ => ([], [], O) end.
Abbreviation published_half := (on_plugin (readSysfs (hst:=claim_host)) published.1).
Abbreviation scan_of_start := (@from_start claim_host node_smi _ _ no_faults plain_env plain_cdi node_codec MemCache MemStore
  mem_cache mem_store ready_helper free_ports both_sockets node_cfg recreateValidatedRSDGroup 5000000000).
Abbreviation scan_of_tick := (@from_tick claim_host node_smi _ _ no_faults plain_env plain_cdi node_codec MemCache MemStore
  mem_cache mem_store ready_helper free_ports both_sockets node_cfg recreateValidatedRSDGroup 5000000000).

Abbreviation ready_step := (@driver_step claim_host node_smi _ _ no_faults plain_env plain_cdi node_codec MemCache MemStore
  mem_cache mem_store ready_helper both_sockets node_cfg recreateValidatedRSDGroup 5000000000).
Abbreviation ready_run := (@pool_run claim_host node_smi _ _ no_faults plain_env plain_cdi node_codec MemCache MemStore
  mem_cache mem_store ready_helper both_sockets node_cfg recreateValidatedRSDGroup 5000000000).
Lemma handlers_are_runs_witness :
  (exists d', @runDeviceScan claim_host node_smi _ _ MemCache MemStore ready_helper 5000000000 3 published.1 = (d', Ok tt) /\
     ready_run (published.1, Idle, ∅) [] (d', Idle, ∅)) /\
  exists d' l, UnprepareResourceClaims (flt:=no_faults) node_cfg ["uid-1"; "uid-7"] published.1 = (d', Ok (unprepare_results l)) /\
    map fst l = ["uid-1"; "uid-7"].
Proof.
  destruct (handlers_are_runs (hst:=claim_host) (smi:=node_smi) (flt:=no_faults) (helper:=ready_helper) (sockets:=both_sockets)
    node_cfg recreateValidatedRSDGroup 5000000000 0 Idle ∅ published.1 eq_refl (lookup_empty _)) as (H1 & _ & H3).
  split; [exact (H1 3%nat)|]. destruct (H3 ["uid-1"; "uid-7"]) as (d' & l & E & Hl & _).
  exists d', l. split; [exact E|exact Hl].
Defined.

(** Two calls for the same claim: both handlers are in the loop before either
    gets the lock, and the first to get it answers last. *)
Definition quiet_start : Driver MemCache MemStore := set_node (start_node false []) cold_driver.
Abbreviation log_call d := (received 1 "Received request to prepare resource claims" d).
Abbreviation lock_vm d := (on_node (Prepare (flt:=no_faults) node_cfg recreateValidatedRSDGroup vm_claim) d).
Abbreviation first_locked := (lock_vm (log_call (log_call quiet_start).1).1).
Abbreviation second_locked := (lock_vm first_locked.1).
Abbreviation second_answered := (answerPrepare vm_claim second_locked.2 second_locked.1).
Abbreviation first_answered := (answerPrepare vm_claim first_locked.2 second_answered.1).
Definition vm_result : PrepareResult := {| pr_Devices := vm_answer; pr_Err := None |}.
Definition both_events : list event :=
  [Called 0 (PrepareCall [vm_claim]); Called 1 (PrepareCall [vm_claim]);
   Locked 0 (ServedPrepare vm_claim (Ok vm_answer)); Locked 1 (ServedPrepare vm_claim (Ok vm_answer))].
Definition both_returned : gmap nat handler :=
  {[ 0%nat := Preparing [] {[ "uid-1" := vm_result ]}; 1%nat := Preparing [] {[ "uid-1" := vm_result ]} ]}.
Lemma both_run : ready_run (quiet_start, Idle, ∅) both_events (first_answered.1, Idle, both_returned).
Proof.
  assert (first_locked.2 = Ok vm_answer /\ second_locked.2 = Ok vm_answer) as [E1 E2] by (vm_compute; split; reflexivity).
  assert (both_returned = <[0%nat := Preparing [] (<[UID vm_claim := vm_result]> ∅)]> (<[1%nat := Preparing [] (<[UID vm_claim := vm_result]> ∅)]>
    (<[1%nat := PrepareDone vm_claim (Ok vm_answer) [] ∅]> (<[0%nat := PrepareDone vm_claim (Ok vm_answer) [] ∅]>
    (<[1%nat := Preparing [vm_claim] ∅]> (<[0%nat := Preparing [vm_claim] ∅]> ∅)))))) as -> by (vm_compute; reflexivity).
  change both_events with ([Called 0 (PrepareCall [vm_claim])] ++ [Called 1 (PrepareCall [vm_claim])] ++
    [Locked 0 (ServedPrepare vm_claim (Ok vm_answer))] ++ [Locked 1 (ServedPrepare vm_claim (Ok vm_answer))] ++ [] ++ [])%list.
  eapply pool_run_app; [apply (pool_run_once _ _ _ (Some _)); eapply ps_prepare_call; [reflexivity|apply run_pair; reflexivity]|].
  eapply pool_run_app; [apply (pool_run_once _ _ _ (Some _)); eapply ps_prepare_call; [reflexivity|apply run_pair; reflexivity]|].
  eapply pool_run_app; [apply (pool_run_once _ _ _ (Some _)); eapply ps_prepare; [reflexivity|apply run_pair, E1]|].
  eapply pool_run_app; [apply (pool_run_once _ _ _ (Some _)); eapply ps_prepare; [reflexivity|apply run_pair, E2]|].
  rewrite E1, E2.
  eapply pool_run_app; [apply (pool_run_once _ _ _ None); eapply (ps_prepare_answer _ _ _ _ _ _ _ 1%nat); [reflexivity|apply run_pair; reflexivity]|].
  apply (pool_run_once _ _ _ None). eapply (ps_prepare_answer _ _ _ _ _ _ _ 0%nat); [reflexivity|apply run_pair; reflexivity].
Qed.
Lemma overlapping_answers_witness :
  exists pds, (prepared_in (nd_cp (dr_node first_answered.1)) ≫= lookup "uid-1") = Some pds /\ vm_answer = GetDevices pds.
Proof.
  destruct (overlapping_answers node_cfg recreateValidatedRSDGroup (Hrsd:=group_respects) _ _ _ _ _ _ _ both_run) as (_ & _ & H).
  destruct (H 0%nat [] {[ "uid-1" := vm_result ]} "uid-1" vm_result eq_refl eq_refl eq_refl) as (h1 & c & h2 & E & _ & Hr);
    [vm_compute; discriminate|].
  apply Hr. intros r Hin. assert (ServedUnprepare "uid-1" r ∈ locked both_events) as Hb.
  { rewrite E. apply elem_of_app. right. by apply list_elem_of_further. }
  apply list_elem_of_In in Hb. simpl in Hb. destruct Hb as [[=]|[[=]|[]]].
Defined.

(** A node that started with no device; two have appeared, and a request is
    served between the two reads of the tick that finds them. *)
Abbreviation cold_half := (on_plugin (readSysfs (hst:=claim_host)) cold_driver).
Abbreviation cold_served := (on_node (Unprepare (flt:=no_faults) node_cfg "uid-1") cold_half.1).
Lemma steps_rtc x y : rtc (ready_step None) x y -> rtc (fun x y => exists ev, ready_step ev x y) x y.
Proof. induction 1 as [x|x y z H _ IH]; [reflexivity|]. eapply rtc_l; [exists None; exact H|exact IH]. Qed.
Lemma scan_converges_witness :
  exists start s d1 d2 accepted, cold_half = (cold_half.1, Ok (inr (half_of cold_half))) /\
    ready_step (Some (RUnprepare "uid-1")) (cold_half.1, HalfRead start (half_of cold_half))
      (cold_served.1, HalfRead start (half_of cold_half)) /\
    on_plugin (readNative (hst:=claim_host) (smi:=node_smi) (half_of cold_half)) cold_served.1 = (d1, Ok (inr s)) /\
    rtc (ready_step None) (d1, Scanned start (inr s)) (d2, Idle) /\
    devices d2 = devices_of s /\ dr_attempts d2 = [(driverResources (ds (nd_plugin (dr_node d2))), accepted)].
Proof.
  assert (cold_half = (cold_half.1, Ok (inr (half_of cold_half)))) as E by (apply run_pair; vm_compute; reflexivity).
  pose (start := now (sys (nd_plugin (dr_node cold_driver)))).
  assert (ready_step (Some (RUnprepare "uid-1")) (cold_half.1, HalfRead start (half_of cold_half))
    (cold_served.1, HalfRead start (half_of cold_half))) as S1 by (eapply ds_unprepare; apply surjective_pairing).
  destruct (run_ok (on_plugin (readNative (hst:=claim_host) (smi:=node_smi) (half_of cold_half)) cold_served.1)
    (fun x => match x with inr ([_], _, _) => true | _ => false end)) as (d1 & [e|s] & E1 & Hb);
    [vm_compute; reflexivity|discriminate Hb|].
  destruct (driver_step_finishes node_cfg recreateValidatedRSDGroup (flt:=no_faults) (menv:=plain_env) (helper:=ready_helper)
    (sockets:=both_sockets) (smi:=node_smi) 5000000000 d1 (Scanned start (inr s)) ltac:(discriminate)) as (d2 & S2).
  destruct (scan_converges (hst:=claim_host) (smi:=node_smi) (helper:=ready_helper) (sockets:=both_sockets) (flt:=no_faults)
    node_cfg recreateValidatedRSDGroup (Hrsd:=group_respects) 0 (table_view claim_table) (Ok [native_inv])
    (fun _ _ => eq_refl) (fun _ _ => eq_refl) 5000000000 cold_driver cold_half.1 (half_of cold_half) cold_served.1 s d1 _
    (Nat.le_0_l _) E (rtc_once _ _ (ex_intro _ _ S1)) E1 (steps_rtc _ _ S2))
    as (_ & [[H _]|[H Ha]]); [discriminate H|].
  assert (devices cold_served.1 = ([], []) /\ dr_attempts cold_served.1 = []) as [Hd Hn] by (vm_compute; split; reflexivity).
  rewrite Hd, Hn in Ha. rewrite decide_False in Ha by (destruct s as [[[|npu l] vfio] sk]; [discriminate Hb|discriminate]).
  destruct Ha as [[Ha _]|[accepted Ha]]; [discriminate Ha|]. exists start, s, d1, d2, accepted.
  split; [exact E|]. split; [exact S1|]. split; [exact E1|]. split; [exact S2|]. split; [exact H|exact Ha].
Defined.

(** The driver is killed when it has done its work on another claim, which
    cannot be recorded, and is started again on what is left. *)
Abbreviation npu_killed := (prepare_on no_faults npu_claim vm_done.1).
Abbreviation restarted := (startDriver node_flags rootdir (Ok tt) (Ok tt) (Ok tt) (new_driver npu_killed.1)).
Abbreviation life_of := (@spared claim_host node_smi _ _ no_faults plain_env plain_cdi node_codec MemCache MemStore
  mem_cache mem_store ready_helper free_ports both_sockets node_cfg recreateValidatedRSDGroup 5000000000).
Lemma npu_claim_uid_ok : claim_uid_ok (UID npu_claim) /\ requests_ok npu_claim.
Proof. apply (bool_decide_unpack _). vm_compute. exact I. Qed.
Lemma restarted_life : rtc (life_of (UID vm_claim)) (new_driver vm_done.1, Idle)
  ((firstPublication (helper:=ready_helper) restarted.1).1, Idle).
Proof.
  eapply rtc_l; [|apply rtc_once].
  - exists (Some (RPrepare npu_claim)). split; [exact npu_claim_uid_ok|].
    eapply (life_restart _ _ _ _ _ _ npu_killed.1 node_flags rootdir (Ok tt) (Ok tt) (Ok tt)).
    + apply killed_prepare. eapply pk_end. apply surjective_pairing.
    + apply run_pair. vm_compute. reflexivity.
  - exists None. split; [exact I|]. apply life_run, ds_start. apply run_pair. vm_compute. reflexivity.
Qed.
Lemma fs_start_unmarked uid : marker (tree fs_start) (host_dir base_dirs "uid-1") <> Some uid.
Proof. intros H. discriminate H. Qed.
Lemma vm_answer_some : vm_answer <> [].
Proof. vm_compute. discriminate. Qed.
Lemma prepared_claim_durable_witness :
  exists d2 sp n', rtc (life_of (UID vm_claim)) (new_driver vm_done.1, Idle) (d2, Idle) /\
    specs (nd_cdi (dr_node d2)) !! claimSpecName (cfg_cdi node_cfg) (UID vm_claim) = Some sp /\
    prepare_on no_faults vm_claim (dr_node d2) = (n', Ok vm_answer).
Proof.
  pose proof (prepared_claim_durable (helper:=ready_helper) (net:=free_ports) (sockets:=both_sockets) node_cfg recreateValidatedRSDGroup (Hrsd:=group_respects) base_dirs
    base_dirs_plain eq_refl 5000000000 vm_claim (new_driver (start_node false [])) (new_driver vm_done.1) Idle vm_answer
    _ vm_claim_uid_ok vm_requests_ok fs_start_wf (fun uid' _ => fs_start_unmarked uid')
    vm_done_run vm_answer_some restarted_life) as (Hs & _ & pds & _ & _ & Hr).
  destruct (run_ok (GetCheckpoint DriverPluginCheckpointFile newCheckpoint
    (nd_cp (dr_node (firstPublication (helper:=ready_helper) restarted.1).1))) (fun _ => true)) as (k & cp & E & _);
    [vm_compute; reflexivity|].
  destruct (Hr k cp E) as (n' & Hn & _).
  destruct (specs (nd_cdi (dr_node (new_driver vm_done.1))) !! claimSpecName (cfg_cdi node_cfg) (UID vm_claim)) as [sp|] eqn:Esp;
    [|exfalso; vm_compute in Esp; discriminate Esp].
  eexists _, sp, n'. split; [exact restarted_life|]. split; [exact Hs|exact Hn].
Defined.

(** The driver that was started is shut down while its server runs a check, and a
    claim is unprepared meanwhile. *)
Abbreviation late_served := (on_node (Unprepare (flt:=no_faults) node_cfg "uid-1") published.1).
Lemma late_served_net : net_same published.1 late_served.1.
Proof. apply (on_node_net (Unprepare (flt:=no_faults) node_cfg "uid-1") published.1). Qed.
Lemma Shutdown_ends_witness :
  exists n x, beside (published.1, control_start published.1) n x /\
    c_checks x.2 = [] /\ dr_listeners x.1 = [] /\ dr_helper x.1 = false.
Proof.
  pose (begun := Build_Control (Build_plainServer 1 (Some false) false) Inside [CheckCalled "readiness"] Running).
  assert (rtc shutdown_step (late_served.1, control_start published.1) (late_served.1, begun)) as Hx.
  { assert (control_start published.1 = Build_Control NewServer Before [] Running) as -> by (vm_compute; reflexivity).
    eapply rtc_l; [eapply (sd_serve (grpc:=plain_server) _ _ (Build_plainServer 0 (Some false) false)); split; reflexivity|].
    apply rtc_once. apply (sd_check (grpc:=plain_server)). split; [by eexists|split; reflexivity]. }
  destruct (beside_rtc _ _ _ _ (beside_other _ _ published.1 _ _ (beside_start _) late_served_net) Hx) as (n & Hn).
  destruct (Shutdown_ends published.1 n _ Hn) as ((y & Hy & Hd) & _).
  destruct (beside_rtc _ _ _ _ Hn Hy) as (n' & Hn').
  destruct (Shutdown_ends published.1 n' y Hn') as (_ & _ & _ & H). destruct (H Hd) as (Hc & _ & _ & Hl & Hp).
  exists n', y. split; [exact Hn'|]. split; [exact Hc|]. split; [rewrite Hl|rewrite Hp]; vm_compute; reflexivity.
Defined.
