(* ===== verification/Logging.v ===== *)
(** The process-wide logger (pkg/logging/logging.go): levels, formats, the
    settings from the environment, klog's verbosity, and the rewriting of
    attributes, with the part of log/slog that calls it. *)
From S2P Require Import Prelude GoStd.
Open Scope string_scope.
Open Scope Z_scope.

(** ** log/slog *)

(** slog.Level is an int. *)
Definition LevelDebug : Z := -4.
Definition LevelInfo : Z := 0.
Definition LevelWarn : Z := 4.
Definition LevelError : Z := 8.
Definition TimeKey : string := "time".
Definition LevelKey : string := "level".
Definition SourceKey : string := "source".
Definition MessageKey : string := "msg".

(** A time in its civil fields, with the offset of its zone in minutes. *)
Record Time := {
  t_year : Z; t_month : Z; t_day : Z; t_hour : Z; t_minute : Z; t_second : Z; t_nano : Z; t_offset : Z;
}.
Record Source := { src_File : string; src_Line : Z }.

(** slog.Value; [VAny None] is the value of the zero Attr, [VAny (Some s)] any
    other kind, by its text. *)
Inductive Value :=
  | VString (s : string)
  | VInt (z : Z)
  | VTime (t : Time)
  | VLevel (l : Z)
  | VSource (s : Source)
  | VAny (o : option string)
  | VGroup (l : list (string * Value)).
Abbreviation SAttr := (string * Value)%type.

Definition zeros (n : nat) : string := Nat.iter n (String "0") "".
Definition pad (width : nat) (z : Z) : string :=
  let s := FormatInt z in zeros (width - String.length s) +:+ s.

(** time.RFC3339Nano: a fraction without its trailing zeros, Z or an offset. *)
Definition fraction (nano : Z) : string :=
  match TrimRight (is_char "0") (pad 9 nano) with "" => "" | f => "." +:+ f end.
Definition zone (offset : Z) : string :=
  if bool_decide (offset = 0) then "Z" else
  (if bool_decide (offset < 0) then "-" else "+") +:+ pad 2 (Z.abs offset / 60) +:+ ":" +:+ pad 2 (Z.abs offset mod 60).
Definition Format_RFC3339Nano (t : Time) : string :=
  pad 4 (t_year t) +:+ "-" +:+ pad 2 (t_month t) +:+ "-" +:+ pad 2 (t_day t) +:+ "T" +:+
  pad 2 (t_hour t) +:+ ":" +:+ pad 2 (t_minute t) +:+ ":" +:+ pad 2 (t_second t) +:+
  fraction (t_nano t) +:+ zone (t_offset t).

(** ** logging.go *)

Definition LevelTrace : Z := -8.
Definition envLogLevel : string := "RBLN_DRA_DRIVER_LOG_LEVEL".
Definition envLogFormat : string := "RBLN_DRA_DRIVER_LOG_FORMAT".

(** Arithmetic on a 64-bit int. *)
Definition wrap64 (z : Z) : Z := (z - int64_min) mod 2 ^ 64 + int64_min.

Definition klogVerbosity (lvl : Z) : Z := Z.max 0 (wrap64 (- lvl)).

Definition parseLevel (s : string) : res Z :=
  let w := ToLower (TrimSpace s) in
  if bool_decide (w = "" \/ w = "info") then Ok LevelInfo else
  if bool_decide (w = "error") then Ok LevelError else
  if bool_decide (w = "warning" \/ w = "warn") then Ok LevelWarn else
  if bool_decide (w = "debug") then Ok LevelDebug else
  if bool_decide (w = "trace") then Ok LevelTrace else
  Err (ErrText ("unknown log level " +:+ quote s +:+ " (error|warning|warn|info|debug|trace)")).

Definition parseFormat (s : string) : res string :=
  let w := ToLower (TrimSpace s) in
  if bool_decide (w = "" \/ w = "json") then Ok "json" else
  if bool_decide (w = "text") then Ok "text" else
  Err (ErrText ("unknown log format " +:+ quote s +:+ " (json|text)")).

Definition levelName (l : Z) : string :=
  if bool_decide (LevelError <= l) then "error" else
  if bool_decide (LevelWarn <= l) then "warn" else
  if bool_decide (LevelInfo <= l) then "info" else
  if bool_decide (LevelDebug <= l) then "debug" else "trace".

(** strings.LastIndexByte, as the two sides of the last separator. *)
Fixpoint cut_last (c : ascii) (s : string) : option (string * string) :=
  match s with
  | "" => None
  | String a s' =>
      match cut_last c s' with
      | Some (l, r) => Some (String a l, r)
      | None => if bool_decide (a = c) then Some ("", s') else None
      end
  end.

Definition trimPath (file : string) : string :=
  match cut_last "/" file with
  | None => file
  | Some (dir, base) =>
      match cut_last "/" dir with
      | Some (_, d) => d +:+ "/" +:+ base
      | None => file
      end
  end.

(** Only top-level attributes are rewritten. *)
Definition replaceAttr (groups : list string) (a : SAttr) : SAttr :=
  let '(key, v) := a in
  if negb (bool_decide (groups = [])) then a else
  if bool_decide (key = TimeKey) then
    match v with VTime t => ("ts", VString (Format_RFC3339Nano t)) | _ => a end
  else if bool_decide (key = LevelKey) then
    match v with
    | VLevel lvl =>
        let depth := klogVerbosity lvl in
        if bool_decide (depth = 0) then (key, VString (levelName lvl))
        else ("", VGroup [(LevelKey, VString (levelName lvl)); ("v", VInt depth)])
    | _ => a
    end
  else if bool_decide (key = SourceKey) then
    match v with
    | VSource src => if bool_decide (src_File src = "") then ("", VAny None)
                     else ("caller", VString (trimPath (src_File src) +:+ ":" +:+ FormatInt (src_Line src)))
    | _ => a
    end
  else a.

Record Logger := { lg_level : Z; lg_addSource : bool; lg_format : string }.
Definition newLogger (lvl : Z) (format : string) : Logger :=
  {| lg_level := lvl; lg_addSource := bool_decide (lvl <= LevelDebug);
     lg_format := if bool_decide (format = "text") then "text" else "json" |}.
Definition New (level format : string) : res Logger :=
  match parseLevel level with
  | Err e => Err e
  | Ok lvl => match parseFormat format with Err e => Err e | Ok f => Ok (newLogger lvl f) end
  end.

(** ** What the handlers of log/slog make of a record *)

Definition Enabled (lg : Logger) (lvl : Z) : bool := bool_decide (lg_level lg <= lvl).

(** A record; [r_PC] is what its program counter resolves to. *)
Record Rec := { r_Time : Time; r_Level : Z; r_Message : string; r_PC : option Source; r_Attrs : list SAttr }.

Fixpoint depth (v : Value) : nat :=
  match v with VGroup l => S (foldr (fun a n => Nat.max (depth (snd a)) n) 0%nat l) | _ => 0%nat end.

(** handleState.appendAttr: groups are not rewritten themselves, but those an
    attribute was rewritten to are inlined, their members rewritten in turn. *)
Fixpoint append_attr (fuel : nat) (groups : list string) (a : SAttr) : list SAttr :=
  match fuel with
  | O => []
  | S fuel' =>
      let a := match snd a with VGroup _ => a | _ => replaceAttr groups a end in
      match a with
      | ("", VAny None) => []
      | ("", VGroup l) => concat (map (append_attr fuel' groups) l)
      | (key, VGroup l) =>
          match concat (map (append_attr fuel' (groups ++ [key])%list) l) with
          | [] => []
          | inner => [(key, VGroup inner)]
          end
      | _ => [a]
      end
  end.
(** Rewriting adds one level of groups, of strings and numbers. *)
Definition appendAttr (groups : list string) (a : SAttr) : list SAttr :=
  append_attr (S (S (depth (snd a)))) groups a.

(** The keys and values of the line written for a record that passes the gate. *)
Definition Handle (lg : Logger) (r : Rec) : list SAttr :=
  concat (map (appendAttr [])
    ([(TimeKey, VTime (r_Time r)); (LevelKey, VLevel (r_Level r))] ++
     (if lg_addSource lg then [(SourceKey, VSource (default {| src_File := ""; src_Line := 0 |} (r_PC r)))] else []) ++
     [(MessageKey, VString (r_Message r))] ++ r_Attrs r))%list.

(** ** Settings from the environment *)

(** Logger.Warn, as the message and the attributes of the record. *)
Definition warn_if (lg : Logger) (failed : option err) (name fallback : string) : list (string * list SAttr) :=
  match failed with
  | Some e => if Enabled lg LevelWarn
              then [("Invalid " +:+ name +:+ ", using default", [("err", VString (Error e)); ("fallback", VString fallback)])]
              else []
  | None => []
  end.
Definition err_of {A} (r : res A) : option err := match r with Ok _ => None | Err e => Some e end.

(** The logger, the two settings that are echoed, and the warnings it wrote. *)
Definition setupFromEnv (getenv : string -> string) : Logger * string * string * list (string * list SAttr) :=
  let lvlRes := parseLevel (getenv envLogLevel) in
  let lvl := match lvlRes with Ok l => l | Err _ => LevelInfo end in
  let formatRes := parseFormat (getenv envLogFormat) in
  let format := match formatRes with Ok f => f | Err _ => "json" end in
  let logger := newLogger lvl format in
  (logger, levelName lvl, format,
   warn_if logger (err_of lvlRes) envLogLevel "info" ++ warn_if logger (err_of formatRes) envLogFormat "json")%list.

(** klog: its threshold -v is an int32, 0 before it is set; a value that does not
    parse leaves it. V(n) reaches the handler, as a record of level -n, if n is
    not above the threshold. *)
Definition flag_Set_v (current : Z) (value : string) : Z :=
  match ParseInt value with
  | Ok v => if bool_decide (- 2 ^ 31 <= v < 2 ^ 31) then v else current
  | Err _ => current
  end.
Definition BridgeKlog (level : string) : Z :=
  let lvl := match parseLevel level with Ok l => l | Err _ => LevelInfo end in
  flag_Set_v 0 (Itoa (klogVerbosity lvl)).
Definition klog_V_rendered (lg : Logger) (threshold n : Z) : bool :=
  bool_decide (n <= threshold) && Enabled lg (- n).

(** ** Rewriting *)

(** The members of the group an attribute may be rewritten to stay as they are. *)
Lemma replaced_group_fuel f1 f2 a l :
  (forall g, snd a <> VGroup g) -> replaceAttr [] a = ("", VGroup l) ->
  concat (map (append_attr (S f1) []) l) = concat (map (append_attr (S f2) []) l).
Proof.
  destruct a as [key v]. unfold replaceAttr. intros Hv H.
  rewrite bool_decide_true in H by done. cbn [negb] in H.
  destruct v; try (by exfalso; eapply Hv); repeat case_bool_decide; by simplify_eq.
Qed.
Lemma replaceAttr_in_group groups a : groups <> [] -> replaceAttr groups a = a.
Proof. destruct a as [k v]. intros H. unfold replaceAttr. by rewrite bool_decide_false. Qed.
Lemma replaceAttr_group_key a key l : (forall g, snd a <> VGroup g) -> replaceAttr [] a = (key, VGroup l) -> key = "".
Proof.
  destruct a as [k v]. unfold replaceAttr. intros Hv H.
  rewrite bool_decide_true in H by done. cbn [negb] in H.
  destruct v; try (by exfalso; eapply Hv); repeat case_bool_decide; by simplify_eq.
Qed.
(** The part of [append_attr] for groups. *)
Definition members (f : list string -> SAttr -> list SAttr) (groups : list string) (key : string) (l : list SAttr) : list SAttr :=
  match key with
  | "" => concat (map (f groups) l)
  | _ => match concat (map (f (groups ++ [key])%list) l) with [] => [] | inner => [(key, VGroup inner)] end
  end.
Lemma append_attr_group f groups key l :
  append_attr (S f) groups (key, VGroup l) = members (append_attr f) groups key l.
Proof. simpl. by destruct key. Qed.
Lemma members_ext f1 f2 groups key l :
  (forall gs, concat (map (f1 gs) l) = concat (map (f2 gs) l)) -> members f1 groups key l = members f2 groups key l.
Proof. intros H. unfold members. destruct key; [done|]. by rewrite H. Qed.
Lemma append_attr_plain f groups a :
  (forall g, snd a <> VGroup g) ->
  append_attr (S f) groups a = 
   match replaceAttr groups a with
   | (key, VGroup l) => members (append_attr f) groups key l
   | ("", VAny None) => []
   | b => [b] end.
Proof. destruct a as [k v]. intros H. destruct v; try (by exfalso; eapply H);
  cbn [append_attr snd]; match goal with |- context [replaceAttr ?g ?a] => destruct (replaceAttr g a) as [[|? ?] [| | | | |[]|]] end; done. Qed.

Lemma depth_member l a : a ∈ l -> (S (depth (snd a)) <= depth (VGroup l))%nat.
Proof. induction 1 as [a l|a b l Ha IH]; simpl in *; lia. Qed.
Lemma concat_map_ext {A B} (f g : A -> list B) l :
  (forall a, a ∈ l -> f a = g a) -> concat (map f l) = concat (map g l).
Proof. intros H. f_equal. apply map_ext_in. intros a Ha. by apply H, list_elem_of_In. Qed.
(** Two units of fuel per level of groups are enough, one of them for the group
    an attribute may be rewritten to. *)
Lemma append_attr_enough n : forall groups a f1 f2,
  (depth (snd a) <= n)%nat -> (S (S n) <= f1)%nat -> (S (S n) <= f2)%nat ->
  append_attr f1 groups a = append_attr f2 groups a.
Proof.
  induction n as [n IH] using lt_wf_ind. intros groups [key v] f1 f2 Hd H1 H2.
  destruct f1 as [|[|f1]], f2 as [|[|f2]]; try lia. destruct v as [| | | | | |l].
  7: { rewrite !append_attr_group. apply members_ext. intros gs. apply concat_map_ext. intros a Ha%depth_member.
       simpl snd in Hd. apply (IH (pred n)); lia. }
  all: rewrite !append_attr_plain by done; destruct (replaceAttr groups _) as [k' []] eqn:E; try done.
  all: destruct (decide (groups = [])) as [->|Hg]; [|rewrite replaceAttr_in_group in E by done; simplify_eq].
  all: pose proof E as ->%replaceAttr_group_key; [|done]; refine (replaced_group_fuel f1 f2 _ _ _ E); done.
Qed.

(** ** The short caller *)

Lemma cut_last_Some c s l r : cut_last c s = Some (l, r) -> s = l +:+ String c r /\ sep_free c r.
Proof.
  revert l r. induction s as [|a s IH]; intros l r; simpl; [done|]. destruct (cut_last c s) as [[l' r']|] eqn:E.
  - intros [= <- <-]. destruct (IH _ _ eq_refl) as [-> ?]. done.
  - case_bool_decide; [|done]. intros [= <- <-]. subst a. split; [done|].
    clear IH. induction s as [|b s IH]; [done|]. simpl in E. unfold sep_free. simpl.
    destruct (cut_last c s) as [[]|]; [done|]. case_bool_decide; [done|]. rewrite bool_decide_false by congruence. by apply IH.
Qed.
Lemma cut_last_None c s : cut_last c s = None -> sep_free c s.
Proof.
  unfold sep_free. induction s as [|b s IH]; [done|]. simpl.
  destruct (cut_last c s) as [[]|]; [done|]. case_bool_decide; [done|]. rewrite bool_decide_false by congruence. by apply IH.
Qed.

(** The last two elements of a path, or all of it. *)
Definition short_path (file : string) : string :=
  let ws := Split "/" file in Join_with "/" (drop (length ws - 2) ws).
Lemma trimPath_short file : trimPath file = short_path file.
Proof.
  unfold trimPath, short_path. destruct (cut_last "/" file) as [[dir base]|] eqn:E.
  2: { by rewrite Split_sep_free by by apply cut_last_None. }
  apply cut_last_Some in E as [-> Hb]. rewrite Split_app, (Split_sep_free "/" base Hb).
  destruct (cut_last "/" dir) as [[d0 d]|] eqn:E.
  2: { by rewrite Split_sep_free by by apply cut_last_None. }
  apply cut_last_Some in E as [-> Hd]. rewrite Split_app, (Split_sep_free "/" d Hd), <- app_assoc.
  rewrite length_app. simpl length. replace (length (Split "/" d0) + 2 - 2)%nat with (length (Split "/" d0)) by lia.
  by rewrite drop_app_length.
Qed.

(** ** Levels *)

Definition gates : list Z := [LevelError; LevelWarn; LevelInfo; LevelDebug; LevelTrace].
Lemma parseLevel_gate s l : parseLevel s = Ok l -> l ∈ gates.
Proof. unfold parseLevel. intros H. repeat case_bool_decide; simplify_eq; apply (bool_decide_unpack _); vm_compute; exact I. Qed.
Lemma parseLevel_levelName l : l ∈ gates -> parseLevel (levelName l) = Ok l.
Proof. intros H. repeat (apply elem_of_cons in H as [->|H]; [vm_compute; reflexivity|]). by apply not_elem_of_nil in H. Qed.
Lemma gates_bound l : l ∈ gates -> - 8 <= l <= 8 /\ (l <> LevelError -> l <= LevelWarn).
Proof.
  intros H. repeat (apply elem_of_cons in H as [->|H]; [by vm_compute|]). by apply not_elem_of_nil in H.
Qed.
Lemma parseFormat_idemp s f : parseFormat s = Ok f -> parseFormat f = Ok f /\ lg_format (newLogger 0 f) = f.
Proof. unfold parseFormat at 1. intros H. repeat case_bool_decide; simplify_eq; done. Qed.
Lemma wrap64_id z : int64_min <= z <= int64_max -> wrap64 z = z.
Proof. unfold wrap64, int64_min, int64_max. intros H. rewrite Z.mod_small; lia. Qed.
Lemma klogVerbosity_le lvl : int64_min < lvl <= int64_max -> klogVerbosity lvl = Z.max 0 (- lvl).
Proof. intros H. unfold klogVerbosity. rewrite wrap64_id; [done|]. unfold int64_min, int64_max in *. lia. Qed.
Lemma BridgeKlog_gate l : l ∈ gates -> BridgeKlog (levelName l) = Z.max 0 (- l).
Proof. intros H. repeat (apply elem_of_cons in H as [->|H]; [vm_compute; reflexivity|]). by apply not_elem_of_nil in H. Qed.

(** C36: Whatever the two variables hold, the process gets a working logger, and
    klog's verbosity follows its gate: the echoed settings are the effective
    ones and would be accepted again; a variable that does not parse falls back
    alone, with one warning (unless the gate is error); and klog lets through
    exactly the V(n) records that the gate renders, none deeper than V(8). *)
Theorem setupFromEnv_BridgeKlog getenv :
  let '(lg, level, format, warnings) := setupFromEnv getenv in
  parseLevel level = Ok (lg_level lg) /\ parseFormat format = Ok format /\ lg_format lg = format /\
  lg_level lg = (match parseLevel (getenv envLogLevel) with Ok l => l | Err _ => LevelInfo end) /\
  format = (match parseFormat (getenv envLogFormat) with Ok f => f | Err _ => "json" end) /\
  (lg_level lg <> LevelError -> length warnings =
     (length (option_list (err_of (parseLevel (getenv envLogLevel)))) +
      length (option_list (err_of (parseFormat (getenv envLogFormat)))))%nat) /\
  0 <= BridgeKlog level <= 8 /\
  (forall n, 0 < n -> (n <= BridgeKlog level <-> Enabled lg (- n) = true)).
Proof.
  unfold setupFromEnv. cbv beta iota zeta. set (lr := parseLevel (getenv envLogLevel)). set (fr := parseFormat (getenv envLogFormat)).
  set (lvl := match lr with Ok l => l | Err _ => LevelInfo end).
  assert (lvl ∈ gates) as Hg.
  { subst lvl. destruct lr eqn:E; [by eapply parseLevel_gate|]. apply (bool_decide_unpack _). vm_compute. exact I. }
  set (f := match fr with Ok f => f | Err _ => "json" end).
  assert (parseFormat f = Ok f /\ lg_format (newLogger 0 f) = f) as [Hf1 Hf2].
  { subst f. destruct fr eqn:E; [by eapply parseFormat_idemp|done]. }
  rewrite (BridgeKlog_gate lvl Hg). cbn [lg_level newLogger].
  destruct (gates_bound lvl Hg) as [Hb Hw].
  split_and!; [by apply parseLevel_levelName|done|exact Hf2|done|done| |lia|lia|].
  - intros Hne%Hw. rewrite length_app. unfold warn_if, Enabled. cbn [lg_level newLogger]. rewrite bool_decide_true by done.
    destruct lr, fr; done.
  - intros n Hn. unfold Enabled. cbn [lg_level newLogger]. rewrite bool_decide_eq_true. lia.
Qed.

(** An attribute of a call site: a plain value whose key the logger does not
    use for one of its own. *)
Definition own_attr (a : SAttr) : Prop :=
  match snd a with
  | VString _ | VInt _ | VAny (Some _) => True
  | VTime _ => fst a <> TimeKey
  | VLevel _ => fst a <> LevelKey
  | _ => False
  end.
Lemma own_attr_kept a : own_attr a -> appendAttr [] a = [a].
Proof.
  destruct a as [key v]. intros H. unfold appendAttr. rewrite append_attr_plain by by destruct v.
  assert (replaceAttr [] (key, v) = (key, v)) as ->.
  { unfold replaceAttr. destruct v as [| | | | |[]|]; repeat case_bool_decide; done. }
  destruct v as [| | | | |[]|], key; try done.
Qed.

Definition level_part (lvl : Z) : list SAttr :=
  (LevelKey, VString (levelName lvl)) :: (if bool_decide (lvl < 0) then [("v", VInt (- lvl))] else []).
Lemma level_rendered lvl : int64_min < lvl <= int64_max -> appendAttr [] (LevelKey, VLevel lvl) = level_part lvl.
Proof.
  intros H. unfold appendAttr, level_part. cbn [append_attr snd depth replaceAttr]. rewrite klogVerbosity_le by done.
  destruct (decide (0 <= lvl)).
  - rewrite (bool_decide_true (Z.max 0 (- lvl) = 0)) by lia. by rewrite (bool_decide_false (lvl < 0)) by lia.
  - rewrite (bool_decide_false (Z.max 0 (- lvl) = 0)) by lia. rewrite (bool_decide_true (lvl < 0)) by lia.
    by rewrite Z.max_r by lia.
Qed.

Definition caller_part (lg : Logger) (pc : option Source) : list SAttr :=
  match pc with
  | Some src => if bool_decide (lg_level lg <= LevelDebug /\ src_File src <> "")
                then [("caller", VString (short_path (src_File src) +:+ ":" +:+ FormatInt (src_Line src)))] else []
  | None => []
  end.
Lemma source_rendered lvl f pc :
  concat (map (appendAttr []) (if lg_addSource (newLogger lvl f)
     then [(SourceKey, VSource (default {| src_File := ""; src_Line := 0 |} pc))] else [])) =
  caller_part (newLogger lvl f) pc.
Proof.
  unfold caller_part. cbn [lg_addSource lg_level newLogger]. case_bool_decide as Hd.
  2: { destruct pc; [|done]. by rewrite bool_decide_false by tauto. }
  destruct pc as [src|]; [|done]. cbn [default List.map List.concat]. rewrite app_nil_r.
  unfold appendAttr. cbn [append_attr snd depth replaceAttr].
  destruct (decide (src_File src = "")) as [Hf|Hf].
  - rewrite (bool_decide_true (src_File src = "")) by done.
    rewrite (bool_decide_false (lvl <= LevelDebug /\ src_File src <> "")) by tauto. done.
  - rewrite (bool_decide_false (src_File src = "")) by done.
    rewrite (bool_decide_true (lvl <= LevelDebug /\ src_File src <> "")) by done. by rewrite <- trimPath_short.
Qed.

Lemma Handle_contract_run level format lg r :
  New level format = Ok lg -> Enabled lg (r_Level r) = true -> r_Level r <= int64_max ->
  Forall own_attr (r_Attrs r) ->
  Handle lg r = ([("ts", VString (Format_RFC3339Nano (r_Time r)))] ++ level_part (r_Level r) ++
    caller_part lg (r_PC r) ++ [("msg", VString (r_Message r))] ++ r_Attrs r)%list /\
  levelName (r_Level r) ∈ ["error"; "warn"; "info"; "debug"; "trace"] /\ - 8 <= r_Level r.
Proof.
  unfold New. intros HN He Hmax Ha. destruct (parseLevel level) as [lvl|] eqn:El; [|done].
  destruct (parseFormat format); [|done]. injection HN as <-. apply parseLevel_gate in El.
  destruct (gates_bound lvl El) as [Hb _].
  unfold Enabled in He. apply bool_decide_eq_true in He. cbn [lg_level newLogger] in *.
  split_and!; [| |lia].
  - unfold Handle. rewrite !List.map_app, !List.concat_app. cbn [List.map List.concat].
    rewrite level_rendered by (unfold int64_min; lia).
    rewrite own_attr_kept with (a := (MessageKey, _)) by done.
    assert (concat (map (appendAttr []) (r_Attrs r)) = r_Attrs r) as ->.
    { clear - Ha. induction Ha as [|a l Ha Hl IH]; [done|]. simpl. rewrite own_attr_kept by done. by rewrite IH. }
    change (appendAttr [] (TimeKey, VTime (r_Time r))) with [("ts", VString (Format_RFC3339Nano (r_Time r)))].
    rewrite !app_nil_r, <- !app_assoc. do 2 f_equal. by rewrite source_rendered.
  - clear. unfold levelName. repeat case_bool_decide; apply (bool_decide_unpack _); vm_compute; exact I.
Qed.

Lemma Handle_record level format lg r :
  New level format = Ok lg -> Enabled lg (r_Level r) = true -> r_Level r <= int64_max -> Forall own_attr (r_Attrs r) ->
  Handle lg r = ([("ts", VString (Format_RFC3339Nano (r_Time r)))] ++ level_part (r_Level r) ++
    caller_part lg (r_PC r) ++ [("msg", VString (r_Message r))] ++ r_Attrs r)%list.
Proof. intros. by eapply Handle_contract_run. Qed.


(** A trace logger and the record of a V(6) of klog. *)
Definition trace_record : Rec := {|
  r_Time := {| t_year := 2025; t_month := 1; t_day := 2; t_hour := 3; t_minute := 4; t_second := 5;
               t_nano := 120000000; t_offset := 0 |};
  r_Level := -6; r_Message := "gRPC call"; r_PC := Some {| src_File := "/go/src/kubeletplugin/draplugin.go"; src_Line := 12 |};
  r_Attrs := [("requestID", VInt 1); ("level", VString "kept")] |}.
