(* ===== verification/Regexp.v ===== *)
(** The part of package regexp the program uses beyond fixed-width patterns:
    classes, sequences, greedy repetition of a class and capturing groups, with
    leftmost-first matching of a whole text. *)
From S2P Require Import Prelude GoStd.
Open Scope string_scope.

Inductive re :=
  | Cls (p : ascii -> bool)
  | Star (p : ascii -> bool)
  | Seq (a b : re)
  | Cap (r : re)
  | Eps.

Definition Chr (c : ascii) : re := Cls (is_char c).
Definition Plus (p : ascii -> bool) : re := Seq (Cls p) (Star p).
Definition Rep (n : nat) (p : ascii -> bool) : re := Nat.iter n (Seq (Cls p)) Eps.
Definition Seqs (l : list re) : re := foldr Seq Eps l.

(** \d, \S and . *)
Definition re_digit (a : ascii) : bool := bool_decide (48 <= Ascii.nat_of_ascii a <= 57)%nat.
Definition re_nonspace (a : ascii) : bool :=
  negb (bool_decide (Ascii.nat_of_ascii a ∈ [9; 10; 12; 13; 32]%nat)).
Definition re_dot (a : ascii) : bool := negb (bool_decide (Ascii.nat_of_ascii a = 10%nat)).

(** All splits of a text into a run of a class and the rest, longest run first. *)
Fixpoint runs (p : ascii -> bool) (s : string) : list (string * string) :=
  match s with
  | "" => [("", "")]
  | String a s' => ((if p a then map (fun x => (String a (fst x), snd x)) (runs p s') else []) ++ [("", s)])%list
  end.

(** The ways to match a prefix, in order of preference: the groups captured, the
    text matched and the rest. *)
Fixpoint matches (r : re) (s : string) : list (list string * string * string) :=
  match r with
  | Cls p => match s with String a s' => if p a then [([], String a "", s')] else [] | "" => [] end
  | Star p => map (fun x => ([], fst x, snd x)) (runs p s)
  | Seq a b => m ← matches a s;
               m' ← matches b (snd m);
               [((fst (fst m) ++ fst (fst m'))%list, snd (fst m) +:+ snd (fst m'), snd m')]
  | Cap r => map (fun m => (snd (fst m) :: fst (fst m), snd (fst m), snd m)) (matches r s)
  | Eps => [([], "", s)]
  end.

(** [FindStringSubmatch] for a pattern between ^ and $, without the whole match. *)
Definition FindStringSubmatch (r : re) (s : string) : option (list string) :=
  fst ∘ fst <$> List.find (fun m => bool_decide (snd m = "")) (matches r s).

(** ** What a pattern means *)

Fixpoint all_chars (p : ascii -> bool) (s : string) : bool :=
  match s with "" => true | String a s' => p a && all_chars p s' end.

Inductive Match : re -> string -> list string -> Prop :=
  | m_Cls p a : p a = true -> Match (Cls p) (String a "") []
  | m_Star p s : all_chars p s = true -> Match (Star p) s []
  | m_Seq a b s t cs ds : Match a s cs -> Match b t ds -> Match (Seq a b) (s +:+ t) (cs ++ ds)%list
  | m_Cap r s cs : Match r s cs -> Match (Cap r) s (s :: cs)
  | m_Eps : Match Eps "" [].

Lemma string_app_nil_l (s : string) : "" +:+ s = s.
Proof. reflexivity. Qed.
Lemma string_app_cons a (s t : string) : String a s +:+ t = String a (s +:+ t).
Proof. reflexivity. Qed.

Lemma runs_spec p s x y : (x, y) ∈ runs p s <-> s = x +:+ y /\ all_chars p x = true.
Proof.
  revert x y. induction s as [|a s IH]; intros x y; simpl.
  - rewrite list_elem_of_singleton. split; [by intros [= -> ->]|]. destruct x; [|by intros [[=] _]]. intros [E _]. rewrite string_app_nil_l in E. by subst y.
  - rewrite elem_of_app, list_elem_of_singleton. split.
    + intros [H|[= -> ->]]; [|done]. destruct (p a) eqn:Ep; [|by apply not_elem_of_nil in H].
      change (map ?f ?l) with (f <$> l) in H. apply list_elem_of_fmap in H as ([x' y'] & [= -> ->] & H).
      apply IH in H as [-> Hx]. simpl. by rewrite Ep.
    + intros [E Hx]. destruct x as [|b x]; [right; by rewrite string_app_nil_l in E; subst y|]. left. rewrite string_app_cons in E. injection E as <- ->.
      simpl in Hx. apply andb_prop in Hx as [-> Hx]. change (map ?f ?l) with (f <$> l).
      apply list_elem_of_fmap. exists (x, y). split; [done|]. by apply IH.
Qed.

Lemma matches_spec r : forall s cs x y, (cs, x, y) ∈ matches r s <-> s = x +:+ y /\ Match r x cs.
Proof.
  induction r as [p|p|a IHa b IHb|r IH|]; intros s cs x y; simpl.
  - destruct s as [|c s].
    + split; [intros H; by apply not_elem_of_nil in H|]. intros [E H]. inversion H; subst. done.
    + destruct (p c) eqn:Ep.
      * rewrite list_elem_of_singleton. split; [intros [= -> -> ->]; split; [done|by constructor]|].
        intros [E H]. inversion H; subst. rewrite string_app_cons, string_app_nil_l in E. by injection E as -> ->.
      * split; [intros H; by apply not_elem_of_nil in H|]. intros [E H]. inversion H; subst.
        rewrite string_app_cons, string_app_nil_l in E. injection E as -> ->. congruence.
  - change (map ?f ?l) with (f <$> l). rewrite list_elem_of_fmap. split.
    + intros ([x' y'] & [= -> -> ->] & H). apply runs_spec in H as [-> H]. split; [done|by constructor].
    + intros [-> H]. inversion H; subst. exists (x, y). split; [done|]. by apply runs_spec.
  - rewrite list_elem_of_bind. split.
    + intros ([[cs1 x1] y1] & H & H1). apply list_elem_of_bind in H as ([[cs2 x2] y2] & H & H2).
      apply list_elem_of_singleton in H as [= -> -> ->]. simpl in H2. apply IHa in H1 as [-> H1]. apply IHb in H2 as [-> H2].
      split; [apply string_app_assoc|by constructor].
    + intros [-> H]. inversion H as [| |? ? s t cs1 cs2 H1 H2| |]; subst.
      exists (cs1, s, t +:+ y). split; [|apply IHa; split; [by rewrite string_app_assoc|done]].
      apply list_elem_of_bind. exists (cs2, t, y). split; [by apply list_elem_of_singleton|]. by apply IHb.
  - change (map ?f ?l) with (f <$> l). rewrite list_elem_of_fmap. split.
    + intros ([[cs' x'] y'] & [= -> -> ->] & H). apply IH in H as [-> H]. split; [done|by constructor].
    + intros [-> H]. inversion H as [| | |? ? cs' H'|]; subst. exists (cs', x, y). split; [done|]. by apply IH.
  - rewrite list_elem_of_singleton. split; [intros [= -> -> ->]; split; [done|constructor]|].
    intros [-> H]. by inversion H.
Qed.

Lemma FindStringSubmatch_Some r s cs : FindStringSubmatch r s = Some cs -> Match r s cs.
Proof.
  unfold FindStringSubmatch. destruct (List.find _ _) as [[[cs' x] y]|] eqn:E; [|done]. intros [= <-].
  apply List.find_some in E as [E Hy%bool_decide_eq_true]. simpl in Hy. subst y.
  apply list_elem_of_In, matches_spec in E as [-> H]. by rewrite string_app_nil_r.
Qed.
Lemma FindStringSubmatch_None r s : FindStringSubmatch r s = None -> forall cs, ~ Match r s cs.
Proof.
  unfold FindStringSubmatch. destruct (List.find _ _) as [[[cs' x] y]|] eqn:E; [done|]. intros _ cs H.
  eapply List.find_none in E; [|apply list_elem_of_In, (matches_spec r s cs s "")]; [done|].
  by rewrite string_app_nil_r.
Qed.
(** A pattern that captures in one way only captures that way. *)
Lemma FindStringSubmatch_det r s cs :
  (forall cs1 cs2, Match r s cs1 -> Match r s cs2 -> cs1 = cs2) -> Match r s cs -> FindStringSubmatch r s = Some cs.
Proof.
  intros Hdet H. destruct (FindStringSubmatch r s) as [cs'|] eqn:E.
  - f_equal. apply Hdet; [by apply FindStringSubmatch_Some|done].
  - by eapply FindStringSubmatch_None in E.
Qed.

(** A text made of characters of a class, not empty. *)
Definition nonempty_of (p : ascii -> bool) (s : string) : Prop := s <> "" /\ all_chars p s = true.

Lemma Match_Seq a b u cs :
  Match (Seq a b) u cs <-> exists s t c d, u = s +:+ t /\ cs = (c ++ d)%list /\ Match a s c /\ Match b t d.
Proof.
  split; [intros H; inversion H; subst; repeat eexists; eauto|intros (s & t & c & d & -> & -> & ? & ?); by constructor].
Qed.
Lemma Match_Eps u cs : Match Eps u cs <-> u = "" /\ cs = [].
Proof. split; [intros H; by inversion H|intros [-> ->]; constructor]. Qed.
Lemma Match_Cls p u cs : Match (Cls p) u cs <-> cs = [] /\ exists a, u = String a "" /\ p a = true.
Proof. split; [intros H; inversion H; eauto|intros (-> & a & -> & ?); by constructor]. Qed.
Lemma Match_Star p u cs : Match (Star p) u cs <-> cs = [] /\ all_chars p u = true.
Proof. split; [intros H; by inversion H|intros [-> ?]; by constructor]. Qed.
Lemma Match_Cap r u cs : Match (Cap r) u cs <-> exists d, cs = u :: d /\ Match r u d.
Proof. split; [intros H; inversion H; eauto|intros (d & -> & ?); by constructor]. Qed.
Lemma Match_Chr c u cs : Match (Chr c) u cs <-> cs = [] /\ u = String c "".
Proof.
  unfold Chr. rewrite Match_Cls. unfold is_char. setoid_rewrite bool_decide_eq_true. naive_solver.
Qed.
Lemma Match_Plus p u cs : Match (Plus p) u cs <-> cs = [] /\ nonempty_of p u.
Proof.
  unfold Plus, nonempty_of. rewrite Match_Seq. setoid_rewrite Match_Cls. setoid_rewrite Match_Star. split.
  - intros (s & t & c & d & -> & -> & (-> & a & -> & Ha) & -> & Ht). split; [done|]. rewrite string_app_cons, string_app_nil_l.
    split; [done|]. simpl. by rewrite Ha.
  - intros (-> & Hn & H). destruct u as [|a u]; [done|]. simpl in H. apply andb_prop in H as [Ha Hu].
    exists (String a ""), u, [], []. split_and!; eauto.
Qed.
Lemma Match_Rep n p u cs : Match (Rep n p) u cs <-> cs = [] /\ String.length u = n /\ all_chars p u = true.
Proof.
  revert u cs. induction n as [|n IH]; intros u cs.
  - change (Rep 0 p) with Eps. rewrite Match_Eps. destruct u; naive_solver.
  - change (Rep (S n) p) with (Seq (Cls p) (Rep n p)). rewrite Match_Seq. setoid_rewrite IH. setoid_rewrite Match_Cls. split.
    + intros (s & t & c & d & -> & -> & (-> & a & -> & Ha) & -> & <- & Ht). rewrite string_app_cons, string_app_nil_l.
      simpl. by rewrite Ha.
    + intros (-> & Hl & H). destruct u as [|a u]; [done|]. simpl in H, Hl. apply andb_prop in H as [Ha Hu].
      exists (String a ""), u, [], []. split_and!; eauto.
Qed.
Lemma Match_Seqs_cons r l u cs :
  Match (Seqs (r :: l)) u cs <-> exists s t c d, u = s +:+ t /\ cs = (c ++ d)%list /\ Match r s c /\ Match (Seqs l) t d.
Proof. apply Match_Seq. Qed.
Lemma Match_Seqs_nil u cs : Match (Seqs []) u cs <-> u = "" /\ cs = [].
Proof. apply Match_Eps. Qed.
Lemma Seqs_plain r l u v cs : Match r u [] -> Match (Seqs l) v cs -> Match (Seqs (r :: l)) (u +:+ v) cs.
Proof. intros. apply Match_Seqs_cons. by exists u, v, [], cs. Qed.
Lemma Seqs_cap r l u v cs : Match r u [] -> Match (Seqs l) v cs -> Match (Seqs (Cap r :: l)) (u +:+ v) (u :: cs).
Proof.
  intros. apply Match_Seqs_cons. exists u, v, [u], cs. split_and!; [done|done| |done]. apply Match_Cap. eauto.
Qed.

(** ** Texts and classes *)

Lemma string_app_inj_length s1 s2 t1 t2 :
  String.length s1 = String.length s2 -> s1 +:+ t1 = s2 +:+ t2 -> s1 = s2 /\ t1 = t2.
Proof.
  revert s2. induction s1 as [|a s1 IH]; intros [|b s2] Hl H; try done.
  rewrite !string_app_cons in H. injection H as -> H. injection Hl as Hl. by destruct (IH _ Hl H) as [-> ->].
Qed.
(** A run of a class ends where the class does. *)
Lemma string_app_inj_run p s1 s2 a1 a2 t1 t2 :
  all_chars p s1 = true -> all_chars p s2 = true -> p a1 = false -> p a2 = false ->
  s1 +:+ String a1 t1 = s2 +:+ String a2 t2 -> s1 = s2 /\ String a1 t1 = String a2 t2.
Proof.
  revert s2. induction s1 as [|c s1 IH]; intros [|d s2] H1 H2 Ha1 Ha2 H; [done| | |];
    rewrite ?string_app_cons, ?string_app_nil_l in H; simpl in H1, H2; injection H as E H.
  - subst d. by rewrite Ha1 in H2.
  - subst c. by rewrite Ha2 in H1.
  - apply andb_prop in H1 as [_ H1], H2 as [_ H2]. subst d. by destruct (IH _ H1 H2 Ha1 Ha2 H) as [-> ->].
Qed.
Lemma all_chars_impl (p q : ascii -> bool) s : (forall a, p a = true -> q a = true) -> all_chars p s = true -> all_chars q s = true.
Proof. intros H. induction s as [|a s IH]; simpl; [done|]. intros [Ha Hs]%andb_prop. by rewrite H, IH. Qed.
Lemma all_chars_app p s t : all_chars p (s +:+ t) = all_chars p s && all_chars p t.
Proof. induction s as [|a s IH]; [done|]. rewrite string_app_cons. simpl. by rewrite IH, andb_assoc. Qed.
Lemma all_chars_sep_free p c s : p c = false -> all_chars p s = true -> sep_free c s.
Proof.
  intros Hp. unfold sep_free. induction s as [|a s IH]; [done|]. simpl. intros [Ha Hs]%andb_prop.
  rewrite IH by done. rewrite bool_decide_false; [done|]. congruence.
Qed.
Lemma sep_free_app c s t : sep_free c s -> sep_free c t -> sep_free c (s +:+ t).
Proof. unfold sep_free. intros Hs Ht. by rewrite Contains_byte_app, Hs, Ht. Qed.
