(* ===== verification/Glog.v ===== *)
(** The bridges of third-party loggers (pkg/logging/glog.go and grpclog.go):
    the relay that turns each line on stderr into a record, and the adapter for
    grpc-go. *)
From S2P Require Import Prelude GoStd Logging Regexp.
Open Scope string_scope.
Open Scope Z_scope.

(** ** glog.go *)

(** The pattern [^([IWEF])\d{4} \d{2}:\d{2}:\d{2}\.\d{6} +\d+ (\S+:\d+)\] (.{0,})$], the
    last repetition written with a star. *)
Definition severity (a : ascii) : bool := bool_decide (a ∈ ["I"; "W"; "E"; "F"]%char).
Definition glogHeader : re := Seqs [
  Cap (Cls severity); Rep 4 re_digit; Chr " "; Rep 2 re_digit; Chr ":"; Rep 2 re_digit; Chr ":"; Rep 2 re_digit; Chr ".";
  Rep 6 re_digit; Plus (is_char " "); Plus re_digit; Chr " ";
  Cap (Seqs [Plus re_nonspace; Chr ":"; Plus re_digit]); Chr "]"; Chr " "; Cap (Star re_dot) ].

Definition newline : ascii := "010".
Definition eol (a : ascii) : bool := bool_decide (a ∈ [newline; "013"%char]).

(** The record of a line, if the gate lets it through. *)
Definition emitStderrLine (lg : Logger) (now : Time) (line : string) (withCaller : bool) : option Rec :=
  let '(lvl, msg, attrs) :=
    match FindStringSubmatch glogHeader line with
    | Some [m1; m2; m3] =>
        (if bool_decide (m1 = "W") then LevelWarn
         else if bool_decide (m1 = "E" \/ m1 = "F") then LevelError else LevelInfo,
         m3,
         ("logger", VString "glog") :: if withCaller then [("caller", VString m2)] else [])
    | _ => (LevelInfo, line, [("logger", VString "stderr")])
    end in
  if Enabled lg lvl
  then Some {| r_Time := now; r_Level := lvl; r_Message := msg; r_PC := None; r_Attrs := attrs |}
  else None.

(** bufio.Reader.ReadString on what is left of the stream: the text up to and
    including the separator, what follows, and whether the separator was found. *)
Fixpoint ReadString (sep : ascii) (s : string) : string * string * bool :=
  match s with
  | "" => ("", "", false)
  | String a s' =>
      if bool_decide (a = sep) then (String a "", s', true)
      else let '(line, rest, found) := ReadString sep s' in (String a line, rest, found)
  end.

Definition relay_line (lg : Logger) (now : Time) (withCaller : bool) (line : string) : list Rec :=
  let line := TrimRight eol line in
  if bool_decide (line = "") then [] else option_list (emitStderrLine lg now line withCaller).

(** The loop; [clock i] is the time at the i-th line. *)
Fixpoint relay_loop (fuel : nat) (lg : Logger) (clock : nat -> Time) (withCaller : bool) (i : nat) (s : string) : list Rec :=
  match fuel with
  | O => []
  | S fuel' =>
      let '(line, rest, found) := ReadString newline s in
      (relay_line lg (clock i) withCaller line ++
       if found then relay_loop fuel' lg clock withCaller (S i) rest else [])%list
  end.
(** Every turn but the last reads at least one byte. *)
Definition relayStderr (lg : Logger) (clock : nat -> Time) (withCaller : bool) (s : string) : list Rec :=
  relay_loop (S (String.length s)) lg clock withCaller 0 s.

(** BridgeGlog: without the flag of glog, or without a pipe, nothing is relayed. *)
Inductive Bridge := NotLinked | NoPipe | Relay (withCaller : bool).
Definition BridgeGlog (linked pipe_ok : bool) (level : string) : Bridge :=
  if negb linked then NotLinked else
  if negb pipe_ok then NoPipe else
  let lvl := match parseLevel level with Ok l => l | Err _ => LevelInfo end in
  Relay (bool_decide (lvl <= LevelDebug)).

(** ** grpclog.go *)

(** An operand of fmt: a string, or another value by its text. *)
Inductive Arg := AStr (s : string) | AOther (text : string).
Definition arg_text (a : Arg) : string := match a with AStr s | AOther s => s end.
Definition is_str (a : Arg) : bool := match a with AStr _ => true | AOther _ => false end.

(** fmt.Sprint puts a space between two operands neither of which is a string;
    fmt.Sprintln always does, and ends the line. *)
Fixpoint Sprint (args : list Arg) : string :=
  match args with
  | [] => ""
  | a :: rest =>
      arg_text a +:+ (match rest with b :: _ => if is_str a || is_str b then "" else " " | [] => "" end) +:+ Sprint rest
  end.
Definition Sprintln (args : list Arg) : string := Join_with " " (map arg_text args) +:+ String newline "".
Definition sprintlnTrim (args : list Arg) : string :=
  let s := Sprintln args in String.substring 0 (String.length s - 1) s.

(** The methods: a severity and a form; Sprintf's text is given. *)
Inductive Severity := Info | Warning | Error_ | Fatal.
Inductive Form := Print_ (args : list Arg) | Println (args : list Arg) | Printf (text : string).
Definition form_text (f : Form) : string :=
  match f with Print_ args => Sprint args | Println args => sprintlnTrim args | Printf text => text end.
Definition grpc_level (s : Severity) : Z :=
  match s with Info => LevelDebug | Warning => LevelWarn | Error_ | Fatal => LevelError end.

(** What a call leads to: the record that is handled, with the place in
    grpclog.go it is made at, and whether the process
    exits with status 1. *)
Definition grpcLogger_call (lg : Logger) (now : Time) (pc : Source) (s : Severity) (f : Form) : option Rec * bool :=
  (if Enabled lg (grpc_level s)
   then Some {| r_Time := now; r_Level := grpc_level s; r_Message := form_text f; r_PC := Some pc;
                r_Attrs := [("logger", VString "grpc")] |}
   else None,
   match s with Fatal => true | _ => false end).
Definition grpcLogger_V (lg : Logger) (l : Z) : bool := Enabled lg LevelDebug.

(** ** The relay *)

Lemma ReadString_Split c s :
  match ReadString c s with
  | (line, rest, true) => exists w, line = w +:+ String c "" /\ Split c s = w :: Split c rest /\
                                    (String.length rest < String.length s)%nat
  | (line, _, false) => line = s /\ Split c s = [s]
  end.
Proof.
  induction s as [|a s IH]; simpl; [done|]. case_bool_decide as Ha.
  - subst a. exists "". rewrite decide_True by done. split_and!; [done|done|lia].
  - rewrite decide_False by done. destruct (ReadString c s) as [[line rest] [|]].
    + destruct IH as (w & -> & -> & Hl). exists (String a w). split_and!; [done|done|lia].
    + destruct IH as [-> ->]. done.
Qed.

Lemma relay_line_newline lg now wc w : relay_line lg now wc (w +:+ String newline "") = relay_line lg now wc w.
Proof. unfold relay_line. by rewrite TrimRight_snoc. Qed.

Lemma relay_loop_lines lg clock wc fuel : forall i s, (String.length s < fuel)%nat ->
  relay_loop fuel lg clock wc i s =
  concat (imap (fun k line => relay_line lg (clock (i + k)%nat) wc line) (Split newline s)).
Proof.
  induction fuel as [|fuel IH]; intros i s Hl; [lia|]. cbn [relay_loop]. pose proof (ReadString_Split newline s) as H.
  destruct (ReadString newline s) as [[line rest] [|]].
  - destruct H as (w & -> & -> & Hr). rewrite relay_line_newline, IH by lia. cbn [imap List.concat].
    rewrite Nat.add_0_r. f_equal. f_equal. apply imap_ext. intros k x _. simpl. by rewrite Nat.add_succ_r.
  - destruct H as [-> ->]. simpl. by rewrite Nat.add_0_r.
Qed.

(** C35: The relay is the line-by-line map it is meant to be: whatever bytes come
    through the pipe, however they are cut into reads, each line, split at the
    line feeds and without its line ends, gives its record in order, an empty
    one none; the loop never waits for more than it was given. *)
Theorem relayStderr_lines lg clock withCaller s :
  relayStderr lg clock withCaller s =
  concat (imap (fun k line => relay_line lg (clock k) withCaller line) (Split newline s)).
Proof. apply relay_loop_lines. lia. Qed.

(** ** glog's header *)

(** A line of glog in its parts. *)
Record glog_line := {
  g_severity : ascii;
  g_date : string; g_hour : string; g_minute : string; g_second : string; g_micro : string;
  g_pad : string; g_thread : string; g_file : string; g_line : string; g_msg : string;
}.
Definition digits_of (n : nat) (s : string) : Prop := String.length s = n /\ all_chars re_digit s = true.
Record glog_ok (g : glog_line) : Prop := {
  ok_severity : severity (g_severity g) = true;
  ok_date : digits_of 4 (g_date g);
  ok_hour : digits_of 2 (g_hour g);
  ok_minute : digits_of 2 (g_minute g);
  ok_second : digits_of 2 (g_second g);
  ok_micro : digits_of 6 (g_micro g);
  ok_pad : nonempty_of (is_char " ") (g_pad g);
  ok_thread : nonempty_of re_digit (g_thread g);
  ok_file : nonempty_of re_nonspace (g_file g);
  ok_line : nonempty_of re_digit (g_line g);
  ok_msg : all_chars re_dot (g_msg g) = true;
}.
Definition g_caller (g : glog_line) : string := g_file g +:+ ":" +:+ g_line g.
(** [Lmmdd hh:mm:ss.uuuuuu threadid file:line] msg] *)
Definition print_glog (g : glog_line) : string :=
  String (g_severity g) (g_date g +:+ " " +:+ g_hour g +:+ ":" +:+ g_minute g +:+ ":" +:+ g_second g +:+ "." +:+
    g_micro g +:+ g_pad g +:+ g_thread g +:+ " " +:+ g_caller g +:+ "] " +:+ g_msg g).
Definition g_groups (g : glog_line) : list string := [String (g_severity g) ""; g_caller g; g_msg g].


Lemma Match_glogHeader s cs :
  Match glogHeader s cs <-> exists g, glog_ok g /\ s = print_glog g /\ cs = g_groups g.
Proof.
  unfold glogHeader. split.
  - intros H.
    repeat match goal with
    | H : Match (Seqs (_ :: _)) _ _ |- _ => apply Match_Seqs_cons in H as (? & ? & ? & ? & -> & -> & ? & ?)
    | H : Match (Seqs []) _ _ |- _ => apply Match_Seqs_nil in H as [-> ->]
    | H : Match (Cap _) _ _ |- _ => apply Match_Cap in H as (? & -> & ?)
    | H : Match (Chr _) _ _ |- _ => apply Match_Chr in H as [-> ->]
    | H : Match (Plus _) _ _ |- _ => apply Match_Plus in H as [-> ?]
    | H : Match (Rep _ _) _ _ |- _ => apply Match_Rep in H as (-> & ? & ?)
    | H : Match (Cls _) _ _ |- _ => apply Match_Cls in H as (-> & ? & -> & ?)
    | H : Match (Star _) _ _ |- _ => apply Match_Star in H as [-> ?]
    end.
    eexists (Build_glog_line _ _ _ _ _ _ _ _ _ _ _). rewrite !string_app_nil_r. split; [|split; reflexivity].
    by constructor.
  - intros (g & [] & -> & ->). unfold print_glog, g_groups.
    change (String (g_severity g) ?t) with (String (g_severity g) "" +:+ t).
    change (String (g_severity g) "" +:+ "") with (String (g_severity g) "").
    change ("] " +:+ g_msg g) with ("]" +:+ " " +:+ g_msg g).
    rewrite <- (string_app_nil_r (g_msg g)) at 1.
    repeat first [apply Seqs_cap | apply Seqs_plain]; first
      [ by apply Match_Seqs_nil | by apply Match_Chr | by apply Match_Plus | by apply Match_Rep
      | by apply Match_Star | by apply Match_Cls; eauto | idtac ].
    unfold g_caller. rewrite <- (string_app_nil_r (g_line g)).
    repeat apply Seqs_plain; first [ by apply Match_Seqs_nil | by apply Match_Chr | by apply Match_Plus ].
Qed.

Lemma cut_last_app c l r : sep_free c r -> cut_last c (l +:+ String c r) = Some (l, r).
Proof.
  intros Hr. induction l as [|a l IH].
  - rewrite string_app_nil_l. simpl. destruct (cut_last c r) as [[l' r']|] eqn:E; [|by rewrite bool_decide_true].
    apply cut_last_Some in E as [-> _]. unfold sep_free in Hr. rewrite Contains_byte_app in Hr. simpl in Hr.
    rewrite bool_decide_true in Hr by done. by rewrite orb_true_r in Hr.
  - rewrite string_app_cons. simpl. by rewrite IH.
Qed.
Lemma re_digit_nonspace a : re_digit a = true -> re_nonspace a = true.
Proof. destruct a as [[] [] [] [] [] [] [] []]; vm_compute; done. Qed.

Lemma caller_run f l : all_chars re_nonspace f = true -> all_chars re_digit l = true ->
  all_chars re_nonspace (f +:+ ":" +:+ l +:+ "]") = true.
Proof.
  intros Hf Hl. rewrite !all_chars_app, Hf. by rewrite (all_chars_impl _ _ _ re_digit_nonspace Hl).
Qed.

Lemma g_caller_inj g1 g2 t1 t2 : glog_ok g1 -> glog_ok g2 ->
  g_caller g1 +:+ "] " +:+ t1 = g_caller g2 +:+ "] " +:+ t2 -> g_caller g1 = g_caller g2 /\ t1 = t2.
Proof.
  intros H1 H2 H. unfold g_caller in *.
  assert (forall g t, (g_file g +:+ ":" +:+ g_line g) +:+ "] " +:+ t = (g_file g +:+ ":" +:+ g_line g +:+ "]") +:+ String " " t)
    as E by (intros; by rewrite <- !string_app_assoc).
  rewrite !E in H. apply (string_app_inj_run re_nonspace) in H as [H Ht]; [|by apply caller_run; [by apply ok_file|by apply ok_line]..|done|done].
  injection Ht as Ht. split; [|done]. apply (f_equal (cut_last ":")) in H.
  change (":" +:+ ?t) with (String ":" t) in H. rewrite !cut_last_app in H.
  2-3: apply sep_free_app; [apply (all_chars_sep_free re_digit); [done|by apply ok_line]|done].
  injection H as -> H. do 2 f_equal.
  by apply (string_app_inj_run re_digit _ _ "]" "]" "" "") in H as [-> _]; [|apply ok_line|apply ok_line|..].
Qed.

(** A line is printed from one set of parts only. *)
Lemma print_glog_inj g1 g2 : glog_ok g1 -> glog_ok g2 -> print_glog g1 = print_glog g2 -> g_groups g1 = g_groups g2.
Proof.
  intros H1 H2 H. unfold print_glog in H. injection H as Hs H. unfold g_groups. rewrite Hs.
  pose proof (fun t1 t2 => g_caller_inj g1 g2 t1 t2 H1 H2) as Hc.
  destruct H1 as [_ ? ? ? ? ? Hp1 [Ht1 Hd1] _ _ _], H2 as [_ ? ? ? ? ? Hp2 [Ht2 Hd2] _ _ _].
  assert (forall n s1 s2 t1 t2, digits_of n s1 -> digits_of n s2 -> s1 +:+ t1 = s2 +:+ t2 -> t1 = t2) as Hn
    by (intros n s1 s2 t1 t2 [? _] [? _] E; apply string_app_inj_length in E as [_ E]; congruence).
  do 4 (eapply Hn in H; [|eassumption..]; injection H as H; rewrite !string_app_nil_l in H).
  eapply Hn in H; [|eassumption..].
  destruct (g_thread g1) as [|a1 w1], (g_thread g2) as [|a2 w2]; try done.
  rewrite (string_app_cons a1), (string_app_cons a2) in H. 
  assert (forall a w, all_chars re_digit (String a w) = true -> is_char " " a = false) as Hsp.
  { intros a w E. simpl in E. apply andb_prop in E as [E _]. clear - E. by destruct a as [[] [] [] [] [] [] [] []]. }
  apply (string_app_inj_run (is_char " ")) in H as [_ H]; [|apply Hp1|apply Hp2|exact (Hsp _ _ Hd1)|exact (Hsp _ _ Hd2)].
  rewrite <- !string_app_cons in H. apply (string_app_inj_run re_digit _ _ " " " ") in H as [_ H]; [|done..].
  injection H as H. by apply Hc in H as [-> ->].
Qed.

Lemma glogHeader_exact s cs :
  FindStringSubmatch glogHeader s = Some cs <-> exists g, glog_ok g /\ s = print_glog g /\ cs = g_groups g.
Proof.
  rewrite <- Match_glogHeader. split; [apply FindStringSubmatch_Some|]. apply FindStringSubmatch_det.
  intros c1 c2 (g1 & H1 & -> & ->)%Match_glogHeader (g2 & H2 & E & ->)%Match_glogHeader. by apply print_glog_inj.
Qed.

(** ** A relayed line of glog *)

Lemma TrimRight_app p s n : s <> "" -> TrimRight p s = s -> TrimRight p n = n -> TrimRight p (s +:+ n) = s +:+ n.
Proof.
  intros Hne Hs Hn. induction s as [|a s IH]; [done|]. rewrite string_app_cons. cbn [TrimRight].
  cbn [TrimRight] in Hs. destruct (decide (s = "")) as [->|Hs'].
  - rewrite string_app_nil_l, Hn. simpl in Hs. destruct (p a) eqn:E; [done|]. by destruct n.
  - assert (TrimRight p s = s) as Et.
    { destruct (TrimRight p s) eqn:E; [|by injection Hs as <-]. by destruct (p a); [|injection Hs as <-]. }
    rewrite (IH Hs' Et). destruct (s +:+ n) eqn:E; [|done]. by destruct s.
Qed.

(** The level of a severity letter. *)
Definition glog_level (a : ascii) : Z :=
  if bool_decide (a = "W"%char) then LevelWarn
  else if bool_decide (a = "E"%char \/ a = "F"%char) then LevelError else LevelInfo.

Lemma emit_glog g lg now wc : glog_ok g ->
  emitStderrLine lg now (print_glog g) wc =
  if Enabled lg (glog_level (g_severity g))
  then Some {| r_Time := now; r_Level := glog_level (g_severity g); r_Message := g_msg g; r_PC := None;
               r_Attrs := ("logger", VString "glog") :: if wc then [("caller", VString (g_caller g))] else [] |}
  else None.
Proof.
  intros Hg. unfold emitStderrLine.
  rewrite (proj2 (glogHeader_exact (print_glog g) (g_groups g))) by eauto. unfold g_groups.
  destruct Hg as [Hs _ _ _ _ _ _ _ _ _ _]. revert Hs. unfold severity, glog_level. intros Hs%bool_decide_eq_true.
  repeat (apply elem_of_cons in Hs as [->|Hs]; [reflexivity|]). by apply not_elem_of_nil in Hs.
Qed.
Lemma print_glog_trimmed g : TrimRight eol (g_msg g) = g_msg g -> TrimRight eol (print_glog g) = print_glog g.
Proof.
  intros H. assert (exists pre, print_glog g = (pre +:+ "] ") +:+ g_msg g) as [pre ->].
  { unfold print_glog. rewrite <- !string_app_cons, !string_app_assoc. by eexists. }
  apply TrimRight_app; [by destruct pre|by apply TrimRight_keep|done].
Qed.
Lemma print_glog_nonempty g : print_glog g <> "".
Proof. done. Qed.

(** C34: glog's records survive the bridge: a line printed with glog's header,
    relayed to a logger of any gate and format, becomes exactly one record,
    rendered at glog's severity with its message, whatever brackets and colons
    it holds, under "msg", with glog's file and line, and no other caller, under
    "caller" at debug and below, or none where the gate is above the severity. *)
Theorem glog_line_rendered g level format lg now :
  glog_ok g -> TrimRight eol (g_msg g) = g_msg g -> New level format = Ok lg ->
  map (Handle lg) (relay_line lg now (bool_decide (lg_level lg <= LevelDebug)) (print_glog g)) =
  if bool_decide (lg_level lg <= glog_level (g_severity g))
  then [([("ts", VString (Format_RFC3339Nano now)); ("level", VString (levelName (glog_level (g_severity g))));
          ("msg", VString (g_msg g)); ("logger", VString "glog")] ++
         (if bool_decide (lg_level lg <= LevelDebug) then [("caller", VString (g_caller g))] else []))%list]
  else [].
Proof.
  intros Hg Ht HN. unfold relay_line. rewrite print_glog_trimmed by done. rewrite bool_decide_false by apply print_glog_nonempty.
  rewrite emit_glog by done. unfold Enabled. case_bool_decide as He; [|done]. change (map ?f (option_list (Some ?r))) with [f r].
  assert (0 <= glog_level (g_severity g) <= 8) as Hl by (unfold glog_level; repeat case_bool_decide; by vm_compute).
  rewrite (Handle_record level format lg _ HN); cbn [r_Level r_Time r_PC r_Message r_Attrs].
  - unfold level_part, caller_part. rewrite bool_decide_false by lia. by case_bool_decide.
  - unfold Enabled. by apply bool_decide_eq_true.
  - unfold int64_max. lia.
  - by case_bool_decide; repeat constructor.
Qed.

Definition glog_example : glog_line := {|
  g_severity := "E"; g_date := "0102"; g_hour := "03"; g_minute := "04"; g_second := "05"; g_micro := "123456";
  g_pad := "      "; g_thread := "17"; g_file := "rsd:group.go"; g_line := "42"; g_msg := "bus 0000:01:00.0] failed" |}.
Definition debug_logger : Logger := newLogger LevelDebug "json".
Lemma glog_example_ok : glog_ok glog_example.
Proof. split; vm_compute; done. Qed.
Lemma glog_line_rendered_witness :
  print_glog glog_example = "E0102 03:04:05.123456      17 rsd:group.go:42] bus 0000:01:00.0] failed" /\
  map (Handle debug_logger) (relay_line debug_logger (r_Time trace_record)
        (bool_decide (lg_level debug_logger <= LevelDebug)) (print_glog glog_example)) =
  [[("ts", VString "2025-01-02T03:04:05.12Z"); ("level", VString "error");
    ("msg", VString "bus 0000:01:00.0] failed"); ("logger", VString "glog"); ("caller", VString "rsd:group.go:42")]].
Proof.
  split; [vm_compute; reflexivity|].
  rewrite (glog_line_rendered glog_example "debug" "json" debug_logger (r_Time trace_record) glog_example_ok);
    vm_compute; reflexivity.
Defined.

(** ** The adapter for grpc-go *)

Lemma substring_all s t : String.substring 0 (String.length s) (s +:+ t) = s.
Proof. induction s as [|a s IH]; [by destruct t|]. rewrite string_app_cons. simpl. by rewrite IH. Qed.
Lemma length_string_app s t : String.length (s +:+ t) = (String.length s + String.length t)%nat.
Proof. induction s as [|a s IH]; [done|]. rewrite string_app_cons. simpl. by rewrite IH. Qed.
(** Only the line end is cut. *)
Lemma sprintlnTrim_text args : sprintlnTrim args = Join_with " " (map arg_text args).
Proof.
  unfold sprintlnTrim, Sprintln. rewrite length_string_app. simpl (String.length (String newline "")).
  rewrite Nat.add_sub. apply substring_all.
Qed.

(** V, which spares grpc-go the building of verbose records, is open exactly
    when its informational records are rendered, and only the Fatal family ends
    the process, having been logged if errors are. *)
Lemma grpcLogger_gate lg now pc s f l :
  (grpcLogger_V lg l = true <-> is_Some (grpcLogger_call lg now pc Info f).1) /\
  ((grpcLogger_call lg now pc s f).2 = true <-> s = Fatal) /\
  (grpcLogger_call lg now pc s f).1 =
    (if Enabled lg (grpc_level s)
     then Some {| r_Time := now; r_Level := grpc_level s; r_Message := form_text f; r_PC := Some pc;
                  r_Attrs := [("logger", VString "grpc")] |} else None).
Proof.
  unfold grpcLogger_V, grpcLogger_call. split; [|split; [by destruct s|done]].
  simpl. destruct (Enabled lg LevelDebug); simpl; [split; [intros _; by eexists|done]|split; [done|by intros [? [=]]]].
Qed.
