(* ===== verification/Webhook.v ===== *)
(** The validating admission webhook (cmd/webhook/main.go and resource.go): the
    HTTP handlers, the reading of a review, and the verdict on claims and
    templates. *)
From S2P Require Import Prelude GoStd Host.
Open Scope string_scope.

(** ** Kubernetes API types *)

Record GroupVersionResource := { Group : string; Version : string; Resource : string }.
Record GroupVersionKind := { k_Group : string; k_Version : string; Kind : string }.
#[export] Instance GroupVersionResource_eq_dec : EqDecision GroupVersionResource.
Proof. solve_decision. Defined.
#[export] Instance GroupVersionKind_eq_dec : EqDecision GroupVersionKind.
Proof. solve_decision. Defined.

(** admission/v1, without the fields the webhook neither reads nor writes. *)
Record AdmissionRequest := {
  rq_UID : string; rq_Resource : GroupVersionResource; rq_Raw : string;
}.
Record Status := { st_Message : string; st_Reason : string }.
Record AdmissionResponse := { rs_UID : string; Allowed : bool; Result : option Status }.
Record AdmissionReview := {
  rv_GVK : GroupVersionKind; rv_Request : option AdmissionRequest; rv_Response : option AdmissionResponse;
}.

(** What the deserializer may return: a review, or another registered type. *)
Inductive Object := ReviewObject (rv : AdmissionReview) | OtherObject (type : string).

Definition StatusReasonBadRequest : string := "BadRequest".

(** ** resource.go *)

Definition in_resource_group (version resource : string) : GroupVersionResource :=
  {| Group := "resource.k8s.io"; Version := version; Resource := resource |}.
Definition resourceClaimResourceV1 := in_resource_group "v1" "resourceclaims".
Definition resourceClaimTemplateResourceV1 := in_resource_group "v1" "resourceclaimtemplates".
Definition resourceClaimResourceV1Beta1 := in_resource_group "v1beta1" "resourceclaims".
Definition resourceClaimTemplateResourceV1Beta1 := in_resource_group "v1beta1" "resourceclaimtemplates".
Definition resourceClaimResourceV1Beta2 := in_resource_group "v1beta2" "resourceclaims".
Definition resourceClaimTemplateResourceV1Beta2 := in_resource_group "v1beta2" "resourceclaimtemplates".

(** The Go types an empty object is made of before decoding into it. *)
Inductive Into := Claim (version : string) | Template (version : string).
#[export] Instance Into_eq_dec : EqDecision Into.
Proof. solve_decision. Defined.

(** k8s.io/apimachinery and the registered scheme: decoding a review, decoding
    into a given object, conversion to v1, the text of a resource and the
    encoding of a review. *)
Class ApiMachinery := {
  ApiObject : Type;
  Decode : string -> res (Object * GroupVersionKind);
  DecodeInto : Into -> string -> res ApiObject;
  ConvertToV1 : Into -> ApiObject -> res ApiObject;
  GVR_String : GroupVersionResource -> string;
  Marshal : AdmissionReview -> res string;
}.

(** What reaches the connection: whether writing the bytes succeeds. *)
Class Connection := { connection_Write : string -> res unit }.

(** A request: no body, or the outcome of reading it whole. *)
Record HttpRequest := { Body : option (res string); ContentType : string }.
(** The response writer, and the records logged on the way. *)
Record Http := { h_code : option nat; h_ContentType : option string; h_body : string; h_logs : list LogRec }.
Definition fresh : Http := {| h_code := None; h_ContentType := None; h_body := ""; h_logs := [] |}.

Definition nil_request : err := ErrText "panic: invalid memory address or nil pointer dereference".

Section webhook.
Context {api : ApiMachinery} {conn : Connection}.

Definition w_log (l : Level) (msg : string) : M Http unit :=
  modify (fun h => {| h_code := h_code h; h_ContentType := h_ContentType h; h_body := h_body h;
                      h_logs := (h_logs h ++ [{| lr_level := l; lr_msg := msg |}])%list |}).
Definition setContentType (v : string) : M Http unit :=
  modify (fun h => {| h_code := h_code h; h_ContentType := Some v; h_body := h_body h; h_logs := h_logs h |}).
(** The first status sent stands. *)
Definition WriteHeader (code : nat) : M Http unit :=
  modify (fun h => {| h_code := match h_code h with Some c => Some c | None => Some code end;
                      h_ContentType := h_ContentType h; h_body := h_body h; h_logs := h_logs h |}).
(** The first Write sends the status 200; [h_body] is what was handed over. *)
Definition Write (data : string) : M Http unit :=
  do! WriteHeader 200 in
  do! modify (fun h => {| h_code := h_code h; h_ContentType := h_ContentType h; h_body := h_body h +:+ data;
                          h_logs := h_logs h |}) in
  of_res (connection_Write data).
(** http.Error *)
Definition http_Error (msg : string) (code : nat) : M Http unit :=
  do! setContentType "text/plain; charset=utf-8" in
  do! WriteHeader code in
  let? r := Write (msg +:+ String "010" "") in
  ret tt.

Definition extract (into : option Into) (rq : AdmissionRequest) : res ApiObject :=
  match into with
  | None => Err (ErrText ("unsupported resource version: " +:+ GVR_String (rq_Resource rq)))
  | Some into =>
      match DecodeInto into (rq_Raw rq) with
      | Err e => Err e
      | Ok obj => match ConvertToV1 into obj with
                  | Err e => Err (ErrWrap "failed to convert to v1: " e "")
                  | Ok v1 => Ok v1
                  end
      end
  end.
Definition extractResourceClaim (rq : AdmissionRequest) : res ApiObject :=
  let r := rq_Resource rq in
  extract (if bool_decide (r = resourceClaimResourceV1) then Some (Claim "v1")
           else if bool_decide (r = resourceClaimResourceV1Beta1) then Some (Claim "v1beta1")
           else if bool_decide (r = resourceClaimResourceV1Beta2) then Some (Claim "v1beta2")
           else None) rq.
Definition extractResourceClaimTemplate (rq : AdmissionRequest) : res ApiObject :=
  let r := rq_Resource rq in
  extract (if bool_decide (r = resourceClaimTemplateResourceV1) then Some (Template "v1")
           else if bool_decide (r = resourceClaimTemplateResourceV1Beta1) then Some (Template "v1beta1")
           else if bool_decide (r = resourceClaimTemplateResourceV1Beta2) then Some (Template "v1beta2")
           else None) rq.

(** ** main.go *)

Definition admissionReviewV1 : GroupVersionKind :=
  {| k_Group := "admission.k8s.io"; k_Version := "v1"; Kind := "AdmissionReview" |}.

Definition readAdmissionReview (data : string) : res AdmissionReview :=
  match Decode data with
  | Err e => Err (ErrWrap "request could not be decoded: " e "")
  | Ok (obj, gvk) =>
      if bool_decide (gvk <> admissionReviewV1) then Err (ErrText "unsupported group version kind") else
      match obj with
      | OtherObject t => Err (ErrText ("expected v1.AdmissionReview but got: " +:+ t))
      | ReviewObject rv =>
          match rv_Request rv with
          | None => Err (ErrText "AdmissionReview carries no request")
          | Some _ => Ok rv
          end
      end
  end.

Definition claimResources : list GroupVersionResource :=
  [resourceClaimResourceV1; resourceClaimResourceV1Beta1; resourceClaimResourceV1Beta2].
Definition templateResources : list GroupVersionResource :=
  [resourceClaimTemplateResourceV1; resourceClaimTemplateResourceV1Beta1; resourceClaimTemplateResourceV1Beta2].

Definition allow : AdmissionResponse := {| rs_UID := ""; Allowed := true; Result := None |}.
Definition refuse (msg : string) : AdmissionResponse :=
  {| rs_UID := ""; Allowed := false;
     Result := Some {| st_Message := msg; st_Reason := StatusReasonBadRequest |} |}.

(** A review without a request is a nil pointer to it. *)
Definition admitResourceClaimParameters (rv : AdmissionReview) : M Http AdmissionResponse :=
  match rv_Request rv with
  | None => throw nil_request
  | Some rq =>
      if bool_decide (rq_Resource rq ∈ claimResources) then
        match extractResourceClaim rq with
        | Err e => do! w_log LWarn "Rejected resource claim parameters" in ret (refuse (Error e))
        | Ok _ => ret allow
        end
      else if bool_decide (rq_Resource rq ∈ templateResources) then
        match extractResourceClaimTemplate rq with
        | Err e => do! w_log LWarn "Rejected resource claim template parameters" in ret (refuse (Error e))
        | Ok _ => ret allow
        end
      else
        do! w_log LWarn "Rejected request for unexpected resource" in
        ret (refuse ("expected resource to be one of [" +:+
               Join_with " " (map GVR_String (claimResources ++ templateResources)%list) +:+ "], got " +:+
               GVR_String (rq_Resource rq)))
  end.

(** The second half of serve: the review has been read. *)
Definition answer (admitting : AdmissionReview -> M Http AdmissionResponse) (rv : AdmissionReview) : M Http unit :=
  match rv_Request rv with
  | None => throw nil_request
  | Some rq =>
      let! response := admitting rv in
      let review := {| rv_GVK := rv_GVK rv; rv_Request := None;
                       rv_Response := Some {| rs_UID := rq_UID rq; Allowed := Allowed response; Result := Result response |} |} in
      do! w_log LDebug "Sending admission response" in
      match Marshal review with
      | Err e =>
          do! w_log LError "Failed to marshal admission response" in
          http_Error (Error e) 500
      | Ok respBytes =>
          do! setContentType "application/json" in
          let? r := Write respBytes in
          match r with
          | Ok _ => ret tt
          | Err _ => w_log LError "Failed to write admission response"
          end
      end
  end.

Definition serve (admitting : AdmissionReview -> M Http AdmissionResponse) (r : HttpRequest) : M Http unit :=
  match Body r with
  | Some (Err e) =>
      do! w_log LError "Failed to read request body" in
      http_Error (Error e) 500
  | body =>
      let data := match body with Some (Ok s) => s | _ => "" end in
      if bool_decide (ContentType r <> "application/json") then
        do! w_log LWarn "Rejected request with unexpected content type" in
        http_Error ("contentType=" +:+ ContentType r +:+ ", expected application/json") 415
      else
        do! w_log LTrace "Handling admission request" in
        match readAdmissionReview data with
        | Err e =>
            do! w_log LWarn "Failed to read AdmissionReview from request body" in
            http_Error ("failed to read AdmissionReview from request body: " +:+ Error e) 400
        | Ok rv => answer admitting rv
        end
  end.

Definition serveResourceClaim (r : HttpRequest) : M Http unit := serve admitResourceClaimParameters r.

Definition readyHandler (r : HttpRequest) : M Http unit :=
  let? w := Write "ok" in
  match w with Ok _ => ret tt | Err e => http_Error (Error e) 500 end.

(** The registrations of newMux. *)
Definition newMux : list (string * (HttpRequest -> M Http unit)) :=
  [("/validate-resource-claim-parameters", serveResourceClaim); ("/readyz", readyHandler)].
End webhook.

(** ** The contract of the endpoint *)

Section contract.
Context {api : ApiMachinery} {conn : Connection}.
Implicit Types h : Http.

(** The six resources, with the type each is decoded as. *)
Definition served_resources : list (GroupVersionResource * Into) :=
  [(resourceClaimResourceV1, Claim "v1"); (resourceClaimResourceV1Beta1, Claim "v1beta1");
   (resourceClaimResourceV1Beta2, Claim "v1beta2"); (resourceClaimTemplateResourceV1, Template "v1");
   (resourceClaimTemplateResourceV1Beta1, Template "v1beta1"); (resourceClaimTemplateResourceV1Beta2, Template "v1beta2")].
Definition parameters_ok (rq : AdmissionRequest) : Prop :=
  exists into obj v1, (rq_Resource rq, into) ∈ served_resources /\
    DecodeInto into (rq_Raw rq) = Ok obj /\ ConvertToV1 into obj = Ok v1.
Definition verdict (rq : AdmissionRequest) (resp : AdmissionResponse) : Prop :=
  (Allowed resp = true <-> parameters_ok rq) /\
  (Allowed resp = false -> exists msg, Result resp = Some {| st_Message := msg; st_Reason := StatusReasonBadRequest |}).
Definition reply (rv : AdmissionReview) (rq : AdmissionRequest) (resp : AdmissionResponse) : AdmissionReview :=
  {| rv_GVK := rv_GVK rv; rv_Request := None;
     rv_Response := Some {| rs_UID := rq_UID rq; Allowed := Allowed resp; Result := Result resp |} |}.

(** A v1 review that carries a request. *)
Definition is_review (data : string) (rv : AdmissionReview) (rq : AdmissionRequest) : Prop :=
  Decode data = Ok (ReviewObject rv, admissionReviewV1) /\ rv_Request rv = Some rq.
Definition body_data (r : HttpRequest) : option string :=
  match Body r with None => Some "" | Some (Ok data) => Some data | Some (Err _) => None end.

Inductive served (r : HttpRequest) (h : Http) : Prop :=
  | sv_unreadable : body_data r = None -> h_code h = Some 500%nat -> served r h
  | sv_media data : body_data r = Some data -> ContentType r <> "application/json" -> h_code h = Some 415%nat -> served r h
  | sv_bad data : body_data r = Some data -> ContentType r = "application/json" ->
      (forall rv rq, ~ is_review data rv rq) -> h_code h = Some 400%nat -> served r h
  | sv_unencodable data rv rq resp e : body_data r = Some data -> ContentType r = "application/json" ->
      is_review data rv rq -> verdict rq resp -> Marshal (reply rv rq resp) = Err e ->
      h_code h = Some 500%nat -> served r h
  | sv_answered data rv rq resp bytes : body_data r = Some data -> ContentType r = "application/json" ->
      is_review data rv rq -> verdict rq resp -> Marshal (reply rv rq resp) = Ok bytes ->
      h_code h = Some 200%nat -> h_ContentType h = Some "application/json" -> h_body h = bytes -> served r h.

Definition same_response h h' : Prop := h_code h' = h_code h /\ h_ContentType h' = h_ContentType h /\ h_body h' = h_body h.

Lemma extract_Ok into rq : (exists v1, extract (Some into) rq = Ok v1) <->
  exists obj v1, DecodeInto into (rq_Raw rq) = Ok obj /\ ConvertToV1 into obj = Ok v1.
Proof.
  unfold extract. destruct (DecodeInto into _) as [obj|e]; [|by split; [intros [? [=]]|intros (? & ? & [=] & _)]].
  split.
  - intros [v1 H]. exists obj, v1. by destruct (ConvertToV1 into obj); simplify_eq.
  - intros (obj' & v1 & [= <-] & ->). by exists v1.
Qed.

Lemma NoDup_fst_fun {A B} (l : list (A * B)) a b1 b2 : NoDup (l.*1) -> (a, b1) ∈ l -> (a, b2) ∈ l -> b1 = b2.
Proof.
  induction l as [|[a' b'] l IH]; [intros _ H; by apply not_elem_of_nil in H|].
  rewrite fmap_cons, NoDup_cons. intros [Hn Hd] H1 H2.
  assert (forall b, (a', b) ∈ l -> False) as Hf by (intros b Hb; apply Hn, list_elem_of_fmap; by exists (a', b)).
  apply elem_of_cons in H1 as [[= -> ->]|H1], H2 as [H2|H2]; [by simplify_eq|by destruct (Hf b2)| |by apply IH].
  simplify_eq. by destruct (Hf b1).
Qed.
Lemma served_resources_fun r i1 i2 : (r, i1) ∈ served_resources -> (r, i2) ∈ served_resources -> i1 = i2.
Proof. apply NoDup_fst_fun. apply (bool_decide_unpack _). vm_compute. exact I. Qed.

Lemma verdict_of (into : Into) rq e msg : (rq_Resource rq, into) ∈ served_resources ->
  (extract (Some into) rq = e) -> 
  verdict rq (match e with Ok _ => allow | Err _ => refuse msg end).
Proof.
  intros Hin <-. pose proof (extract_Ok into rq) as He.
  assert (parameters_ok rq <-> exists v1, extract (Some into) rq = Ok v1) as Hp.
  { rewrite He. split; [|intros (obj & v1 & H1 & H2); by exists into, obj, v1].
    intros (into' & obj & v1 & Hin' & H1 & H2). rewrite (served_resources_fun _ _ _ Hin Hin'). eauto. }
  destruct (extract _ _) as [v1|e']; unfold verdict; rewrite Hp; simpl; split; try done; [naive_solver| |by eauto].
  split; [done|]. by intros [v1 [=]].
Qed.

Lemma admit_verdict rv rq h : rv_Request rv = Some rq ->
  exists h' resp, admitResourceClaimParameters rv h = (h', Ok resp) /\ verdict rq resp /\ same_response h h'.
Proof.
  intros Hrq. unfold admitResourceClaimParameters. rewrite Hrq.
  unfold claimResources, templateResources.
  case_bool_decide as Hc; [|case_bool_decide as Ht].
  - unfold extractResourceClaim. match goal with |- context [extract ?x rq] => set (o := x) end.
    assert (exists into, o = Some into /\ (rq_Resource rq, into) ∈ served_resources) as (into & -> & Hin).
    { subst o. repeat (apply elem_of_cons in Hc as [Hc|Hc]; [rewrite Hc; eexists; split; [reflexivity|];
        apply (bool_decide_unpack _); vm_compute; exact I|]). by apply not_elem_of_nil in Hc. }
    destruct (extract (Some into) rq) as [v1|e] eqn:E.
    + exists h, allow. split; [done|]. split; [|done]. exact (verdict_of into rq _ "" Hin E).
    + do 2 eexists. split; [reflexivity|]. split; [exact (verdict_of into rq _ _ Hin E)|done].
  - unfold extractResourceClaimTemplate. match goal with |- context [extract ?x rq] => set (o := x) end.
    assert (exists into, o = Some into /\ (rq_Resource rq, into) ∈ served_resources) as (into & -> & Hin).
    { subst o. repeat (apply elem_of_cons in Ht as [Ht|Ht]; [rewrite Ht; eexists; split; [reflexivity|];
        apply (bool_decide_unpack _); vm_compute; exact I|]). by apply not_elem_of_nil in Ht. }
    destruct (extract (Some into) rq) as [v1|e] eqn:E.
    + exists h, allow. split; [done|]. split; [|done]. exact (verdict_of into rq _ "" Hin E).
    + do 2 eexists. split; [reflexivity|]. split; [exact (verdict_of into rq _ _ Hin E)|done].
  - do 2 eexists. split; [reflexivity|]. split; [|done]. split; [|by eauto]. split; [done|].
    intros (into & _ & _ & Hin & _). exfalso.
    assert (rq_Resource rq ∈ (claimResources ++ templateResources)%list) as [H|H]%elem_of_app; [|done|done].
    apply (list_elem_of_fmap_2 fst) in Hin. revert Hin. unfold served_resources, claimResources, templateResources. simpl. set_solver.
Qed.

Lemma readAdmissionReview_Ok data rv :
  readAdmissionReview data = Ok rv <-> exists rq, is_review data rv rq.
Proof.
  unfold readAdmissionReview, is_review. split.
  - destruct (Decode data) as [[obj gvk]|e]; [|done]. case_bool_decide as Hk; [done|].
    destruct obj as [rv'|]; [|done]. destruct (rv_Request rv') as [rq|] eqn:E; [|done]. intros [= ->]. exists rq. split; [|done].
    by rewrite Hk.
  - intros (rq & -> & E). rewrite bool_decide_false by tauto. by rewrite E.
Qed.

Lemma http_Error_code msg code h : h_code h = None ->
  exists h', http_Error msg code h = (h', Ok tt) /\ h_code h' = Some code /\ h_logs h' = h_logs h.
Proof.
  intros H. unfold http_Error, Write, setContentType, WriteHeader, bind, try, modify, of_res, ret. simpl. rewrite H.
  by eexists.
Qed.

Definition loud (l : LogRec) : Prop := lr_level l = LWarn \/ lr_level l = LError.
Lemma log_Error l msg text code h : h_code h = None -> l = LWarn \/ l = LError ->
  exists h', (do! w_log l msg in http_Error text code) h = (h', Ok tt) /\ h_code h' = Some code /\ Exists loud (h_logs h').
Proof.
  intros H Hl. destruct (http_Error_code text code (fst (w_log l msg h))) as (h' & E & Hc & Hlogs); [done|].
  exists h'. split_and!; [exact E|done|]. rewrite Hlogs. simpl. apply Exists_app. right. by constructor.
Qed.

Lemma answer_served rv rq h : rv_Request rv = Some rq -> h_code h = None -> exists h' resp,
  answer admitResourceClaimParameters rv h = (h', Ok tt) /\ verdict rq resp /\
  match Marshal (reply rv rq resp) with
  | Err e => h_code h' = Some 500%nat /\ Exists loud (h_logs h')
  | Ok bytes => h_code h' = Some 200%nat /\ h_ContentType h' = Some "application/json" /\ h_body h' = h_body h +:+ bytes
  end.
Proof.
  intros Hrq Hc. destruct (admit_verdict rv rq h Hrq) as (h1 & resp & E & Hv & Hs1 & Hs2 & Hs3).
  unfold answer. rewrite Hrq. unfold bind at 1. rewrite E. fold (reply rv rq resp). rewrite Hc in Hs1.
  unfold bind at 1. change (w_log LDebug ?m h1) with (fst (w_log LDebug m h1), @Ok unit tt).
  set (h2 := fst _). assert (h_code h2 = None) as Hc2 by done.
  destruct (Marshal (reply rv rq resp)) as [bytes|e] eqn:Em.
  - unfold setContentType, Write, WriteHeader, bind, try, modify, of_res, ret. simpl. rewrite Hs1.
    destruct (connection_Write bytes); do 2 eexists; (split; [reflexivity|]); rewrite Em; simpl; rewrite Hs3; done.
  - destruct (log_Error LError "Failed to marshal admission response" (Error e) 500 h2 Hc2) as (h' & E' & Hr); [by right|].
    exists h', resp. split; [exact E'|]. by rewrite Em.
Qed.

Lemma bind_log {A} l msg (m : M Http A) h : (do! w_log l msg in m) h = m (fst (w_log l msg h)).
Proof. done. Qed.
Lemma serve_data r data : body_data r = Some data ->
  serve admitResourceClaimParameters r =
  if bool_decide (ContentType r <> "application/json") then
    do! w_log LWarn "Rejected request with unexpected content type" in
    http_Error ("contentType=" +:+ ContentType r +:+ ", expected application/json") 415
  else
    do! w_log LTrace "Handling admission request" in
    match readAdmissionReview data with
    | Err e =>
        do! w_log LWarn "Failed to read AdmissionReview from request body" in
        http_Error ("failed to read AdmissionReview from request body: " +:+ Error e) 400
    | Ok rv => answer admitResourceClaimParameters rv
    end.
Proof. unfold body_data, serve. by destruct (Body r) as [[?|?]|]; intros [= ->]. Qed.

(** C33: The endpoint answers every request, whatever body, content type and
    object it carries and whether or not the connection still takes bytes: it
    never fails on a review without a request; 500 means an unreadable body or
    an answer that could not be encoded, 415 another content type, 400 a body
    that is not a v1 review with a request; every other request is answered
    with 200 and a review of the same kind, holding the request's own UID and
    allowed exactly when the object is one of the six known resources, decodes
    as its type and converts to v1, and otherwise refused as a bad request with
    a message. What is not answered with 200 is logged as a warning or error. *)
Theorem serveResourceClaim_outcome r :
  let '(h, res) := serveResourceClaim r fresh in
  res = Ok tt /\ served r h /\ (h_code h <> Some 200%nat -> Exists loud (h_logs h)).
Proof.
  unfold serveResourceClaim. destruct (body_data r) as [data|] eqn:Ed.
  2: { unfold body_data in Ed. destruct (Body r) as [[?|e]|] eqn:Eb; try done. unfold serve. rewrite Eb.
       destruct (log_Error LError "Failed to read request body" (Error e) 500 fresh) as (h & -> & Hc & Hl); [done|by right|].
       split_and!; [done|apply sv_unreadable; [unfold body_data; by rewrite Eb|done]|done]. }
  rewrite (serve_data r data Ed). case_bool_decide as Ht.
  { edestruct (log_Error LWarn) as (h & -> & Hc & Hl); [..|split_and!; [done|by eapply sv_media|done]]; [done|by left]. }
  rewrite bind_log. destruct (readAdmissionReview data) as [rv|e] eqn:Er.
  - apply readAdmissionReview_Ok in Er as [rq Hrv].
    edestruct (answer_served rv rq) as (h' & resp & -> & Hv & Hm); [apply Hrv| |]; [|split; [done|]]; [done|].
    destruct (Marshal _) as [bytes|e] eqn:Em.
    + destruct Hm as (Hc & Ht' & Hb). split; [by eapply sv_answered|by rewrite Hc].
    + destruct Hm as [Hc Hl]. split; [by eapply sv_unencodable|done].
  - edestruct (log_Error LWarn) as (h & -> & Hc & Hl); [..|split_and!; [done| |done]]; [done|by left|].
    eapply sv_bad; try done. intros rv rq Hrv.
    rewrite (proj2 (readAdmissionReview_Ok data rv)) in Er by by exists rq. done.
Qed.
End contract.

(** ** A run *)

(** Bodies and objects by name; a connection that is gone. *)
Definition toy_review (resource raw : string) : AdmissionReview :=
  {| rv_GVK := admissionReviewV1; rv_Response := None;
     rv_Request := Some {| rq_UID := "705ab4f5"; rq_Resource := in_resource_group "v1" resource; rq_Raw := raw |} |}.
Definition toy_api : ApiMachinery := {|
  ApiObject := string;
  Decode data := if bool_decide (data = "claim") then Ok (ReviewObject (toy_review "resourceclaims" "{}"), admissionReviewV1)
    else if bool_decide (data = "pod") then Ok (ReviewObject (toy_review "pods" "{}"), admissionReviewV1)
    else if bool_decide (data = "empty") then
      Ok (ReviewObject {| rv_GVK := admissionReviewV1; rv_Request := None; rv_Response := None |}, admissionReviewV1)
    else Err (ErrText "yaml");
  DecodeInto _ raw := if bool_decide (raw = "{}") then Ok raw else Err (ErrText "strict decoding error");
  ConvertToV1 _ o := Ok o;
  GVR_String r := Group r +:+ "/" +:+ Version r +:+ ", Resource=" +:+ Resource r;
  Marshal rv := Ok (match rv_Response rv with
                    | Some rs => rs_UID rs +:+ (if Allowed rs then " allowed" else " refused") | None => "" end) |}.
Definition gone : Connection := {| connection_Write _ := Err (ErrText "broken pipe") |}.
Definition post (body : string) : option nat * string :=
  let h := (@serveResourceClaim toy_api gone {| Body := Some (Ok body); ContentType := "application/json" |} fresh).1 in
  (h_code h, h_body h).
Example endpoint_runs :
  post "claim" = (Some 200%nat, "705ab4f5 allowed") /\ post "pod" = (Some 200%nat, "705ab4f5 refused") /\
  (post "empty").1 = Some 400%nat /\ (post "").1 = Some 400%nat.
Proof. vm_compute. done. Qed.
