(* ===== verification/Cli.v ===== *)
(** The two commands (cmd/npu-kubelet-plugin/main.go, pkg/flags/kubeclient.go and
    cmd/webhook/main.go, their functions main, newApp and Flags): the flags that
    are declared, what is stored where, and what is run with it. *)
From Stdlib Require Import SpecFloat.
From S2P Require Import Prelude GoStd Host PciSysfs Device Sriov Vfio Validate RsdGroup Claim Fs.
From S2P Require Import Metadata Cdi Checkpoint Discovery Inventory Scan Prepare Flags Health Driver.
From S2P Require Import Plugin Logging Glog Webhook.
Open Scope string_scope.

(** ** urfave/cli *)

Record FlagInfo := { Name : string; Aliases : list string; EnvVars : list string; Required : bool }.
(** A declaration: the default, and what is done with the value. *)
Inductive CliFlag (D : Type) :=
  | StringFlag (i : FlagInfo) (Value : string) (Destination : string -> D -> D)
  | Float64Flag (i : FlagInfo) (Value : spec_float) (Destination : spec_float -> D -> D)
  | IntFlag (i : FlagInfo) (Value : Z) (Destination : Z -> D -> D)
  | DurationFlag (i : FlagInfo) (Value : Z) (Destination : Z -> D -> D).
Arguments StringFlag {D}.
Arguments Float64Flag {D}.
Arguments IntFlag {D}.
Arguments DurationFlag {D}.
Definition info {D} (f : CliFlag D) : FlagInfo :=
  match f with StringFlag i _ _ | Float64Flag i _ _ | IntFlag i _ _ | DurationFlag i _ _ => i end.

(** What the command line and the environment come to: the end of the run, after
    help was printed or for an error; or the text of each flag that was given
    and the arguments left. *)
Inductive parsed := Exit (r : res unit) | Values (text : FlagInfo -> option string) (args : list string).
Class UrfaveCli := {
  cli_parse : list FlagInfo -> list string -> (string -> option string) -> parsed;
  cli_float64 : string -> res spec_float;
  cli_int : string -> res Z;
  cli_duration : string -> res Z;
}.

Definition first_set (env : string -> option string) (vars : list string) : option string := head (omap env vars).

(** Documented: without arguments each flag takes the first of its variables that
    is set; a required flag that has none is an error. *)
Class CliEnv `{UrfaveCli} := {
  env_required infos prog env i :
    (forall k t, env k = Some t -> t <> "") -> i ∈ infos -> Required i = true -> first_set env (EnvVars i) = None ->
    exists e, cli_parse infos [prog] env = Exit (Err e);
  env_values infos prog env :
    (forall k t, env k = Some t -> t <> "") ->
    (forall i, i ∈ infos -> Required i = true -> first_set env (EnvVars i) <> None) ->
    cli_parse infos [prog] env = Values (fun i => first_set env (EnvVars i)) [];
}.

Record App (D S : Type) := {
  app_Name : string;
  app_Flags : list (CliFlag D);
  Before : list string -> res unit;
  Action : D -> M S unit;
}.
Arguments app_Name {D S}.
Arguments app_Flags {D S}.
Arguments Before {D S}.
Arguments Action {D S}.

Section cli.
Context {cli : UrfaveCli}.

Definition given {A} (conv : string -> res A) (Value : A) (o : option string) : res A :=
  match o with Some t => conv t | None => Ok Value end.
Definition store {D} (text : FlagInfo -> option string) (f : CliFlag D) (d : D) : res D :=
  match f with
  | StringFlag i v dest => res_bind (given Ok v (text i)) (fun x => Ok (dest x d))
  | Float64Flag i v dest => res_bind (given cli_float64 v (text i)) (fun x => Ok (dest x d))
  | IntFlag i v dest => res_bind (given cli_int v (text i)) (fun x => Ok (dest x d))
  | DurationFlag i v dest => res_bind (given cli_duration v (text i)) (fun x => Ok (dest x d))
  end.
Fixpoint store_all {D} (text : FlagInfo -> option string) (fs : list (CliFlag D)) (d : D) : res D :=
  match fs with [] => Ok d | f :: fs' => res_bind (store text f d) (store_all text fs') end.

(** [zero] is what the flags point into, before. *)
Definition Run {D S} (app : App D S) (zero : D) (args : list string) (env : string -> option string) : M S unit :=
  match cli_parse (map info (app_Flags app)) args env with
  | Exit r => of_res r
  | Values text rest_args =>
      let! d := of_res (store_all text (app_Flags app) zero) in
      do! of_res (Before app rest_args) in
      Action app d
  end.
End cli.

(** The function Before of both commands. *)
Definition no_arguments (args : list string) : res unit :=
  if bool_decide (0 < length args)%nat
  then Err (ErrText ("arguments not supported: [" +:+ Join_with " " args +:+ "]"))
  else Ok tt.

(** os.Getenv *)
Definition Getenv (env : string -> option string) (k : string) : string := default "" (env k).

(** ** The node agent *)

(** kubeletplugin *)
Class KubeletPaths := { KubeletRegistryDir : string; KubeletPluginsDir : string }.

Definition float64 (z : Z) : spec_float := binary_normalize 53 1024 z 0 false.
Definition flag (Name : string) (EnvVars : list string) : FlagInfo :=
  {| Name := Name; Aliases := []; EnvVars := EnvVars; Required := false |}.
Definition required (i : FlagInfo) : FlagInfo :=
  {| Name := Name i; Aliases := Aliases i; EnvVars := EnvVars i; Required := true |}.
Definition alias (a : string) (i : FlagInfo) : FlagInfo :=
  {| Name := Name i; Aliases := a :: Aliases i; EnvVars := EnvVars i; Required := Required i |}.

Definition upd_flags (k : KubeClientConfig -> KubeClientConfig) (node cdi reg plugins : string -> string) (port scan : Z -> Z)
    (f : Flags) : Flags :=
  {| kubeClientConfig := k (kubeClientConfig f); nodeName := node (nodeName f); cdiRoot := cdi (cdiRoot f);
     kubeletRegistrarDirectoryPath := reg (kubeletRegistrarDirectoryPath f);
     kubeletPluginsDirectoryPath := plugins (kubeletPluginsDirectoryPath f);
     healthcheckPort := port (healthcheckPort f); deviceScanInterval := scan (deviceScanInterval f) |}.
Definition zero_flags : Flags := {|
  kubeClientConfig := {| KubeConfig := ""; KubeAPIQPS := S754_zero false; KubeAPIBurst := 0 |};
  nodeName := ""; cdiRoot := ""; kubeletRegistrarDirectoryPath := ""; kubeletPluginsDirectoryPath := "";
  healthcheckPort := 0; deviceScanInterval := 0;
|}.

(** KubeClientConfig.Flags; [at_client] says where the configuration is. *)
Definition kubeClientFlags {D} (at_client : (KubeClientConfig -> KubeClientConfig) -> D -> D) : list (CliFlag D) := [
  StringFlag (flag "kubeconfig" ["KUBECONFIG"]) ""
    (fun v => at_client (fun k => {| KubeConfig := v; KubeAPIQPS := KubeAPIQPS k; KubeAPIBurst := KubeAPIBurst k |}));
  Float64Flag (flag "kube-api-qps" ["KUBE_API_QPS"]) (float64 5)
    (fun v => at_client (fun k => {| KubeConfig := KubeConfig k; KubeAPIQPS := v; KubeAPIBurst := KubeAPIBurst k |}));
  IntFlag (flag "kube-api-burst" ["KUBE_API_BURST"]) 10
    (fun v => at_client (fun k => {| KubeConfig := KubeConfig k; KubeAPIQPS := KubeAPIQPS k; KubeAPIBurst := v |}))
].

Definition second : Z := 1000000000.

Section agent.
Context {paths : KubeletPaths}.
Definition cliFlags : list (CliFlag Flags) := ([
  StringFlag (required (flag "node-name" ["NODE_NAME"])) "" (fun v => upd_flags id (const v) id id id id id);
  StringFlag (flag "cdi-root" ["CDI_ROOT"]) "/etc/cdi" (fun v => upd_flags id id (const v) id id id id);
  StringFlag (flag "kubelet-registrar-directory-path" ["KUBELET_REGISTRAR_DIRECTORY_PATH"]) KubeletRegistryDir
    (fun v => upd_flags id id id (const v) id id id);
  StringFlag (flag "kubelet-plugins-directory-path" ["KUBELET_PLUGINS_DIRECTORY_PATH"]) KubeletPluginsDir
    (fun v => upd_flags id id id id (const v) id id);
  IntFlag (flag "healthcheck-port" ["HEALTHCHECK_PORT"]) (-1) (fun v => upd_flags id id id id id (const v) id);
  DurationFlag (alias "vfio-rescan-interval" (flag "device-scan-interval" ["DEVICE_SCAN_INTERVAL"; "VFIO_RESCAN_INTERVAL"]))
    (5 * second) (fun v => upd_flags id id id id id id (const v))
] ++ kubeClientFlags (fun k => upd_flags k id id id id id id))%list.
End agent.

(** What main leaves: the exit code, and what the bridges were set to; that of
    grpc's log has no setting. *)
Record Outcome := { exit_code : Z; klog_threshold : Z; glog_bridge : Bridge }.
Definition command_failed : LogRec := {| lr_level := LError; lr_msg := "Command failed" |}.
(** The records main starts with. *)
Definition startup (env : string -> option string) : list LogRec :=
  let '(_, _, _, warnings) := setupFromEnv (Getenv env) in
  (map (fun w => {| lr_level := LWarn; lr_msg := fst w |}) warnings ++ [{| lr_level := LInfo; lr_msg := "Starting npu-kubelet-plugin" |}])%list.

Section plugin_main.
Context {cli : UrfaveCli} {paths : KubeletPaths} {client_go : ClientGo}.
Context {hst : Host} {smi : Smi} `{!SemanticEqual Device, !SemanticEqual (list Device)}
  {flt : Faults} {codec : CheckpointCodec} {cdi_store cp_store : Type} `{!CheckpointManager cp_store} {helper : Helper} {net : Network}
  (root : string) (NewCache NewCheckpointManager : res unit) (Start : clientset -> res unit)
  (life : M (Driver cdi_store cp_store) cause).
Implicit Types d : Driver cdi_store cp_store.

Definition newApp : App Flags (Driver cdi_store cp_store) := {|
  app_Name := "npu-kubelet-plugin";
  app_Flags := cliFlags;
  Before := no_arguments;
  Action flags :=
    let! core := wrap_err (fun e => ErrWrap "create client: " e "") (of_res (NewClientSets (kubeClientConfig flags))) in
    RunPlugin flags root NewCache NewCheckpointManager (Start core) life;
|}.

Definition main (pipe_ok : bool) (args : list string) (env : string -> option string) : M (Driver cdi_store cp_store) Outcome :=
  let '(_, level, _, warnings) := setupFromEnv (Getenv env) in
  do! forM (fun w => dr_log LWarn (fst w)) warnings in
  do! dr_log LInfo "Starting npu-kubelet-plugin" in
  let? r := Run newApp zero_flags args env in
  let outcome code := {| exit_code := code; klog_threshold := BridgeKlog level; glog_bridge := BridgeGlog true pipe_ok level |} in
  match r with
  | Ok _ => ret (outcome 0%Z)
  | Err _ => do! dr_log (lr_level command_failed) (lr_msg command_failed) in ret (outcome 1%Z)
  end.

(** Records added to the log. *)
Definition logged (recs : list LogRec) d : Driver cdi_store cp_store :=
  let p := nd_plugin (dr_node d) in
  set_plugin (set_sys {| clk := clk (sys p); now := now (sys p); logs := (logs (sys p) ++ recs)%list |} p) d.

(** ** The settings of the deployment, which gives no arguments *)

Definition set_by {A} (conv : string -> res A) (Value : A) (o : option string) (x : A) : Prop := given conv Value o = Ok x.
Record flags_from (env : string -> option string) (f : Flags) : Prop := {
  ff_node : env "NODE_NAME" = Some (nodeName f);
  ff_cdi : cdiRoot f = default "/etc/cdi" (env "CDI_ROOT");
  ff_registrar : kubeletRegistrarDirectoryPath f = default KubeletRegistryDir (env "KUBELET_REGISTRAR_DIRECTORY_PATH");
  ff_plugins : kubeletPluginsDirectoryPath f = default KubeletPluginsDir (env "KUBELET_PLUGINS_DIRECTORY_PATH");
  ff_port : set_by cli_int (-1)%Z (env "HEALTHCHECK_PORT") (healthcheckPort f);
  ff_interval : set_by cli_duration (5 * second)%Z
    (match env "DEVICE_SCAN_INTERVAL" with Some t => Some t | None => env "VFIO_RESCAN_INTERVAL" end) (deviceScanInterval f);
  ff_kubeconfig : KubeConfig (kubeClientConfig f) = default "" (env "KUBECONFIG");
  ff_qps : set_by cli_float64 (float64 5) (env "KUBE_API_QPS") (KubeAPIQPS (kubeClientConfig f));
  ff_burst : set_by cli_int 10%Z (env "KUBE_API_BURST") (KubeAPIBurst (kubeClientConfig f));
}.

(** ** Lemmas *)

Lemma first_set_one env k : first_set env [k] = env k.
Proof using Type. unfold first_set. simpl. by destruct (env k). Qed.
Lemma first_set_two env k1 k2 : first_set env [k1; k2] = match env k1 with Some t => Some t | None => env k2 end.
Proof using Type. unfold first_set. simpl. by destruct (env k1), (env k2). Qed.

Lemma res_bind_Ok {A B} (r : res A) (k : A -> res B) b : res_bind r k = Ok b <-> exists a, r = Ok a /\ k a = Ok b.
Proof using Type. destruct r; naive_solver. Qed.
Lemma given_Ok (v : string) o : given Ok v o = Ok (default v o).
Proof using Type. by destruct o. Qed.

(** What the declarations store is what the settings are. *)
Lemma stored_flags env f :
  is_Some (env "NODE_NAME") ->
  store_all (fun i => first_set env (EnvVars i)) cliFlags zero_flags = Ok f <-> flags_from env f.
Proof using Type.
  intros [node Hnode]. unfold cliFlags, kubeClientFlags, alias, required, flag. cbn [app store_all store EnvVars Name Aliases Required].
  rewrite first_set_two, !first_set_one, Hnode, !given_Ok. cbn [default res_bind]. split.
  - intros H. repeat (apply res_bind_Ok in H as (?x & ?E & H)). injection H as <-.
    repeat match goal with E : res_bind _ _ = Ok ?y |- _ => apply res_bind_Ok in E as (? & ? & [= <-]) end.
    split; done.
  - intros [H1 H2 H3 H4 H5 H6 H7 H8 H9]. unfold set_by in *.
    rewrite H5. cbn [res_bind]. rewrite H6. cbn [res_bind]. rewrite H8. cbn [res_bind]. rewrite H9. cbn [res_bind].
    rewrite Hnode in H1. injection H1 as H1. clear -H1 H2 H3 H4 H7. destruct f as [[kc qps burst] n c r p hp sc].
    cbn in H1, H2, H3, H4, H7. subst. reflexivity.
Qed.

Lemma logged_logged l1 l2 d : logged l2 (logged l1 d) = logged (l1 ++ l2) d.
Proof using Type. unfold logged. simpl. by rewrite <- app_assoc. Qed.
Lemma dr_log_logged l text d : dr_log l text d = (logged [{| lr_level := l; lr_msg := text |}] d, Ok tt).
Proof using Type. done. Qed.
Lemma no_records_logged d : logged [] d = d.
Proof using Type.
  destruct d as [[[[]] ? ? ?]]. unfold logged, set_plugin, set_node, set_sys. simpl. by rewrite app_nil_r.
Qed.
Lemma warnings_logged (ws : list (string * list SAttr)) d :
  exists us, forM (fun w => dr_log LWarn (fst w)) ws d = (logged (map (fun w => {| lr_level := LWarn; lr_msg := fst w |}) ws) d, Ok us).
Proof using Type.
  revert d. induction ws as [|w ws IH]; intros d; cbn [forM map]; [exists []; by rewrite no_records_logged|].
  unfold bind at 1. rewrite dr_log_logged. destruct (IH (logged [{| lr_level := LWarn; lr_msg := fst w |}] d)) as [us H].
  exists (tt :: us). unfold bind. rewrite H, logged_logged. done.
Qed.

(** How main ends. *)
Definition report (r : Driver cdi_store cp_store * res unit) : Driver cdi_store cp_store * Z :=
  match r with (d, Ok _) => (d, 0%Z) | (d, Err _) => (logged [command_failed] d, 1%Z) end.
Lemma main_run pipe_ok args env d :
  exists o, main pipe_ok args env d = ((report (Run newApp zero_flags args env (logged (startup env) d))).1, Ok o) /\
    exit_code o = (report (Run newApp zero_flags args env (logged (startup env) d))).2.
Proof using Type.
  unfold main, startup. destruct (setupFromEnv (Getenv env)) as [[[lg level] format] warnings].
  destruct (warnings_logged warnings d) as [us Hw]. unfold bind at 1. rewrite Hw.
  unfold bind at 1. rewrite dr_log_logged, logged_logged. unfold bind at 1, try.
  destruct (Run _ _ _ _ _) as [d2 [u|e]]; simpl; eexists; (split; [reflexivity|done]).
Qed.

Lemma required_set env i :
  env "NODE_NAME" <> None -> i ∈ map info cliFlags -> Required i = true -> first_set env (EnvVars i) <> None.
Proof using Type.
  intros Hn Hi. assert (Forall (fun i => Required i = true -> first_set env (EnvVars i) <> None) (map info cliFlags)) as H.
  { unfold cliFlags, kubeClientFlags. cbn [app map info].
    repeat apply Forall_cons_2; try (by intros [=]); [|apply Forall_nil_2]. intros _. cbn [EnvVars flag required]. by rewrite first_set_one. }
  rewrite Forall_forall in H. auto.
Qed.

End plugin_main.

(** ** The webhook *)

Module WebhookCommand.
Record Flags := { certFile : string; keyFile : string; port : Z }.
Definition zero_flags : Flags := {| certFile := ""; keyFile := ""; port := 0 |}.

Definition cliFlags : list (CliFlag Flags) := [
  StringFlag (required (flag "tls-cert-file" [])) "" (fun v f => {| certFile := v; keyFile := keyFile f; port := port f |});
  StringFlag (required (flag "tls-private-key-file" [])) "" (fun v f => {| certFile := certFile f; keyFile := v; port := port f |});
  IntFlag (flag "port" []) 443 (fun v f => {| certFile := certFile f; keyFile := keyFile f; port := v |})
].

(** Records of the process, oldest first. *)
Abbreviation Records := (list LogRec).
Definition slog (l : Level) (msg : string) : M Records unit := modify (fun s => (s ++ [{| lr_level := l; lr_msg := msg |}])%list).

Section webhook_main.
Context {cli : UrfaveCli} {api : ApiMachinery} {conn : Connection}
  (ListenAndServeTLS : string -> list (string * (HttpRequest -> M Http unit)) -> string -> string -> res unit).

Definition newApp : App Flags Records := {|
  app_Name := "webhook";
  app_Flags := cliFlags;
  Before := no_arguments;
  Action flags :=
    let mux := newMux in
    let Addr := ":" +:+ Itoa (port flags) in
    do! slog LInfo "Starting webhook server" in
    of_res (ListenAndServeTLS Addr mux (certFile flags) (keyFile flags));
|}.

(** The exit code and klog's threshold. *)
Definition main (args : list string) (env : string -> option string) : M Records (Z * Z) :=
  let '(_, level, _, warnings) := setupFromEnv (Getenv env) in
  do! forM (fun w => slog LWarn (fst w)) warnings in
  let? r := Run newApp zero_flags args env in
  match r with
  | Ok _ => ret (0%Z, BridgeKlog level)
  | Err _ => do! slog LError "Command failed" in ret (1%Z, BridgeKlog level)
  end.

(** Without its two files the webhook does not start: it has no variables that
    could give them. *)
Lemma main_without_files `{!CliEnv} prog env s :
  (forall k t, env k = Some t -> t <> "") ->
  exists s' threshold, main [prog] env s = (s', Ok (1%Z, threshold)) /\ last s' = Some command_failed.
Proof using Type.
  intros Hne. destruct (env_required (map info cliFlags) prog env (required (flag "tls-cert-file" []))) as [e He]; [done|by left|done|done|].
  unfold main. destruct (setupFromEnv (Getenv env)) as [[[lg level] format] warnings].
  assert (exists s1 us, forM (fun w : string * list SAttr => slog LWarn (fst w)) warnings s = (s1, Ok us)) as (s1 & us & Hw).
  { revert s. induction warnings as [|w ws IH]; intros s; [by eexists _, _|]. cbn [forM]. unfold bind. simpl.
    destruct (IH (s ++ [{| lr_level := LWarn; lr_msg := fst w |}])%list) as (s1 & us & ->). by eexists _, _. }
  unfold bind at 1. rewrite Hw. unfold bind, try, Run. cbn [app_Flags newApp]. rewrite He. simpl.
  eexists _, _. split; [reflexivity|]. by rewrite last_snoc.
Qed.
End webhook_main.
End WebhookCommand.
