(* ===== verification/CliRuns.v ===== *)
(** The node agent started with the variables of the deployment, and run to its
    end. *)
From Stdlib Require Import SpecFloat.
From S2P Require Import Prelude GoStd Host PciSysfs Device Sriov Vfio Validate RsdGroup Claim Fs.
From S2P Require Import Metadata MetadataProps Cdi Checkpoint Discovery Inventory Scan Prepare Flags Health Driver.
From S2P Require Import PrepareProps PrepareRuns ScanProps Lifecycle Shutdown DriverProps Interleave Plugin Agent Runs Logging Glog Webhook Cli.
Open Scope string_scope.

#[local] Existing Instances mem_store mem_cache plain_env plain_cdi both_sockets npu_group claim_host node_smi node_codec ready_helper free_ports.

(** A command line that reads variables only. *)
#[local] Instance env_cli : UrfaveCli := {|
  cli_parse infos args env :=
    if existsb (fun i => Required i && bool_decide (first_set env (EnvVars i) = None)) infos
    then Exit (Err (ErrText "required flag not set"))
    else Values (fun i => first_set env (EnvVars i)) (tail args);
  cli_float64 s := match Atoi s with Ok z => Ok (float64 z) | Err e => Err e end;
  cli_int := Atoi;
  cli_duration s := Atoi s;
|}.
#[local] Instance env_cli_env : CliEnv.
Proof.
  split.
  - intros infos prog env i _ Hi Hr Hs. exists (ErrText "required flag not set"). simpl.
    replace (existsb _ infos) with true; [done|]. symmetry. apply existsb_exists. exists i.
    split; [by apply list_elem_of_In|]. rewrite Hr. by rewrite bool_decide_true.
  - intros infos prog env _ Hr. simpl. replace (existsb _ infos) with false; [done|]. symmetry.
    apply not_true_is_false. intros (i & Hi%list_elem_of_In & [H1 H2%bool_decide_eq_true]%andb_true_iff)%existsb_exists. by apply (Hr i).
Qed.
#[local] Instance node_paths : KubeletPaths :=
  {| KubeletRegistryDir := "/var/lib/kubelet/plugins_registry"; KubeletPluginsDir := "/var/lib/kubelet/plugins" |}.
#[local] Instance in_cluster : ClientGo := {|
  rest := unit; clientset := unit;
  InClusterConfig := Ok {| rc_rest := tt; QPS := float64 0; Burst := 0 |};
  BuildConfigFromFlags _ _ := Err (ErrText "no file");
  NewForConfig _ := Ok tt;
|}.

Definition pod_env (k : string) : option string :=
  if decide (k = "NODE_NAME") then Some "node1" else
  if decide (k = "CDI_ROOT") then Some "/var/run/cdi" else
  if decide (k = "HEALTHCHECK_PORT") then Some "51515" else
  if decide (k = "VFIO_RESCAN_INTERVAL") then Some "30000000000" else None.
Lemma pod_env_set k t : pod_env k = Some t -> t <> "".
Proof. unfold pod_env. intros H ->. repeat case_decide; discriminate H. Qed.
Definition pod_flags : Flags := {|
  kubeClientConfig := {| KubeConfig := ""; KubeAPIQPS := float64 5; KubeAPIBurst := 10 |};
  nodeName := "node1"; cdiRoot := "/var/run/cdi"; kubeletRegistrarDirectoryPath := "/var/lib/kubelet/plugins_registry";
  kubeletPluginsDirectoryPath := "/var/lib/kubelet/plugins"; healthcheckPort := 51515; deviceScanInterval := 30000000000;
|}.
Lemma pod_flags_from : flags_from pod_env pod_flags.
Proof. split; vm_compute; reflexivity. Qed.

Abbreviation pod_main := (main (flt:=no_faults) (codec:=node_codec) (helper:=ready_helper) (net:=free_ports) (hst:=claim_host) (smi:=node_smi)
  rootdir (Ok tt) (Ok tt) (fun _ => Ok tt) (ret Canceled)).
(** The agent starts, serves, is told to end, and closes what it opened. *)
Example pod_main_ex :
  match pod_main true ["npu-kubelet-plugin"] pod_env (new_driver (start_node false [])) with
  | (d, Ok o) => (exit_code o, dr_health d, dr_listeners d, dr_helper d, lr_msg <$> last (logs (sys (nd_plugin (dr_node d)))))
  | (d, Err _) => (2%Z, None, [], true, None)
  end = (0%Z, Some the_service, [], false, Some "Stopping healthcheck service").
Proof. vm_compute. reflexivity. Qed.

(** Two ticks of the scan loop, then a signal. *)
Definition two_ticks : M (Driver MemCache MemStore) cause :=
  do! runDeviceScan 30000000000 2 in gets (fun d => default Canceled (dr_cause d)).
Lemma two_ticks_lives :
  lives (menv:=plain_env) (lib:=plain_cdi) (flt:=no_faults) (sockets:=both_sockets) node_cfg recreateValidatedRSDGroup
    (deviceScanInterval pod_flags) two_ticks.
Proof.
  intros d. destruct (runDeviceScan_interleaves (menv:=plain_env) (lib:=plain_cdi) (flt:=no_faults) (sockets:=both_sockets)
    node_cfg recreateValidatedRSDGroup 30000000000 2 d eq_refl) as (d' & E & H).
  exists d', Idle. split; [unfold two_ticks, bind; by rewrite E|].
  clear E. induction H as [|x y z Hs _ IH]; [done|]. eapply rtc_l; [by exists None|exact IH].
Qed.
Abbreviation pod_run := (RunPlugin (flt:=no_faults) (codec:=node_codec) (helper:=ready_helper) (net:=free_ports) (hst:=claim_host) (smi:=node_smi)
  pod_flags rootdir (Ok tt) (Ok tt) (Ok tt) two_ticks (new_driver (start_node false []))).
Lemma RunPlugin_life_witness :
  exists d' (d1 : Driver MemCache MemStore), pod_run = (d', Ok tt) /\ (exists res, head (dr_attempts d1) = Some (res, true)) /\
    dr_attempts d' = dr_attempts d1 /\ dr_listeners d' = [].
Proof.
  destruct (run_ok pod_run (fun _ => true)) as (d' & [] & E & _); [vm_compute; reflexivity|].
  destruct (RunPlugin_life (menv:=plain_env) (lib:=plain_cdi) (sockets:=both_sockets) node_cfg recreateValidatedRSDGroup (Hrsd:=group_respects)
    _ _ _ _ _ _ _ _ _ two_ticks_lives E) as (d1 & ph & _ & Hp & Ha & _ & _ & _ & _ & _ & _ & Hl).
  exists d', d1. split; [exact E|]. split; [exact Hp|]. split; [exact Ha|exact Hl].
Defined.
